(* ===== verification/_CoqProject ===== *)
-Q . S2P
Prelude.v
Machine.v
Types.v
Kernel.v
Maps.v
Safety.v
RefKernel.v
PacketUtils.v
Frames.v
Metrics.v
CoreFill.v
Filter.v
GoText.v
Tries.v
Rules.v
Networks.v
Hooks.v
Drops.v
Rtt.v
NetEvents.v
Xlat.v
Ipsec.v
Tls.v
Dns.v
Quic.v
Flows.v
Capture.v
Ssl.v
SslBinding.v
Concurrency.v
Programs.v
Rings.v
Credits.v
Gauges.v
PerCpu.v
HookTotals.v
Accounting.v
Records.v
Collect.v
Evictions.v
InForce.v
Orphans.v
Fetch.v
Setup.v
Reports.v
Samples.v
Correctness.v
HookCorrectness.v
ReportCorrectness.v
RuleCorrectness.v
