(* ===== verification/Prelude.v ===== *)
(** * The netobserv eBPF agent, from the configuration to the reports

    The agent watches the traffic of a host from inside the kernel.  Its
    programs, everything in C under [src/bpf], are attached to packet hooks,
    tracepoints, kernel functions and functions of the OpenSSL library; they
    fill maps and ring buffers that a user-space process, in Go, empties and
    reports.  This development translates the programs, and the two ends of the
    process that touch them, into Rocq and proves what they do: the end that turns
    the configuration into filter rules and settings, and the end that makes the
    reports out of the maps.

    ** The parts of the program

    - The flow monitor ([flows/flows.c]) runs on every packet, in both
      directions, from the TC, TCX or netkit hook: it samples, parses the packet
      ([common/packet_utils.h]), asks the filter ([common/filter.h]), looks at
      the payload ([dns_tracker.h], [tls_tracker.h], [quic_tracker.h]), and
      accounts for the packet in the map [aggregated_flows] or, when the map
      refuses a new flow, in the ring buffer [direct_flows].
    - The tracing hooks add metrics to flows: [pkt_drops.h] (dropped packets),
      [rtt_tracker.h] (round-trip times), [network_events_monitoring.h] (policy
      events), [pkt_translation.h] (NAT), [ipsec.h] (encryption).  They see a
      packet as a buffer of the kernel and rebuild its flow key with the readers
      of [utils.h].  They ask the same filter, and they do nothing when the
      last packet of the flow monitor, with which they share the global
      [do_sampling], was not sampled.
    - The packet capture ([packets/packet_capture.h]) copies the packets that
      pass the filter to the ring buffer [packet_record].
    - The TLS probes ([openssl_tracker.h], [tls_plaintext.h]) send what a process
      writes to and reads from TLS connections to the ring buffer
      [ssl_data_event_map], with the socket of the connection where it is known.
    - [types.h], [configs.h] and [maps_definition.h] hold the data all of these
      share.
    - Before the programs run, the user-space process puts the rules of the filter
      into their maps ([pkg/agent/common/filter.go], [pkg/tracer/attach/filter.go])
      and writes their settings ([pkg/tracer/flows/fetcher.go]).
    - While they run, it takes the flows and their metrics out of the maps
      and merges the copies of the CPUs ([pkg/tracer/flows/fetcher.go],
      [pkg/model/flow_content.go], [pkg/tracer/flows/ipsec_merge.go]), and merges
      the records of the ring buffer ([pkg/flow/account.go]).

    ** The files

    The foundations:
    - [Prelude.v]: record update, tactics, lemmas on lists and lookups.
    - [Machine.v]: machine integers, byte order, loads from memory.
    - [Types.v]: one record, inductive type or constant per declaration of
      [types.h] and [configs.h]; [wf_*] bounds every field by its C type.
    - [Kernel.v]: the maps of [maps_definition.h], the ring buffers and the
      helpers.  The state is a [world]: the contents of all maps and rings, the
      global [do_sampling], and the hidden state of the kernel.  A program is a
      [prog], a tree whose nodes are helper calls; [run] executes it alone on a
      CPU.  A pointer that [bpf_map_lookup_elem] returns is the address of an
      element: it stays valid, and is shared with the other CPUs, after the key
      has left the map.
    - [Maps.v]: what a program finds under a key ([elem]), how each helper
      changes it, and the weakest preconditions ([wp]) with which the
      functional theorems are proved.
    - [Safety.v]: the types of the stored values, and [safe]: no invalid access
      and only well-formed values, whatever the helpers answer.
    - [RefKernel.v]: a concrete kernel that satisfies the laws; the examples run
      on it.

    The components, each with its operations in the order of the source, then
    its specification, then the lemmas that connect the two:
    - [PacketUtils.v], [Frames.v]: the parser, and the frames it understands
      ([frame_bytes] lays a frame out; [frame_id] is its flow key).  A frame has no
      IPv4 options and no IPv6 extension headers: the parser skips neither.
    - [Filter.v]: the evaluation of the rules, and the abstract filter.
    - [Tls.v], [Dns.v], [Quic.v]: the trackers of the payload, with [hello_bytes],
      [dns_header] and [quic_header_at] as specifications of the wire formats.
    - [Flows.v]: the monitor, from the entry points to the accounting.
    - [Metrics.v], [CoreFill.v], [Hooks.v]: what the tracing hooks share, which is
      the pattern of updating or creating a metrics element, the readers of
      kernel buffers, and the outcome of the filter.
    - [Drops.v], [Rtt.v], [NetEvents.v], [Xlat.v], [Ipsec.v]: the tracing hooks.
    - [Capture.v]: the packet capture.
    - [Ssl.v], [SslBinding.v]: the TLS probes, and an abstract machine of which
      descriptor a connection is bound to, which the probes refine.

    The whole:
    - [Concurrency.v]: programs on any CPUs with their helper calls interleaved
      ([pool_step]), and the safety and the progress of a pool.
    - [Programs.v]: every program of the agent with its input, as one type, and
      which maps and ring buffers each one writes.
    - [Rings.v]: the protocol of the ring buffers, followed by each program
      ([holding]) and kept as an invariant by all of them together ([owned]).
    - [Credits.v]: a rely-guarantee logic ([rg], over the interface [Discipline])
      in which a program owes some work and pays for it in its steps, and may
      count on the samples that it holds in the ring buffers.  Work is counted in
      any commutative monoid ([Credit]).
    - [Gauges.v]: quantities that are spread over the copies that the CPUs have of
      an element ([Gauge]), as a discipline of that logic: who adds to a gauge and
      who leaves it alone.
    - [HookTotals.v]: the gauges of the hooks, which are the dropped packets and
      bytes and the largest round-trip time, over any mix of programs.
    - [PerCpu.v]: a hook on one CPU while any programs run on the others ([lwp],
      with [apart] for what those may do).
    - [Accounting.v]: the ledger of the flow map and its ring buffer ([balance]);
      [Tally] is the interface between a quantity (packets, bytes) and the fields
      that accumulate it.
    - [Records.v]: what is in the ring buffer of the flows, and that a flow seen on
      one interface has that interface in the map and in all its records.

    The configuration:
    - [GoText.v]: numbers, IPv4 and IPv6 addresses and networks in text, as Go's
      library reads them; what is printed is read back.
    - [Tries.v]: updates of a longest-prefix trie; a lookup finds the last update of
      the longest prefix ([longest], [trie_elem]).
    - [Rules.v]: from a rule as the user writes it ([FlowFilter]) to the entries of
      the maps ([ProgramFilter]); what a rule means in the terms of the configuration
      ([config_matches], [config_side]), which the filter of the programs refines.
    - [Networks.v]: networks as ranges of addresses ([in_network]).
    - [Setup.v]: the settings ([configureFlowSpecVariables] yields a [config]).
    - [InForce.v]: neither the programs nor the agent change the tries later.

    The user-space process:
    - [Collect.v]: merging the copies of an element, taking elements out of the
      maps, the accounter of the ring buffer.
    - [Evictions.v]: flows that are taken out of the map while the programs run
      ([agent_step]); the discipline under which no packet is counted twice.
    - [Orphans.v]: moving IPsec metadata from flows without packets to flows on
      the wire, and its specification ([attached], [largest]).
    - [Fetch.v]: one round of emptying all maps ([LookupAndDeleteMap]), the
      counters and the stale DNS queries; [report] is a part of what the round
      returns for a flow.
    - [Reports.v]: the accounter loses nothing; a report of a flow equals its
      balance in the kernel.

    The theorems:
    - [Samples.v]: inputs of the examples.
    - [Correctness.v]: the theorems on the flow monitor, the parser, the filter
      and the trackers.  [HookCorrectness.v]: those on the other programs and on
      all programs together.  [ReportCorrectness.v]: those on the reports.
      [RuleCorrectness.v]: those on the configuration.  Each has an example at a
      concrete input where it has hypotheses.

    ** What the theorems show

    - Of one run of a program: no access outside a packet, map element or
      buffer; an end; the answer that lets the packet go on; and the change of
      the world, branch by branch ([monitor_correct], [hooks_pass],
      [account_flow_correct], [locked_update], [drop_is_recorded],
      [capture_hooks_correct], [network_event_counted],
      [translation_is_recorded], [quic_tracking] and their like).  What the
      program leaves to the kernel is tied to the kernel's answer: a branch in
      which a new element is not created needs [map_refuses], that is, that the
      kernel was asked at a moment of the run when there was no such element, and
      refused; one in which a record is lost needs [ring_refuses]; and a packet
      is sampled out, or kept, by the random number it drew ([draws]).
    - Of the parsers: on arbitrary bytes they accept exactly what they should
      and stay in bounds ([parse_any]); from a well-formed message they recover
      what was put in ([parse_frame], [tls_client_hello], [tls_server_hello],
      [parse_quic_header_finds]); the parser of the packet hooks and the readers of
      the tracing hooks agree on the key of a packet without IPv4 options
      ([hooks_agree_on_key]) and not on others ([ip_options_split_key]).
    - Of the filter: it refines the abstract filter ([filter_correct],
      [rule_check_correct]).
    - From the configuration to the decisions: once the rules are in the maps, the
      filter of every program decides by what the rules say in the terms of the user,
      whatever the programs have done since ([rules_decide]); a network in text covers,
      within its version of IP, the addresses with its first bits ([rule_networks]), ports are read as written
      ([port_texts]), the first malformed rule is reported ([bad_rules_rejected]), and
      the settings reach the programs ([settings_reach_programs]).
    - Of sequences of runs: a DNS response finds its query
      ([dns_query_response]), an IPsec return its entry ([ipsec_exchange]), a
      read its buffer ([ssl_read_delivered]); counters saturate
      ([drops_saturate]), the round-trip time is a maximum ([rtt_is_maximum]),
      what is known of a TLS connection is backed by calls
      ([ssl_bindings_backed]).
    - Of interleavings: the programs of any mix stay safe and keep all stored
      values well-formed ([programs_keep_types]), come to an end on every
      schedule ([programs_terminate]), and deliver every sample they reserve in
      a ring buffer ([samples_delivered]); the monitors of a flow lose no packet and
      no byte between CPUs ([no_update_lost]), nor between a flow map that is full
      and the ring buffer that takes its place, whatever the other programs do
      meanwhile ([no_packet_lost]); a drop is recorded whatever the
      other CPUs do ([drop_recorded_among_others]).
    - From the wire to the reports: every packet and byte of a flow is reported
      exactly once, out of the map or the ring buffer ([flow_reported]); so are its
      drops, up to where the counters are cut off ([drops_reported]), and the
      largest of its round-trip times ([rtt_reported]); IPsec metadata reach the
      flow they belong to, together with its round-trip time, and change no count and
      no other metric ([orphans_merged]).  These speak
      of maps that are emptied when the programs have ended; while they run, no
      packet and no byte is counted twice ([counted_at_most_once]).
    - Where the code does something else than it means to, or than its comments
      say: [tls_version_lost], [dns_udp_length_truncated],
      [unset_port_matches_zero], [ipv4_key_covered_by_ipv6_rule],
      [ip_options_split_key], [is_ipv4_any_255], and the lemmas [zero_cookie_overwritten],
      [short_cookie_duplicated], [ipsec_success_keeps_error],
      [stale_flow_kept], [merge_known_events], [merge_loses_ipsec_error],
      [orphan_drops_lost], [eviction_misses_packet], [icmp_conditions_lost],
      [no_action_skips], [reversed_range_ignored], [bad_peer_accepted],
      [same_network_overwritten], [peers_shared], [mapped_network_unmatched].

    ** Bounds and fuel

    The kernel accepts no unbounded loop, and neither does a [prog], which is a
    finite tree: that a program ends is part of its being one, and the loops of
    the source become recursion on a number fixed by the source.  These are the
    8 configured DNS ports ([MAX_DNS_PORTS]), the recorded interfaces (as many as
    the counter says, which the invariant bounds by 6), the 4 network events, the
    30 TLS extensions and 5 offered versions of [tls_tracker.h], and the 16 bytes
    of an address.  The text readers recur on the text; the loop over the groups
    of an IPv6 address recurs on the 8 groups there is room for.  No fuel is added
    to those, so none can run out; a loop that the source leaves early by [break]
    or [return] leaves early here.

    ** What is left open

    What the programs do not determine is a parameter, with what its
    documentation promises as the only assumption:
    - [Kernel] and [KernelLaws]: the clock (monotonic), random numbers (32-bit),
      whether a map takes a new key and which keys an LRU map gives up, room in a
      ring buffer, the longest matching prefix of a trie, and the load helpers
      (all the bytes, or an error);
    - [Host]: the byte order of the machine;
    - the configuration that user space writes before the programs are loaded;
    - what the iteration over a map returns to the user-space process ([iter]), and
      the order in which Go iterates over its own maps ([order]);
    - memory the programs receive but do not write: the contents of reserved
      ring-buffer memory and of uninitialised stack buffers ([stale]), the
      memory of the traced process, the descriptor table of the current task,
      the thread identifier.

    Helper calls are the atomic steps.  A section under a spin lock is one step,
    as the lock makes it for the sections of the other CPUs (waiting for a lock is
    not expressed, and nothing is claimed about it); so is a run of writes
    through a pointer to a per-CPU element, a copy that no other CPU sees.  A
    structure of the kernel that a probe reads is a value, as if it did not change
    while the probe runs.

    ** Not modelled

    - The rest of the user-space agent ([pkg], [cmd], in Go): the decoding of the
      environment and of the JSON of the rules (that of Go's library), the sizes of
      the maps, loading and attaching the programs, the legacy path for old kernels, failed system calls, its own
      statistics, and everything behind the reports (interface names, limits,
      exporters).  How many packets are missed at most when a flow is taken out of
      the map while monitors hold a pointer to it is not proved (one per monitor
      that has looked it up; [eviction_misses_packet] shows one).
    - [vendor], the generated bindings, and the headers under [bpf/headers], which
      are those of libbpf and of the kernel; the structures and helpers that the
      programs use are modelled where they are used.
    - The debug prints ([BPF_PRINTK], [bpf_printk], [dump_xlated_flow]), which
      change no state.
    - [packets/maps.h] and [packets/configs.h] declare again, for the capture
      object, maps and settings of the flow object; both objects pin their maps
      by name, and the model has one of each.
    - Deployment files, end-to-end tests and examples. *)
From stdpp Require Export base tactics list numbers gmap fin_maps option.
From Stdlib Require Export ZArith Lia.

#[export] Set Default Goal Selector "!".

Declare Scope ebpf_scope.
Delimit Scope ebpf_scope with ebpf.
Open Scope Z_scope.

(** ** Record update

    A C assignment [p->f = v] becomes [p <| f := v |>], and [p->f op= e]
    becomes [p <| f ::= g |>].  A record type opts in by giving its
    constructor applied to its own projections. *)
Class Eta (R : Type) := eta : R → R.
#[export] Hint Mode Eta ! : typeclass_instances.

Class Setter {R T : Type} (proj : R → T) := set : (T → T) → R → R.
Arguments set {_ _} proj {_} _ _ : assert.

Ltac build_setter R proj :=
  let c := constr:(_ : Eta R) in
  let c' := eval hnf in c in
  exact (λ f r, ltac:(
    let body := eval cbv beta in (c' r) in
    match body with
    | context C [proj r] => let t := context C [f (proj r)] in exact t
    end)).

#[export] Hint Extern 1 (@Setter ?R _ ?proj) =>
  build_setter R proj : typeclass_instances.

Notation "r <| f := v |>" := (set f (λ _, v) r)
  (at level 1, left associativity, f at level 0, v at level 200,
   format "r <| f  :=  v |>").
Notation "r <| f ::= g |>" := (set f g r)
  (at level 1, left associativity, f at level 0, g at level 200,
   format "r <| f  ::=  g |>").

(** Split a conjunction without unfolding its parts. *)
Ltac splits := repeat match goal with |- _ /\ _ => split end.

(** The sum of a list of integers. *)
Definition Zsum (l : list Z) : Z := foldr Z.add 0 l.

Lemma Zsum_app l l' : Zsum (l ++ l') = Zsum l + Zsum l'.
Proof. induction l as [|x l IH]; [done|]. unfold Zsum in *. cbn. lia. Qed.

(** ** Generic lemmas on lists of bytes *)

(** [slice l off n]: the [n] bytes of [l] that start at [off], when all of
    them are inside [l]. *)
Definition slice (l : list Z) (off n : Z) : option (list Z) :=
  if (0 <=? off) && (0 <=? n) && (off + n <=? Z.of_nat (length l))
  then Some (take (Z.to_nat n) (drop (Z.to_nat off) l))
  else None.

Lemma slice_Some l off n :
  0 <= off -> 0 <= n -> off + n <= Z.of_nat (length l) ->
  slice l off n = Some (take (Z.to_nat n) (drop (Z.to_nat off) l)).
Proof.
  intros ???. unfold slice.
  by rewrite !(proj2 (Z.leb_le _ _)) by lia.
Qed.

Lemma slice_is_Some l off n :
  is_Some (slice l off n) <-> 0 <= off /\ 0 <= n /\ off + n <= Z.of_nat (length l).
Proof.
  unfold slice. destruct (_ && _) eqn:E.
  - rewrite !andb_true_iff, !Z.leb_le in E. split; [lia | by eauto].
  - rewrite !andb_false_iff, !Z.leb_gt in E. split; [by intros [? [=]] | lia].
Qed.

Lemma slice_inside l off n bs :
  slice l off n = Some bs -> 0 <= off /\ 0 <= n /\ off + n <= Z.of_nat (length l).
Proof. intros Hs. apply slice_is_Some. by exists bs. Qed.

Lemma slice_length l off n bs :
  slice l off n = Some bs -> length bs = Z.to_nat n.
Proof.
  unfold slice. case_match eqn:E; [|done]. intros [= <-].
  rewrite !andb_true_iff, !Z.leb_le in E.
  rewrite length_take, length_drop. lia.
Qed.

Lemma slice_Forall (P : Z -> Prop) l off n bs :
  Forall P l -> slice l off n = Some bs -> Forall P bs.
Proof.
  unfold slice. case_match; [|done]. intros HF [= <-].
  by apply Forall_take, Forall_drop.
Qed.

(** A slice that lies behind a prefix, the way a header sits behind the
    headers before it. *)
Lemma slice_app_r pre l off n :
  Z.of_nat (length pre) <= off ->
  slice (pre ++ l) off n = slice l (off - Z.of_nat (length pre)) n.
Proof.
  intros Hle. unfold slice. rewrite length_app, Nat2Z.inj_add.
  replace (off - Z.of_nat (length pre) + n <=? Z.of_nat (length l))
    with (off + n <=? Z.of_nat (length pre) + Z.of_nat (length l)).
  2: { apply eq_true_iff_eq. rewrite !Z.leb_le. lia. }
  replace (0 <=? off - Z.of_nat (length pre)) with (0 <=? off).
  2: { apply eq_true_iff_eq. rewrite !Z.leb_le. lia. }
  case_match; [|done].
  rewrite drop_app_ge by lia.
  by replace (Z.to_nat off - length pre)%nat
    with (Z.to_nat (off - Z.of_nat (length pre))) by lia.
Qed.

Lemma slice_app_l l post off n :
  0 <= off -> 0 <= n -> off + n <= Z.of_nat (length l) ->
  slice (l ++ post) off n = slice l off n.
Proof.
  intros ???. rewrite !slice_Some by (rewrite ?length_app; lia).
  rewrite drop_app_le by lia. rewrite take_app_le; [done|].
  rewrite length_drop. lia.
Qed.

Lemma slice_0_all l n : n = Z.of_nat (length l) -> slice l 0 n = Some l.
Proof.
  intros ->. rewrite slice_Some by lia.
  by rewrite Nat2Z.id, drop_0, firstn_all.
Qed.

Lemma slice_mid pre x post off n :
  off = Z.of_nat (length pre) -> n = Z.of_nat (length x) ->
  slice (pre ++ x ++ post) off n = Some x.
Proof.
  intros -> ->. rewrite slice_app_r by lia. rewrite Z.sub_diag.
  rewrite slice_app_l by lia. by apply slice_0_all.
Qed.

(** ** Automation *)

(** Turn boolean comparisons of the context into propositions. *)
Ltac bool_to_prop :=
  repeat match goal with
  | H : _ && _ = true |- _ => apply andb_true_iff in H as [??]
  | H : _ || _ = false |- _ => apply orb_false_iff in H as [??]
  | H : negb _ = true |- _ => apply negb_true_iff in H
  | H : negb _ = false |- _ => apply negb_false_iff in H
  | H : (_ =? _) = true |- _ => apply Z.eqb_eq in H
  | H : (_ =? _) = false |- _ => apply Z.eqb_neq in H
  | H : (_ <=? _) = true |- _ => apply Z.leb_le in H
  | H : (_ <=? _) = false |- _ => apply Z.leb_gt in H
  | H : (_ <? _) = true |- _ => apply Z.ltb_lt in H
  | H : (_ <? _) = false |- _ => apply Z.ltb_ge in H
  end.

(** Case analysis on every [if] and [match] of the goal. *)
Ltac split_cases :=
  repeat (case_match; simplify_eq/=).
