(* ===== verification/Machine.v ===== *)
(** * Machine integers, byte order and the loads the programs perform

    A [w]-bit C integer is a [Z] kept in [0, 2^w); a conversion to a narrower
    type is [u8], [u16], [u32] or [u64].  Memory is a list of bytes.  A 16- or
    32-bit object is read in the byte order of the host ([Host]); the macros
    [bpf_ntohs] and [bpf_ntohl] of [types.h] undo that order. *)
From S2P Require Import Prelude.

Definition u8 (x : Z) : Z := x mod 2 ^ 8.
Definition u16 (x : Z) : Z := x mod 2 ^ 16.
Definition u32 (x : Z) : Z := x mod 2 ^ 32.
Definition u64 (x : Z) : Z := x mod 2 ^ 64.

Definition is_u8 (x : Z) : Prop := 0 <= x < 2 ^ 8.
Definition is_u16 (x : Z) : Prop := 0 <= x < 2 ^ 16.
Definition is_u32 (x : Z) : Prop := 0 <= x < 2 ^ 32.
Definition is_u64 (x : Z) : Prop := 0 <= x < 2 ^ 64.

(** A signed 32-bit [int]. *)
Definition is_s32 (x : Z) : Prop := - 2 ^ 31 <= x < 2 ^ 31.

(** The conversions to signed integers. *)
Definition s32 (x : Z) : Z := let y := u32 x in if y <? 2 ^ 31 then y else y - 2 ^ 32.
Definition s64 (x : Z) : Z := let y := u64 x in if y <? 2 ^ 63 then y else y - 2 ^ 64.

#[export] Instance is_u8_dec x : Decision (is_u8 x).
Proof. unfold is_u8. apply _. Defined.
#[export] Instance is_u16_dec x : Decision (is_u16 x).
Proof. unfold is_u16. apply _. Defined.
#[export] Instance is_u32_dec x : Decision (is_u32 x).
Proof. unfold is_u32. apply _. Defined.
#[export] Instance is_u64_dec x : Decision (is_u64 x).
Proof. unfold is_u64. apply _. Defined.

(** A buffer of [n] bytes. *)
Definition is_bytes (n : nat) (l : list Z) : Prop :=
  length l = n /\ Forall is_u8 l.

Create HintDb width discriminated.
#[export] Hint Constants Opaque : width.

Lemma u8_range x : is_u8 (u8 x).
Proof. apply Z.mod_pos_bound. lia. Qed.
Lemma u16_range x : is_u16 (u16 x).
Proof. apply Z.mod_pos_bound. lia. Qed.
Lemma u32_range x : is_u32 (u32 x).
Proof. apply Z.mod_pos_bound. lia. Qed.
Lemma u64_range x : is_u64 (u64 x).
Proof. apply Z.mod_pos_bound. lia. Qed.

Lemma u8_small x : is_u8 x -> u8 x = x.
Proof. apply Z.mod_small. Qed.
Lemma u16_small x : is_u16 x -> u16 x = x.
Proof. apply Z.mod_small. Qed.
Lemma u32_small x : is_u32 x -> u32 x = x.
Proof. apply Z.mod_small. Qed.
Lemma u64_small x : is_u64 x -> u64 x = x.
Proof. apply Z.mod_small. Qed.

Lemma s32_range x : is_s32 (s32 x).
Proof.
  unfold s32, is_s32. pose proof (u32_range x) as [? ?]. unfold is_u32 in *. cbv zeta.
  destruct (u32 x <? 2 ^ 31) eqn:E; [apply Z.ltb_lt in E|apply Z.ltb_ge in E]; lia.
Qed.

Lemma s32_small x : 0 <= x < 2 ^ 31 -> s32 x = x.
Proof.
  intros Hx. unfold s32. rewrite u32_small by (unfold is_u32; lia). cbv zeta.
  by rewrite (proj2 (Z.ltb_lt _ _)) by lia.
Qed.

(** The widths as plain inequalities, for [lia]. *)
Ltac width :=
  unfold is_bytes, is_u8, is_u16, is_u32, is_u64, is_s32 in *;
  change (2 ^ 31) with 2147483648 in *;
  change (2 ^ 8) with 256 in *; change (2 ^ 16) with 65536 in *;
  change (2 ^ 32) with 4294967296 in *;
  change (2 ^ 64) with 18446744073709551616 in *.

(** Bounds on bitwise or: the flags fields are only ever or-ed into. *)
Lemma lor_range w x y :
  0 <= w -> 0 <= x < 2 ^ w -> 0 <= y < 2 ^ w -> 0 <= Z.lor x y < 2 ^ w.
Proof.
  intros Hw [Hx Hx'] [Hy Hy']. split; [by apply Z.lor_nonneg|].
  destruct (Z.eq_dec (Z.lor x y) 0) as [->|Hnz]; [lia|].
  assert (0 <= Z.lor x y) by by apply Z.lor_nonneg.
  apply Z.log2_lt_pow2; [lia|].
  rewrite Z.log2_lor by done.
  apply Z.max_lub_lt.
  - destruct (Z.eq_dec x 0) as [->|].
    + destruct (Z.eq_dec w 0) as [->|]; [|cbn; lia].
      assert (y = 0) as -> by lia. done.
    + apply Z.log2_lt_pow2; lia.
  - destruct (Z.eq_dec y 0) as [->|].
    + destruct (Z.eq_dec w 0) as [->|]; [|cbn; lia].
      assert (x = 0) as -> by lia. done.
    + apply Z.log2_lt_pow2; lia.
Qed.

Lemma lor_u16 x y : is_u16 x -> is_u16 y -> is_u16 (Z.lor x y).
Proof. apply lor_range. lia. Qed.
Lemma lor_u8 x y : is_u8 x -> is_u8 y -> is_u8 (Z.lor x y).
Proof. apply lor_range. lia. Qed.

#[export] Hint Resolve u8_range u16_range u32_range u64_range lor_u16 lor_u8 : width.

(** ** Byte order *)

(** The byte order of the machine the object is compiled for. *)
Class Host := host_little_endian : bool.

Section ByteOrder.
Context `{Host}.

(** [__builtin_bswap16] and [__builtin_bswap32]. *)
Definition bswap16 (x : Z) : Z :=
  Z.lor (Z.shiftl (Z.land x 255) 8) (Z.land (Z.shiftr x 8) 255).
Definition bswap32 (x : Z) : Z :=
  Z.lor (Z.shiftl (bswap16 (Z.land x 65535)) 16)
        (bswap16 (Z.land (Z.shiftr x 16) 65535)).

Definition bpf_ntohs (x : Z) : Z := if host_little_endian then bswap16 x else x.
Definition bpf_ntohl (x : Z) : Z := if host_little_endian then bswap32 x else x.

Lemma bpf_ntohs_range x : is_u16 x -> is_u16 (bpf_ntohs x).
Proof.
  unfold bpf_ntohs, bswap16. intros Hx. destruct host_little_endian; [|done].
  change 255 with (Z.ones 8). rewrite !Z.land_ones, Z.shiftl_mul_pow2 by lia.
  pose proof (Z.mod_pos_bound x (2 ^ 8)). pose proof (Z.mod_pos_bound (Z.shiftr x 8) (2 ^ 8)).
  apply lor_u16; unfold is_u16; lia.
Qed.
End ByteOrder.

(** The value of a 16-bit or 32-bit object, read by the host from its bytes. *)
Definition be16 (b0 b1 : Z) : Z := 256 * b0 + b1.
Definition be32 (b0 b1 b2 b3 : Z) : Z := 65536 * be16 b0 b1 + be16 b2 b3.
Definition mem16 `{Host} (b0 b1 : Z) : Z :=
  if host_little_endian then be16 b1 b0 else be16 b0 b1.
Definition mem32 `{Host} (b0 b1 b2 b3 : Z) : Z :=
  if host_little_endian then be32 b3 b2 b1 b0 else be32 b0 b1 b2 b3.

(** Byte [i] of a buffer; the buffers this is used on have a fixed size. *)
Definition byte_at (l : list Z) (i : nat) : Z := default 0 (l !! i).
Definition obj16 `{Host} (l : list Z) (i : nat) : Z :=
  mem16 (byte_at l i) (byte_at l (i + 1)).
Definition obj32 `{Host} (l : list Z) (i : nat) : Z :=
  mem32 (byte_at l i) (byte_at l (i + 1)) (byte_at l (i + 2)) (byte_at l (i + 3)).

Lemma lor_shift_add hi lo w :
  0 <= w -> 0 <= lo < 2 ^ w -> Z.lor (Z.shiftl hi w) lo = hi * 2 ^ w + lo.
Proof.
  intros Hw Hlo.
  assert (Hz : Z.land (Z.shiftl hi w) lo = 0).
  { apply Z.bits_inj'. intros n Hn. rewrite Z.land_spec, Z.bits_0.
    destruct (Z.lt_ge_cases n w).
    - by rewrite Z.shiftl_spec_low.
    - rewrite <- (Z.mod_small lo (2 ^ w)) by done.
      rewrite Z.mod_pow2_bits_high by lia. by rewrite andb_false_r. }
  rewrite <- Z.lxor_lor, <- Z.add_nocarry_lxor by done.
  by rewrite Z.shiftl_mul_pow2.
Qed.

Lemma bswap16_be16 b0 b1 :
  is_u8 b0 -> is_u8 b1 -> bswap16 (be16 b1 b0) = be16 b0 b1.
Proof.
  intros H0 H1. unfold bswap16, be16.
  change 255 with (Z.ones 8). rewrite !Z.land_ones, Z.shiftr_div_pow2 by lia.
  change (2 ^ 8) with 256 in *. unfold is_u8 in *. change (2 ^ 8) with 256 in *.
  replace ((256 * b1 + b0) mod 256) with b0 by (apply Z.mod_unique with b1; lia).
  replace ((256 * b1 + b0) / 256) with b1 by (apply Z.div_unique with b0; lia).
  rewrite (Z.mod_small b1) by lia.
  rewrite lor_shift_add by (change (2 ^ 8) with 256; lia). lia.
Qed.

Lemma is_u16_be16 b0 b1 : is_u8 b0 -> is_u8 b1 -> is_u16 (be16 b0 b1).
Proof. unfold be16. width. lia. Qed.
Lemma is_u32_be32 b0 b1 b2 b3 :
  is_u8 b0 -> is_u8 b1 -> is_u8 b2 -> is_u8 b3 -> is_u32 (be32 b0 b1 b2 b3).
Proof. unfold be32, be16. width. lia. Qed.

(** Network-order fields read the same on every host: the swap in the macro
    cancels the order of the load. *)
Lemma ntohs_mem16 `{Host} b0 b1 :
  is_u8 b0 -> is_u8 b1 -> bpf_ntohs (mem16 b0 b1) = be16 b0 b1.
Proof.
  intros ??. unfold bpf_ntohs, mem16.
  destruct host_little_endian; [by apply bswap16_be16 | done].
Qed.

Lemma ntohl_mem32 `{Host} b0 b1 b2 b3 :
  is_u8 b0 -> is_u8 b1 -> is_u8 b2 -> is_u8 b3 ->
  bpf_ntohl (mem32 b0 b1 b2 b3) = be32 b0 b1 b2 b3.
Proof.
  intros H0 H1 H2 H3. unfold bpf_ntohl, mem32.
  destruct host_little_endian; [|done].
  unfold bswap32.
  change 65535 with (Z.ones 16). rewrite !Z.land_ones, Z.shiftr_div_pow2 by lia.
  pose proof (is_u16_be16 b3 b2 H3 H2). pose proof (is_u16_be16 b1 b0 H1 H0).
  pose proof (is_u16_be16 b2 b3 H2 H3).
  unfold be32 at 1 2. change (2 ^ 16) with 65536.
  unfold is_u16 in *. change (2 ^ 16) with 65536 in *.
  replace ((65536 * be16 b3 b2 + be16 b1 b0) mod 65536) with (be16 b1 b0)
    by (apply Z.mod_unique with (be16 b3 b2); lia).
  replace ((65536 * be16 b3 b2 + be16 b1 b0) / 65536) with (be16 b3 b2)
    by (apply Z.div_unique with (be16 b1 b0); lia).
  rewrite (Z.mod_small (be16 b3 b2)) by lia.
  rewrite !bswap16_be16 by done.
  rewrite lor_shift_add by (change (2 ^ 16) with 65536; lia).
  unfold be32. lia.
Qed.

Lemma byte_at_u8 l i : Forall is_u8 l -> is_u8 (byte_at l i).
Proof.
  intros HF. unfold byte_at. destruct (l !! i) eqn:E; cbn.
  - by eapply Forall_lookup_1.
  - width. lia.
Qed.
#[export] Hint Resolve byte_at_u8 is_u16_be16 is_u32_be32 : width.

Lemma ntohs_obj16 `{Host} l i :
  Forall is_u8 l -> bpf_ntohs (obj16 l i) = be16 (byte_at l i) (byte_at l (i + 1)).
Proof. intros. apply ntohs_mem16; auto with width. Qed.

Lemma ntohl_obj32 `{Host} l i :
  Forall is_u8 l -> bpf_ntohl (obj32 l i)
    = be32 (byte_at l i) (byte_at l (i + 1)) (byte_at l (i + 2)) (byte_at l (i + 3)).
Proof. intros. apply ntohl_mem32; auto with width. Qed.

(** ** Saturating 16-bit accumulation ([utils.h]) *)

Definition add_len_u16 (old add : Z) : Z :=
  if 65535 <? add then 65535
  else let n := u16 (old + u16 add) in if n <? add then 65535 else n.
Arguments add_len_u16 : simpl never.

Lemma add_len_u16_min old add :
  is_u16 old -> 0 <= add -> add_len_u16 old add = Z.min 65535 (old + add).
Proof.
  unfold add_len_u16, u16. width. intros Ho Ha.
  case_match; bool_to_prop; [lia|].
  rewrite (Z.mod_small add) by lia.
  destruct (Z.lt_ge_cases (old + add) 65536).
  - rewrite Z.mod_small by lia. case_match; bool_to_prop; lia.
  - replace ((old + add) mod 65536) with (old + add - 65536)
      by (apply Z.mod_unique with 1; lia).
    case_match; bool_to_prop; lia.
Qed.

Lemma add_len_u16_range old add : is_u16 (add_len_u16 old add).
Proof.
  unfold add_len_u16. case_match; [width; lia|].
  cbv zeta. case_match; [width; lia | apply u16_range].
Qed.
#[export] Hint Resolve add_len_u16_range : width.
