(* ===== verification/Types.v ===== *)
(** * The data of the kernel programs ([bpf/types.h], [bpf/configs.h])

    One record per C struct, with the fields in the order of the header; the
    constants and enumerations under the names of the header.  [zeroed] is the
    value [__builtin_memset(&x, 0, sizeof(x))] leaves behind, and [wf_*] says
    that every field of a struct is inside the width of its C type. *)
From S2P Require Import Prelude Machine.

(** ** Constants *)

Definition TC_ACT_OK : Z := 0.
Definition TC_ACT_UNSPEC : Z := -1.
Definition TCX_NEXT : Z := -1.
Definition NETKIT_NEXT : Z := -1.
Definition IP_MAX_LEN : Z := 16.
Definition DISCARD : Z := 1.
Definition SUBMIT : Z := 0.
Definition ENOENT : Z := 2.
Definition EEXIST : Z := 17.
Definition EINVAL : Z := 22.

(** [enum tcp_flags_t] *)
Definition FIN_FLAG : Z := 0x01.
Definition SYN_FLAG : Z := 0x02.
Definition RST_FLAG : Z := 0x04.
Definition PSH_FLAG : Z := 0x08.
Definition ACK_FLAG : Z := 0x10.
Definition URG_FLAG : Z := 0x20.
Definition ECE_FLAG : Z := 0x40.
Definition CWR_FLAG : Z := 0x80.
Definition SYN_ACK_FLAG : Z := 0x100.
Definition FIN_ACK_FLAG : Z := 0x200.
Definition RST_ACK_FLAG : Z := 0x400.

Definition AF_INET : Z := 2.
Definition AF_INET6 : Z := 10.
Definition ETH_ALEN : Z := 6.
Definition ETH_P_IP : Z := 0x0800.
Definition ETH_P_IPV6 : Z := 0x86DD.
Definition IPPROTO_ICMP : Z := 1.
Definition IPPROTO_TCP : Z := 6.
Definition IPPROTO_UDP : Z := 17.
Definition IPPROTO_ESP : Z := 50.
Definition IPPROTO_ICMPV6 : Z := 58.
Definition IPPROTO_SCTP : Z := 132.
Definition DSCP_SHIFT : Z := 2.
Definition DSCP_MASK : Z := 0x3F.

Definition MAX_EVENT_MD : Z := 8.
Definition MAX_NETWORK_EVENTS : Z := 4.
Definition MAX_OBSERVED_INTERFACES : Z := 6.
Definition OBSERVED_DIRECTION_BOTH : Z := 3.
Definition MAX_PAYLOAD_SIZE : Z := 256.
Definition DNS_NAME_MAX_LEN : Z := 32.
Definition MISC_FLAGS_SSL_MISMATCH : Z := 0x01.
Definition MAX_DNS_PORTS : Z := 8.
Definition MAX_DATA_SIZE_OPENSSL : Z := 1024 * 16.

(** [enum direction_t]; the programs keep directions in [u8] variables. *)
Definition INGRESS : Z := 0.
Definition EGRESS : Z := 1.
Definition MAX_DIRECTION : Z := 2.

(** The IPv4-mapped prefix [::ffff/96]. *)
Definition ip4in6 : list Z := [0; 0; 0; 0; 0; 0; 0; 0; 0; 0; 0xff; 0xff].

(** The configuration constants of [configs.h], set by the loader before the
    programs are attached. *)
Record config := mk_config {
  sampling : Z;
  has_filter_sampling : Z;
  enable_rtt : Z;
  enable_dns_tracking : Z;
  enable_filtering : Z;
  dns_ports : list Z;
  dns_ports_count : Z;
  enable_network_events_monitoring : Z;
  network_events_monitoring_groupid : Z;
  enable_pkt_translation_tracking : Z;
  enable_ipsec : Z;
  enable_openssl_tracking : Z;
  enable_directflows_ringbuf : Z;
  enable_tls_usage_tracking : Z;
  enable_quic_tracking : Z;
}.

(** ** Zero initialisation *)
Class Zero (V : Type) := zeroed : V.
#[export] Instance Z_zero : Zero Z := 0.
Definition zero_bytes (n : nat) : list Z := replicate n 0.

(** ** Keys *)

(** Attributes that uniquely identify a flow. *)
Record flow_id := mk_flow_id {
  fid_src_ip : list Z;
  fid_dst_ip : list Z;
  fid_src_port : Z;
  fid_dst_port : Z;
  fid_transport_protocol : Z;
  fid_icmp_type : Z;
  fid_icmp_code : Z;
}.
#[export] Instance eta_flow_id : Eta flow_id := λ x,
  mk_flow_id (fid_src_ip x) (fid_dst_ip x) (fid_src_port x) (fid_dst_port x)
    (fid_transport_protocol x) (fid_icmp_type x) (fid_icmp_code x).
#[export] Instance zero_flow_id : Zero flow_id :=
  mk_flow_id (zero_bytes 16) (zero_bytes 16) 0 0 0 0 0.
#[export] Instance flow_id_eq_dec : EqDecision flow_id.
Proof. solve_decision. Defined.
#[export] Instance flow_id_countable : Countable flow_id.
Proof.
  refine (inj_countable'
    (λ x, (fid_src_ip x, fid_dst_ip x, fid_src_port x, fid_dst_port x,
           fid_transport_protocol x, fid_icmp_type x, fid_icmp_code x))
    (λ '(a, b, c, d, e, f, g), mk_flow_id a b c d e f g) _).
  by intros [].
Defined.

Definition wf_flow_id (x : flow_id) : Prop :=
  is_bytes 16 (fid_src_ip x) /\ is_bytes 16 (fid_dst_ip x) /\
  is_u16 (fid_src_port x) /\ is_u16 (fid_dst_port x) /\
  is_u8 (fid_transport_protocol x) /\ is_u8 (fid_icmp_type x) /\ is_u8 (fid_icmp_code x).

(** Key that correlates a DNS query with its response. *)
Record dns_flow_id := mk_dns_flow_id {
  dfid_src_port : Z;
  dfid_dst_port : Z;
  dfid_src_ip : list Z;
  dfid_dst_ip : list Z;
  dfid_id : Z;
  dfid_protocol : Z;
}.
#[export] Instance eta_dns_flow_id : Eta dns_flow_id := λ x,
  mk_dns_flow_id (dfid_src_port x) (dfid_dst_port x) (dfid_src_ip x) (dfid_dst_ip x)
    (dfid_id x) (dfid_protocol x).
#[export] Instance zero_dns_flow_id : Zero dns_flow_id :=
  mk_dns_flow_id 0 0 (zero_bytes 16) (zero_bytes 16) 0 0.
#[export] Instance dns_flow_id_eq_dec : EqDecision dns_flow_id.
Proof. solve_decision. Defined.
#[export] Instance dns_flow_id_countable : Countable dns_flow_id.
Proof.
  refine (inj_countable'
    (λ x, (dfid_src_port x, dfid_dst_port x, dfid_src_ip x, dfid_dst_ip x,
           dfid_id x, dfid_protocol x))
    (λ '(a, b, c, d, e, f), mk_dns_flow_id a b c d e f) _).
  by intros [].
Defined.

(** Key of the LPM tries of the flow filter. *)
Record filter_key_t := mk_filter_key_t {
  fk_prefix_len : Z;
  fk_ip_data : list Z;
}.
#[export] Instance eta_filter_key_t : Eta filter_key_t := λ x,
  mk_filter_key_t (fk_prefix_len x) (fk_ip_data x).
#[export] Instance zero_filter_key_t : Zero filter_key_t :=
  mk_filter_key_t 0 (zero_bytes 16).
#[export] Instance filter_key_t_eq_dec : EqDecision filter_key_t.
Proof. solve_decision. Defined.
#[export] Instance filter_key_t_countable : Countable filter_key_t.
Proof.
  refine (inj_countable' (λ x, (fk_prefix_len x, fk_ip_data x))
    (λ '(a, b), mk_filter_key_t a b) _).
  by intros [].
Defined.

(** Key of the map from an OpenSSL [SSL*] to its socket descriptor. *)
Record ssl_fd_key_t := mk_ssl_fd_key_t {
  sfk_ssl_ptr : Z;
  sfk_tgid : Z;
}.
#[export] Instance ssl_fd_key_t_eq_dec : EqDecision ssl_fd_key_t.
Proof. solve_decision. Defined.
#[export] Instance ssl_fd_key_t_countable : Countable ssl_fd_key_t.
Proof.
  refine (inj_countable' (λ x, (sfk_ssl_ptr x, sfk_tgid x))
    (λ '(a, b), mk_ssl_fd_key_t a b) _).
  by intros [].
Defined.
#[export] Instance zero_ssl_fd_key_t : Zero ssl_fd_key_t := mk_ssl_fd_key_t 0 0.

(** ** Values *)

(** Metrics of a flow, shared by all CPUs.  The spin lock is not a field
    here: the locked sections are single steps (see [Kernel.v]). *)
Record flow_metrics := mk_flow_metrics {
  fm_start_mono_time_ts : Z;
  fm_end_mono_time_ts : Z;
  fm_bytes : Z;
  fm_packets : Z;
  fm_eth_protocol : Z;
  fm_flags : Z;
  fm_src_mac : list Z;
  fm_dst_mac : list Z;
  fm_if_index_first_seen : Z;
  fm_sampling : Z;
  fm_direction_first_seen : Z;
  fm_errno : Z;
  fm_dscp : Z;
  fm_nb_observed_intf : Z;
  fm_observed_direction : list Z;
  fm_observed_intf : list Z;
  fm_ssl_version : Z;
  fm_tls_cipher_suite : Z;
  fm_tls_key_share : Z;
  fm_tls_types : Z;
  fm_misc_flags : Z;
}.
#[export] Instance eta_flow_metrics : Eta flow_metrics := λ x,
  mk_flow_metrics
    (fm_start_mono_time_ts x) (fm_end_mono_time_ts x) (fm_bytes x) (fm_packets x)
    (fm_eth_protocol x) (fm_flags x) (fm_src_mac x) (fm_dst_mac x)
    (fm_if_index_first_seen x) (fm_sampling x) (fm_direction_first_seen x) (fm_errno x) (fm_dscp x)
    (fm_nb_observed_intf x) (fm_observed_direction x) (fm_observed_intf x)
    (fm_ssl_version x) (fm_tls_cipher_suite x) (fm_tls_key_share x) (fm_tls_types x) (fm_misc_flags x).
#[export] Instance zero_flow_metrics : Zero flow_metrics :=
  mk_flow_metrics
    0 0 0 0 0 0 (zero_bytes 6) (zero_bytes 6) 0 0 0 0 0 0 (zero_bytes 6) (zero_bytes 6) 0 0
    0 0 0.

(** DNS metrics of a flow (one copy per CPU). *)
Record dns_metrics := mk_dns_metrics {
  dm_start_mono_time_ts : Z;
  dm_end_mono_time_ts : Z;
  dm_latency : Z;
  dm_id : Z;
  dm_flags : Z;
  dm_eth_protocol : Z;
  dm_errno : Z;
  dm_name : list Z;
}.
#[export] Instance eta_dns_metrics : Eta dns_metrics := λ x,
  mk_dns_metrics
    (dm_start_mono_time_ts x) (dm_end_mono_time_ts x) (dm_latency x) (dm_id x) (dm_flags x)
    (dm_eth_protocol x) (dm_errno x) (dm_name x).
#[export] Instance zero_dns_metrics : Zero dns_metrics :=
  mk_dns_metrics
    0 0 0 0 0 0 0 (zero_bytes 32).

(** Packet-drop metrics of a flow (one copy per CPU). *)
Record pkt_drop_metrics := mk_pkt_drop_metrics {
  pd_start_mono_time_ts : Z;
  pd_end_mono_time_ts : Z;
  pd_bytes : Z;
  pd_packets : Z;
  pd_latest_drop_cause : Z;
  pd_latest_flags : Z;
  pd_eth_protocol : Z;
  pd_latest_state : Z;
}.
#[export] Instance eta_pkt_drop_metrics : Eta pkt_drop_metrics := λ x,
  mk_pkt_drop_metrics
    (pd_start_mono_time_ts x) (pd_end_mono_time_ts x) (pd_bytes x) (pd_packets x)
    (pd_latest_drop_cause x) (pd_latest_flags x) (pd_eth_protocol x) (pd_latest_state x).
#[export] Instance zero_pkt_drop_metrics : Zero pkt_drop_metrics :=
  mk_pkt_drop_metrics
    0 0 0 0 0 0 0 0.

(** Network events of a flow (one copy per CPU): a ring of
    [MAX_NETWORK_EVENTS] cookies with their counters. *)
Record network_events_metrics := mk_network_events_metrics {
  ne_start_mono_time_ts : Z;
  ne_end_mono_time_ts : Z;
  ne_network_events : list (list Z);
  ne_bytes : list Z;
  ne_packets : list Z;
  ne_eth_protocol : Z;
  ne_network_events_idx : Z;
}.
#[export] Instance eta_network_events_metrics : Eta network_events_metrics := λ x,
  mk_network_events_metrics
    (ne_start_mono_time_ts x) (ne_end_mono_time_ts x) (ne_network_events x) (ne_bytes x)
    (ne_packets x) (ne_eth_protocol x) (ne_network_events_idx x).
#[export] Instance zero_network_events_metrics : Zero network_events_metrics :=
  mk_network_events_metrics
    0 0 (replicate 4 (zero_bytes 8)) (zero_bytes 4) (zero_bytes 4) 0 0.

(** Address translation of a flow (one copy per CPU). *)
Record xlat_metrics := mk_xlat_metrics {
  xm_start_mono_time_ts : Z;
  xm_end_mono_time_ts : Z;
  xm_saddr : list Z;
  xm_daddr : list Z;
  xm_sport : Z;
  xm_dport : Z;
  xm_zone_id : Z;
  xm_eth_protocol : Z;
}.
#[export] Instance eta_xlat_metrics : Eta xlat_metrics := λ x,
  mk_xlat_metrics
    (xm_start_mono_time_ts x) (xm_end_mono_time_ts x) (xm_saddr x) (xm_daddr x) (xm_sport x)
    (xm_dport x) (xm_zone_id x) (xm_eth_protocol x).
#[export] Instance zero_xlat_metrics : Zero xlat_metrics :=
  mk_xlat_metrics
    0 0 (zero_bytes 16) (zero_bytes 16) 0 0 0 0.

(** RTT and IPsec status of a flow (one copy per CPU). *)
Record additional_metrics := mk_additional_metrics {
  am_start_mono_time_ts : Z;
  am_end_mono_time_ts : Z;
  am_flow_rtt : Z;
  am_ipsec_encrypted_ret : Z;
  am_eth_protocol : Z;
  am_ipsec_encrypted : bool;
}.
#[export] Instance eta_additional_metrics : Eta additional_metrics := λ x,
  mk_additional_metrics
    (am_start_mono_time_ts x) (am_end_mono_time_ts x) (am_flow_rtt x)
    (am_ipsec_encrypted_ret x) (am_eth_protocol x) (am_ipsec_encrypted x).
#[export] Instance zero_additional_metrics : Zero additional_metrics :=
  mk_additional_metrics
    0 0 0 0 0 false.

(** QUIC metrics of a flow (one copy per CPU). *)
Record quic_metrics := mk_quic_metrics {
  qm_start_mono_time_ts : Z;
  qm_end_mono_time_ts : Z;
  qm_version : Z;
  qm_eth_protocol : Z;
  qm_seen_long_hdr : Z;
  qm_seen_short_hdr : Z;
}.
#[export] Instance eta_quic_metrics : Eta quic_metrics := λ x,
  mk_quic_metrics
    (qm_start_mono_time_ts x) (qm_end_mono_time_ts x) (qm_version x) (qm_eth_protocol x)
    (qm_seen_long_hdr x) (qm_seen_short_hdr x).
#[export] Instance zero_quic_metrics : Zero quic_metrics :=
  mk_quic_metrics
    0 0 0 0 0 0.

(** A complete flow, sent through the ring buffer when the map is full. *)
Record flow_record := mk_flow_record {
  fr_id : flow_id;
  fr_metrics : flow_metrics;
}.

(** TLS information of one packet. *)
Record tls_info := mk_tls_info {
  tls_hello_version : Z;
  tls_cipher_suite : Z;
  tls_key_share : Z;
  tls_type : Z;
}.
#[export] Instance eta_tls_info : Eta tls_info := λ x,
  mk_tls_info
    (tls_hello_version x) (tls_cipher_suite x) (tls_key_share x) (tls_type x).
#[export] Instance zero_tls_info : Zero tls_info :=
  mk_tls_info
    0 0 0 0.

(** A captured packet, for the packet-capture mode. *)
Record payload_meta := mk_payload_meta {
  pm_if_index : Z;
  pm_pkt_len : Z;
  pm_timestamp : Z;
  pm_payload : list Z;
}.
#[export] Instance eta_payload_meta : Eta payload_meta := λ x,
  mk_payload_meta
    (pm_if_index x) (pm_pkt_len x) (pm_timestamp x) (pm_payload x).
#[export] Instance zero_payload_meta : Zero payload_meta :=
  mk_payload_meta
    0 0 0 (zero_bytes 256).

(** [enum global_counters_key_t]: the indices of the counters array. *)
Inductive global_counters_key :=
  | HASHMAP_FAIL_UPDATE_FLOW
  | HASHMAP_FAIL_CREATE_FLOW
  | HASHMAP_FAIL_UPDATE_DNS
  | FILTER_REJECT
  | FILTER_ACCEPT
  | FILTER_NOMATCH
  | NETWORK_EVENTS_ERR
  | NETWORK_EVENTS_ERR_GROUPID_MISMATCH
  | NETWORK_EVENTS_ERR_UPDATE_MAP_FLOWS
  | NETWORK_EVENTS_GOOD
  | NETWORK_EVENTS_OVERFLOW
  | NETWORK_EVENTS_COOKIE_TOO_BIG
  | OBSERVED_INTF_MISSED.
#[export] Instance global_counters_key_eq_dec : EqDecision global_counters_key.
Proof. solve_decision. Defined.

Definition counter_index (c : global_counters_key) : Z :=
  match c with
  | HASHMAP_FAIL_UPDATE_FLOW => 0
  | HASHMAP_FAIL_CREATE_FLOW => 1
  | HASHMAP_FAIL_UPDATE_DNS => 2
  | FILTER_REJECT => 3
  | FILTER_ACCEPT => 4
  | FILTER_NOMATCH => 5
  | NETWORK_EVENTS_ERR => 6
  | NETWORK_EVENTS_ERR_GROUPID_MISMATCH => 7
  | NETWORK_EVENTS_ERR_UPDATE_MAP_FLOWS => 8
  | NETWORK_EVENTS_GOOD => 9
  | NETWORK_EVENTS_OVERFLOW => 10
  | NETWORK_EVENTS_COOKIE_TOO_BIG => 11
  | OBSERVED_INTF_MISSED => 12
  end.
Definition MAX_COUNTERS : Z := 13.

(** [enum filter_action_t] *)
Inductive filter_action := ACCEPT | REJECT | MAX_FILTER_ACTIONS.
#[export] Instance filter_action_eq_dec : EqDecision filter_action.
Proof. solve_decision. Defined.

(** A filter rule, the value of the filter trie. *)
Record filter_value_t := mk_filter_value_t {
  fv_protocol : Z;
  fv_dstPortStart : Z;
  fv_dstPortEnd : Z;
  fv_dstPort1 : Z;
  fv_dstPort2 : Z;
  fv_srcPortStart : Z;
  fv_srcPortEnd : Z;
  fv_srcPort1 : Z;
  fv_srcPort2 : Z;
  fv_portStart : Z;
  fv_portEnd : Z;
  fv_port1 : Z;
  fv_port2 : Z;
  fv_icmpType : Z;
  fv_icmpCode : Z;
  fv_direction : Z;
  fv_action : filter_action;
  fv_tcpFlags : Z;
  fv_filter_drops : Z;
  fv_sample : Z;
  fv_do_peerCIDR_lookup : Z;
}.
#[export] Instance eta_filter_value_t : Eta filter_value_t := λ x,
  mk_filter_value_t
    (fv_protocol x) (fv_dstPortStart x) (fv_dstPortEnd x) (fv_dstPort1 x) (fv_dstPort2 x)
    (fv_srcPortStart x) (fv_srcPortEnd x) (fv_srcPort1 x) (fv_srcPort2 x) (fv_portStart x)
    (fv_portEnd x) (fv_port1 x) (fv_port2 x) (fv_icmpType x) (fv_icmpCode x)
    (fv_direction x) (fv_action x) (fv_tcpFlags x) (fv_filter_drops x) (fv_sample x)
    (fv_do_peerCIDR_lookup x).
#[export] Instance zero_filter_value_t : Zero filter_value_t :=
  mk_filter_value_t
    0 0 0 0 0 0 0 0 0 0 0 0 0 0 0 0 ACCEPT 0 0 0 0.

(** An SSL plaintext event. *)
Record ssl_data_event_t := mk_ssl_data_event_t {
  sde_timestamp_ns : Z;
  sde_pid_tgid : Z;
  sde_data_len : Z;
  sde_ssl_type : Z;
  sde_direction : Z;
  sde_tls_source : Z;
  sde_tuple_valid : Z;
  sde_src_port : Z;
  sde_dst_port : Z;
  sde_src_addr : list Z;
  sde_dst_addr : list Z;
  sde_socket_fd : Z;
  sde_conn_user_ptr : Z;
  sde_data : list Z;
}.
#[export] Instance eta_ssl_data_event_t : Eta ssl_data_event_t := λ x,
  mk_ssl_data_event_t
    (sde_timestamp_ns x) (sde_pid_tgid x) (sde_data_len x) (sde_ssl_type x)
    (sde_direction x) (sde_tls_source x) (sde_tuple_valid x) (sde_src_port x) (sde_dst_port x)
    (sde_src_addr x) (sde_dst_addr x) (sde_socket_fd x) (sde_conn_user_ptr x) (sde_data x).
#[export] Instance zero_ssl_data_event_t : Zero ssl_data_event_t :=
  mk_ssl_data_event_t
    0 0 0 0 0 0 0 0 0 (zero_bytes 16) (zero_bytes 16) 0 0 [].

(** An [SSL_read] in progress. *)
Record ssl_read_active_t := mk_ssl_read_active_t {
  sra_ssl_type : Z;
  sra_buf_user : Z;
  sra_conn_user_ptr : Z;
}.
#[export] Instance eta_ssl_read_active_t : Eta ssl_read_active_t := λ x,
  mk_ssl_read_active_t
    (sra_ssl_type x) (sra_buf_user x) (sra_conn_user_ptr x).
#[export] Instance zero_ssl_read_active_t : Zero ssl_read_active_t :=
  mk_ssl_read_active_t
    0 0 0.

(** An [SSL_set_fd] in progress. *)
Record ssl_fd_pending_t := mk_ssl_fd_pending_t {
  sfp_key : ssl_fd_key_t;
  sfp_fd : Z;
}.
#[export] Instance zero_ssl_fd_pending_t : Zero ssl_fd_pending_t :=
  mk_ssl_fd_pending_t zeroed 0.

(** The direct-access view of a packet that a TC program gets
    ([struct __sk_buff]): [skb_data] is the linear part, between [data] and
    [data_end]; [skb_bytes] is the whole packet, which only the load helper
    can reach; [skb_len] and [skb_ifindex] are the fields of the same name. *)
Record sk_buff := mk_sk_buff {
  skb_len : Z;
  skb_ifindex : Z;
  skb_data : list Z;
  skb_bytes : list Z;
}.

Definition wf_skb (skb : sk_buff) : Prop :=
  is_u32 (skb_len skb) /\ is_u32 (skb_ifindex skb) /\
  Forall is_u8 (skb_data skb) /\ Forall is_u8 (skb_bytes skb) /\
  skb_data skb `prefix_of` skb_bytes skb /\
  Z.of_nat (length (skb_bytes skb)) = skb_len skb.

(** Address of a map element. *)
Abbreviation addr := N (only parsing).

(** Packet info passed around the functions.  [pi_id] is the flow key itself:
    in the programs [pkt.id] points to the local [id], which nothing else
    aliases.  [pi_l4_hdr] is the offset of the L4 header in the linear data, or
    [None] for the null pointer; [pi_dns_name] points into the per-CPU buffer
    map. *)
Record pkt_info := mk_pkt_info {
  pi_id : flow_id;
  pi_current_ts : Z;
  pi_flags : Z;
  pi_l4_hdr : option Z;
  pi_dscp : Z;
  pi_dns_id : Z;
  pi_dns_flags : Z;
  pi_dns_latency : Z;
  pi_dns_name : option addr;
}.
#[export] Instance eta_pkt_info : Eta pkt_info := λ x,
  mk_pkt_info (pi_id x) (pi_current_ts x) (pi_flags x) (pi_l4_hdr x) (pi_dscp x)
    (pi_dns_id x) (pi_dns_flags x) (pi_dns_latency x) (pi_dns_name x).
#[export] Instance zero_pkt_info : Zero pkt_info :=
  mk_pkt_info zeroed 0 0 None 0 0 0 0 None.
