(* ===== verification/Kernel.v ===== *)
(** * The kernel the programs run in: maps, ring buffers, helpers

    The programs interact with the kernel only through helper calls.  A program
    is a tree of helper calls ([prog]); the tree says nothing about what the
    calls answer, so that the same translation runs alone ([run]) or
    interleaved with other CPUs ([Concurrency.v]).

    What a helper answers is fixed by its documentation
    ([bpf/headers/bpf_helper_defs.h]) where the documentation fixes it; what it
    leaves open (the clock, the random numbers, whether an allocation succeeds,
    which LRU entries go, how packet bytes outside the linear data are loaded)
    is a parameter, the class [Kernel], with the documented guarantees in
    [KernelLaws]. *)
From S2P Require Import Prelude Machine Types.

(** ** The maps ([bpf/maps_definition.h]) *)

Inductive mapname :=
  | aggregated_flows
  | aggregated_flows_dns
  | aggregated_flows_pkt_drop
  | aggregated_flows_network_events
  | aggregated_flows_xlat
  | additional_flow_metrics
  | quic_flows
  | dns_flows
  | global_counters
  | dns_name_map
  | filter_map
  | peer_filter_map
  | ipsec_ingress_map
  | ipsec_egress_map
  | ssl_read_active_map
  | ssl_fd_map
  | ssl_fd_pending_map.
#[export] Instance mapname_eq_dec : EqDecision mapname.
Proof. solve_decision. Defined.

Definition key (m : mapname) : Type :=
  match m with
  | aggregated_flows | aggregated_flows_dns | aggregated_flows_pkt_drop
  | aggregated_flows_network_events | aggregated_flows_xlat
  | additional_flow_metrics | quic_flows => flow_id
  | dns_flows => dns_flow_id
  | filter_map | peer_filter_map => filter_key_t
  | ssl_fd_map => ssl_fd_key_t
  | global_counters | dns_name_map
  | ipsec_ingress_map | ipsec_egress_map
  | ssl_read_active_map | ssl_fd_pending_map => Z
  end.

Definition value (m : mapname) : Type :=
  match m with
  | aggregated_flows => flow_metrics
  | aggregated_flows_dns => dns_metrics
  | aggregated_flows_pkt_drop => pkt_drop_metrics
  | aggregated_flows_network_events => network_events_metrics
  | aggregated_flows_xlat => xlat_metrics
  | additional_flow_metrics => additional_metrics
  | quic_flows => quic_metrics
  | dns_flows => Z
  | global_counters => Z
  | dns_name_map => list Z
  | filter_map => filter_value_t
  | peer_filter_map => Z
  | ipsec_ingress_map | ipsec_egress_map => flow_id
  | ssl_read_active_map => ssl_read_active_t
  | ssl_fd_map => Z
  | ssl_fd_pending_map => ssl_fd_pending_t
  end.

(** [BPF_MAP_TYPE_*] *)
Inductive maptype := HASH | PERCPU_HASH | LRU_HASH | PERCPU_ARRAY | LPM_TRIE.
#[export] Instance maptype_eq_dec : EqDecision maptype.
Proof. solve_decision. Defined.

Definition map_type (m : mapname) : maptype :=
  match m with
  | aggregated_flows | dns_flows | ipsec_ingress_map | ipsec_egress_map
  | ssl_read_active_map => HASH
  | aggregated_flows_dns | aggregated_flows_pkt_drop
  | aggregated_flows_network_events | aggregated_flows_xlat
  | additional_flow_metrics | quic_flows => PERCPU_HASH
  | ssl_fd_map | ssl_fd_pending_map => LRU_HASH
  | global_counters | dns_name_map => PERCPU_ARRAY
  | filter_map | peer_filter_map => LPM_TRIE
  end.

#[export] Instance key_eq_dec m : EqDecision (key m).
Proof. destruct m; apply _. Defined.
#[export] Instance key_countable m : Countable (key m).
Proof. destruct m; apply _. Defined.
#[export] Instance value_zero m : Zero (value m) :=
  match m with
  | aggregated_flows => zero_flow_metrics
  | aggregated_flows_dns => zero_dns_metrics
  | aggregated_flows_pkt_drop => zero_pkt_drop_metrics
  | aggregated_flows_network_events => zero_network_events_metrics
  | aggregated_flows_xlat => zero_xlat_metrics
  | additional_flow_metrics => zero_additional_metrics
  | quic_flows => zero_quic_metrics
  | dns_flows | global_counters | peer_filter_map | ssl_fd_map => Z_zero
  | dns_name_map => zero_bytes 32
  | filter_map => zero_filter_value_t
  | ipsec_ingress_map | ipsec_egress_map => zero_flow_id
  | ssl_read_active_map => zero_ssl_read_active_t
  | ssl_fd_pending_map => zero_ssl_fd_pending_t
  end.

Definition is_percpu (m : mapname) : bool :=
  match map_type m with PERCPU_HASH | PERCPU_ARRAY => true | _ => false end.

(** The copy of an element that a CPU sees: there is one copy per CPU in a
    per-CPU map, and one copy in all in the others. *)
Definition slot (m : mapname) (cpu : Z) : Z := if is_percpu m then cpu else 0.

(** A map: its index, from keys to elements, and the memory of the elements.
    A lookup hands out the address of an element, and the program then reads
    and writes the element's memory through it, even after another party has
    taken the element out of the index. *)
Record store (m : mapname) := mk_store {
  st_index : gmap (key m) addr;
  st_cells : gmap (addr * Z) (value m);
  st_next : addr;
}.
Arguments mk_store {_} _ _ _.
Arguments st_index {_} _.
Arguments st_cells {_} _.
Arguments st_next {_} _.

(** ** Ring buffers *)

Inductive ring := direct_flows | packet_record | ssl_data_event_map.
#[export] Instance ring_eq_dec : EqDecision ring.
Proof. solve_decision. Defined.

Definition payload (r : ring) : Type :=
  match r with
  | direct_flows => flow_record
  | packet_record => payload_meta
  | ssl_data_event_map => ssl_data_event_t
  end.

(** A reserved sample, in the order of the reservations. *)
Inductive sample (A : Type) := Busy | Committed (d : A) | Discarded.
Arguments Busy {_}.
Arguments Committed {_} _.
Arguments Discarded {_}.

(** ** Helper calls *)

Inductive update_flag := BPF_ANY | BPF_NOEXIST.

Inductive helper : Type → Type :=
  | bpf_ktime_get_ns : helper Z
  | bpf_get_prandom_u32 : helper Z
  | bpf_map_lookup_elem (m : mapname) (k : key m) : helper (option addr)
  | bpf_map_update_elem (m : mapname) (k : key m) (v : value m) (f : update_flag) : helper Z
  | bpf_map_delete_elem (m : mapname) (k : key m) : helper Z
  | elem_read (m : mapname) (p : addr) : helper (value m)
  | elem_write (m : mapname) (p : addr) (f : value m → value m * Z) : helper Z
  | bpf_ringbuf_reserve (r : ring) : helper (option nat)
  | bpf_ringbuf_submit (r : ring) (i : nat) (d : payload r) : helper unit
  | bpf_ringbuf_discard (r : ring) (i : nat) : helper unit
  | do_sampling_get : helper Z
  | do_sampling_set (v : Z) : helper unit.

(** Programs: a result, an invalid memory access, or a helper call. *)
Inductive prog (A : Type) : Type :=
  | Ret (a : A)
  | Fault
  | Vis {X : Type} (e : helper X) (k : X → prog A).
Arguments Ret {_} _.
Arguments Fault {_}.
Arguments Vis {_ _} _ _.

#[export] Instance prog_ret : MRet prog := @Ret.
#[export] Instance prog_bind : MBind prog :=
  λ A B f, fix go (p : prog A) : prog B :=
    match p with
    | Ret a => f a
    | Fault => Fault
    | Vis e k => Vis e (λ x, go (k x))
    end.

(** One helper call; a load from packet memory that may be out of bounds. *)
Definition call {X} (e : helper X) : prog X := Vis e Ret.
Definition deref {A} (o : option A) : prog A :=
  match o with Some a => Ret a | None => Fault end.

(** ** Longest-prefix match *)

(** The bits of an address, most significant first. *)
Definition byte_bits (b : Z) : list bool :=
  (λ i, Z.testbit b (Z.of_nat i)) <$> [7; 6; 5; 4; 3; 2; 1; 0]%nat.
Definition addr_bits (l : list Z) : list bool := l ≫= byte_bits.

(** Trie entry [e] covers key [k]: it is no longer than [k] and agrees with
    [k] on all its bits. *)
Definition covers (e k : filter_key_t) : Prop :=
  fk_prefix_len e <= fk_prefix_len k /\
  take (Z.to_nat (fk_prefix_len e)) (addr_bits (fk_ip_data e)) =
  take (Z.to_nat (fk_prefix_len e)) (addr_bits (fk_ip_data k)).
#[export] Instance covers_dec e k : Decision (covers e k).
Proof. unfold covers. apply _. Defined.

(** ** What the documentation leaves open *)

(** The kernel's answer to the insertion of a new element: refused with an
    errno, or accepted after the removal of some entries (LRU maps). *)
Inductive verdict (K : Type) := Accept (evicted : list K) | Refuse (ret : Z).
Arguments Accept {_} _.
Arguments Refuse {_} _.

Class Kernel := {
  kst : Type;                                   (* hidden kernel state *)
  k_ktime : kst → Z * kst;                      (* bpf_ktime_get_ns *)
  k_prandom : kst → Z * kst;                    (* bpf_get_prandom_u32 *)
  k_admit : ∀ m, gmap (key m) addr → key m → kst → verdict (key m) * kst;
  k_reserve : ring → kst → bool * kst;          (* room in the ring buffer? *)
  k_lpm : list filter_key_t → filter_key_t → option filter_key_t;
  k_skb_load_bytes : sk_buff → Z → Z → Z * list Z;
  k_probe_read : list Z → Z → Z → Z * list Z;
}.

(** Loads of [len] bytes at [off]: all of them or a negative error. *)
Definition load_spec (mem : list Z) (off len : Z) (r : Z * list Z) : Prop :=
  length r.2 = Z.to_nat len /\ Forall is_u8 r.2 /\
  match slice mem off len with
  | Some bs => r = (0, bs)
  | None => -4096 < r.1 < 0
  end.

Class KernelLaws (K : Kernel) := {
  k_clock : kst → Z;
  ktime_u64 s : is_u64 (k_ktime s).1;
  ktime_clock s : k_clock s <= (k_ktime s).1 <= k_clock (k_ktime s).2;
  prandom_u32 s : is_u32 (k_prandom s).1;
  prandom_clock s : k_clock s <= k_clock (k_prandom s).2;
  admit_clock m idx k s : k_clock s <= k_clock (k_admit m idx k s).2;
  admit_refuse m idx k s e : (k_admit m idx k s).1 = Refuse e ->
    -4096 < e < 0 /\ e <> - EEXIST;
  admit_evicts m idx k s ev : (k_admit m idx k s).1 = Accept ev ->
    map_type m <> LRU_HASH -> ev = [];
  reserve_clock r s : k_clock s <= k_clock (k_reserve r s).2;
  lpm_some ks k e : k_lpm ks k = Some e ->
    e ∈ ks /\ covers e k /\
    ∀ e', e' ∈ ks -> covers e' k -> fk_prefix_len e' <= fk_prefix_len e;
  lpm_none ks k e : k_lpm ks k = None -> e ∈ ks -> ~ covers e k;
  skb_load_bytes_ok skb off len : 0 <= off -> 0 < len -> Forall is_u8 (skb_bytes skb) ->
    load_spec (skb_bytes skb) off len (k_skb_load_bytes skb off len);
  probe_read_ok mem off len : 0 <= off -> 0 < len -> Forall is_u8 mem ->
    load_spec mem off len (k_probe_read mem off len);
}.

(** ** The world, and the effect of each helper *)

Record world `{Kernel} := mk_world {
  w_map : ∀ m, store m;
  w_ring : ∀ r, list (sample (payload r));
  w_do_sampling : Z;
  w_kst : kst;
}.

Section Semantics.
Context `{Kernel}.
Implicit Types w : world.

Definition upd_map (m : mapname) (s : store m) w : world :=
  mk_world _
    (λ m', match decide (m = m') with
           | left e => eq_rect m store s m' e
           | right _ => w_map w m'
           end)
    (w_ring w) (w_do_sampling w) (w_kst w).

Definition upd_ring (r : ring) (l : list (sample (payload r))) w : world :=
  mk_world _ (w_map w)
    (λ r', match decide (r = r') with
           | left e => eq_rect r (λ r, list (sample (payload r))) l r' e
           | right _ => w_ring w r'
           end)
    (w_do_sampling w) (w_kst w).

Definition upd_kst (k : kst) w : world :=
  mk_world _ (w_map w) (w_ring w) (w_do_sampling w) k.

Definition upd_do_sampling (v : Z) w : world :=
  mk_world _ (w_map w) (w_ring w) v (w_kst w).

(** The element a lookup of [k] finds. *)
Definition map_find (m : mapname) : store m → key m → option addr :=
  match m with
  | filter_map => λ s k, e ← k_lpm (map_to_list (st_index s)).*1 k; st_index s !! e
  | peer_filter_map => λ s k, e ← k_lpm (map_to_list (st_index s)).*1 k; st_index s !! e
  | _ => λ s k, st_index s !! k
  end.

Definition cell_read {m} (s : store m) (p : addr) (c : Z) : value m :=
  default zeroed (st_cells s !! (p, c)).
Definition cell_write {m} (s : store m) (p : addr) (c : Z) (v : value m) : store m :=
  mk_store (st_index s) (<[(p, c) := v]> (st_cells s)) (st_next s).

(** A fresh element for [k]: its memory is zero but for the copy written. *)
Definition cell_new {m} (s : store m) (k : key m) (c : Z) (v : value m)
    (evicted : list (key m)) : store m :=
  mk_store (<[k := st_next s]> (foldr delete (st_index s) evicted))
    (<[(st_next s, c) := v]> (st_cells s)) (N.succ (st_next s)).

Definition map_insert {m} (c : Z) (k : key m) (v : value m) (s : store m) w
    : Z * world :=
  let '(verd, st) := k_admit m (st_index s) k (w_kst w) in
  match verd with
  | Accept ev => (0, upd_kst st (upd_map m (cell_new s k c v ev) w))
  | Refuse e => (e, upd_kst st w)
  end.

Definition map_update (cpu : Z) (m : mapname) (k : key m) (v : value m)
    (f : update_flag) w : Z * world :=
  let s := w_map w m in
  let c := slot m cpu in
  match st_index s !! k, f with
  | Some _, BPF_NOEXIST => (- EEXIST, w)
  | Some p, BPF_ANY =>
      if is_percpu m then (0, upd_map m (cell_write s p c v) w)
      else map_insert c k v s w
  | None, _ =>
      if decide (map_type m = PERCPU_ARRAY) then (- ENOENT, w)
      else map_insert c k v s w
  end.

Definition map_delete (m : mapname) (k : key m) w : Z * world :=
  let s := w_map w m in
  if decide (map_type m = PERCPU_ARRAY) then (- EINVAL, w)
  else match st_index s !! k with
  | Some _ => (0, upd_map m (mk_store (delete k (st_index s)) (st_cells s) (st_next s)) w)
  | None => (- ENOENT, w)
  end.

Definition map_write (cpu : Z) (m : mapname) (p : addr)
    (f : value m → value m * Z) w : Z * world :=
  let s := w_map w m in
  let r := f (cell_read s p (slot m cpu)) in
  (r.2, if (p <? st_next s)%N then upd_map m (cell_write s p (slot m cpu) r.1) w else w).

Definition helper_sem (cpu : Z) {X} (e : helper X) : world → X * world :=
  match e in helper X return world → X * world with
  | bpf_ktime_get_ns => λ w, let '(t, st) := k_ktime (w_kst w) in (t, upd_kst st w)
  | bpf_get_prandom_u32 => λ w, let '(x, st) := k_prandom (w_kst w) in (x, upd_kst st w)
  | bpf_map_lookup_elem m k => λ w, (map_find m (w_map w m) k, w)
  | bpf_map_update_elem m k v f => map_update cpu m k v f
  | bpf_map_delete_elem m k => map_delete m k
  | elem_read m p => λ w, (cell_read (w_map w m) p (slot m cpu), w)
  | elem_write m p f => map_write cpu m p f
  | bpf_ringbuf_reserve r => λ w,
      let '(ok, st) := k_reserve r (w_kst w) in
      if ok : bool
      then (Some (length (w_ring w r)), upd_kst st (upd_ring r (w_ring w r ++ [Busy]) w))
      else (None, upd_kst st w)
  | bpf_ringbuf_submit r i d => λ w,
      (tt, upd_ring r (<[i := Committed d]> (w_ring w r)) w)
  | bpf_ringbuf_discard r i => λ w, (tt, upd_ring r (<[i := Discarded]> (w_ring w r)) w)
  | do_sampling_get => λ w, (w_do_sampling w, w)
  | do_sampling_set v => λ w, (tt, upd_do_sampling v w)
  end.

(** A program run alone on [cpu], to its end: [None] is an invalid access. *)
Fixpoint run {A} (cpu : Z) (p : prog A) (w : world) : option A * world :=
  match p with
  | Ret a => (Some a, w)
  | Fault => (None, w)
  | Vis e k => let '(x, w') := helper_sem cpu e w in run cpu (k x) w'
  end.

(** [wp cpu p Q w]: run on [cpu] from [w], [p] makes no invalid access and
    ends with a result and a world in [Q]. *)
Definition wp {A} (cpu : Z) (p : prog A) (Q : A → world → Prop) (w : world) : Prop :=
  match run cpu p w with
  | (Some a, w') => Q a w'
  | (None, _) => False
  end.
End Semantics.

(** ** Reasoning rules *)

Section Rules.
Context `{Kernel}.
Implicit Types w : world.

Lemma run_bind {A B} cpu (p : prog A) (f : A → prog B) w :
  run cpu (p ≫= f) w =
  match run cpu p w with
  | (Some a, w') => run cpu (f a) w'
  | (None, w') => (None, w')
  end.
Proof.
  revert w. induction p as [a| |X e k IH]; intros w; cbn; [done..|].
  destruct (helper_sem cpu e w) as [x w']. apply IH.
Qed.

Lemma wp_ret {A} cpu (a : A) (Q : A → world → Prop) w : Q a w -> wp cpu (Ret a) Q w.
Proof. done. Qed.

Lemma wp_bind {A B} cpu (p : prog A) (f : A → prog B) Q w :
  wp cpu p (λ a, wp cpu (f a) Q) w -> wp cpu (p ≫= f) Q w.
Proof. unfold wp. rewrite run_bind. by destruct (run cpu p w) as [[a|] w']. Qed.

Lemma wp_call {X} cpu (e : helper X) (Q : X → world → Prop) w :
  Q (helper_sem cpu e w).1 (helper_sem cpu e w).2 -> wp cpu (call e) Q w.
Proof. unfold wp, call. cbn. by destruct (helper_sem cpu e w). Qed.

Lemma wp_mono {A} cpu (p : prog A) (Q Q' : A → world → Prop) w :
  wp cpu p Q w -> (∀ a w', Q a w' -> Q' a w') -> wp cpu p Q' w.
Proof. unfold wp. destruct (run cpu p w) as [[a|] w']; [auto | done]. Qed.

(** Facts that hold of the final world of any run may be added to a
    postcondition. *)
Lemma wp_and_run {A} cpu (p : prog A) (Q : A → world → Prop) (P : world → Prop) w :
  wp cpu p Q w -> P (run cpu p w).2 -> wp cpu p (λ a w', Q a w' /\ P w') w.
Proof. unfold wp. by destruct (run cpu p w) as [[a|] w']. Qed.

Lemma wp_conj {A} cpu (p : prog A) (Q Q' : A → world → Prop) w :
  wp cpu p Q w -> wp cpu p Q' w -> wp cpu p (λ a w', Q a w' /\ Q' a w') w.
Proof. unfold wp. by destruct (run cpu p w) as [[a|] w']. Qed.

Lemma wp_deref {A} cpu (o : option A) (Q : A → world → Prop) w a :
  o = Some a -> Q a w -> wp cpu (deref o) Q w.
Proof. by intros ->. Qed.

Lemma wp_run {A} cpu (p : prog A) (Q : A → world → Prop) w :
  wp cpu p Q w -> ∃ a, run cpu p w = (Some a, (run cpu p w).2) /\ Q a (run cpu p w).2.
Proof. unfold wp. destruct (run cpu p w) as [[a|] w']; [by eauto | done]. Qed.

(** *** Updates of the world *)

Lemma upd_map_eq m s w : w_map (upd_map m s w) m = s.
Proof.
  cbn. destruct (decide (m = m)) as [e|]; [|done].
  by rewrite (Eqdep_dec.UIP_dec (λ x y : mapname, decide (x = y)) e eq_refl).
Qed.

Lemma upd_map_ne m m' s w : m <> m' -> w_map (upd_map m s w) m' = w_map w m'.
Proof. intros ?. cbn. by destruct (decide (m = m')). Qed.

Lemma upd_ring_eq r l w : w_ring (upd_ring r l w) r = l.
Proof.
  cbn. destruct (decide (r = r)) as [e|]; [|done].
  by rewrite (Eqdep_dec.UIP_dec (λ x y : ring, decide (x = y)) e eq_refl).
Qed.

Lemma upd_ring_ne r r' l w : r <> r' -> w_ring (upd_ring r l w) r' = w_ring w r'.
Proof. intros ?. cbn. by destruct (decide (r = r')). Qed.

(** *** Footprints: the maps and rings a program may write; it writes no
    global variable *)

Definition helper_writes {X} (ms : list mapname) (rs : list ring) (e : helper X) : Prop :=
  match e with
  | bpf_map_update_elem m _ _ _ | bpf_map_delete_elem m _ | elem_write m _ _ => m ∈ ms
  | bpf_ringbuf_reserve r | bpf_ringbuf_submit r _ _ | bpf_ringbuf_discard r _ => r ∈ rs
  | do_sampling_set _ => False
  | _ => True
  end.

Fixpoint writes {A} (ms : list mapname) (rs : list ring) (p : prog A) : Prop :=
  match p with
  | Ret _ | Fault => True
  | Vis e k => helper_writes ms rs e /\ ∀ x, writes ms rs (k x)
  end.

Lemma writes_ret {A} ms rs (a : A) : writes ms rs (Ret a).
Proof. done. Qed.
Lemma writes_call {X} ms rs (e : helper X) : helper_writes ms rs e -> writes ms rs (call e).
Proof. done. Qed.
Lemma writes_deref {A} ms rs (o : option A) : writes ms rs (deref o).
Proof. by destruct o. Qed.
Lemma writes_bind {A B} ms rs (p : prog A) (f : A → prog B) :
  writes ms rs p -> (∀ a, writes ms rs (f a)) -> writes ms rs (p ≫= f).
Proof.
  intros Hp Hf. induction p as [a| |X e k IH]; cbn in *; [apply Hf|done|].
  destruct Hp as [He Hk]. split; [done|]. intros x. apply IH, Hk.
Qed.
Lemma writes_mono {A} ms rs ms' rs' (p : prog A) :
  writes ms rs p -> ms ⊆ ms' -> rs ⊆ rs' -> writes ms' rs' p.
Proof.
  intros Hp Hm Hr. induction p as [a| |X e k IH]; cbn in *; [done..|].
  destruct Hp as [He Hk]. split; [|auto].
  destruct e; cbn in *; auto.
Qed.

Lemma helper_sem_map_frame {X} cpu (e : helper X) ms rs w m :
  helper_writes ms rs e -> m ∉ ms -> w_map (helper_sem cpu e w).2 m = w_map w m.
Proof.
  intros He Hm. destruct e; cbn in *; try done.
  - by destruct (k_ktime _).
  - by destruct (k_prandom _).
  - assert (m0 <> m) by (by intros ->). unfold map_update, map_insert.
    split_cases; try done; by rewrite ?upd_map_ne by done || (cbn; case_decide).
  - assert (m0 <> m) by (by intros ->). unfold map_delete.
    case_decide; [done|]. case_match; [|done]. cbn [snd]. by rewrite upd_map_ne.
  - assert (m0 <> m) by (by intros ->). unfold map_write. cbn [snd].
    case_match; [|done]. by rewrite upd_map_ne.
  - destruct (k_reserve _ _) as [[] ?]; done.
Qed.

Lemma helper_sem_ring_frame {X} cpu (e : helper X) ms rs w r :
  helper_writes ms rs e -> r ∉ rs -> w_ring (helper_sem cpu e w).2 r = w_ring w r.
Proof.
  intros He Hr. destruct e; cbn in *; try done.
  - by destruct (k_ktime _).
  - by destruct (k_prandom _).
  - unfold map_update, map_insert. by split_cases.
  - unfold map_delete. by split_cases.
  - unfold map_write. cbn [snd]. by case_match.
  - assert (r0 <> r) by (by intros ->).
    destruct (k_reserve _ _) as [[] ?]; [|done]. cbn. by case_decide.
  - assert (r0 <> r) by (by intros ->). by case_decide.
  - assert (r0 <> r) by (by intros ->). by case_decide.
Qed.

Lemma run_map_frame {A} cpu (p : prog A) ms rs w m :
  writes ms rs p -> m ∉ ms -> w_map (run cpu p w).2 m = w_map w m.
Proof.
  intros Hp Hm. revert w. induction p as [a| |X e k IH]; intros w; cbn; [done..|].
  destruct Hp as [He Hk].
  pose proof (helper_sem_map_frame cpu e ms rs w m He Hm) as Hf.
  destruct (helper_sem cpu e w) as [x w']. cbn in Hf. rewrite <- Hf. by apply IH.
Qed.

Lemma run_ring_frame {A} cpu (p : prog A) ms rs w r :
  writes ms rs p -> r ∉ rs -> w_ring (run cpu p w).2 r = w_ring w r.
Proof.
  intros Hp Hr. revert w. induction p as [a| |X e k IH]; intros w; cbn; [done..|].
  destruct Hp as [He Hk].
  pose proof (helper_sem_ring_frame cpu e ms rs w r He Hr) as Hf.
  destruct (helper_sem cpu e w) as [x w']. cbn in Hf. rewrite <- Hf. by apply IH.
Qed.

Lemma run_sampling_frame {A} cpu (p : prog A) ms rs w :
  writes ms rs p -> w_do_sampling (run cpu p w).2 = w_do_sampling w.
Proof.
  intros Hp. revert w. induction p as [a| |X e k IH]; intros w; cbn; [done..|].
  destruct Hp as [He Hk].
  assert (Hf : w_do_sampling (helper_sem cpu e w).2 = w_do_sampling w).
  { destruct e; cbn in *; try done; unfold map_update, map_delete, map_write, map_insert;
      cbn [snd]; repeat (case_match || case_decide); try done.
    all: simplify_eq/=; done. }
  destruct (helper_sem cpu e w) as [x w']. cbn in Hf. rewrite <- Hf. by apply IH.
Qed.
End Rules.
