(* ===== verification/Maps.v ===== *)
(** * Views of the maps

    [elem] is what a program on one CPU finds under a key; the lemmas say how
    each map operation changes it.  [world_wf] is the invariant of the stores
    that makes the view behave like a finite map, and every program preserves
    it ([run_wf]). *)
From S2P Require Import Prelude Machine Types Kernel.

Section Views.
Context {K : Kernel} {KL : KernelLaws K}.
Implicit Types w : world.

(** What a lookup of [k] followed by a read through the pointer gives. *)
Definition elem (cpu : Z) (m : mapname) (w : world) (k : key m) : option (value m) :=
  p ← map_find m (w_map w m) k; Some (cell_read (w_map w m) p (slot m cpu)).

Record store_wf {m} (s : store m) : Prop := {
  index_fresh k p : st_index s !! k = Some p -> (p < st_next s)%N;
  index_inj k k' p : st_index s !! k = Some p -> st_index s !! k' = Some p -> k = k';
  cells_fresh p c : (st_next s <= p)%N -> st_cells s !! (p, c) = None;
}.

(** Every element of the arrays exists. *)
Definition arrays_full (w : world) : Prop :=
  (∀ c, is_Some (st_index (w_map w global_counters) !! counter_index c)) /\
  is_Some (st_index (w_map w dns_name_map) !! (0 : key dns_name_map)).

Definition world_wf (w : world) : Prop :=
  (∀ m, store_wf (w_map w m)) /\ arrays_full w.

Definition clock (w : world) : Z := k_clock (w_kst w).

Lemma map_find_index m (s : store m) k :
  map_type m <> LPM_TRIE -> map_find m s k = st_index s !! k.
Proof. by destruct m. Qed.

Lemma elem_index cpu m w k :
  map_type m <> LPM_TRIE ->
  elem cpu m w k = (λ p, cell_read (w_map w m) p (slot m cpu)) <$> st_index (w_map w m) !! k.
Proof.
  intros Hm. unfold elem. rewrite map_find_index by done.
  by destruct (st_index _ !! _).
Qed.

Lemma elem_ext cpu m w w' k : w_map w' m = w_map w m -> elem cpu m w' k = elem cpu m w k.
Proof. intros E. unfold elem. by rewrite E. Qed.

(** *** The store operations keep the invariant *)

Lemma cell_write_wf {m} (s : store m) p c v :
  store_wf s -> (p < st_next s)%N -> store_wf (cell_write s p c v).
Proof.
  intros [Hf Hi Hc] Hp. split; cbn; [done..|].
  intros q c' Hq. rewrite lookup_insert_ne by (intros [=]; lia). by apply Hc.
Qed.

Lemma lookup_foldr_delete {m} (idx : gmap (key m) addr) ev k p :
  foldr delete idx ev !! k = Some p -> idx !! k = Some p.
Proof.
  induction ev as [|x ev IH]; cbn; [done|].
  intros [_ ?]%lookup_delete_Some. auto.
Qed.

Lemma cell_new_wf {m} (s : store m) k c v ev : store_wf s -> store_wf (cell_new s k c v ev).
Proof.
  intros [Hf Hi Hc]. split; cbn.
  - intros k' p [[-> <-]|[_ ?%lookup_foldr_delete%Hf]]%lookup_insert_Some; lia.
  - intros k1 k2 p [[<- <-]|[? H1%lookup_foldr_delete]]%lookup_insert_Some
      [[<- ?]|[? H2%lookup_foldr_delete]]%lookup_insert_Some; subst.
    + done.
    + apply Hf in H2. lia.
    + apply Hf in H1. lia.
    + by eapply Hi.
  - intros q c' Hq. rewrite lookup_insert_ne by (intros [=]; lia). apply Hc. lia.
Qed.

Lemma index_delete_wf {m} (s : store m) k :
  store_wf s -> store_wf (mk_store (delete k (st_index s)) (st_cells s) (st_next s)).
Proof.
  intros [Hf Hi Hc]. split; cbn.
  - intros k' p [_ ?]%lookup_delete_Some. by eapply Hf.
  - intros k1 k2 p [_ ?]%lookup_delete_Some [_ ?]%lookup_delete_Some. by eapply Hi.
  - done.
Qed.

Lemma upd_map_wf m s w :
  world_wf w -> store_wf s ->
  (map_type m = PERCPU_ARRAY -> st_index s = st_index (w_map w m)) ->
  world_wf (upd_map m s w).
Proof.
  intros [Hw [Hg Hn]] Hs Ha. split.
  - intros m'. destruct (decide (m = m')) as [<-|].
    + by rewrite upd_map_eq.
    + by rewrite upd_map_ne.
  - split.
    + intros c. destruct (decide (m = global_counters)) as [->|].
      * rewrite upd_map_eq, Ha by done. apply Hg.
      * rewrite upd_map_ne by done. apply Hg.
    + destruct (decide (m = dns_name_map)) as [->|].
      * rewrite upd_map_eq, Ha by done. apply Hn.
      * rewrite upd_map_ne by done. apply Hn.
Qed.

Lemma map_insert_wf {m} c (k : key m) v w :
  map_type m <> PERCPU_ARRAY ->
  world_wf w -> world_wf (map_insert c k v (w_map w m) w).2.
Proof.
  intros Hm Hw. unfold map_insert. destruct (k_admit _ _ _ _) as [[ev|e] st]; cbn.
  - apply (upd_map_wf m _ w); [done| |done]. apply cell_new_wf, Hw.
  - done.
Qed.

Lemma helper_sem_wf {X} cpu (e : helper X) w :
  world_wf w -> world_wf (helper_sem cpu e w).2.
Proof.
  intros Hw. destruct e; cbn; try done.
  - by destruct (k_ktime _).
  - by destruct (k_prandom _).
  - unfold map_update. destruct (st_index _ !! k) as [p|] eqn:Ek; [destruct f|].
    + destruct (is_percpu m) eqn:Em; cbn.
      * apply upd_map_wf; [done| |done].
        apply cell_write_wf; [apply Hw|]. by eapply index_fresh; [apply Hw|].
      * apply map_insert_wf; [|done]. intros E. unfold is_percpu in Em. by rewrite E in Em.
    + done.
    + case_decide; [done|]. by apply map_insert_wf.
  - unfold map_delete. case_decide; [done|]. case_match; [|done].
    apply upd_map_wf; [done| |done]. apply index_delete_wf, Hw.
  - unfold map_write. cbn. case_match eqn:Hp; [|done]. apply N.ltb_lt in Hp.
    apply upd_map_wf; [done| |done]. apply cell_write_wf; [apply Hw|done].
  - by destruct (k_reserve _ _) as [[] ?].
Qed.

Lemma run_wf {A} cpu (p : prog A) w : world_wf w -> world_wf (run cpu p w).2.
Proof.
  revert w. induction p as [a| |X e k IH]; intros w Hw; cbn; [done..|].
  pose proof (helper_sem_wf cpu e w Hw) as Hw'.
  destruct (helper_sem cpu e w). by apply IH.
Qed.

(** Time does not run backwards. *)
Lemma helper_sem_clock {X} cpu (e : helper X) w : clock w <= clock (helper_sem cpu e w).2.
Proof.
  unfold clock. destruct e; cbn; try lia.
  - pose proof (ktime_clock (w_kst w)). destruct (k_ktime _); cbn in *; lia.
  - pose proof (prandom_clock (w_kst w)). by destruct (k_prandom _).
  - assert (Hi : ∀ c, k_clock (w_kst w) <= k_clock (w_kst (map_insert c k v (w_map w m) w).2)).
    { intros c. unfold map_insert.
      pose proof (admit_clock m (st_index (w_map w m)) k (w_kst w)).
      by destruct (k_admit _ _ _ _) as [[] ?]. }
    unfold map_update. repeat (case_match || case_decide); cbn; auto; lia.
  - unfold map_delete. repeat (case_match || case_decide); cbn; lia.
  - unfold map_write. cbn. case_match; cbn; lia.
  - pose proof (reserve_clock r (w_kst w)). destruct (k_reserve _ _) as [[] ?]; cbn in *; lia.
Qed.

Lemma run_clock {A} cpu (p : prog A) w : clock w <= clock (run cpu p w).2.
Proof.
  revert w. induction p as [a| |X e k IH]; intros w; cbn; [lia..|].
  pose proof (helper_sem_clock cpu e w) as Hw'.
  destruct (helper_sem cpu e w) as [x w']. cbn in Hw'. specialize (IH x w'). lia.
Qed.

Lemma wp_clock {A} cpu (p : prog A) (Q : A → world → Prop) w :
  wp cpu p (λ a w', clock w <= clock w' -> Q a w') w -> wp cpu p Q w.
Proof.
  pose proof (run_clock cpu p w). unfold wp. destruct (run cpu p w) as [[a|] w']; cbn in *; auto.
Qed.

(** The hash maps whose entries only the programs and user space remove. *)
Definition is_hash (m : mapname) : bool :=
  match map_type m with HASH | PERCPU_HASH => true | _ => false end.

(** *** Relations between the worlds before and after a step *)

(** Nothing a program can observe through a map or a ring has changed. *)
Record unchanged (w w' : world) : Prop := {
  unch_map m : w_map w' m = w_map w m;
  unch_ring r : w_ring w' r = w_ring w r;
  unch_sampling : w_do_sampling w' = w_do_sampling w;
  unch_clock : clock w <= clock w';
}.

(** Under key [k] of [m], [cpu] now finds [v]; nothing else has changed. *)
Record updated (cpu : Z) (m : mapname) (k : key m) (v : value m) (w w' : world) : Prop := {
  upd_elem : elem cpu m w' k = Some v;
  upd_others cpu' k' : k' <> k -> elem cpu' m w' k' = elem cpu' m w k';
  upd_percpu cpu' : is_percpu m = true -> cpu' <> cpu ->
    elem cpu' m w' k = Some (default zeroed (elem cpu' m w k));
  upd_maps m' : m' <> m -> w_map w' m' = w_map w m';
  upd_rings r : w_ring w' r = w_ring w r;
  upd_sampling : w_do_sampling w' = w_do_sampling w;
  upd_wf : world_wf w';
  upd_clock : clock w <= clock w';
}.

(** Under key [k] of [m] there is nothing any more. *)
Record deleted (m : mapname) (k : key m) (w w' : world) : Prop := {
  del_elem cpu : elem cpu m w' k = None;
  del_others cpu' k' : k' <> k -> elem cpu' m w' k' = elem cpu' m w k';
  del_maps m' : m' <> m -> w_map w' m' = w_map w m';
  del_rings r : w_ring w' r = w_ring w r;
  del_sampling : w_do_sampling w' = w_do_sampling w;
  del_wf : world_wf w';
  del_clock : clock w <= clock w';
}.

(** Under key [k] of a map with one copy per element there is now [v]; an LRU
    map may have lost other elements. *)
Record replaced (m : mapname) (k : key m) (v : value m) (w w' : world) : Prop := {
  rep_elem cpu : elem cpu m w' k = Some v;
  rep_others cpu k' : k' <> k ->
    elem cpu m w' k' = elem cpu m w k' \/ (map_type m = LRU_HASH /\ elem cpu m w' k' = None);
  rep_maps m' : m' <> m -> w_map w' m' = w_map w m';
  rep_rings r : w_ring w' r = w_ring w r;
  rep_sampling : w_do_sampling w' = w_do_sampling w;
  rep_wf : world_wf w';
  rep_clock : clock w <= clock w';
}.

(** Between [w] and [w'], the kernel refuses the new key [k] of [m] with the error
    [e]: it does so at a moment in between, when the map has the elements of [w]
    and none but those of [w']. *)
Definition map_refuses (m : mapname) (k : key m) (e : Z) (w w' : world) : Prop :=
  ∃ idx st, st_index (w_map w m) ⊆ idx /\ idx ⊆ st_index (w_map w' m) /\ idx !! k = None /\
    clock w <= k_clock st <= clock w' /\ (k_admit m idx k st).1 = Refuse e.

(** Between [w] and [w'], the kernel finds no room in ring [r]. *)
Definition ring_refuses (r : ring) (w w' : world) : Prop :=
  ∃ st, clock w <= k_clock st <= clock w' /\ (k_reserve r st).1 = false.

Lemma map_refuses_errno m k e w w' : map_refuses m k e w w' -> -4096 < e < 0 /\ e <> - EEXIST.
Proof. intros (idx & st & _ & _ & _ & _ & Hr). by eapply admit_refuse. Qed.

(** A refusal within a longer time, in which the map only grows. *)
Lemma map_refuses_within m k e w w1 w2 w' :
  st_index (w_map w m) ⊆ st_index (w_map w1 m) -> clock w <= clock w1 ->
  st_index (w_map w2 m) ⊆ st_index (w_map w' m) -> clock w2 <= clock w' ->
  map_refuses m k e w1 w2 -> map_refuses m k e w w'.
Proof.
  intros H1 C1 H2 C2 (idx & st & Hs & Hs' & Hn & Hc & Hr). exists idx, st.
  split; [by etrans|]. split; [by etrans|]. split; [done|]. split; [lia|done].
Qed.

Lemma ring_refuses_within r w w1 w2 w' :
  clock w <= clock w1 -> clock w2 <= clock w' -> ring_refuses r w1 w2 -> ring_refuses r w w'.
Proof. intros C1 C2 (st & Hc & Hr). exists st. split; [lia|done]. Qed.

(** The samples of ring [r] are now [l]; nothing else has changed. *)
Record ring_set (r : ring) (l : list (sample (payload r))) (w w' : world) : Prop := {
  rs_ring : w_ring w' r = l;
  rs_others r' : r' <> r -> w_ring w' r' = w_ring w r';
  rs_map m : w_map w' m = w_map w m;
  rs_sampling : w_do_sampling w' = w_do_sampling w;
  rs_clock : clock w <= clock w';
}.

(** Pointer [p] is the element of [k], and [cpu] reads [v] through it. *)
Definition elem_at (cpu : Z) (m : mapname) (w : world) (k : key m) (p : addr)
    (v : value m) : Prop :=
  st_index (w_map w m) !! k = Some p /\ cell_read (w_map w m) p (slot m cpu) = v.

Lemma unchanged_refl w : unchanged w w.
Proof. split; done || lia. Qed.

Lemma unchanged_wf w w' : unchanged w w' -> world_wf w -> world_wf w'.
Proof.
  intros Hu [Hw [Hg Hn]]. split; [|split].
  - intros m. rewrite (unch_map _ _ Hu). apply Hw.
  - intros c. rewrite (unch_map _ _ Hu). apply Hg.
  - rewrite (unch_map _ _ Hu). apply Hn.
Qed.

Lemma unchanged_elem w w' cpu m k : unchanged w w' -> elem cpu m w' k = elem cpu m w k.
Proof. intros Hu. apply elem_ext, Hu. Qed.

Lemma unchanged_trans w1 w2 w3 : unchanged w1 w2 -> unchanged w2 w3 -> unchanged w1 w3.
Proof. intros [] []. split; intros; etransitivity; eauto. Qed.

Lemma unchanged_refuses m k e w w1 w' :
  unchanged w w1 -> map_refuses m k e w1 w' -> map_refuses m k e w w'.
Proof.
  intros Hu. apply map_refuses_within; [by rewrite (unch_map _ _ Hu)|apply Hu|done|lia].
Qed.

Lemma elem_at_elem cpu m w k p v :
  map_type m <> LPM_TRIE -> elem_at cpu m w k p v -> elem cpu m w k = Some v.
Proof. intros Hm [Hk <-]. by rewrite elem_index, Hk. Qed.

Lemma elem_Some_at cpu m w k v :
  map_type m <> LPM_TRIE -> elem cpu m w k = Some v -> ∃ p, elem_at cpu m w k p v.
Proof.
  intros Hm. rewrite elem_index by done. intros (p & Hp & ->)%fmap_Some. by exists p.
Qed.

Lemma unchanged_elem_at w w' cpu m k p v :
  unchanged w w' -> elem_at cpu m w k p v -> elem_at cpu m w' k p v.
Proof. intros Hu. unfold elem_at. by rewrite (unch_map _ _ Hu). Qed.

(** *** Writing through a pointer, inserting, deleting *)

Lemma cell_write_updated cpu m k p v u w :
  world_wf w -> map_type m <> LPM_TRIE -> elem_at cpu m w k p u ->
  updated cpu m k v w (upd_map m (cell_write (w_map w m) p (slot m cpu) v) w).
Proof.
  intros Hw Hm [Hk Hu]. pose proof (proj1 Hw m) as Hs.
  pose proof (index_fresh _ Hs _ _ Hk) as Hp.
  split; [..|done| |cbn; unfold clock; cbn; lia].
  - rewrite elem_index, upd_map_eq by done. cbn. rewrite Hk. cbn.
    unfold cell_read. cbn. by rewrite lookup_insert_eq.
  - intros cpu' k' Hne. rewrite !elem_index, upd_map_eq by done. cbn.
    destruct (st_index _ !! k') as [p'|] eqn:Hk'; [|done]. cbn.
    unfold cell_read. cbn. rewrite lookup_insert_ne; [done|].
    intros [= <- _]. by eapply Hne, (index_inj _ Hs).
  - intros cpu' Hpc Hne. rewrite !elem_index, upd_map_eq by done. cbn. rewrite Hk. cbn.
    unfold cell_read. cbn. rewrite lookup_insert_ne; [done|].
    unfold slot. rewrite Hpc. by intros [=].
  - intros m' Hne. by rewrite upd_map_ne.
  - done.
  - apply upd_map_wf; [done| |done]. by apply cell_write_wf.
Qed.

Lemma cell_new_updated cpu m k v w st :
  world_wf w -> map_type m <> LPM_TRIE -> map_type m <> PERCPU_ARRAY ->
  st_index (w_map w m) !! k = None -> clock w <= k_clock st ->
  updated cpu m k v w
    (upd_kst st (upd_map m (cell_new (w_map w m) k (slot m cpu) v []) w)).
Proof.
  intros Hw Hm Ha Hk Hst. pose proof (proj1 Hw m) as Hs.
  assert (Hf : ∀ s k', elem cpu m (upd_kst st (upd_map m s w)) k' = elem cpu m (upd_map m s w) k')
    by done.
  assert (He : ∀ s c k', elem c m (upd_kst st (upd_map m s w)) k'
                 = (λ p, cell_read s p (slot m c)) <$> st_index s !! k').
  { intros s c k'. rewrite elem_index by done. cbn [upd_kst w_map].
    change (w_map (upd_kst st (upd_map m s w)) m) with (w_map (upd_map m s w) m).
    by rewrite upd_map_eq. }
  split.
  - rewrite He. cbn. rewrite lookup_insert_eq. cbn. unfold cell_read. cbn.
    by rewrite lookup_insert_eq.
  - intros cpu' k' Hne. rewrite He. cbn. rewrite lookup_insert_ne by done.
    rewrite elem_index by done.
    destruct (st_index _ !! k') as [p'|] eqn:Hk'; [|done]. cbn.
    unfold cell_read. cbn. rewrite lookup_insert_ne; [done|].
    pose proof (index_fresh _ Hs _ _ Hk'). intros [= ? _]. lia.
  - intros cpu' Hpc Hne. rewrite He. cbn. rewrite lookup_insert_eq. cbn.
    rewrite elem_index, Hk by done. cbn. unfold cell_read. cbn.
    rewrite lookup_insert_ne by (unfold slot; rewrite Hpc; by intros [=]).
    by rewrite (cells_fresh _ Hs) by lia.
  - intros m' Hne.
    change (w_map (upd_map m (cell_new (w_map w m) k (slot m cpu) v []) w) m' = w_map w m').
    by rewrite upd_map_ne.
  - done.
  - done.
  - apply (upd_map_wf m _ w); [done| |done]. by apply cell_new_wf.
  - done.
Qed.

(** *** Rules for the calls *)

Lemma wp_ktime cpu (Q : Z → world → Prop) w :
  (∀ t w', unchanged w w' -> is_u64 t -> clock w <= t <= clock w' -> Q t w') ->
  wp cpu (call bpf_ktime_get_ns) Q w.
Proof.
  intros HQ. apply wp_call. cbn.
  pose proof (ktime_u64 (w_kst w)). pose proof (ktime_clock (w_kst w)).
  destruct (k_ktime (w_kst w)) as [t st]. cbn in *.
  apply HQ; [split| |]; unfold clock; cbn; done || lia.
Qed.

Lemma wp_prandom cpu (Q : Z → world → Prop) w :
  (∀ x w', unchanged w w' -> is_u32 x -> Q x w') ->
  wp cpu (call bpf_get_prandom_u32) Q w.
Proof.
  intros HQ. apply wp_call. cbn.
  pose proof (prandom_u32 (w_kst w)). pose proof (prandom_clock (w_kst w)).
  destruct (k_prandom (w_kst w)) as [t st]. cbn in *.
  apply HQ; [split|]; unfold clock; cbn; done || lia.
Qed.

Lemma wp_lookup cpu m k (Q : option addr → world → Prop) w :
  map_type m <> LPM_TRIE ->
  (elem cpu m w k = None -> Q None w) ->
  (∀ p v, elem cpu m w k = Some v -> elem_at cpu m w k p v -> Q (Some p) w) ->
  wp cpu (call (bpf_map_lookup_elem m k)) Q w.
Proof.
  intros Hm HN HS. apply wp_call. cbn. rewrite map_find_index by done.
  rewrite elem_index in HN, HS by done. unfold elem_at in HS.
  destruct (st_index (w_map w m) !! k) as [p|] eqn:Hk; [|by apply HN].
  by eapply HS.
Qed.

Lemma wp_read cpu m k p v (Q : value m → world → Prop) w :
  elem_at cpu m w k p v -> Q v w -> wp cpu (call (elem_read m p)) Q w.
Proof. intros [_ Hv] HQ. apply wp_call. cbn. by rewrite Hv. Qed.

Lemma wp_write cpu m k p v f (Q : Z → world → Prop) w :
  world_wf w -> map_type m <> LPM_TRIE -> elem_at cpu m w k p v ->
  (∀ w', updated cpu m k (f v).1 w w' -> elem_at cpu m w' k p (f v).1 -> Q (f v).2 w') ->
  wp cpu (call (elem_write m p f)) Q w.
Proof.
  intros Hw Hm Hat HQ. apply wp_call. cbn.
  pose proof (index_fresh _ (proj1 Hw m) _ _ (proj1 Hat)) as Hp%N.ltb_lt.
  unfold map_write. rewrite Hp, (proj2 Hat). cbn.
  apply HQ; [by apply (cell_write_updated _ _ _ _ _ v)|].
  unfold elem_at. rewrite upd_map_eq. cbn. split; [apply Hat|].
  unfold cell_read. cbn. by rewrite lookup_insert_eq.
Qed.

Lemma wp_update_exists cpu m k v u (Q : Z → world → Prop) w :
  map_type m <> LPM_TRIE -> elem cpu m w k = Some u -> Q (- EEXIST) w ->
  wp cpu (call (bpf_map_update_elem m k v BPF_NOEXIST)) Q w.
Proof.
  intros Hm (p & Hk & _)%elem_Some_at HQ; [|done].
  apply wp_call. cbn. unfold map_update. by rewrite Hk.
Qed.

Lemma elem_None_index cpu m w k :
  map_type m <> LPM_TRIE -> elem cpu m w k = None -> st_index (w_map w m) !! k = None.
Proof. intros Hm. rewrite elem_index by done. by intros ?%fmap_None. Qed.

Lemma wp_update_new cpu m k v f (Q : Z → world → Prop) w :
  world_wf w -> is_hash m = true ->
  elem cpu m w k = None ->
  (∀ w', updated cpu m k v w w' -> Q 0 w') ->
  (∀ e w', unchanged w w' -> map_refuses m k e w w' -> Q e w') ->
  wp cpu (call (bpf_map_update_elem m k v f)) Q w.
Proof.
  intros Hw Hm Hk HQ HE.
  assert (map_type m <> LPM_TRIE /\ map_type m <> PERCPU_ARRAY /\ map_type m <> LRU_HASH)
    as (H1 & H2 & H3) by (unfold is_hash in Hm; by destruct (map_type m)).
  apply elem_None_index in Hk; [|done].
  apply wp_call. cbn. unfold map_update, map_insert. rewrite Hk, decide_False by done.
  pose proof (admit_clock m (st_index (w_map w m)) k (w_kst w)) as Hc.
  pose proof (admit_evicts m (st_index (w_map w m)) k (w_kst w)) as Hev.
  destruct (k_admit m _ k (w_kst w)) as [[ev|e] st] eqn:Ea; cbn in *.
  - rewrite (Hev ev) by done. by apply HQ, cell_new_updated.
  - apply HE; [split; done|]. exists (st_index (w_map w m)), (w_kst w).
    split; [done|]. split; [done|]. split; [done|]. by rewrite Ea.
Qed.

Lemma wp_delete cpu m k u (Q : Z → world → Prop) w :
  world_wf w -> map_type m <> LPM_TRIE -> map_type m <> PERCPU_ARRAY ->
  elem cpu m w k = Some u ->
  (∀ w', deleted m k w w' -> Q 0 w') ->
  wp cpu (call (bpf_map_delete_elem m k)) Q w.
Proof.
  intros Hw H1 H2 Hk HQ.
  apply elem_Some_at in Hk as (p & Hk & _); [|done].
  apply wp_call. cbn. unfold map_delete. rewrite decide_False, Hk by done.
  cbn [fst snd]. apply HQ. split.
  - intros c. rewrite elem_index, upd_map_eq by done. cbn. by rewrite lookup_delete_eq.
  - intros c k' Hne. rewrite !elem_index, upd_map_eq by done. cbn.
    by rewrite lookup_delete_ne.
  - intros m' Hne. by rewrite upd_map_ne.
  - done.
  - done.
  - apply upd_map_wf; [done| |done]. apply index_delete_wf, Hw.
  - unfold clock. cbn. lia.
Qed.

(** A deletion, whether or not there is an element. *)
Lemma wp_delete_any cpu m k (Q : Z → world → Prop) w :
  world_wf w -> map_type m <> LPM_TRIE -> map_type m <> PERCPU_ARRAY ->
  (∀ r w', deleted m k w w' -> Q r w') ->
  wp cpu (call (bpf_map_delete_elem m k)) Q w.
Proof.
  intros Hw H1 H2 HQ. destruct (elem cpu m w k) as [u|] eqn:E.
  { eapply wp_delete; [done..|exact E|]. apply HQ. }
  pose proof (elem_None_index _ _ _ _ H1 E) as Hk. apply wp_call. cbn. unfold map_delete.
  rewrite decide_False, Hk by done. cbn [fst snd]. apply HQ. split; try done.
  intros c. by rewrite elem_index, Hk.
Qed.

(** A write under a key, whether or not there is an element. *)
Lemma cell_new_replaced m k v w st ev :
  world_wf w -> map_type m <> LPM_TRIE -> is_percpu m = false ->
  (map_type m <> LRU_HASH -> ev = []) -> clock w <= k_clock st ->
  replaced m k v w (upd_kst st (upd_map m (cell_new (w_map w m) k (slot m 0) v ev) w)).
Proof.
  intros Hw Hm Hp Hev Hst. pose proof (proj1 Hw m) as Hs.
  assert (Hslot : ∀ c, slot m c = 0) by (intros; unfold slot; by rewrite Hp).
  assert (He : ∀ s c k', elem c m (upd_kst st (upd_map m s w)) k'
                 = (λ p, cell_read s p 0) <$> st_index s !! k').
  { intros s c k'. rewrite elem_index by done.
    change (w_map (upd_kst st (upd_map m s w)) m) with (w_map (upd_map m s w) m).
    by rewrite upd_map_eq, Hslot. }
  split; [..|done| |done].
  - intros c. rewrite He, Hslot. cbn. rewrite lookup_insert_eq. cbn. unfold cell_read. cbn.
    by rewrite lookup_insert_eq.
  - intros c k' Hne. rewrite He, Hslot, elem_index by done. cbn. rewrite lookup_insert_ne by done.
    destruct (foldr delete (st_index (w_map w m)) ev !! k') as [p|] eqn:E.
    + left. pose proof (lookup_foldr_delete _ _ _ _ E) as Hk'. rewrite Hk'. cbn.
      unfold cell_read. rewrite Hslot. cbn. rewrite lookup_insert_ne; [done|].
      pose proof (index_fresh _ Hs _ _ Hk'). intros [= ?]. lia.
    + destruct (decide (map_type m = LRU_HASH)); [by right|]. left.
      rewrite Hev in E by done. cbn in E. by rewrite E.
  - intros m' Hne. by apply upd_map_ne.
  - done.
  - apply (upd_map_wf m _ w); [done|by apply cell_new_wf|].
    intros E. unfold is_percpu in Hp. by rewrite E in Hp.
Qed.

Lemma wp_update_any cpu m k v (Q : Z → world → Prop) w :
  world_wf w -> map_type m <> LPM_TRIE -> is_percpu m = false ->
  (∀ w', replaced m k v w w' -> Q 0 w') ->
  (∀ e w', (k_admit m (st_index (w_map w m)) k (w_kst w)).1 = Refuse e -> unchanged w w' ->
     Q e w') ->
  wp cpu (call (bpf_map_update_elem m k v BPF_ANY)) Q w.
Proof.
  intros Hw Hm Hp HQ HE. apply wp_call. cbn.
  assert (Hs : slot m cpu = slot m 0) by (unfold slot; by rewrite Hp).
  assert (Hi : Q (map_insert (slot m cpu) k v (w_map w m) w).1
                 (map_insert (slot m cpu) k v (w_map w m) w).2).
  { unfold map_insert.
    pose proof (admit_clock m (st_index (w_map w m)) k (w_kst w)) as Hc.
    pose proof (admit_evicts m (st_index (w_map w m)) k (w_kst w)) as Hev.
    destruct (k_admit m _ k (w_kst w)) as [[ev|e] st]; cbn in *.
    - rewrite Hs. apply HQ, cell_new_replaced; [done..| |done]. intros Hl. by apply Hev.
    - by apply HE. }
  unfold map_update. rewrite Hp. destruct (st_index (w_map w m) !! k) as [p|]; [done|].
  rewrite decide_False; [done|]. intros E. unfold is_percpu in Hp. by rewrite E in Hp.
Qed.

(** A reservation fails only if the kernel finds no room. *)
Lemma wp_reserve_room cpu r (Q : option nat → world → Prop) w :
  (∀ w', ring_set r (w_ring w r ++ [Busy]) w w' -> Q (Some (length (w_ring w r))) w') ->
  (∀ w', (k_reserve r (w_kst w)).1 = false -> unchanged w w' -> Q None w') ->
  wp cpu (call (bpf_ringbuf_reserve r)) Q w.
Proof.
  intros HS HN. apply wp_call. cbn.
  pose proof (reserve_clock r (w_kst w)) as Hc.
  destruct (k_reserve r (w_kst w)) as [[] st]; cbn in *.
  - apply HS. split; [|intros r' ?|done..].
    + exact (upd_ring_eq r (w_ring w r ++ [Busy]) w).
    + by apply (upd_ring_ne r r' (w_ring w r ++ [Busy]) w).
  - apply HN; [done|]. split; [done..|]. done.
Qed.

Lemma wp_reserve cpu r (Q : option nat → world → Prop) w :
  (∀ w', ring_set r (w_ring w r ++ [Busy]) w w' -> Q (Some (length (w_ring w r))) w') ->
  (∀ w', unchanged w w' -> ring_refuses r w w' -> Q None w') ->
  wp cpu (call (bpf_ringbuf_reserve r)) Q w.
Proof.
  intros HS HN. apply wp_reserve_room; [done|]. intros w' Hr Hu. apply HN; [done|].
  exists (w_kst w). split; [|done]. pose proof (unch_clock _ _ Hu). unfold clock in *. lia.
Qed.

Lemma wp_submit cpu r i d (Q : unit → world → Prop) w :
  (∀ w', ring_set r (<[i := Committed d]> (w_ring w r)) w w' -> Q tt w') ->
  wp cpu (call (bpf_ringbuf_submit r i d)) Q w.
Proof.
  intros HQ. apply wp_call. apply HQ. split; [|intros r' ?|done..|cbn; unfold clock; cbn; lia].
  - apply upd_ring_eq.
  - by apply upd_ring_ne.
Qed.

(** Calls without effect between two steps. *)
Lemma ring_set_unchanged r l w w1 w2 : ring_set r l w w1 -> unchanged w1 w2 -> ring_set r l w w2.
Proof.
  intros [R1 R2 R3 R4 R5] [U1 U2 U3 U4].
  split; [by rewrite U2|intros r' ?; by rewrite U2, R2|intros m; by rewrite U1, R3
    |by rewrite U3|lia].
Qed.

Lemma unchanged_ring_set r l w w1 w2 : unchanged w w1 -> ring_set r l w1 w2 -> ring_set r l w w2.
Proof.
  intros [U1 U2 U3 U4] [R1 R2 R3 R4 R5].
  split; [done|intros r' ?; by rewrite R2, U2|intros m; by rewrite R3, U1
    |by rewrite R4|lia].
Qed.

(** A reserved sample that is submitted at once. *)
Lemma ring_set_append r d w w1 w2 :
  ring_set r (w_ring w r ++ [Busy]) w w1 ->
  ring_set r (<[length (w_ring w r) := Committed d]> (w_ring w1 r)) w1 w2 ->
  ring_set r (w_ring w r ++ [Committed d]) w w2.
Proof.
  intros [H1 H2 H3 H4 H5] [G1 G2 G3 G4 G5]. split.
  - rewrite G1, H1, insert_app_r_alt by lia. by rewrite Nat.sub_diag.
  - intros r' ?. by rewrite G2, H2.
  - intros m. by rewrite G3, H3.
  - by rewrite G4.
  - lia.
Qed.
End Views.
