(* ===== verification/Safety.v ===== *)
(** * Type safety, whatever the other CPUs do

    [wf_value] says what it means for the contents of a map element to be a
    value of its C type: every field within its width, every array of its
    length, and, for the flow metrics, an observed-interface array that is
    consistent with its counter.  [safe Q p] says that [p], whatever its helper
    calls answer within their documented ranges, makes no invalid access, only
    stores well-formed values, and ends with a result in [Q].  It does not
    mention the world, so it also holds of a program whose calls are interleaved
    with those of other CPUs. *)
From S2P Require Import Prelude Machine Types Kernel Maps.

(** ** Well-formed values *)

(** The interfaces that a flow was seen on besides the first one. *)
Definition observed_intfs (m : flow_metrics) : list Z :=
  take (Z.to_nat (fm_nb_observed_intf m)) (fm_observed_intf m).

Record wf_flow_metrics (m : flow_metrics) : Prop := {
  wfm_start : is_u64 (fm_start_mono_time_ts m);
  wfm_end : is_u64 (fm_end_mono_time_ts m);
  wfm_bytes : is_u64 (fm_bytes m);
  wfm_packets : is_u32 (fm_packets m);
  wfm_eth : is_u16 (fm_eth_protocol m);
  wfm_flags : is_u16 (fm_flags m);
  wfm_src_mac : is_bytes 6 (fm_src_mac m);
  wfm_dst_mac : is_bytes 6 (fm_dst_mac m);
  wfm_first : is_u32 (fm_if_index_first_seen m);
  wfm_sampling : is_u32 (fm_sampling m);
  wfm_direction : is_u8 (fm_direction_first_seen m);
  wfm_errno : is_u8 (fm_errno m);
  wfm_dscp : is_u8 (fm_dscp m);
  wfm_nb : 0 <= fm_nb_observed_intf m <= MAX_OBSERVED_INTERFACES;
  wfm_directions : is_bytes 6 (fm_observed_direction m);
  wfm_intfs : length (fm_observed_intf m) = 6%nat /\ Forall is_u32 (fm_observed_intf m);
  wfm_nodup : NoDup (observed_intfs m);
  wfm_not_first : fm_if_index_first_seen m ∉ observed_intfs m;
  wfm_not_zero : 0 ∉ observed_intfs m;
  wfm_ssl : is_u16 (fm_ssl_version m);
  wfm_cipher : is_u16 (fm_tls_cipher_suite m);
  wfm_share : is_u16 (fm_tls_key_share m);
  wfm_types : is_u8 (fm_tls_types m);
  wfm_misc : is_u8 (fm_misc_flags m);
}.

Definition wf_dns_metrics (m : dns_metrics) : Prop :=
  is_u64 (dm_start_mono_time_ts m) /\ is_u64 (dm_end_mono_time_ts m) /\
  is_u64 (dm_latency m) /\ is_u16 (dm_id m) /\ is_u16 (dm_flags m) /\
  is_u16 (dm_eth_protocol m) /\ is_u8 (dm_errno m) /\ is_bytes 32 (dm_name m).

Definition wf_pkt_drop_metrics (m : pkt_drop_metrics) : Prop :=
  is_u64 (pd_start_mono_time_ts m) /\ is_u64 (pd_end_mono_time_ts m) /\
  is_u16 (pd_bytes m) /\ is_u16 (pd_packets m) /\ is_u32 (pd_latest_drop_cause m) /\
  is_u16 (pd_latest_flags m) /\ is_u16 (pd_eth_protocol m) /\ is_u8 (pd_latest_state m).

Definition wf_network_events_metrics (m : network_events_metrics) : Prop :=
  is_u64 (ne_start_mono_time_ts m) /\ is_u64 (ne_end_mono_time_ts m) /\
  (length (ne_network_events m) = 4%nat /\ Forall (is_bytes 8) (ne_network_events m)) /\
  (length (ne_bytes m) = 4%nat /\ Forall is_u16 (ne_bytes m)) /\
  (length (ne_packets m) = 4%nat /\ Forall is_u16 (ne_packets m)) /\
  is_u16 (ne_eth_protocol m) /\ 0 <= ne_network_events_idx m < MAX_NETWORK_EVENTS.

Definition wf_xlat_metrics (m : xlat_metrics) : Prop :=
  is_u64 (xm_start_mono_time_ts m) /\ is_u64 (xm_end_mono_time_ts m) /\
  is_bytes 16 (xm_saddr m) /\ is_bytes 16 (xm_daddr m) /\ is_u16 (xm_sport m) /\
  is_u16 (xm_dport m) /\ is_u16 (xm_zone_id m) /\ is_u16 (xm_eth_protocol m).

Definition wf_additional_metrics (m : additional_metrics) : Prop :=
  is_u64 (am_start_mono_time_ts m) /\ is_u64 (am_end_mono_time_ts m) /\
  is_u64 (am_flow_rtt m) /\ is_s32 (am_ipsec_encrypted_ret m) /\ is_u16 (am_eth_protocol m).

Definition wf_quic_metrics (m : quic_metrics) : Prop :=
  is_u64 (qm_start_mono_time_ts m) /\ is_u64 (qm_end_mono_time_ts m) /\
  is_u32 (qm_version m) /\ is_u16 (qm_eth_protocol m) /\
  is_u8 (qm_seen_long_hdr m) /\ is_u8 (qm_seen_short_hdr m).

Definition wf_ssl_read_active_t (v : ssl_read_active_t) : Prop :=
  is_u8 (sra_ssl_type v) /\ is_u64 (sra_buf_user v) /\ is_u64 (sra_conn_user_ptr v).
Definition wf_ssl_fd_pending_t (v : ssl_fd_pending_t) : Prop :=
  is_u64 (sfk_ssl_ptr (sfp_key v)) /\ is_u32 (sfk_tgid (sfp_key v)) /\ is_s32 (sfp_fd v).

Definition wf_value (m : mapname) : value m → Prop :=
  match m return value m → Prop with
  | aggregated_flows => wf_flow_metrics
  | aggregated_flows_dns => wf_dns_metrics
  | aggregated_flows_pkt_drop => wf_pkt_drop_metrics
  | aggregated_flows_network_events => wf_network_events_metrics
  | aggregated_flows_xlat => wf_xlat_metrics
  | additional_flow_metrics => wf_additional_metrics
  | quic_flows => wf_quic_metrics
  | dns_flows => is_u64
  | global_counters => is_u32
  | dns_name_map => is_bytes 32
  | filter_map => λ v, is_u32 (fv_sample v)
  | peer_filter_map => is_u8
  | ipsec_ingress_map | ipsec_egress_map => wf_flow_id
  | ssl_read_active_map => wf_ssl_read_active_t
  | ssl_fd_map => is_s32
  | ssl_fd_pending_map => wf_ssl_fd_pending_t
  end.

Definition wf_ssl_data_event_t (d : ssl_data_event_t) : Prop :=
  is_u64 (sde_timestamp_ns d) /\ is_u64 (sde_pid_tgid d) /\
  0 <= sde_data_len d <= MAX_DATA_SIZE_OPENSSL /\ is_u8 (sde_ssl_type d) /\
  is_u8 (sde_direction d) /\ is_u8 (sde_tls_source d) /\ is_u8 (sde_tuple_valid d) /\
  is_u16 (sde_src_port d) /\ is_u16 (sde_dst_port d) /\ is_bytes 16 (sde_src_addr d) /\
  is_bytes 16 (sde_dst_addr d) /\ is_s32 (sde_socket_fd d) /\ is_u64 (sde_conn_user_ptr d) /\
  is_bytes (Z.to_nat MAX_DATA_SIZE_OPENSSL) (sde_data d).

Definition wf_payload (r : ring) : payload r → Prop :=
  match r return payload r → Prop with
  | direct_flows => λ d, wf_flow_id (fr_id d) /\ wf_flow_metrics (fr_metrics d)
  | packet_record => λ d, is_u32 (pm_if_index d) /\ is_u32 (pm_pkt_len d) /\
      is_u64 (pm_timestamp d) /\ is_bytes 256 (pm_payload d)
  | ssl_data_event_map => wf_ssl_data_event_t
  end.

Lemma zero_bytes_ok n : is_bytes n (zero_bytes n).
Proof.
  unfold zero_bytes. split; [by rewrite length_replicate|]. apply Forall_replicate. width. lia.
Qed.

Lemma zero_u8 : is_u8 0. Proof. width. lia. Qed.
Lemma zero_u16 : is_u16 0. Proof. width. lia. Qed.
Lemma zero_u32 : is_u32 0. Proof. width. lia. Qed.
Lemma zero_u64 : is_u64 0. Proof. width. lia. Qed.
Lemma zero_s32 : is_s32 0. Proof. width. lia. Qed.
#[export] Hint Resolve zero_bytes_ok zero_u8 zero_u16 zero_u32 zero_u64 zero_s32 : width.

(** Freshly allocated, zeroed memory holds a value of every type. *)
Lemma wf_value_zero m : wf_value m zeroed.
Proof.
  destruct m; [split|..];
    unfold wf_value, wf_dns_metrics, wf_pkt_drop_metrics, wf_network_events_metrics,
      wf_xlat_metrics, wf_additional_metrics, wf_quic_metrics, wf_flow_id,
      wf_ssl_read_active_t, wf_ssl_fd_pending_t;
    splits;
    try first [exact zero_u8 | exact zero_u16 | exact zero_u32 | exact zero_u64 | exact zero_s32
              | apply zero_bytes_ok | reflexivity].
  - discriminate.
  - apply Forall_replicate, zero_u32.
  - apply NoDup_nil_2.
  - apply not_elem_of_nil.
  - apply not_elem_of_nil.
  - apply Forall_replicate, zero_bytes_ok.
  - apply Forall_replicate, zero_u16.
  - apply Forall_replicate, zero_u16.
Qed.

(** ** Safe programs *)

Definition helper_ok {X} (e : helper X) : Prop :=
  match e with
  | bpf_map_update_elem m _ v _ => wf_value m v
  | elem_write m _ f => ∀ v, wf_value m v -> wf_value m (f v).1
  | bpf_ringbuf_submit r _ d => wf_payload r d
  | do_sampling_set v => is_u8 v
  | _ => True
  end.

(** What a call may answer. *)
Definition answer_ok {X} (e : helper X) : X → Prop :=
  match e in helper X return X → Prop with
  | bpf_ktime_get_ns => is_u64
  | bpf_get_prandom_u32 => is_u32
  | bpf_map_update_elem _ _ _ _ => λ r, -4096 < r <= 0
  | bpf_map_delete_elem _ _ => λ r, -4096 < r <= 0
  | elem_read m _ => wf_value m
  | elem_write m _ f => λ r, ∃ v, wf_value m v /\ r = (f v).2
  | do_sampling_get => is_u8
  | _ => λ _, True
  end.

Fixpoint safe {A} (Q : A → Prop) (p : prog A) : Prop :=
  match p with
  | Ret a => Q a
  | Fault => False
  | Vis e k => helper_ok e /\ ∀ x, answer_ok e x -> safe Q (k x)
  end.

Lemma safe_ret {A} (Q : A → Prop) a : Q a -> safe Q (Ret a).
Proof. done. Qed.

Lemma safe_bind {A B} (Q : B → Prop) (p : prog A) (f : A → prog B) :
  safe (λ a, safe Q (f a)) p -> safe Q (p ≫= f).
Proof.
  induction p as [a| |X e k IH]; cbn; [done..|].
  intros [He Hk]. split; [done|]. intros x Hx. apply IH, Hk, Hx.
Qed.

Lemma safe_call {X} (Q : X → Prop) (e : helper X) :
  helper_ok e -> (∀ x, answer_ok e x -> Q x) -> safe Q (call e).
Proof. done. Qed.

Lemma safe_mono {A} (Q Q' : A → Prop) (p : prog A) :
  safe Q p -> (∀ a, Q a -> Q' a) -> safe Q' p.
Proof.
  intros Hp HQ. induction p as [a| |X e k IH]; cbn in *; [auto|done|].
  destruct Hp as [He Hk]. split; [done|]. intros x Hx. by apply IH, Hk.
Qed.

Lemma safe_deref {A} (Q : A → Prop) (o : option A) a : o = Some a -> Q a -> safe Q (deref o).
Proof. by intros ->. Qed.

Section Run.
Context {K : Kernel} {KL : KernelLaws K}.

(** Every element of every map holds a value of its type. *)
Definition typed (w : world) : Prop :=
  (∀ m p c v, st_cells (w_map w m) !! (p, c) = Some v -> wf_value m v) /\
  is_u8 (w_do_sampling w).

Lemma typed_read w m p c : typed w -> wf_value m (cell_read (w_map w m) p c).
Proof.
  intros [Hw _]. unfold cell_read.
  destruct (st_cells _ !! _) eqn:E; [by eapply Hw | apply wf_value_zero].
Qed.

Lemma typed_elem cpu m w k v : typed w -> elem cpu m w k = Some v -> wf_value m v.
Proof.
  intros Hw. unfold elem. destruct (map_find _ _ _); [|done].
  intros [= <-]. by apply typed_read.
Qed.

Lemma typed_upd m s w :
  typed w -> (∀ p c v, st_cells s !! (p, c) = Some v -> wf_value m v) -> typed (upd_map m s w).
Proof.
  intros [Hw Hs] Hm. split; [|done]. intros m'. destruct (decide (m = m')) as [<-|].
  - by rewrite upd_map_eq.
  - rewrite upd_map_ne by done. apply Hw.
Qed.

(** A safe call answers in range and keeps every value well-formed. *)
Lemma typed_insert {m} c k v s w :
  typed w -> wf_value m v -> s = w_map w m ->
  -4096 < (map_insert c k v s w).1 <= 0 /\ typed (map_insert c k v s w).2.
Proof.
  intros Hw Hv ->. unfold map_insert.
  pose proof (admit_refuse m (st_index (w_map w m)) k (w_kst w)) as Hr.
  destruct (k_admit _ _ _ _) as [[ev|e] st]; cbn.
  - split; [lia|]. apply (typed_upd m _ w); [done|]. cbn.
    intros p c' u [[_ <-]|[_ ?]]%lookup_insert_Some; [done|]. by eapply (proj1 Hw).
  - destruct (Hr e eq_refl). split; [lia|done].
Qed.

Lemma helper_sem_ok {X} cpu (e : helper X) w :
  typed w -> helper_ok e ->
  answer_ok e (helper_sem cpu e w).1 /\ typed (helper_sem cpu e w).2.
Proof.
  intros Hw He. destruct e; cbn in *.
  - pose proof (ktime_u64 (w_kst w)). by destruct (k_ktime _).
  - pose proof (prandom_u32 (w_kst w)). by destruct (k_prandom _).
  - done.
  - unfold map_update. repeat (case_match || case_decide);
      try (by apply typed_insert); try (split; [unfold ENOENT, EEXIST; cbn; lia|done]).
    cbn. split; [lia|]. apply typed_upd; [done|]. cbn.
    intros p' c' u [[_ <-]|[_ ?]]%lookup_insert_Some; [done|]. by eapply (proj1 Hw).
  - unfold map_delete. case_decide; [split; [unfold EINVAL; cbn; lia|done]|].
    case_match; (split; [unfold ENOENT; cbn; lia|]); [|done].
    by apply typed_upd; [|apply Hw].
  - split; [by apply typed_read|done].
  - unfold map_write. cbn. split.
    + eexists. split; [by apply typed_read|done].
    + case_match; [|done]. apply typed_upd; [done|]. cbn.
      intros p' c' u [[_ <-]|[_ ?]]%lookup_insert_Some; [by apply He, typed_read|].
      by eapply (proj1 Hw).
  - by destruct (k_reserve _ _) as [[] ?].
  - done.
  - done.
  - by split; [apply Hw|].
  - split; [done|]. by split; [apply Hw|].
Qed.

Lemma run_safe {A} cpu (Q : A → Prop) (p : prog A) w :
  safe Q p -> typed w ->
  ∃ a, (run cpu p w).1 = Some a /\ Q a /\ typed (run cpu p w).2.
Proof.
  revert w. induction p as [a| |X e k IH]; intros w Hp Hw; cbn in *; [by exists a|done|].
  destruct Hp as [He Hk]. destruct (helper_sem_ok cpu e w Hw He) as [Ha Ht].
  destruct (helper_sem cpu e w) as [x w']. by apply IH; [apply Hk|].
Qed.

(** With a postcondition about the world. *)
Lemma wp_safe {A} cpu (Q : A → Prop) (p : prog A) w :
  safe Q p -> typed w -> wp cpu p (λ a w', Q a /\ typed w') w.
Proof.
  intros Hp Hw. destruct (run_safe cpu Q p w Hp Hw) as (a & Ha & HQ & Ht).
  unfold wp. destruct (run cpu p w) as [? w']. cbn in *. by rewrite Ha.
Qed.

(** *** Programs known by their safety and their footprint only *)

Record framed (ms : list mapname) (rs : list ring) (w w' : world) : Prop := {
  fr_typed : typed w';
  fr_wf : world_wf w';
  fr_clock : clock w <= clock w';
  fr_map m : m ∉ ms -> w_map w' m = w_map w m;
  fr_ring r : r ∉ rs -> w_ring w' r = w_ring w r;
  fr_sampling : w_do_sampling w' = w_do_sampling w;
}.

Lemma wp_framed {A} cpu (Q : A → Prop) (p : prog A) ms rs (R : A → world → Prop) w :
  safe Q p -> writes ms rs p -> typed w -> world_wf w ->
  (∀ a w', Q a -> framed ms rs w w' -> R a w') -> wp cpu p R w.
Proof.
  intros Hs Hp Ht Hw HR. destruct (run_safe cpu Q p w Hs Ht) as (a & Ha & HQ & Ht').
  pose proof (run_wf cpu p w Hw) as Hw'. pose proof (run_clock cpu p w) as Hc.
  pose proof (λ m, run_map_frame cpu p ms rs w m Hp) as Hm.
  pose proof (λ r, run_ring_frame cpu p ms rs w r Hp) as Hr.
  pose proof (run_sampling_frame cpu p ms rs w Hp) as Hsm.
  unfold wp. destruct (run cpu p w) as [o w']. cbn in *. subst o. apply HR; [done|by split].
Qed.

Lemma framed_refl ms rs w : typed w -> world_wf w -> framed ms rs w w.
Proof. intros ??. split; done || lia. Qed.

Lemma framed_trans ms rs w1 w2 w3 : framed ms rs w1 w2 -> framed ms rs w2 w3 -> framed ms rs w1 w3.
Proof.
  intros H1 H2. split; [apply H2..| | | |].
  - pose proof (fr_clock _ _ _ _ H1). pose proof (fr_clock _ _ _ _ H2). lia.
  - intros m Hm. rewrite (fr_map _ _ _ _ H2) by done. by apply H1.
  - intros r Hr. rewrite (fr_ring _ _ _ _ H2) by done. by apply H1.
  - rewrite (fr_sampling _ _ _ _ H2). apply H1.
Qed.

Lemma framed_mono ms rs ms' rs' w w' :
  framed ms rs w w' -> ms ⊆ ms' -> rs ⊆ rs' -> framed ms' rs' w w'.
Proof. intros [] Hm Hr. split; try done; intros; auto. Qed.

Lemma unchanged_typed w w' : unchanged w w' -> typed w -> typed w'.
Proof.
  intros Hu Ht. split; [|rewrite (unch_sampling _ _ Hu); apply Ht].
  intros m p c v. rewrite (unch_map _ _ Hu). apply Ht.
Qed.

Lemma unchanged_framed ms rs w w' :
  typed w -> world_wf w -> unchanged w w' -> framed ms rs w w'.
Proof.
  intros Ht Hw Hu. split; [by eapply unchanged_typed|by eapply unchanged_wf| | | |].
  - apply Hu.
  - intros m _. apply Hu.
  - intros r _. apply Hu.
  - apply Hu.
Qed.

Lemma ring_set_framed r l ms rs w w' :
  r ∈ rs -> typed w -> world_wf w -> ring_set r l w w' -> framed ms rs w w'.
Proof.
  intros Hr Ht Hw [R1 R2 R3 R4 R5]. split; try done.
  - split; [|rewrite R4; apply Ht]. intros m p c v. rewrite R3. apply Ht.
  - destruct Hw as [Hw [Hg Hn]]. split; [intros m; by rewrite R3|].
    split; [intros c; by rewrite R3|by rewrite R3].
  - intros r' Hne. apply R2. by intros ->.
Qed.

Lemma framed_elem ms rs w w' cpu m k :
  framed ms rs w w' -> m ∉ ms -> elem cpu m w' k = elem cpu m w k.
Proof. intros Hf Hm. by apply elem_ext, Hf. Qed.
End Run.
