(* ===== verification/RefKernel.v ===== *)
(** * A kernel that satisfies the documented behaviour

    [KernelLaws] is satisfiable: a simple deterministic kernel whose clock is a
    counter, whose maps and ring buffers have room or not as its state says,
    whose tries pick the longest covering prefix by a linear scan, and whose
    load helpers copy the bytes of the packet.  The examples of the development
    run the programs on it, from a world whose arrays are full and whose other
    maps are empty.  With room it refuses nothing ([roomy_map_accepts]). *)
From S2P Require Import Prelude Machine Types Kernel Maps Safety.

(** The hidden state: the time and the next random numbers. *)
Record ref_state := mk_ref_state {
  rs_time : Z;
  rs_random : list Z;
}.
#[export] Instance eta_ref_state : Eta ref_state := λ x,
  mk_ref_state (rs_time x) (rs_random x).

Definition ENOMEM : Z := 12.
Definition EFAULT : Z := 14.

(** Times stay inside 64 bits. *)
Definition ref_clock (s : ref_state) : Z := Z.max 0 (Z.min (rs_time s) (2 ^ 64 - 1)).

Definition ref_ktime (s : ref_state) : Z * ref_state :=
  (ref_clock s, s <| rs_time ::= Z.succ |>).

Definition ref_prandom (s : ref_state) : Z * ref_state :=
  match rs_random s with
  | [] => (0, s)
  | x :: l => (u32 x, s <| rs_random := l |>)
  end.

(** The better of two candidates for a key. *)
Definition lpm_better (k : filter_key_t) (best : option filter_key_t) (e : filter_key_t)
    : option filter_key_t :=
  if decide (covers e k) then
    match best with
    | Some b => if fk_prefix_len b <? fk_prefix_len e then Some e else best
    | None => Some e
    end
  else best.

Definition ref_lpm (ks : list filter_key_t) (k : filter_key_t) : option filter_key_t :=
  foldl (lpm_better k) None ks.

Definition ref_load (mem : list Z) (off len : Z) : Z * list Z :=
  match slice mem off len with
  | Some bs => (0, bs)
  | None => (- EFAULT, zero_bytes (Z.to_nat len))
  end.

(** The kernel, whose maps and ring buffers have room for ever or not. *)
Definition RefKernel (map_room ring_room : bool) : Kernel := {|
  kst := ref_state;
  k_ktime := ref_ktime;
  k_prandom := ref_prandom;
  k_admit _ _ _ s := (if map_room then Accept [] else Refuse (- ENOMEM), s);
  k_reserve _ s := (ring_room, s);
  k_lpm := ref_lpm;
  k_skb_load_bytes skb := ref_load (skb_bytes skb);
  k_probe_read := ref_load;
|}.

(** ** The laws *)

Lemma ref_load_ok mem off len :
  0 <= off -> 0 < len -> Forall is_u8 mem -> load_spec mem off len (ref_load mem off len).
Proof.
  intros Ho Hl Hm. unfold load_spec, ref_load.
  destruct (slice mem off len) as [bs|] eqn:E; cbn [fst snd].
  - split_and!; [by eapply slice_length|by eapply slice_Forall|done].
  - pose proof (zero_bytes_ok (Z.to_nat len)) as [??]. split_and!; done.
Qed.

(** What the scan has found after some of the entries. *)
Definition lpm_best (ks : list filter_key_t) (k : filter_key_t) (o : option filter_key_t) : Prop :=
  match o with
  | Some e => e ∈ ks /\ covers e k /\
      ∀ e', e' ∈ ks -> covers e' k -> fk_prefix_len e' <= fk_prefix_len e
  | None => ∀ e, e ∈ ks -> ~ covers e k
  end.

Lemma lpm_better_best ks k o e :
  lpm_best ks k o -> lpm_best (ks ++ [e]) k (lpm_better k o e).
Proof.
  assert (Hin : ∀ x, x ∈ ks ++ [e] <-> x ∈ ks \/ x = e)
    by (intros x; by rewrite elem_of_app, list_elem_of_singleton).
  unfold lpm_better, lpm_best. intros Ho.
  destruct (decide (covers e k)) as [He|He]; destruct o as [b|].
  - destruct Ho as (Hb & Hc & Hmax). destruct (_ <? _) eqn:E; bool_to_prop.
    + split_and!; [apply Hin; by right|done|]. intros e' [H| ->]%Hin He'; [|lia].
      specialize (Hmax e' H He'). lia.
    + split_and!; [apply Hin; by left|done|]. intros e' [H| ->]%Hin He'; [by apply Hmax|lia].
  - split_and!; [apply Hin; by right|done|]. intros e' [H| ->]%Hin He'; [by destruct (Ho e')|lia].
  - destruct Ho as (Hb & Hc & Hmax). split_and!; [apply Hin; by left|done|].
    intros e' [H| ->]%Hin He'; [by apply Hmax|done].
  - intros e' [H| ->]%Hin; [by apply Ho|done].
Qed.

Lemma ref_lpm_best ks k : lpm_best ks k (ref_lpm ks k).
Proof.
  unfold ref_lpm. induction ks as [|e ks IH] using rev_ind.
  - intros e He. by apply not_elem_of_nil in He.
  - rewrite foldl_app. by apply lpm_better_best.
Qed.

Lemma RefKernelLaws map_room ring_room : KernelLaws (RefKernel map_room ring_room).
Proof.
  refine {| k_clock := ref_clock : @kst (RefKernel map_room ring_room) → Z |}; cbn.
  - intros s. unfold ref_clock, is_u64. lia.
  - intros s. unfold ref_clock. cbn. lia.
  - intros [t [|x l]]; cbn; [exact zero_u32|apply u32_range].
  - intros [t [|x l]]; done.
  - done.
  - intros m idx k s e. destruct map_room; [done|]. intros [= <-]. done.
  - intros m idx k s ev. destruct map_room; [|done]. by intros [= <-].
  - done.
  - intros ks k e He. pose proof (ref_lpm_best ks k) as Hb. by rewrite He in Hb.
  - intros ks k e He. pose proof (ref_lpm_best ks k) as Hb. rewrite He in Hb. apply Hb.
  - intros skb off len Ho Hl Hu. by apply ref_load_ok.
  - intros mem off len Ho Hl Hu. by apply ref_load_ok.
Defined.

#[export] Existing Instance RefKernelLaws.

(** The kernel of most examples. *)
#[export] Instance roomy : Kernel := RefKernel true true.
#[export] Instance roomy_laws : KernelLaws roomy := RefKernelLaws true true.

(** ** Refusals *)

(** A kernel with room never refuses an element or a sample. *)
Lemma roomy_map_accepts ring_room (w w' : @world (RefKernel true ring_room)) m k e :
  ~ map_refuses m k e w w'.
Proof. intros (idx & st & _ & _ & _ & _ & Hr). discriminate Hr. Qed.

Lemma roomy_ring_accepts map_room (w w' : @world (RefKernel map_room true)) r :
  ~ ring_refuses r w w'.
Proof. intros (st & _ & Hr). discriminate Hr. Qed.

(** ** An initial world *)

#[export] Instance little_endian : Host := true.

Definition empty_store (m : mapname) : store m := mk_store ∅ ∅ 0%N.

(** The arrays of the programs have all their elements. *)
Definition full_array (m : mapname) (keys : list (key m)) : store m :=
  mk_store (list_to_map (zip keys (N.of_nat <$> seq 0 (length keys)))) ∅
    (N.of_nat (length keys)).

Definition counter_keys : list (key global_counters) :=
  Z.of_nat <$> seq 0 (Z.to_nat MAX_COUNTERS).

Definition init_stores (m : mapname) : store m :=
  match m with
  | global_counters => full_array global_counters counter_keys
  | dns_name_map => full_array dns_name_map [0]
  | m => empty_store m
  end.

(** The world at time [t]. *)
Definition init_world {map_room ring_room} (t : Z) : @world (RefKernel map_room ring_room) :=
  mk_world (RefKernel map_room ring_room) init_stores (λ _, []) 0 (mk_ref_state t []).

Lemma empty_store_wf m : store_wf (empty_store m).
Proof. split; done. Qed.

Lemma full_array_wf m keys : NoDup keys -> store_wf (full_array m keys).
Proof.
  intros Hk. set (ps := N.of_nat <$> seq 0 (length keys)).
  assert (Hl : length ps = length keys) by (unfold ps; by rewrite length_fmap, length_seq).
  assert (Hz : ∀ k p, (list_to_map (zip keys ps) : gmap (key m) N) !! k = Some p ->
    ∃ i, keys !! i = Some k /\ p = N.of_nat i /\ (i < length keys)%nat).
  { intros k p Hp. apply elem_of_list_to_map_2 in Hp.
    apply list_elem_of_lookup in Hp as [i Hi].
    apply lookup_zip_with_Some in Hi as (k' & p' & [= <- <-] & Hi & Hj).
    exists i. split; [done|]. apply list_lookup_fmap_Some in Hj as (j & -> & Hj).
    apply lookup_seq in Hj as [-> ?]. split; [done|lia]. }
  split; cbn.
  - intros k p (i & _ & -> & ?)%Hz. lia.
  - intros k k' p (i & Hi & -> & _)%Hz (j & Hj & Hij & _)%Hz.
    apply Nat2N.inj in Hij as ->. congruence.
  - done.
Qed.

Lemma init_world_wf {mr rr} t : @world_wf (RefKernel mr rr) (init_world t).
Proof.
  split.
  - intros m. destruct m; try apply empty_store_wf; apply full_array_wf;
      apply (bool_decide_unpack _); by vm_compute.
  - split; [intros c; destruct c|]; vm_compute; by eexists.
Qed.

Lemma init_world_typed {mr rr} t : @typed (RefKernel mr rr) (init_world t).
Proof. split; [by intros m p c v Hv; destruct m|]. apply (bool_decide_unpack _). by vm_compute. Qed.

(** The initial world of most examples. *)
Definition start (t : Z) : @world roomy := init_world t.
Lemma start_wf t : world_wf (start t).
Proof. apply init_world_wf. Qed.
Lemma start_typed t : typed (start t).
Proof. apply init_world_typed. Qed.
