(* ===== verification/PacketUtils.v ===== *)
(** * Packet parsing and counters ([bpf/common/packet_utils.h])

    The parser reads the linear data of the packet directly.  [d] is that
    memory; a pointer into it is an offset, and a header is read with
    [load_*], which is [None] when the header does not lie inside [d].  The
    parser itself compares against [data_end] as the source does, and the
    theorems show that no load is ever out of bounds. *)
From S2P Require Import Prelude Machine Types Kernel Maps Safety.

(** ** Headers ([vmlinux.h]) *)

Record ethhdr := mk_ethhdr { h_dest : list Z; h_source : list Z; h_proto : Z }.
Definition sizeof_ethhdr : Z := 14.

Record iphdr := mk_iphdr {
  ip_tos : Z; ip_protocol : Z; ip_saddr : list Z; ip_daddr : list Z }.
Definition sizeof_iphdr : Z := 20.

(** [ip6_first] is the first 16-bit word, which the code reads through a cast. *)
Record ipv6hdr := mk_ipv6hdr {
  ip6_first : Z; ip6_nexthdr : Z; ip6_saddr : list Z; ip6_daddr : list Z }.
Definition sizeof_ipv6hdr : Z := 40.

Record tcphdr := mk_tcphdr {
  th_source : Z; th_dest : Z; th_doff : Z;
  th_fin : bool; th_syn : bool; th_rst : bool; th_psh : bool;
  th_ack : bool; th_urg : bool; th_ece : bool; th_cwr : bool }.
Definition sizeof_tcphdr : Z := 20.

Record udphdr := mk_udphdr { uh_source : Z; uh_dest : Z; uh_len : Z }.
Definition sizeof_udphdr : Z := 8.

Record sctphdr := mk_sctphdr { sh_source : Z; sh_dest : Z }.
Definition sizeof_sctphdr : Z := 12.

Record icmphdr := mk_icmphdr { icmp_type : Z; icmp_code : Z }.
Definition sizeof_icmphdr : Z := 8.

Section Parse.
Context `{Host}.

(** A struct as the C code sees it, from its bytes.  Multi-byte fields are
    loaded in host order, as the code loads them before it swaps them. *)
Definition decode_ethhdr (b : list Z) : ethhdr :=
  mk_ethhdr (take 6 b) (take 6 (drop 6 b)) (obj16 b 12).
Definition decode_iphdr (b : list Z) : iphdr :=
  mk_iphdr (byte_at b 1) (byte_at b 9) (take 4 (drop 12 b)) (take 4 (drop 16 b)).
Definition decode_ipv6hdr (b : list Z) : ipv6hdr :=
  mk_ipv6hdr (obj16 b 0) (byte_at b 6) (take 16 (drop 8 b)) (take 16 (drop 24 b)).
Definition decode_tcphdr (b : list Z) : tcphdr :=
  let f := byte_at b 13 in
  mk_tcphdr (obj16 b 0) (obj16 b 2) (Z.shiftr (byte_at b 12) 4)
    (Z.testbit f 0) (Z.testbit f 1) (Z.testbit f 2) (Z.testbit f 3)
    (Z.testbit f 4) (Z.testbit f 5) (Z.testbit f 6) (Z.testbit f 7).
Definition decode_udphdr (b : list Z) : udphdr :=
  mk_udphdr (obj16 b 0) (obj16 b 2) (obj16 b 4).
Definition decode_sctphdr (b : list Z) : sctphdr := mk_sctphdr (obj16 b 0) (obj16 b 2).
Definition decode_icmphdr (b : list Z) : icmphdr := mk_icmphdr (byte_at b 0) (byte_at b 1).

(** ** Flags *)

Definition set_flags (th : tcphdr) (flags : Z) : Z :=
  if th_ack th && th_syn th then Z.lor flags SYN_ACK_FLAG
  else if th_ack th && th_fin th then Z.lor flags FIN_ACK_FLAG
  else if th_ack th && th_rst th then Z.lor flags RST_ACK_FLAG
  else if th_fin th then Z.lor flags FIN_FLAG
  else if th_syn th then Z.lor flags SYN_FLAG
  else if th_ack th then Z.lor flags ACK_FLAG
  else if th_rst th then Z.lor flags RST_FLAG
  else if th_psh th then Z.lor flags PSH_FLAG
  else if th_urg th then Z.lor flags URG_FLAG
  else if th_ece th then Z.lor flags ECE_FLAG
  else if th_cwr th then Z.lor flags CWR_FLAG
  else flags.

Definition ipv4_get_dscp (iph : iphdr) : Z :=
  Z.land (Z.shiftr (ip_tos iph) DSCP_SHIFT) DSCP_MASK.

Definition ipv6_get_dscp (ipv6h : ipv6hdr) : Z :=
  Z.land (Z.shiftr (Z.shiftr (bpf_ntohs (ip6_first ipv6h)) 4) DSCP_SHIFT) DSCP_MASK.

(** ** L4 *)

Definition set_ports (sport dport : Z) (id : flow_id) : flow_id :=
  id <| fid_src_port := sport |> <| fid_dst_port := dport |>.

Definition fill_l4info (d : list Z) (l4_hdr_start data_end protocol : Z)
    (pkt : pkt_info) : option pkt_info :=
  let pkt := pkt <| pi_id ::= set fid_transport_protocol (λ _, protocol) |> in
  if protocol =? IPPROTO_TCP then
    if l4_hdr_start + sizeof_tcphdr <=? data_end then
      tcp ← decode_tcphdr <$> slice d l4_hdr_start sizeof_tcphdr;
      Some (pkt
        <| pi_id ::= set_ports (bpf_ntohs (th_source tcp)) (bpf_ntohs (th_dest tcp)) |>
        <| pi_flags ::= set_flags tcp |>
        <| pi_l4_hdr := Some l4_hdr_start |>)
    else Some pkt
  else if protocol =? IPPROTO_UDP then
    if l4_hdr_start + sizeof_udphdr <=? data_end then
      udp ← decode_udphdr <$> slice d l4_hdr_start sizeof_udphdr;
      Some (pkt
        <| pi_id ::= set_ports (bpf_ntohs (uh_source udp)) (bpf_ntohs (uh_dest udp)) |>
        <| pi_l4_hdr := Some l4_hdr_start |>)
    else Some pkt
  else if protocol =? IPPROTO_SCTP then
    if l4_hdr_start + sizeof_sctphdr <=? data_end then
      sctph ← decode_sctphdr <$> slice d l4_hdr_start sizeof_sctphdr;
      Some (pkt
        <| pi_id ::= set_ports (bpf_ntohs (sh_source sctph)) (bpf_ntohs (sh_dest sctph)) |>
        <| pi_l4_hdr := Some l4_hdr_start |>)
    else Some pkt
  else if protocol =? IPPROTO_ICMP then
    if l4_hdr_start + sizeof_icmphdr <=? data_end then
      icmph ← decode_icmphdr <$> slice d l4_hdr_start sizeof_icmphdr;
      Some (pkt
        <| pi_id ::= set fid_icmp_type (λ _, icmp_type icmph) |>
        <| pi_id ::= set fid_icmp_code (λ _, icmp_code icmph) |>
        <| pi_l4_hdr := Some l4_hdr_start |>)
    else Some pkt
  else if protocol =? IPPROTO_ICMPV6 then
    if l4_hdr_start + sizeof_icmphdr <=? data_end then
      icmp6h ← decode_icmphdr <$> slice d l4_hdr_start sizeof_icmphdr;
      Some (pkt
        <| pi_id ::= set fid_icmp_type (λ _, icmp_type icmp6h) |>
        <| pi_id ::= set fid_icmp_code (λ _, icmp_code icmp6h) |>
        <| pi_l4_hdr := Some l4_hdr_start |>)
    else Some pkt
  else Some pkt.

(** ** L3 and L2: the result is the return value and the packet info, and
    for [fill_ethhdr] the EtherType as well. *)

Definition fill_iphdr (d : list Z) (ip data_end : Z) (pkt : pkt_info)
    : option (Z * pkt_info) :=
  let l4_hdr_start := ip + sizeof_iphdr in
  if data_end <? l4_hdr_start then Some (DISCARD, pkt)
  else
    iph ← decode_iphdr <$> slice d ip sizeof_iphdr;
    let pkt := pkt
      <| pi_id ::= set fid_src_ip (λ _, ip4in6 ++ ip_saddr iph) |>
      <| pi_id ::= set fid_dst_ip (λ _, ip4in6 ++ ip_daddr iph) |>
      <| pi_dscp := ipv4_get_dscp iph |> in
    pkt ← fill_l4info d l4_hdr_start data_end (ip_protocol iph) pkt;
    Some (SUBMIT, pkt).

Definition fill_ip6hdr (d : list Z) (ip data_end : Z) (pkt : pkt_info)
    : option (Z * pkt_info) :=
  let l4_hdr_start := ip + sizeof_ipv6hdr in
  if data_end <? l4_hdr_start then Some (DISCARD, pkt)
  else
    iph ← decode_ipv6hdr <$> slice d ip sizeof_ipv6hdr;
    let pkt := pkt
      <| pi_id ::= set fid_src_ip (λ _, ip6_saddr iph) |>
      <| pi_id ::= set fid_dst_ip (λ _, ip6_daddr iph) |>
      <| pi_dscp := ipv6_get_dscp iph |> in
    pkt ← fill_l4info d l4_hdr_start data_end (ip6_nexthdr iph) pkt;
    Some (SUBMIT, pkt).

Definition fill_ethhdr (d : list Z) (eth data_end : Z) (pkt : pkt_info)
    (eth_protocol : Z) : option (Z * pkt_info * Z) :=
  if data_end <? eth + sizeof_ethhdr then Some (DISCARD, pkt, eth_protocol)
  else
    ethh ← decode_ethhdr <$> slice d eth sizeof_ethhdr;
    let eth_protocol := bpf_ntohs (h_proto ethh) in
    if eth_protocol =? ETH_P_IP then
      r ← fill_iphdr d (eth + sizeof_ethhdr) data_end pkt;
      Some (r, eth_protocol)
    else if eth_protocol =? ETH_P_IPV6 then
      r ← fill_ip6hdr d (eth + sizeof_ethhdr) data_end pkt;
      Some (r, eth_protocol)
    else Some (DISCARD, pkt, eth_protocol).
End Parse.

(** ** Counters *)

Definition increase_counter (k : Z) : prog unit :=
  p ← call (bpf_map_lookup_elem global_counters k);
  match p with
  | None => _ ← call (bpf_map_update_elem global_counters k 1 BPF_ANY); mret tt
  | Some p => _ ← call (elem_write global_counters p (λ v, (u32 (v + 1), v))); mret tt
  end.

(** ** Memory safety of the parser *)

Section Safety.
Context `{Host}.
Implicit Types d : list Z.

(** The size of the L4 header that [fill_l4info] checks for. *)
Definition l4_size (protocol : Z) : Z :=
  if protocol =? IPPROTO_TCP then sizeof_tcphdr
  else if protocol =? IPPROTO_UDP then sizeof_udphdr
  else if protocol =? IPPROTO_SCTP then sizeof_sctphdr
  else sizeof_icmphdr.

(** The L4 pointer of a parsed packet points to a whole header. *)
Definition l4_ok (d : list Z) (pkt : pkt_info) : Prop :=
  ∀ off, pi_l4_hdr pkt = Some off ->
    0 <= off /\
    off + l4_size (fid_transport_protocol (pi_id pkt)) <= Z.of_nat (length d).

Lemma load_ok d off n :
  0 <= off -> 0 <= n -> off + n <= Z.of_nat (length d) ->
  ∃ b, slice d off n = Some b /\ length b = Z.to_nat n /\
       (Forall is_u8 d -> Forall is_u8 b).
Proof.
  intros ???. destruct (proj2 (slice_is_Some d off n)) as [b Hb]; [done|].
  exists b. split; [done|]. split; [by eapply slice_length|].
  intros HF. by eapply slice_Forall.
Qed.

(** Well-formedness of what the parser has found so far. *)
Record parsed (d : list Z) (pkt : pkt_info) : Prop := {
  parsed_id : wf_flow_id (pi_id pkt);
  parsed_flags : is_u16 (pi_flags pkt);
  parsed_dscp : 0 <= pi_dscp pkt < 64;
  parsed_l4 : l4_ok d pkt;
}.

Lemma set_flags_u16 th f : is_u16 f -> is_u16 (set_flags th f).
Proof.
  intros Hf. unfold set_flags.
  repeat case_match; try done; apply lor_u16; try done; width; by compute.
Qed.

Lemma land_dscp x : 0 <= Z.land x DSCP_MASK < 64.
Proof.
  change DSCP_MASK with (Z.ones 6). rewrite Z.land_ones by lia.
  by apply Z.mod_pos_bound.
Qed.

Lemma bpf_ntohs_u16 l i : Forall is_u8 l -> is_u16 (bpf_ntohs (obj16 l i)).
Proof. intros. rewrite ntohs_obj16 by done. auto with width. Qed.

#[local] Hint Resolve set_flags_u16 bpf_ntohs_u16 : width.

(** Before L4: the addresses and DSCP may be set, the L4 pointer is null. *)
Definition pre_l4 (pkt : pkt_info) : Prop :=
  wf_flow_id (pi_id pkt) /\ is_u16 (pi_flags pkt) /\ 0 <= pi_dscp pkt < 64 /\
  pi_l4_hdr pkt = None.

Lemma pre_l4_parsed d pkt : pre_l4 pkt -> parsed d pkt.
Proof. intros (?&?&?&Hn). split; [done..|]. unfold l4_ok. by rewrite Hn. Qed.

(** One L4 case: when the size check passes the load succeeds. *)
Local Ltac l4_branch n :=
  match goal with
  | |- context [?l4 + n <=? Z.of_nat (length ?d)] =>
      destruct (l4 + n <=? Z.of_nat (length d)) eqn:?; [|by eexists];
      bool_to_prop;
      destruct (load_ok d l4 n) as (b & -> & _ & Hb); [lia|done|done|];
      cbn [fmap option_fmap option_map mbind option_bind];
      eexists; split; [reflexivity|]; subst; specialize (Hb ltac:(done));
      split; [unfold wf_flow_id; cbn; split_and!; auto with width
             |cbn; auto with width|done|intros off [= <-]; cbn; split; [done|by cbn]]
  end.

Lemma fill_l4info_ok d l4 proto pkt :
  Forall is_u8 d -> is_u8 proto -> 0 <= l4 -> pre_l4 pkt ->
  ∃ pkt', fill_l4info d l4 (Z.of_nat (length d)) proto pkt = Some pkt' /\ parsed d pkt'.
Proof.
  intros Hd Hp Hl4 (Hid & Hfl & Hds & Hn). unfold fill_l4info.
  assert (Hnone : parsed d (pkt <| pi_id ::= set fid_transport_protocol (λ _, proto) |>)).
  { apply pre_l4_parsed. unfold pre_l4, wf_flow_id in *. cbn. tauto. }
  destruct Hid as (?&?&?&?&_&?&?).
  destruct (proto =? IPPROTO_TCP) eqn:E1; [l4_branch sizeof_tcphdr|].
  destruct (proto =? IPPROTO_UDP) eqn:E2; [l4_branch sizeof_udphdr|].
  destruct (proto =? IPPROTO_SCTP) eqn:E3; [l4_branch sizeof_sctphdr|].
  destruct (proto =? IPPROTO_ICMP) eqn:E4; [l4_branch sizeof_icmphdr|].
  destruct (proto =? IPPROTO_ICMPV6) eqn:E5; [l4_branch sizeof_icmphdr|].
  by eexists.
Qed.

Lemma mapped_bytes l : is_bytes 4 l -> is_bytes 16 (ip4in6 ++ l).
Proof.
  intros [Hl HF]. split; [by rewrite length_app, Hl|].
  apply Forall_app. split; [by repeat (constructor; [width; lia|])|done].
Qed.

Lemma take_drop_bytes i k b :
  (i + k <= length b)%nat -> Forall is_u8 b -> is_bytes k (take k (drop i b)).
Proof.
  intros Hl HF. split; [rewrite length_take, length_drop; lia|].
  by apply Forall_take, Forall_drop.
Qed.

Lemma fill_iphdr_ok d ip pkt :
  Forall is_u8 d -> 0 <= ip -> pre_l4 pkt ->
  ∃ r pkt', fill_iphdr d ip (Z.of_nat (length d)) pkt = Some (r, pkt') /\
    parsed d pkt' /\
    r = (if ip + sizeof_iphdr <=? Z.of_nat (length d) then SUBMIT else DISCARD).
Proof.
  intros Hd Hip Hpre. unfold fill_iphdr. rewrite Z.ltb_antisym.
  destruct (_ <=? _) eqn:E; cbn [negb]; bool_to_prop.
  2: { eexists _, _. split; [done|]. split; [by apply pre_l4_parsed | done]. }
  destruct (load_ok d ip sizeof_iphdr) as (b & Hb & Hl & Hu); [done..|].
  rewrite Hb. cbn [fmap option_fmap option_map mbind option_bind]. specialize (Hu Hd).
  set (pkt1 := _ <| pi_dscp := _ |>).
  destruct (fill_l4info_ok d (ip + sizeof_iphdr) (ip_protocol (decode_iphdr b)) pkt1)
    as (pkt' & -> & Hp); [done| | |..].
  - by apply byte_at_u8.
  - unfold sizeof_iphdr. lia.
  - destruct Hpre as ((?&?&?&?&?&?&?) & ? & ? & ?).
    subst pkt1. unfold pre_l4, wf_flow_id. cbn -[ip4in6 app].
    split_and!; try done; try apply land_dscp;
      (apply mapped_bytes, take_drop_bytes; [rewrite Hl; unfold sizeof_iphdr, sizeof_ipv6hdr; lia|done]).
  - cbn. by eexists _, _.
Qed.

Lemma fill_ip6hdr_ok d ip pkt :
  Forall is_u8 d -> 0 <= ip -> pre_l4 pkt ->
  ∃ r pkt', fill_ip6hdr d ip (Z.of_nat (length d)) pkt = Some (r, pkt') /\
    parsed d pkt' /\
    r = (if ip + sizeof_ipv6hdr <=? Z.of_nat (length d) then SUBMIT else DISCARD).
Proof.
  intros Hd Hip Hpre. unfold fill_ip6hdr. rewrite Z.ltb_antisym.
  destruct (_ <=? _) eqn:E; cbn [negb]; bool_to_prop.
  2: { eexists _, _. split; [done|]. split; [by apply pre_l4_parsed | done]. }
  destruct (load_ok d ip sizeof_ipv6hdr) as (b & Hb & Hl & Hu); [done|done|done|].
  rewrite Hb. cbn [fmap option_fmap option_map mbind option_bind]. specialize (Hu Hd).
  set (pkt1 := _ <| pi_dscp := _ |>).
  destruct (fill_l4info_ok d (ip + sizeof_ipv6hdr) (ip6_nexthdr (decode_ipv6hdr b)) pkt1)
    as (pkt' & -> & Hp); [done| | |..].
  - by apply byte_at_u8.
  - unfold sizeof_ipv6hdr. lia.
  - destruct Hpre as ((?&?&?&?&?&?&?) & ? & ? & ?).
    subst pkt1. unfold pre_l4, wf_flow_id. cbn.
    split_and!; try done; try apply land_dscp;
      (apply take_drop_bytes; [rewrite Hl; unfold sizeof_iphdr, sizeof_ipv6hdr; lia|done]).
  - cbn. by eexists _, _.
Qed.

(** The EtherType of a packet that has a whole Ethernet header. *)
Definition ethertype (d : list Z) : Z := be16 (byte_at d 12) (byte_at d 13).

(** Whether the parser accepts the packet: an IPv4 or IPv6 EtherType and a
    whole IP header behind the Ethernet header. *)
Definition parsable (d : list Z) : bool :=
  let n := Z.of_nat (length d) in
  ((ethertype d =? ETH_P_IP) && (sizeof_ethhdr + sizeof_iphdr <=? n)) ||
  ((ethertype d =? ETH_P_IPV6) && (sizeof_ethhdr + sizeof_ipv6hdr <=? n)).

Lemma byte_at_short d i : (length d <= i)%nat -> byte_at d i = 0.
Proof. intros. unfold byte_at. by rewrite lookup_ge_None_2. Qed.

Lemma byte_at_slice d off n b i :
  slice d off n = Some b -> (i < Z.to_nat n)%nat -> byte_at b i = byte_at d (Z.to_nat off + i).
Proof.
  unfold slice. case_match eqn:E; [|done]. intros [= <-] Hi. bool_to_prop.
  unfold byte_at. rewrite lookup_take_lt by done. by rewrite lookup_drop.
Qed.

(** The parser on any packet: it makes no access outside the linear data, it
    submits exactly the parsable packets, and what it hands over is
    well-formed. *)
Lemma fill_ethhdr_ok d pkt :
  Forall is_u8 d -> pre_l4 pkt ->
  ∃ r pkt' e, fill_ethhdr d 0 (Z.of_nat (length d)) pkt 0 = Some (r, pkt', e) /\
    parsed d pkt' /\ is_u16 e /\
    r = (if parsable d then SUBMIT else DISCARD) /\
    (14 <= Z.of_nat (length d) -> e = ethertype d).
Proof.
  intros Hd Hpre. unfold fill_ethhdr. rewrite Z.ltb_antisym, Z.add_0_l.
  destruct (sizeof_ethhdr <=? _) eqn:E; cbn [negb]; bool_to_prop.
  2: { eexists _, _, _. split; [done|]. split; [by apply pre_l4_parsed|].
       split; [by width|]. unfold sizeof_ethhdr in *. split; [|lia].
       unfold parsable, sizeof_ethhdr, sizeof_iphdr, sizeof_ipv6hdr.
       rewrite !(proj2 (Z.leb_gt _ _)) by lia. by rewrite !andb_false_r. }
  destruct (load_ok d 0 sizeof_ethhdr) as (b & Hb & Hl & Hu); [done|done|done|].
  rewrite Hb. cbn [fmap option_fmap option_map mbind option_bind]. specialize (Hu Hd).
  assert (He : bpf_ntohs (h_proto (decode_ethhdr b)) = ethertype d).
  { cbn. rewrite ntohs_obj16 by done. unfold ethertype.
    by rewrite !(byte_at_slice _ _ _ _ _ Hb) by (unfold sizeof_ethhdr; lia). }
  rewrite He. unfold parsable.
  assert (is_u16 (ethertype d)) by (unfold ethertype; auto with width).
  destruct (ethertype d =? ETH_P_IP) eqn:E4; cbn [andb].
  - destruct (fill_iphdr_ok d sizeof_ethhdr pkt) as (r & pkt' & -> & Hp & ->); [done..|].
    cbn. eexists _, _, _. do 3 (split; [done|]). split; [|done].
    bool_to_prop. rewrite E4. cbn. by rewrite orb_false_r.
  - cbn [orb]. destruct (ethertype d =? ETH_P_IPV6) eqn:E6; cbn [andb].
    + destruct (fill_ip6hdr_ok d sizeof_ethhdr pkt) as (r & pkt' & -> & Hp & ->); [done..|].
      cbn. by eexists _, _, _.
    + eexists _, _, _. split; [done|]. split; [by apply pre_l4_parsed|]. done.
Qed.

(** The parser leaves the time and the DNS fields alone. *)
Definition parser_keeps (pkt pkt' : pkt_info) : Prop :=
  pi_current_ts pkt' = pi_current_ts pkt /\ pi_dns_id pkt' = pi_dns_id pkt /\
  pi_dns_flags pkt' = pi_dns_flags pkt /\ pi_dns_latency pkt' = pi_dns_latency pkt /\
  pi_dns_name pkt' = pi_dns_name pkt.

Lemma fill_l4info_keeps d l4 n proto pkt pkt' :
  fill_l4info d l4 n proto pkt = Some pkt' -> parser_keeps pkt pkt'.
Proof.
  unfold fill_l4info. intros Hf.
  repeat (case_match; simplify_option_eq); done.
Qed.

Lemma fill_ethhdr_keeps d eth n pkt e r pkt' e' :
  fill_ethhdr d eth n pkt e = Some (r, pkt', e') -> parser_keeps pkt pkt'.
Proof.
  unfold fill_ethhdr, fill_iphdr, fill_ip6hdr. intros Hf.
  repeat (case_match; simplify_option_eq); try done;
    match goal with Hl : fill_l4info _ _ _ _ _ = Some _ |- _ =>
      apply fill_l4info_keeps in Hl end; done.
Qed.
End Safety.
#[export] Hint Resolve set_flags_u16 bpf_ntohs_u16 : width.

(** ** Counting *)

Section Counting.
Context {K : Kernel} {KL : KernelLaws K}.

(** [w'] is [w] with the counter [c] of this CPU incremented, modulo the
    width of the counter. *)
Definition counted (cpu : Z) (c : global_counters_key) (w w' : world) : Prop :=
  ∃ v, elem cpu global_counters w (counter_index c) = Some v /\
       updated cpu global_counters (counter_index c) (u32 (v + 1)) w w'.

(** The value of a counter on a CPU. *)
Definition counter (cpu : Z) (c : global_counters_key) (w : world) : option Z :=
  elem cpu global_counters w (counter_index c).

Lemma counter_index_inj c c' : counter_index c = counter_index c' -> c = c'.
Proof. destruct c, c'; by vm_compute. Qed.

Lemma counted_value cpu c w w' :
  counted cpu c w w' -> counter cpu c w' = (λ n, u32 (n + 1)) <$> counter cpu c w.
Proof. unfold counter. intros (v & -> & Hu). apply Hu. Qed.

Lemma counted_others cpu c c' w w' : counted cpu c w w' -> c' <> c -> counter cpu c' w' = counter cpu c' w.
Proof. intros (v & _ & Hu) Hne. apply Hu. by intros ?%counter_index_inj. Qed.

Lemma counter_exists cpu c w :
  world_wf w -> ∃ v, elem cpu global_counters w (counter_index c) = Some v.
Proof.
  intros (_ & Hg & _). destruct (Hg c) as [p Hp].
  eexists. rewrite elem_index by done. apply fmap_Some. by exists p.
Qed.

Lemma wp_increase_counter cpu c (Q : unit → world → Prop) w :
  world_wf w -> (∀ w', counted cpu c w w' -> Q tt w') ->
  wp cpu (increase_counter (counter_index c)) Q w.
Proof.
  intros Hw HQ. destruct (counter_exists cpu c w Hw) as [v Hv].
  apply wp_bind, wp_lookup; [done|congruence|]. intros p v' Hv' Hat.
  apply wp_bind, (wp_write _ global_counters (counter_index c) _ v'); [done..|]. intros w' Hu _.
  apply wp_ret, HQ. by exists v'.
Qed.

Lemma increase_counter_safe k : safe (λ _, True) (increase_counter k).
Proof.
  apply safe_bind, safe_call; [done|]. intros [p|] _; (apply safe_bind, safe_call; [|done]).
  - cbn. intros v _. apply u32_range.
  - cbn. width. lia.
Qed.

Lemma increase_counter_writes k : writes [global_counters] [] (increase_counter k).
Proof.
  unfold increase_counter. apply writes_bind; [done|]. intros [p|];
    (apply writes_bind; [apply writes_call, list_elem_of_here | done]).
Qed.
End Counting.
