(* ===== verification/Frames.v ===== *)
(** * Well-formed frames, and what the parser finds in them

    A specification of the frames the agent means to understand: an Ethernet
    header, an IPv4 header without options or an IPv6 header, and a TCP, UDP,
    SCTP, ICMP or ICMPv6 header.  [frame_bytes] lays a frame out in network
    order; the theorem says that the parser recovers from it exactly the flow
    key, the TCP flags, the DSCP and the position of the L4 header. *)
From S2P Require Import Prelude Machine Types Kernel Maps PacketUtils.

Definition net16 (x : Z) : list Z := [x / 256; x mod 256].

(** TCP flags, as the eight bits of byte 13. *)
Record tcp_bits := mk_tcp_bits {
  b_fin : bool; b_syn : bool; b_rst : bool; b_psh : bool;
  b_ack : bool; b_urg : bool; b_ece : bool; b_cwr : bool }.

Definition tcp_bits_byte (b : tcp_bits) : Z :=
  Z.b2z (b_fin b) + 2 * Z.b2z (b_syn b) + 4 * Z.b2z (b_rst b) + 8 * Z.b2z (b_psh b) +
  16 * Z.b2z (b_ack b) + 32 * Z.b2z (b_urg b) + 64 * Z.b2z (b_ece b) + 128 * Z.b2z (b_cwr b).

(** L4 headers; [pad] stands for the bytes the parser skips. *)
Inductive l4_header :=
  | TcpHeader (sport dport : Z) (seqs : list Z) (offset : Z) (bits : tcp_bits) (pad : list Z)
  | UdpHeader (sport dport : Z) (len : Z) (pad : list Z)
  | SctpHeader (sport dport : Z) (pad : list Z)
  | IcmpHeader (type code : Z) (pad : list Z)
  | Icmp6Header (type code : Z) (pad : list Z).

Definition l4_proto (h : l4_header) : Z :=
  match h with
  | TcpHeader _ _ _ _ _ _ => IPPROTO_TCP
  | UdpHeader _ _ _ _ => IPPROTO_UDP
  | SctpHeader _ _ _ => IPPROTO_SCTP
  | IcmpHeader _ _ _ => IPPROTO_ICMP
  | Icmp6Header _ _ _ => IPPROTO_ICMPV6
  end.

Definition l4_bytes (h : l4_header) : list Z :=
  match h with
  | TcpHeader sp dp seqs off bits pad =>
      net16 sp ++ net16 dp ++ seqs ++ [16 * off; tcp_bits_byte bits] ++ pad
  | UdpHeader sp dp len pad => net16 sp ++ net16 dp ++ net16 len ++ pad
  | SctpHeader sp dp pad => net16 sp ++ net16 dp ++ pad
  | IcmpHeader t c pad | Icmp6Header t c pad => [t; c] ++ pad
  end.

Definition wf_l4 (h : l4_header) : Prop :=
  match h with
  | TcpHeader sp dp seqs off _ pad =>
      is_u16 sp /\ is_u16 dp /\ is_bytes 8 seqs /\ 0 <= off < 16 /\ is_bytes 6 pad
  | UdpHeader sp dp len pad => is_u16 sp /\ is_u16 dp /\ is_u16 len /\ is_bytes 2 pad
  | SctpHeader sp dp pad => is_u16 sp /\ is_u16 dp /\ is_bytes 8 pad
  | IcmpHeader t c pad | Icmp6Header t c pad => is_u8 t /\ is_u8 c /\ is_bytes 6 pad
  end.

(** IP headers: version 4 without options, or version 6. *)
Inductive ip_header :=
  | Ipv4Header (tos : Z) (pad1 : list Z) (check : list Z) (saddr daddr : list Z)
  | Ipv6Header (traffic_class : Z) (pad1 : list Z) (hops : Z) (saddr daddr : list Z).

Definition ip_bytes (h : ip_header) (proto : Z) : list Z :=
  match h with
  | Ipv4Header tos pad check sa da => [0x45; tos] ++ pad ++ [proto] ++ check ++ sa ++ da
  | Ipv6Header tc pad hops sa da =>
      [0x60 + tc / 16; 16 * (tc mod 16)] ++ pad ++ [proto; hops] ++ sa ++ da
  end.

Definition wf_ip (h : ip_header) : Prop :=
  match h with
  | Ipv4Header tos pad check sa da =>
      is_u8 tos /\ is_bytes 7 pad /\ is_bytes 2 check /\ is_bytes 4 sa /\ is_bytes 4 da
  | Ipv6Header tc pad hops sa da =>
      is_u8 tc /\ is_bytes 4 pad /\ is_u8 hops /\ is_bytes 16 sa /\ is_bytes 16 da
  end.

Definition ip_ethertype (h : ip_header) : Z :=
  match h with Ipv4Header _ _ _ _ _ => ETH_P_IP | Ipv6Header _ _ _ _ _ => ETH_P_IPV6 end.

Definition ip_size (h : ip_header) : Z :=
  match h with
  | Ipv4Header _ _ _ _ _ => sizeof_iphdr
  | Ipv6Header _ _ _ _ _ => sizeof_ipv6hdr
  end.

Record frame := mk_frame {
  f_macs : list Z;
  f_ip : ip_header;
  f_l4 : l4_header;
  f_payload : list Z;
}.

Definition frame_bytes (f : frame) : list Z :=
  f_macs f ++ net16 (ip_ethertype (f_ip f)) ++
  ip_bytes (f_ip f) (l4_proto (f_l4 f)) ++ l4_bytes (f_l4 f) ++ f_payload f.

Definition wf_frame (f : frame) : Prop :=
  is_bytes 12 (f_macs f) /\ wf_ip (f_ip f) /\ wf_l4 (f_l4 f) /\ Forall is_u8 (f_payload f).

(** ** What a frame means *)

(** IPv4 addresses are kept as IPv4-mapped IPv6 addresses. *)
Definition frame_src (h : ip_header) : list Z :=
  match h with
  | Ipv4Header _ _ _ sa _ => ip4in6 ++ sa
  | Ipv6Header _ _ _ sa _ => sa
  end.
Definition frame_dst (h : ip_header) : list Z :=
  match h with
  | Ipv4Header _ _ _ _ da => ip4in6 ++ da
  | Ipv6Header _ _ _ _ da => da
  end.

(** The DSCP is the upper six bits of the ToS byte or traffic class. *)
Definition frame_dscp (h : ip_header) : Z :=
  match h with Ipv4Header tos _ _ _ _ => tos / 4 | Ipv6Header tc _ _ _ _ => tc / 4 end.

Definition frame_id (f : frame) : flow_id :=
  let id sp dp t c :=
    mk_flow_id (frame_src (f_ip f)) (frame_dst (f_ip f)) sp dp (l4_proto (f_l4 f)) t c in
  match f_l4 f with
  | TcpHeader sp dp _ _ _ _ | UdpHeader sp dp _ _ | SctpHeader sp dp _ => id sp dp 0 0
  | IcmpHeader t c _ | Icmp6Header t c _ => id 0 0 t c
  end.

(** One flag describes a segment: a handshake or termination acknowledgement
    before the plain flags, then the plain flags in a fixed order. *)
Definition tcp_flag (b : tcp_bits) : Z :=
  match b_ack b, b_syn b, b_fin b, b_rst b with
  | true, true, _, _ => SYN_ACK_FLAG
  | true, _, true, _ => FIN_ACK_FLAG
  | true, _, _, true => RST_ACK_FLAG
  | true, _, _, _ => ACK_FLAG
  | false, _, true, _ => FIN_FLAG
  | false, true, _, _ => SYN_FLAG
  | false, _, _, true => RST_FLAG
  | _, _, _, _ =>
      if b_psh b then PSH_FLAG else if b_urg b then URG_FLAG
      else if b_ece b then ECE_FLAG else if b_cwr b then CWR_FLAG else 0
  end.

Definition frame_flags (f : frame) : Z :=
  match f_l4 f with TcpHeader _ _ _ _ bits _ => tcp_flag bits | _ => 0 end.

Definition frame_info (f : frame) : pkt_info :=
  zeroed <| pi_id := frame_id f |> <| pi_flags := frame_flags f |>
    <| pi_dscp := frame_dscp (f_ip f) |>
    <| pi_l4_hdr := Some (sizeof_ethhdr + ip_size (f_ip f)) |>.

(** ** The parser on a well-formed frame *)

Section RoundTrip.
Context `{Host}.

Lemma byte_at_app_r pre l n :
  (length pre <= n)%nat -> byte_at (pre ++ l) n = byte_at l (n - length pre).
Proof. intros. unfold byte_at. by rewrite lookup_app_r. Qed.

Lemma byte_at_app_l pre l n : (n < length pre)%nat -> byte_at (pre ++ l) n = byte_at pre n.
Proof. intros. unfold byte_at. by rewrite lookup_app_l. Qed.

Lemma be16_net16 x : be16 (x / 256) (x mod 256) = x.
Proof. unfold be16. pose proof (Z.div_mod x 256 ltac:(lia)). lia. Qed.

Lemma net16_u8 x : is_u16 x -> Forall is_u8 (net16 x).
Proof.
  intros ?. unfold net16. repeat constructor; width.
  - by apply Z.div_pos; lia.
  - by apply Z.div_lt_upper_bound; lia.
  - by apply Z.mod_pos_bound.
  - by apply Z.mod_pos_bound.
Qed.

(** A network-order 16-bit field at the front of some bytes. *)
Lemma ntohs_net16 pre x l i :
  i = length pre -> Forall is_u8 (pre ++ net16 x ++ l) ->
  bpf_ntohs (obj16 (pre ++ net16 x ++ l) i) = x.
Proof.
  intros -> HF. rewrite ntohs_obj16 by done.
  rewrite (byte_at_app_r _ _ (length pre)), (byte_at_app_r _ _ (length pre + 1)) by lia.
  replace (length pre - length pre)%nat with 0%nat by lia.
  replace (length pre + 1 - length pre)%nat with 1%nat by lia.
  apply be16_net16.
Qed.

Lemma ntohs_port0 x l :
  Forall is_u8 (net16 x ++ l) -> bpf_ntohs (obj16 (net16 x ++ l) 0) = x.
Proof. by apply (ntohs_net16 []). Qed.

Lemma ntohs_port1 x y l :
  Forall is_u8 (net16 x ++ net16 y ++ l) -> bpf_ntohs (obj16 (net16 x ++ net16 y ++ l) 2) = y.
Proof. by apply (ntohs_net16 (net16 x)). Qed.

Lemma tcp_bits_u8 b : is_u8 (tcp_bits_byte b).
Proof.
  destruct b as [[] [] [] [] [] [] [] []]; by apply (bool_decide_unpack _); vm_compute.
Qed.

Lemma l4_bytes_length h : wf_l4 h -> Z.of_nat (length (l4_bytes h)) = l4_size (l4_proto h).
Proof.
  destruct h; cbn [wf_l4 l4_bytes l4_proto]; unfold is_bytes; intros Hw; destruct_and!;
    rewrite ?length_app; cbn [length net16];
    match goal with |- _ = l4_size ?p => let n := eval vm_compute in (l4_size p) in
      change (l4_size p) with n end; lia.
Qed.

Lemma l4_bytes_u8 h : wf_l4 h -> Forall is_u8 (l4_bytes h).
Proof.
  assert (∀ off, 0 <= off < 16 -> is_u8 (16 * off)) by (width; lia).
  pose proof tcp_bits_u8.
  destruct h; cbn [wf_l4 l4_bytes]; unfold is_bytes; intros Hw; destruct_and!;
    repeat (apply Forall_app; split); auto using net16_u8.
Qed.

Lemma set_flags_bits b hd tl f :
  length hd = 13%nat ->
  set_flags (decode_tcphdr (hd ++ tcp_bits_byte b :: tl)) f = Z.lor f (tcp_flag b).
Proof.
  intros Hl. unfold decode_tcphdr.
  rewrite (byte_at_app_r _ _ 13), Hl by lia. cbn [byte_at lookup list_lookup Nat.sub].
  change (byte_at (tcp_bits_byte b :: tl) 0) with (tcp_bits_byte b).
  unfold set_flags.
  destruct b as [[] [] [] [] [] [] [] []]; cbn; by rewrite ?Z.lor_0_r.
Qed.

(** L4: the ports or the ICMP type and code, the flags and the pointer. *)
Definition l4_info (h : l4_header) (off : Z) (pkt : pkt_info) : pkt_info :=
  match h with
  | TcpHeader sp dp _ _ b _ => pkt
      <| pi_id ::= set fid_transport_protocol (λ _, IPPROTO_TCP) |>
      <| pi_id ::= set_ports sp dp |>
      <| pi_flags ::= (λ f, Z.lor f (tcp_flag b)) |> <| pi_l4_hdr := Some off |>
  | UdpHeader sp dp _ _ => pkt
      <| pi_id ::= set fid_transport_protocol (λ _, IPPROTO_UDP) |>
      <| pi_id ::= set_ports sp dp |> <| pi_l4_hdr := Some off |>
  | SctpHeader sp dp _ => pkt
      <| pi_id ::= set fid_transport_protocol (λ _, IPPROTO_SCTP) |>
      <| pi_id ::= set_ports sp dp |> <| pi_l4_hdr := Some off |>
  | IcmpHeader t c _ => pkt
      <| pi_id ::= set fid_transport_protocol (λ _, IPPROTO_ICMP) |>
      <| pi_id ::= set fid_icmp_type (λ _, t) |> <| pi_id ::= set fid_icmp_code (λ _, c) |>
      <| pi_l4_hdr := Some off |>
  | Icmp6Header t c _ => pkt
      <| pi_id ::= set fid_transport_protocol (λ _, IPPROTO_ICMPV6) |>
      <| pi_id ::= set fid_icmp_type (λ _, t) |> <| pi_id ::= set fid_icmp_code (λ _, c) |>
      <| pi_l4_hdr := Some off |>
  end.

Lemma fill_l4info_frame h pre post pkt off :
  wf_l4 h -> off = Z.of_nat (length pre) ->
  fill_l4info (pre ++ l4_bytes h ++ post) off
    (Z.of_nat (length (pre ++ l4_bytes h ++ post))) (l4_proto h) pkt
  = Some (l4_info h off pkt).
Proof.
  intros Hw ->. pose proof (l4_bytes_u8 h Hw) as Hu.
  pose proof (l4_bytes_length h Hw) as Hlen.
  assert (Hle : (Z.of_nat (length pre) + l4_size (l4_proto h)
                 <=? Z.of_nat (length (pre ++ l4_bytes h ++ post))) = true).
  { apply Z.leb_le. rewrite !length_app. lia. }
  destruct h; cbn [l4_proto] in *;
  match type of Hle with context [l4_size ?p] =>
    let n := eval cbv -[sizeof_tcphdr sizeof_udphdr sizeof_sctphdr sizeof_icmphdr]
      in (l4_size p) in
    change (l4_size p) with n in *
  end;
  unfold fill_l4info;
  cbn [Z.eqb IPPROTO_TCP IPPROTO_UDP IPPROTO_SCTP IPPROTO_ICMP IPPROTO_ICMPV6 Pos.eqb];
  (rewrite Hle, slice_mid by done);
  cbn [fmap option_fmap option_map mbind option_bind]; f_equal;
  cbn [l4_bytes wf_l4] in *.
  - unfold l4_info. change (th_source (decode_tcphdr ?b)) with (obj16 b 0).
    change (th_dest (decode_tcphdr ?b)) with (obj16 b 2).
    rewrite ntohs_port0, ntohs_port1 by done.
    destruct Hw as (_ & _ & [Hseqs _] & _).
    replace (net16 sport ++ net16 dport ++ seqs ++ [16 * offset; tcp_bits_byte bits] ++ pad)
      with ((net16 sport ++ net16 dport ++ seqs ++ [16 * offset]) ++ tcp_bits_byte bits :: pad)
      by (by rewrite <- !app_assoc).
    unfold set at 1 6. cbn -[app]. rewrite set_flags_bits; [done|].
    rewrite !length_app, Hseqs. done.
  - unfold l4_info, decode_udphdr. cbn [uh_source uh_dest].
    by rewrite ntohs_port0, ntohs_port1 by done.
  - unfold l4_info, decode_sctphdr. cbn [sh_source sh_dest].
    by rewrite ntohs_port0, ntohs_port1 by done.
Qed.

Lemma land_dscp_mod x : Z.land x DSCP_MASK = x mod 64.
Proof. change DSCP_MASK with (Z.ones 6). by rewrite Z.land_ones. Qed.

Lemma byte_at_cons x l i : byte_at (x :: l) (S i) = byte_at l i.
Proof. done. Qed.

Lemma take_drop_mid (pre x post : list Z) i n :
  i = length pre -> n = length x -> take n (drop i (pre ++ x ++ post)) = x.
Proof. intros -> ->. by rewrite drop_app_length, take_app_length. Qed.

Lemma ip_bytes_length h p : wf_ip h -> Z.of_nat (length (ip_bytes h p)) = ip_size h.
Proof.
  destruct h; cbn [wf_ip ip_bytes ip_size]; unfold is_bytes; intros Hw; destruct_and!;
    rewrite !length_app; cbn [length]; unfold sizeof_iphdr, sizeof_ipv6hdr; lia.
Qed.

Lemma dscp_v4 tos : is_u8 tos -> Z.land (Z.shiftr tos DSCP_SHIFT) DSCP_MASK = tos / 4.
Proof.
  intros ?. rewrite land_dscp_mod, Z.shiftr_div_pow2 by (by compute).
  change (2 ^ DSCP_SHIFT) with 4. width. apply Z.mod_small.
  split; [by apply Z.div_pos; lia | by apply Z.div_lt_upper_bound; lia].
Qed.

Lemma dscp_v6 tc :
  is_u8 tc ->
  Z.land (Z.shiftr (Z.shiftr (be16 (0x60 + tc / 16) (16 * (tc mod 16))) 4) DSCP_SHIFT)
    DSCP_MASK = tc / 4.
Proof.
  intros Ht. rewrite Z.shiftr_shiftr by (by compute).
  change (4 + DSCP_SHIFT) with 6.
  rewrite land_dscp_mod, Z.shiftr_div_pow2 by (by compute). change (2 ^ 6) with 64.
  unfold be16. pose proof (Z.div_mod tc 16 ltac:(lia)) as Hd.
  pose proof (Z.div_mod tc 4 ltac:(lia)) as Hd4.
  pose proof (Z.mod_pos_bound tc 4 ltac:(lia)). width.
  replace ((256 * (96 + tc / 16) + 16 * (tc mod 16)) / 64) with (6 * 64 + tc / 4)
    by (apply Z.div_unique with (16 * (tc mod 4)); lia).
  rewrite Z.add_comm, Z.mod_add by lia. apply Z.mod_small. lia.
Qed.

Lemma traffic_class_u8 tc :
  is_u8 tc -> is_u8 (0x60 + tc / 16) /\ is_u8 (16 * (tc mod 16)).
Proof.
  width. pose proof (Z.div_mod tc 16). pose proof (Z.mod_pos_bound tc 16). lia.
Qed.

(** What the IP header contributes. *)
Definition ip_info (h : ip_header) (pkt : pkt_info) : pkt_info :=
  pkt <| pi_id ::= set fid_src_ip (λ _, frame_src h) |>
      <| pi_id ::= set fid_dst_ip (λ _, frame_dst h) |>
      <| pi_dscp := frame_dscp h |>.

Definition fill_ip (h : ip_header) (d : list Z) (ip data_end : Z) (pkt : pkt_info)
    : option (Z * pkt_info) :=
  match h with
  | Ipv4Header _ _ _ _ _ => fill_iphdr d ip data_end pkt
  | Ipv6Header _ _ _ _ _ => fill_ip6hdr d ip data_end pkt
  end.

Lemma decode_ipv4 tos pad check sa da p :
  wf_ip (Ipv4Header tos pad check sa da) ->
  decode_iphdr (ip_bytes (Ipv4Header tos pad check sa da) p) = mk_iphdr tos p sa da.
Proof.
  cbn [wf_ip ip_bytes]. unfold is_bytes, decode_iphdr. intros Hw. destruct_and!. f_equal.
  - cbn [app]. rewrite !byte_at_cons, byte_at_app_r by lia.
    by replace (7 - length pad)%nat with 0%nat by lia.
  - rewrite !app_assoc. rewrite <- (app_assoc _ sa da).
    apply take_drop_mid; [|done]. rewrite !length_app. cbn [length]. lia.
  - rewrite !app_assoc, <- (app_nil_r (_ ++ da)), <- (app_assoc _ da []).
    apply take_drop_mid; [|done]. rewrite !length_app. cbn [length]. lia.
Qed.

Lemma decode_ipv6 tc pad hops sa da p :
  wf_ip (Ipv6Header tc pad hops sa da) ->
  decode_ipv6hdr (ip_bytes (Ipv6Header tc pad hops sa da) p)
  = mk_ipv6hdr (mem16 (0x60 + tc / 16) (16 * (tc mod 16))) p sa da.
Proof.
  cbn [wf_ip ip_bytes]. unfold is_bytes, decode_ipv6hdr. intros Hw. destruct_and!. f_equal.
  - cbn [app]. rewrite !byte_at_cons, byte_at_app_r by lia.
    by replace (4 - length pad)%nat with 0%nat by lia.
  - rewrite !app_assoc. rewrite <- (app_assoc _ sa da).
    apply take_drop_mid; [|done]. rewrite !length_app. cbn [length]. lia.
  - rewrite !app_assoc, <- (app_nil_r (_ ++ da)), <- (app_assoc _ da []).
    apply take_drop_mid; [|done]. rewrite !length_app. cbn [length]. lia.
Qed.

Lemma fill_ip_frame h l4 pre post pkt off :
  wf_ip h -> wf_l4 l4 -> off = Z.of_nat (length pre) ->
  fill_ip h (pre ++ ip_bytes h (l4_proto l4) ++ l4_bytes l4 ++ post) off
    (Z.of_nat (length (pre ++ ip_bytes h (l4_proto l4) ++ l4_bytes l4 ++ post))) pkt
  = Some (SUBMIT, l4_info l4 (off + ip_size h) (ip_info h pkt)).
Proof.
  intros Hi Hl ->.
  pose proof (ip_bytes_length h (l4_proto l4) Hi) as Hlen.
  assert (Hlt : (Z.of_nat (length (pre ++ ip_bytes h (l4_proto l4) ++ l4_bytes l4 ++ post))
      <? Z.of_nat (length pre) + ip_size h) = false).
  { apply Z.ltb_ge. rewrite !length_app. lia. }
  pose proof (λ q, fill_l4info_frame l4 (pre ++ ip_bytes h (l4_proto l4)) post q
    (Z.of_nat (length pre) + ip_size h) Hl) as Hf.
  rewrite <- !app_assoc in Hf. specialize (λ q, Hf q ltac:(rewrite length_app; lia)).
  assert (Hs : slice (pre ++ ip_bytes h (l4_proto l4) ++ l4_bytes l4 ++ post)
      (Z.of_nat (length pre)) (ip_size h) = Some (ip_bytes h (l4_proto l4)))
    by by apply slice_mid.
  destruct h; cbn [fill_ip ip_size frame_src frame_dst frame_dscp] in *.
  - unfold fill_iphdr. rewrite Hlt, Hs. cbn [fmap option_fmap option_map mbind option_bind].
    rewrite decode_ipv4 by done. cbn [ip_protocol ip_saddr ip_daddr].
    unfold ipv4_get_dscp. cbn [ip_tos]. rewrite dscp_v4 by apply Hi. by rewrite Hf.
  - unfold fill_ip6hdr. rewrite Hlt, Hs. cbn [fmap option_fmap option_map mbind option_bind].
    rewrite decode_ipv6 by done. cbn [ip6_nexthdr ip6_saddr ip6_daddr].
    unfold ipv6_get_dscp. cbn [ip6_first].
    destruct Hi as [Ht _]. rewrite ntohs_mem16, dscp_v6, Hf; [done|done|..].
    all: by apply traffic_class_u8.
Qed.

Lemma frame_bytes_u8 f : wf_frame f -> Forall is_u8 (frame_bytes f).
Proof.
  intros ([_ Hm] & Hi & Hl & Hp). unfold frame_bytes.
  rewrite !Forall_app. split_and!; [done| | |by apply l4_bytes_u8|done].
  - apply net16_u8. by destruct (f_ip f); width.
  - assert (is_u8 (l4_proto (f_l4 f))) by (destruct (f_l4 f); by width).
    destruct (f_ip f); cbn [wf_ip ip_bytes] in *; unfold is_bytes in *; destruct_and!;
      rewrite ?Forall_app, ?Forall_cons_iff; split_and!; try done; try (by width);
      by apply traffic_class_u8.
Qed.

Lemma frame_info_eq f :
  l4_info (f_l4 f) (sizeof_ethhdr + ip_size (f_ip f)) (ip_info (f_ip f) zeroed) = frame_info f.
Proof. destruct f as [macs ip [] p]; done. Qed.

(** What the parser makes of a well-formed frame, whatever follows it. *)
Lemma fill_ethhdr_frame f :
  wf_frame f ->
  fill_ethhdr (frame_bytes f) 0 (Z.of_nat (length (frame_bytes f))) zeroed 0
  = Some (SUBMIT, frame_info f, ip_ethertype (f_ip f)).
Proof.
  intros Hw. pose proof (frame_bytes_u8 f Hw) as Hu.
  destruct Hw as ([Hm _] & Hi & Hl & Hp).
  pose proof (fill_ip_frame (f_ip f) (f_l4 f) (f_macs f ++ net16 (ip_ethertype (f_ip f)))
    (f_payload f) zeroed sizeof_ethhdr Hi Hl) as Hf.
  rewrite <- !app_assoc in Hf. fold (frame_bytes f) in Hf.
  specialize (Hf ltac:(rewrite length_app, Hm; done)).
  assert (Hs : slice (frame_bytes f) 0 sizeof_ethhdr
      = Some (f_macs f ++ net16 (ip_ethertype (f_ip f)))).
  { unfold frame_bytes. rewrite app_assoc.
    apply (slice_mid []); [done|]. by rewrite length_app, Hm. }
  unfold fill_ethhdr.
  rewrite (proj2 (Z.ltb_ge _ _))
    by (pose proof (slice_inside _ _ _ _ Hs); lia).
  rewrite Hs. cbn [fmap option_fmap option_map mbind option_bind].
  assert (He : bpf_ntohs (h_proto (decode_ethhdr
      (f_macs f ++ net16 (ip_ethertype (f_ip f))))) = ip_ethertype (f_ip f)).
  { cbn. rewrite <- (app_nil_r (net16 _)) at 1. apply ntohs_net16; [done|].
    rewrite app_nil_r. by eapply slice_Forall. }
  rewrite He, Z.add_0_l. rewrite frame_info_eq in Hf.
  destruct (f_ip f); cbn [ip_ethertype fill_ip] in *; by rewrite Hf.
Qed.
End RoundTrip.
