(* ===== verification/Metrics.v ===== *)
(** * Updating the metrics of a flow from a hook

    The hooks that add metrics to a flow share one pattern: look the flow up
    and, if it is there, write its element; else insert a new element with
    [BPF_NOEXIST], and when another program was faster, look up and write
    again.  [upsert] is the pattern; [upserted] is what it does to a map, which
    takes the element or refuses it ([map_refuses]). *)
From S2P Require Import Prelude Machine Types Kernel Maps Safety.

(** Look up and write, with the time; 0 if the flow was there, else -1. *)
Definition lookup_and_update (m : mapname) (id : key m) (upd : Z → value m → value m) : prog Z :=
  extra_metrics ← call (bpf_map_lookup_elem m id);
  match extra_metrics with
  | Some p =>
      ts ← call bpf_ktime_get_ns;
      _ ← call (elem_write m p (λ v, (upd ts v, 0)));
      mret 0
  | None => mret (-1)
  end.

Definition upsert (m : mapname) (id : key m) (upd : Z → value m → value m)
    (new : Z → value m) : prog Z :=
  ret ← lookup_and_update m id upd;
  if ret =? 0 then mret 0
  else
    current_time ← call bpf_ktime_get_ns;
    ret ← call (bpf_map_update_elem m id (new current_time) BPF_NOEXIST);
    if negb (ret =? 0) then
      if ret =? - EEXIST then lookup_and_update m id upd else mret ret
    else mret ret.

(** ** Safety and footprint *)

Lemma lookup_and_update_safe m id upd :
  (∀ ts v, is_u64 ts -> wf_value m v -> wf_value m (upd ts v)) ->
  safe (λ r, -1 <= r <= 0) (lookup_and_update m id upd).
Proof.
  intros Hu. apply safe_bind, safe_call; [done|]. intros [p|] _; [|done].
  apply safe_bind, safe_call; [done|]. intros ts Hts.
  apply safe_bind, safe_call; [|done]. cbn. intros v Hv. by apply Hu.
Qed.

Lemma upsert_safe m id upd new :
  (∀ ts v, is_u64 ts -> wf_value m v -> wf_value m (upd ts v)) ->
  (∀ ts, is_u64 ts -> wf_value m (new ts)) ->
  safe (λ r, -4096 < r <= 0) (upsert m id upd new).
Proof.
  intros Hu Hn. apply safe_bind. eapply safe_mono; [by apply lookup_and_update_safe|].
  intros r Hr. case_match; [done|]. apply safe_bind, safe_call; [done|]. intros ts Hts.
  apply safe_bind, safe_call; [by apply Hn|]. cbn. intros r' Hr'.
  repeat case_match; try (by apply safe_ret).
  eapply safe_mono; [by apply lookup_and_update_safe|]. cbn. lia.
Qed.

Lemma lookup_and_update_writes ms rs m id upd : m ∈ ms -> writes ms rs (lookup_and_update m id upd).
Proof.
  intros Hm. apply writes_bind; [done|]. intros [p|]; [|done].
  apply writes_bind; [done|]. intros ts. by apply writes_bind; [apply writes_call|].
Qed.

Lemma upsert_writes ms rs m id upd new : m ∈ ms -> writes ms rs (upsert m id upd new).
Proof.
  intros Hm. apply writes_bind; [by apply lookup_and_update_writes|]. intros r.
  case_match; [done|]. apply writes_bind; [done|]. intros ts.
  apply writes_bind; [by apply writes_call|]. intros r'.
  repeat case_match; try done. by apply lookup_and_update_writes.
Qed.

(** ** What it does *)

Section Upserted.
Context {K : Kernel} {KL : KernelLaws K}.
Implicit Types w : world.

(** An update, whatever calls without effect come before it. *)
Lemma unchanged_updated cpu m k v w w1 w' :
  unchanged w w1 -> updated cpu m k v w1 w' -> updated cpu m k v w w'.
Proof.
  intros Hu Hup. pose proof (unch_map _ _ Hu) as Hm.
  assert (He : ∀ c m' k', elem c m' w1 k' = elem c m' w k') by (intros; by apply elem_ext).
  destruct Hup as [U1 U2 U3 U4 U5 U6 U7 U8]. split.
  - done.
  - intros c k' Hne. by rewrite U2, He.
  - intros c Hp Hc. by rewrite U3, He.
  - intros m' Hne. by rewrite U4.
  - intros r. rewrite U5. apply Hu.
  - rewrite U6. apply Hu.
  - done.
  - pose proof (unch_clock _ _ Hu). lia.
Qed.

(** What an [upsert] does, with the time of the write: an element is updated; a
    missing one is created, unless the map refuses it, which the result tells. *)
Inductive upserted cpu (m : mapname) (id : key m) (upd : Z → value m → value m)
    (new : Z → value m) w w' : Z → Prop :=
  | UpsUpdated v ts :
      elem cpu m w id = Some v -> clock w <= ts <= clock w' -> is_u64 ts ->
      updated cpu m id (upd ts v) w w' -> upserted cpu m id upd new w w' 0
  | UpsCreated ts :
      elem cpu m w id = None -> clock w <= ts <= clock w' -> is_u64 ts ->
      updated cpu m id (new ts) w w' -> upserted cpu m id upd new w w' 0
  | UpsRefused e :
      elem cpu m w id = None -> unchanged w w' -> map_refuses m id e w w' ->
      upserted cpu m id upd new w w' e.

Lemma wp_upsert cpu m id upd new (Q : Z → world → Prop) w :
  world_wf w -> is_hash m = true ->
  (∀ r w', upserted cpu m id upd new w w' r -> Q r w') ->
  wp cpu (upsert m id upd new) Q w.
Proof.
  intros Hw Hm HQ. assert (Hlpm : map_type m <> LPM_TRIE)
    by (unfold is_hash in Hm; by destruct (map_type m)).
  apply wp_bind, wp_bind, wp_lookup; [done|intros Hn|intros p v Hv Hat].
  - apply wp_ret. change (-1 =? 0) with false. cbv iota.
    apply wp_bind, wp_ktime. intros ts w1 Hu Hts Hc.
    assert (Hw1 : world_wf w1) by by eapply unchanged_wf.
    apply wp_bind, wp_update_new; [done|done|by rewrite (unchanged_elem w)|..].
    + intros w' Hup. change (negb (0 =? 0)) with false. cbv iota.
      apply wp_ret, HQ, (UpsCreated _ _ _ _ _ _ _ ts); [done| |done|].
      * pose proof (upd_clock _ _ _ _ _ _ Hup). lia.
      * by eapply unchanged_updated.
    + intros e w' Hu' He. destruct (map_refuses_errno _ _ _ _ _ He) as [? Hne].
      rewrite (proj2 (Z.eqb_neq e 0)) by lia. cbn [negb]. rewrite (proj2 (Z.eqb_neq e _)) by done.
      apply wp_ret, HQ, UpsRefused; [done|by eapply unchanged_trans|by eapply unchanged_refuses].
  - apply wp_bind, wp_ktime. intros ts w1 Hu Hts Hc.
    assert (Hw1 : world_wf w1) by by eapply unchanged_wf.
    apply wp_bind, (wp_write _ m id _ v); [done|done|by eapply unchanged_elem_at|].
    intros w' Hup _. apply wp_ret. change (0 =? 0) with true. cbv iota.
    apply wp_ret, HQ, (UpsUpdated _ _ _ _ _ _ _ v ts); [done| |done|].
    + pose proof (upd_clock _ _ _ _ _ _ Hup). lia.
    + by eapply unchanged_updated.
Qed.
End Upserted.
