(* ===== verification/CoreFill.v ===== *)
(** * Reading packets from kernel buffers ([bpf/utils.h])

    The tracing hooks (drops, RTT, network events, NAT, IPsec) see a packet as
    the kernel's [struct sk_buff]: a block of memory at [head], and the offsets
    of the headers in it.  They read the headers with the probe-read helper and
    rebuild the flow key from them, independently of the parser of the TC hooks.
    The main lemma, [core_flow_frame], says that the two agree on well-formed
    frames: what a tracing hook records ends up under the flow of the monitor. *)
From S2P Require Import Prelude Machine Types Kernel Maps Safety PacketUtils Frames.

(** The fields of [struct sk_buff] that the hooks read; [ks_head] is the memory
    that the pointer [head] refers to. *)
Record ksk_buff := mk_ksk_buff {
  ks_head : list Z;
  ks_mac_header : Z;
  ks_network_header : Z;
  ks_transport_header : Z;
  ks_skb_iif : Z;
  ks_len : Z;
}.

Definition wf_ksk_buff (skb : ksk_buff) : Prop :=
  Forall is_u8 (ks_head skb) /\ is_u16 (ks_mac_header skb) /\ is_u16 (ks_network_header skb) /\
  is_u16 (ks_transport_header skb) /\ is_u32 (ks_skb_iif skb) /\ is_u32 (ks_len skb).

(** The value a local structure of [len] bytes has after a probe read, whether
    it succeeds or not: none of the callers checks. *)
Definition probe_bytes `{Kernel} (mem : list Z) (off len : Z) : list Z :=
  (k_probe_read mem off len).2.

Section Fill.
Context {H : Host} {K : Kernel}.

(** The EtherType and the address family; the family stays as it was for any
    other EtherType. *)
Definition core_fill_in_l2 (skb : ksk_buff) (family : Z) : Z * Z :=
  let eth := decode_ethhdr (probe_bytes (ks_head skb) (ks_mac_header skb) sizeof_ethhdr) in
  let eth_protocol := bpf_ntohs (h_proto eth) in
  (eth_protocol,
   if eth_protocol =? ETH_P_IP then AF_INET
   else if eth_protocol =? ETH_P_IPV6 then AF_INET6
   else family).

(** The flow key, the protocol and the DSCP. *)
Definition core_fill_in_l3 (skb : ksk_buff) (id : flow_id) (family protocol dscp : Z)
    : flow_id * Z * Z :=
  if family =? AF_INET then
    let ip := decode_iphdr (probe_bytes (ks_head skb) (ks_network_header skb) sizeof_iphdr) in
    (id <| fid_src_ip := ip4in6 ++ ip_saddr ip |> <| fid_dst_ip := ip4in6 ++ ip_daddr ip |>,
     ip_protocol ip, ipv4_get_dscp ip)
  else if family =? AF_INET6 then
    let ip := decode_ipv6hdr (probe_bytes (ks_head skb) (ks_network_header skb) sizeof_ipv6hdr) in
    (id <| fid_src_ip := ip6_saddr ip |> <| fid_dst_ip := ip6_daddr ip |>,
     ip6_nexthdr ip, ipv6_get_dscp ip)
  else (id, protocol, dscp).

Definition core_fill_in_tcp (skb : ksk_buff) (id : flow_id) (flags : Z) : flow_id * Z :=
  let tcp := decode_tcphdr
    (probe_bytes (ks_head skb) (ks_transport_header skb) sizeof_tcphdr) in
  (id <| fid_src_port := bpf_ntohs (th_source tcp) |>
      <| fid_dst_port := bpf_ntohs (th_dest tcp) |>
      <| fid_transport_protocol := IPPROTO_TCP |>,
   set_flags tcp flags).

Definition core_fill_in_udp (skb : ksk_buff) (id : flow_id) : flow_id :=
  let udp := decode_udphdr
    (probe_bytes (ks_head skb) (ks_transport_header skb) sizeof_udphdr) in
  id <| fid_src_port := bpf_ntohs (uh_source udp) |>
     <| fid_dst_port := bpf_ntohs (uh_dest udp) |>
     <| fid_transport_protocol := IPPROTO_UDP |>.

Definition core_fill_in_sctp (skb : ksk_buff) (id : flow_id) : flow_id :=
  let sctp := decode_sctphdr
    (probe_bytes (ks_head skb) (ks_transport_header skb) sizeof_sctphdr) in
  id <| fid_src_port := bpf_ntohs (sh_source sctp) |>
     <| fid_dst_port := bpf_ntohs (sh_dest sctp) |>
     <| fid_transport_protocol := IPPROTO_SCTP |>.

Definition core_fill_in_icmpv4 (skb : ksk_buff) (id : flow_id) : flow_id :=
  let icmph := decode_icmphdr
    (probe_bytes (ks_head skb) (ks_transport_header skb) sizeof_icmphdr) in
  id <| fid_icmp_type := icmp_type icmph |> <| fid_icmp_code := icmp_code icmph |>
     <| fid_transport_protocol := IPPROTO_ICMP |>.

Definition core_fill_in_icmpv6 (skb : ksk_buff) (id : flow_id) : flow_id :=
  let icmph := decode_icmphdr
    (probe_bytes (ks_head skb) (ks_transport_header skb) sizeof_icmphdr) in
  id <| fid_icmp_type := icmp_type icmph |> <| fid_icmp_code := icmp_code icmph |>
     <| fid_transport_protocol := IPPROTO_ICMPV6 |>.

Definition fill_in_others_protocol (id : flow_id) (protocol : Z) : flow_id :=
  id <| fid_transport_protocol := protocol |>.

(** The [switch (protocol)] of the hooks: [None] is its default branch. *)
Definition core_fill_in_l4 (skb : ksk_buff) (id : flow_id) (protocol flags : Z)
    : option (flow_id * Z) :=
  if protocol =? IPPROTO_TCP then Some (core_fill_in_tcp skb id flags)
  else if protocol =? IPPROTO_UDP then Some (core_fill_in_udp skb id, flags)
  else if protocol =? IPPROTO_SCTP then Some (core_fill_in_sctp skb id, flags)
  else if protocol =? IPPROTO_ICMP then Some (core_fill_in_icmpv4 skb id, flags)
  else if protocol =? IPPROTO_ICMPV6 then Some (core_fill_in_icmpv6 skb id, flags)
  else None.

(** What every hook starts with: L2 and L3 from zeroed locals.  The result is
    the flow key so far, the EtherType, the family and the protocol. *)
Definition core_fill_in_l23 (skb : ksk_buff) : flow_id * Z * Z * Z :=
  let '(eth_protocol, family) := core_fill_in_l2 skb 0 in
  let '(id, protocol, _) := core_fill_in_l3 skb zeroed family 0 0 in
  (id, eth_protocol, family, protocol).

(** The key that the hooks with a default branch arrive at, its flags, the
    EtherType and the family. *)
Definition core_flow (skb : ksk_buff) : flow_id * Z * Z * Z :=
  let '(id, eth_protocol, family, protocol) := core_fill_in_l23 skb in
  let '(id, flags) := default (fill_in_others_protocol id protocol, 0)
                        (core_fill_in_l4 skb id protocol 0) in
  (id, flags, eth_protocol, family).

Definition is_transport_protocol (protocol : Z) : bool :=
  (protocol =? IPPROTO_TCP) || (protocol =? IPPROTO_UDP) || (protocol =? IPPROTO_SCTP).
End Fill.

(** The address holds a byte 255. *)
Definition is_ipv4 (ip : list Z) : bool := existsb (λ b, b =? 255) (take 16 ip).

(** ** The key is well-formed, whatever the reads give *)

Section FillOk.
Context {H : Host} {K : Kernel} {KL : KernelLaws K}.

Lemma probe_bytes_ok mem off len :
  Forall is_u8 mem -> 0 <= off -> 0 < len ->
  length (probe_bytes mem off len) = Z.to_nat len /\ Forall is_u8 (probe_bytes mem off len).
Proof.
  intros Hm Ho Hl. by destruct (probe_read_ok mem off len) as (? & ? & _).
Qed.

Lemma probe_bytes_slice mem off len b :
  Forall is_u8 mem -> 0 < len -> slice mem off len = Some b -> probe_bytes mem off len = b.
Proof.
  intros Hm Hl Hb. pose proof (slice_inside _ _ _ _ Hb) as (Ho & _ & _).
  destruct (probe_read_ok mem off len) as (_ & _ & Hr); [done..|].
  rewrite Hb in Hr. unfold probe_bytes. by rewrite Hr.
Qed.

(** What the functions keep: a well-formed key and 16-bit flags. *)
Lemma core_fill_in_l23_ok skb :
  wf_ksk_buff skb ->
  let '(id, eth_protocol, family, protocol) := core_fill_in_l23 skb in
  wf_flow_id id /\ is_u16 eth_protocol /\ is_u8 protocol /\
  (family = AF_INET -> eth_protocol = ETH_P_IP) /\
  (family = AF_INET6 -> eth_protocol = ETH_P_IPV6) /\
  (protocol <> 0 -> eth_protocol = ETH_P_IP \/ eth_protocol = ETH_P_IPV6).
Proof.
  intros (Hh & [Hm _] & [Hn _] & _). unfold core_fill_in_l23, core_fill_in_l2.
  destruct (probe_bytes_ok (ks_head skb) (ks_mac_header skb) sizeof_ethhdr) as [Hel Heu]; try done.
  set (e := bpf_ntohs _). assert (He : is_u16 e) by (by apply bpf_ntohs_u16).
  assert (Hz : wf_flow_id zeroed) by exact (wf_value_zero ipsec_ingress_map).
  unfold core_fill_in_l3.
  destruct (e =? ETH_P_IP) eqn:E4; bool_to_prop.
  { change (AF_INET =? AF_INET) with true. cbv iota.
    destruct (probe_bytes_ok (ks_head skb) (ks_network_header skb) sizeof_iphdr) as [Hl Hu];
      try done. change (Z.to_nat sizeof_iphdr) with 20%nat in Hl.
    split; [|split_and!; try done; [by apply byte_at_u8|by left]].
    destruct Hz as (_ & _ & Hz). unfold wf_flow_id.
    split; [|split; [|exact Hz]]; apply mapped_bytes, take_drop_bytes; done || lia. }
  destruct (e =? ETH_P_IPV6) eqn:E6; bool_to_prop.
  { change (AF_INET6 =? AF_INET) with false. change (AF_INET6 =? AF_INET6) with true. cbv iota.
    destruct (probe_bytes_ok (ks_head skb) (ks_network_header skb) sizeof_ipv6hdr) as [Hl Hu];
      try done. change (Z.to_nat sizeof_ipv6hdr) with 40%nat in Hl.
    split; [|split_and!; try done; [by apply byte_at_u8|by right]].
    destruct Hz as (_ & _ & Hz). unfold wf_flow_id.
    split; [|split; [|exact Hz]]; apply take_drop_bytes; done || lia. }
  change (0 =? AF_INET) with false. change (0 =? AF_INET6) with false. cbv iota.
  by split_and!.
Qed.

Lemma probe_header skb off len :
  Forall is_u8 (ks_head skb) -> is_u16 off -> 0 < len ->
  Forall is_u8 (probe_bytes (ks_head skb) off len).
Proof. intros Hh [Ho _] Hl. by apply probe_bytes_ok. Qed.

Lemma core_fill_in_l4_ok skb id protocol flags id' flags' :
  wf_ksk_buff skb -> wf_flow_id id -> is_u8 protocol -> is_u16 flags ->
  core_fill_in_l4 skb id protocol flags = Some (id', flags') ->
  wf_flow_id id' /\ is_u16 flags' /\ fid_transport_protocol id' = protocol.
Proof.
  intros (Hh & _ & _ & Ht & _) (?&?&?&?&?&?&?) Hp Hf. unfold core_fill_in_l4.
  pose proof (λ n, probe_header skb (ks_transport_header skb) n Hh Ht) as Hb.
  repeat match goal with |- (if ?p =? ?c then _ else _) = _ -> _ =>
    destruct (p =? c) eqn:?; bool_to_prop end; [subst protocol..|discriminate];
    intros [= <- <-]; (split; [|split; [auto with width|reflexivity]]);
    unfold wf_flow_id; cbn;
    splits; try assumption;
    first [apply bpf_ntohs_u16, Hb; reflexivity | apply byte_at_u8, Hb; reflexivity].
Qed.

Lemma core_flow_ok skb :
  wf_ksk_buff skb ->
  let '(id, flags, eth_protocol, _) := core_flow skb in
  wf_flow_id id /\ is_u16 flags /\ is_u16 eth_protocol.
Proof.
  intros Hskb. pose proof (core_fill_in_l23_ok skb Hskb) as Hl.
  unfold core_flow. destruct (core_fill_in_l23 skb) as [[[id e] family] protocol].
  destruct Hl as (Hid & He & Hp & _).
  destruct (core_fill_in_l4 skb id protocol 0) as [[id' flags']|] eqn:E; cbn [default].
  - by destruct (core_fill_in_l4_ok _ _ _ _ _ _ Hskb Hid Hp zero_u16 E) as (? & ? & _).
  - split; [|split; [apply zero_u16|done]].
    destruct Hid as (?&?&?&?&_&?&?). by unfold wf_flow_id.
Qed.

(** *** Agreement with the parser of the TC hooks *)

(** The buffer holds a frame, and the kernel has set the header offsets. *)
Record holds_frame (skb : ksk_buff) (f : frame) : Prop := {
  hf_wf : wf_ksk_buff skb;
  hf_bytes : slice (ks_head skb) (ks_mac_header skb) (Z.of_nat (length (frame_bytes f)))
             = Some (frame_bytes f);
  hf_network : ks_network_header skb = ks_mac_header skb + sizeof_ethhdr;
  hf_transport : ks_transport_header skb = ks_network_header skb + ip_size (f_ip f);
}.

(** A header of the frame, read through its offset in the buffer. *)
Lemma probe_frame skb f pre x post off n :
  holds_frame skb f -> frame_bytes f = pre ++ x ++ post ->
  off = ks_mac_header skb + Z.of_nat (length pre) -> n = Z.of_nat (length x) -> 0 < n ->
  probe_bytes (ks_head skb) off n = x.
Proof.
  intros [Hw Hs _ _] Hf -> -> Hn. apply probe_bytes_slice; [apply Hw|done|].
  destruct (slice_inside _ _ _ _ Hs) as (H0 & _ & H1).
  rewrite slice_Some in Hs by lia. injection Hs as Hs.
  assert (Hl : length (frame_bytes f) = (length pre + (length x + length post))%nat)
    by (by rewrite Hf, !length_app).
  rewrite slice_Some by lia. f_equal. rewrite Nat2Z.id in Hs |- *.
  apply (f_equal (λ l, take (length x) (drop (length pre) l))) in Hs.
  rewrite Hf in Hs at 2. rewrite drop_app_length, take_app_length in Hs.
  rewrite skipn_firstn_comm, drop_drop, take_take in Hs. rewrite Nat.min_l in Hs by lia.
  etransitivity; [|exact Hs]. do 2 f_equal. lia.
Qed.

(** The address family of a frame. *)
Definition frame_family (f : frame) : Z :=
  match f_ip f with Ipv4Header _ _ _ _ _ => AF_INET | Ipv6Header _ _ _ _ _ => AF_INET6 end.

Lemma core_l23_frame skb f :
  holds_frame skb f -> wf_frame f ->
  core_fill_in_l23 skb =
    (zeroed <| fid_src_ip := frame_src (f_ip f) |> <| fid_dst_ip := frame_dst (f_ip f) |>,
     ip_ethertype (f_ip f), frame_family f, l4_proto (f_l4 f)).
Proof.
  intros Hh Hw. pose proof (frame_bytes_u8 f Hw) as Hu. pose proof Hw as ([Hm _] & Hi & Hl & _).
  assert (He : probe_bytes (ks_head skb) (ks_mac_header skb) sizeof_ethhdr
    = f_macs f ++ net16 (ip_ethertype (f_ip f))).
  { apply (probe_frame skb f [] _ (ip_bytes (f_ip f) (l4_proto (f_l4 f)) ++ l4_bytes (f_l4 f)
      ++ f_payload f)); [done| |cbn; lia|by rewrite length_app, Hm|done].
    unfold frame_bytes. by rewrite <- !app_assoc. }
  assert (Hip : probe_bytes (ks_head skb) (ks_network_header skb) (ip_size (f_ip f))
    = ip_bytes (f_ip f) (l4_proto (f_l4 f))).
  { apply (probe_frame skb f (f_macs f ++ net16 (ip_ethertype (f_ip f))) _
      (l4_bytes (f_l4 f) ++ f_payload f)); [done| | | |by destruct (f_ip f)].
    - unfold frame_bytes. by rewrite <- !app_assoc.
    - rewrite (hf_network _ _ Hh), length_app, Hm. done.
    - symmetry. by apply ip_bytes_length. }
  unfold core_fill_in_l23, core_fill_in_l2. rewrite He.
  assert (Hn : bpf_ntohs (h_proto (decode_ethhdr (f_macs f ++ net16 (ip_ethertype (f_ip f)))))
    = ip_ethertype (f_ip f)).
  { cbn. rewrite <- (app_nil_r (net16 _)) at 1. apply ntohs_net16; [done|].
    rewrite app_nil_r. unfold frame_bytes in Hu. rewrite app_assoc in Hu.
    by apply Forall_app in Hu as [Hu _]. }
  rewrite Hn. unfold core_fill_in_l3, frame_family.
  destruct (f_ip f) as [tos pad check sa da|tc pad hops sa da];
    cbn [ip_ethertype ip_size frame_src frame_dst] in *.
  - change (ETH_P_IP =? ETH_P_IP) with true. change (AF_INET =? AF_INET) with true. cbv iota.
    rewrite Hip, decode_ipv4 by done. done.
  - change (ETH_P_IPV6 =? ETH_P_IP) with false. change (ETH_P_IPV6 =? ETH_P_IPV6) with true.
    change (AF_INET6 =? AF_INET) with false. change (AF_INET6 =? AF_INET6) with true. cbv iota.
    rewrite Hip, decode_ipv6 by done. done.
Qed.

(** A well-formed frame has one key, however it is read. *)
Lemma core_flow_frame skb f :
  holds_frame skb f -> wf_frame f ->
  core_flow skb = (frame_id f, frame_flags f, ip_ethertype (f_ip f), frame_family f).
Proof.
  intros Hh Hw. unfold core_flow. rewrite (core_l23_frame skb f) by done.
  pose proof Hw as ([Hm _] & Hi & Hl & _). pose proof (l4_bytes_length _ Hl) as Hlen.
  assert (Hp : probe_bytes (ks_head skb) (ks_transport_header skb) (l4_size (l4_proto (f_l4 f)))
    = l4_bytes (f_l4 f)).
  { apply (probe_frame skb f (f_macs f ++ net16 (ip_ethertype (f_ip f)) ++
      ip_bytes (f_ip f) (l4_proto (f_l4 f))) _ (f_payload f)); [done| | |done|].
    - unfold frame_bytes. by rewrite <- !app_assoc.
    - rewrite (hf_transport _ _ Hh), (hf_network _ _ Hh), !length_app, Hm.
      rewrite <- (ip_bytes_length (f_ip f) (l4_proto (f_l4 f))) by done.
      rewrite !Nat2Z.inj_add. change (Z.of_nat 12 + Z.of_nat (length (net16 _))) with 14.
      unfold sizeof_ethhdr. cbn [net16 length]. lia.
    - by destruct (f_l4 f). }
  pose proof (l4_bytes_u8 _ Hl) as Hu. unfold core_fill_in_l4.
  destruct f as [macs ip [sp dp seqs off bits pad|sp dp len pad|sp dp pad|t c pad|t c pad] pl];
    cbn [f_l4 f_ip l4_proto] in *;
    match type of Hp with context [l4_size ?p] =>
      let n := eval cbv -[sizeof_tcphdr sizeof_udphdr sizeof_sctphdr sizeof_icmphdr]
        in (l4_size p) in change (l4_size p) with n in Hp end;
    cbn [Z.eqb IPPROTO_TCP IPPROTO_UDP IPPROTO_SCTP IPPROTO_ICMP IPPROTO_ICMPV6 Pos.eqb];
    unfold core_fill_in_tcp, core_fill_in_udp, core_fill_in_sctp, core_fill_in_icmpv4,
      core_fill_in_icmpv6; rewrite Hp; cbn [l4_bytes wf_l4] in *.
  - change (th_source (decode_tcphdr ?b)) with (obj16 b 0).
    change (th_dest (decode_tcphdr ?b)) with (obj16 b 2).
    rewrite ntohs_port0, ntohs_port1 by done.
    destruct Hl as (_ & _ & [Hseqs _] & _).
    replace (net16 sp ++ net16 dp ++ seqs ++ [16 * off; tcp_bits_byte bits] ++ pad)
      with ((net16 sp ++ net16 dp ++ seqs ++ [16 * off]) ++ tcp_bits_byte bits :: pad)
      by (by rewrite <- !app_assoc).
    rewrite set_flags_bits by (rewrite !length_app, Hseqs; done). done.
  - unfold decode_udphdr. cbn [uh_source uh_dest].
    by rewrite ntohs_port0, ntohs_port1 by done.
  - unfold decode_sctphdr. cbn [sh_source sh_dest].
    by rewrite ntohs_port0, ntohs_port1 by done.
  - done.
  - done.
Qed.
(** The same for the hooks without a default branch. *)
Lemma core_fill_frame skb f :
  holds_frame skb f -> wf_frame f ->
  ∃ id, core_fill_in_l23 skb = (id, ip_ethertype (f_ip f), frame_family f, l4_proto (f_l4 f)) /\
    core_fill_in_l4 skb id (l4_proto (f_l4 f)) 0 = Some (frame_id f, frame_flags f).
Proof.
  intros Hh Hf. pose proof (core_flow_frame _ _ Hh Hf) as Hc. unfold core_flow in Hc.
  rewrite (core_l23_frame _ _ Hh Hf) in Hc |- *. eexists. split; [done|]. cbv beta iota in Hc.
  destruct (core_fill_in_l4 _ _ _ _) as [[id flags]|] eqn:E.
  - cbn [default] in Hc. by injection Hc as -> ->.
  - exfalso. unfold core_fill_in_l4 in E. by destruct (f_l4 f).
Qed.

Lemma frame_id_ok skb f :
  holds_frame skb f -> wf_frame f ->
  wf_flow_id (frame_id f) /\ is_u16 (frame_flags f) /\ is_u16 (ip_ethertype (f_ip f)).
Proof.
  intros Hh Hf. pose proof (core_flow_ok skb (hf_wf _ _ Hh)) as Hc.
  by rewrite (core_flow_frame _ _ Hh Hf) in Hc.
Qed.
End FillOk.
