(* ===== verification/Filter.v ===== *)
(** * Flow filtering ([bpf/common/filter.h], [bpf/common/packet_utils.h])

    The operations first, in the order of the source: the lookup key of an
    address, the evaluation of one rule, the two lookups (source address, then
    destination address), the decision and its counter.  Then the abstract
    filter: what it means for a rule to match a packet, and how the outcomes of
    the two lookups combine; the refinement theorem says that the program
    computes it and counts each decision once. *)
From S2P Require Import Prelude Machine Types Kernel Maps Safety PacketUtils.

(** ** Operations *)

(** The return value, the key, and the out-parameters [len] and [offset]. *)
Definition filter_setup_lookup_key (id : flow_id) (key : filter_key_t) (len offset : Z)
    (use_src_ip : bool) (eth_protocol : Z) : Z * filter_key_t * Z * Z :=
  let copy (len offset : Z) :=
    let ip := if use_src_ip then fid_src_ip id else fid_dst_ip id in
    take (Z.to_nat len) (drop (Z.to_nat offset) ip) ++ drop (Z.to_nat len) (fk_ip_data key) in
  if eth_protocol =? ETH_P_IP then
    (0, mk_filter_key_t 32 (copy 4 12), 4, 12)
  else if eth_protocol =? ETH_P_IPV6 then
    (0, mk_filter_key_t 128 (copy IP_MAX_LEN 0), IP_MAX_LEN, 0)
  else (-1, key, len, offset).

(** One port condition of a rule: a list of up to three ports, or a range, or
    nothing.  [alt] and [inside] are the comparisons of the two first cases;
    the result is the match count, or [None] when the condition fails. *)
Definition check_ports (first last port1 port2 : Z) (alt inside : bool) (result : Z) : option Z :=
  if ((negb (first =? 0) && (last =? 0)) || negb (port1 =? 0)) || negb (port2 =? 0) then
    if alt then Some (result + 1) else None
  else if negb (first =? 0) && negb (last =? 0) then
    if inside then Some (result + 1) else None
  else Some result.

(** An exact-match condition of a rule that is not a wildcard. *)
Definition check_exact (set matched : bool) (result : Z) : option Z :=
  if set then (if matched then Some (result + 1) else None) else Some result.

(** The protocol-specific part of a rule. *)
Definition check_l4 (rule : filter_value_t) (id : flow_id) (flags result : Z) : option Z :=
  let proto := fid_transport_protocol id in
  let sport := fid_src_port id in
  let dport := fid_dst_port id in
  if (proto =? IPPROTO_TCP) || (proto =? IPPROTO_UDP) || (proto =? IPPROTO_SCTP) then
    result ← check_ports (fv_dstPortStart rule) (fv_dstPortEnd rule)
      (fv_dstPort1 rule) (fv_dstPort2 rule)
      ((fv_dstPortStart rule =? dport) || (fv_dstPort1 rule =? dport)
       || (fv_dstPort2 rule =? dport))
      ((fv_dstPortStart rule <=? dport) && (dport <=? fv_dstPortEnd rule)) result;
    result ← check_ports (fv_srcPortStart rule) (fv_srcPortEnd rule)
      (fv_srcPort1 rule) (fv_srcPort2 rule)
      ((fv_srcPortStart rule =? sport) || (fv_srcPort1 rule =? sport)
       || (fv_srcPort2 rule =? sport))
      ((fv_srcPortStart rule <=? sport) && (sport <=? fv_srcPortEnd rule)) result;
    result ← check_ports (fv_portStart rule) (fv_portEnd rule) (fv_port1 rule) (fv_port2 rule)
      ((fv_portStart rule =? sport) || (fv_portStart rule =? dport)
       || (fv_port1 rule =? sport) || (fv_port1 rule =? dport)
       || (fv_port2 rule =? sport) || (fv_port2 rule =? dport))
      (((fv_portStart rule <=? sport) && (sport <=? fv_portEnd rule))
       || ((fv_portStart rule <=? dport) && (dport <=? fv_portEnd rule))) result;
    if proto =? IPPROTO_TCP then
      check_exact (negb (fv_tcpFlags rule =? 0)) (fv_tcpFlags rule =? flags) result
    else Some result
  else if (proto =? IPPROTO_ICMP) || (proto =? IPPROTO_ICMPV6) then
    if negb (fv_icmpType rule =? 0) then
      if fv_icmpType rule =? fid_icmp_type id then
        check_exact (negb (fv_icmpCode rule =? 0)) (fv_icmpCode rule =? fid_icmp_code id)
          (result + 1)
      else None
    else Some result
  else Some result.

(** The part of [do_filter_lookup] behind the sampling: protocol, direction,
    drops.  [None] is the jump to [end] with the result reset to 0. *)
Definition check_rule (rule : filter_value_t) (id : flow_id) (flags drop_reason direction : Z)
    (result : Z) : option Z :=
  result ← (if (fv_protocol rule =? fid_transport_protocol id) || (fv_protocol rule =? 0)
            then check_l4 rule id flags result else None);
  result ← check_exact (negb (fv_direction rule =? MAX_DIRECTION))
             (fv_direction rule =? direction) result;
  check_exact (negb (fv_filter_drops rule =? 0)) (negb (drop_reason =? 0)) result.

(** [sampling] is the object the pointer refers to, [None] for a null
    pointer.  The results are the return value, the action and the sampling. *)
Definition do_filter_lookup (id : flow_id) (key : filter_key_t) (action : filter_action)
    (len offset flags drop_reason : Z) (sampling : option Z) (direction : Z)
    (use_src_ip : bool) (eth_protocol : Z) : prog (Z * filter_action * option Z) :=
  found ← call (bpf_map_lookup_elem filter_map key);
  match found with
  | None => mret (0, action, sampling)
  | Some p =>
      rule ← call (elem_read filter_map p);
      let result := 1 in
      let '(action, result) :=
        if decide (fv_action rule = MAX_FILTER_ACTIONS) then (action, result)
        else (fv_action rule, result + 1) in
      peer ← (if fv_do_peerCIDR_lookup rule =? 0 then mret (Some result)
              else
                let '(ret, peerKey, len, offset) :=
                  filter_setup_lookup_key id zeroed len offset use_src_ip eth_protocol in
                if ret <? 0 then mret None
                else
                  peer_result ← call (bpf_map_lookup_elem peer_filter_map peerKey);
                  match peer_result with
                  | Some _ => mret (Some (result + 1))
                  | None => mret None
                  end);
      match peer with
      | None => mret (0, MAX_FILTER_ACTIONS, sampling)
      | Some result =>
          let '(sampling, result) :=
            match sampling with
            | Some _ => if fv_sample rule =? 0 then (sampling, result)
                        else (Some (fv_sample rule), result + 1)
            | None => (sampling, result)
            end in
          mret (default 0 (check_rule rule id flags drop_reason direction result),
                action, sampling)
      end
  end.

Definition matches_filter (id : flow_id) (flags drop_reason eth_protocol : Z)
    (sampling : option Z) (direction : Z) : prog (Z * filter_action * option Z) :=
  let action := MAX_FILTER_ACTIONS in
  let '(ret, key, len, offset) := filter_setup_lookup_key id zeroed 0 0 true eth_protocol in
  if ret <? 0 then mret (ret, action, sampling)
  else
    '(result, action, sampling) ← do_filter_lookup id key action len offset flags drop_reason
      sampling direction false eth_protocol;
    if 0 <? result then mret (result, action, sampling)
    else
      let '(ret, key, len, offset) :=
        filter_setup_lookup_key id key len offset false eth_protocol in
      if ret <? 0 then mret (ret, action, sampling)
      else do_filter_lookup id key action len offset flags drop_reason sampling direction
             true eth_protocol.

Definition is_filter_enabled (cfg : config) : bool := negb (enable_filtering cfg =? 0).

(** The result is whether to skip the packet, and the sampling. *)
Definition check_and_apply_filter (cfg : config) (id : flow_id)
    (flags drop_reason eth_protocol : Z) (sampling : option Z) (direction : Z)
    : prog (bool * option Z) :=
  if is_filter_enabled cfg then
    '(result, action, sampling) ← matches_filter id flags drop_reason eth_protocol sampling
      direction;
    if negb (result =? 0) && negb (bool_decide (action = MAX_FILTER_ACTIONS)) then
      match action with
      | REJECT =>
          _ ← increase_counter (counter_index FILTER_REJECT);
          mret (true, sampling)
      | ACCEPT =>
          _ ← increase_counter (counter_index FILTER_ACCEPT);
          mret (false, sampling)
      | MAX_FILTER_ACTIONS => mret (true, sampling)
      end
    else
      _ ← increase_counter (counter_index FILTER_NOMATCH);
      mret (match action with
            | ACCEPT | MAX_FILTER_ACTIONS => true
            | REJECT => false
            end, sampling)
  else mret (false, sampling).

(** ** The abstract filter *)

(** A port condition holds of some ports when it is unset, or when one of the
    ports is listed, or, if no port is listed, when one of them is in the
    range. *)
Definition port_condition (first last port1 port2 : Z) (ports : list Z) : Prop :=
  if decide ((first <> 0 /\ last = 0) \/ port1 <> 0 \/ port2 <> 0) then
    ∃ p, p ∈ ports /\ p ∈ [first; port1; port2]
  else first <> 0 -> ∃ p, p ∈ ports /\ first <= p <= last.

Definition dst_port_condition (rule : filter_value_t) (id : flow_id) : Prop :=
  port_condition (fv_dstPortStart rule) (fv_dstPortEnd rule) (fv_dstPort1 rule)
    (fv_dstPort2 rule) [fid_dst_port id].
Definition src_port_condition (rule : filter_value_t) (id : flow_id) : Prop :=
  port_condition (fv_srcPortStart rule) (fv_srcPortEnd rule) (fv_srcPort1 rule)
    (fv_srcPort2 rule) [fid_src_port id].
Definition any_port_condition (rule : filter_value_t) (id : flow_id) : Prop :=
  port_condition (fv_portStart rule) (fv_portEnd rule) (fv_port1 rule) (fv_port2 rule)
    [fid_src_port id; fid_dst_port id].

(** A field condition holds when it is a wildcard or equal. *)
Definition wildcard (unset field actual : Z) : Prop := field = unset \/ field = actual.

Definition has_ports (proto : Z) : Prop := proto ∈ [IPPROTO_TCP; IPPROTO_UDP; IPPROTO_SCTP].
Definition is_icmp (proto : Z) : Prop := proto ∈ [IPPROTO_ICMP; IPPROTO_ICMPV6].

(** A rule matches a packet when each of its conditions that applies to the
    packet's protocol does. *)
Record rule_matches (rule : filter_value_t) (id : flow_id) (flags drop_reason direction : Z)
    : Prop := {
  match_protocol : wildcard 0 (fv_protocol rule) (fid_transport_protocol id);
  match_dst_port : has_ports (fid_transport_protocol id) -> dst_port_condition rule id;
  match_src_port : has_ports (fid_transport_protocol id) -> src_port_condition rule id;
  match_port : has_ports (fid_transport_protocol id) -> any_port_condition rule id;
  match_tcp_flags : fid_transport_protocol id = IPPROTO_TCP ->
    wildcard 0 (fv_tcpFlags rule) flags;
  match_icmp_type : is_icmp (fid_transport_protocol id) ->
    wildcard 0 (fv_icmpType rule) (fid_icmp_type id);
  match_icmp_code : is_icmp (fid_transport_protocol id) -> fv_icmpType rule <> 0 ->
    wildcard 0 (fv_icmpCode rule) (fid_icmp_code id);
  match_direction : wildcard MAX_DIRECTION (fv_direction rule) direction;
  match_drops : fv_filter_drops rule <> 0 -> drop_reason <> 0;
}.

(** ** Evaluating one rule *)

Section Rule.
(** A check that starts with [result] matches in hand: it decides [P] and
    never lowers the count. *)
Definition decides (P : Prop) (result : Z) (o : option Z) : Prop :=
  match o with Some n => P /\ result <= n | None => ~ P end.

#[global] Instance decides_proper : Proper (iff ==> eq ==> eq ==> iff) decides.
Proof. intros P P' HP r ? <- [n|] ? <-; cbn; by rewrite HP. Qed.

Lemma decides_bind (P Q R : Prop) result o f :
  decides P result o -> (∀ n, P -> decides Q n (f n)) -> (R <-> P /\ Q) ->
  decides R result (o ≫= f).
Proof.
  unfold decides. intros Ho Hf HR. destruct o as [n|]; cbn; [|tauto].
  destruct Ho as [HP Hn]. specialize (Hf n HP). destruct (f n); [|tauto].
  split; [tauto | lia].
Qed.

Lemma decides_iff P Q result o : decides P result o -> (Q <-> P) -> decides Q result o.
Proof. intros ? HQ. by rewrite HQ. Qed.

Lemma decides_le P result result' o :
  decides P result' o -> result <= result' -> decides P result o.
Proof. unfold decides. destruct o; [intros []; split; [done|lia] | done]. Qed.

Lemma check_exact_decides (unset field actual : Z) (s m : bool) result :
  (s = true <-> field <> unset) -> (m = true <-> field = actual) ->
  decides (wildcard unset field actual) result (check_exact s m result).
Proof.
  unfold decides, check_exact, wildcard. intros Hs Hm.
  destruct (decide (field = unset)).
  - destruct s; [by apply proj1 in Hs; destruct Hs|]. split; [by left|lia].
  - rewrite (proj2 Hs) by done. destruct m.
    + split; [right; by apply Hm | lia].
    + intros [?|?%Hm]; done.
Qed.

Lemma check_ports_decides first last port1 port2 (alt inside : bool) ports result :
  (alt = true <-> ∃ p, p ∈ ports /\ p ∈ [first; port1; port2]) ->
  (inside = true <-> ∃ p, p ∈ ports /\ first <= p <= last) ->
  decides (port_condition first last port1 port2 ports) result
    (check_ports first last port1 port2 alt inside result).
Proof.
  intros Ha Hi. unfold check_ports, port_condition.
  destruct (_ || _) eqn:E.
  - rewrite decide_True.
    2: { rewrite !orb_true_iff, andb_true_iff, !negb_true_iff, !Z.eqb_neq, Z.eqb_eq in E.
         tauto. }
    rewrite <- Ha. destruct alt; cbn; [split; [done|lia] | done].
  - rewrite decide_False.
    2: { rewrite !orb_false_iff, andb_false_iff, !negb_false_iff, !Z.eqb_neq, !Z.eqb_eq in E.
         intuition lia. }
    rewrite !orb_false_iff, andb_false_iff, !negb_false_iff, Z.eqb_neq, !Z.eqb_eq in E.
    destruct (first =? 0) eqn:E0; bool_to_prop; cbn; [split; [done|lia]|].
    rewrite (proj2 (Z.eqb_neq last 0)) by (destruct E as [[[Ef|El] _] _]; lia). cbn.
    rewrite <- Hi. destruct inside; cbn; [split; [done|lia] | intros Hx; discriminate (Hx E0)].
Qed.

Lemma ports1_listed (x a b c : Z) :
  ((a =? x) || (b =? x) || (c =? x)) = true <-> ∃ p, p ∈ [x] /\ p ∈ [a; b; c].
Proof.
  rewrite !orb_true_iff, !Z.eqb_eq. split.
  - intros [[E|E]|E]; exists x; rewrite E; split; rewrite !elem_of_cons; tauto.
  - intros (p & H1 & H2). rewrite !elem_of_cons, elem_of_nil in *.
    destruct H1 as [->|[]]. intuition congruence.
Qed.

Lemma ports2_listed (x y a b c : Z) :
  ((a =? x) || (a =? y) || (b =? x) || (b =? y) || (c =? x) || (c =? y)) = true
  <-> ∃ p, p ∈ [x; y] /\ p ∈ [a; b; c].
Proof.
  rewrite !orb_true_iff, !Z.eqb_eq. split.
  - intros [[[[[E|E]|E]|E]|E]|E]; rewrite E;
      [exists x|exists y|exists x|exists y|exists x|exists y]; split;
      rewrite !elem_of_cons; tauto.
  - intros (p & H1 & H2). rewrite !elem_of_cons, elem_of_nil in *.
    destruct H1 as [->|[->|[]]]; intuition congruence.
Qed.

Lemma ports1_inside (x lo hi : Z) :
  ((lo <=? x) && (x <=? hi)) = true <-> ∃ p, p ∈ [x] /\ lo <= p <= hi.
Proof.
  rewrite andb_true_iff, !Z.leb_le. split.
  - intros ?. exists x. by rewrite list_elem_of_singleton.
  - by intros (p & ->%list_elem_of_singleton & ?).
Qed.

Lemma ports2_inside (x y lo hi : Z) :
  (((lo <=? x) && (x <=? hi)) || ((lo <=? y) && (y <=? hi))) = true
  <-> ∃ p, p ∈ [x; y] /\ lo <= p <= hi.
Proof.
  rewrite orb_true_iff, !andb_true_iff, !Z.leb_le. split.
  - intros [?|?]; [exists x|exists y]; (split; [rewrite !elem_of_cons; tauto | done]).
  - intros (p & H1 & H2). rewrite !elem_of_cons, elem_of_nil in H1.
    destruct H1 as [->|[->|[]]]; tauto.
Qed.

Definition l4_condition rule id flags : Prop :=
  (has_ports (fid_transport_protocol id) ->
    dst_port_condition rule id /\ src_port_condition rule id /\ any_port_condition rule id) /\
  (fid_transport_protocol id = IPPROTO_TCP -> wildcard 0 (fv_tcpFlags rule) flags) /\
  (is_icmp (fid_transport_protocol id) ->
    wildcard 0 (fv_icmpType rule) (fid_icmp_type id) /\
    (fv_icmpType rule <> 0 -> wildcard 0 (fv_icmpCode rule) (fid_icmp_code id))).

Lemma has_ports_bool proto :
  ((proto =? IPPROTO_TCP) || (proto =? IPPROTO_UDP) || (proto =? IPPROTO_SCTP)) = true
  <-> has_ports proto.
Proof.
  unfold has_ports. rewrite !orb_true_iff, !Z.eqb_eq, !elem_of_cons, elem_of_nil. tauto.
Qed.

Lemma is_icmp_bool proto :
  ((proto =? IPPROTO_ICMP) || (proto =? IPPROTO_ICMPV6)) = true <-> is_icmp proto.
Proof.
  unfold is_icmp. rewrite !orb_true_iff, !Z.eqb_eq, !elem_of_cons, elem_of_nil. tauto.
Qed.

Lemma has_ports_not_icmp proto : has_ports proto -> ~ is_icmp proto.
Proof.
  unfold has_ports, is_icmp. rewrite !elem_of_cons, !elem_of_nil.
  intros [->|[->|[->|[]]]] [E|[E|[]]]; discriminate E.
Qed.

Lemma tcp_has_ports : has_ports IPPROTO_TCP.
Proof. apply list_elem_of_here. Qed.

Lemma eqb_set field unset : negb (field =? unset) = true <-> field <> unset.
Proof. by rewrite negb_true_iff, Z.eqb_neq. Qed.

Lemma check_ports3_decides rule id flags result :
  has_ports (fid_transport_protocol id) ->
  decides (dst_port_condition rule id /\ src_port_condition rule id /\
           any_port_condition rule id /\
           (fid_transport_protocol id = IPPROTO_TCP -> wildcard 0 (fv_tcpFlags rule) flags))
    result (check_l4 rule id flags result).
Proof.
  intros Hp. unfold check_l4. rewrite (proj2 (has_ports_bool _) Hp).
  eapply decides_bind; [|intros n1 _|reflexivity].
  { apply check_ports_decides; [apply ports1_listed | apply ports1_inside]. }
  eapply decides_bind; [|intros n2 _|reflexivity].
  { apply check_ports_decides; [apply ports1_listed | apply ports1_inside]. }
  eapply decides_bind; [|intros n3 _|reflexivity].
  { apply check_ports_decides; [apply ports2_listed | apply ports2_inside]. }
  destruct (_ =? IPPROTO_TCP) eqn:Et; bool_to_prop.
  - apply decides_iff with (wildcard 0 (fv_tcpFlags rule) flags); [|tauto].
    apply check_exact_decides; [apply eqb_set | apply Z.eqb_eq].
  - split; [done | lia].
Qed.

Lemma check_l4_decides rule id flags result :
  decides (l4_condition rule id flags) result (check_l4 rule id flags result).
Proof.
  unfold l4_condition. destruct (decide (has_ports (fid_transport_protocol id))) as [Hp|Hp].
  { pose proof (has_ports_not_icmp _ Hp).
    eapply decides_iff; [by apply check_ports3_decides | tauto]. }
  unfold check_l4. destruct (_ || _ || (_ =? IPPROTO_SCTP)) eqn:Ep; [by apply has_ports_bool in Ep|].
  assert (fid_transport_protocol id <> IPPROTO_TCP)
    by (intros E; rewrite E in Hp; by apply Hp, tcp_has_ports).
  clear Ep. destruct (_ || _) eqn:Ei.
  - apply is_icmp_bool in Ei.
    destruct (fv_icmpType rule =? 0) eqn:E0; cbn [negb]; bool_to_prop.
    { split; [|lia]. unfold wildcard. tauto. }
    destruct (_ =? _) eqn:E1; bool_to_prop.
    2: { unfold decides, wildcard. tauto. }
    apply decides_le with (result + 1); [|lia]. eapply decides_iff.
    { apply check_exact_decides; [apply eqb_set | apply Z.eqb_eq]. }
    unfold wildcard. tauto.
  - assert (~ is_icmp (fid_transport_protocol id)) by (rewrite <- is_icmp_bool; congruence).
    split; [tauto | lia].
Qed.

(** The checks of the program decide whether the rule matches. *)
Lemma check_rule_decides rule id flags drop_reason direction result :
  decides (rule_matches rule id flags drop_reason direction) result
    (check_rule rule id flags drop_reason direction result).
Proof.
  unfold check_rule.
  apply decides_bind with
    (wildcard 0 (fv_protocol rule) (fid_transport_protocol id) /\ l4_condition rule id flags)
    (wildcard MAX_DIRECTION (fv_direction rule) direction /\
     (fv_filter_drops rule <> 0 -> drop_reason <> 0)).
  - unfold wildcard at 1. destruct (_ || _) eqn:E.
    + eapply decides_iff; [apply check_l4_decides|].
      apply orb_true_iff in E as [E|E]; bool_to_prop; tauto.
    + bool_to_prop. cbn. tauto.
  - intros n _. eapply decides_bind; [|intros n' _|reflexivity].
    + apply check_exact_decides; [apply eqb_set | apply Z.eqb_eq].
    + unfold decides, check_exact. destruct (fv_filter_drops rule =? 0) eqn:E0, 
        (drop_reason =? 0) eqn:E1; cbn [negb]; bool_to_prop; (split; [done|lia]) || tauto.
  - split.
    + intros [].  unfold l4_condition. tauto.
    + unfold l4_condition. intros ((? & ? & ? & ?) & ? & ?). split; tauto.
Qed.
End Rule.

(** ** The two lookups and the decision *)

(** The trie key of an address of the packet: IPv4 addresses by their last
    four bytes, at the front of the key. *)
Definition lookup_key (id : flow_id) (use_src_ip : bool) (eth_protocol : Z) : filter_key_t :=
  let ip := if use_src_ip then fid_src_ip id else fid_dst_ip id in
  if eth_protocol =? ETH_P_IP then mk_filter_key_t 32 (drop 12 ip ++ zero_bytes 12)
  else mk_filter_key_t 128 ip.

Definition ip_protocol_type (eth_protocol : Z) : Prop := eth_protocol ∈ [ETH_P_IP; ETH_P_IPV6].
#[export] Instance ip_protocol_type_dec e : Decision (ip_protocol_type e).
Proof. unfold ip_protocol_type. apply _. Defined.

Lemma addr_bits_app l l' : addr_bits (l ++ l') = addr_bits l ++ addr_bits l'.
Proof. unfold addr_bits. by rewrite bind_app. Qed.

Lemma addr_bits_length l n : length l = n -> length (addr_bits l) = (8 * n)%nat.
Proof.
  intros <-. unfold addr_bits. induction l as [|b l IH]; [done|]. cbn. rewrite IH. lia.
Qed.

(** The outcome of one lookup.  [PeerMismatch]: the opposite address is not in
    the peer trie of a rule that wants it there. *)
Inductive side :=
  | NoRule
  | PeerMismatch
  | Mismatch (rule : filter_value_t)
  | Match (rule : filter_value_t).

Definition rule_action (rule : filter_value_t) (action : filter_action) : filter_action :=
  if decide (fv_action rule = MAX_FILTER_ACTIONS) then action else fv_action rule.

Definition side_action (s : side) (action : filter_action) : filter_action :=
  match s with
  | NoRule => action
  | PeerMismatch => MAX_FILTER_ACTIONS
  | Mismatch rule | Match rule => rule_action rule action
  end.

Definition rule_sampling (rule : filter_value_t) (sampling : option Z) : option Z :=
  match sampling with
  | Some v => Some (if fv_sample rule =? 0 then v else fv_sample rule)
  | None => None
  end.

(** A rule sets the sampling even when it does not match in the end. *)
Definition side_sampling (s : side) (sampling : option Z) : option Z :=
  match s with
  | NoRule | PeerMismatch => sampling
  | Mismatch rule | Match rule => rule_sampling rule sampling
  end.

Definition matched (s : side) : bool := match s with Match _ => true | _ => false end.

(** What the filter decides from the outcome of the source lookup and, if that
    is no match, of the destination lookup: whether to skip the packet, the
    counter to increment and the sampling. *)
Definition filter_decision (src dst : side) (sampling : option Z)
    : bool * global_counters_key * option Z :=
  let action := side_action src MAX_FILTER_ACTIONS in
  let sampling := side_sampling src sampling in
  let '(m, action, sampling) :=
    if matched src then (true, action, sampling)
    else (matched dst, side_action dst action, side_sampling dst sampling) in
  match m, action with
  | true, ACCEPT => (false, FILTER_ACCEPT, sampling)
  | true, REJECT => (true, FILTER_REJECT, sampling)
  | false, REJECT => (false, FILTER_NOMATCH, sampling)
  | _, _ => (true, FILTER_NOMATCH, sampling)
  end.

Section Decision.
Context {K : Kernel} {KL : KernelLaws K}.
Implicit Types w : world.

#[global] Instance rule_matches_dec rule id flags drop_reason direction :
  Decision (rule_matches rule id flags drop_reason direction).
Proof.
  refine (match check_rule rule id flags drop_reason direction 0 as o
            return decides _ 0 o → Decision (rule_matches rule id flags drop_reason direction) with
          | Some _ => λ H, left (proj1 H)
          | None => λ H, right H
          end (check_rule_decides _ _ _ _ _ _)).
Defined.

(** The outcome of the lookup of one address. *)
Definition side_of (cpu : Z) (w : world) (id : flow_id) (use_src_ip : bool)
    (eth_protocol flags drop_reason direction : Z) : side :=
  match elem cpu filter_map w (lookup_key id use_src_ip eth_protocol) with
  | None => NoRule
  | Some rule =>
      if negb (fv_do_peerCIDR_lookup rule =? 0) &&
         bool_decide (elem cpu peer_filter_map w
                        (lookup_key id (negb use_src_ip) eth_protocol) = None)
      then PeerMismatch
      else if decide (rule_matches rule id flags drop_reason direction)
      then Match rule else Mismatch rule
  end.

Lemma setup_lookup_key id key len offset use_src_ip eth_protocol :
  ip_protocol_type eth_protocol -> wf_flow_id id ->
  length (fk_ip_data key) = 16%nat ->
  (eth_protocol = ETH_P_IP -> drop 4 (fk_ip_data key) = zero_bytes 12) ->
  ∃ len' offset', filter_setup_lookup_key id key len offset use_src_ip eth_protocol
    = (0, lookup_key id use_src_ip eth_protocol, len', offset').
Proof.
  intros Hp (Hs & Hd & _) Hl Hz. unfold filter_setup_lookup_key, lookup_key.
  set (ip := if use_src_ip then _ else _).
  assert (length ip = 16%nat) by (destruct use_src_ip; apply Hs || apply Hd).
  destruct (eth_protocol =? ETH_P_IP) eqn:E4; bool_to_prop.
  - do 2 eexists. do 4 f_equal.
    change (Z.to_nat 12) with 12%nat. change (Z.to_nat 4) with 4%nat.
    rewrite Hz, take_ge by (done || rewrite length_drop; lia). done.
  - apply elem_of_cons in Hp as [ | ->%list_elem_of_singleton]; [done|].
    change (ETH_P_IPV6 =? ETH_P_IPV6) with true.
    do 2 eexists. do 4 f_equal. change (Z.to_nat IP_MAX_LEN) with 16%nat.
    cbn [Z.to_nat]. rewrite drop_0, take_ge, (drop_ge (fk_ip_data key)) by lia.
    by rewrite app_nil_r.
Qed.

Lemma lookup_key_data id use_src_ip eth_protocol :
  wf_flow_id id ->
  length (fk_ip_data (lookup_key id use_src_ip eth_protocol)) = 16%nat /\
  (eth_protocol = ETH_P_IP ->
   drop 4 (fk_ip_data (lookup_key id use_src_ip eth_protocol)) = zero_bytes 12).
Proof.
  intros ([Hs _] & [Hd _] & _). unfold lookup_key.
  set (ip := if use_src_ip then _ else _).
  assert (length ip = 16%nat) by (by destruct use_src_ip).
  destruct (eth_protocol =? ETH_P_IP) eqn:E; cbn [fk_ip_data]; bool_to_prop.
  - split; [rewrite length_app, length_drop; cbn; lia|]. intros _.
    rewrite drop_app_ge by (rewrite length_drop; lia).
    rewrite length_drop. by replace (4 - (length ip - 12))%nat with 0%nat by lia.
  - split; [done | congruence].
Qed.

(** A lookup in any map, the tries included. *)
Lemma wp_find cpu m k (Q : option addr → world → Prop) w :
  (elem cpu m w k = None -> Q None w) ->
  (∀ p v, elem cpu m w k = Some v -> cell_read (w_map w m) p (slot m cpu) = v ->
     Q (Some p) w) ->
  wp cpu (call (bpf_map_lookup_elem m k)) Q w.
Proof.
  intros HN HS. apply wp_call. cbn [helper_sem fst snd]. unfold elem in *.
  destruct (map_find m (w_map w m) k) as [p|]; [by eapply HS | by apply HN].
Qed.

Lemma wp_do_filter_lookup cpu id action len offset flags drop_reason sampling direction
    use_src_ip eth_protocol (Q : Z * filter_action * option Z → world → Prop) w :
  ip_protocol_type eth_protocol -> wf_flow_id id ->
  (∀ result, let s := side_of cpu w id use_src_ip eth_protocol flags drop_reason direction in
     (if matched s then 0 < result else result = 0) ->
     Q (result, side_action s action, side_sampling s sampling) w) ->
  wp cpu (do_filter_lookup id (lookup_key id use_src_ip eth_protocol) action len offset
            flags drop_reason sampling direction (negb use_src_ip) eth_protocol) Q w.
Proof.
  intros Hip Hid HQ. unfold do_filter_lookup. unfold side_of in HQ. cbv zeta in HQ.
  apply wp_bind, wp_find; [intros HN|intros p rule HS Hr].
  { apply wp_ret. rewrite HN in HQ. by apply HQ. }
  rewrite HS in HQ. apply wp_bind, wp_call. cbn [helper_sem fst snd]. rewrite Hr.
  set (ar := if decide _ then _ else _).
  assert (∃ r, ar = (rule_action rule action, r) /\ 0 < r) as (r & -> & Hr0).
  { unfold ar, rule_action.
    destruct (decide (fv_action rule = MAX_FILTER_ACTIONS)); [by exists 1 | by exists 2]. }
  (* the rule, once the peer is known to be all right *)
  assert (Hrest : ∀ r', 0 < r' ->
    negb (fv_do_peerCIDR_lookup rule =? 0) && bool_decide
      (elem cpu peer_filter_map w (lookup_key id (negb use_src_ip) eth_protocol) = None)
      = false ->
    wp cpu (let '(sampling, result) :=
              match sampling with
              | Some _ => if fv_sample rule =? 0 then (sampling, r')
                          else (Some (fv_sample rule), r' + 1)
              | None => (sampling, r')
              end in
            mret (default 0 (check_rule rule id flags drop_reason direction result),
                  rule_action rule action, sampling)) Q w).
  { intros r' Hr' Hpeer. set (sr := match sampling with Some _ => _ | None => _ end).
    assert (∃ r2, sr = (rule_sampling rule sampling, r2) /\ 0 < r2) as (r2 & -> & Hr2).
    { unfold sr, rule_sampling. destruct sampling; [|by eexists].
      destruct (fv_sample rule =? 0); [by exists r' | exists (r' + 1); split; [done|lia]]. }
    apply wp_ret. pose proof (check_rule_decides rule id flags drop_reason direction r2) as Hd.
    rewrite Hpeer in HQ.
    destruct (check_rule _ _ _ _ _ _) as [n|]; cbn [default].
    - destruct Hd. rewrite decide_True in HQ by done. apply HQ. cbn. lia.
    - rewrite decide_False in HQ by done. by apply HQ. }
  destruct (fv_do_peerCIDR_lookup rule =? 0) eqn:Ep.
  { by apply wp_bind, wp_ret, Hrest. }
  edestruct (setup_lookup_key id zeroed len offset (negb use_src_ip) eth_protocol)
    as (len' & off' & ->); [done..|].
  rewrite (proj2 (Z.ltb_ge 0 0)) by done.
  apply wp_bind, wp_bind, wp_find; [intros HP|intros p' v' HP Hp'].
  - apply wp_ret, wp_ret. rewrite bool_decide_eq_true_2 in HQ by done. by apply HQ.
  - apply wp_ret, Hrest; [lia|]. rewrite bool_decide_eq_false_2; [done | congruence].
Qed.

Lemma wp_matches_filter cpu id flags drop_reason eth_protocol sampling direction
    (Q : Z * filter_action * option Z → world → Prop) w :
  ip_protocol_type eth_protocol -> wf_flow_id id ->
  (∀ result,
     let src := side_of cpu w id true eth_protocol flags drop_reason direction in
     let dst := side_of cpu w id false eth_protocol flags drop_reason direction in
     (if matched src || matched dst then 0 < result else result = 0) ->
     Q (result,
        (if matched src then side_action src MAX_FILTER_ACTIONS
         else side_action dst (side_action src MAX_FILTER_ACTIONS)),
        (if matched src then side_sampling src sampling
         else side_sampling dst (side_sampling src sampling))) w) ->
  wp cpu (matches_filter id flags drop_reason eth_protocol sampling direction) Q w.
Proof.
  intros Hip Hid HQ. cbv zeta in HQ. unfold matches_filter.
  edestruct (setup_lookup_key id zeroed 0 0 true eth_protocol) as (len & off & ->); [done..|].
  rewrite (proj2 (Z.ltb_ge 0 0)) by done.
  apply wp_bind, (wp_do_filter_lookup _ _ _ _ _ _ _ _ _ true); [done..|].
  intros result. cbv zeta. intros Hres. destruct (matched (side_of cpu w id true _ _ _ _)) eqn:Em.
  { rewrite (proj2 (Z.ltb_lt 0 result)) by done. by apply wp_ret, HQ. }
  rewrite Hres, (proj2 (Z.ltb_ge 0 0)) by done.
  edestruct (setup_lookup_key id (lookup_key id true eth_protocol) len off false eth_protocol)
    as (len' & off' & ->); [done|done|by apply lookup_key_data..|].
  rewrite (proj2 (Z.ltb_ge 0 0)) by done.
  apply (wp_do_filter_lookup _ _ _ _ _ _ _ _ _ false); [done..|].
  intros result'. cbv zeta. intros Hres'. by apply HQ.
Qed.

(** The filter of the programs is the abstract filter; it changes nothing but
    one counter. *)
Lemma wp_check_and_apply_filter cpu cfg id flags drop_reason eth_protocol sampling direction
    (Q : bool * option Z → world → Prop) w :
  world_wf w -> ip_protocol_type eth_protocol -> wf_flow_id id ->
  is_filter_enabled cfg = true ->
  (∀ w',
     let src := side_of cpu w id true eth_protocol flags drop_reason direction in
     let dst := side_of cpu w id false eth_protocol flags drop_reason direction in
     let d := filter_decision src dst sampling in
     counted cpu d.1.2 w w' -> Q (d.1.1, d.2) w') ->
  wp cpu (check_and_apply_filter cfg id flags drop_reason eth_protocol sampling direction) Q w.
Proof.
  intros Hw Hip Hid Hen HQ. cbv zeta in HQ. unfold check_and_apply_filter. rewrite Hen.
  apply wp_bind, wp_matches_filter; [done..|]. cbv zeta. intros result Hres.
  set (src := side_of cpu w id true _ _ _ _) in *. set (dst := side_of cpu w id false _ _ _ _) in *.
  set (smp := if matched src then side_sampling src sampling else _).
  set (act := if matched src then side_action src _ else _).
  assert (Hd : filter_decision src dst sampling =
    match matched src || matched dst, act with
    | true, ACCEPT => (false, FILTER_ACCEPT, smp)
    | true, REJECT => (true, FILTER_REJECT, smp)
    | false, REJECT => (false, FILTER_NOMATCH, smp)
    | _, _ => (true, FILTER_NOMATCH, smp)
    end).
  { unfold filter_decision, act, smp. by destruct (matched src). }
  rewrite Hd in HQ. clearbody act smp.
  destruct (matched src || matched dst).
  - rewrite (proj2 (Z.eqb_neq result 0)) by lia. cbn [negb andb].
    destruct act; cbn [bool_decide decide_rel negb];
      (apply wp_bind, wp_increase_counter; [done|]; intros w' Hc; by apply wp_ret, HQ).
  - rewrite Hres. cbn [Z.eqb negb andb].
    apply wp_bind, wp_increase_counter; [done|]. intros w' Hc. apply wp_ret.
    by destruct act; apply HQ.
Qed.

Lemma check_and_apply_filter_disabled cfg id flags drop_reason eth_protocol sampling direction :
  is_filter_enabled cfg = false ->
  check_and_apply_filter cfg id flags drop_reason eth_protocol sampling direction
  = Ret (false, sampling).
Proof. unfold check_and_apply_filter. by intros ->. Qed.
End Decision.

(** ** Safety and footprint *)

(** The object behind the sampling pointer stays an [u32]. *)
Definition sampling_ok (sampling sampling' : option Z) : Prop :=
  match sampling, sampling' with
  | Some _, Some v => is_u32 v
  | None, None => True
  | _, _ => False
  end.

Definition filter_result_ok {A B} (sampling : option Z) (r : A * B * option Z) : Prop :=
  sampling_ok sampling r.2.

Lemma sampling_ok_refl s : (∀ v, s = Some v -> is_u32 v) -> sampling_ok s s.
Proof. destruct s; cbn; auto. Qed.

Lemma sampling_ok_trans s1 s2 s3 : sampling_ok s1 s2 -> sampling_ok s2 s3 -> sampling_ok s1 s3.
Proof. by destruct s1, s2, s3. Qed.

Lemma sampling_ok_u32 s s' v : sampling_ok s s' -> s' = Some v -> is_u32 v.
Proof. intros Hs ->. by destruct s. Qed.

Lemma do_filter_lookup_safe id key action len offset flags drop_reason sampling direction
    use_src_ip eth_protocol :
  (∀ v, sampling = Some v -> is_u32 v) ->
  safe (filter_result_ok sampling)
    (do_filter_lookup id key action len offset flags drop_reason sampling direction use_src_ip
       eth_protocol).
Proof.
  intros Hs. pose proof (sampling_ok_refl _ Hs) as Hrefl. unfold do_filter_lookup.
  apply safe_bind, safe_call; [done|]. intros [p|] _; [|done].
  apply safe_bind, safe_call; [done|]. intros rule Hr. cbn in Hr.
  destruct (if decide _ then _ else _) as [action' result].
  apply safe_bind. apply safe_mono with (λ _, True).
  - case_match; [done|]. destruct (filter_setup_lookup_key _ _ _ _ _ _) as [[[ret ?] ?] ?].
    case_match; [done|]. apply safe_bind, safe_call; [done|]. by intros [|].
  - intros [r|] _; [|done].
    assert (Hs' : sampling_ok sampling
        (match sampling with
         | Some _ => if fv_sample rule =? 0 then (sampling, r) else (Some (fv_sample rule), r + 1)
         | None => (sampling, r)
         end).1) by (destruct sampling; [by case_match|done]).
    by destruct (match sampling with Some _ => _ | None => _ end).
Qed.

Lemma matches_filter_safe id flags drop_reason eth_protocol sampling direction :
  (∀ v, sampling = Some v -> is_u32 v) ->
  safe (filter_result_ok sampling)
    (matches_filter id flags drop_reason eth_protocol sampling direction).
Proof.
  intros Hs. pose proof (sampling_ok_refl _ Hs). unfold matches_filter.
  destruct (filter_setup_lookup_key _ _ _ _ _ _) as [[[ret k] l] o].
  case_match; [done|]. apply safe_bind.
  eapply safe_mono; [by apply do_filter_lookup_safe|]. intros [[result action] s'] Hs'.
  unfold filter_result_ok in *. cbn [snd] in *. case_match; [done|].
  destruct (filter_setup_lookup_key _ _ _ _ _ _) as [[[ret' k'] l'] o'].
  case_match; [done|]. eapply safe_mono.
  - apply do_filter_lookup_safe. intros v. by eapply sampling_ok_u32.
  - intros r. by apply sampling_ok_trans.
Qed.

Lemma check_and_apply_filter_safe cfg id flags drop_reason eth_protocol sampling direction :
  (∀ v, sampling = Some v -> is_u32 v) ->
  safe (λ r, sampling_ok sampling r.2)
    (check_and_apply_filter cfg id flags drop_reason eth_protocol sampling direction).
Proof.
  intros Hs. pose proof (sampling_ok_refl _ Hs). unfold check_and_apply_filter.
  case_match; [|done]. apply safe_bind.
  eapply safe_mono; [by apply matches_filter_safe|]. intros [[result action] s'] Hs'.
  unfold filter_result_ok in Hs'. cbn [snd] in Hs'.
  assert (Hc : ∀ c b, safe (λ r, sampling_ok sampling r.2)
    (_ ← increase_counter (counter_index c); mret ((b, s') : bool * option Z))).
  { intros c b. apply safe_bind. eapply safe_mono; [apply increase_counter_safe|done]. }
  case_match; [|apply Hc]. case_match; [apply Hc..|done].
Qed.

Lemma do_filter_lookup_writes ms rs id key action len offset flags drop_reason sampling direction
    use_src_ip eth_protocol :
  writes ms rs (do_filter_lookup id key action len offset flags drop_reason sampling direction
    use_src_ip eth_protocol).
Proof.
  unfold do_filter_lookup. apply writes_bind; [done|]. intros [p|]; [|done].
  apply writes_bind; [done|]. intros rule. destruct (if decide _ then _ else _).
  apply writes_bind.
  - case_match; [done|]. destruct (filter_setup_lookup_key _ _ _ _ _ _) as [[[ret ?] ?] ?].
    case_match; [done|]. apply writes_bind; [done|]. by intros [|].
  - intros [r|]; [|done]. by destruct (match sampling with Some _ => _ | None => _ end).
Qed.

(** The filter writes nothing but counters. *)
Lemma check_and_apply_filter_writes cfg id flags drop_reason eth_protocol sampling direction :
  writes [global_counters] []
    (check_and_apply_filter cfg id flags drop_reason eth_protocol sampling direction).
Proof.
  unfold check_and_apply_filter. case_match; [|done]. apply writes_bind.
  - unfold matches_filter. destruct (filter_setup_lookup_key _ _ _ _ _ _) as [[[ret k] l] o].
    case_match; [done|]. apply writes_bind; [apply do_filter_lookup_writes|].
    intros [[result action] s']. case_match; [done|].
    destruct (filter_setup_lookup_key _ _ _ _ _ _) as [[[ret' k'] l'] o'].
    case_match; [done|]. apply do_filter_lookup_writes.
  - intros [[result action] s'].
    assert (Hc : ∀ c b, writes [global_counters] []
      (_ ← increase_counter (counter_index c); mret ((b, s') : bool * option Z))).
    { intros c b. by apply writes_bind; [apply increase_counter_writes|]. }
    case_match; [|apply Hc]. case_match; [apply Hc..|done].
Qed.
