(* ===== verification/GoText.v ===== *)
(** * Numbers and addresses in text

    What the user-space agent uses of Go's standard library to read its
    configuration: [strings.SplitN], [strconv.ParseUint], [strconv.Itoa],
    [net.ParseCIDR], [net.ParseIP] and [IP.To4].  A text is a list of characters,
    an error is [None], and an address is its 16 bytes, an IPv4 address in its
    IPv4-mapped form.  The lemmas say exactly which texts are numbers, and that
    what is printed is read back. *)
From Stdlib Require Import Ascii String.
From stdpp Require Import strings pretty.
From S2P Require Import Prelude Machine Types Kernel PacketUtils.

Abbreviation text := (list ascii).
Definition chars : string → text := list_ascii_of_string.

(** ** Numbers *)

Definition code (c : ascii) : Z := Z.of_N (N_of_ascii c).

Definition digit (c : ascii) : option Z :=
  if (48 <=? code c) && (code c <=? 57) then Some (code c - 48) else None.

Definition hex_digit (c : ascii) : option Z :=
  if (48 <=? code c) && (code c <=? 57) then Some (code c - 48)
  else if (97 <=? code c) && (code c <=? 102) then Some (code c - 97 + 10)
  else if (65 <=? code c) && (code c <=? 70) then Some (code c - 65 + 10)
  else None.

(** The digits of [s] behind a number [n], none of them beyond [max]. *)
Fixpoint parse_digits (max n : Z) (s : text) : option Z :=
  match s with
  | [] => Some n
  | c :: s =>
      d ← digit c;
      let n1 := n * 10 + d in
      if max <? n1 then None else parse_digits max n1 s
  end.

(** [strconv.ParseUint(s, 10, bits)] *)
Definition ParseUint (s : text) (bits : Z) : option Z :=
  match s with [] => None | _ => parse_digits (2 ^ bits - 1) 0 s end.

(** [strconv.Itoa] *)
Definition Itoa (n : Z) : text := chars (pretty n).

(** [strings.SplitN(s, sep, 2)] for a separator of one character. *)
Fixpoint SplitN2 (s : text) (sep : ascii) : list text :=
  match s with
  | [] => [[]]
  | c :: s =>
      if decide (c = sep) then [[]; s]
      else match SplitN2 s sep with
           | before :: rest => (c :: before) :: rest
           | [] => []
           end
  end.

(** ** Addresses *)

(** [netip.parseIPv4Fields]: the fields so far, the value of the current field and
    its number of digits. *)
Fixpoint parseIPv4Fields (s : text) (fields : list Z) (val digLen : Z) : option (list Z) :=
  match s with
  | [] => if (length fields <? 3)%nat then None else Some (fields ++ [val])
  | c :: s =>
      match digit c with
      | Some d =>
          if (digLen =? 1) && (val =? 0) then None
          else
            let val := val * 10 + d in
            if 255 <? val then None else parseIPv4Fields s fields val (digLen + 1)
      | None =>
          if decide (c = "."%char) then
            if (digLen =? 0) || bool_decide (s = []) then None
            else if (length fields =? 3)%nat then None
            else parseIPv4Fields s (fields ++ [val]) 0 0
          else None
      end
  end.

(** The hexadecimal digits at the front of [s]: their value, how many they are, and
    what follows. *)
Fixpoint hex_group (s : text) (acc off : Z) : option (Z * Z * text) :=
  match s with
  | [] => Some (acc, off, [])
  | c :: s' =>
      match hex_digit c with
      | Some d => if 3 <? off then None else hex_group s' (acc * 16 + d) (off + 1)
      | None => Some (acc, off, s)
      end
  end.

Definition group_bytes (g : Z) : list Z := [Z.shiftr g 8; u8 g].

(** The loop of [netip.parseIPv6] over the groups: the bytes so far, where the
    ellipsis is, and what is left of the text.  There is room for [n] groups. *)
Fixpoint v6_groups (n : nat) (ip : list Z) (ellipsis : option nat) (s : text)
    : option (list Z * option nat * text) :=
  match n with
  | O => Some (ip, ellipsis, s)
  | S n =>
      '(acc, off, rest) ← hex_group s 0 0;
      if off =? 0 then None
      else
        let ip' := ip ++ group_bytes acc in
        match rest with
        | [] => Some (ip', ellipsis, [])
        | c :: rest =>
            if decide (c = "."%char) then
              if bool_decide (ellipsis = None) && negb (length ip =? 12)%nat then None
              else if (16 <? length ip + 4)%nat then None
              else v4 ← parseIPv4Fields s [] 0 0; Some (ip ++ v4, ellipsis, [])
            else if decide (c = ":"%char) then
              match rest with
              | [] => None
              | c :: rest' =>
                  if decide (c = ":"%char) then
                    match ellipsis, rest' with
                    | Some _, _ => None
                    | None, [] => Some (ip', Some (length ip'), [])
                    | None, _ => v6_groups n ip' (Some (length ip')) rest'
                    end
                  else v6_groups n ip' ellipsis rest
              end
            else None
        end
  end.

(** [netip.parseIPv6]; the callers refuse the addresses with a zone. *)
Definition parseIPv6 (s : text) : option (list Z) :=
  if bool_decide ("%"%char ∈ s) then None
  else
    let '(ellipsis, s, unspecified) :=
      match s with
      | c1 :: c2 :: s' =>
          if decide (c1 = ":"%char /\ c2 = ":"%char) then (Some 0%nat, s', bool_decide (s' = []))
          else (None, s, false)
      | _ => (None, s, false)
      end in
    if unspecified then Some (zero_bytes 16)
    else
      '(ip, ellipsis, s) ← v6_groups 8 [] ellipsis s;
      if negb (bool_decide (s = [])) then None
      else if (length ip <? 16)%nat then
        e ← ellipsis;
        Some (take e ip ++ zero_bytes (16 - length ip) ++ drop e ip)
      else match ellipsis with Some _ => None | None => Some ip end.

(** [netip.ParseAddr]: 16 bytes, and the length of the address in bits. *)
Fixpoint ParseAddr_from (s all : text) : option (list Z * Z) :=
  match s with
  | [] => None
  | c :: s =>
      if decide (c = "."%char) then
        (λ v4, (ip4in6 ++ v4, 32)) <$> parseIPv4Fields all [] 0 0
      else if decide (c = ":"%char) then (λ ip, (ip, 128)) <$> parseIPv6 all
      else if decide (c = "%"%char) then None
      else ParseAddr_from s all
  end.
Definition ParseAddr (s : text) : option (list Z * Z) := ParseAddr_from s s.

(** [net.ParseCIDR]: the address, and the size of the mask. *)
Definition ParseCIDR (s : text) : option (list Z * Z) :=
  match SplitN2 s "/"%char with
  | [addr; mask] =>
      '(ip, bits) ← ParseAddr addr;
      n ← (match mask with [] => None | _ => parse_digits (0xFFFFFF - 1) 0 mask end);
      if bits <? n then None else Some (ip, n)
  | _ => None
  end.

(** [net.ParseIP]; [None] is the nil address. *)
Definition ParseIP (s : text) : option (list Z) := fst <$> ParseAddr s.

(** [IP.To4]: the four bytes of an IPv4-mapped address. *)
Definition To4 (ip : list Z) : option (list Z) :=
  if decide (take 12 ip = ip4in6) then Some (drop 12 ip) else None.

(** ** Which texts are numbers *)

(** The number whose decimal digits are those of [n] followed by [s]. *)
Fixpoint numeral (n : Z) (s : text) : option Z :=
  match s with [] => Some n | c :: s => d ← digit c; numeral (n * 10 + d) s end.

Lemma digit_range c d : digit c = Some d -> 0 <= d <= 9.
Proof. unfold digit. destruct (_ && _) eqn:E; [|done]. intros [= <-]. bool_to_prop. lia. Qed.

Lemma numeral_le n s r : 0 <= n -> numeral n s = Some r -> n <= r.
Proof.
  revert n. induction s as [|c s IH]; cbn; intros n Hn; [intros [= <-]; lia|].
  destruct (digit c) as [d|] eqn:Ed; [|done]. cbn. intros Hr%IH; apply digit_range in Ed; lia.
Qed.

Lemma parse_digits_iff max n s r :
  0 <= n <= max -> parse_digits max n s = Some r <-> numeral n s = Some r /\ r <= max.
Proof.
  revert n. induction s as [|c s IH]; cbn; intros n Hn; [naive_solver lia|].
  destruct (digit c) as [d|] eqn:Ed; cbn; [|naive_solver]. apply digit_range in Ed.
  destruct (max <? n * 10 + d) eqn:E; bool_to_prop; [|apply IH; lia].
  split; [done|]. intros [Hr%numeral_le ?]; lia.
Qed.

Lemma ParseUint_iff s bits r :
  0 <= bits -> ParseUint s bits = Some r <-> s <> [] /\ numeral 0 s = Some r /\ r < 2 ^ bits.
Proof.
  intros Hb. pose proof (Z.pow_pos_nonneg 2 bits ltac:(lia) Hb). destruct s; [naive_solver|].
  unfold ParseUint. rewrite parse_digits_iff by lia. naive_solver lia.
Qed.

(** ** Printed numbers *)

Lemma digit_pretty_char x : (x < 10)%N -> digit (pretty_N_char x) = Some (Z.of_N x).
Proof.
  intros Hx. assert (E : x ∈ [0; 1; 2; 3; 4; 5; 6; 7; 8; 9]%N) by (rewrite !elem_of_cons; lia).
  rewrite !elem_of_cons, elem_of_nil in E. by repeat destruct E as [->|E].
Qed.

Lemma numeral_pretty_go x s : numeral 0 (chars (pretty_N_go x s)) = numeral (Z.of_N x) (chars s).
Proof.
  revert s. induction (N.lt_wf_0 x) as [x _ IH]. intros s.
  destruct (decide (0 < x)%N) as [Hx|Hx]; [|by replace x with 0%N by lia].
  rewrite pretty_N_go_step, IH by (done || apply N.div_lt; lia).
  pose proof (N.mod_lt x 10 ltac:(lia)) as Hm. cbn. rewrite digit_pretty_char by done.
  cbn. f_equal. rewrite N2Z.inj_div, N2Z.inj_mod. pose proof (Z.div_mod (Z.of_N x) 10). lia.
Qed.

Lemma Itoa_N n : 0 < n -> Itoa n = chars (pretty_N_go (Z.to_N n) "").
Proof. intros Hn. destruct n; [lia| |lia]. reflexivity. Qed.

Lemma numeral_Itoa n : 0 <= n -> numeral 0 (Itoa n) = Some n.
Proof.
  intros Hn. destruct (decide (n = 0)) as [->|]; [done|].
  rewrite Itoa_N, numeral_pretty_go by lia. cbn. f_equal. lia.
Qed.

Lemma numeral_digits n s r c : numeral n s = Some r -> c ∈ s -> is_Some (digit c).
Proof.
  revert n. induction s as [|c' s IH]; cbn; intros n Hr; [by intros ?%elem_of_nil|].
  destruct (digit c') eqn:Ed; [|done]. intros [->|]%elem_of_cons; [by rewrite Ed|by eapply IH].
Qed.

Lemma Itoa_digits n c : 0 <= n -> c ∈ Itoa n -> is_Some (digit c).
Proof. intros Hn. by eapply numeral_digits, numeral_Itoa. Qed.

Lemma Itoa_nonempty n : 0 <= n -> Itoa n <> [].
Proof.
  intros Hn E. destruct (decide (n = 0)) as [->|]; [done|].
  pose proof (numeral_Itoa n Hn) as H. rewrite E in H. cbn in H. congruence.
Qed.

Lemma ParseUint_Itoa n bits : 0 <= bits -> 0 <= n < 2 ^ bits -> ParseUint (Itoa n) bits = Some n.
Proof.
  intros Hb Hn. apply ParseUint_iff; [done|]. split_and!; [apply Itoa_nonempty; lia| |lia].
  apply numeral_Itoa. lia.
Qed.

Lemma ParseUint_nonneg s bits n : ParseUint s bits = Some n -> 0 <= n.
Proof.
  destruct (decide (0 <= bits)).
  - intros (_ & Hn & _)%ParseUint_iff; [|done]. by apply numeral_le in Hn.
  - destruct s as [|c s]; [done|]. cbn. rewrite Z.pow_neg_r by lia. destruct (digit c) as [d|] eqn:Ed; [|done].
    apply digit_range in Ed. cbn. by rewrite (proj2 (Z.ltb_lt _ _)) by lia.
Qed.

Lemma Itoa_no_comma n : ","%char ∉ Itoa n.
Proof.
  destruct (decide (0 <= n)) as [Hn|Hn].
  - intros Hc%Itoa_digits; [cbn in Hc; by destruct Hc|done].
  - destruct n as [|p|p]; [lia..|]. change (Itoa (Z.neg p)) with ("-"%char :: Itoa (Z.pos p)).
    intros [|Hc%Itoa_digits]%elem_of_cons; [done|cbn in Hc; by destruct Hc|lia].
Qed.

(** ** Splitting *)

Lemma SplitN2_none s sep : sep ∉ s -> SplitN2 s sep = [s].
Proof.
  induction s as [|c s IH]; [done|]. intros [Hc Hs]%not_elem_of_cons. cbn.
  rewrite decide_False by congruence. by rewrite IH.
Qed.

Lemma SplitN2_app s sep s' : sep ∉ s -> SplitN2 (s ++ sep :: s') sep = [s; s'].
Proof.
  induction s as [|c s IH]; cbn.
  { intros _. by rewrite decide_True. }
  intros [Hc Hs]%not_elem_of_cons. rewrite decide_False by congruence. by rewrite IH.
Qed.

Lemma SplitN2_two s sep a b : SplitN2 s sep = [a; b] <-> s = a ++ sep :: b /\ sep ∉ a.
Proof.
  split; [|intros [-> ?]; by apply SplitN2_app].
  revert a. induction s as [|c s IH]; cbn; intros a; [done|].
  destruct (decide (c = sep)) as [->|Hc].
  { intros [= <- <-]. split; [done|apply not_elem_of_nil]. }
  destruct (SplitN2 s sep) as [|a' [|b' []]] eqn:E; [done..| |done]. intros [= <- ->].
  destruct (IH a' eq_refl) as [-> ?]. split; [done|]. by apply not_elem_of_cons.
Qed.

(** ** Printed addresses *)

Definition v4_text (a b c d : Z) : text :=
  Itoa a ++ "."%char :: Itoa b ++ "."%char :: Itoa c ++ "."%char :: Itoa d.

(** The value and the number of digits behind the digits of [s]. *)
Fixpoint octet (s : text) (val digLen : Z) : option (Z * Z) :=
  match s with
  | [] => Some (val, digLen)
  | c :: s =>
      d ← digit c;
      if (digLen =? 1) && (val =? 0) then None
      else if 255 <? val * 10 + d then None else octet s (val * 10 + d) (digLen + 1)
  end.

Lemma parseIPv4Fields_octet s s' fields val digLen val' digLen' :
  octet s val digLen = Some (val', digLen') ->
  parseIPv4Fields (s ++ s') fields val digLen = parseIPv4Fields s' fields val' digLen'.
Proof.
  revert val digLen. induction s as [|c s IH]; cbn; intros val digLen; [by intros [= -> ->]|].
  destruct (digit c) as [d|]; [|done]. cbn. do 2 (case_match; [done|]). apply IH.
Qed.

Lemma octet_Itoa n : is_u8 n -> ∃ digLen, octet (Itoa n) 0 0 = Some (n, digLen) /\ digLen <> 0.
Proof.
  intros Hn. set (ok n := match octet (Itoa n) 0 0 with
    | Some (v, l) => (v =? n) && negb (l =? 0) | None => false end).
  assert (H : forallb ok (Z.of_nat <$> seq 0 256) = true) by (vm_compute; reflexivity).
  rewrite forallb_forall in H. specialize (H n). unfold ok in H.
  destruct (octet (Itoa n) 0 0) as [[v l]|].
  - rewrite andb_true_iff in H. destruct H as [Hv Hl].
    + apply list_elem_of_In, list_elem_of_fmap. exists (Z.to_nat n). split; [width; lia|].
      apply elem_of_seq. width. lia.
    + bool_to_prop. subst v. by exists l.
  - discriminate H. apply list_elem_of_In, list_elem_of_fmap. exists (Z.to_nat n). split; [width; lia|].
    apply elem_of_seq. width. lia.
Qed.

Lemma parseIPv4Fields_dot s fields val digLen :
  digLen <> 0 -> s <> [] -> length fields <> 3%nat ->
  parseIPv4Fields ("."%char :: s) fields val digLen = parseIPv4Fields s (fields ++ [val]) 0 0.
Proof.
  intros Hd Hs Hf. cbn. rewrite (proj2 (Z.eqb_neq _ _) Hd), bool_decide_false by done. cbn.
  by rewrite (proj2 (Nat.eqb_neq _ _) Hf).
Qed.

Lemma app_cons_nonempty {A} (l : list A) x l' : l ++ x :: l' <> [].
Proof. by destruct l. Qed.

Lemma parseIPv4Fields_text a b c d :
  is_u8 a -> is_u8 b -> is_u8 c -> is_u8 d ->
  parseIPv4Fields (v4_text a b c d) [] 0 0 = Some [a; b; c; d].
Proof.
  intros Ha Hb Hc Hd. unfold v4_text.
  destruct (octet_Itoa a Ha) as (la & Ea & Na), (octet_Itoa b Hb) as (lb & Eb & Nb),
    (octet_Itoa c Hc) as (lc & Ec & Nc), (octet_Itoa d Hd) as (ld & Ed & Nd).
  rewrite (parseIPv4Fields_octet _ _ _ _ _ _ _ Ea), parseIPv4Fields_dot by (done || apply app_cons_nonempty).
  rewrite (parseIPv4Fields_octet _ _ _ _ _ _ _ Eb), parseIPv4Fields_dot by (done || apply app_cons_nonempty).
  rewrite (parseIPv4Fields_octet _ _ _ _ _ _ _ Ec), parseIPv4Fields_dot
    by (done || apply Itoa_nonempty; width; lia).
  rewrite <- (app_nil_r (Itoa d)). by rewrite (parseIPv4Fields_octet _ _ _ _ _ _ _ Ed).
Qed.

(** The first character that is no digit decides which kind of address it is. *)
Lemma ParseAddr_from_skip s s' all :
  (∀ c, c ∈ s -> is_Some (hex_digit c)) -> ParseAddr_from (s ++ s') all = ParseAddr_from s' all.
Proof.
  induction s as [|c s IH]; [done|]. intros Hs. cbn.
  assert (Hc : is_Some (hex_digit c)) by (apply Hs, list_elem_of_here).
  rewrite !decide_False by (intros ->; cbn in Hc; by destruct Hc).
  apply IH. intros c' Hc'. by apply Hs, list_elem_of_further.
Qed.

Lemma digit_hex c : is_Some (digit c) -> is_Some (hex_digit c).
Proof. unfold digit, hex_digit. destruct (_ && _); [done|by intros [? ?]]. Qed.

Lemma ParseAddr_v4 a b c d :
  is_u8 a -> is_u8 b -> is_u8 c -> is_u8 d ->
  ParseAddr (v4_text a b c d) = Some (ip4in6 ++ [a; b; c; d], 32).
Proof.
  intros Ha Hb Hc Hd. unfold ParseAddr.
  transitivity (ParseAddr_from ("."%char :: Itoa b ++ "."%char :: Itoa c ++ "."%char :: Itoa d) (v4_text a b c d)).
  - apply ParseAddr_from_skip. intros x Hx. eapply digit_hex, Itoa_digits; [|exact Hx]. width. lia.
  - cbn. by rewrite parseIPv4Fields_text.
Qed.

(** A group of an IPv6 address, in the shortest form. *)
Definition hex_char (d : Z) : ascii := ascii_of_N (Z.to_N (if d <? 10 then 48 + d else 87 + d)).
Definition hex_text (g : Z) : text :=
  let c i := hex_char (Z.shiftr g (4 * i) mod 16) in
  if g <? 16 then [c 0] else if g <? 256 then [c 1; c 0]
  else if g <? 4096 then [c 2; c 1; c 0] else [c 3; c 2; c 1; c 0].

(** Groups with colons between them. *)
Fixpoint groups_text (g : Z) (gs : list Z) : text :=
  match gs with
  | [] => hex_text g
  | g' :: gs => hex_text g ++ ":"%char :: groups_text g' gs
  end.

Lemma hex_digit_char d : 0 <= d < 16 -> hex_digit (hex_char d) = Some d.
Proof.
  intros Hd. assert (E : d ∈ [0; 1; 2; 3; 4; 5; 6; 7; 8; 9; 10; 11; 12; 13; 14; 15])
    by (rewrite !elem_of_cons; lia).
  rewrite !elem_of_cons, elem_of_nil in E. by repeat destruct E as [->|E].
Qed.

Definition hex_stops (s : text) : Prop := match s with [] => True | c :: _ => hex_digit c = None end.

Lemma hex_group_stop s acc off : hex_stops s -> hex_group s acc off = Some (acc, off, s).
Proof. destruct s; cbn; [done|]. by intros ->. Qed.

Lemma hex_group_char x s acc off :
  0 <= off <= 3 -> hex_group (hex_char (x mod 16) :: s) acc off = hex_group s (acc * 16 + x mod 16) (off + 1).
Proof.
  intros Ho. cbn [hex_group]. rewrite hex_digit_char by (apply Z.mod_pos_bound; lia).
  by rewrite (proj2 (Z.ltb_ge _ _)) by lia.
Qed.

Lemma hex_group_text g s :
  is_u16 g -> hex_stops s -> ∃ n, hex_group (hex_text g ++ s) 0 0 = Some (g, n, s) /\ n <> 0.
Proof.
  intros Hg Hs. unfold hex_text. rewrite !Z.shiftr_div_pow2 by lia.
  change (4 * 0) with 0. change (4 * 1) with 4. change (4 * 2) with 8. change (4 * 3) with 12.
  change (2 ^ 0) with 1. change (2 ^ 4) with 16. change (2 ^ 8) with 256. change (2 ^ 12) with 4096.
  repeat (case_match; bool_to_prop); eexists; cbn [app]; rewrite !hex_group_char by lia;
    rewrite hex_group_stop by done;
    (split; [do 2 f_equal; f_equal; width; Z.to_euclidean_division_equations; lia|lia]).
Qed.

Lemma groups_text_front g gs : is_u16 g -> Forall is_u16 gs ->
  ∃ c s, groups_text g gs = c :: s /\ is_Some (hex_digit c).
Proof.
  intros Hg _. assert (H : ∃ x s, hex_text g = hex_char (x mod 16) :: s)
    by (unfold hex_text; repeat case_match; by do 2 eexists).
  destruct H as (x & s & E). exists (hex_char (x mod 16)).
  assert (Hx : is_Some (hex_digit (hex_char (x mod 16))))
    by (rewrite hex_digit_char by (apply Z.mod_pos_bound; lia); done).
  destruct gs; cbn; rewrite E; by eexists.
Qed.

(** The groups up to the end of the text, and up to an ellipsis. *)
Lemma v6_groups_end n ip e g gs :
  is_u16 g -> Forall is_u16 gs ->
  v6_groups (S (length gs) + n) ip e (groups_text g gs)
  = Some (ip ++ ((g :: gs) ≫= group_bytes), e, []).
Proof.
  revert g ip. induction gs as [|g' gs IH]; intros g ip Hg Hgs; cbn [length plus v6_groups].
  - destruct (hex_group_text g [] Hg I) as (m & E & Hm). cbn [groups_text]. rewrite app_nil_r in E.
    rewrite E. cbn. by rewrite (proj2 (Z.eqb_neq _ _) Hm).
  - inversion Hgs as [|? ? Hg' Hgs']; subst.
    destruct (hex_group_text g (":"%char :: groups_text g' gs) Hg eq_refl) as (m & E & Hm).
    cbn [groups_text]. rewrite E. cbn [mbind option_bind]. rewrite (proj2 (Z.eqb_neq _ _) Hm). cbn.
    destruct (groups_text_front g' gs Hg' Hgs') as (c & s & Es & Hc). rewrite Es.
    rewrite decide_False, decide_True by done. rewrite decide_False by (intros ->; cbn in Hc; by destruct Hc). rewrite <- Es.
    etrans; [by apply (IH g' (ip ++ group_bytes g))|]. by rewrite <- app_assoc.
Qed.

Lemma v6_groups_ellipsis n ip g gs s :
  is_u16 g -> Forall is_u16 gs ->
  v6_groups (S (length gs) + n) ip None (groups_text g gs ++ ":"%char :: ":"%char :: s)
  = let ip := ip ++ ((g :: gs) ≫= group_bytes) in
    match s with [] => Some (ip, Some (length ip), []) | _ => v6_groups n ip (Some (length ip)) s end.
Proof.
  revert g ip. induction gs as [|g' gs IH]; intros g ip Hg Hgs; cbn [length plus v6_groups].
  - destruct (hex_group_text g (":"%char :: ":"%char :: s) Hg eq_refl) as (m & E & Hm). cbn [groups_text].
    rewrite E. cbn [mbind option_bind]. by rewrite (proj2 (Z.eqb_neq _ _) Hm).
  - inversion Hgs as [|? ? Hg' Hgs']; subst.
    destruct (hex_group_text g (":"%char :: groups_text g' gs ++ ":"%char :: ":"%char :: s) Hg eq_refl)
      as (m & E & Hm).
    cbn [groups_text]. rewrite <- app_assoc. cbn [app].
    rewrite E. cbn [mbind option_bind]. rewrite (proj2 (Z.eqb_neq _ _) Hm). cbv zeta.
    destruct (groups_text_front g' gs Hg' Hgs') as (c & s' & Es & Hc). 
    rewrite decide_False, decide_True by done.
    specialize (IH g' (ip ++ group_bytes g) Hg' Hgs'). cbv zeta in IH. rewrite Es in IH |- *. cbn [app] in IH |- *.
    rewrite decide_False by (intros ->; cbn in Hc; by destruct Hc).
    etrans; [exact IH|]. cbn [mbind list_bind]. by rewrite <- !app_assoc.
Qed.

(** An IPv6 address in text: eight groups, or fewer and an ellipsis. *)
Inductive v6_addr := Full (g : Z) (gs : list Z) | Short (before after : list Z).

Definition part_text (gs : list Z) : text := match gs with [] => [] | g :: gs => groups_text g gs end.
Definition v6_text (x : v6_addr) : text :=
  match x with
  | Full g gs => groups_text g gs
  | Short before after => part_text before ++ ":"%char :: ":"%char :: part_text after
  end.
Definition part_bytes (gs : list Z) : list Z := gs ≫= group_bytes.
Definition v6_bytes (x : v6_addr) : list Z :=
  match x with
  | Full g gs => part_bytes (g :: gs)
  | Short before after =>
      part_bytes before ++ zero_bytes (16 - (length (part_bytes before) + length (part_bytes after)))
      ++ part_bytes after
  end.
Definition wf_v6_addr (x : v6_addr) : Prop :=
  match x with
  | Full g gs => Forall is_u16 (g :: gs) /\ length gs = 7%nat
  | Short before after => Forall is_u16 (before ++ after) /\ (length before + length after <= 7)%nat
  end.

Lemma part_bytes_length gs : length (part_bytes gs) = (2 * length gs)%nat.
Proof. induction gs as [|g gs IH]; [done|]. cbn. unfold part_bytes in IH. lia. Qed.

Definition hex_colon (c : ascii) : Prop := is_Some (hex_digit c) \/ c = ":"%char.

Lemma hex_text_chars g c : c ∈ hex_text g -> is_Some (hex_digit c).
Proof.
  assert (H : ∀ x, is_Some (hex_digit (hex_char (x mod 16))))
    by (intros x; rewrite hex_digit_char by (apply Z.mod_pos_bound; lia); done).
  unfold hex_text. repeat case_match; rewrite !elem_of_cons, elem_of_nil; naive_solver.
Qed.

Lemma groups_text_chars g gs c : c ∈ groups_text g gs -> hex_colon c.
Proof.
  revert g. induction gs as [|g' gs IH]; intros g; cbn; [intros ?%hex_text_chars; by left|].
  intros [?%hex_text_chars|[->|?%IH]%elem_of_cons]%elem_of_app; [by left|by right|done].
Qed.

Lemma part_text_chars gs c : c ∈ part_text gs -> hex_colon c.
Proof. destruct gs; cbn; [by intros ?%elem_of_nil|apply groups_text_chars]. Qed.

Lemma v6_text_chars x c : c ∈ v6_text x -> hex_colon c.
Proof.
  destruct x; cbn; [apply groups_text_chars|].
  intros [?%part_text_chars|[->|[->|?%part_text_chars]%elem_of_cons]%elem_of_cons]%elem_of_app;
    [done|by right|by right|done].
Qed.

Lemma no_percent (s : text) : (∀ c, c ∈ s -> hex_colon c) -> "%"%char ∉ s.
Proof. intros Hs Hp. apply Hs in Hp as [Hp|Hp]; [cbn in Hp; by destruct Hp|done]. Qed.

Lemma groups_no_ellipsis g gs s0 s c1 c2 s' :
  is_u16 g -> Forall is_u16 gs -> s0 = groups_text g gs -> s0 ++ s = c1 :: c2 :: s' ->
  ~ (c1 = ":"%char /\ c2 = ":"%char).
Proof.
  intros Hg Hgs -> E [-> _]. destruct (groups_text_front g gs Hg Hgs) as (c & s1 & Es & Hc).
  rewrite Es in E. injection E as -> _. cbn in Hc. by destruct Hc.
Qed.

(** What follows the check for an ellipsis at the front. *)
Definition parse_groups (ellipsis : option nat) (s : text) : option (list Z) :=
  '(ip, ellipsis, s) ← v6_groups 8 [] ellipsis s;
  if negb (bool_decide (s = [])) then None
  else if (length ip <? 16)%nat then
    e ← ellipsis;
    Some (take e ip ++ zero_bytes (16 - length ip) ++ drop e ip)
  else match ellipsis with Some _ => None | None => Some ip end.

Lemma parseIPv6_groups g gs s0 s :
  is_u16 g -> Forall is_u16 gs -> s0 = groups_text g gs ->
  (∀ c, c ∈ s0 ++ s -> hex_colon c) -> parseIPv6 (s0 ++ s) = parse_groups None (s0 ++ s).
Proof.
  intros Hg Hgs E Hc. unfold parseIPv6. rewrite bool_decide_false by by apply no_percent.
  destruct (s0 ++ s) as [|c1 [|c2 s']] eqn:Es; [done..|].
  by rewrite decide_False by by eapply groups_no_ellipsis.
Qed.

Lemma parse_groups_short ip e :
  (length ip < 16)%nat ->
  (if (length ip <? 16)%nat then Some (take e ip ++ zero_bytes (16 - length ip) ++ drop e ip) else None)
  = Some (take e ip ++ zero_bytes (16 - length ip) ++ drop e ip).
Proof. intros Hip. by rewrite (proj2 (Nat.ltb_lt _ _)) by done. Qed.

Lemma groups_text_nonempty g gs : is_u16 g -> Forall is_u16 gs -> groups_text g gs <> [].
Proof. intros Hg Hgs. by destruct (groups_text_front g gs Hg Hgs) as (c & s & -> & _). Qed.

(** The groups behind an ellipsis that [n] of the 8 groups precede. *)
Lemma v6_groups_after n ip e g gs :
  (S (length gs) <= n)%nat -> is_u16 g -> Forall is_u16 gs ->
  v6_groups n ip e (groups_text g gs) = Some (ip ++ part_bytes (g :: gs), e, []).
Proof.
  intros Hn Hg Hgs. pose proof (v6_groups_end (n - S (length gs)) ip e g gs Hg Hgs) as E.
  by replace (S (length gs) + (n - S (length gs)))%nat with n in E by lia.
Qed.

Lemma v6_groups_before n ip g gs s :
  (S (length gs) <= n)%nat -> is_u16 g -> Forall is_u16 gs ->
  v6_groups n ip None (groups_text g gs ++ ":"%char :: ":"%char :: s)
  = let ip := ip ++ part_bytes (g :: gs) in
    match s with
    | [] => Some (ip, Some (length ip), [])
    | _ => v6_groups (n - S (length gs)) ip (Some (length ip)) s
    end.
Proof.
  intros Hn Hg Hgs. pose proof (v6_groups_ellipsis (n - S (length gs)) ip g gs s Hg Hgs) as E.
  by replace (S (length gs) + (n - S (length gs)))%nat with n in E by lia.
Qed.

Lemma parseIPv6_short before after :
  Forall is_u16 (before ++ after) -> (length before + length after <= 7)%nat ->
  parseIPv6 (v6_text (Short before after)) = Some (v6_bytes (Short before after)).
Proof.
  intros [Hb Ha]%list.Forall_app Hl. pose proof (part_bytes_length before) as Lb.
  pose proof (part_bytes_length after) as La. pose proof (v6_text_chars (Short before after)) as Hc.
  cbn [v6_text v6_bytes] in *. destruct before as [|g gs].
  - unfold parseIPv6. rewrite bool_decide_false by by apply no_percent. cbn [part_text app].
    rewrite decide_True by done. cbv beta iota. destruct after as [|g gs]; [done|].
    inversion Ha; subst. cbn [part_text]. rewrite bool_decide_false by by apply groups_text_nonempty.
    rewrite v6_groups_after by (done || cbn in Hl; lia). cbn [mbind option_bind].
    rewrite bool_decide_true by done. cbn [negb app]. rewrite parse_groups_short by (cbn in *; lia).
    cbn [part_bytes take drop app mbind list_bind length]. by rewrite Nat.add_0_l.
  - inversion Hb; subst. cbn [part_text] in *. rewrite (parseIPv6_groups g gs) by done.
    unfold parse_groups. cbn [length] in Hl.
    rewrite v6_groups_before by (done || lia). cbv zeta. cbn [app].
    assert (Hfin : ∀ r, r = part_bytes (g :: gs) ++ part_bytes after ->
      Some (take (length (part_bytes (g :: gs))) r ++ zero_bytes (16 - length r) ++ drop (length (part_bytes (g :: gs))) r)
      = Some (part_bytes (g :: gs) ++ zero_bytes (16 - (length (part_bytes (g :: gs)) + length (part_bytes after)))
          ++ part_bytes after)).
    { intros r ->. by rewrite take_app_length, drop_app_length, length_app. }
    destruct after as [|g' gs']; cbn [part_text].
    + cbn [mbind option_bind]. rewrite bool_decide_true by done. cbn [negb].
      rewrite parse_groups_short by (cbn in *; lia). apply Hfin. by rewrite app_nil_r.
    + inversion Ha; subst. destruct (groups_text g' gs') eqn:E; [by destruct (groups_text_nonempty g' gs')|].
      rewrite <- E. rewrite v6_groups_after by (done || cbn in Hl; lia). cbn [mbind option_bind].
      rewrite bool_decide_true by done. cbn [negb]. rewrite parse_groups_short; [by apply Hfin|].
      rewrite length_app. cbn in *; lia.
Qed.

Lemma parseIPv6_text x : wf_v6_addr x -> parseIPv6 (v6_text x) = Some (v6_bytes x).
Proof.
  destruct x as [g gs|before after]; cbn [wf_v6_addr v6_text v6_bytes].
  - intros [[Hg Hgs]%list.Forall_cons Hl]. rewrite <- (app_nil_r (groups_text g gs)).
    rewrite (parseIPv6_groups g gs) by (done || rewrite app_nil_r; apply groups_text_chars).
    rewrite app_nil_r. unfold parse_groups. rewrite v6_groups_after by (done || lia).
    cbn [mbind option_bind]. rewrite bool_decide_true by done. cbn [negb app].
    rewrite (proj2 (Nat.ltb_ge _ _)); [done|]. rewrite part_bytes_length. cbn. lia.
  - intros []. by apply parseIPv6_short.
Qed.

Lemma ParseAddr_v6 x : wf_v6_addr x -> ParseAddr (v6_text x) = Some (v6_bytes x, 128).
Proof.
  intros Hx. pose proof (parseIPv6_text x Hx) as Hp. unfold ParseAddr.
  assert (H : ∃ s s', v6_text x = s ++ ":"%char :: s' /\ ∀ c, c ∈ s -> is_Some (hex_digit c)).
  { assert (Hg : ∀ g gs s, (gs <> [] \/ ∃ s', s = ":"%char :: s') ->
      ∃ s1 s2, groups_text g gs ++ s = s1 ++ ":"%char :: s2 /\ ∀ c, c ∈ s1 -> is_Some (hex_digit c)).
    { intros g gs s Hs. exists (hex_text g). destruct gs; cbn [groups_text].
      - destruct Hs as [?|[s' ->]]; [done|]. exists s'. split; [done|apply hex_text_chars].
      - eexists. rewrite <- app_assoc. split; [done|]. intros c. apply hex_text_chars. }
    destruct x as [g gs|[|g gs] after]; cbn [v6_text part_text].
    - destruct (Hg g gs []) as (s1 & s2 & E & Hs); [left; destruct Hx, gs; done|].
      rewrite app_nil_r in E. by exists s1, s2.
    - exists [], (":"%char :: part_text after). split; [done|]. by intros c ?%elem_of_nil.
    - apply Hg. right. by eexists. }
  destruct H as (s & s' & E & Hs). rewrite E at 1. rewrite ParseAddr_from_skip by done. cbn. by rewrite Hp.
Qed.

(** ** Networks *)

Definition cidr_text (addr : text) (n : Z) : text := addr ++ "/"%char :: Itoa n.

Lemma ParseCIDR_text addr ip bits n :
  "/"%char ∉ addr -> ParseAddr addr = Some (ip, bits) -> 0 <= n <= bits -> bits < 0xFFFFFF ->
  ParseCIDR (cidr_text addr n) = Some (ip, n).
Proof.
  intros Hs Ha Hn Hb. unfold ParseCIDR, cidr_text. rewrite SplitN2_app by done. rewrite Ha.
  cbn [mbind option_bind]. destruct (Itoa n) eqn:E; [by destruct (Itoa_nonempty n); [lia|]|].
  rewrite <- E. rewrite (proj2 (parse_digits_iff (0xFFFFFF - 1) 0 (Itoa n) n ltac:(lia))).
  - cbn. by rewrite (proj2 (Z.ltb_ge _ _)) by lia.
  - split; [apply numeral_Itoa; lia|lia].
Qed.

Lemma v4_text_no_slash a b c d :
  is_u8 a -> is_u8 b -> is_u8 c -> is_u8 d -> "/"%char ∉ v4_text a b c d.
Proof.
  assert (Hi : ∀ n, is_u8 n -> "/"%char ∉ Itoa n).
  { intros n Hn Hc%Itoa_digits; [cbn in Hc; by destruct Hc|width; lia]. }
  intros Ha Hb Hc Hd. unfold v4_text. rewrite !elem_of_app, !elem_of_cons, !elem_of_app, !elem_of_cons, !elem_of_app,
    !elem_of_cons. naive_solver.
Qed.

Lemma v6_text_no_slash x : "/"%char ∉ v6_text x.
Proof. intros [H|H]%v6_text_chars; [cbn in H; by destruct H|done]. Qed.
