(* ===== verification/Tries.v ===== *)
(** * The tries of the filter

    User space fills the tries [filter_map] and [peer_filter_map] before the programs
    run.  Here is the update of a trie by a system call; [longest], which is the
    specification of a lookup in terms of the list of all updates; and the theorem
    that the two agree: a lookup finds the last update among those with the longest
    prefix that covers the key. *)
From S2P Require Import Prelude Machine Types Kernel Maps Safety.

(** ** Updates *)

(** The trie keys of a map. *)
Definition trie_key (m : mapname) : key m → filter_key_t :=
  match m with filter_map | peer_filter_map => λ k, k | _ => λ _, zeroed end.

(** Two keys of the same entry of a trie: as long, and equal so far. *)
Definition same_entry (e k : filter_key_t) : Prop :=
  fk_prefix_len e = fk_prefix_len k /\ covers e k.
#[export] Instance same_entry_dec e k : Decision (same_entry e k).
Proof. unfold same_entry. apply _. Defined.

Section Update.
Context `{Kernel}.
Implicit Types w : world.

(** Which keys an update of [k] takes out of the index. *)
Definition outdated (m : mapname) (ks : list (key m)) (k : key m) : list (key m) :=
  filter (λ e, same_entry (trie_key m e) (trie_key m k)) ks.

(** [Map.Update] with [UpdateAny], of a trie: a new element takes the place of the
    one with the same prefix. *)
Definition Update (m : mapname) (k : key m) (v : value m) w : Z * world :=
  let s := w_map w m in
  let '(verd, st) := k_admit m (st_index s) k (w_kst w) in
  match verd with
  | Accept ev =>
      (0, upd_kst st (upd_map m (cell_new s k 0 v (ev ++ outdated m (map_to_list (st_index s)).*1 k)) w))
  | Refuse e => (e, upd_kst st w)
  end.
End Update.

(** ** Same entries *)

Lemma covers_refl k : covers k k.
Proof. by split. Qed.
Lemma same_entry_refl k : same_entry k k.
Proof. split; [done|apply covers_refl]. Qed.
Lemma same_entry_sym e k : same_entry e k -> same_entry k e.
Proof. intros (Hl & _ & Hb). split; [done|]. split; [lia|]. by rewrite <- Hl. Qed.

Lemma covers_same e e' k :
  covers e k -> covers e' k -> fk_prefix_len e = fk_prefix_len e' -> same_entry e e'.
Proof. intros [_ He] [_ He'] Hl. split; [done|]. split; [lia|]. rewrite He, Hl. by symmetry. Qed.

Lemma same_entry_covers e e' k : same_entry e e' -> covers e' k -> covers e k.
Proof. intros (Hl & _ & Hb) [Hk Hk']. split; [lia|]. rewrite Hb, Hl. done. Qed.

(** ** The longest prefix among a list of updates *)

Section Longest.
Context {A : Type} (key_of : A → filter_key_t).

(** The last one of those with the longest prefix that covers [k]. *)
Definition longest_step (k : filter_key_t) (best : option A) (x : A) : option A :=
  if decide (covers (key_of x) k) then
    match best with
    | Some b => if fk_prefix_len (key_of x) <? fk_prefix_len (key_of b) then best else Some x
    | None => Some x
    end
  else best.
Definition longest (l : list A) (k : filter_key_t) : option A := foldl (longest_step k) None l.

Definition is_longest (l : list A) (k : filter_key_t) (x : A) : Prop :=
  ∃ i, l !! i = Some x /\ covers (key_of x) k /\
    ∀ j y, l !! j = Some y -> covers (key_of y) k ->
      fk_prefix_len (key_of y) <= fk_prefix_len (key_of x) /\
      ((i < j)%nat -> fk_prefix_len (key_of y) < fk_prefix_len (key_of x)).

Lemma longest_spec l k :
  match longest l k with
  | Some x => is_longest l k x
  | None => ∀ y, y ∈ l -> ~ covers (key_of y) k
  end.
Proof.
  unfold longest. induction l as [|y l IH] using rev_ind; cbn; [by intros y ?%elem_of_nil|].
  rewrite foldl_app. cbn. unfold longest_step at 1.
  destruct (decide (covers (key_of y) k)) as [Hy|Hy].
  - destruct (foldl (longest_step k) None l) as [b|].
    + destruct IH as (i & Hi & Hb & Hmax). assert (i < length l)%nat by by eapply lookup_lt_Some.
      destruct (_ <? _) eqn:E; bool_to_prop.
      * exists i. rewrite lookup_app_l by done. split_and!; [done..|]. intros j z [[Hj Hz]|[-> <-]]%lookup_snoc_Some Hc.
        { by eapply Hmax. }
        by split; [lia|].
      * exists (length l). rewrite lookup_app_r, Nat.sub_diag by done. split_and!; [done..|].
        intros j z [[Hj Hz]|[-> <-]]%lookup_snoc_Some Hc; [|split; lia].
        destruct (Hmax j z Hz Hc). split; lia.
    + exists (length l). rewrite lookup_app_r, Nat.sub_diag by done. split_and!; [done..|].
      intros j z [[Hj Hz]|[-> <-]]%lookup_snoc_Some Hc; [|split; lia].
      destruct (IH z); [by eapply list_elem_of_lookup_2|done].
  - destruct (foldl (longest_step k) None l) as [b|].
    + destruct IH as (i & Hi & Hb & Hmax). exists i. rewrite lookup_app_l by by eapply lookup_lt_Some.
      split_and!; [done..|]. intros j z [[Hj Hz]|[-> <-]]%lookup_snoc_Some Hc; [by eapply Hmax|done].
    + intros z [Hz|Hz]%elem_of_app; [by apply IH|]. by apply list_elem_of_singleton in Hz as ->.
Qed.
End Longest.

Lemma longest_fmap {A B} (f : A → B) (key_of : B → filter_key_t) l k :
  longest key_of (f <$> l) k = f <$> longest (λ x, key_of (f x)) l k.
Proof.
  unfold longest. induction l as [|x l IH] using rev_ind; [done|].
  rewrite fmap_app, !foldl_app, IH. cbn. unfold longest_step.
  destruct (foldl _ None l); cbn; by repeat case_match.
Qed.

(** ** A trie holds the updates that are in force *)

Lemma lpm_find {K : Kernel} {KL : KernelLaws K} (idx : gmap filter_key_t addr) k :
  match (e ← k_lpm (map_to_list idx).*1 k; idx !! e) with
  | Some p => ∃ e, idx !! e = Some p /\ covers e k /\
      ∀ e', is_Some (idx !! e') -> covers e' k -> fk_prefix_len e' <= fk_prefix_len e
  | None => ∀ e, is_Some (idx !! e) -> ~ covers e k
  end.
Proof.
  assert (Hin : ∀ e, e ∈ (map_to_list idx).*1 <-> is_Some (idx !! e)).
  { intros e. rewrite list_elem_of_fmap. split.
    - intros ([e' p] & -> & Hp%elem_of_map_to_list). by exists p.
    - intros [p Hp]. exists (e, p). by rewrite elem_of_map_to_list. }
  destruct (k_lpm _ k) as [e|] eqn:E; cbn [mbind option_bind].
  - apply lpm_some in E as (He & Hc & Hmax). apply Hin in He as [p Hp]. rewrite Hp. exists e.
    split_and!; [done..|]. intros e' He'. apply Hmax. by apply Hin.
  - intros e He. eapply lpm_none; [exact E|by apply Hin].
Qed.

Section Tries.
Context {K : Kernel} {KL : KernelLaws K} (m : mapname) (Htrie : map_type m = LPM_TRIE).
Implicit Types w : world.

(** An update is in force when none of the same entry came after it. *)
Definition in_force (l : list (key m * value m)) (x : key m * value m) : Prop :=
  ∃ i, l !! i = Some x /\
    ∀ j y, (i < j)%nat -> l !! j = Some y -> ~ same_entry (trie_key m y.1) (trie_key m x.1).

Definition trie_is (l : list (key m * value m)) w : Prop :=
  ∀ e v, (∃ p, st_index (w_map w m) !! e = Some p /\ cell_read (w_map w m) p 0 = v) <-> in_force l (e, v).

Lemma in_force_elem l x : in_force l x -> x ∈ l.
Proof. intros (i & Hi & _). by eapply list_elem_of_lookup_2. Qed.

Lemma in_force_unique l x y :
  in_force l x -> in_force l y -> same_entry (trie_key m x.1) (trie_key m y.1) -> x = y.
Proof.
  intros (i & Hi & Hx) (j & Hj & Hy) Hs. destruct (decide (i < j)%nat) as [Hlt|].
  { by destruct (Hx j y Hlt Hj); apply same_entry_sym. }
  destruct (decide (j < i)%nat) as [Hlt|]; [by destruct (Hy i x Hlt Hi)|].
  assert (i = j) as -> by lia. congruence.
Qed.

Lemma in_force_snoc l x y :
  in_force (l ++ [x]) y <-> y = x \/ (in_force l y /\ ~ same_entry (trie_key m x.1) (trie_key m y.1)).
Proof.
  split.
  - intros (i & [[Hi Hl]|[-> <-]]%lookup_snoc_Some & Hy); [right|by left].
    split; [exists i; split; [done|]|].
    + intros j z Hj Hz. apply (Hy j z Hj). rewrite lookup_app_l; [done|by eapply lookup_lt_Some].
    + apply (Hy (length l) x Hi). by rewrite lookup_app_r, Nat.sub_diag by done.
  - intros [->|[(i & Hi & Hy) Hs]].
    + exists (length l). rewrite lookup_app_r, Nat.sub_diag by done. split; [done|].
      intros j z Hj [[Hl _]|[-> _]]%lookup_snoc_Some; lia.
    + exists i. assert (i < length l)%nat by by eapply lookup_lt_Some. rewrite lookup_app_l by done.
      split; [done|]. intros j z Hj [[_ Hz]|[_ <-]]%lookup_snoc_Some; [by eapply Hy|done].
Qed.

(** The last of the longest updates is in force. *)
Lemma longest_in_force l k x :
  is_longest (λ x, trie_key m x.1) l k x -> in_force l x.
Proof.
  intros (i & Hi & Hc & Hmax). exists i. split; [done|]. intros j y Hj Hy Hs.
  destruct (Hmax j y Hy) as [_ Hlt]; [by eapply same_entry_covers|]. destruct Hs as [Hl _]. specialize (Hlt Hj). lia.
Qed.

Lemma lookup_foldr_delete_Some (idx : gmap (key m) addr) ev k p :
  foldr delete idx ev !! k = Some p <-> k ∉ ev /\ idx !! k = Some p.
Proof.
  induction ev as [|x ev IH]; cbn; [rewrite elem_of_nil; tauto|].
  rewrite lookup_delete_Some, IH, elem_of_cons. naive_solver.
Qed.

Lemma elem_of_outdated (idx : gmap (key m) addr) k e p :
  idx !! e = Some p ->
  e ∈ outdated m (map_to_list idx).*1 k <-> same_entry (trie_key m e) (trie_key m k).
Proof.
  intros He. unfold outdated. rewrite list_elem_of_filter. split; [tauto|]. intros Hs. split; [done|].
  apply list_elem_of_fmap. exists (e, p). split; [done|]. by apply elem_of_map_to_list.
Qed.

(** A successful update. *)
Record trie_updated (k : key m) (v : value m) w w' : Prop := {
  tu_entry p : st_index (w_map w' m) !! k = Some p -> cell_read (w_map w' m) p 0 = v;
  tu_there : is_Some (st_index (w_map w' m) !! k);
  tu_others e p : e <> k ->
    st_index (w_map w' m) !! e = Some p <->
    st_index (w_map w m) !! e = Some p /\ ~ same_entry (trie_key m e) (trie_key m k);
  tu_cells e p : st_index (w_map w m) !! e = Some p ->
    cell_read (w_map w' m) p 0 = cell_read (w_map w m) p 0;
  tu_maps m' : m' <> m -> w_map w' m' = w_map w m';
  tu_wf : world_wf w';
}.

Lemma Update_ok k v w w' : world_wf w -> Update m k v w = (0, w') -> trie_updated k v w w'.
Proof.
  intros Hw. pose proof (proj1 Hw m) as Hs. unfold Update.
  pose proof (admit_evicts m (st_index (w_map w m)) k (w_kst w)) as Hev.
  pose proof (admit_refuse m (st_index (w_map w m)) k (w_kst w)) as Hre.
  destruct (k_admit _ _ _ _) as [[ev|e] st]; cbn [fst] in *; intros [= E].
  2:{ destruct (Hre e eq_refl). lia. }
  rewrite (Hev ev eq_refl) in E by (rewrite Htrie; done). cbn [app] in E. subst w'.
  set (old := outdated m _ _).
  assert (E : ∀ m', w_map (upd_kst st (upd_map m (cell_new (w_map w m) k 0 v old) w)) m'
    = w_map (upd_map m (cell_new (w_map w m) k 0 v old) w) m') by done.
  split; try (intros *; rewrite E, upd_map_eq; unfold cell_read; cbn [st_index st_cells cell_new]).
  - rewrite lookup_insert_eq. intros [= <-]. by rewrite lookup_insert_eq.
  - by rewrite lookup_insert_eq.
  - intros Hne. rewrite lookup_insert_ne, lookup_foldr_delete_Some by done.
    split; intros [H1 H2]; (split; [|]); try done.
    + intros Hsame. by apply H1, (elem_of_outdated _ _ _ p).
    + intros Hin. by apply H2, (elem_of_outdated _ _ _ p H1).
  - intros He. apply (index_fresh _ Hs) in He. rewrite lookup_insert_ne; [done|]. intros [= Ep]. lia.
  - intros m' Hm. rewrite E. by apply upd_map_ne.
  - apply (upd_map_wf m (cell_new (w_map w m) k 0 v old) w); [done|by apply cell_new_wf|].
    by rewrite Htrie.
Qed.

Lemma trie_is_update l k v w w' :
  world_wf w -> trie_is l w -> Update m k v w = (0, w') -> trie_is (l ++ [(k, v)]) w'.
Proof.
  intros Hw Hl Hu. destruct (Update_ok k v w w' Hw Hu) as [Hv Hk Ho Hc _ _]. intros e u.
  rewrite in_force_snoc. cbn [fst]. destruct (decide (e = k)) as [->|Hne].
  - split.
    + intros (p & Hp & Hu'). left. f_equal. rewrite <- Hu'. by apply Hv.
    + intros [[= ->]|[_ Hn]]; [|by destruct Hn; apply same_entry_refl].
      destruct Hk as [p Hp]. exists p. split; [done|by apply Hv].
  - transitivity (in_force l (e, u) /\ ~ same_entry (trie_key m k) (trie_key m e)).
    2:{ split; [by right|]. intros [[= ? _]|?]; done. }
    rewrite <- (Hl e u). split.
    + intros (p & Hp & Hu'). apply (Ho e p Hne) in Hp as [Hp Hn]. split; [|by intros ?%same_entry_sym].
      exists p. split; [done|]. by rewrite <- (Hc e p Hp).
    + intros ((p & Hp & Hu') & Hn). exists p. rewrite (Ho e p Hne), (Hc e p Hp).
      split; [|done]. split; [done|]. by intros ?%same_entry_sym.
Qed.

Lemma trie_is_empty w : st_index (w_map w m) = ∅ -> trie_is [] w.
Proof.
  intros E e v. rewrite E. split; [by intros (p & Hp & _)|]. intros Hf%in_force_elem. by apply elem_of_nil in Hf.
Qed.

Lemma trie_is_ext l w w' : w_map w' m = w_map w m -> trie_is l w -> trie_is l w'.
Proof. unfold trie_is. by intros ->. Qed.

End Tries.

(** A lookup finds the last update among those with the longest prefix that covers
    the key. *)
Lemma trie_elem {K : Kernel} {KL : KernelLaws K} m l w cpu k :
  map_type m = LPM_TRIE -> trie_is m l w ->
  elem cpu m w k = snd <$> longest (λ x, trie_key m x.1) l (trie_key m k).
Proof.
  intros Hm Hl. set (s := w_map w m).
  assert (Hfind : match map_find m s k with
    | Some p => ∃ e, st_index s !! e = Some p /\ covers (trie_key m e) (trie_key m k) /\
        ∀ e', is_Some (st_index s !! e') -> covers (trie_key m e') (trie_key m k) ->
          fk_prefix_len (trie_key m e') <= fk_prefix_len (trie_key m e)
    | None => ∀ e, is_Some (st_index s !! e) -> ~ covers (trie_key m e) (trie_key m k)
    end).
  { clear Hl. unfold map_find. destruct m; try discriminate Hm; cbn [trie_key] in *; apply lpm_find. }
  assert (Hslot : slot m cpu = 0) by (unfold slot, is_percpu; by rewrite Hm).
  unfold elem. fold s. rewrite Hslot. pose proof (longest_spec (λ x, trie_key m x.1) l (trie_key m k)) as Hlong.
  destruct (longest _ l _) as [[e v]|]; cbn [fmap option_fmap option_map snd].
  - pose proof (longest_in_force m _ _ _ Hlong) as Hf. destruct Hlong as (i & Hi & Hc & Hmax). cbn [fst] in *.
    destruct (proj2 (Hl e v) Hf) as (p & Hp & Hv).
    destruct (map_find m s k) as [p'|]; [|by destruct (Hfind e); [eexists|]].
    destruct Hfind as (e' & Hp' & Hc' & Hmax'). cbn [mbind option_bind]. f_equal.
    assert (Hf' : in_force m l (e', cell_read s p' 0)) by (apply Hl; by exists p').
    pose proof (in_force_elem m _ _ Hf') as Hj. apply list_elem_of_lookup in Hj as [j Hj].
    assert (E : (e', cell_read s p' 0) = (e, v)); [|by injection E].
    apply (in_force_unique m l); [done..|]. apply covers_same with (trie_key m k); [done..|].
    destruct (Hmax j _ Hj Hc') as [? _]. specialize (Hmax' e). cbn [fst] in *.
    assert (is_Some (st_index s !! e)) by by eexists. specialize (Hmax' ltac:(done) Hc). lia.
  - destruct (map_find m s k) as [p'|]; [|done]. destruct Hfind as (e' & Hp' & Hc' & _).
    destruct (Hlong (e', cell_read s p' 0)); [|done]. apply (in_force_elem m). apply Hl. by exists p'.
Qed.
