(* ===== verification/Rules.v ===== *)
(** * The filter rules of the configuration ([pkg/config/common.go],
    [pkg/agent/common/filter.go], [pkg/tracer/attach/filter.go])

    The user writes the rules of the filter in JSON.  The agent makes a key of the
    filter trie, a rule for the programs and, where the rule has a peer, a key of
    the peer trie out of each, and puts them into the maps.  The operations come
    first, in the order of the source; then what a rule means in the terms of the
    configuration; then the lemmas that connect the two.  The decoding of the JSON
    text is that of Go's library, and left out. *)
From Stdlib Require Import Ascii String.
From S2P Require Import Prelude Machine Types Kernel Maps Safety PacketUtils Filter GoText Tries.

#[local] Open Scope string_scope.
#[local] Open Scope list_scope.
#[local] Open Scope Z_scope.

(** ** The configuration *)

(** A rule as the user writes it. *)
Record FlowFilter := mk_FlowFilter {
  ff_Direction : string;
  ff_IPCIDR : string;
  ff_Protocol : string;
  ff_SourcePort : Z;
  ff_DestinationPort : Z;
  ff_Port : Z;
  ff_SourcePortRange : string;
  ff_SourcePorts : string;
  ff_DestinationPortRange : string;
  ff_DestinationPorts : string;
  ff_PortRange : string;
  ff_Ports : string;
  ff_ICMPType : Z;
  ff_ICMPCode : Z;
  ff_PeerIP : string;
  ff_Action : string;
  ff_TCPFlags : string;
  ff_Drops : bool;
  ff_Sample : Z;
  ff_PeerCIDR : string;
}.
#[export] Instance eta_FlowFilter : Eta FlowFilter := λ x,
  mk_FlowFilter (ff_Direction x) (ff_IPCIDR x) (ff_Protocol x) (ff_SourcePort x)
    (ff_DestinationPort x) (ff_Port x) (ff_SourcePortRange x) (ff_SourcePorts x)
    (ff_DestinationPortRange x) (ff_DestinationPorts x) (ff_PortRange x) (ff_Ports x)
    (ff_ICMPType x) (ff_ICMPCode x) (ff_PeerIP x) (ff_Action x) (ff_TCPFlags x) (ff_Drops x)
    (ff_Sample x) (ff_PeerCIDR x).
#[export] Instance zero_FlowFilter : Zero FlowFilter :=
  mk_FlowFilter "" "" "" 0 0 0 "" "" "" "" "" "" 0 0 "" "" "" false 0 "".

Inductive IntOrString := FromInt32 (val : Z) | FromString (val : string).

(** [IntOrString.String] *)
Definition port_string (x : IntOrString) : text :=
  match x with FromInt32 v => Itoa v | FromString s => chars s end.

Record FilterConfig := mk_FilterConfig {
  cf_Direction : string;
  cf_IPCIDR : string;
  cf_Protocol : string;
  cf_SourcePort : IntOrString;
  cf_DestinationPort : IntOrString;
  cf_Port : IntOrString;
  cf_IcmpType : Z;
  cf_IcmpCode : Z;
  cf_PeerIP : string;
  cf_PeerCIDR : string;
  cf_Action : string;
  cf_TCPFlags : string;
  cf_Drops : bool;
  cf_Sample : Z;
}.
#[export] Instance eta_FilterConfig : Eta FilterConfig := λ x,
  mk_FilterConfig (cf_Direction x) (cf_IPCIDR x) (cf_Protocol x) (cf_SourcePort x)
    (cf_DestinationPort x) (cf_Port x) (cf_IcmpType x) (cf_IcmpCode x) (cf_PeerIP x)
    (cf_PeerCIDR x) (cf_Action x) (cf_TCPFlags x) (cf_Drops x) (cf_Sample x).
#[export] Instance zero_FilterConfig : Zero FilterConfig :=
  mk_FilterConfig "" "" "" (FromInt32 0) (FromInt32 0) (FromInt32 0) 0 0 "" "" "" "" false 0.

Definition ConvertFilterPortsToInstr (intPort : Z) (rangePorts ports : string) : IntOrString :=
  if negb (String.eqb rangePorts "") then FromString rangePorts
  else if negb (String.eqb ports "") then FromString ports
  else FromInt32 intPort.

(** The loop of [ParseFlowFilterRules] over the decoded rules. *)
Definition ParseFlowFilterRules (flowFilters : list FlowFilter) : list FilterConfig :=
  (λ r, {| cf_Action := ff_Action r;
           cf_Direction := ff_Direction r;
           cf_IPCIDR := ff_IPCIDR r;
           cf_Protocol := ff_Protocol r;
           cf_PeerIP := ff_PeerIP r;
           cf_PeerCIDR := ff_PeerCIDR r;
           cf_DestinationPort := ConvertFilterPortsToInstr (ff_DestinationPort r)
             (ff_DestinationPortRange r) (ff_DestinationPorts r);
           cf_SourcePort := ConvertFilterPortsToInstr (ff_SourcePort r)
             (ff_SourcePortRange r) (ff_SourcePorts r);
           cf_Port := ConvertFilterPortsToInstr (ff_Port r) (ff_PortRange r) (ff_Ports r);
           cf_TCPFlags := ff_TCPFlags r;
           cf_Drops := ff_Drops r;
           cf_Sample := ff_Sample r;
           cf_IcmpType := 0;
           cf_IcmpCode := 0 |}) <$> flowFilters.

(** ** Keys *)

(** An address in the front of a key. *)
Definition key_of (prefix_len : Z) (ip : list Z) : filter_key_t :=
  match To4 ip with
  | Some v4 => mk_filter_key_t prefix_len (v4 ++ zero_bytes 12)
  | None => mk_filter_key_t prefix_len ip
  end.

Definition buildFilterKey (cidr ipStr : string) : option filter_key_t :=
  if negb (String.eqb cidr "") then
    '(ip, pfLen) ← ParseCIDR (chars cidr);
    Some (key_of pfLen ip)
  else if negb (String.eqb ipStr "") then
    match ParseIP (chars ipStr) with
    | Some ip => Some (key_of (match To4 ip with Some _ => 32 | None => 128 end) ip)
    | None => Some (mk_filter_key_t 128 (zero_bytes 16))
    end
  else Some zeroed.

(** The rule, with the default written into it, and its key. *)
Definition getFilterKey (config : FilterConfig) : FilterConfig * option filter_key_t :=
  let config := if String.eqb (cf_IPCIDR config) "" then config <| cf_IPCIDR := "0.0.0.0/0" |>
                else config in
  (config, buildFilterKey (cf_IPCIDR config) "").

Definition getPeerFilterKey (config : FilterConfig) : option filter_key_t :=
  buildFilterKey (cf_PeerCIDR config) (cf_PeerIP config).

(** ** Ports *)

Definition getPortsFromString (s : text) (sep : ascii) : option (Z * Z) :=
  match SplitN2 s sep with
  | [p0; p1] =>
      startPort ← ParseUint p0 16;
      endPort ← ParseUint p1 16;
      if bool_decide (sep = "-"%char) && (endPort <? startPort) then None
      else if startPort =? endPort then None
      else if startPort =? 0 then None
      else Some (startPort, endPort)
  | _ => None
  end.

Definition ports_range (p : IntOrString) : Z * Z :=
  match p with
  | FromInt32 v => (u16 v, 0)
  | FromString _ => default (0, 0) (getPortsFromString (port_string p) "-"%char)
  end.
Definition ports_pair (p : IntOrString) : Z * Z :=
  default (0, 0) (getPortsFromString (port_string p) ","%char).

Definition getSrcPortsRange (config : FilterConfig) : Z * Z := ports_range (cf_SourcePort config).
Definition getSrcPorts (config : FilterConfig) : Z * Z := ports_pair (cf_SourcePort config).
Definition getDstPortsRange (config : FilterConfig) : Z * Z := ports_range (cf_DestinationPort config).
Definition getDstPorts (config : FilterConfig) : Z * Z := ports_pair (cf_DestinationPort config).
Definition getPortsRange (config : FilterConfig) : Z * Z := ports_range (cf_Port config).
Definition getPorts (config : FilterConfig) : Z * Z := ports_pair (cf_Port config).

(** ** Values *)

Definition direction_value (s : string) : Z :=
  if String.eqb s "Ingress" then INGRESS else if String.eqb s "Egress" then EGRESS else MAX_DIRECTION.
Definition action_value (s : string) : filter_action :=
  if String.eqb s "Reject" then REJECT else if String.eqb s "Accept" then ACCEPT
  else MAX_FILTER_ACTIONS.
Definition protocol_value (s : string) : Z :=
  if String.eqb s "TCP" then IPPROTO_TCP else if String.eqb s "UDP" then IPPROTO_UDP
  else if String.eqb s "SCTP" then IPPROTO_SCTP else if String.eqb s "ICMP" then IPPROTO_ICMP
  else if String.eqb s "ICMPv6" then IPPROTO_ICMPV6 else 0.
Definition tcp_flags_value (s : string) : Z :=
  if String.eqb s "SYN" then SYN_FLAG else if String.eqb s "SYN-ACK" then SYN_ACK_FLAG
  else if String.eqb s "ACK" then ACK_FLAG else if String.eqb s "FIN" then FIN_FLAG
  else if String.eqb s "RST" then RST_FLAG else if String.eqb s "PUSH" then PSH_FLAG
  else if String.eqb s "URG" then URG_FLAG else if String.eqb s "ECE" then ECE_FLAG
  else if String.eqb s "CWR" then CWR_FLAG else if String.eqb s "FIN-ACK" then FIN_ACK_FLAG
  else if String.eqb s "RST-ACK" then RST_ACK_FLAG else 0.

Definition getFilterValue (config : FilterConfig) : filter_value_t := {|
  fv_direction := direction_value (cf_Direction config);
  fv_action := action_value (cf_Action config);
  fv_protocol := protocol_value (cf_Protocol config);
  fv_dstPortStart := (getDstPortsRange config).1;
  fv_dstPortEnd := (getDstPortsRange config).2;
  fv_dstPort1 := (getDstPorts config).1;
  fv_dstPort2 := (getDstPorts config).2;
  fv_srcPortStart := (getSrcPortsRange config).1;
  fv_srcPortEnd := (getSrcPortsRange config).2;
  fv_srcPort1 := (getSrcPorts config).1;
  fv_srcPort2 := (getSrcPorts config).2;
  fv_portStart := (getPortsRange config).1;
  fv_portEnd := (getPortsRange config).2;
  fv_port1 := (getPorts config).1;
  fv_port2 := (getPorts config).2;
  fv_icmpType := u8 (cf_IcmpType config);
  fv_icmpCode := u8 (cf_IcmpCode config);
  fv_tcpFlags := tcp_flags_value (cf_TCPFlags config);
  fv_filter_drops := if cf_Drops config then 1 else 0;
  fv_sample := if negb (cf_Sample config =? 0) then cf_Sample config else 0;
  fv_do_peerCIDR_lookup :=
    if negb (String.eqb (cf_PeerCIDR config) "") || negb (String.eqb (cf_PeerIP config) "") then 1 else 0;
|}.

Definition HasSampling (config : list FilterConfig) : Z :=
  if existsb (λ r, 0 <? cf_Sample r) config then 1 else 0.

(** The copies that the packet capture makes for the maps of its own object. *)
Definition bpfKeyToPacketsKey (k : filter_key_t) : filter_key_t :=
  {| fk_prefix_len := fk_prefix_len k; fk_ip_data := fk_ip_data k |}.
Definition bpfValToPacketsVal (v : filter_value_t) : filter_value_t := {|
  fv_protocol := fv_protocol v;
  fv_dstPortStart := fv_dstPortStart v;
  fv_dstPortEnd := fv_dstPortEnd v;
  fv_dstPort1 := fv_dstPort1 v;
  fv_dstPort2 := fv_dstPort2 v;
  fv_srcPortStart := fv_srcPortStart v;
  fv_srcPortEnd := fv_srcPortEnd v;
  fv_srcPort1 := fv_srcPort1 v;
  fv_srcPort2 := fv_srcPort2 v;
  fv_portStart := fv_portStart v;
  fv_portEnd := fv_portEnd v;
  fv_port1 := fv_port1 v;
  fv_port2 := fv_port2 v;
  fv_icmpType := fv_icmpType v;
  fv_icmpCode := fv_icmpCode v;
  fv_direction := fv_direction v;
  fv_action := fv_action v;
  fv_tcpFlags := fv_tcpFlags v;
  fv_filter_drops := fv_filter_drops v;
  fv_sample := fv_sample v;
  fv_do_peerCIDR_lookup := fv_do_peerCIDR_lookup v;
|}.

(** ** Into the maps *)

Inductive program_error :=
  | FilterKeyError
  | PeerKeyError
  | UpdatePeerError (errno : Z)
  | UpdateFilterError (errno : Z).

Section Programming.
Context `{Kernel}.
Implicit Types w : world.

(** Programming the maps of the flow object, or of the packet object, whose keys and
    values are copies. *)
Section Loop.
Context (to_key : filter_key_t → filter_key_t) (to_val : filter_value_t → filter_value_t).

(** The peer of a rule into the peer trie. *)
Definition program_peer (config : FilterConfig) w : option program_error * world :=
  if fv_do_peerCIDR_lookup (getFilterValue config) =? 1 then
    match getPeerFilterKey config with
    | None => (Some PeerKeyError, w)
    | Some peerKey =>
        let '(err, w) := Update peer_filter_map (to_key peerKey) (1 : value peer_filter_map) w in
        (if err =? 0 then None else Some (UpdatePeerError err), w)
    end
  else (None, w).

(** One rule; the rule comes back with its default. *)
Definition program_rule (config : FilterConfig) w : option program_error * FilterConfig * world :=
  match getFilterKey config with
  | (config, None) => (Some FilterKeyError, config, w)
  | (config, Some key) =>
      let val := getFilterValue config in
      match program_peer config w with
      | (Some err, w) => (Some err, config, w)
      | (None, w) =>
          let '(err, w) := Update filter_map (to_key key) (to_val val) w in
          (if err =? 0 then None else Some (UpdateFilterError err), config, w)
      end
  end.

(** The error, the rules with the defaults written into them, and the world. *)
Fixpoint program_rules (rules : list FilterConfig) w
    : option program_error * list FilterConfig * world :=
  match rules with
  | [] => (None, [], w)
  | config :: rules =>
      match program_rule config w with
      | (Some err, config, w) => (Some err, config :: rules, w)
      | (None, config, w) =>
          let '(err, rules, w) := program_rules rules w in (err, config :: rules, w)
      end
  end.
End Loop.

Definition ProgramFilter : list FilterConfig → world → option program_error * list FilterConfig * world :=
  program_rules (λ k, k) (λ v, v).
Definition ProgramPacketsFilter : list FilterConfig → world → option program_error * list FilterConfig * world :=
  program_rules bpfKeyToPacketsKey bpfValToPacketsVal.
End Programming.

(** ** What a rule means *)

(** A port condition of the configuration: none, one of the listed ports, or a port
    of a range. *)
Inductive port_spec := AnyPort | OneOf (ports : list Z) | Between (first last : Z).

Definition ports_of (p : IntOrString) : port_spec :=
  match p with
  | FromInt32 v => if u16 v =? 0 then AnyPort else OneOf [u16 v]
  | FromString s =>
      match getPortsFromString (chars s) "-"%char, getPortsFromString (chars s) ","%char with
      | Some (first, last), _ => Between first last
      | None, Some (port1, port2) => OneOf [port1; port2]
      | None, None => AnyPort
      end
  end.

Definition port_allowed (p : port_spec) (ports : list Z) : Prop :=
  match p with
  | AnyPort => True
  | OneOf l => Exists (λ x, x ∈ l) ports
  | Between first last => Exists (λ x, first <= x <= last) ports
  end.
#[export] Instance port_allowed_dec p ports : Decision (port_allowed p ports).
Proof. destruct p; apply _. Defined.

(** A named value that is asked for, if any. *)
Definition wanted (o : option Z) (actual : Z) : Prop := match o with Some v => actual = v | None => True end.
#[export] Instance wanted_dec o actual : Decision (wanted o actual).
Proof. destruct o; cbn; apply _. Defined.

Definition unless (unset v : Z) : option Z := if v =? unset then None else Some v.

(** A rule of the configuration matches a packet. *)
Definition config_matches (c : FilterConfig) (id : flow_id) (flags drop_reason direction : Z) : Prop :=
  let proto := fid_transport_protocol id in
  wanted (unless 0 (protocol_value (cf_Protocol c))) proto /\
  (has_ports proto ->
     port_allowed (ports_of (cf_DestinationPort c)) [fid_dst_port id] /\
     port_allowed (ports_of (cf_SourcePort c)) [fid_src_port id] /\
     port_allowed (ports_of (cf_Port c)) [fid_src_port id; fid_dst_port id]) /\
  (proto = IPPROTO_TCP -> wanted (unless 0 (tcp_flags_value (cf_TCPFlags c))) flags) /\
  (is_icmp proto -> wanted (unless 0 (u8 (cf_IcmpType c))) (fid_icmp_type id) /\
     (u8 (cf_IcmpType c) <> 0 -> wanted (unless 0 (u8 (cf_IcmpCode c))) (fid_icmp_code id))) /\
  wanted (unless MAX_DIRECTION (direction_value (cf_Direction c))) direction /\
  (cf_Drops c = true -> drop_reason <> 0).
#[export] Instance config_matches_dec c id flags drop_reason direction :
  Decision (config_matches c id flags drop_reason direction).
Proof. unfold config_matches, has_ports, is_icmp. apply _. Defined.

(** *** Ports *)

Lemma wanted_wildcard unset v actual : wanted (unless unset v) actual <-> wildcard unset v actual.
Proof.
  unfold wanted, unless, wildcard. destruct (v =? unset) eqn:E; bool_to_prop; [tauto|].
  split; [by right|]. by intros [].
Qed.

(** The texts that hold two ports. *)
Lemma getPortsFromString_iff s sep a b :
  getPortsFromString s sep = Some (a, b) <->
  ∃ p0 p1, s = p0 ++ sep :: p1 /\ (sep ∉ p0) /\ ParseUint p0 16 = Some a /\ ParseUint p1 16 = Some b /\
    a <> 0 /\ a <> b /\ (sep = "-"%char -> a < b).
Proof.
  unfold getPortsFromString. split.
  - destruct (SplitN2 s sep) as [|p0 [|p1 []]] eqn:Es; [done..| |done].
    apply SplitN2_two in Es as [-> Hs]. destruct (ParseUint p0 16) as [x|] eqn:E0; [|done].
    destruct (ParseUint p1 16) as [y|] eqn:E1; [|done]. cbn [mbind option_bind].
    destruct (bool_decide (sep = "-"%char) && (y <? x)) eqn:E; [done|].
    destruct (x =? y) eqn:Exy; [done|]. destruct (x =? 0) eqn:Ex0; [done|]. intros [= -> ->].
    exists p0, p1. bool_to_prop. split_and!; try done. intros ->.
    rewrite bool_decide_true, andb_true_l in E by done. bool_to_prop. lia.
  - intros (p0 & p1 & -> & Hs & E0 & E1 & Ha & Hab & Hl). rewrite SplitN2_app, E0 by done.
    cbn [mbind option_bind]. rewrite E1. cbn [mbind option_bind].
    rewrite (proj2 (andb_false_iff _ _)).
    + by rewrite (proj2 (Z.eqb_neq _ _) Hab), (proj2 (Z.eqb_neq _ _) Ha).
    + destruct (decide (sep = "-"%char)) as [->|]; [right|left; by apply bool_decide_false].
      specialize (Hl eq_refl). apply Z.ltb_ge. lia.
Qed.

Lemma getPortsFromString_none s sep : sep ∉ s -> getPortsFromString s sep = None.
Proof. intros Hs. unfold getPortsFromString. by rewrite SplitN2_none. Qed.

Lemma ParseUint_digits s bits n c : 0 <= bits -> ParseUint s bits = Some n -> c ∈ s -> is_Some (digit c).
Proof. intros Hb Hp. apply ParseUint_iff in Hp as (_ & Hn & _); [|done]. by eapply numeral_digits. Qed.

Lemma range_no_comma s a b :
  getPortsFromString s "-"%char = Some (a, b) -> getPortsFromString s ","%char = None.
Proof.
  intros (p0 & p1 & -> & _ & E0 & E1 & _)%getPortsFromString_iff. apply getPortsFromString_none.
  assert (Hd : ∀ p n, ParseUint p 16 = Some n -> ","%char ∉ p).
  { intros p n Hp Hc. apply (ParseUint_digits p 16 n) in Hc; [|done..]. cbn in Hc. by destruct Hc. }
  rewrite elem_of_app, elem_of_cons. intros [?|[?|?]]; [by destruct (Hd _ _ E0)|done|by destruct (Hd _ _ E1)].
Qed.

Lemma ports_range_string s :
  ports_range (FromString s) = default (0, 0) (getPortsFromString (chars s) "-"%char).
Proof. done. Qed.

Lemma ports_pair_int v : ports_pair (FromInt32 v) = (0, 0).
Proof. unfold ports_pair. by rewrite getPortsFromString_none by apply Itoa_no_comma. Qed.

(** The port condition of the programs is the one of the configuration, of packets
    whose ports are not 0. *)
Lemma ports_of_condition p ports :
  Forall (λ x, x <> 0) ports ->
  port_condition (ports_range p).1 (ports_range p).2 (ports_pair p).1 (ports_pair p).2 ports
  <-> port_allowed (ports_of p) ports.
Proof.
  intros H0. rewrite list.Forall_forall in H0. unfold port_condition. destruct p as [v|s].
  - rewrite ports_pair_int. cbn [ports_range ports_of fst snd].
    destruct (u16 v =? 0) eqn:E; bool_to_prop; cbn [port_allowed].
    + rewrite decide_False by lia. split; [done|]. by intros _ ?.
    + rewrite decide_True, list.Exists_exists by tauto. apply exist_proper. intros x.
      rewrite !elem_of_cons, elem_of_nil. split; intros [Hx Hl]; specialize (H0 x Hx); intuition lia.
  - unfold ports_pair. rewrite ports_range_string. cbn [ports_of port_string].
    destruct (getPortsFromString (chars s) "-"%char) as [[a b]|] eqn:E.
    + rewrite (range_no_comma _ _ _ E). apply getPortsFromString_iff in E as (p0 & p1 & _ & _ & E0 & _ & Ha & _ & Hl).
      specialize (Hl eq_refl). apply ParseUint_nonneg in E0. cbn [default from_option id fst snd port_allowed].
      rewrite decide_False, list.Exists_exists by lia. tauto.
    + destruct (getPortsFromString (chars s) ","%char) as [[a b]|] eqn:E'; cbn [default from_option id fst snd port_allowed].
      * apply getPortsFromString_iff in E' as (p0 & p1 & _ & _ & _ & _ & Ha & _ & _).
        rewrite decide_True, list.Exists_exists by tauto. apply exist_proper. intros x.
        rewrite !elem_of_cons, elem_of_nil. split; intros [Hx Hl]; specialize (H0 x Hx); intuition lia.
      * rewrite decide_False by lia. split; [done|]. by intros _ ?.
Qed.

(** *** Values *)

(** No packet has a port 0, which the programs take for an unset one. *)
Definition nonzero_ports (id : flow_id) : Prop :=
  has_ports (fid_transport_protocol id) -> fid_src_port id <> 0 /\ fid_dst_port id <> 0.

(** The rule that the programs get means what the configuration says. *)
Lemma getFilterValue_matches c id flags drop_reason direction :
  nonzero_ports id ->
  rule_matches (getFilterValue c) id flags drop_reason direction
  <-> config_matches c id flags drop_reason direction.
Proof.
  intros H0. unfold config_matches. cbv zeta. rewrite !wanted_wildcard.
  assert (Hports : has_ports (fid_transport_protocol id) ->
    (dst_port_condition (getFilterValue c) id <-> port_allowed (ports_of (cf_DestinationPort c)) [fid_dst_port id]) /\
    (src_port_condition (getFilterValue c) id <-> port_allowed (ports_of (cf_SourcePort c)) [fid_src_port id]) /\
    (any_port_condition (getFilterValue c) id
      <-> port_allowed (ports_of (cf_Port c)) [fid_src_port id; fid_dst_port id])).
  { intros [Hs Hd]%H0. unfold dst_port_condition, src_port_condition, any_port_condition.
    split_and!; apply ports_of_condition; by repeat constructor. }
  assert (Hdrops : (fv_filter_drops (getFilterValue c) <> 0 -> drop_reason <> 0)
    <-> (cf_Drops c = true -> drop_reason <> 0)).
  { cbn. destruct (cf_Drops c); [|naive_solver]. split; auto. }
  split.
  - intros []. split_and!; intros; tauto.
  - intros (? & Hp & ? & Hi & ? & Hdr). split; intros; tauto.
Qed.

(** ** The rules in the maps *)

Definition wants_peer (c : FilterConfig) : bool :=
  negb (String.eqb (cf_PeerCIDR c) "") || negb (String.eqb (cf_PeerIP c) "").

(** The rules with their keys, and the keys of all peers; [None] when a key of one is
    malformed. *)
Definition keyed_rule (c : FilterConfig) : option (filter_key_t * FilterConfig) :=
  k ← (getFilterKey c).2; Some (k, c).
Definition keyed_rules (rules : list FilterConfig) : option (list (filter_key_t * FilterConfig)) :=
  mapM keyed_rule rules.
Definition peer_keys (rules : list FilterConfig) : option (list filter_key_t) :=
  mapM getPeerFilterKey (filter (λ c, wants_peer c = true) rules).

Definition rule_updates (keyed : list (filter_key_t * FilterConfig)) : list (key filter_map * value filter_map) :=
  (λ x, (x.1, getFilterValue x.2)) <$> keyed.
Definition peer_updates (peers : list filter_key_t) : list (key peer_filter_map * value peer_filter_map) :=
  (λ k, (k, 1)) <$> peers.

Lemma getFilterKey_default c :
  getFilterValue (getFilterKey c).1 = getFilterValue c /\
  getPeerFilterKey (getFilterKey c).1 = getPeerFilterKey c.
Proof. unfold getFilterKey. cbn. by case_match. Qed.

Lemma packets_copies k v : bpfKeyToPacketsKey k = k /\ bpfValToPacketsVal v = v.
Proof. by destruct k, v. Qed.

Lemma program_rules_ext `{Kernel} tk tk' tv tv' :
  (∀ k, tk k = tk' k) -> (∀ v, tv v = tv' v) -> ∀ rules w, program_rules tk tv rules w = program_rules tk' tv' rules w.
Proof.
  intros Hk Hv rules. induction rules as [|c rules IH]; intros w; [done|]. cbn [program_rules].
  assert (E : program_rule tk tv c w = program_rule tk' tv' c w).
  { unfold program_rule. destruct (getFilterKey c) as [c' [k|]]; [|done].
    assert (Ep : program_peer tk c' w = program_peer tk' c' w).
    { unfold program_peer. case_match; [|done]. destruct (getPeerFilterKey c'); [by rewrite Hk|done]. }
    by rewrite Hk, Hv, Ep. }
  rewrite E. destruct (program_rule tk' tv' c w) as [[[e|] c1] w1]; [done|]. by rewrite IH.
Qed.

(** The packet capture programs the same rules. *)
Lemma ProgramPacketsFilter_eq `{Kernel} rules w : ProgramPacketsFilter rules w = ProgramFilter rules w.
Proof. apply program_rules_ext; [intros k; by destruct k|intros v; by destruct v]. Qed.

Section Maps.
Context {K : Kernel} {KL : KernelLaws K}.
Implicit Types w : world.

(** The tries hold some rules and peers. *)
Record holds_rules (lf : list (key filter_map * value filter_map))
    (lp : list (key peer_filter_map * value peer_filter_map)) w : Prop := {
  hr_wf : world_wf w;
  hr_rules : trie_is filter_map lf w;
  hr_peers : trie_is peer_filter_map lp w;
}.

Lemma holds_rules_peer lf lp k v w w' :
  holds_rules lf lp w -> Update peer_filter_map k v w = (0, w') -> holds_rules lf (lp ++ [(k, v)]) w'.
Proof.
  intros [Hw Hf Hp] Hu. destruct (Update_ok peer_filter_map eq_refl _ _ _ _ Hw Hu) as [_ _ _ _ Hm Hw'].
  split; [done|by apply (trie_is_ext _ _ w); [apply Hm|]|].
  exact (trie_is_update peer_filter_map eq_refl _ _ _ _ _ Hw Hp Hu).
Qed.

Lemma holds_rules_rule lf lp k v w w' :
  holds_rules lf lp w -> Update filter_map k v w = (0, w') -> holds_rules (lf ++ [(k, v)]) lp w'.
Proof.
  intros [Hw Hf Hp] Hu. destruct (Update_ok filter_map eq_refl _ _ _ _ Hw Hu) as [_ _ _ _ Hm Hw'].
  split; [done| |by apply (trie_is_ext _ _ w); [apply Hm|]].
  exact (trie_is_update filter_map eq_refl _ _ _ _ _ Hw Hf Hu).
Qed.

Lemma program_peer_ok c lf lp w w' :
  holds_rules lf lp w -> program_peer (λ k, k) c w = (None, w') ->
  ∃ peers, peer_keys [c] = Some peers /\ holds_rules lf (lp ++ peer_updates peers) w'.
Proof.
  intros Hh. unfold program_peer, peer_keys. cbn [getFilterValue fv_do_peerCIDR_lookup].
  change (_ || _) with (wants_peer c). rewrite filter_cons.
  destruct (wants_peer c); [rewrite decide_True by done|rewrite decide_False by done]; rewrite filter_nil; cbn.
  - destruct (getPeerFilterKey c) as [k|] eqn:Ek; [|done].
    destruct (Update _ _ _ _) as [e w1] eqn:Eu. destruct (e =? 0) eqn:E; [|done]. bool_to_prop. subst e.
    intros [= <-]. exists [k]. split; [done|]. by eapply holds_rules_peer.
  - intros [= <-]. exists []. split; [done|]. by rewrite app_nil_r.
Qed.

Lemma peer_keys_cons c rules :
  peer_keys (c :: rules) = (p ← peer_keys [c]; ps ← peer_keys rules; Some (p ++ ps)).
Proof.
  unfold peer_keys. rewrite !filter_cons. destruct (decide (wants_peer c = true)).
  - rewrite filter_nil. cbn. destruct (getPeerFilterKey c); [|done]. cbn. by destruct (mapM _ _).
  - rewrite filter_nil. cbn. by destruct (mapM _ _).
Qed.

Lemma program_rule_ok c lf lp w c' w' :
  holds_rules lf lp w -> program_rule (λ k, k) (λ v, v) c w = (None, c', w') ->
  ∃ k peers, (getFilterKey c).2 = Some k /\ peer_keys [c] = Some peers /\
    holds_rules (lf ++ [(k, getFilterValue c)]) (lp ++ peer_updates peers) w'.
Proof.
  intros Hh. unfold program_rule. destruct (getFilterKey_default c) as [Ev Ep].
  destruct (getFilterKey c) as [c1 [k|]]; [|done]. cbn [fst snd] in *.
  assert (Epeer : program_peer (λ k, k) c1 w = program_peer (λ k, k) c w)
    by (unfold program_peer; by rewrite Ev, Ep).
  rewrite Epeer, Ev. destruct (program_peer _ c w) as [[e|] w1] eqn:E1; [done|].
  destruct (program_peer_ok c lf lp w w1 Hh E1) as (peers & Hp & Hh1).
  destruct (Update _ _ _ _) as [e w2] eqn:E2. destruct (e =? 0) eqn:E0; [|done]. bool_to_prop. subst e.
  intros [= _ <-]. exists k, peers. split_and!; [done..|]. by eapply holds_rules_rule.
Qed.

(** Programming that succeeds leaves exactly the rules in the maps. *)
Lemma ProgramFilter_ok rules lf lp w rs w' :
  holds_rules lf lp w -> ProgramFilter rules w = (None, rs, w') ->
  ∃ keyed peers, keyed_rules rules = Some keyed /\ peer_keys rules = Some peers /\
    holds_rules (lf ++ rule_updates keyed) (lp ++ peer_updates peers) w'.
Proof.
  unfold ProgramFilter. revert lf lp w rs. induction rules as [|c rules IH]; intros lf lp w rs Hh; cbn [program_rules].
  { intros [= <- <-]. exists [], []. by rewrite !app_nil_r. }
  destruct (program_rule _ _ c w) as [[[e|] c1] w1] eqn:E1; [done|].
  destruct (program_rule_ok c lf lp w c1 w1 Hh E1) as (k & p & Hk & Hp & Hh1).
  destruct (program_rules _ _ rules w1) as [[err rs2] w2] eqn:E2. intros [= -> <- ->].
  destruct (IH _ _ _ _ Hh1 E2) as (keyed & peers & Hks & Hps & Hh2).
  exists ((k, c) :: keyed), (p ++ peers). rewrite peer_keys_cons, Hp, Hps. split; [|split; [done|]].
  - change (keyed_rules (c :: rules)) with (x ← keyed_rule c; xs ← keyed_rules rules; Some (x :: xs)).
    unfold keyed_rule. by rewrite Hk, Hks.
  - unfold rule_updates, peer_updates in *. rewrite fmap_app. by rewrite <- !app_assoc in Hh2.
Qed.

(** The trie lookups, in the terms of the configuration. *)
Definition peer_listed (peers : list filter_key_t) (k : filter_key_t) : bool :=
  existsb (λ p, bool_decide (covers p k)) peers.

Lemma rules_elem keyed lp w cpu k :
  holds_rules (rule_updates keyed) lp w ->
  elem cpu filter_map w k = (λ x, getFilterValue x.2) <$> longest fst keyed k.
Proof.
  intros [_ Hf _]. rewrite (trie_elem filter_map _ w cpu k eq_refl Hf). unfold rule_updates.
  rewrite longest_fmap, <- option_fmap_compose. done.
Qed.

Lemma peers_elem lf peers w cpu k :
  holds_rules lf (peer_updates peers) w ->
  elem cpu peer_filter_map w k = None <-> peer_listed peers k = false.
Proof.
  intros [_ _ Hp]. rewrite (trie_elem peer_filter_map _ w cpu k eq_refl Hp). unfold peer_updates.
  rewrite longest_fmap. cbn [trie_key fst]. pose proof (longest_spec (λ x, x) peers k) as Hl.
  unfold peer_listed. rewrite <- not_true_iff_false, existsb_exists.
  destruct (longest (λ x, x) peers k) as [e|]; cbn.
  - destruct Hl as (i & Hi & Hc & _). split; [done|]. intros []. exists e.
    split; [apply list_elem_of_In; by eapply list_elem_of_lookup_2|by apply bool_decide_true].
  - split; [|done]. intros _ (x & Hx%list_elem_of_In & Hc%bool_decide_eq_true). by destruct (Hl x Hx).
Qed.

(** What the rules of the configuration say of one side of a packet: the last rule
    of the longest prefix counts, and its peer may be any of the configured peers. *)
Definition config_side (keyed : list (filter_key_t * FilterConfig)) (peers : list filter_key_t)
    (id : flow_id) (use_src_ip : bool) (eth_protocol flags drop_reason direction : Z) : side :=
  match longest fst keyed (lookup_key id use_src_ip eth_protocol) with
  | None => NoRule
  | Some (_, c) =>
      if wants_peer c && negb (peer_listed peers (lookup_key id (negb use_src_ip) eth_protocol))
      then PeerMismatch
      else if decide (config_matches c id flags drop_reason direction)
      then Match (getFilterValue c) else Mismatch (getFilterValue c)
  end.

Lemma side_of_config keyed peers w cpu id use_src_ip eth_protocol flags drop_reason direction :
  holds_rules (rule_updates keyed) (peer_updates peers) w -> nonzero_ports id ->
  side_of cpu w id use_src_ip eth_protocol flags drop_reason direction
  = config_side keyed peers id use_src_ip eth_protocol flags drop_reason direction.
Proof.
  intros Hh H0. unfold side_of, config_side. rewrite (rules_elem keyed _ w cpu _ Hh).
  destruct (longest fst keyed _) as [[k c]|]; [|done]. cbn [fmap option_fmap option_map snd].
  assert (Ew : negb (fv_do_peerCIDR_lookup (getFilterValue c) =? 0) = wants_peer c)
    by (unfold wants_peer; cbn; by case_match).
  rewrite Ew. set (k' := lookup_key id (negb use_src_ip) eth_protocol).
  assert (Ep : bool_decide (elem cpu peer_filter_map w k' = None) = negb (peer_listed peers k')).
  { pose proof (peers_elem _ peers w cpu k' Hh) as Hp. destruct (peer_listed peers k').
    - apply bool_decide_false. by rewrite Hp.
    - apply bool_decide_true. by apply Hp. }
  rewrite Ep. case_match; [done|].
  pose proof (getFilterValue_matches c id flags drop_reason direction H0) as Hm.
  by repeat case_decide; tauto.
Qed.

(** ** Errors *)

(** The first malformed rule of the configuration. *)
Definition rule_error (c : FilterConfig) : option program_error :=
  match (getFilterKey c).2 with
  | None => Some FilterKeyError
  | Some _ => if wants_peer c && bool_decide (getPeerFilterKey c = None) then Some PeerKeyError else None
  end.
Fixpoint config_error (rules : list FilterConfig) : option program_error :=
  match rules with
  | [] => None
  | c :: rules => match rule_error c with Some e => Some e | None => config_error rules end
  end.

(** The tries take new entries. *)
Definition trie_room : Prop :=
  ∀ m idx k st, map_type m = LPM_TRIE -> ∃ ev, (k_admit m idx k st).1 = Accept ev.

Lemma Update_room m k v w : trie_room -> map_type m = LPM_TRIE -> ∃ w', Update m k v w = (0, w').
Proof.
  intros Hr Hm. unfold Update. destruct (Hr m (st_index (w_map w m)) k (w_kst w) Hm) as [ev Hev].
  destruct (k_admit _ _ _ _) as [verd st]. cbn in Hev. subst verd. by eexists.
Qed.

Lemma program_rule_error c w :
  trie_room -> (program_rule (λ k, k) (λ v, v) c w).1.1 = rule_error c.
Proof.
  intros Hr. unfold program_rule, rule_error, program_peer. destruct (getFilterKey_default c) as [Ev Ep].
  destruct (getFilterKey c) as [c1 [k|]]; [|done]. cbn [fst snd] in *. rewrite Ev, Ep.
  assert (Ew : fv_do_peerCIDR_lookup (getFilterValue c) = if wants_peer c then 1 else 0) by done.
  assert (Hf : ∀ w, (let '(err, w) := Update filter_map k (getFilterValue c) w in
      (if err =? 0 then None else Some (UpdateFilterError err), c1, w)).1.1 = None).
  { intros w0. by destruct (Update_room filter_map k (getFilterValue c) w0 Hr eq_refl) as [w1 ->]. }
  rewrite Ew. destruct (wants_peer c); cbn [andb]; [|apply Hf]. change (1 =? 1) with true. cbv iota.
  destruct (getPeerFilterKey c) as [pk|]; [|by rewrite bool_decide_true].
  rewrite bool_decide_false by done. destruct (Update_room peer_filter_map pk (1 : value peer_filter_map) w Hr eq_refl) as [w1 ->].
  apply Hf.
Qed.

(** Programming fails exactly on the first malformed rule. *)
Lemma ProgramFilter_error rules w : trie_room -> (ProgramFilter rules w).1.1 = config_error rules.
Proof.
  intros Hr. unfold ProgramFilter. revert w. induction rules as [|c rules IH]; intros w; [done|].
  cbn [program_rules config_error]. pose proof (program_rule_error c w Hr) as He.
  destruct (program_rule _ _ c w) as [[[e|] c1] w1]; cbn in He; rewrite <- He; [done|].
  specialize (IH w1). by destruct (program_rules _ _ rules w1) as [[err rs] w2].
Qed.
End Maps.
