(* ===== verification/Networks.v ===== *)
(** * Networks as ranges of addresses

    The tries compare addresses bit by bit.  Here an address is a number, most
    significant byte first, and a network is the addresses with the same quotient:
    a rule for [a.b.c.d/n] covers a packet exactly when the address of the packet
    is in that network, and likewise for IPv6. *)
From Stdlib Require Import Ascii String.
From S2P Require Import Prelude Machine Types Kernel Maps Safety PacketUtils Filter GoText Tries Rules.

(** ** Bits and numbers *)

Definition push_bit (n : Z) (b : bool) : Z := 2 * n + Z.b2z b.
Definition bits_value (n : Z) (l : list bool) : Z := foldl push_bit n l.
Definition bytes_value (l : list Z) : Z := foldl (λ n b, n * 256 + b) 0 l.

Lemma bits_value_from n l : bits_value n l = n * 2 ^ Z.of_nat (length l) + bits_value 0 l.
Proof.
  unfold bits_value. revert n. induction l as [|b l IH]; intros n; cbn [foldl length]; [cbn; lia|].
  rewrite IH, (IH (push_bit 0 b)), Nat2Z.inj_succ, Z.pow_succ_r by lia. unfold push_bit. lia.
Qed.

Lemma bits_value_range l : 0 <= bits_value 0 l < 2 ^ Z.of_nat (length l).
Proof.
  induction l as [|b l IH]; [cbn; lia|]. change (bits_value 0 (b :: l)) with (bits_value (push_bit 0 b) l).
  rewrite bits_value_from. cbn [length]. rewrite Nat2Z.inj_succ, Z.pow_succ_r by lia.
  unfold push_bit. destruct b; cbn; lia.
Qed.

Lemma bits_value_inj l l' : length l = length l' -> bits_value 0 l = bits_value 0 l' -> l = l'.
Proof.
  revert l'. induction l as [|b l IH]; intros [|b' l'] Hl; try done. cbn in Hl.
  change (bits_value 0 (b :: l)) with (bits_value (push_bit 0 b) l).
  change (bits_value 0 (b' :: l')) with (bits_value (push_bit 0 b') l').
  rewrite (bits_value_from (push_bit 0 b)), (bits_value_from (push_bit 0 b')). replace (length l') with (length l) by lia.
  pose proof (bits_value_range l) as H1. pose proof (bits_value_range l') as H2.
  replace (length l') with (length l) in H2 by lia. unfold push_bit.
  set (p := 2 ^ Z.of_nat (length l)) in *. intros E.
  assert (Hb : b = b') by (destruct b, b'; cbn in E; [done|lia|lia|done]). subst b'.
  f_equal. apply IH; [lia|]. destruct b; cbn in E; lia.
Qed.

(** The first bits are a quotient. *)
Lemma bits_value_take n l :
  (n <= length l)%nat ->
  bits_value 0 (take n l) = bits_value 0 l / 2 ^ Z.of_nat (length l - n).
Proof.
  intros Hn. rewrite <- (take_drop n l) at 2.
  assert (E : bits_value 0 (take n l ++ drop n l)
    = bits_value 0 (take n l) * 2 ^ Z.of_nat (length (drop n l)) + bits_value 0 (drop n l)).
  { unfold bits_value at 1. rewrite foldl_app. apply bits_value_from. }
  rewrite E, length_drop. pose proof (bits_value_range (drop n l)) as Hr. rewrite length_drop in Hr.
  set (p := 2 ^ Z.of_nat (length l - n)) in *. rewrite Z.div_add_l by lia. rewrite (Z.div_small _ p) by lia. lia.
Qed.

Lemma byte_bits_value b : is_u8 b -> bits_value 0 (byte_bits b) = b.
Proof.
  intros Hb. set (ok b := bits_value 0 (byte_bits b) =? b).
  assert (H : forallb ok (Z.of_nat <$> seq 0 256) = true) by (vm_compute; reflexivity).
  rewrite forallb_forall in H. apply Z.eqb_eq, (H b), list_elem_of_In, list_elem_of_fmap.
  exists (Z.to_nat b). width. split; [lia|]. apply elem_of_seq. lia.
Qed.

Lemma addr_bits_value l : Forall is_u8 l -> bits_value 0 (addr_bits l) = bytes_value l.
Proof.
  induction l as [|b l IH] using rev_ind; [done|]. intros [Hl Hb]%list.Forall_app.
  inversion Hb; subst. rewrite addr_bits_app. unfold bytes_value. rewrite foldl_app. cbn [foldl].
  unfold bits_value. rewrite foldl_app. fold (bits_value 0 (addr_bits l)). rewrite IH by done.
  fold (bits_value (bytes_value l) (addr_bits [b])).
  rewrite bits_value_from. unfold addr_bits. cbn [mbind list_bind]. rewrite app_nil_r, byte_bits_value by done.
  unfold bytes_value. cbn. lia.
Qed.

(** Addresses agree on their first [n] bits when the quotients do. *)
Lemma same_bits_iff n l l' :
  Forall is_u8 l -> Forall is_u8 l' -> length l = length l' -> (n <= 8 * length l)%nat ->
  take n (addr_bits l) = take n (addr_bits l') <->
  bytes_value l / 2 ^ Z.of_nat (8 * length l - n) = bytes_value l' / 2 ^ Z.of_nat (8 * length l - n).
Proof.
  intros Hl Hl' Hlen Hn. pose proof (addr_bits_length l _ eq_refl) as Hb.
  pose proof (addr_bits_length l' _ eq_refl) as Hb'. rewrite <- Hlen in Hb'.
  rewrite <- (addr_bits_value l), <- (addr_bits_value l') by done. rewrite <- Hb at 1.
  rewrite <- (bits_value_take n (addr_bits l)) by lia. rewrite <- Hb'.
  rewrite <- (bits_value_take n (addr_bits l')) by lia. split; [by intros ->|].
  apply bits_value_inj. by rewrite !length_take, Hb, Hb'.
Qed.

(** ** Networks *)

Definition in_network (n : Z) (net addr : list Z) : Prop :=
  let free := 2 ^ (8 * Z.of_nat (length net) - n) in
  bytes_value net / free = bytes_value addr / free.

Lemma take_bits_iff n net addr pad pad' :
  Forall is_u8 net -> Forall is_u8 addr -> length net = length addr ->
  0 <= n <= 8 * Z.of_nat (length net) ->
  take (Z.to_nat n) (addr_bits (net ++ pad)) = take (Z.to_nat n) (addr_bits (addr ++ pad'))
  <-> in_network n net addr.
Proof.
  intros Hn Ha Hl Hr. unfold in_network. cbv zeta. pose proof (addr_bits_length net _ eq_refl) as Lb.
  pose proof (addr_bits_length addr _ eq_refl) as Lb'. rewrite <- Hl in Lb'.
  rewrite !addr_bits_app, !take_app_le by lia. rewrite (same_bits_iff (Z.to_nat n) net addr) by (done || lia).
  by replace (Z.of_nat (8 * length net - Z.to_nat n)) with (8 * Z.of_nat (length net) - n) by lia.
Qed.

(** The address of a packet that a lookup is about. *)
Definition packet_addr (id : flow_id) (use_src_ip : bool) : list Z :=
  if use_src_ip then fid_src_ip id else fid_dst_ip id.

Lemma packet_addr_bytes id use_src_ip : wf_flow_id id -> is_bytes 16 (packet_addr id use_src_ip).
Proof. intros (Hs & Hd & _). by destruct use_src_ip. Qed.

Lemma covers_v4 net n id use_src_ip :
  is_bytes 4 net -> 0 <= n <= 32 -> wf_flow_id id ->
  covers (mk_filter_key_t n (net ++ zero_bytes 12)) (lookup_key id use_src_ip ETH_P_IP)
  <-> in_network n net (drop 12 (packet_addr id use_src_ip)).
Proof.
  intros [Ln Hn] Hr Hid. destruct (packet_addr_bytes id use_src_ip Hid) as [La Ha].
  unfold covers, lookup_key. change (ETH_P_IP =? ETH_P_IP) with true. cbn [fk_prefix_len fk_ip_data].
  fold (packet_addr id use_src_ip). rewrite take_bits_iff; [|done|by apply list.Forall_drop| |].
  - tauto || (split; [tauto|]; intros; split; [lia|done]).
  - rewrite length_drop, La, Ln. done.
  - rewrite Ln. cbn. lia.
Qed.

Lemma covers_v6 net n id use_src_ip :
  is_bytes 16 net -> 0 <= n <= 128 -> wf_flow_id id ->
  covers (mk_filter_key_t n net) (lookup_key id use_src_ip ETH_P_IPV6)
  <-> in_network n net (packet_addr id use_src_ip).
Proof.
  intros [Ln Hn] Hr Hid. destruct (packet_addr_bytes id use_src_ip Hid) as [La Ha].
  unfold covers, lookup_key. change (ETH_P_IPV6 =? ETH_P_IP) with false. cbn [fk_prefix_len fk_ip_data].
  fold (packet_addr id use_src_ip). rewrite <- (app_nil_r net) at 1. rewrite <- (app_nil_r (packet_addr id use_src_ip)) at 1.
  rewrite take_bits_iff; [|done|done|by rewrite La|rewrite Ln; cbn; lia].
  split; [tauto|]; intros; split; [lia|done].
Qed.

(** ** From the text to the key *)

Definition str (t : text) : string := string_of_list_ascii t.

Lemma chars_str t : chars (str t) = t.
Proof. apply list_ascii_of_string_of_list_ascii. Qed.

Lemma str_nonempty t : t <> [] -> String.eqb (str t) "" = false.
Proof. by destruct t. Qed.

Lemma buildFilterKey_cidr addr ip bits n :
  "/"%char ∉ addr -> ParseAddr addr = Some (ip, bits) -> 0 <= n <= bits -> bits < 0xFFFFFF ->
  buildFilterKey (str (cidr_text addr n)) "" = Some (key_of n ip).
Proof.
  intros Hs Ha Hn Hb. unfold buildFilterKey. rewrite str_nonempty by apply app_cons_nonempty. cbn [negb].
  rewrite chars_str. by rewrite (ParseCIDR_text addr ip bits n).
Qed.

Lemma buildFilterKey_v4 a b c d n :
  is_u8 a -> is_u8 b -> is_u8 c -> is_u8 d -> 0 <= n <= 32 ->
  buildFilterKey (str (cidr_text (v4_text a b c d) n)) ""
  = Some (mk_filter_key_t n ([a; b; c; d] ++ zero_bytes 12)).
Proof.
  intros Ha Hb Hc Hd Hn. rewrite (buildFilterKey_cidr _ (ip4in6 ++ [a; b; c; d]) 32); try done.
  - by apply v4_text_no_slash.
  - by apply ParseAddr_v4.
Qed.

Lemma getFilterKey_text c s :
  cf_IPCIDR c = s -> String.eqb s "" = false -> (getFilterKey c).2 = buildFilterKey s "".
Proof. intros E Hs. unfold getFilterKey. rewrite E, Hs. cbn [snd]. by rewrite E. Qed.

(** An IPv6 address that is not an IPv4-mapped one. *)
Definition plain_v6 (x : v6_addr) : Prop := wf_v6_addr x /\ take 12 (v6_bytes x) <> ip4in6.

Lemma buildFilterKey_v6 x n :
  plain_v6 x -> 0 <= n <= 128 ->
  buildFilterKey (str (cidr_text (v6_text x) n)) "" = Some (mk_filter_key_t n (v6_bytes x)).
Proof.
  intros [Hx Hp] Hn. rewrite (buildFilterKey_cidr _ (v6_bytes x) 128); try done.
  - unfold key_of, To4. by rewrite decide_False.
  - apply v6_text_no_slash.
  - by apply ParseAddr_v6.
Qed.

Lemma group_bytes_ok gs : Forall is_u16 gs -> Forall is_u8 (part_bytes gs).
Proof.
  induction 1 as [|g gs Hg _ IH]; [constructor|]. unfold part_bytes in *. cbn.
  constructor; [|constructor; [|exact IH]].
  - rewrite Z.shiftr_div_pow2 by lia. width. Z.to_euclidean_division_equations; lia.
  - apply u8_range.
Qed.

Lemma v6_bytes_ok x : wf_v6_addr x -> is_bytes 16 (v6_bytes x).
Proof.
  destruct x as [g gs|before after]; intros [Hx Hl]; split; cbn [v6_bytes].
  - rewrite part_bytes_length. cbn. lia.
  - by apply group_bytes_ok.
  - rewrite !length_app. unfold zero_bytes. rewrite length_replicate, !part_bytes_length. lia.
  - apply list.Forall_app in Hx as [Hb Ha]. rewrite !list.Forall_app. split_and!; try by apply group_bytes_ok.
    apply zero_bytes_ok.
Qed.

(** An IPv4-mapped network keeps the length of its IPv6 prefix: no IPv4 packet is in
    it. *)
Lemma mapped_network_unmatched n ip v4 id use_src_ip :
  To4 ip = Some v4 -> 32 < n -> ~ covers (key_of n ip) (lookup_key id use_src_ip ETH_P_IP).
Proof. intros E Hn [Hl _]. unfold key_of in Hl. rewrite E in Hl. cbn in Hl. lia. Qed.
