(* ===== verification/Hooks.v ===== *)
(** * What the tracing hooks share: the filter and the recording

    A tracing hook builds the key of the flow, asks the filter (with no sampling
    to set), and records the metrics of its feature under the key.
    [filter_rejects] is the answer of the filter in terms of the abstract filter
    of [Filter.v], [filter_ran] what it leaves alone; [hooked] is the outcome of a
    hook that reached the filter. *)
From S2P Require Import Prelude Machine Types Kernel Maps Safety PacketUtils Metrics Filter.

Section Hooks.
Context {K : Kernel} {KL : KernelLaws K}.
Implicit Types w : world.

(** Whether the filter keeps the packet out.  A packet that is neither IPv4 nor
    IPv6 matches no rule. *)
Definition filter_rejects cpu cfg w id (flags drop_reason eth_protocol direction : Z) : bool :=
  is_filter_enabled cfg &&
  (if decide (ip_protocol_type eth_protocol) then
     (filter_decision (side_of cpu w id true eth_protocol flags drop_reason direction)
        (side_of cpu w id false eth_protocol flags drop_reason direction) None).1.1
   else true).

Lemma filter_other_protocol id flags drop_reason eth_protocol sampling direction :
  ~ ip_protocol_type eth_protocol ->
  matches_filter id flags drop_reason eth_protocol sampling direction
  = Ret (-1, MAX_FILTER_ACTIONS, sampling).
Proof.
  unfold ip_protocol_type. rewrite elem_of_cons, list_elem_of_singleton. intros Hn.
  unfold matches_filter, filter_setup_lookup_key.
  rewrite (proj2 (Z.eqb_neq _ ETH_P_IP)), (proj2 (Z.eqb_neq _ ETH_P_IPV6)) by tauto. done.
Qed.

Lemma decision_no_sampling src dst : (filter_decision src dst None).2 = None.
Proof.
  unfold filter_decision. assert (Hs : ∀ s, side_sampling s None = None) by (by intros []).
  rewrite !Hs. destruct (matched src); repeat case_match; by simplify_eq/=.
Qed.

(** The filter has run: no map but the counters has changed, and no counter but
    those of the filter on this CPU. *)
Definition filter_counters : list global_counters_key := [FILTER_REJECT; FILTER_ACCEPT; FILTER_NOMATCH].
Definition filter_ran cpu w w' : Prop :=
  framed [global_counters] [] w w' /\
  ∀ c, c ∉ filter_counters -> counter cpu c w' = counter cpu c w.

Lemma counter_ext cpu c w w' :
  w_map w' global_counters = w_map w global_counters -> counter cpu c w' = counter cpu c w.
Proof. apply (elem_ext cpu global_counters). Qed.

Lemma decision_counter src dst s : (filter_decision src dst s).1.2 ∈ filter_counters.
Proof.
  unfold filter_decision, filter_counters. rewrite !elem_of_cons.
  destruct (matched src); repeat case_match; cbn; tauto.
Qed.

Lemma counted_filter cpu c w w' c' :
  counted cpu c w w' -> c ∈ filter_counters -> c' ∉ filter_counters -> counter cpu c' w' = counter cpu c' w.
Proof. intros Hc Hin Hn. eapply counted_others; [exact Hc|]. by intros ->. Qed.

Lemma wp_hook_filter cpu cfg id flags drop_reason eth_protocol direction
    (Q : bool * option Z → world → Prop) w :
  world_wf w -> typed w -> wf_flow_id id ->
  (∀ w', filter_ran cpu w w' ->
     Q (filter_rejects cpu cfg w id flags drop_reason eth_protocol direction, None) w') ->
  wp cpu (check_and_apply_filter cfg id flags drop_reason eth_protocol None direction) Q w.
Proof.
  intros Hw Ht Hid HQ.
  assert (Hfr : wp cpu (check_and_apply_filter cfg id flags drop_reason eth_protocol None direction)
    (λ r w', sampling_ok None r.2 /\ framed [global_counters] [] w w') w).
  { eapply wp_framed; [by apply check_and_apply_filter_safe
      |apply check_and_apply_filter_writes|done|done|done]. }
  assert (Hres : wp cpu (check_and_apply_filter cfg id flags drop_reason eth_protocol None direction)
    (λ r w', r = (filter_rejects cpu cfg w id flags drop_reason eth_protocol direction, None) /\
       ∀ c, c ∉ filter_counters -> counter cpu c w' = counter cpu c w) w).
  { unfold filter_rejects. destruct (is_filter_enabled cfg) eqn:E; cbn [andb].
    2: by rewrite check_and_apply_filter_disabled.
    destruct (decide (ip_protocol_type eth_protocol)) as [Hip|Hip].
    - apply wp_check_and_apply_filter; [done..|]. intros w'. cbv zeta. intros Hc.
      rewrite decision_no_sampling. split; [done|]. intros c.
      eapply counted_filter; [exact Hc|apply decision_counter].
    - unfold check_and_apply_filter. rewrite E, filter_other_protocol by done.
      apply wp_bind, wp_ret, wp_bind, wp_increase_counter; [done|]. intros w' Hc. apply wp_ret.
      split; [done|]. intros c. eapply counted_filter; [exact Hc|].
      do 2 apply list_elem_of_further. apply list_elem_of_here. }
  eapply wp_mono; [apply (wp_conj _ _ _ _ _ Hfr Hres)|]. intros r w' [[_ Hf] [-> Hc]]. by apply HQ.
Qed.

(** The outcome of a hook behind the filter: rejected with nothing changed but
    the counters, or recorded the way [R] says. *)
Inductive hooked cpu cfg id (flags drop_reason eth_protocol direction : Z)
    (R : world → world → Z → Prop) w w' : Z → Prop :=
  | HookRejected :
      filter_rejects cpu cfg w id flags drop_reason eth_protocol direction = true ->
      filter_ran cpu w w' ->
      hooked cpu cfg id flags drop_reason eth_protocol direction R w w' 0
  | HookRecorded w1 r :
      filter_rejects cpu cfg w id flags drop_reason eth_protocol direction = false ->
      filter_ran cpu w w1 -> R w1 w' r ->
      hooked cpu cfg id flags drop_reason eth_protocol direction R w w' r.

Lemma wp_hooked cpu cfg id flags drop_reason eth_protocol direction (p : prog Z)
    (R : world → world → Z → Prop) (Q : Z → world → Prop) w :
  world_wf w -> typed w -> wf_flow_id id ->
  (∀ w1, world_wf w1 -> typed w1 -> wp cpu p (λ r w', R w1 w' r) w1) ->
  (∀ r w', hooked cpu cfg id flags drop_reason eth_protocol direction R w w' r -> Q r w') ->
  wp cpu ('(skip, _) ← check_and_apply_filter cfg id flags drop_reason eth_protocol None direction;
          if skip : bool then mret 0 else p) Q w.
Proof.
  intros Hw Ht Hid HR HQ. apply wp_bind, wp_hook_filter; [done..|]. intros w1 Hf.
  destruct (filter_rejects _ _ _ _ _ _ _ _) eqn:E; cbv beta iota.
  - by apply wp_ret, HQ, HookRejected.
  - eapply wp_mono; [apply HR; apply Hf|]. intros r w' Hr. by apply HQ, (HookRecorded _ _ _ _ _ _ _ _ _ _ w1).
Qed.

(** With the filter disabled and the metric already there, it is updated. *)
Lemma hooked_present cpu cfg id flags drop_reason eth_protocol direction R m (k : key m) upd new
    w w' r v :
  is_filter_enabled cfg = false -> m <> global_counters ->
  (∀ w1 w2 r, R w1 w2 r -> ∃ r', upserted cpu m k upd new w1 w2 r') ->
  hooked cpu cfg id flags drop_reason eth_protocol direction R w w' r ->
  elem cpu m w k = Some v ->
  ∃ ts, clock w <= ts <= clock w' /\ elem cpu m w' k = Some (upd ts v) /\
    w_do_sampling w' = w_do_sampling w.
Proof.
  intros Hen Hm HR [E _|w1 r' _ [Hf _] Hu] Hv; [by unfold filter_rejects in E; rewrite Hen in E|].
  assert (Hv1 : elem cpu m w1 k = Some v).
  { rewrite (framed_elem _ _ _ _ _ _ _ Hf); [done|]. by rewrite list_elem_of_singleton. }
  pose proof (fr_clock _ _ _ _ Hf). pose proof (fr_sampling _ _ _ _ Hf).
  destruct (HR _ _ _ Hu) as (? & [v' ts Hv' Hts _ Hup|ts Hn|e Hn]); [|congruence..].
  rewrite Hv1 in Hv'. injection Hv' as <-. exists ts. split; [lia|].
  split; [apply Hup|]. by rewrite (upd_sampling _ _ _ _ _ _ Hup).
Qed.

(** Safety and footprint of the same pattern. *)
Lemma hooked_safe cfg id flags drop_reason eth_protocol direction (p : prog Z) :
  safe (λ _, True) p ->
  safe (λ _, True) ('(skip, _) ← check_and_apply_filter cfg id flags drop_reason eth_protocol None
                      direction; if skip : bool then mret 0 else p).
Proof.
  intros Hp. apply safe_bind. eapply safe_mono; [by apply check_and_apply_filter_safe|].
  by intros [[] s] _.
Qed.
End Hooks.

(** Programs that run one after the other on a CPU: the world they leave. *)
Definition run_all `{Kernel} {A} (cpu : Z) (ps : list (prog A)) (w : world) : world :=
  foldl (λ w p, (run cpu p w).2) w ps.

(** What a sequence of programs leaves, from what each leaves: [S] relates the
    items that were processed so far to the world. *)
Lemma run_all_ind `{KernelLaws} {A I} cpu (p : I → prog A) (S : list I → world → Prop) l w :
  S [] w ->
  (∀ l' i w, l' ++ [i] `prefix_of` l -> S l' w -> S (l' ++ [i]) (run cpu (p i) w).2) ->
  S l (run_all cpu (p <$> l) w).
Proof.
  intros H0 Hstep. induction l as [|i l IH] using rev_ind; [done|].
  unfold run_all. rewrite fmap_app, foldl_app. cbn. apply Hstep; [done|].
  apply IH. intros l' i' w' Hp. apply Hstep. etrans; [done|]. by apply prefix_app_r.
Qed.
