(* ===== verification/Drops.v ===== *)
(** * The packet-drop hook ([bpf/pkt_drops.h])

    The tracepoint fires when the kernel frees a packet; a drop is recorded
    with its cause, the state of the socket and the TCP flags, in metrics that
    saturate instead of wrapping. *)
From S2P Require Import Prelude Machine Types Kernel Maps Safety PacketUtils Frames Metrics CoreFill.
From S2P Require Import Filter Hooks.

(** [enum skb_drop_reason], as far as the hook uses it. *)
Definition SKB_DROP_REASON_NOT_SPECIFIED : Z := 2.

(** What the hook reads from [struct trace_event_raw_kfree_skb]: the packet,
    its socket and the reason.  [ka_sk] is [None] for a packet without socket,
    else the socket state that the probe read gives (0 if it fails). *)
Record kfree_args := mk_kfree_args {
  ka_skb : ksk_buff;
  ka_sk : option Z;
  ka_reason : Z;
}.

(** The writes to an existing element. *)
Definition pkt_drop_update (state flags reason len now : Z) (m : pkt_drop_metrics)
    : pkt_drop_metrics :=
  m <| pd_end_mono_time_ts := now |>
    <| pd_packets ::= λ n, add_len_u16 n 1 |>
    <| pd_bytes ::= λ n, add_len_u16 n len |>
    <| pd_latest_state := state |>
    <| pd_latest_flags := flags |>
    <| pd_latest_drop_cause := reason |>.

Definition pkt_drop_lookup_and_update_flow (id : flow_id) (state flags reason len : Z) : prog Z :=
  lookup_and_update aggregated_flows_pkt_drop id (pkt_drop_update state flags reason len).

Definition new_pkt_drop (eth_protocol state flags reason len now : Z) : pkt_drop_metrics :=
  zeroed
    <| pd_start_mono_time_ts := now |>
    <| pd_end_mono_time_ts := now |>
    <| pd_eth_protocol := eth_protocol |>
    <| pd_packets := 1 |>
    <| pd_bytes := add_len_u16 0 len |>
    <| pd_latest_state := state |>
    <| pd_latest_flags := flags |>
    <| pd_latest_drop_cause := reason |>.

Section Drops.
Context {H : Host} {K : Kernel}.
Implicit Types cfg : config.

Definition trace_pkt_drop cfg (state : Z) (skb : ksk_buff) (reason : Z) : prog Z :=
  let if_index := ks_skb_iif skb in
  if (if_index =? 0) || (if_index =? 1) then mret 0
  else
    let '(id, eth_protocol, _, protocol) := core_fill_in_l23 skb in
    match core_fill_in_l4 skb id protocol 0 with
    | None => mret 0
    | Some (id, flags) =>
        '(skip, _) ← check_and_apply_filter cfg id flags reason eth_protocol None 0;
        if skip : bool then mret 0
        else
          let len := ks_len skb in
          upsert aggregated_flows_pkt_drop id (pkt_drop_update state flags reason len)
            (new_pkt_drop eth_protocol state flags reason len)
    end.

Definition kfree_skb cfg (args : kfree_args) : prog Z :=
  do_sampling ← call do_sampling_get;
  if do_sampling =? 0 then mret 0
  else
    let reason := ka_reason args in
    if SKB_DROP_REASON_NOT_SPECIFIED <? reason then
      let state := default 0 (ka_sk args) in
      trace_pkt_drop cfg state (ka_skb args) reason
    else mret 0.
End Drops.

(** ** Safety *)

Definition wf_kfree_args (args : kfree_args) : Prop :=
  wf_ksk_buff (ka_skb args) /\ is_u8 (default 0 (ka_sk args)) /\ is_u32 (ka_reason args).

Section DropsOk.
Context {H : Host} {K : Kernel} {KL : KernelLaws K}.
Implicit Types w : world.

Lemma pkt_drop_update_ok state flags reason len now m :
  is_u8 state -> is_u16 flags -> is_u32 reason -> is_u64 now ->
  wf_pkt_drop_metrics m -> wf_pkt_drop_metrics (pkt_drop_update state flags reason len now m).
Proof.
  intros ???? (? & ? & ? & ? & ? & ? & ? & ?). unfold wf_pkt_drop_metrics. cbn.
  splits; try done; apply add_len_u16_range.
Qed.

Lemma new_pkt_drop_ok eth_protocol state flags reason len now :
  is_u16 eth_protocol -> is_u8 state -> is_u16 flags -> is_u32 reason -> is_u64 now ->
  wf_pkt_drop_metrics (new_pkt_drop eth_protocol state flags reason len now).
Proof.
  intros ?????. unfold wf_pkt_drop_metrics. cbn.
  splits; try done; apply add_len_u16_range.
Qed.

Lemma trace_pkt_drop_safe cfg state skb reason :
  wf_ksk_buff skb -> is_u8 state -> is_u32 reason ->
  safe (λ _, True) (trace_pkt_drop cfg state skb reason).
Proof.
  intros Hskb Hs Hr. unfold trace_pkt_drop. case_match; [done|].
  pose proof (core_fill_in_l23_ok skb Hskb) as Hl.
  destruct (core_fill_in_l23 skb) as [[[id e] family] protocol].
  destruct Hl as (Hid & He & Hp & _).
  destruct (core_fill_in_l4 skb id protocol 0) as [[id' flags]|] eqn:E; [|done].
  destruct (core_fill_in_l4_ok _ _ _ _ _ _ Hskb Hid Hp zero_u16 E) as (? & ? & _).
  apply hooked_safe. eapply safe_mono; [apply upsert_safe|done].
  - intros. by apply pkt_drop_update_ok.
  - intros. by apply new_pkt_drop_ok.
Qed.

Lemma kfree_skb_safe cfg args : wf_kfree_args args -> safe (λ _, True) (kfree_skb cfg args).
Proof.
  intros (? & ? & ?). unfold kfree_skb. apply safe_bind, safe_call; [done|]. intros s _.
  case_match; [done|]. case_match; [|done]. by apply trace_pkt_drop_safe.
Qed.

(** ** What a drop does *)

(** The metrics that a drop of a frame leaves behind. *)
Definition drop_recorded cpu (f : frame) (args : kfree_args) : world → world → Z → Prop :=
  let state := default 0 (ka_sk args) in
  let len := ks_len (ka_skb args) in
  upserted cpu aggregated_flows_pkt_drop (frame_id f)
    (pkt_drop_update state (frame_flags f) (ka_reason args) len)
    (new_pkt_drop (ip_ethertype (f_ip f)) state (frame_flags f) (ka_reason args) len).

(** The hook records a drop: the packet flows are sampled, the reason is a
    drop, and the packet came in through a known interface. *)
Definition records_drop (w : world) (args : kfree_args) : Prop :=
  w_do_sampling w <> 0 /\ SKB_DROP_REASON_NOT_SPECIFIED < ka_reason args /\
  ks_skb_iif (ka_skb args) ∉ [0; 1].

Lemma wp_trace_pkt_drop cpu cfg args f (Q : Z → world → Prop) w :
  world_wf w -> typed w -> holds_frame (ka_skb args) f -> wf_frame f ->
  ks_skb_iif (ka_skb args) ∉ [0; 1] ->
  (∀ r w', hooked cpu cfg (frame_id f) (frame_flags f) (ka_reason args) (ip_ethertype (f_ip f)) 0
     (drop_recorded cpu f args) w w' r -> Q r w') ->
  wp cpu (trace_pkt_drop cfg (default 0 (ka_sk args)) (ka_skb args) (ka_reason args)) Q w.
Proof.
  intros Hw Ht Hh Hf Hi HQ. unfold trace_pkt_drop.
  rewrite elem_of_cons, list_elem_of_singleton in Hi.
  rewrite !(proj2 (Z.eqb_neq (ks_skb_iif _) _)) by tauto. cbn [orb].
  destruct (core_fill_frame _ _ Hh Hf) as (id & -> & ->). cbv beta iota.
  eapply wp_hooked; [done..|apply (frame_id_ok _ _ Hh Hf)| |exact HQ].
  intros w1 Hw1 Ht1. by apply wp_upsert.
Qed.
Lemma wp_kfree_skb cpu cfg args f (Q : Z → world → Prop) w :
  world_wf w -> typed w -> holds_frame (ka_skb args) f -> wf_frame f ->
  (records_drop w args -> ∀ r w',
     hooked cpu cfg (frame_id f) (frame_flags f) (ka_reason args) (ip_ethertype (f_ip f)) 0
       (drop_recorded cpu f args) w w' r -> Q r w') ->
  (~ records_drop w args -> Q 0 w) ->
  wp cpu (kfree_skb cfg args) Q w.
Proof.
  intros Hw Ht Hh Hf HQ HQ'. unfold kfree_skb. apply wp_bind, wp_call. cbn [helper_sem fst snd].
  unfold records_drop in *.
  destruct (w_do_sampling w =? 0) eqn:Es; bool_to_prop; [by apply wp_ret, HQ'; intros (? & _)|].
  destruct (SKB_DROP_REASON_NOT_SPECIFIED <? ka_reason args) eqn:Er; bool_to_prop.
  2: { apply wp_ret, HQ'. intros (_ & ? & _). lia. }
  destruct (decide (ks_skb_iif (ka_skb args) ∈ [0; 1])) as [Hi|Hi].
  - unfold trace_pkt_drop.
    assert (E : (ks_skb_iif (ka_skb args) =? 0) || (ks_skb_iif (ka_skb args) =? 1) = true).
    { rewrite orb_true_iff, !Z.eqb_eq. by rewrite elem_of_cons, list_elem_of_singleton in Hi. }
    rewrite E. apply wp_ret, HQ'. by intros (_ & _ & ?).
  - eapply wp_trace_pkt_drop; [done..|]. by apply HQ.
Qed.

(** Further drops of a flow that is already there: the metrics saturate. *)
Definition dropped_bytes (l : list kfree_args) : Z := Zsum (ks_len ∘ ka_skb <$> l).

Lemma drops_accumulate cpu cfg f l w v :
  world_wf w -> typed w -> wf_frame f -> is_filter_enabled cfg = false ->
  Forall (λ args, wf_kfree_args args /\ holds_frame (ka_skb args) f /\ records_drop w args) l ->
  elem cpu aggregated_flows_pkt_drop w (frame_id f) = Some v ->
  ∃ v', elem cpu aggregated_flows_pkt_drop (run_all cpu (kfree_skb cfg <$> l) w) (frame_id f)
      = Some v' /\
    pd_packets v' = Z.min 65535 (pd_packets v + Z.of_nat (length l)) /\
    pd_bytes v' = Z.min 65535 (pd_bytes v + dropped_bytes l).
Proof.
  intros Hw Ht Hf Hen Hl Hv.
  pose proof (typed_elem cpu aggregated_flows_pkt_drop _ _ _ Ht Hv) as (_ & _ & Hb & Hp & _).
  assert (Hinv : let w' := run_all cpu (kfree_skb cfg <$> l) w in
    world_wf w' /\ typed w' /\ w_do_sampling w' = w_do_sampling w /\
    ∃ v', elem cpu aggregated_flows_pkt_drop w' (frame_id f) = Some v' /\
      pd_packets v' = Z.min 65535 (pd_packets v + Z.of_nat (length l)) /\
      pd_bytes v' = Z.min 65535 (pd_bytes v + dropped_bytes l)); [|by apply Hinv].
  cbv zeta. eapply (run_all_ind cpu (kfree_skb cfg) (λ l w', world_wf w' /\ typed w' /\
    w_do_sampling w' = w_do_sampling w /\ ∃ v',
      elem cpu aggregated_flows_pkt_drop w' (frame_id f) = Some v' /\
      pd_packets v' = Z.min 65535 (pd_packets v + Z.of_nat (length l)) /\
      pd_bytes v' = Z.min 65535 (pd_bytes v + dropped_bytes l)) l w).
  - splits; try done. exists v. split; [done|]. unfold dropped_bytes. cbn. width. lia.
  - intros l' args w1 [l'' ->] (Hw1 & Ht1 & Hs1 & v1 & Hv1 & Hp1 & Hb1).
    apply Forall_app in Hl as [[_ Hl]%Forall_app _].
    apply list.Forall_singleton in Hl as (Hargs & Hh & Hrec).
    assert (Hrec1 : records_drop w1 args) by (unfold records_drop; by rewrite Hs1).
    destruct (run_safe cpu _ _ w1 (kfree_skb_safe cfg args Hargs) Ht1) as (_ & _ & _ & Ht2).
    pose proof (run_wf cpu (kfree_skb cfg args) w1 Hw1) as Hw2.
    assert (Hwp : wp cpu (kfree_skb cfg args) (λ r w', hooked cpu cfg (frame_id f) (frame_flags f)
      (ka_reason args) (ip_ethertype (f_ip f)) 0 (drop_recorded cpu f args) w1 w' r) w1)
      by by eapply wp_kfree_skb.
    apply wp_run in Hwp as (r & _ & Hhk).
    eapply hooked_present with (v := v1) in Hhk as (ts & _ & Hv2 & Hs2); [|done..| |done].
    2: by intros; eexists.
    split; [done|]. split; [done|]. split; [congruence|]. eexists. split; [exact Hv2|].
    destruct Hargs as ((_ & _ & _ & _ & _ & Hlen) & _).
    pose proof (typed_elem cpu aggregated_flows_pkt_drop _ _ _ Ht1 Hv1) as (_ & _ & Hb' & Hp' & _).
    unfold pkt_drop_update. cbn.
    rewrite !add_len_u16_min by (done || (width; lia)). rewrite length_app. cbn.
    unfold dropped_bytes in *. rewrite fmap_app, Zsum_app. cbn. width. lia.
Qed.
End DropsOk.
