(* ===== verification/Rtt.v ===== *)
(** * The round-trip-time hook ([bpf/rtt_tracker.h])

    When a TCP segment is received the hook records the smoothed round-trip time
    of the socket, in nanoseconds, under the flow of the segment; the recorded
    value is the largest one seen. *)
From S2P Require Import Prelude Machine Types Kernel Maps Safety PacketUtils Frames Metrics CoreFill.
From S2P Require Import Filter Hooks.

(** The field of [struct tcp_sock] that the hook reads. *)
Record tcp_sock := mk_tcp_sock { ts_srtt_us : Z }.

(** The writes to an existing element. *)
Definition rtt_update (rtt now : Z) (m : additional_metrics) : additional_metrics :=
  let m := m <| am_end_mono_time_ts := now |> in
  if am_flow_rtt m <? rtt then m <| am_flow_rtt := rtt |> else m.

Definition rtt_lookup_and_update_flow (id : flow_id) (rtt : Z) : prog Z :=
  lookup_and_update additional_flow_metrics id (rtt_update rtt).

Definition new_rtt (eth_protocol rtt now : Z) : additional_metrics :=
  zeroed
    <| am_start_mono_time_ts := now |>
    <| am_end_mono_time_ts := now |>
    <| am_eth_protocol := eth_protocol |>
    <| am_flow_rtt := rtt |>.

(** The kernel keeps eight times the smoothed time, in microseconds. *)
Definition rtt_ns (ts : tcp_sock) : Z := u64 (Z.shiftr (ts_srtt_us ts) 3 * 1000).

Section Rtt.
Context {H : Host} {K : Kernel}.
Implicit Types cfg : config.

Definition calculate_flow_rtt_tcp cfg (sk : tcp_sock) (skb : ksk_buff) : prog Z :=
  if enable_rtt cfg =? 0 then mret 0
  else
    let if_index := ks_skb_iif skb in
    if (if_index =? 0) || (if_index =? 1) then mret 0
    else
      let '(id, eth_protocol, _, protocol) := core_fill_in_l23 skb in
      if negb (protocol =? IPPROTO_TCP) then mret 0
      else
        let '(id, flags) := core_fill_in_tcp skb id 0 in
        let rtt := rtt_ns sk in
        '(skip, _) ← check_and_apply_filter cfg id flags 0 eth_protocol None 0;
        if skip : bool then mret 0
        else
          _ ← upsert additional_flow_metrics id (rtt_update rtt) (new_rtt eth_protocol rtt);
          mret 0.

(** The two entry points; [None] is a null pointer. *)
Definition tcp_rcv_fentry cfg (sk : option tcp_sock) (skb : option ksk_buff) : prog Z :=
  match sk, skb with
  | Some sk, Some skb =>
      do_sampling ← call do_sampling_get;
      if do_sampling =? 0 then mret 0 else calculate_flow_rtt_tcp cfg sk skb
  | _, _ => mret 0
  end.

Definition tcp_rcv_kprobe cfg (sk : option tcp_sock) (skb : option ksk_buff) : prog Z :=
  match sk, skb with
  | Some sk, Some skb =>
      do_sampling ← call do_sampling_get;
      if do_sampling =? 0 then mret 0 else calculate_flow_rtt_tcp cfg sk skb
  | _, _ => mret 0
  end.
End Rtt.

(** ** Safety *)

Section RttOk.
Context {H : Host} {K : Kernel} {KL : KernelLaws K}.
Implicit Types w : world.

Lemma rtt_ns_u64 ts : is_u64 (rtt_ns ts).
Proof. apply u64_range. Qed.
#[local] Hint Resolve rtt_ns_u64 : width.

Lemma rtt_update_ok rtt now m :
  is_u64 rtt -> is_u64 now -> wf_additional_metrics m -> wf_additional_metrics (rtt_update rtt now m).
Proof.
  intros ?? (? & ? & ? & ? & ?). unfold wf_additional_metrics, rtt_update. cbn.
  by case_match.
Qed.

Lemma new_rtt_ok eth_protocol rtt now :
  is_u16 eth_protocol -> is_u64 rtt -> is_u64 now -> wf_additional_metrics (new_rtt eth_protocol rtt now).
Proof. intros ???. unfold wf_additional_metrics. cbn. splits; try done; apply zero_s32. Qed.

Lemma calculate_flow_rtt_tcp_safe cfg sk skb :
  wf_ksk_buff skb -> safe (λ _, True) (calculate_flow_rtt_tcp cfg sk skb).
Proof.
  intros Hskb. unfold calculate_flow_rtt_tcp. case_match; [done|]. case_match; [done|].
  pose proof (core_fill_in_l23_ok skb Hskb) as Hl.
  destruct (core_fill_in_l23 skb) as [[[id e] family] protocol].
  destruct Hl as (Hid & He & Hp & _). case_match; [done|].
  destruct (core_fill_in_tcp skb id 0) as [id' flags].
  apply hooked_safe. apply safe_bind. eapply safe_mono; [apply upsert_safe|done].
  - intros. apply rtt_update_ok; auto with width.
  - intros. apply new_rtt_ok; auto with width.
Qed.

Lemma tcp_rcv_safe cfg sk skb :
  (∀ b, skb = Some b -> wf_ksk_buff b) ->
  safe (λ _, True) (tcp_rcv_fentry cfg sk skb) /\ safe (λ _, True) (tcp_rcv_kprobe cfg sk skb).
Proof.
  intros Hb. assert (Hf : safe (λ _, True) (tcp_rcv_fentry cfg sk skb)); [|done].
  unfold tcp_rcv_fentry. destruct sk as [sk|], skb as [skb|]; try done.
  apply safe_bind, safe_call; [done|]. intros s _. case_match; [done|].
  by apply calculate_flow_rtt_tcp_safe, Hb.
Qed.

(** ** What a segment does *)

Definition rtt_recorded cpu (f : frame) (rtt : Z) (w w' : world) (r : Z) : Prop :=
  r = 0 /\ ∃ r', upserted cpu additional_flow_metrics (frame_id f) (rtt_update rtt)
    (new_rtt (ip_ethertype (f_ip f)) rtt) w w' r'.

(** The hook records the time of the socket for this frame. *)
Definition records_rtt (w : world) cfg (skb : ksk_buff) (f : frame) : Prop :=
  w_do_sampling w <> 0 /\ enable_rtt cfg <> 0 /\ (ks_skb_iif skb ∉ [0; 1]) /\
  l4_proto (f_l4 f) = IPPROTO_TCP.

Lemma wp_tcp_rcv cpu cfg sk skb f (Q : Z → world → Prop) w :
  world_wf w -> typed w -> holds_frame skb f -> wf_frame f ->
  (records_rtt w cfg skb f -> ∀ r w',
     hooked cpu cfg (frame_id f) (frame_flags f) 0 (ip_ethertype (f_ip f)) 0
       (rtt_recorded cpu f (rtt_ns sk)) w w' r -> Q r w') ->
  (~ records_rtt w cfg skb f -> Q 0 w) ->
  wp cpu (tcp_rcv_fentry cfg (Some sk) (Some skb)) Q w.
Proof.
  intros Hw Ht Hh Hf HQ HQ'. unfold records_rtt in *.
  apply wp_bind, wp_call. cbn [helper_sem fst snd].
  destruct (w_do_sampling w =? 0) eqn:Es; bool_to_prop; [by apply wp_ret, HQ'; intros (? & _)|].
  unfold calculate_flow_rtt_tcp.
  destruct (enable_rtt cfg =? 0) eqn:Er; bool_to_prop; [by apply wp_ret, HQ'; intros (_ & ? & _)|].
  destruct ((ks_skb_iif skb =? 0) || (ks_skb_iif skb =? 1)) eqn:Ei.
  { apply wp_ret, HQ'. intros (_ & _ & Hi & _). apply Hi.
    rewrite orb_true_iff, !Z.eqb_eq in Ei. by rewrite elem_of_cons, list_elem_of_singleton. }
  rewrite orb_false_iff, !Z.eqb_neq in Ei.
  destruct (core_fill_frame _ _ Hh Hf) as (id & -> & E4). cbv beta iota.
  destruct (l4_proto (f_l4 f) =? IPPROTO_TCP) eqn:Ep; cbn [negb].
  2: { bool_to_prop. apply wp_ret, HQ'. by intros (_ & _ & _ & ?). }
  unfold core_fill_in_l4 in E4. rewrite Ep in E4.
  assert (Et : core_fill_in_tcp skb id 0 = (frame_id f, frame_flags f)) by congruence.
  rewrite Et. clear E4 Et. bool_to_prop.
  apply wp_hooked with (rtt_recorded cpu f (rtt_ns sk)); [done..|apply (frame_id_ok _ _ Hh Hf)| |].
  - intros w1 Hw1 Ht1. apply wp_bind, wp_upsert; [done..|]. intros r w' Hu. apply wp_ret.
    split; [done|]. by exists r.
  - apply HQ. splits; try done. rewrite elem_of_cons, list_elem_of_singleton. tauto.
Qed.

(** The sequence of the times recorded for a flow: its maximum stays. *)
Lemma rtt_update_max rtt now m :
  am_flow_rtt (rtt_update rtt now m) = Z.max (am_flow_rtt m) rtt.
Proof. unfold rtt_update. cbn. case_match; bool_to_prop; cbn; lia. Qed.

Lemma rtts_maximum cpu cfg f (l : list (tcp_sock * ksk_buff)) w v :
  world_wf w -> typed w -> wf_frame f -> is_filter_enabled cfg = false ->
  Forall (λ x, holds_frame x.2 f /\ records_rtt w cfg (x.2) f) l ->
  elem cpu additional_flow_metrics w (frame_id f) = Some v ->
  ∃ v', elem cpu additional_flow_metrics
      (run_all cpu ((λ x, tcp_rcv_fentry cfg (Some x.1) (Some x.2)) <$> l) w) (frame_id f)
      = Some v' /\
    am_flow_rtt v' = foldl Z.max (am_flow_rtt v) (rtt_ns ∘ fst <$> l).
Proof.
  intros Hw Ht Hf Hen Hl Hv. set (p x := tcp_rcv_fentry cfg (Some x.1) (Some x.2)).
  assert (Hinv : (λ (l : list (tcp_sock * ksk_buff)) w', world_wf w' /\ typed w' /\
    w_do_sampling w' = w_do_sampling w /\ ∃ v',
      elem cpu additional_flow_metrics w' (frame_id f) = Some v' /\
      am_flow_rtt v' = foldl Z.max (am_flow_rtt v) (rtt_ns ∘ fst <$> l))
    l (run_all cpu (p <$> l) w)); [|by apply Hinv].
  apply run_all_ind; [by splits; eauto|].
  intros l' [sk skb] w1 [l'' ->] (Hw1 & Ht1 & Hs1 & v1 & Hv1 & Hr1).
  apply Forall_app in Hl as [[_ Hl]%Forall_app _].
  apply list.Forall_singleton in Hl as (Hh & Hrec). cbn in Hh, Hrec.
  assert (Hrec1 : records_rtt w1 cfg skb f) by (unfold records_rtt; by rewrite Hs1).
  destruct (run_safe cpu (λ _, True) (p (sk, skb)) w1) as (_ & _ & _ & Ht2); [|done|].
  { apply tcp_rcv_safe. intros b [= <-]. apply Hh. }
  pose proof (run_wf cpu (p (sk, skb)) w1 Hw1) as Hw2.
  assert (Hwp : wp cpu (p (sk, skb)) (λ r w', hooked cpu cfg (frame_id f) (frame_flags f) 0
    (ip_ethertype (f_ip f)) 0 (rtt_recorded cpu f (rtt_ns sk)) w1 w' r) w1)
    by by eapply wp_tcp_rcv.
  apply wp_run in Hwp as (r & _ & Hhk).
  eapply hooked_present with (v := v1) in Hhk as (ts & _ & Hv2 & Hs2); [|done..| |done].
  2: by intros ??? [_ ?].
  splits; [done..|congruence|]. eexists. split; [exact Hv2|].
  rewrite rtt_update_max, Hr1, fmap_app, foldl_app. done.
Qed.
End RttOk.
