(* ===== verification/NetEvents.v ===== *)
(** * The network-events hook ([bpf/network_events_monitoring.h])

    The kernel samples packets together with a cookie that names the policy
    that applied to them.  The hook keeps, per flow and CPU, the last
    [MAX_NETWORK_EVENTS] cookies with saturating packet and byte counters. *)
From S2P Require Import Prelude Machine Types Kernel Maps Safety PacketUtils Frames CoreFill.
From S2P Require Import Filter Hooks.

(** What the hook reads from [struct psample_metadata]: the length of the
    cookie, and the memory at the cookie pointer, [None] for a null pointer. *)
Record psample_metadata := mk_psample_metadata {
  md_user_cookie_len : Z;
  md_user_cookie : option (list Z);
}.

(** ** Operations *)

(** The index of the cookie, or -1: the loop from index [i]. *)
Fixpoint md_exists_from (n : nat) (i : nat) (network_events : list (list Z)) (md : list Z) : Z :=
  match n with
  | O => -1
  | S n =>
      if decide (default [] (network_events !! i) = md) then Z.of_nat i
      else md_exists_from n (S i) network_events md
  end.
Definition md_already_exists (network_events : list (list Z)) (md : list Z) : Z :=
  md_exists_from (Z.to_nat MAX_NETWORK_EVENTS) 0 network_events md.

(** The outcome of a write: recorded, recorded with the ring wrapped, or a
    cookie that does not fit. *)
Definition EVENT_RECORDED : Z := 0.
Definition EVENT_OVERFLOW : Z := 1.
Definition EVENT_TOO_BIG : Z := 2.

(** The writes to an existing element. *)
Definition event_update (md_len : Z) (cookie : list Z) (len now : Z) (m : network_events_metrics)
    : network_events_metrics * Z :=
  let idx := ne_network_events_idx m in
  let m := m <| ne_end_mono_time_ts := now |> in
  if (idx <? MAX_NETWORK_EVENTS) && (md_len <=? MAX_EVENT_MD) then
    let exist := md_already_exists (ne_network_events m) cookie in
    if exist <? 0 then
      let i := Z.to_nat idx in
      let m := m
        <| ne_network_events ::= <[i := cookie]> |>
        <| ne_packets ::= <[i := 1]> |>
        <| ne_bytes ::= <[i := add_len_u16 0 len]> |>
        <| ne_network_events_idx := u8 ((idx + 1) mod MAX_NETWORK_EVENTS) |> in
      (m, if ne_network_events_idx m =? 0 then EVENT_OVERFLOW else EVENT_RECORDED)
    else
      let i := Z.to_nat exist in
      (m <| ne_packets ::= alter (λ n, add_len_u16 n 1) i |>
         <| ne_bytes ::= alter (λ n, add_len_u16 n len) i |>, EVENT_RECORDED)
  else (m, EVENT_TOO_BIG).

Section Events.
Context {H : Host} {K : Kernel}.
Implicit Types cfg : config.

(** The local buffer of the cookie is not initialised: [stale] is what the
    stack held; the read replaces its first [md_len] bytes. *)
Definition read_cookie (md_len : Z) (user_cookie stale : list Z) : list Z :=
  probe_bytes user_cookie 0 md_len ++ drop (Z.to_nat md_len) stale.

Definition lookup_and_update_existing_flow_network_events (id : flow_id) (md_len : Z)
    (user_cookie : list Z) (len : Z) (stale : list Z) : prog Z :=
  let cookie := read_cookie md_len user_cookie stale in
  extra_metrics ← call (bpf_map_lookup_elem aggregated_flows_network_events id);
  match extra_metrics with
  | Some p =>
      now ← call bpf_ktime_get_ns;
      r ← call (elem_write aggregated_flows_network_events p (event_update md_len cookie len now));
      if r =? EVENT_TOO_BIG then
        _ ← increase_counter (counter_index NETWORK_EVENTS_COOKIE_TOO_BIG);
        mret (-1)
      else if r =? EVENT_OVERFLOW then
        _ ← increase_counter (counter_index NETWORK_EVENTS_OVERFLOW);
        mret 0
      else mret 0
  | None => mret (-1)
  end.

Definition new_event (eth_protocol md_len : Z) (user_cookie : list Z) (len now : Z)
    : network_events_metrics :=
  zeroed
    <| ne_start_mono_time_ts := now |>
    <| ne_end_mono_time_ts := now |>
    <| ne_eth_protocol := eth_protocol |>
    <| ne_network_events ::=
         <[0%nat := probe_bytes user_cookie 0 md_len ++ zero_bytes (8 - Z.to_nat md_len)]> |>
    <| ne_packets ::= <[0%nat := 1]> |>
    <| ne_bytes ::= <[0%nat := add_len_u16 0 len]> |>
    <| ne_network_events_idx := 1 |>.

(** The recording, behind the filter.  [stale] and [stale'] are the stack
    contents for the two lookups. *)
Definition record_event (id : flow_id) (eth_protocol md_len : Z) (user_cookie : list Z) (len : Z)
    (stale stale' : list Z) : prog Z :=
  ret ← lookup_and_update_existing_flow_network_events id md_len user_cookie len stale;
  if ret =? 0 then mret ret
  else
    current_time ← call bpf_ktime_get_ns;
    ret ← call (bpf_map_update_elem aggregated_flows_network_events id
                  (new_event eth_protocol md_len user_cookie len current_time) BPF_NOEXIST);
    if negb (ret =? 0) then
      if ret =? - EEXIST then
        lookup_and_update_existing_flow_network_events id md_len user_cookie len stale'
      else mret ret
    else mret ret.

Definition trace_network_events cfg (skb : ksk_buff) (md : psample_metadata)
    (stale stale' : list Z) : prog Z :=
  let md_len := u8 (md_user_cookie_len md) in
  match md_user_cookie md with
  | Some user_cookie =>
      if (md_len =? 0) || (MAX_EVENT_MD <? md_len) then mret (-1)
      else
        let '(id, flags, eth_protocol, _) := core_flow skb in
        '(skip, _) ← check_and_apply_filter cfg id flags 0 eth_protocol None 0;
        if skip : bool then mret 0
        else record_event id eth_protocol md_len user_cookie (ks_len skb) stale stale'
  | None => mret (-1)
  end.

(** [group] is the number of the sample group; [None] is a null pointer. *)
Definition network_events_monitoring cfg (group : option Z) (skb : option ksk_buff)
    (md : option psample_metadata) (stale stale' : list Z) : prog Z :=
  if enable_network_events_monitoring cfg =? 0 then mret 0
  else
    do_sampling ← call do_sampling_get;
    if do_sampling =? 0 then mret 0
    else
      match skb, md, group with
      | Some skb, Some md, Some group_id =>
          if negb (group_id =? network_events_monitoring_groupid cfg) then
            _ ← increase_counter (counter_index NETWORK_EVENTS_ERR_GROUPID_MISMATCH);
            mret 0
          else
            ret ← trace_network_events cfg skb md stale stale';
            if negb (ret =? 0) then
              _ ← increase_counter (counter_index NETWORK_EVENTS_ERR_UPDATE_MAP_FLOWS);
              mret 0
            else
              _ ← increase_counter (counter_index NETWORK_EVENTS_GOOD);
              mret 0
      | _, _, _ =>
          _ ← increase_counter (counter_index NETWORK_EVENTS_ERR);
          mret 0
      end.
End Events.

(** ** The ring of cookies *)

Lemma md_exists_from_spec n i l md :
  let r := md_exists_from n i l md in
  (r = -1 /\ ∀ j, (i <= j < i + n)%nat -> default [] (l !! j) <> md) \/
  (∃ j, r = Z.of_nat j /\ (i <= j < i + n)%nat /\ default [] (l !! j) = md /\
     ∀ j', (i <= j' < j)%nat -> default [] (l !! j') <> md).
Proof.
  revert i. induction n as [|n IH]; intros i; cbn; [left; split; [done|lia]|].
  case_decide as Hd.
  - right. exists i. splits; [done|lia|lia|done|lia].
  - destruct (IH (S i)) as [[-> Hn]|(j & -> & Hj & He & Hn)].
    + left. split; [done|]. intros j Hj. destruct (decide (j = i)) as [->|]; [done|]. apply Hn. lia.
    + right. exists j. splits; [done|lia|lia|done|].
      intros j' Hj'. destruct (decide (j' = i)) as [->|]; [done|]. apply Hn. lia.
Qed.

(** The position of a cookie, and the counters it has. *)
Definition slot_of (m : network_events_metrics) (cookie : list Z) : option nat :=
  list_find (λ c, c = cookie) (ne_network_events m) ≫= λ x, Some x.1.

Definition event_counts (m : network_events_metrics) (cookie : list Z) : option (Z * Z) :=
  i ← slot_of m cookie;
  p ← ne_packets m !! i;
  b ← ne_bytes m !! i;
  Some (p, b).

Lemma slot_of_Some m c i :
  slot_of m c = Some i <->
  ne_network_events m !! i = Some c /\ ∀ j, (j < i)%nat -> ne_network_events m !! j <> Some c.
Proof.
  unfold slot_of. split.
  - intros ([i' c'] & Hf & [= <-])%bind_Some.
    apply list_find_Some in Hf as (Hi & -> & Hn). split; [done|].
    intros j Hj He. by eapply Hn.
  - intros [Hi Hn]. assert (Hf : list_find (λ c', c' = c) (ne_network_events m) = Some (i, c)).
    { apply list_find_Some. split; [done|]. split; [done|]. intros j y Hy Hj ->. by eapply Hn. }
    by rewrite Hf.
Qed.

Lemma slot_of_None m c : slot_of m c = None <-> c ∉ ne_network_events m.
Proof.
  unfold slot_of. destruct (list_find _ _) as [[i c']|] eqn:E; cbn.
  - apply list_find_Some in E as (Hi & -> & _). split; [done|]. intros Hn. exfalso.
    by apply Hn, list_elem_of_lookup_2 with i.
  - apply list_find_None in E. split; [|done]. intros _ Hin.
    rewrite list.Forall_forall in E. by apply (E c).
Qed.

Lemma md_already_exists_slot m cookie :
  wf_network_events_metrics m -> length cookie = 8%nat ->
  md_already_exists (ne_network_events m) cookie = default (-1) (Z.of_nat <$> slot_of m cookie).
Proof.
  intros (_ & _ & (Hl & _) & _) Hc. unfold md_already_exists.
  change (Z.to_nat MAX_NETWORK_EVENTS) with 4%nat.
  assert (Hne : cookie <> []) by (by intros ->).
  assert (Hd : ∀ j c, default [] (ne_network_events m !! j) = c -> c <> [] ->
    ne_network_events m !! j = Some c).
  { intros j c. destruct (_ !! j); cbn; [by intros ->|by intros <-]. }
  destruct (md_exists_from_spec 4 0 (ne_network_events m) cookie)
    as [[-> Hn]|(j & -> & Hj & He & Hn)].
  - rewrite (proj2 (slot_of_None m cookie)); [done|].
    intros (j & Hj)%list_elem_of_lookup. pose proof (lookup_lt_Some _ _ _ Hj).
    apply (Hn j); [lia|]. by rewrite Hj.
  - rewrite (proj2 (slot_of_Some m cookie j)); [done|]. split; [by apply Hd|].
    intros j' Hj' E. apply (Hn j'); [lia|]. by rewrite E.
Qed.

Lemma slot_of_ext m m' c :
  (∀ j, ne_network_events m' !! j = Some c <-> ne_network_events m !! j = Some c) ->
  slot_of m' c = slot_of m c.
Proof.
  intros He. destruct (slot_of m c) as [i|] eqn:E.
  - apply slot_of_Some in E as [Hi Hn]. apply slot_of_Some. split; [by apply He|].
    intros j Hj Hc. by apply (Hn j), He.
  - apply slot_of_None in E. apply slot_of_None. intros (j & Hj)%list_elem_of_lookup.
    apply E, list_elem_of_lookup_2 with j. by apply He.
Qed.

Lemma event_counts_at m c i p b :
  slot_of m c = Some i -> ne_packets m !! i = Some p -> ne_bytes m !! i = Some b ->
  event_counts m c = Some (p, b).
Proof. intros Hi Hp Hb. unfold event_counts. by rewrite Hi; cbn; rewrite Hp; cbn; rewrite Hb. Qed.

(** The counters of another cookie only depend on its slot. *)
Lemma event_counts_ext m m' c :
  (∀ j, ne_network_events m' !! j = Some c <-> ne_network_events m !! j = Some c) ->
  (∀ j, ne_network_events m !! j = Some c ->
     ne_packets m' !! j = ne_packets m !! j /\ ne_bytes m' !! j = ne_bytes m !! j) ->
  event_counts m' c = event_counts m c.
Proof.
  intros He Hc. unfold event_counts. rewrite (slot_of_ext m m') by done.
  destruct (slot_of m c) as [j|] eqn:E; [|done]. cbn.
  apply slot_of_Some in E as [Hj _]. by destruct (Hc j Hj) as [-> ->].
Qed.

(** The first event of a flow: its cookie, padded with zeros, is counted once, and
    no other one, but the unused slots hold an all-zero cookie. *)
Lemma new_event_counts {K : Kernel} eth_protocol md_len mem len now c :
  0 <= len ->
  let m := new_event eth_protocol md_len mem len now in
  event_counts m (read_cookie md_len mem (zero_bytes 8)) = Some (1, Z.min 65535 len) /\
  (c <> read_cookie md_len mem (zero_bytes 8) -> c <> zero_bytes 8 -> event_counts m c = None).
Proof.
  intros Hlen. cbv zeta. set (cookie := read_cookie md_len mem (zero_bytes 8)).
  assert (Hm : ne_network_events (new_event eth_protocol md_len mem len now)
    = [cookie; zero_bytes 8; zero_bytes 8; zero_bytes 8]).
  { unfold cookie, read_cookie, zero_bytes. by rewrite drop_replicate. }
  split.
  - change len with (0 + len) at 2. rewrite <- (add_len_u16_min 0) by (done || (width; lia)).
    apply event_counts_at with 0%nat; [|done..]. apply slot_of_Some. rewrite Hm. split; [done|lia].
  - intros Hc Hz. unfold event_counts. rewrite (proj2 (slot_of_None _ c)); [done|].
    rewrite Hm, !elem_of_cons, elem_of_nil. tauto.
Qed.

(** The counters after one more packet of [len] bytes. *)
Definition add_packet (len : Z) (c : Z * Z) : Z * Z :=
  (Z.min 65535 (c.1 + 1), Z.min 65535 (c.2 + len)).

Lemma event_update_ok md_len cookie len now m :
  wf_network_events_metrics m -> is_bytes 8 cookie -> is_u64 now ->
  wf_network_events_metrics (event_update md_len cookie len now m).1.
Proof.
  intros (Hs & He & [Hel Hef] & [Hbl Hbf] & [Hpl Hpf] & Hp & Hi) Hc Hn.
  assert (H1 : is_u16 1) by (width; lia). pose proof (add_len_u16_range 0 len).
  unfold event_update. case_match; cbn [fst]; [|unfold wf_network_events_metrics; cbn; splits; done || lia].
  cbv zeta. case_match; unfold wf_network_events_metrics; cbn -[u8 Z.modulo]; splits;
    rewrite ?length_insert, ?length_alter; try (done || lia);
    try (apply Forall_insert; done);
    try (apply Forall_alter; [done|]; intros; apply add_len_u16_range).
  - pose proof (u8_range ((ne_network_events_idx m + 1) mod MAX_NETWORK_EVENTS)). width. lia.
  - pose proof (Z.mod_pos_bound (ne_network_events_idx m + 1) MAX_NETWORK_EVENTS ltac:(done)).
    rewrite u8_small; [lia|]. unfold MAX_NETWORK_EVENTS in *. width. lia.
Qed.

Lemma event_update_counts md_len cookie len now m :
  wf_network_events_metrics m -> is_bytes 8 cookie -> md_len <= MAX_EVENT_MD -> 0 <= len ->
  let '(m', r) := event_update md_len cookie len now m in
  r = (if decide (slot_of m cookie = None /\ ne_network_events_idx m = MAX_NETWORK_EVENTS - 1)
       then EVENT_OVERFLOW else EVENT_RECORDED) /\
  event_counts m' cookie
    = Some (default (1, Z.min 65535 len) (add_packet len <$> event_counts m cookie)) /\
  (∀ c, c <> cookie ->
     (slot_of m cookie = None ->
      ne_network_events m !! Z.to_nat (ne_network_events_idx m) <> Some c) ->
     event_counts m' c = event_counts m c).
Proof.
  intros Hw [Hcl _] Hmd Hlen. pose proof Hw as (_ & _ & [Hel _] & [Hbl Hbf] & [Hpl Hpf] & _ & Hi).
  unfold event_update. cbn [ne_network_events_idx ne_network_events set].
  rewrite (proj2 (Z.ltb_lt (ne_network_events_idx m) _)), (proj2 (Z.leb_le md_len _)) by (done || lia).
  cbn [andb]. rewrite md_already_exists_slot by done.
  destruct (slot_of m cookie) as [i|] eqn:Es; cbn [default fmap option_fmap option_map id].
  - rewrite (proj2 (Z.ltb_ge (Z.of_nat i) 0)) by lia. rewrite Nat2Z.id, decide_False by (intros [? _]; done).
    split; [done|]. pose proof Es as [Hei _]%slot_of_Some.
    assert (Hlt : (i < 4)%nat) by (rewrite <- Hel; by eapply lookup_lt_Some).
    destruct (lookup_lt_is_Some_2 (ne_packets m) i) as [p Hp]; [lia|].
    destruct (lookup_lt_is_Some_2 (ne_bytes m) i) as [b Hb]; [lia|]. split.
    + rewrite (event_counts_at m cookie i p b) by done. cbn [fmap option_fmap option_map default].
      unfold add_packet. cbn [fst snd].
      pose proof (list.Forall_lookup_1 _ _ _ _ Hpf Hp). pose proof (list.Forall_lookup_1 _ _ _ _ Hbf Hb).
      rewrite <- (add_len_u16_min p), <- (add_len_u16_min b) by done.
      apply event_counts_at with i; [done|cbn; by rewrite list_lookup_alter_eq, ?Hp, ?Hb..].
    + intros c Hne _. apply event_counts_ext; [done|]. intros j Hj. cbn.
      assert (j <> i) by (intros ->; congruence). by rewrite !list_lookup_alter_ne.
  - change (-1 <? 0) with true. cbv iota. set (i := Z.to_nat (ne_network_events_idx m)) in *.
    assert (Hii : (i < 4)%nat) by (unfold i, MAX_NETWORK_EVENTS in *; lia).
    assert (Hidx : u8 ((ne_network_events_idx m + 1) mod MAX_NETWORK_EVENTS)
      = (ne_network_events_idx m + 1) mod MAX_NETWORK_EVENTS).
    { apply u8_small. pose proof (Z.mod_pos_bound (ne_network_events_idx m + 1)
        MAX_NETWORK_EVENTS ltac:(done)). unfold MAX_NETWORK_EVENTS in *. width. lia. }
    split; [|split].
    + cbn -[u8 Z.modulo]. rewrite Hidx. unfold MAX_NETWORK_EVENTS in *.
      destruct (decide (ne_network_events_idx m = 3)) as [->|Hn].
      * by rewrite decide_True.
      * rewrite Z.mod_small, (proj2 (Z.eqb_neq _ 0)), decide_False by lia. done.
    + assert (Hn : event_counts m cookie = None) by (unfold event_counts; by rewrite Es).
      rewrite Hn. cbn [fmap option_fmap option_map default].
      change len with (0 + len) at 2.
      rewrite <- (add_len_u16_min 0) by (done || (width; lia)).
      apply event_counts_at with i; [|cbn; by rewrite list_lookup_insert_eq by lia..].
      apply slot_of_Some. cbn. split; [by rewrite list_lookup_insert_eq by lia|].
      intros j Hj. rewrite list_lookup_insert_ne by lia. intros E.
      apply slot_of_None in Es. by apply Es, list_elem_of_lookup_2 with j.
    + intros c Hne Hi'. specialize (Hi' eq_refl). apply event_counts_ext; cbn.
      * intros j. destruct (decide (j = i)) as [->|].
        { rewrite list_lookup_insert_eq by lia. split; [by intros [= ->]|done]. }
        by rewrite list_lookup_insert_ne.
      * intros j Hj. assert (j <> i) by (by intros ->). by rewrite !list_lookup_insert_ne.
Qed.

(** ** Safety *)

Definition wf_psample (md : psample_metadata) : Prop :=
  ∀ mem, md_user_cookie md = Some mem -> Forall is_u8 mem.

Section EventsOk.
Context {H : Host} {K : Kernel} {KL : KernelLaws K}.
Implicit Types w : world.

Lemma read_cookie_ok md_len mem stale :
  0 < md_len <= MAX_EVENT_MD -> Forall is_u8 mem -> is_bytes 8 stale ->
  is_bytes 8 (read_cookie md_len mem stale).
Proof.
  intros Hm Hmem [Hl Hu]. unfold read_cookie, MAX_EVENT_MD in *.
  destruct (probe_bytes_ok mem 0 md_len) as [Hpl Hpu]; [done|lia|lia|]. split.
  - rewrite length_app, length_drop, Hpl. lia.
  - apply Forall_app. split; [done|]. by apply Forall_drop.
Qed.

Lemma new_event_ok eth_protocol md_len mem len now :
  0 < md_len <= MAX_EVENT_MD -> Forall is_u8 mem -> is_u16 eth_protocol -> is_u64 now ->
  wf_network_events_metrics (new_event eth_protocol md_len mem len now).
Proof.
  intros Hm Hmem He Hn. pose proof (add_len_u16_range 0 len).
  assert (H1 : is_u16 1) by (width; lia).
  assert (H8 : ∀ n, Forall is_u16 (replicate n 0)) by (intros; by apply Forall_replicate, zero_u16).
  assert (Hc : is_bytes 8 (probe_bytes mem 0 md_len ++ zero_bytes (8 - Z.to_nat md_len))).
  { unfold MAX_EVENT_MD in *. destruct (probe_bytes_ok mem 0 md_len) as [Hpl Hpu]; [done|lia|lia|].
    destruct (zero_bytes_ok (8 - Z.to_nat md_len)) as [Hzl Hzu]. split.
    - rewrite length_app, Hpl, Hzl. lia.
    - by apply Forall_app. }
  unfold wf_network_events_metrics. cbn. splits; try (done || lia).
  - constructor; [exact Hc|]. apply (Forall_replicate (is_bytes 8) 3), zero_bytes_ok.
  - constructor; [done|apply (H8 3%nat)].
  - constructor; [done|apply (H8 3%nat)].
Qed.

Lemma lookup_event_safe id md_len mem len stale :
  0 < md_len <= MAX_EVENT_MD -> Forall is_u8 mem -> is_bytes 8 stale ->
  safe (λ r, r = 0 \/ r = -1)
    (lookup_and_update_existing_flow_network_events id md_len mem len stale).
Proof.
  intros Hm Hmem Hst. apply safe_bind, safe_call; [done|]. intros [p|] _; [|by right].
  apply safe_bind, safe_call; [done|]. intros now Hn.
  apply safe_bind, safe_call.
  { intros v Hv. apply event_update_ok; [done| |done]. by apply read_cookie_ok. }
  intros r _. repeat case_match.
  - apply safe_bind. eapply safe_mono; [apply increase_counter_safe|]. by right.
  - apply safe_bind. eapply safe_mono; [apply increase_counter_safe|]. by left.
  - by left.
Qed.

Lemma record_event_safe id eth_protocol md_len mem len stale stale' :
  0 < md_len <= MAX_EVENT_MD -> Forall is_u8 mem -> is_u16 eth_protocol ->
  is_bytes 8 stale -> is_bytes 8 stale' ->
  safe (λ _, True) (record_event id eth_protocol md_len mem len stale stale').
Proof.
  intros. apply safe_bind. eapply safe_mono; [by apply lookup_event_safe|]. intros r _.
  case_match; [done|]. apply safe_bind, safe_call; [done|]. intros now Hn.
  apply safe_bind, safe_call; [by apply new_event_ok|]. intros r' _.
  repeat case_match; try done. eapply safe_mono; [by apply lookup_event_safe|done].
Qed.

Lemma count_and_return_safe c (r : Z) :
  safe (λ _, True) (_ ← increase_counter (counter_index c); mret r).
Proof. apply safe_bind. eapply safe_mono; [apply increase_counter_safe|done]. Qed.

Lemma network_events_safe cfg group skb md stale stale' :
  (∀ b, skb = Some b -> wf_ksk_buff b) -> (∀ d, md = Some d -> wf_psample d) ->
  is_bytes 8 stale -> is_bytes 8 stale' ->
  safe (λ _, True) (network_events_monitoring cfg group skb md stale stale').
Proof.
  intros Hb Hd Hs Hs'. unfold network_events_monitoring. case_match; [done|].
  apply safe_bind, safe_call; [done|]. intros s _. case_match; [done|].
  destruct skb as [skb|], md as [md|], group as [group|];
    try apply count_and_return_safe.
  case_match; [apply count_and_return_safe|]. apply safe_bind, safe_mono with (λ _, True).
  2: { intros r _. case_match; apply count_and_return_safe. }
  unfold trace_network_events. destruct (md_user_cookie md) as [mem|] eqn:Em; [|done].
  case_match eqn:El; [done|]. rewrite orb_false_iff, Z.eqb_neq, Z.ltb_ge in El.
  pose proof (u8_range (md_user_cookie_len md)) as Hu.
  pose proof (core_flow_ok skb (Hb _ eq_refl)) as Hc.
  destruct (core_flow skb) as [[[id flags] e] family]. destruct Hc as (Hid & Hfl & He).
  apply hooked_safe, record_event_safe; [|by apply (Hd md)|done..].
  unfold is_u8 in Hu. lia.
Qed.

(** ** What the hook does *)

(** The outcome of a recording: another packet of a flow with events, the first
    event of a flow, or the refusal of a new element by the map. *)
Inductive event_logged cpu id (eth_protocol md_len : Z) (mem : list Z) (len : Z) (stale : list Z)
    w w' : Z → Prop :=
  | EventUpdated v ts w1 :
      elem cpu aggregated_flows_network_events w id = Some v ->
      clock w <= ts <= clock w' -> is_u64 ts ->
      updated cpu aggregated_flows_network_events id
        (event_update md_len (read_cookie md_len mem stale) len ts v).1 w w1 ->
      (if (event_update md_len (read_cookie md_len mem stale) len ts v).2 =? EVENT_OVERFLOW
       then counted cpu NETWORK_EVENTS_OVERFLOW w1 w' else w' = w1) ->
      event_logged cpu id eth_protocol md_len mem len stale w w' 0
  | EventCreated ts :
      elem cpu aggregated_flows_network_events w id = None ->
      clock w <= ts <= clock w' -> is_u64 ts ->
      updated cpu aggregated_flows_network_events id (new_event eth_protocol md_len mem len ts)
        w w' ->
      event_logged cpu id eth_protocol md_len mem len stale w w' 0
  | EventRefused e :
      elem cpu aggregated_flows_network_events w id = None -> unchanged w w' ->
      map_refuses aggregated_flows_network_events id e w w' ->
      event_logged cpu id eth_protocol md_len mem len stale w w' e.

Lemma wp_record_event cpu id eth_protocol md_len mem len stale stale' (Q : Z → world → Prop) w :
  world_wf w -> typed w -> 0 < md_len <= MAX_EVENT_MD -> Forall is_u8 mem -> is_bytes 8 stale ->
  0 <= len ->
  (∀ r w', event_logged cpu id eth_protocol md_len mem len stale w w' r -> Q r w') ->
  wp cpu (record_event id eth_protocol md_len mem len stale stale') Q w.
Proof.
  intros Hw Ht Hm Hmem Hst Hlen HQ.
  apply wp_bind, wp_bind, wp_lookup; [done|intros Hn|intros p v Hv Hat].
  - apply wp_ret. change (-1 =? 0) with false. cbv iota.
    apply wp_bind, wp_ktime. intros ts w1 Hu Hts Hc.
    assert (Hw1 : world_wf w1) by by eapply unchanged_wf.
    apply wp_bind, wp_update_new; [done|done|by rewrite (unchanged_elem w)|..].
    + intros w' Hup. change (negb (0 =? 0)) with false. cbv iota.
      apply wp_ret, HQ, (EventCreated _ _ _ _ _ _ _ _ _ ts); [done| |done|].
      * pose proof (upd_clock _ _ _ _ _ _ Hup). lia.
      * by eapply Metrics.unchanged_updated.
    + intros e w' Hu' He. destruct (map_refuses_errno _ _ _ _ _ He) as [? Hne].
      rewrite (proj2 (Z.eqb_neq e 0)) by lia. cbn [negb]. rewrite (proj2 (Z.eqb_neq e _)) by done.
      apply wp_ret, HQ, EventRefused; [done|by eapply unchanged_trans|by eapply unchanged_refuses].
  - apply wp_bind, wp_ktime. intros ts w1 Hu Hts Hc.
    assert (Hw1 : world_wf w1) by by eapply unchanged_wf.
    apply wp_bind, (wp_write _ aggregated_flows_network_events id _ v);
      [done|done|by eapply unchanged_elem_at|].
    intros w2 Hup _. pose proof (upd_wf _ _ _ _ _ _ Hup) as Hw2.
    pose proof (typed_elem cpu aggregated_flows_network_events _ _ _ Ht Hv) as Hwv.
    pose proof (read_cookie_ok md_len mem stale Hm Hmem Hst) as Hck.
    pose proof (event_update_ok md_len _ len ts v Hwv Hck Hts) as Hok.
    pose proof (event_update_counts md_len _ len ts v Hwv Hck ltac:(lia) Hlen) as Hcnt.
    set (c := read_cookie md_len mem stale) in *.
    destruct (event_update md_len c len ts v) as [v' r] eqn:Ev. destruct Hcnt as (Hr & _).
    cbn [fst snd] in *.
    assert (Hend : ∀ w', clock w2 <= clock w' ->
      (if r =? EVENT_OVERFLOW then counted cpu NETWORK_EVENTS_OVERFLOW w2 w' else w' = w2) ->
      Q 0 w').
    { intros w' Hcl Hif. eapply HQ, (EventUpdated _ _ _ _ _ _ _ _ _ v ts w2); [done| |done|..].
      - pose proof (upd_clock _ _ _ _ _ _ Hup). lia.
      - fold c. rewrite Ev. by eapply Metrics.unchanged_updated.
      - fold c. by rewrite Ev. }
    destruct (decide _) in Hr; subst r.
    + change (EVENT_OVERFLOW =? EVENT_TOO_BIG) with false.
      change (EVENT_OVERFLOW =? EVENT_OVERFLOW) with true in *. cbv iota in *.
      apply wp_bind, wp_increase_counter; [done|]. intros w' Hcd. apply wp_ret, wp_ret, Hend; [|done].
      destruct Hcd as (? & _ & Hcd). apply Hcd.
    + by apply wp_ret, Hend.
Qed.
(** The hook records an event of this packet: the flows are sampled, the group
    is the configured one and the cookie fits. *)
Record records_event (w : world) cfg (group : Z) (md : psample_metadata) (mem : list Z) : Prop := {
  re_enabled : enable_network_events_monitoring cfg <> 0;
  re_sampling : w_do_sampling w <> 0;
  re_group : group = network_events_monitoring_groupid cfg;
  re_cookie : md_user_cookie md = Some mem;
  re_len : 0 < u8 (md_user_cookie_len md) <= MAX_EVENT_MD;
}.

Lemma wp_network_events cpu cfg group skb md mem stale stale' f (Q : Z → world → Prop) w :
  world_wf w -> typed w -> holds_frame skb f -> wf_frame f -> Forall is_u8 mem ->
  is_bytes 8 stale -> records_event w cfg group md mem ->
  (∀ w1 r w',
     hooked cpu cfg (frame_id f) (frame_flags f) 0 (ip_ethertype (f_ip f)) 0
       (event_logged cpu (frame_id f) (ip_ethertype (f_ip f)) (u8 (md_user_cookie_len md)) mem
          (ks_len skb) stale) w w1 r ->
     counted cpu (if r =? 0 then NETWORK_EVENTS_GOOD else NETWORK_EVENTS_ERR_UPDATE_MAP_FLOWS)
       w1 w' ->
     Q 0 w') ->
  wp cpu (network_events_monitoring cfg (Some group) (Some skb) (Some md) stale stale') Q w.
Proof.
  intros Hw Ht Hh Hf Hmem Hst [He Hs Hg Hck Hlen] HQ. unfold network_events_monitoring.
  rewrite (proj2 (Z.eqb_neq _ 0)) by done. apply wp_bind, wp_call. cbn [helper_sem fst snd].
  rewrite (proj2 (Z.eqb_neq _ 0)) by done. rewrite (proj2 (Z.eqb_eq group _)) by done. cbn [negb].
  apply wp_bind. eapply wp_mono.
  - apply wp_and_run with (P := world_wf); [|by apply run_wf].
    unfold trace_network_events. rewrite Hck.
    rewrite (proj2 (Z.eqb_neq _ 0)), (proj2 (Z.ltb_ge _ _)) by lia. cbn [orb].
    rewrite (core_flow_frame _ _ Hh Hf). cbv beta iota.
    apply wp_hooked with (event_logged cpu (frame_id f) (ip_ethertype (f_ip f))
      (u8 (md_user_cookie_len md)) mem (ks_len skb) stale);
      [done..|apply (frame_id_ok _ _ Hh Hf)| |].
    + intros w1 Hw1 Ht1. apply wp_record_event; try done.
      destruct (hf_wf _ _ Hh) as (_ & _ & _ & _ & _ & [? _]). done.
    + intros r w' Hr. exact Hr.
  - intros r w1 [Hr Hw1]. cbn beta in Hr. specialize (HQ w1 r).
    destruct (r =? 0); cbn [negb];
      (apply wp_bind, wp_increase_counter; [done|]; intros w' Hcd; by apply wp_ret, HQ).
Qed.
End EventsOk.

