(* ===== verification/Xlat.v ===== *)
(** * The address-translation hook ([bpf/pkt_translation.h])

    When the kernel translates the addresses of a packet, the hook reads the two
    tuples of the tracked connection: the original one becomes the key of the
    flow, the reply one, inverted, the translated addresses and ports. *)
From S2P Require Import Prelude Machine Types Kernel Maps Safety PacketUtils Frames Metrics CoreFill.
From S2P Require Import Filter Hooks.

(** One direction of a connection, as in [struct nf_conntrack_tuple]: the
    address unions (an IPv4 address is in the first four bytes) and the port
    unions, in network order. *)
Record nf_conntrack_tuple := mk_nf_conntrack_tuple {
  t_src_u3 : list Z;
  t_src_all : Z;
  t_dst_u3 : list Z;
  t_dst_all : Z;
}.

(** What the probe reads of the connection give. *)
Record nf_conn := mk_nf_conn {
  ct_original : nf_conntrack_tuple;
  ct_reply : nf_conntrack_tuple;
  ct_zone_id : Z;
}.

Section Xlat.
Context {H : Host} {K : Kernel}.
Implicit Types cfg : config.

Definition parse_tuple (t : nf_conntrack_tuple) (zone_id family protocol : Z) (invert : bool)
    (flow : xlat_metrics) : xlat_metrics :=
  let flow :=
    if invert then
      let flow :=
        if is_transport_protocol protocol then
          flow <| xm_dport := bpf_ntohs (t_src_all t) |> <| xm_sport := bpf_ntohs (t_dst_all t) |>
        else flow in
      if family =? AF_INET then
        flow <| xm_daddr := ip4in6 ++ probe_bytes (t_src_u3 t) 0 4 |>
             <| xm_saddr := ip4in6 ++ probe_bytes (t_dst_u3 t) 0 4 |>
      else if family =? AF_INET6 then
        flow <| xm_daddr := probe_bytes (t_src_u3 t) 0 IP_MAX_LEN |>
             <| xm_saddr := probe_bytes (t_dst_u3 t) 0 IP_MAX_LEN |>
      else flow
    else
      let flow :=
        if is_transport_protocol protocol then
          flow <| xm_dport := bpf_ntohs (t_dst_all t) |> <| xm_sport := bpf_ntohs (t_src_all t) |>
        else flow in
      if family =? AF_INET then
        flow <| xm_daddr := ip4in6 ++ probe_bytes (t_dst_u3 t) 0 4 |>
             <| xm_saddr := ip4in6 ++ probe_bytes (t_src_u3 t) 0 4 |>
      else if family =? AF_INET6 then
        flow <| xm_daddr := probe_bytes (t_dst_u3 t) 0 IP_MAX_LEN |>
             <| xm_saddr := probe_bytes (t_src_u3 t) 0 IP_MAX_LEN |>
      else flow in
  flow <| xm_zone_id := zone_id |>.

(** The key of the flow before the translation. *)
Definition original_id (id : flow_id) (orig_t : nf_conntrack_tuple) (zone_id family : Z) : flow_id :=
  let orig := parse_tuple orig_t zone_id family (fid_transport_protocol id) false zeroed in
  id <| fid_src_ip := xm_saddr orig |> <| fid_dst_ip := xm_daddr orig |>
     <| fid_src_port := xm_sport orig |> <| fid_dst_port := xm_dport orig |>.

(** The writes to an existing element, and a new one. *)
Definition xlat_update (reply_t : nf_conntrack_tuple) (zone_id family protocol current_time : Z)
    (m : xlat_metrics) : xlat_metrics :=
  parse_tuple reply_t zone_id family protocol true (m <| xm_end_mono_time_ts := current_time |>).
Definition new_xlat (reply_t : nf_conntrack_tuple) (zone_id family protocol eth_protocol
    current_time : Z) : xlat_metrics :=
  parse_tuple reply_t zone_id family protocol true
    (zeroed <| xm_start_mono_time_ts := current_time |> <| xm_end_mono_time_ts := current_time |>
            <| xm_eth_protocol := eth_protocol |>).

Definition translate_lookup_and_update_flow (id : flow_id) (orig_t reply_t : nf_conntrack_tuple)
    (zone_id family eth_protocol : Z) : prog Z :=
  let id := original_id id orig_t zone_id family in
  let protocol := fid_transport_protocol id in
  current_time ← call bpf_ktime_get_ns;
  extra_metrics ← call (bpf_map_lookup_elem aggregated_flows_xlat id);
  match extra_metrics with
  | Some p =>
      _ ← call (elem_write aggregated_flows_xlat p
                  (λ m, (xlat_update reply_t zone_id family protocol current_time m, 0)));
      mret 0
  | None =>
      ret ← call (bpf_map_update_elem aggregated_flows_xlat id
                    (new_xlat reply_t zone_id family protocol eth_protocol current_time)
                    BPF_NOEXIST);
      if negb (ret =? 0) then
        if ret =? - EEXIST then
          extra_metrics ← call (bpf_map_lookup_elem aggregated_flows_xlat id);
          match extra_metrics with
          | Some p =>
              _ ← call (elem_write aggregated_flows_xlat p
                          (λ m, (xlat_update reply_t zone_id family protocol current_time m, 0)));
              mret 0
          | None => mret ret
          end
        else mret ret
      else mret ret
  end.

Definition trace_nat_manip_pkt cfg (ct : nf_conn) (skb : ksk_buff) : prog Z :=
  if enable_pkt_translation_tracking cfg =? 0 then mret 0
  else
    do_sampling ← call do_sampling_get;
    if do_sampling =? 0 then mret 0
    else
      let '(id, flags, eth_protocol, family) := core_flow skb in
      '(skip, _) ← check_and_apply_filter cfg id flags 0 eth_protocol None 0;
      if skip : bool then mret 0
      else
        translate_lookup_and_update_flow id (ct_original ct) (ct_reply ct) (ct_zone_id ct) family
          eth_protocol.

Definition track_nat_manip_pkt cfg (ct : nf_conn) (skb : ksk_buff) : prog Z :=
  trace_nat_manip_pkt cfg ct skb.
End Xlat.

(** ** Safety *)

Definition wf_tuple (t : nf_conntrack_tuple) : Prop :=
  is_bytes 16 (t_src_u3 t) /\ is_u16 (t_src_all t) /\
  is_bytes 16 (t_dst_u3 t) /\ is_u16 (t_dst_all t).
Definition wf_conn (ct : nf_conn) : Prop :=
  wf_tuple (ct_original ct) /\ wf_tuple (ct_reply ct) /\ is_u16 (ct_zone_id ct).

Section XlatOk.
Context {H : Host} {K : Kernel} {KL : KernelLaws K}.
Implicit Types w : world.

Lemma probe_addr (u3 : list Z) n :
  is_bytes 16 u3 -> 0 < n <= 16 ->
  probe_bytes u3 0 n = take (Z.to_nat n) u3 /\ is_bytes (Z.to_nat n) (take (Z.to_nat n) u3).
Proof.
  intros [Hl Hu] Hn. split.
  - apply probe_bytes_slice; [done|lia|]. rewrite slice_Some by lia. done.
  - split; [rewrite length_take; lia|]. by apply Forall_take.
Qed.

Lemma parse_tuple_ok t zone_id family protocol invert flow :
  wf_tuple t -> is_u16 zone_id -> wf_xlat_metrics flow ->
  wf_xlat_metrics (parse_tuple t zone_id family protocol invert flow).
Proof.
  intros (Hs & Hsp & Hd & Hdp) Hz (? & ? & ? & ? & ? & ? & ? & ?).
  pose proof (bpf_ntohs_range _ Hsp). pose proof (bpf_ntohs_range _ Hdp).
  pose proof (probe_addr _ 4 Hs ltac:(lia)) as [Es4 [Hs4 Hs4']].
  pose proof (probe_addr _ 4 Hd ltac:(lia)) as [Ed4 [Hd4 Hd4']].
  pose proof (probe_addr _ IP_MAX_LEN Hs ltac:(done)) as [Es6 Hs6].
  pose proof (probe_addr _ IP_MAX_LEN Hd ltac:(done)) as [Ed6 Hd6].
  unfold parse_tuple. rewrite Es4, Ed4, Es6, Ed6.
  assert (Hm : ∀ l, length l = 4%nat -> Forall is_u8 l -> is_bytes 16 (ip4in6 ++ l))
    by (intros; by apply mapped_bytes).
  unfold wf_xlat_metrics.
  destruct invert, (is_transport_protocol protocol), (family =? AF_INET), (family =? AF_INET6);
    cbn; splits; try done; by apply Hm.
Qed.

Lemma original_id_ok id orig_t zone_id family :
  wf_flow_id id -> wf_tuple orig_t -> is_u16 zone_id ->
  wf_flow_id (original_id id orig_t zone_id family).
Proof.
  intros (_ & _ & _ & _ & Hp & Ht & Hc) Ho Hz.
  destruct (parse_tuple_ok orig_t zone_id family (fid_transport_protocol id) false zeroed)
    as (_ & _ & ? & ? & ? & ? & _); [done..|exact (wf_value_zero aggregated_flows_xlat)|].
  unfold wf_flow_id, original_id. cbn. by splits.
Qed.

Lemma xlat_update_ok t zone_id family protocol now m :
  wf_tuple t -> is_u16 zone_id -> is_u64 now -> wf_xlat_metrics m ->
  wf_xlat_metrics (xlat_update t zone_id family protocol now m).
Proof.
  intros Ht Hz Hn (? & ? & ? & ? & ? & ? & ? & ?). apply parse_tuple_ok; [done..|].
  unfold wf_xlat_metrics. cbn. by splits.
Qed.

Lemma new_xlat_ok t zone_id family protocol eth_protocol now :
  wf_tuple t -> is_u16 zone_id -> is_u64 now -> is_u16 eth_protocol ->
  wf_xlat_metrics (new_xlat t zone_id family protocol eth_protocol now).
Proof.
  intros Ht Hz Hn He. apply parse_tuple_ok; [done..|].
  destruct (wf_value_zero aggregated_flows_xlat) as (? & ? & ? & ? & ? & ? & ? & ?).
  unfold wf_xlat_metrics. cbn. by splits.
Qed.

Lemma translate_safe id orig_t reply_t zone_id family eth_protocol :
  wf_tuple orig_t -> wf_tuple reply_t -> is_u16 zone_id -> is_u16 eth_protocol ->
  safe (λ _, True) (translate_lookup_and_update_flow id orig_t reply_t zone_id family eth_protocol).
Proof.
  intros Ho Hr Hz He. apply safe_bind, safe_call; [done|]. intros ts Hts.
  assert (Hwr : ∀ p, safe (λ _, True) (_ ← call (elem_write aggregated_flows_xlat p (λ m,
    (xlat_update reply_t zone_id family (fid_transport_protocol (original_id id orig_t zone_id family))
       ts m, 0))); mret 0)).
  { intros p. apply safe_bind, safe_call; [|done]. intros v Hv. by apply xlat_update_ok. }
  apply safe_bind, safe_call; [done|]. intros [p|] _; [apply Hwr|].
  apply safe_bind, safe_call; [by apply new_xlat_ok|]. intros r _.
  case_match; [|done]. case_match; [|done]. apply safe_bind, safe_call; [done|].
  intros [p|] _; [apply Hwr|done].
Qed.

Lemma track_nat_manip_pkt_safe cfg ct skb :
  wf_conn ct -> wf_ksk_buff skb -> safe (λ _, True) (track_nat_manip_pkt cfg ct skb).
Proof.
  intros (Ho & Hr & Hz) Hskb. unfold track_nat_manip_pkt, trace_nat_manip_pkt.
  case_match; [done|]. apply safe_bind, safe_call; [done|]. intros s _. case_match; [done|].
  pose proof (core_flow_ok skb Hskb) as Hc.
  destruct (core_flow skb) as [[[id flags] e] family]. destruct Hc as (Hid & Hfl & He).
  by apply hooked_safe, translate_safe.
Qed.

(** ** What a translation records *)

Lemma wp_translate cpu id orig_t reply_t zone_id family eth_protocol (Q : Z → world → Prop) w :
  world_wf w ->
  let id' := original_id id orig_t zone_id family in
  let protocol := fid_transport_protocol id in
  (∀ r w', upserted cpu aggregated_flows_xlat id' (xlat_update reply_t zone_id family protocol)
     (new_xlat reply_t zone_id family protocol eth_protocol) w w' r -> Q r w') ->
  wp cpu (translate_lookup_and_update_flow id orig_t reply_t zone_id family eth_protocol) Q w.
Proof.
  cbv zeta. set (id' := original_id id orig_t zone_id family). intros Hw HQ.
  apply wp_bind, wp_ktime. intros ts w1 Hu Hts Hc.
  assert (Hw1 : world_wf w1) by by eapply unchanged_wf.
  apply wp_bind, wp_lookup; [done|intros Hn|intros p v Hv Hat].
  - rewrite (unchanged_elem _ _ _ _ _ Hu) in Hn. fold id'.
    apply wp_bind, wp_update_new; [done|done|by rewrite (unchanged_elem w)|..].
    + intros w' Hup. change (negb (0 =? 0)) with false. cbv iota.
      apply wp_ret, HQ, (UpsCreated _ _ _ _ _ _ _ ts); [done| |done|].
      * pose proof (upd_clock _ _ _ _ _ _ Hup). lia.
      * by eapply unchanged_updated.
    + intros e w' Hu' He. destruct (map_refuses_errno _ _ _ _ _ He) as [? Hne].
      rewrite (proj2 (Z.eqb_neq e 0)) by lia. cbn [negb]. rewrite (proj2 (Z.eqb_neq e _)) by done.
      apply wp_ret, HQ, UpsRefused; [done|by eapply unchanged_trans|by eapply unchanged_refuses].
  - rewrite (unchanged_elem _ _ _ _ _ Hu) in Hv. fold id' in Hv, Hat |- *.
    apply wp_bind, (wp_write _ aggregated_flows_xlat id' _ v); [done..|].
    intros w' Hup _. apply wp_ret, HQ, (UpsUpdated _ _ _ _ _ _ _ v ts); [done| |done|].
    + pose proof (upd_clock _ _ _ _ _ _ Hup). lia.
    + by eapply unchanged_updated.
Qed.

(** *** Connections *)

(** The tuple of a connection between two addresses of a family: their bytes,
    padded in the union, and the ports in network order. *)
Definition tuple_between (src dst : list Z) (sport dport : Z) (pad : list Z) : nf_conntrack_tuple :=
  mk_nf_conntrack_tuple (src ++ pad) (mem16 (sport / 256) (sport mod 256))
    (dst ++ pad) (mem16 (dport / 256) (dport mod 256)).

(** An address as the keys have it. *)
Definition mapped_addr (family : Z) (addr : list Z) : list Z :=
  if family =? AF_INET then ip4in6 ++ addr else addr.

(** Addresses of the family, padded to the size of the union. *)
Definition wf_addr (family : Z) (addr pad : list Z) : Prop :=
  is_bytes (if family =? AF_INET then 4 else 16) addr /\ is_bytes 16 (addr ++ pad) /\
  family ∈ [AF_INET; AF_INET6].

Lemma probe_union family addr pad :
  wf_addr family addr pad ->
  (if family =? AF_INET then ip4in6 ++ probe_bytes (addr ++ pad) 0 4
   else probe_bytes (addr ++ pad) 0 IP_MAX_LEN) = mapped_addr family addr.
Proof.
  intros ([Hl Hu] & Hb & _). unfold mapped_addr. revert Hl. destruct (family =? AF_INET); intros Hl.
  - destruct (probe_addr _ 4 Hb) as [-> _]; [lia|]. f_equal.
    change (Z.to_nat 4) with 4%nat. rewrite <- Hl. apply take_app_length.
  - destruct (probe_addr _ IP_MAX_LEN Hb) as [-> _]; [done|].
    change (Z.to_nat IP_MAX_LEN) with 16%nat. rewrite <- Hl. apply take_app_length.
Qed.

Lemma ntohs_port p : is_u16 p -> bpf_ntohs (mem16 (p / 256) (p mod 256)) = p.
Proof.
  intros Hp. pose proof (Z.mod_pos_bound p 256 ltac:(lia)).
  assert (0 <= p / 256 < 256)
    by (width; split; [apply Z.div_pos; lia|apply Z.div_lt_upper_bound; lia]).
  rewrite ntohs_mem16 by (width; lia). unfold be16. rewrite (Z.div_mod p 256) at 3; lia.
Qed.

(** The ports are only read for the transport protocols. *)
Definition set_endpoints (protocol : Z) (saddr daddr : list Z) (sport dport zone_id : Z)
    (m : xlat_metrics) : xlat_metrics :=
  (if is_transport_protocol protocol
   then m <| xm_dport := dport |> <| xm_sport := sport |> else m)
  <| xm_daddr := daddr |> <| xm_saddr := saddr |> <| xm_zone_id := zone_id |>.

Lemma parse_tuple_between src dst sport dport pad zone_id family protocol (invert : bool) m :
  wf_addr family src pad -> wf_addr family dst pad -> is_u16 sport -> is_u16 dport ->
  parse_tuple (tuple_between src dst sport dport pad) zone_id family protocol invert m
  = (if invert
     then set_endpoints protocol (mapped_addr family dst) (mapped_addr family src) dport sport zone_id m
     else set_endpoints protocol (mapped_addr family src) (mapped_addr family dst) sport dport zone_id m).
Proof.
  intros Hs Hd Hsp Hdp. pose proof (probe_union _ _ _ Hs) as Es.
  pose proof (probe_union _ _ _ Hd) as Ed. destruct Hs as (_ & _ & Hf).
  unfold parse_tuple, tuple_between, set_endpoints. cbn [t_src_u3 t_src_all t_dst_u3 t_dst_all].
  rewrite !ntohs_port by done.
  assert (Hf' : (family =? AF_INET) = true \/ ((family =? AF_INET) = false /\ (family =? AF_INET6) = true)).
  { rewrite elem_of_cons, list_elem_of_singleton in Hf. destruct Hf as [-> | ->]; auto. }
  destruct invert, Hf' as [E|[E E6]]; rewrite E in *; rewrite ?E6, Es, Ed;
    by destruct (is_transport_protocol protocol).
Qed.

(** The key of the flow of a connection, for the packets of one protocol: the
    addresses and ports that it had before any translation. *)
Definition connection_id (id : flow_id) (family : Z) (src dst : list Z) (sport dport : Z) : flow_id :=
  let transport := is_transport_protocol (fid_transport_protocol id) in
  id <| fid_src_ip := mapped_addr family src |> <| fid_dst_ip := mapped_addr family dst |>
     <| fid_src_port := if transport then sport else 0 |>
     <| fid_dst_port := if transport then dport else 0 |>.

Lemma original_id_between id src dst sport dport pad zone_id family :
  wf_addr family src pad -> wf_addr family dst pad -> is_u16 sport -> is_u16 dport ->
  original_id id (tuple_between src dst sport dport pad) zone_id family
  = connection_id id family src dst sport dport.
Proof.
  intros. unfold original_id. rewrite parse_tuple_between by done.
  unfold set_endpoints, connection_id. by destruct (is_transport_protocol _).
Qed.

(** The hook records the translation. *)
Definition records_xlat (w : world) (cfg : config) : Prop :=
  enable_pkt_translation_tracking cfg <> 0 /\ w_do_sampling w <> 0.

Lemma wp_track_nat cpu cfg ct skb f (Q : Z → world → Prop) w :
  world_wf w -> typed w -> holds_frame skb f -> wf_frame f -> records_xlat w cfg ->
  let family := frame_family f in
  let proto := fid_transport_protocol (frame_id f) in
  let key := original_id (frame_id f) (ct_original ct) (ct_zone_id ct) family in
  (∀ r w',
     hooked cpu cfg (frame_id f) (frame_flags f) 0 (ip_ethertype (f_ip f)) 0
       (upserted cpu aggregated_flows_xlat key
          (xlat_update (ct_reply ct) (ct_zone_id ct) family proto)
          (new_xlat (ct_reply ct) (ct_zone_id ct) family proto (ip_ethertype (f_ip f)))) w w' r ->
     Q r w') ->
  wp cpu (track_nat_manip_pkt cfg ct skb) Q w.
Proof.
  cbv zeta. intros Hw Ht Hh Hf [He Hs] HQ. unfold track_nat_manip_pkt, trace_nat_manip_pkt.
  rewrite (proj2 (Z.eqb_neq _ 0)) by done. apply wp_bind, wp_call. cbn [helper_sem fst snd].
  rewrite (proj2 (Z.eqb_neq _ 0)) by done.
  rewrite (core_flow_frame _ _ Hh Hf). cbv beta iota.
  eapply wp_hooked; [done..|apply (frame_id_ok _ _ Hh Hf)| |exact HQ].
  intros w1 Hw1 Ht1. by apply wp_translate.
Qed.
End XlatOk.
