(* ===== verification/Ipsec.v ===== *)
(** * The IPsec hooks ([bpf/ipsec.h])

    A probe on the entry of the kernel's transformation functions remembers, per
    thread, the flow of the packet as it appears on the wire; the probe on their
    return records under that flow whether the transformation succeeded. *)
From S2P Require Import Prelude Machine Types Kernel Maps Safety PacketUtils Frames Metrics CoreFill.
From S2P Require Import Filter Hooks.

(** ** Operations *)

Definition NAT_T_PORT : Z := 4500.

(** The key of the encrypted packet that the TC hooks see. *)
Definition ipsec_to_wire_flow_id (id : flow_id) : flow_id :=
  if fid_transport_protocol id =? IPPROTO_ESP then id
  else if (fid_transport_protocol id =? IPPROTO_UDP) &&
          ((fid_src_port id =? NAT_T_PORT) || (fid_dst_port id =? NAT_T_PORT)) then id
  else
    id <| fid_src_port := 0 |> <| fid_dst_port := 0 |>
       <| fid_icmp_type := 0 |> <| fid_icmp_code := 0 |>
       <| fid_transport_protocol := IPPROTO_ESP |>.

(** The writes to an existing element. *)
Definition ipsec_update (flow_encrypted_ret eth_protocol now : Z) (m : additional_metrics)
    : additional_metrics :=
  let m := m <| am_end_mono_time_ts := now |> <| am_eth_protocol := eth_protocol |> in
  if negb (flow_encrypted_ret =? 0) then
    let m := m <| am_ipsec_encrypted_ret := flow_encrypted_ret |> in
    if am_ipsec_encrypted m then m <| am_ipsec_encrypted := false |> else m
  else m <| am_ipsec_encrypted := true |>.

Definition ipsec_lookup_and_update_flow (id : flow_id) (flow_encrypted_ret eth_protocol : Z)
    : prog Z :=
  lookup_and_update additional_flow_metrics id (ipsec_update flow_encrypted_ret eth_protocol).

Definition new_ipsec (flow_encrypted_ret eth_protocol now : Z) : additional_metrics :=
  zeroed
    <| am_start_mono_time_ts := now |>
    <| am_end_mono_time_ts := now |>
    <| am_eth_protocol := eth_protocol |>
    <| am_ipsec_encrypted_ret := flow_encrypted_ret |>
    <| am_ipsec_encrypted := flow_encrypted_ret =? 0 |>.

(** The flow that the entry probe left for the thread. *)
Definition ipsec_pending (pid_tgid dir : Z) : prog (option flow_id) :=
  if dir =? INGRESS then
    p ← call (bpf_map_lookup_elem ipsec_ingress_map pid_tgid);
    match p with
    | Some p => id ← call (elem_read ipsec_ingress_map p); mret (Some id)
    | None => mret None
    end
  else
    p ← call (bpf_map_lookup_elem ipsec_egress_map pid_tgid);
    match p with
    | Some p => id ← call (elem_read ipsec_egress_map p); mret (Some id)
    | None => mret None
    end.

(** [pid_tgid] is what [bpf_get_current_pid_tgid] returns. *)
Definition update_flow_with_ipsec_return (pid_tgid flow_encrypted_ret dir : Z) : prog Z :=
  id ← ipsec_pending pid_tgid dir;
  match id with
  | None => mret 0
  | Some id =>
      let eth_protocol := if is_ipv4 (fid_src_ip id) then ETH_P_IP else ETH_P_IPV6 in
      _ ← upsert additional_flow_metrics id (ipsec_update flow_encrypted_ret eth_protocol)
            (new_ipsec flow_encrypted_ret eth_protocol);
      _ ← (if dir =? INGRESS then call (bpf_map_delete_elem ipsec_ingress_map pid_tgid)
           else call (bpf_map_delete_elem ipsec_egress_map pid_tgid));
      mret 0
  end.

Section Ipsec.
Context {H : Host} {K : Kernel}.
Implicit Types cfg : config.

Definition remember_flow (pid_tgid dir : Z) (id : flow_id) : prog Z :=
  if dir =? INGRESS then call (bpf_map_update_elem ipsec_ingress_map pid_tgid id BPF_NOEXIST)
  else call (bpf_map_update_elem ipsec_egress_map pid_tgid id BPF_NOEXIST).

Definition enter_xfrm_func cfg (pid_tgid : Z) (skb : ksk_buff) (dir : Z) : prog Z :=
  let '(id, flags, eth_protocol, _) := core_flow skb in
  '(skip, _) ← check_and_apply_filter cfg id flags 0 eth_protocol None dir;
  if skip : bool then mret 0
  else
    let id := ipsec_to_wire_flow_id id in
    _ ← remember_flow pid_tgid dir id;
    mret 0.

Definition xfrm_input_kprobe cfg (pid_tgid : Z) (skb : option ksk_buff) : prog Z :=
  do_sampling ← call do_sampling_get;
  if (do_sampling =? 0) || (enable_ipsec cfg =? 0) then mret 0
  else
    match skb with
    | None => mret 0
    | Some skb => enter_xfrm_func cfg pid_tgid skb INGRESS
    end.

Definition xfrm_input_kretprobe cfg (pid_tgid xfrm_ret : Z) : prog Z :=
  do_sampling ← call do_sampling_get;
  if (do_sampling =? 0) || (enable_ipsec cfg =? 0) then mret 0
  else update_flow_with_ipsec_return pid_tgid xfrm_ret INGRESS.

Definition xfrm_output_kprobe cfg (pid_tgid : Z) (skb : option ksk_buff) : prog Z :=
  do_sampling ← call do_sampling_get;
  if (do_sampling =? 0) || (enable_ipsec cfg =? 0) then mret 0
  else
    match skb with
    | None => mret 0
    | Some skb => enter_xfrm_func cfg pid_tgid skb EGRESS
    end.

Definition xfrm_output_kretprobe cfg (pid_tgid xfrm_ret : Z) : prog Z :=
  do_sampling ← call do_sampling_get;
  if (do_sampling =? 0) || (enable_ipsec cfg =? 0) then mret 0
  else update_flow_with_ipsec_return pid_tgid xfrm_ret EGRESS.
End Ipsec.

(** The map of a direction. *)
Definition ipsec_elem `{Kernel} (cpu dir : Z) (w : world) (pid_tgid : Z) : option flow_id :=
  if dir =? INGRESS then elem cpu ipsec_ingress_map w pid_tgid
  else elem cpu ipsec_egress_map w pid_tgid.

(** ** The wire key *)

Lemma wire_flow_ok id : wf_flow_id id -> wf_flow_id (ipsec_to_wire_flow_id id).
Proof.
  intros (?&?&?&?&?&?&?). unfold ipsec_to_wire_flow_id. repeat case_match; unfold wf_flow_id; cbn;
    splits; done || auto with width.
Qed.

Lemma wire_flow_idem id :
  ipsec_to_wire_flow_id (ipsec_to_wire_flow_id id) = ipsec_to_wire_flow_id id.
Proof.
  unfold ipsec_to_wire_flow_id. destruct (fid_transport_protocol id =? IPPROTO_ESP) eqn:E.
  - by rewrite E.
  - destruct (_ && _) eqn:E2; [by rewrite E, E2|]. done.
Qed.

(** ** Safety *)

Section IpsecOk.
Context {H : Host} {K : Kernel} {KL : KernelLaws K}.
Implicit Types w : world.

Lemma ipsec_update_ok ret eth_protocol now m :
  is_s32 ret -> is_u16 eth_protocol -> is_u64 now -> wf_additional_metrics m ->
  wf_additional_metrics (ipsec_update ret eth_protocol now m).
Proof.
  intros ??? (? & ? & ? & ? & ?). unfold ipsec_update. cbv zeta.
  repeat case_match; unfold wf_additional_metrics; cbn; by splits.
Qed.

Lemma new_ipsec_ok ret eth_protocol now :
  is_s32 ret -> is_u16 eth_protocol -> is_u64 now ->
  wf_additional_metrics (new_ipsec ret eth_protocol now).
Proof. intros. unfold wf_additional_metrics. cbn. splits; auto with width. Qed.

Lemma ethertype_u16 (b : bool) : is_u16 (if b then ETH_P_IP else ETH_P_IPV6).
Proof. by destruct b. Qed.

Lemma ipsec_pending_safe pid_tgid dir :
  safe (λ o, ∀ id, o = Some id -> wf_flow_id id) (ipsec_pending pid_tgid dir).
Proof.
  unfold ipsec_pending. case_match; (apply safe_bind, safe_call; [done|]); intros [p|] _; try done;
    (apply safe_bind, safe_call; [done|]); intros id Hid id' [= <-]; exact Hid.
Qed.

Lemma ipsec_return_safe pid_tgid ret dir :
  is_s32 ret -> safe (λ _, True) (update_flow_with_ipsec_return pid_tgid ret dir).
Proof.
  intros Hr. apply safe_bind. eapply safe_mono; [apply ipsec_pending_safe|].
  intros [id|] Hid; [|done]. pose proof (ethertype_u16 (is_ipv4 (fid_src_ip id))).
  apply safe_bind. eapply safe_mono; [apply upsert_safe|].
  - intros. by apply ipsec_update_ok.
  - intros. by apply new_ipsec_ok.
  - intros r _. apply safe_bind. by destruct (dir =? INGRESS); apply safe_call.
Qed.

Lemma enter_xfrm_safe cfg pid_tgid skb dir :
  wf_ksk_buff skb -> safe (λ _, True) (enter_xfrm_func cfg pid_tgid skb dir).
Proof.
  intros Hskb. unfold enter_xfrm_func. pose proof (core_flow_ok skb Hskb) as Hc.
  destruct (core_flow skb) as [[[id flags] e] family]. destruct Hc as (Hid & Hfl & He).
  apply hooked_safe, safe_bind. pose proof (wire_flow_ok id Hid).
  unfold remember_flow. by case_match; apply safe_call.
Qed.

Lemma xfrm_probes_safe cfg pid_tgid skb xfrm_ret :
  (∀ b, skb = Some b -> wf_ksk_buff b) -> is_s32 xfrm_ret ->
  safe (λ _, True) (xfrm_input_kprobe cfg pid_tgid skb) /\
  safe (λ _, True) (xfrm_input_kretprobe cfg pid_tgid xfrm_ret) /\
  safe (λ _, True) (xfrm_output_kprobe cfg pid_tgid skb) /\
  safe (λ _, True) (xfrm_output_kretprobe cfg pid_tgid xfrm_ret).
Proof.
  intros Hb Hr. splits; (apply safe_bind, safe_call; [done|]); intros s _; case_match; try done;
    try (by apply ipsec_return_safe);
    (destruct skb as [skb|]; [|done]); by apply enter_xfrm_safe, Hb.
Qed.

(** ** What the probes do *)

(** The map of a direction refuses the thread. *)
Definition ipsec_refuses (dir pid_tgid e : Z) w w' : Prop :=
  if dir =? INGRESS then map_refuses ipsec_ingress_map pid_tgid e w w'
  else map_refuses ipsec_egress_map pid_tgid e w w'.

(** After the entry: the wire key of the frame is pending for the thread, unless
    something was pending already or the map refused it. *)
Inductive remembered cpu (pid_tgid dir : Z) (id : flow_id) w w' : Z → Prop :=
  | RememberKept old :
      ipsec_elem cpu dir w pid_tgid = Some old -> w' = w ->
      remembered cpu pid_tgid dir id w w' 0
  | RememberNew :
      ipsec_elem cpu dir w pid_tgid = None -> ipsec_elem cpu dir w' pid_tgid = Some id ->
      w_map w' additional_flow_metrics = w_map w additional_flow_metrics ->
      remembered cpu pid_tgid dir id w w' 0
  | RememberRefused e :
      ipsec_elem cpu dir w pid_tgid = None -> unchanged w w' ->
      ipsec_refuses dir pid_tgid e w w' ->
      remembered cpu pid_tgid dir id w w' 0.

Lemma wp_remember cpu pid_tgid dir id (Q : Z → world → Prop) w :
  world_wf w ->
  (∀ w', remembered cpu pid_tgid dir id w w' 0 -> Q 0 w') ->
  wp cpu (_ ← remember_flow pid_tgid dir id; mret 0) Q w.
Proof.
  intros Hw HQ. apply wp_bind. unfold remember_flow.
  assert (Hkept : ∀ old, ipsec_elem cpu dir w pid_tgid = Some old -> Q 0 w)
    by (intros old Ho; by eapply HQ, RememberKept).
  assert (Hnew : ∀ w', ipsec_elem cpu dir w pid_tgid = None ->
    ipsec_elem cpu dir w' pid_tgid = Some id ->
    w_map w' additional_flow_metrics = w_map w additional_flow_metrics -> Q 0 w')
    by (intros; by apply HQ, RememberNew).
  assert (Href : ∀ e w', ipsec_elem cpu dir w pid_tgid = None -> unchanged w w' ->
    ipsec_refuses dir pid_tgid e w w' -> Q 0 w')
    by (intros e w' ? ? ?; by apply HQ, (RememberRefused _ _ _ _ _ _ e)).
  unfold ipsec_elem, ipsec_refuses in *. destruct (dir =? INGRESS).
  - destruct (elem cpu ipsec_ingress_map w pid_tgid) as [old|] eqn:E.
    + eapply wp_update_exists; [done|exact E|]. by apply wp_ret, (Hkept old).
    + apply wp_update_new; [done..| |].
      * intros w' Hup. apply wp_ret, Hnew; [done|apply Hup|by apply Hup].
      * intros e w' Hu Her. by apply wp_ret, (Href e).
  - destruct (elem cpu ipsec_egress_map w pid_tgid) as [old|] eqn:E.
    + eapply wp_update_exists; [done|exact E|]. by apply wp_ret, (Hkept old).
    + apply wp_update_new; [done..| |].
      * intros w' Hup. apply wp_ret, Hnew; [done|apply Hup|by apply Hup].
      * intros e w' Hu Her. by apply wp_ret, (Href e).
Qed.

(** The probes are active. *)
Definition ipsec_active (w : world) (cfg : config) : Prop :=
  w_do_sampling w <> 0 /\ enable_ipsec cfg <> 0.

Lemma wp_active {A} cpu cfg (p : prog A) (d : A) (Q : A → world → Prop) w :
  ipsec_active w cfg -> wp cpu p Q w ->
  wp cpu (do_sampling ← call do_sampling_get;
          if (do_sampling =? 0) || (enable_ipsec cfg =? 0) then mret d else p) Q w.
Proof.
  intros [Hs He] Hp. apply wp_bind, wp_call. cbn [helper_sem fst snd].
  by rewrite !(proj2 (Z.eqb_neq _ 0)) by done.
Qed.

(** The entry probe of a direction, and the return probe. *)
Definition xfrm_kprobe (dir : Z) cfg (pid_tgid : Z) (skb : option ksk_buff) : prog Z :=
  if dir =? INGRESS then xfrm_input_kprobe cfg pid_tgid skb else xfrm_output_kprobe cfg pid_tgid skb.
Definition xfrm_kretprobe (dir : Z) cfg (pid_tgid xfrm_ret : Z) : prog Z :=
  if dir =? INGRESS then xfrm_input_kretprobe cfg pid_tgid xfrm_ret
  else xfrm_output_kretprobe cfg pid_tgid xfrm_ret.

Lemma wp_xfrm_kprobe cpu cfg dir pid_tgid skb f (Q : Z → world → Prop) w :
  world_wf w -> typed w -> holds_frame skb f -> wf_frame f -> ipsec_active w cfg ->
  dir ∈ [INGRESS; EGRESS] ->
  (∀ r w', hooked cpu cfg (frame_id f) (frame_flags f) 0 (ip_ethertype (f_ip f)) dir
     (remembered cpu pid_tgid dir (ipsec_to_wire_flow_id (frame_id f))) w w' r -> Q r w') ->
  wp cpu (xfrm_kprobe dir cfg pid_tgid (Some skb)) Q w.
Proof.
  intros Hw Ht Hh Hf Hact Hd HQ.
  assert (He : wp cpu (enter_xfrm_func cfg pid_tgid skb dir) Q w).
  { unfold enter_xfrm_func. rewrite (core_flow_frame _ _ Hh Hf). cbv beta iota.
    eapply wp_hooked; [done..|apply (frame_id_ok _ _ Hh Hf)| |exact HQ].
    intros w1 Hw1 Ht1. by apply wp_remember. }
  unfold xfrm_kprobe. rewrite elem_of_cons, list_elem_of_singleton in Hd.
  destruct Hd as [-> | ->]; by apply wp_active.
Qed.

(** The return probe: nothing if no flow is pending; otherwise the status of
    the flow is recorded and nothing is pending any more. *)
Inductive ipsec_returned cpu (pid_tgid xfrm_ret dir : Z) w w' : Prop :=
  | ReturnNothing :
      ipsec_elem cpu dir w pid_tgid = None -> w' = w ->
      ipsec_returned cpu pid_tgid xfrm_ret dir w w'
  | ReturnRecorded id w1 r :
      ipsec_elem cpu dir w pid_tgid = Some id ->
      (let eth_protocol := if is_ipv4 (fid_src_ip id) then ETH_P_IP else ETH_P_IPV6 in
       upserted cpu additional_flow_metrics id (ipsec_update xfrm_ret eth_protocol)
         (new_ipsec xfrm_ret eth_protocol) w w1 r) ->
      w_map w' additional_flow_metrics = w_map w1 additional_flow_metrics ->
      ipsec_elem cpu dir w' pid_tgid = None -> clock w1 <= clock w' ->
      (∀ pid, pid <> pid_tgid -> ipsec_elem cpu dir w' pid = ipsec_elem cpu dir w pid) ->
      ipsec_returned cpu pid_tgid xfrm_ret dir w w'.

(** An upsert leaves the other maps. *)
Lemma upserted_other cpu m id upd new w w' r m' :
  upserted cpu m id upd new w w' r -> m' <> m -> w_map w' m' = w_map w m'.
Proof.
  by intros [v ts ? ? ? Hup|ts ? ? ? Hup|e ? Hu ?] Hm; [apply Hup|apply Hup|apply Hu].
Qed.

Lemma upserted_wf cpu m id upd new w w' r :
  upserted cpu m id upd new w w' r -> world_wf w -> world_wf w'.
Proof.
  intros [v ts ? ? ? Hup|ts ? ? ? Hup|e ? Hu ?] Hw; [apply Hup|apply Hup|by eapply unchanged_wf].
Qed.

Lemma wp_ipsec_pending cpu pid_tgid dir (Q : option flow_id → world → Prop) w :
  Q (ipsec_elem cpu dir w pid_tgid) w -> wp cpu (ipsec_pending pid_tgid dir) Q w.
Proof.
  unfold ipsec_pending, ipsec_elem. destruct (dir =? INGRESS); intros HQ;
    (apply wp_bind, wp_lookup; [done|intros Hn; apply wp_ret; by rewrite Hn in HQ|]);
    intros p v Hv Hat; (eapply wp_bind, wp_read; [exact Hat|]); apply wp_ret; by rewrite Hv in HQ.
Qed.

Lemma wp_ipsec_return cpu pid_tgid xfrm_ret dir (Q : Z → world → Prop) w :
  world_wf w ->
  (∀ w', ipsec_returned cpu pid_tgid xfrm_ret dir w w' -> Q 0 w') ->
  wp cpu (update_flow_with_ipsec_return pid_tgid xfrm_ret dir) Q w.
Proof.
  intros Hw HQ. apply wp_bind, wp_ipsec_pending.
  destruct (ipsec_elem cpu dir w pid_tgid) as [id|] eqn:E; [|by apply wp_ret, HQ, ReturnNothing].
  apply wp_bind, wp_upsert; [done..|]. intros r w1 Hu.
  pose proof (upserted_wf _ _ _ _ _ _ _ _ Hu Hw) as Hw1.
  assert (Heq : ∀ pid, ipsec_elem cpu dir w1 pid = ipsec_elem cpu dir w pid).
  { intros pid. unfold ipsec_elem. destruct (dir =? INGRESS);
      [apply (elem_ext cpu ipsec_ingress_map)|apply (elem_ext cpu ipsec_egress_map)];
      by eapply upserted_other. }
  assert (Hend : ∀ w', w_map w' additional_flow_metrics = w_map w1 additional_flow_metrics ->
    ipsec_elem cpu dir w' pid_tgid = None -> clock w1 <= clock w' ->
    (∀ pid, pid <> pid_tgid -> ipsec_elem cpu dir w' pid = ipsec_elem cpu dir w1 pid) -> Q 0 w').
  { intros w' Hm Hn Hc Ho. apply HQ, (ReturnRecorded _ _ _ _ _ _ id w1 r); [done..|].
    intros pid Hne. by rewrite Ho. }
  pose proof (Heq pid_tgid) as E1. rewrite E in E1. apply wp_bind.
  unfold ipsec_elem in *. destruct (dir =? INGRESS).
  - eapply wp_delete; [done..|exact E1|]. intros w' Hd.
    apply wp_ret, Hend; [by apply Hd|apply Hd|apply Hd|]. intros pid Hne. by apply Hd.
  - eapply wp_delete; [done..|exact E1|]. intros w' Hd.
    apply wp_ret, Hend; [by apply Hd|apply Hd|apply Hd|]. intros pid Hne. by apply Hd.
Qed.

Lemma wp_xfrm_kretprobe cpu cfg dir pid_tgid xfrm_ret (Q : Z → world → Prop) w :
  world_wf w -> ipsec_active w cfg -> dir ∈ [INGRESS; EGRESS] ->
  (∀ w', ipsec_returned cpu pid_tgid xfrm_ret dir w w' -> Q 0 w') ->
  wp cpu (xfrm_kretprobe dir cfg pid_tgid xfrm_ret) Q w.
Proof.
  intros Hw Hact Hd HQ. pose proof (wp_ipsec_return cpu pid_tgid xfrm_ret dir Q w Hw HQ) as Hr.
  unfold xfrm_kretprobe. rewrite elem_of_cons, list_elem_of_singleton in Hd.
  destruct Hd as [-> | ->]; by apply wp_active.
Qed.
End IpsecOk.
