(* ===== verification/Tls.v ===== *)
(** * The TLS tracker ([bpf/tls_tracker.h])

    Recognises TLS records in TCP segments and reads the version, the cipher
    suite and the key share from the hello messages.  Everything is read with
    the load helper, at offsets computed in 32-bit (the message) and 16-bit
    (the extensions) arithmetic.  The [tls_info] of the caller is threaded
    through: what was filled in before a failure stays filled in.

    The second half specifies hello messages ([hello_bytes]) and states what
    the readers recover from them. *)
From S2P Require Import Prelude Machine Types Kernel Maps PacketUtils Frames.

(** ** Constants *)

Definition TLSTRACKER_UNKNOWN : Z := -1.
Definition TLSTRACKER_NOTLS : Z := -2.
Definition TLSTRACKER_MATCHED : Z := 0.

Definition CONTENT_TYPE_CHANGE_CIPHER : Z := 0x14.
Definition CONTENT_TYPE_ALERT : Z := 0x15.
Definition CONTENT_TYPE_HANDSHAKE : Z := 0x16.
Definition CONTENT_TYPE_APP_DATA : Z := 0x17.

Definition TLSTRACKER_BF_CLIENT_HELLO : Z := 0x01.
Definition TLSTRACKER_BF_SERVER_HELLO : Z := 0x02.
Definition TLSTRACKER_BF_OTHER_HANDSHAKE : Z := 0x04.
Definition TLSTRACKER_BF_CHANGE_CIPHER : Z := 0x08.
Definition TLSTRACKER_BF_ALERT : Z := 0x10.
Definition TLSTRACKER_BF_APP_DATA : Z := 0x20.

Definition IS_KNOWN_VERSION (v : Z) : bool := (0x0300 <=? v) && (v <=? 0x0303).
Definition IS_KNOWN_VERSION_EXT (v : Z) : bool := (0x0300 <=? v) && (v <=? 0x0304).

(** ** Operations *)

Section Tracker.
Context {H : Host} {K : Kernel}.

(** A load into a local object that the code only uses when it succeeds. *)
Definition skb_load (skb : sk_buff) (off len : Z) : option (list Z) :=
  let '(ret, bs) := k_skb_load_bytes skb off len in
  if ret <? 0 then None else Some bs.

(** The loop over the supported versions of a ClientHello; [pos] is the
    position of the extension.  The result says whether all loads succeeded. *)
Fixpoint client_versions (n : nat) (skb : sk_buff) (pos ext_len : Z)
    (supportedversions_offset : Z) (current_is_known : bool) (tls : tls_info)
    : bool * tls_info :=
  match n with
  | O => (true, tls)
  | S n =>
      if ext_len <=? supportedversions_offset then (true, tls)
      else
        match skb_load skb (u32 (pos + supportedversions_offset)) 2 with
        | None => (false, tls)
        | Some b =>
            let version := bpf_ntohs (obj16 b 0) in
            let is_known := IS_KNOWN_VERSION_EXT version in
            let '(tls, current_is_known) :=
              if negb current_is_known && is_known
              then (tls <| tls_hello_version := version |>, true)
              else if Bool.eqb current_is_known is_known &&
                      (tls_hello_version tls <? version)
              then (tls <| tls_hello_version := version |>, current_is_known)
              else (tls, current_is_known) in
            client_versions n skb pos ext_len (u16 (supportedversions_offset + 2))
              current_is_known tls
        end
  end.

(** The loop over the extensions of a ClientHello: [Some ret] is a return
    from inside the loop, [None] the end of the loop. *)
Fixpoint client_extensions (n : nat) (skb : sk_buff) (offset exts_len ext_offset : Z)
    (tls : tls_info) : option Z * tls_info :=
  match n with
  | O => (None, tls)
  | S n =>
      if exts_len <=? ext_offset then (None, tls)
      else
        match skb_load skb (u32 (offset + ext_offset)) 4 with
        | None => (Some TLSTRACKER_UNKNOWN, tls)
        | Some b =>
            let type := bpf_ntohs (obj16 b 0) in
            let len := bpf_ntohs (obj16 b 2) in
            let ext_offset := u16 (ext_offset + 4) in
            if type =? 0x002b then
              let '(ok, tls) :=
                client_versions 5 skb (u32 (offset + ext_offset)) len 1 false tls in
              (Some (if ok : bool then TLSTRACKER_MATCHED else TLSTRACKER_UNKNOWN), tls)
            else client_extensions n skb offset exts_len (u16 (ext_offset + len)) tls
        end
  end.

Definition tls_read_client_hello (skb : sk_buff) (offset : Z) (tls : tls_info)
    : Z * tls_info :=
  match skb_load skb offset 2 with
  | None => (TLSTRACKER_UNKNOWN, tls)
  | Some b =>
      let handshake_version := bpf_ntohs (obj16 b 0) in
      let offset := u32 (offset + 2) in
      if negb (IS_KNOWN_VERSION handshake_version) then (TLSTRACKER_UNKNOWN, tls)
      else
        let tls := tls <| tls_type := TLSTRACKER_BF_CLIENT_HELLO |> in
        let '(ret, tls) :=
          if handshake_version =? 0x0303 then
            let offset := u32 (offset + 32) in
            match skb_load skb offset 1 with
            | None => (Some TLSTRACKER_UNKNOWN, tls)
            | Some session =>
                let offset := u32 (offset + (1 + byte_at session 0)) in
                match skb_load skb offset 2 with
                | None => (Some TLSTRACKER_UNKNOWN, tls)
                | Some cipher =>
                    let offset := u32 (offset + (2 + bpf_ntohs (obj16 cipher 0))) in
                    match skb_load skb offset 1 with
                    | None => (Some TLSTRACKER_UNKNOWN, tls)
                    | Some compr =>
                        let offset := u32 (offset + (1 + byte_at compr 0)) in
                        match skb_load skb offset 2 with
                        | None => (Some TLSTRACKER_UNKNOWN, tls)
                        | Some exts =>
                            let exts_len := bpf_ntohs (obj16 exts 0) in
                            let offset := u32 (offset + 2) in
                            client_extensions 30 skb offset exts_len 0 tls
                        end
                    end
                end
            end
          else (None, tls) in
        match ret with
        | Some ret => (ret, tls)
        | None => (TLSTRACKER_MATCHED, tls <| tls_hello_version := handshake_version |>)
        end
  end.

(** The loop over the extensions of a ServerHello. *)
Fixpoint server_extensions (n : nat) (skb : sk_buff) (offset exts_len ext_offset ext_read : Z)
    (tls : tls_info) : option Z * tls_info :=
  match n with
  | O => (None, tls)
  | S n =>
      if exts_len <=? ext_offset then (None, tls)
      else
        match skb_load skb (u32 (offset + ext_offset)) 4 with
        | None => (Some TLSTRACKER_UNKNOWN, tls)
        | Some b =>
            let type := bpf_ntohs (obj16 b 0) in
            let len := bpf_ntohs (obj16 b 2) in
            let ext_offset := u16 (ext_offset + 4) in
            let step :=
              if type =? 0x002b then
                match skb_load skb (u32 (offset + ext_offset)) 2 with
                | None => None
                | Some b => Some (tls <| tls_hello_version := bpf_ntohs (obj16 b 0) |>,
                                  u8 (ext_read + 1))
                end
              else if type =? 0x0033 then
                match skb_load skb (u32 (offset + ext_offset)) 2 with
                | None => None
                | Some b => Some (tls <| tls_key_share := bpf_ntohs (obj16 b 0) |>,
                                  u8 (ext_read + 1))
                end
              else Some (tls, ext_read) in
            match step with
            | None => (Some TLSTRACKER_UNKNOWN, tls)
            | Some (tls, ext_read) =>
                if ext_read =? 2 then (Some TLSTRACKER_MATCHED, tls)
                else server_extensions n skb offset exts_len (u16 (ext_offset + len))
                       ext_read tls
            end
        end
  end.

(** The cipher suite is loaded straight into [tls]: when the load fails, what
    the helper left there stays. *)
Definition tls_read_server_hello (skb : sk_buff) (offset : Z) (tls : tls_info)
    : Z * tls_info :=
  match skb_load skb offset 2 with
  | None => (TLSTRACKER_UNKNOWN, tls)
  | Some b =>
      let handshake_version := bpf_ntohs (obj16 b 0) in
      let offset := u32 (offset + 2) in
      if negb (IS_KNOWN_VERSION handshake_version) then (TLSTRACKER_UNKNOWN, tls)
      else
        let tls := tls <| tls_type := TLSTRACKER_BF_SERVER_HELLO |> in
        let '(ret, tls) :=
          if handshake_version =? 0x0303 then
            let offset := u32 (offset + 32) in
            match skb_load skb offset 1 with
            | None => (Some TLSTRACKER_UNKNOWN, tls)
            | Some session =>
                let offset := u32 (offset + (1 + byte_at session 0)) in
                let '(err, cipher) := k_skb_load_bytes skb offset 2 in
                let tls := tls <| tls_cipher_suite := obj16 cipher 0 |> in
                if err <? 0 then (Some TLSTRACKER_UNKNOWN, tls)
                else
                  let tls := tls <| tls_cipher_suite ::= bpf_ntohs |> in
                  let offset := u32 (offset + 3) in
                  match skb_load skb offset 2 with
                  | None => (Some TLSTRACKER_UNKNOWN, tls)
                  | Some exts =>
                      let exts_len := bpf_ntohs (obj16 exts 0) in
                      let offset := u32 (offset + 2) in
                      server_extensions 30 skb offset exts_len 0 0 tls
                  end
            end
          else (None, tls) in
        match ret with
        | Some ret => (ret, tls)
        | None => (TLSTRACKER_MATCHED, tls <| tls_hello_version := handshake_version |>)
        end
  end.

(** [None] is an access outside the linear data. *)
Definition track_tls_tcp (skb : sk_buff) (l4_hdr : option Z) (tls : tls_info)
    : option (Z * tls_info) :=
  match l4_hdr with
  | None => Some (TLSTRACKER_NOTLS, tls)
  | Some l4_hdr =>
      if Z.of_nat (length (skb_data skb)) <? l4_hdr + sizeof_tcphdr
      then Some (TLSTRACKER_NOTLS, tls)
      else
        tcp ← decode_tcphdr <$> slice (skb_data skb) l4_hdr sizeof_tcphdr;
        let len := u8 (th_doff tcp * 4) in
        if len =? 0 then Some (TLSTRACKER_NOTLS, tls)
        else
          let offset := u32 (l4_hdr + len) in
          Some match skb_load skb offset 3 with
          | None => (TLSTRACKER_NOTLS, tls)
          | Some rec =>
              let content_type := byte_at rec 0 in
              let version := bpf_ntohs (obj16 rec 1) in
              let offset := u32 (offset + 5) in
              if negb (IS_KNOWN_VERSION version) then (TLSTRACKER_NOTLS, tls)
              else if content_type =? CONTENT_TYPE_HANDSHAKE then
                match skb_load skb offset 1 with
                | None => (TLSTRACKER_NOTLS, tls)
                | Some handshake =>
                    let type := byte_at handshake 0 in
                    let offset := u32 (offset + 4) in
                    if type =? 0x01 then tls_read_client_hello skb offset tls
                    else if type =? 0x02 then tls_read_server_hello skb offset tls
                    else if (type =? 0x10) || (type =? 0x0b) || (type =? 0x0c) || (type =? 0x0e)
                    then (TLSTRACKER_MATCHED,
                          tls <| tls_type := TLSTRACKER_BF_OTHER_HANDSHAKE |>)
                    else (TLSTRACKER_UNKNOWN, tls)
                end
              else if content_type =? CONTENT_TYPE_CHANGE_CIPHER then
                (TLSTRACKER_MATCHED, tls <| tls_type := TLSTRACKER_BF_CHANGE_CIPHER |>)
              else if content_type =? CONTENT_TYPE_ALERT then
                (TLSTRACKER_MATCHED, tls <| tls_type := TLSTRACKER_BF_ALERT |>)
              else if content_type =? CONTENT_TYPE_APP_DATA then
                (TLSTRACKER_MATCHED, tls <| tls_type := TLSTRACKER_BF_APP_DATA |>)
              else (TLSTRACKER_NOTLS, tls)
          end
  end.

(** [flags] is an 8-bit parameter: the caller's 16-bit flags are truncated. *)
Definition track_tls (cfg : config) (skb : sk_buff) (proto : Z) (l4_hdr : option Z)
    (flags : Z) (tls : tls_info) : option (Z * tls_info) :=
  let flags := u8 flags in
  if enable_tls_usage_tracking cfg =? 0 then Some (TLSTRACKER_UNKNOWN, tls)
  else if (proto =? IPPROTO_TCP) && negb (Z.land flags 0x10 =? 0)
  then track_tls_tcp skb l4_hdr tls
  else Some (TLSTRACKER_UNKNOWN, tls).
End Tracker.

(** ** Hello messages *)

(** An extension: its type and its data. *)
Definition extension : Type := Z * list Z.
Definition extension_bytes (e : extension) : list Z :=
  net16 e.1 ++ net16 (Z.of_nat (length e.2)) ++ e.2.
Definition extensions_bytes (es : list extension) : list Z := es ≫= extension_bytes.

Definition EXT_SUPPORTED_VERSIONS : Z := 0x002b.
Definition EXT_KEY_SHARE : Z := 0x0033.

Record hello := mk_hello {
  he_random : list Z;
  he_session : list Z;
  he_ciphers : list Z;
  he_compressions : list Z;
  he_extensions : list extension;
}.

(** [struct] with a length prefix of one or two bytes. *)
Definition vec8 (l : list Z) : list Z := Z.of_nat (length l) :: l.
Definition vec16 (l : list Z) : list Z := net16 (Z.of_nat (length l)) ++ l.

Definition client_hello_bytes (h : hello) : list Z :=
  net16 0x0303 ++ he_random h ++ vec8 (he_session h) ++ vec16 (he_ciphers h) ++
  vec8 (he_compressions h) ++ vec16 (extensions_bytes (he_extensions h)).

(** A ServerHello names one cipher suite and one compression method. *)
Definition server_hello_bytes (h : hello) (cipher compression : Z) : list Z :=
  net16 0x0303 ++ he_random h ++ vec8 (he_session h) ++ net16 cipher ++ [compression] ++
  vec16 (extensions_bytes (he_extensions h)).

(** The supported versions of a ClientHello, and which of them is kept: a known
    version before an unknown one, then the higher one. *)
Definition versions_bytes (vs : list Z) : list Z := vs ≫= net16.
Definition versions_data (vs : list Z) : list Z := vec8 (versions_bytes vs).

Definition prefer (s : bool * Z) (v : Z) : bool * Z :=
  if negb s.1 && IS_KNOWN_VERSION_EXT v then (true, v)
  else if Bool.eqb s.1 (IS_KNOWN_VERSION_EXT v) && (s.2 <? v) then (s.1, v) else s.
Definition best_version (vs : list Z) : Z := (foldl prefer (false, 0) (take 5 vs)).2.

Section Spec.
Context {H : Host} {K : Kernel} {KL : KernelLaws K}.

(** [bs] is in the packet at [off]. *)
Definition at_off (skb : sk_buff) (off : Z) (bs : list Z) : Prop :=
  slice (skb_bytes skb) off (Z.of_nat (length bs)) = Some bs.

Lemma at_app skb off a b :
  at_off skb off (a ++ b) ->
  at_off skb off a /\ at_off skb (off + Z.of_nat (length a)) b.
Proof.
  unfold at_off. intros Hab.
  destruct (slice_inside _ _ _ _ Hab) as (H0 & _ & H1).
  rewrite slice_Some in Hab by lia. injection Hab as Hab.
  rewrite length_app in *. rewrite !slice_Some by lia.
  rewrite Nat2Z.id in *. split; f_equal.
  - apply (f_equal (take (length a))) in Hab. rewrite take_take, take_app_length in Hab.
    by rewrite Nat.min_l in Hab by lia.
  - apply (f_equal (drop (length a))) in Hab.
    rewrite drop_app_length in Hab.
    rewrite skipn_firstn_comm, drop_drop in Hab.
    rewrite <- Hab at 2. f_equal; [lia|]. f_equal. lia.
Qed.

Lemma at_range skb off bs :
  wf_skb skb -> at_off skb off bs ->
  0 <= off /\ off + Z.of_nat (length bs) < 2 ^ 32 /\ Forall is_u8 bs.
Proof.
  intros ([_ Hu] & _ & _ & Hb & _ & Hl) Ha.
  destruct (slice_inside _ _ _ _ Ha) as (H0 & _ & H1).
  split_and!; [lia|lia|]. by eapply slice_Forall.
Qed.

Lemma load_at skb off bs n :
  wf_skb skb -> at_off skb off bs -> n = Z.of_nat (length bs) -> 0 < n ->
  k_skb_load_bytes skb off n = (0, bs).
Proof.
  intros Hw Ha -> Hn. pose proof (at_range _ _ _ Hw Ha) as (H0 & H1 & _).
  destruct Hw as (_ & _ & _ & Hb & _).
  destruct (skb_load_bytes_ok skb off (Z.of_nat (length bs))) as (_ & _ & Hr); [done..|].
  by rewrite Ha in Hr.
Qed.

Lemma skb_load_at skb off bs n :
  wf_skb skb -> at_off skb off bs -> n = Z.of_nat (length bs) -> 0 < n ->
  skb_load skb off n = Some bs.
Proof. intros. unfold skb_load. by rewrite (load_at _ _ bs). Qed.

(** A length-prefixed or 16-bit field, followed by the rest. *)
Lemma skb_load_net16 skb off x l :
  wf_skb skb -> at_off skb off (net16 x ++ l) ->
  ∃ b, skb_load skb off 2 = Some b /\ bpf_ntohs (obj16 b 0) = x.
Proof.
  intros Hw [Ha _]%at_app. exists (net16 x). split; [by apply skb_load_at|].
  pose proof (at_range _ _ _ Hw Ha) as (_ & _ & Hu).
  by apply (ntohs_port0 x []).
Qed.

Lemma skb_load_byte skb off x l :
  wf_skb skb -> at_off skb off (x :: l) -> skb_load skb off 1 = Some [x].
Proof. intros Hw [Ha _]%(at_app _ _ [x]). by apply skb_load_at. Qed.

Lemma at_u32 skb off bs : wf_skb skb -> at_off skb off bs -> u32 off = off.
Proof. intros Hw Ha. apply u32_small. pose proof (at_range _ _ _ Hw Ha). width. lia. Qed.

(** *** The versions of a ClientHello *)

Lemma client_versions_at skb vs n pos svo known tls :
  wf_skb skb -> at_off skb (pos + svo) (versions_bytes vs) ->
  0 <= pos -> 0 <= svo -> svo + 2 * Z.of_nat n < 2 ^ 16 ->
  client_versions n skb pos (svo + 2 * Z.of_nat (length vs)) svo known tls =
  (true, tls <| tls_hello_version :=
    (foldl prefer (known, tls_hello_version tls) (take n vs)).2 |>).
Proof.
  intros Hw. revert vs svo known tls.
  induction n as [|n IH]; intros vs svo known tls Ha Hpos Hsvo Hn.
  { cbn. by destruct tls. }
  cbn [client_versions]. destruct vs as [|v vs]; cbn [take foldl length].
  { rewrite (proj2 (Z.leb_le _ _)) by lia. by destruct tls. }
  rewrite (proj2 (Z.leb_gt _ _)) by lia.
  change (versions_bytes (v :: vs)) with (net16 v ++ versions_bytes vs) in Ha.
  rewrite (at_u32 _ _ _ Hw Ha).
  destruct (skb_load_net16 _ _ _ _ Hw Ha) as (b & -> & ->).
  apply at_app in Ha as [_ Ha]. change (Z.of_nat (length (net16 v))) with 2 in Ha.
  rewrite u16_small by (width; lia).
  replace (svo + 2 * Z.of_nat (S (length vs))) with (svo + 2 + 2 * Z.of_nat (length vs)) by lia.
  unfold prefer at 2. cbn [fst snd].
  destruct (negb known && IS_KNOWN_VERSION_EXT v); [|destruct (_ && _)];
    rewrite IH; rewrite ?Z.add_assoc; done || lia.
Qed.

(** *** The extensions of a ClientHello *)

Definition wf_extension (e : extension) : Prop := is_u16 e.1.

Lemma extension_bytes_length e :
  Z.of_nat (length (extension_bytes e)) = 4 + Z.of_nat (length e.2).
Proof. unfold extension_bytes. rewrite !length_app. cbn [net16 length]. lia. Qed.

Lemma extensions_bytes_cons e es :
  extensions_bytes (e :: es) = extension_bytes e ++ extensions_bytes es.
Proof. done. Qed.

Lemma extensions_bytes_app es es' :
  extensions_bytes (es ++ es') = extensions_bytes es ++ extensions_bytes es'.
Proof. unfold extensions_bytes. by rewrite bind_app. Qed.

(** The header of the extension at the current offset. *)
Lemma load_extension skb off e es :
  wf_skb skb -> at_off skb off (extensions_bytes (e :: es)) ->
  ∃ b, skb_load skb (u32 off) 4 = Some b /\ bpf_ntohs (obj16 b 0) = e.1 /\
    bpf_ntohs (obj16 b 2) = Z.of_nat (length e.2) /\
    at_off skb (off + 4) e.2 /\
    at_off skb (off + 4 + Z.of_nat (length e.2)) (extensions_bytes es).
Proof.
  intros Hw Ha. rewrite (at_u32 _ _ _ Hw Ha).
  rewrite extensions_bytes_cons in Ha. unfold extension_bytes in Ha.
  rewrite (app_assoc (net16 e.1)), <- app_assoc in Ha.
  apply at_app in Ha as [Hh Ha]. exists (net16 e.1 ++ net16 (Z.of_nat (length e.2))).
  pose proof (at_range _ _ _ Hw Hh) as (_ & _ & Hu).
  split_and!.
  - by apply skb_load_at.
  - by apply ntohs_port0.
  - rewrite <- (app_nil_r (net16 (Z.of_nat _))) in Hu |- *. by apply ntohs_port1.
  - by apply at_app in Ha as [Ha _].
  - by apply at_app in Ha as [_ Ha].
Qed.

(** The offsets of a loop over extensions stay inside 16 bits. *)
Lemma extension_offset off e es :
  0 <= off -> off + Z.of_nat (length (extensions_bytes (e :: es))) < 2 ^ 16 ->
  u16 (off + 4) = off + 4 /\
  u16 (off + 4 + Z.of_nat (length e.2)) = off + 4 + Z.of_nat (length e.2).
Proof.
  rewrite extensions_bytes_cons, length_app, Nat2Z.inj_add, extension_bytes_length.
  intros ??. rewrite !u16_small; [done|width; lia..].
Qed.

Lemma client_extensions_skip skb offset (es es' : list extension) n exts_len ext_offset tls :
  wf_skb skb -> Forall (λ e : extension, e.1 <> EXT_SUPPORTED_VERSIONS) es ->
  at_off skb (offset + ext_offset) (extensions_bytes (es ++ es')) ->
  0 <= ext_offset ->
  exts_len = ext_offset + Z.of_nat (length (extensions_bytes (es ++ es'))) ->
  exts_len < 2 ^ 16 ->
  client_extensions (length es + n) skb offset exts_len ext_offset tls =
  client_extensions n skb offset exts_len
    (ext_offset + Z.of_nat (length (extensions_bytes es))) tls.
Proof.
  intros Hw Hes. revert ext_offset.
  induction Hes as [|e es He _ IH]; intros ext_offset Ha H0 Hlen Hlt.
  { by rewrite Z.add_0_r. }
  cbn [length Nat.add client_extensions app] in *.
  assert (Hl := Hlen). rewrite extensions_bytes_cons, length_app, Nat2Z.inj_add,
    extension_bytes_length in Hl.
  rewrite (proj2 (Z.leb_gt exts_len ext_offset)) by lia.
  destruct (load_extension _ _ _ _ Hw Ha) as (b & -> & -> & -> & _ & Ha').
  rewrite (proj2 (Z.eqb_neq e.1 _)) by done.
  destruct (extension_offset ext_offset e (es ++ es')) as [-> ->]; [done|lia|].
  rewrite IH; [|by rewrite <- !Z.add_assoc in *|lia..].
  f_equal. rewrite extensions_bytes_cons, length_app, Nat2Z.inj_add, extension_bytes_length.
  lia.
Qed.

(** The end of the extensions: none is left, or the loop bound is reached. *)
Lemma client_extensions_end skb offset exts_len ext_offset n tls :
  exts_len <= ext_offset ->
  client_extensions n skb offset exts_len ext_offset tls = (None, tls).
Proof. intros ?. destruct n; [done|]. cbn. by rewrite (proj2 (Z.leb_le _ _)). Qed.

Lemma vec8_at skb off l bs :
  wf_skb skb -> at_off skb off (vec8 l ++ bs) ->
  skb_load skb off 1 = Some [Z.of_nat (length l)] /\
  at_off skb (off + (1 + Z.of_nat (length l))) bs.
Proof.
  intros Hw Ha. split; [exact (skb_load_byte _ _ _ (l ++ bs) Hw Ha)|].
  apply at_app in Ha as [_ Ha].
  by replace (1 + Z.of_nat (length l)) with (Z.of_nat (length (vec8 l))) by (cbn [vec8 length]; lia).
Qed.

Lemma vec16_at skb off l bs :
  wf_skb skb -> at_off skb off (vec16 l ++ bs) ->
  ∃ b, skb_load skb off 2 = Some b /\ bpf_ntohs (obj16 b 0) = Z.of_nat (length l) /\
    at_off skb (off + 2) (l ++ bs) /\
    at_off skb (off + (2 + Z.of_nat (length l))) bs.
Proof.
  intros Hw Ha. unfold vec16 in Ha. rewrite <- app_assoc in Ha.
  destruct (skb_load_net16 _ _ _ _ Hw Ha) as (b & Hb & Hn). exists b.
  apply at_app in Ha as [_ Ha]. change (Z.of_nat (length (net16 _))) with 2 in Ha.
  split_and!; [done..|]. apply at_app in Ha as [_ Ha]. by rewrite Z.add_assoc.
Qed.

(** *** Reading a ClientHello *)

(** Up to its extensions, a TLS 1.2 or 1.3 ClientHello leads to the loop. *)
Lemma read_client_hello_at skb off h tls :
  wf_skb skb -> at_off skb off (client_hello_bytes h) -> length (he_random h) = 32%nat ->
  ∃ exts_off,
    at_off skb exts_off (extensions_bytes (he_extensions h)) /\
    tls_read_client_hello skb off tls =
    match client_extensions 30 skb exts_off
            (Z.of_nat (length (extensions_bytes (he_extensions h)))) 0
            (tls <| tls_type := TLSTRACKER_BF_CLIENT_HELLO |>) with
    | (Some ret, tls) => (ret, tls)
    | (None, tls) => (TLSTRACKER_MATCHED, tls <| tls_hello_version := 0x0303 |>)
    end.
Proof.
  intros Hw Ha Hr. unfold tls_read_client_hello, client_hello_bytes in *.
  destruct (skb_load_net16 _ _ _ _ Hw Ha) as (b & -> & ->).
  change (negb (IS_KNOWN_VERSION 0x0303)) with false. change (0x0303 =? 0x0303) with true.
  apply at_app in Ha as [_ Ha]. change (Z.of_nat (length (net16 0x0303))) with 2 in Ha.
  rewrite (at_u32 _ (off + 2) _ Hw Ha).
  apply at_app in Ha as [_ Ha]. rewrite Hr in Ha. change (Z.of_nat 32) with 32 in Ha.
  cbv zeta. rewrite (at_u32 _ (off + 2 + 32) _ Hw Ha).
  destruct (vec8_at _ _ _ _ Hw Ha) as [-> Ha1]. clear Ha.
  change (byte_at [?x] 0) with x. rewrite (at_u32 _ _ _ Hw Ha1).
  destruct (vec16_at _ _ _ _ Hw Ha1) as (b1 & -> & -> & _ & Ha2). clear Ha1.
  rewrite (at_u32 _ _ _ Hw Ha2).
  destruct (vec8_at _ _ _ _ Hw Ha2) as [-> Ha3]. clear Ha2.
  change (byte_at [?x] 0) with x. rewrite (at_u32 _ _ _ Hw Ha3).
  rewrite <- (app_nil_r (vec16 _)) in Ha3.
  destruct (vec16_at _ _ _ _ Hw Ha3) as (b3 & -> & -> & Ha4 & _).
  rewrite app_nil_r in Ha4. rewrite (at_u32 _ _ _ Hw Ha4).
  eexists. split; [exact Ha4|].
  by destruct (client_extensions _ _ _ _ _ _) as [[]].
Qed.

(** A ClientHello that offers TLS versions in an extension. *)
Lemma client_hello_versions skb off h es es' vs tls :
  wf_skb skb -> at_off skb off (client_hello_bytes h) -> length (he_random h) = 32%nat ->
  he_extensions h = es ++ (EXT_SUPPORTED_VERSIONS, versions_data vs) :: es' ->
  Forall (λ e : extension, e.1 <> EXT_SUPPORTED_VERSIONS) es -> (length es < 30)%nat ->
  Z.of_nat (length (extensions_bytes (he_extensions h))) < 2 ^ 16 ->
  tls_hello_version tls = 0 ->
  tls_read_client_hello skb off tls =
    (TLSTRACKER_MATCHED,
     tls <| tls_type := TLSTRACKER_BF_CLIENT_HELLO |> <| tls_hello_version := best_version vs |>).
Proof.
  intros Hw Ha Hr He Hes Hn Hlen Htls.
  destruct (read_client_hello_at _ _ _ tls Hw Ha Hr) as (eo & Hao & ->).
  rewrite He in Hao, Hlen |- *. set (e := (_, versions_data vs)) in *.
  replace 30%nat with (length es + S (29 - length es))%nat by lia.
  rewrite (client_extensions_skip _ _ es (e :: es')) by (rewrite ?Z.add_0_r; done).
  cbn [client_extensions].
  rewrite extensions_bytes_app in Hao. apply at_app in Hao as [_ Hao].
  rewrite extensions_bytes_app, length_app, Nat2Z.inj_add, extensions_bytes_cons,
    length_app, Nat2Z.inj_add, extension_bytes_length in Hlen |- *.
  rewrite (proj2 (Z.leb_gt _ _)) by lia. rewrite !Z.add_0_l.
  destruct (load_extension _ _ _ _ Hw Hao) as (b & -> & -> & -> & Hd & _).
  subst e. cbn [fst snd]. change (EXT_SUPPORTED_VERSIONS =? 0x002b) with true.
  rewrite (u16_small (_ + 4)) by (width; lia). rewrite Z.add_assoc.
  rewrite (at_u32 _ _ _ Hw Hd).
  pose proof (at_range _ _ _ Hw Hd) as (H0 & _ & _).
  apply (at_app _ _ [_]) in Hd as [_ Hd]. change (Z.of_nat (length [_])) with 1 in Hd.
  assert (Hvl : Z.of_nat (length (versions_data vs)) = 1 + 2 * Z.of_nat (length vs)).
  { unfold versions_data, vec8, versions_bytes. clear. cbn [length].
    assert (length (vs ≫= net16) = 2 * length vs)%nat as ->; [|lia].
    induction vs as [|v vs IH]; [done|]. cbn. rewrite IH. lia. }
  rewrite Hvl, client_versions_at by (done || lia). cbn. by rewrite Htls.
Qed.

(** A ClientHello that does not. *)
Lemma client_hello_no_versions skb off h tls :
  wf_skb skb -> at_off skb off (client_hello_bytes h) -> length (he_random h) = 32%nat ->
  Forall (λ e : extension, e.1 <> EXT_SUPPORTED_VERSIONS) (he_extensions h) ->
  (length (he_extensions h) <= 30)%nat ->
  Z.of_nat (length (extensions_bytes (he_extensions h))) < 2 ^ 16 ->
  tls_read_client_hello skb off tls =
    (TLSTRACKER_MATCHED,
     tls <| tls_type := TLSTRACKER_BF_CLIENT_HELLO |> <| tls_hello_version := 0x0303 |>).
Proof.
  intros Hw Ha Hr Hes Hn Hlen.
  destruct (read_client_hello_at _ _ _ tls Hw Ha Hr) as (eo & Hao & ->).
  replace 30%nat with (length (he_extensions h) + (30 - length (he_extensions h)))%nat by lia.
  rewrite (client_extensions_skip _ _ (he_extensions h) [])
    by (rewrite ?Z.add_0_r, ?app_nil_r; done).
  by rewrite client_extensions_end by lia.
Qed.

(** *** Reading a ServerHello *)

(** The 16-bit field that an extension of a ServerHello starts with. *)
Definition field16 (d : list Z) : Z := be16 (byte_at d 0) (byte_at d 1).

Definition scan_extension (e : extension) (s : tls_info * Z) : tls_info * Z :=
  if e.1 =? EXT_SUPPORTED_VERSIONS
  then (s.1 <| tls_hello_version := field16 e.2 |>, u8 (s.2 + 1))
  else if e.1 =? EXT_KEY_SHARE
  then (s.1 <| tls_key_share := field16 e.2 |>, u8 (s.2 + 1))
  else s.

(** What the loop makes of a list of extensions: it stops behind the second
    of the two that it reads. *)
Fixpoint scan (es : list extension) (ext_read : Z) (tls : tls_info) : option Z * tls_info :=
  match es with
  | [] => (None, tls)
  | e :: es =>
      let '(tls, ext_read) := scan_extension e (tls, ext_read) in
      if ext_read =? 2 then (Some TLSTRACKER_MATCHED, tls) else scan es ext_read tls
  end.

(** The extensions that are read have the field. *)
Definition has_field (e : extension) : Prop :=
  e.1 = EXT_SUPPORTED_VERSIONS \/ e.1 = EXT_KEY_SHARE -> (2 <= length e.2)%nat.

Lemma load_field16 skb off d :
  wf_skb skb -> at_off skb off d -> (2 <= length d)%nat ->
  ∃ b, skb_load skb off 2 = Some b /\ bpf_ntohs (obj16 b 0) = field16 d.
Proof.
  intros Hw Ha Hl. rewrite <- (take_drop 2 d) in Ha.
  apply at_app in Ha as [Ha _]. exists (take 2 d).
  pose proof (at_range _ _ _ Hw Ha) as (_ & _ & Hu). split.
  - apply skb_load_at; [done..| |done]. rewrite length_take. lia.
  - rewrite ntohs_obj16 by done. by destruct d as [|? [|? ?]].
Qed.

Lemma server_extensions_at skb offset es n exts_len ext_offset ext_read tls :
  wf_skb skb -> Forall has_field es ->
  at_off skb (offset + ext_offset) (extensions_bytes es) ->
  0 <= ext_offset -> exts_len = ext_offset + Z.of_nat (length (extensions_bytes es)) ->
  exts_len < 2 ^ 16 ->
  server_extensions n skb offset exts_len ext_offset ext_read tls =
  scan (take n es) ext_read tls.
Proof.
  intros Hw Hes. revert n ext_offset ext_read tls.
  induction Hes as [|e es He _ IH]; intros n ext_offset ext_read tls Ha H0 Hlen Hlt;
    (destruct n as [|n]; [done|]); cbn [server_extensions take scan].
  { rewrite (proj2 (Z.leb_le _ _)); [done|]. cbn in Hlen. lia. }
  assert (Hl := Hlen). rewrite extensions_bytes_cons, length_app, Nat2Z.inj_add,
    extension_bytes_length in Hl.
  rewrite (proj2 (Z.leb_gt exts_len ext_offset)) by lia.
  destruct (load_extension _ _ _ _ Hw Ha) as (b & -> & -> & -> & Hd & Ha').
  destruct (extension_offset ext_offset e es) as [H1 H2]; [done|lia|].
  rewrite H1, Z.add_assoc, (at_u32 _ _ _ Hw Hd), H2.
  unfold scan_extension. cbn [fst snd]. unfold has_field in He.
  change 0x002b with EXT_SUPPORTED_VERSIONS. change 0x0033 with EXT_KEY_SHARE.
  destruct (e.1 =? EXT_SUPPORTED_VERSIONS) eqn:E1; [|destruct (e.1 =? EXT_KEY_SHARE) eqn:E2];
    bool_to_prop.
  1, 2: destruct (load_field16 _ _ _ Hw Hd ltac:(tauto)) as (b1 & -> & ->).
  all: destruct (_ =? 2); [done|];
    rewrite IH; rewrite ?Z.add_assoc; done || lia.
Qed.

(** The ServerHello up to the extensions. *)
Lemma server_hello_scan skb off h cipher compression tls :
  wf_skb skb -> at_off skb off (server_hello_bytes h cipher compression) ->
  length (he_random h) = 32%nat -> Forall has_field (he_extensions h) ->
  Z.of_nat (length (extensions_bytes (he_extensions h))) < 2 ^ 16 ->
  tls_read_server_hello skb off tls =
    match scan (take 30 (he_extensions h)) 0
      (tls <| tls_type := TLSTRACKER_BF_SERVER_HELLO |> <| tls_cipher_suite := cipher |>) with
    | (Some ret, tls) => (ret, tls)
    | (None, tls) => (TLSTRACKER_MATCHED, tls <| tls_hello_version := 0x0303 |>)
    end.
Proof.
  intros Hw Ha Hr Hf Hlen. unfold tls_read_server_hello, server_hello_bytes in *.
  destruct (skb_load_net16 _ _ _ _ Hw Ha) as (b & -> & ->).
  change (negb (IS_KNOWN_VERSION 0x0303)) with false. change (0x0303 =? 0x0303) with true.
  apply at_app in Ha as [_ Ha]. change (Z.of_nat (length (net16 0x0303))) with 2 in Ha.
  rewrite (at_u32 _ (off + 2) _ Hw Ha).
  apply at_app in Ha as [_ Ha]. rewrite Hr in Ha. change (Z.of_nat 32) with 32 in Ha.
  cbv zeta. rewrite (at_u32 _ (off + 2 + 32) _ Hw Ha).
  destruct (vec8_at _ _ _ _ Hw Ha) as [-> Ha1]. clear Ha.
  change (byte_at [?x] 0) with x. rewrite (at_u32 _ _ _ Hw Ha1).
  pose proof (proj1 (at_app _ _ _ _ Ha1)) as Hc.
  rewrite (load_at _ _ _ _ Hw Hc) by done. change (0 <? 0) with false. cbv iota.
  assert (Hn : bpf_ntohs (obj16 (net16 cipher) 0) = cipher).
  { pose proof (at_range _ _ _ Hw Hc) as (_ & _ & Hu). by apply (ntohs_port0 cipher []). }
  apply at_app in Ha1 as [_ Ha1]. change (Z.of_nat (length (net16 cipher))) with 2 in Ha1.
  apply (at_app _ _ [_]) in Ha1 as [_ Ha2]. change (Z.of_nat (length [_])) with 1 in Ha2.
  rewrite <- Z.add_assoc in Ha2. change (2 + 1) with 3 in Ha2. rewrite (at_u32 _ _ _ Hw Ha2).
  rewrite <- (app_nil_r (vec16 _)) in Ha2.
  destruct (vec16_at _ _ _ _ Hw Ha2) as (b2 & -> & -> & Ha3 & _).
  rewrite app_nil_r in Ha3. rewrite (at_u32 _ _ _ Hw Ha3).
  rewrite (server_extensions_at _ _ (he_extensions h)) by (rewrite ?Z.add_0_r; done).
  set (t := set tls_cipher_suite _ _).
  assert (t = tls <| tls_type := TLSTRACKER_BF_SERVER_HELLO |>
                <| tls_cipher_suite := cipher |>) as ->.
  { subst t. unfold set. cbn. by rewrite Hn. }
  by destruct (scan _ _ _) as [[]].
Qed.

(** Extensions that are not read do not matter. *)
Definition unread (e : extension) : Prop :=
  e.1 <> EXT_SUPPORTED_VERSIONS /\ e.1 <> EXT_KEY_SHARE.

Lemma scan_unread es es' ext_read tls :
  Forall unread es -> ext_read <> 2 -> scan (es ++ es') ext_read tls = scan es' ext_read tls.
Proof.
  intros Hes Hr. induction Hes as [|e es [H1 H2] _ IH]; [done|].
  cbn [app scan]. unfold scan_extension.
  rewrite (proj2 (Z.eqb_neq e.1 EXT_SUPPORTED_VERSIONS)), (proj2 (Z.eqb_neq e.1 EXT_KEY_SHARE))
    by done. cbn. by rewrite (proj2 (Z.eqb_neq ext_read 2)).
Qed.

(** Both extensions, in the one order or in the other. *)
Lemma scan_both e1 e2 e3 v g (swap : bool) tls :
  Forall unread e1 -> Forall unread e2 ->
  let x := (EXT_SUPPORTED_VERSIONS, v) in let y := (EXT_KEY_SHARE, g) in
  scan (e1 ++ (if swap then y else x) :: e2 ++ (if swap then x else y) :: e3) 0 tls =
  (Some TLSTRACKER_MATCHED,
   tls <| tls_hello_version := field16 v |> <| tls_key_share := field16 g |>).
Proof.
  intros H1 H2 x y. rewrite scan_unread by done. destruct tls.
  destruct swap; cbn [scan scan_extension fst snd]; subst x y; cbn;
    by rewrite scan_unread by done.
Qed.

(** Only the version: it is read, but then the loop ends without the second
    extension that it waits for. *)
Lemma scan_no_key_share e1 e2 v tls :
  Forall unread e1 -> Forall unread e2 ->
  scan (e1 ++ (EXT_SUPPORTED_VERSIONS, v) :: e2) 0 tls =
  (None, tls <| tls_hello_version := field16 v |>).
Proof.
  intros H1 H2. rewrite scan_unread by done. cbn.
  by rewrite <- (app_nil_r e2), scan_unread.
Qed.
End Spec.

(** ** Which version is kept *)

Lemma foldl_prefer_spec vs known best :
  let s := foldl prefer (known, best) vs in
  (known = true -> IS_KNOWN_VERSION_EXT best = true) ->
  (s.1 = true <-> known = true \/ ∃ v, v ∈ vs /\ IS_KNOWN_VERSION_EXT v = true) /\
  (s.1 = true -> IS_KNOWN_VERSION_EXT s.2 = true) /\
  (s.2 = best \/ s.2 ∈ vs) /\
  (known = s.1 -> best <= s.2) /\
  (∀ v, v ∈ vs -> IS_KNOWN_VERSION_EXT v = s.1 -> v <= s.2).
Proof.
  cbv zeta. revert known best. induction vs as [|v vs IH]; intros known best Hk; cbn [foldl].
  { cbn. split_and!; [|done|by left|lia|].
    - split; [by left|]. by intros [?|(v & []%not_elem_of_nil & _)].
    - by intros v []%not_elem_of_nil. }
  assert (Hstep : prefer (known, best) v =
    (known || IS_KNOWN_VERSION_EXT v,
     if negb known && IS_KNOWN_VERSION_EXT v then v
     else if Bool.eqb known (IS_KNOWN_VERSION_EXT v) && (best <? v) then v else best)).
  { unfold prefer. cbn. destruct known, (IS_KNOWN_VERSION_EXT v); cbn; done || by destruct (_ <? _). }
  rewrite Hstep. set (best' := if negb known && IS_KNOWN_VERSION_EXT v then v else _).
  assert (Hb : (best' = best \/ best' = v) /\
    (known || IS_KNOWN_VERSION_EXT v = true -> IS_KNOWN_VERSION_EXT best' = true) /\
    (known = known || IS_KNOWN_VERSION_EXT v -> best <= best') /\
    (IS_KNOWN_VERSION_EXT v = known || IS_KNOWN_VERSION_EXT v -> v <= best')).
  { subst best'. destruct known; cbn [negb andb orb Bool.eqb].
    - specialize (Hk eq_refl). destruct (IS_KNOWN_VERSION_EXT v) eqn:Ev; cbn [andb].
      + destruct (best <? v) eqn:El; bool_to_prop; split_and!; auto; lia.
      + split_and!; auto; [lia|done].
    - destruct (IS_KNOWN_VERSION_EXT v) eqn:Ev; cbn [andb].
      + split_and!; auto; [done|lia].
      + destruct (best <? v) eqn:El; bool_to_prop; split_and!; auto; done || lia. }
  clearbody best'. destruct Hb as (Hb1 & Hb2 & Hb3 & Hb4).
  destruct (IH (known || IS_KNOWN_VERSION_EXT v) best' Hb2) as (I1 & I2 & I3 & I4 & I5).
  set (s := foldl prefer _ vs) in *. split_and!.
  - rewrite I1. setoid_rewrite elem_of_cons. rewrite orb_true_iff. split.
    + intros [[?|?]|(u & ? & ?)]; eauto.
    + intros [?|(u & [->|?] & ?)]; eauto.
  - done.
  - rewrite elem_of_cons. destruct I3 as [->|?]; [|by right; right]. destruct Hb1 as [->| ->]; auto.
  - intros Hs. destruct known.
    + etransitivity; [by apply Hb3|]. by apply I4.
    + destruct (IS_KNOWN_VERSION_EXT v) eqn:Ev; cbn [orb] in *.
      * by rewrite (proj2 I1 (or_introl eq_refl)) in Hs.
      * etransitivity; [by apply Hb3|]. by apply I4.
  - intros u [->|Hu]%elem_of_cons Hku; [|by apply I5].
    destruct (IS_KNOWN_VERSION_EXT v) eqn:Ev.
    + rewrite orb_true_r in *. etransitivity; [by apply Hb4|]. by apply I4.
    + destruct known; cbn [orb] in *.
      * by rewrite (proj2 I1 (or_introl eq_refl)) in Hku.
      * etransitivity; [by apply Hb4|]. by apply I4.
Qed.

(** The version that a ClientHello is taken to offer is the highest known one
    of the first five, when there is one. *)
Lemma best_version_known vs :
  (∃ v, v ∈ take 5 vs /\ IS_KNOWN_VERSION_EXT v = true) ->
  best_version vs ∈ take 5 vs /\ IS_KNOWN_VERSION_EXT (best_version vs) = true /\
  ∀ v, v ∈ take 5 vs -> IS_KNOWN_VERSION_EXT v = true -> v <= best_version vs.
Proof.
  intros Hv. unfold best_version.
  destruct (foldl_prefer_spec (take 5 vs) false 0) as (I1 & I2 & I3 & _ & I5); [done|].
  set (s := foldl prefer _ _) in *.
  assert (Hs : s.1 = true) by (apply I1; by right).
  rewrite Hs in *. specialize (I2 eq_refl). split_and!; auto.
  destruct I3 as [E|?]; [|done]. by rewrite E in I2.
Qed.

(** ** Safety and well-formedness *)

Definition wf_tls_info (t : tls_info) : Prop :=
  is_u16 (tls_hello_version t) /\ is_u16 (tls_cipher_suite t) /\ is_u16 (tls_key_share t) /\
  is_u8 (tls_type t).

Section Safe.
Context {H : Host} {K : Kernel} {KL : KernelLaws K}.

Lemma load_u8 skb off n ret bs :
  wf_skb skb -> 0 <= off -> 0 < n -> k_skb_load_bytes skb off n = (ret, bs) -> Forall is_u8 bs.
Proof.
  intros (_ & _ & _ & Hb & _) H0 Hn Hl.
  destruct (skb_load_bytes_ok skb off n) as (_ & Hf & _); [done..|]. by rewrite Hl in Hf.
Qed.

Lemma skb_load_u8 skb off n bs :
  wf_skb skb -> 0 <= off -> 0 < n -> skb_load skb off n = Some bs -> Forall is_u8 bs.
Proof.
  intros Hw H0 Hn. unfold skb_load. destruct (k_skb_load_bytes skb off n) as [ret b] eqn:E.
  case_match; [done|]. intros [= <-]. by eapply load_u8.
Qed.

Lemma u32_pos x : 0 <= u32 x.
Proof. apply u32_range. Qed.

Lemma obj16_u16 l i : Forall is_u8 l -> is_u16 (obj16 l i).
Proof. intros. unfold obj16, mem16. case_match; auto with width. Qed.

Lemma wf_tls_set_version t v : wf_tls_info t -> is_u16 v -> wf_tls_info (t <| tls_hello_version := v |>).
Proof. unfold wf_tls_info. cbn. tauto. Qed.
Lemma wf_tls_set_cipher t v : wf_tls_info t -> is_u16 v -> wf_tls_info (t <| tls_cipher_suite := v |>).
Proof. unfold wf_tls_info. cbn. tauto. Qed.
Lemma wf_tls_set_share t v : wf_tls_info t -> is_u16 v -> wf_tls_info (t <| tls_key_share := v |>).
Proof. unfold wf_tls_info. cbn. tauto. Qed.
Lemma wf_tls_set_type t v : wf_tls_info t -> is_u8 v -> wf_tls_info (t <| tls_type := v |>).
Proof. unfold wf_tls_info. cbn. tauto. Qed.
#[local] Hint Resolve wf_tls_set_version wf_tls_set_cipher wf_tls_set_share wf_tls_set_type
  skb_load_u8 u32_pos obj16_u16 : width.

Lemma client_versions_wf n skb pos ext_len svo known tls :
  wf_skb skb -> wf_tls_info tls ->
  wf_tls_info (client_versions n skb pos ext_len svo known tls).2.
Proof.
  intros Hw. revert svo known tls. induction n as [|n IH]; intros svo known tls Ht; [done|].
  cbn [client_versions]. case_match; [done|].
  destruct (skb_load _ _ _) as [b|] eqn:E; [|done].
  assert (Hb : is_u16 (bpf_ntohs (obj16 b 0))).
  { apply bpf_ntohs_u16. eapply (skb_load_u8 skb); [..|exact E]; auto with width; done. }
  repeat case_match; simplify_eq; apply IH; solve [auto with width].
Qed.

Lemma client_extensions_wf n skb offset exts_len ext_offset tls :
  wf_skb skb -> wf_tls_info tls ->
  wf_tls_info (client_extensions n skb offset exts_len ext_offset tls).2.
Proof.
  intros Hw. revert ext_offset tls. induction n as [|n IH]; intros ext_offset tls Ht; [done|].
  cbn [client_extensions]. case_match; [done|].
  destruct (skb_load _ _ _) as [b|]; [|done]. case_match; [|by apply IH].
  match goal with |- context [client_versions ?n ?s ?p ?l ?o ?k ?t] =>
    pose proof (client_versions_wf n s p l o k t Hw Ht) as Hv end.
  by destruct (client_versions _ _ _ _ _ _ _).
Qed.

Lemma server_extensions_wf n skb offset exts_len ext_offset ext_read tls :
  wf_skb skb -> wf_tls_info tls ->
  wf_tls_info (server_extensions n skb offset exts_len ext_offset ext_read tls).2.
Proof.
  intros Hw. revert ext_offset ext_read tls.
  induction n as [|n IH]; intros ext_offset ext_read tls Ht; [done|].
  cbn [server_extensions]. case_match; [done|].
  destruct (skb_load _ _ 4) as [b|]; [|done].
  destruct (skb_load _ _ 2) as [b2|] eqn:E.
  - assert (Hb : is_u16 (bpf_ntohs (obj16 b2 0))).
    { apply bpf_ntohs_u16. eapply (skb_load_u8 skb); [..|exact E]; auto with width; done. }
    repeat case_match; simplify_eq; try apply IH; cbn [snd]; solve [auto with width].
  - repeat case_match; simplify_eq; try apply IH; cbn [snd]; solve [auto with width].
Qed.

Lemma type_u8 c : 0 <= c < 64 -> is_u8 c.
Proof. width. lia. Qed.

Lemma tls_read_client_hello_wf skb offset tls :
  wf_skb skb -> 0 <= offset -> wf_tls_info tls ->
  wf_tls_info (tls_read_client_hello skb offset tls).2.
Proof.
  intros Hw Ho Ht. unfold tls_read_client_hello.
  destruct (skb_load skb offset 2) as [b|] eqn:E; [|done].
  assert (Hb : is_u16 (bpf_ntohs (obj16 b 0))).
  { apply bpf_ntohs_u16. by eapply (skb_load_u8 skb); [..|exact E]. }
  clear E. case_match; [done|].
  assert (Ht' : wf_tls_info (tls <| tls_type := TLSTRACKER_BF_CLIENT_HELLO |>)).
  { by apply wf_tls_set_type, type_u8. }
  revert Ht'. generalize (tls <| tls_type := TLSTRACKER_BF_CLIENT_HELLO |>). intros t Ht'.
  destruct (_ =? 0x0303); [|by apply wf_tls_set_version].
  do 4 (destruct (skb_load _ _ _); [|done]).
  match goal with |- context [client_extensions ?n ?s ?p ?l ?o ?k] =>
    pose proof (client_extensions_wf n s p l o k Hw Ht') as Hv end.
  destruct (client_extensions _ _ _ _ _ _) as [[] ?]; [done|]. by apply wf_tls_set_version.
Qed.

Lemma tls_read_server_hello_wf skb offset tls :
  wf_skb skb -> 0 <= offset -> wf_tls_info tls ->
  wf_tls_info (tls_read_server_hello skb offset tls).2.
Proof.
  intros Hw Ho Ht. unfold tls_read_server_hello.
  destruct (skb_load skb offset 2) as [b|] eqn:E; [|done].
  assert (Hb : is_u16 (bpf_ntohs (obj16 b 0))).
  { apply bpf_ntohs_u16. by eapply (skb_load_u8 skb); [..|exact E]. }
  clear E. case_match; [done|].
  assert (Ht' : wf_tls_info (tls <| tls_type := TLSTRACKER_BF_SERVER_HELLO |>)).
  { by apply wf_tls_set_type, type_u8. }
  revert Ht'. generalize (tls <| tls_type := TLSTRACKER_BF_SERVER_HELLO |>). intros t Ht'.
  destruct (_ =? 0x0303); [|by apply wf_tls_set_version].
  destruct (skb_load _ _ _); [|done].
  destruct (k_skb_load_bytes _ _ _) as [err c] eqn:Ec.
  assert (Hc : Forall is_u8 c) by (eapply (load_u8 skb); [..|exact Ec]; auto with width; done).
  destruct (err <? 0); [by apply wf_tls_set_cipher; [|apply obj16_u16]|].
  assert (Ht2 : wf_tls_info (t <| tls_cipher_suite := obj16 c 0 |>
                               <| tls_cipher_suite ::= bpf_ntohs |>)).
  { pose proof (bpf_ntohs_u16 c 0 Hc). unfold wf_tls_info in *. cbn. tauto. }
  revert Ht2. generalize (t <| tls_cipher_suite := obj16 c 0 |>
    <| tls_cipher_suite ::= bpf_ntohs |>). intros t2 Ht2.
  destruct (skb_load _ _ _); [|done].
  match goal with |- context [server_extensions ?n ?s ?p ?l ?o ?r ?k] =>
    pose proof (server_extensions_wf n s p l o r k Hw Ht2) as Hv end.
  destruct (server_extensions _ _ _ _ _ _ _) as [[] ?]; [done|]. by apply wf_tls_set_version.
Qed.

(** The tracker never reads outside the packet, and what it reports fits the
    fields it is stored in. *)
Lemma track_tls_ok cfg skb proto l4_hdr flags tls :
  wf_skb skb -> wf_tls_info tls -> (∀ off, l4_hdr = Some off -> 0 <= off) ->
  ∃ ret tls', track_tls cfg skb proto l4_hdr flags tls = Some (ret, tls') /\ wf_tls_info tls'.
Proof.
  intros Hw Ht Hl4. unfold track_tls, track_tls_tcp.
  case_match; [by eexists _, _|]. case_match; [|by eexists _, _].
  destruct l4_hdr as [off|]; [|by eexists _, _]. specialize (Hl4 off eq_refl).
  case_match; [by eexists _, _|]. bool_to_prop.
  destruct (load_ok (skb_data skb) off sizeof_tcphdr) as (b & -> & _); [done|done|lia|].
  cbn [fmap option_fmap option_map mbind option_bind].
  case_match; [by eexists _, _|].
  assert (Hset : ∀ c, 0 <= c < 64 -> wf_tls_info (tls <| tls_type := c |>))
    by (intros; by apply wf_tls_set_type, type_u8).
  set (res := match skb_load _ _ _ with Some _ => _ | None => _ end).
  exists res.1, res.2. split; [by destruct res|]. subst res.
  destruct (skb_load _ _ 3); [|done]. case_match; [done|].
  destruct (_ =? CONTENT_TYPE_HANDSHAKE).
  - destruct (skb_load _ _ 1); [|done].
    case_match; [by apply tls_read_client_hello_wf; auto with width|].
    case_match; [by apply tls_read_server_hello_wf; auto with width|].
    by case_match; [apply Hset|].
  - repeat (case_match; [by apply Hset|]). done.
Qed.
End Safe.

(** ** TLS records in TCP segments *)

(** A record that starts with a handshake message of type [type]. *)
Definition handshake_record (version len type : Z) (len24 body : list Z) : list Z :=
  [CONTENT_TYPE_HANDSHAKE] ++ net16 version ++ net16 len ++ [type] ++ len24 ++ body.

Section Records.
Context {H : Host} {K : Kernel} {KL : KernelLaws K}.

(** The TCP header of the packet, and where its payload starts. *)
Definition tcp_payload (skb : sk_buff) (l4 : Z) : option Z :=
  tcp ← decode_tcphdr <$> slice (skb_data skb) l4 sizeof_tcphdr;
  if th_doff tcp =? 0 then None else Some (l4 + 4 * th_doff tcp).

Lemma track_tls_handshake cfg skb l4 flags version len type len24 body off tls :
  wf_skb skb -> enable_tls_usage_tracking cfg <> 0 -> 0 <= l4 ->
  Z.land (u8 flags) 0x10 <> 0 -> tcp_payload skb l4 = Some off ->
  IS_KNOWN_VERSION version = true -> length len24 = 3%nat ->
  at_off skb off (handshake_record version len type len24 body) ->
  at_off skb (off + 9) body /\
  track_tls cfg skb IPPROTO_TCP (Some l4) flags tls =
    Some (if type =? 0x01 then tls_read_client_hello skb (off + 9) tls
          else if type =? 0x02 then tls_read_server_hello skb (off + 9) tls
          else if (type =? 0x10) || (type =? 0x0b) || (type =? 0x0c) || (type =? 0x0e)
          then (TLSTRACKER_MATCHED, tls <| tls_type := TLSTRACKER_BF_OTHER_HANDSHAKE |>)
          else (TLSTRACKER_UNKNOWN, tls)).
Proof.
  intros Hw Hen Hl4 Hack Hpay Hv H24 Ha. unfold track_tls, track_tls_tcp.
  rewrite (proj2 (Z.eqb_neq _ _)) by done. rewrite (proj2 (Z.eqb_neq (Z.land _ _) _)) by done.
  change (IPPROTO_TCP =? IPPROTO_TCP) with true. cbn [andb negb].
  unfold tcp_payload in Hpay.
  destruct (slice (skb_data skb) l4 sizeof_tcphdr) as [b|] eqn:Hb; [|done].
  cbn [fmap option_fmap option_map mbind option_bind] in Hpay |- *.
  destruct (th_doff (decode_tcphdr b) =? 0) eqn:Ed; [done|]. injection Hpay as <-. bool_to_prop.
  assert (Hd : 0 <= th_doff (decode_tcphdr b) < 16).
  { cbn. assert (is_u8 (byte_at b 12)) as [Hb0 Hb1].
    { apply byte_at_u8. eapply slice_Forall; [|exact Hb]. apply Hw. }
    rewrite Z.shiftr_div_pow2 by lia. change (2 ^ 4) with 16. change (2 ^ 8) with 256 in Hb1.
    split; [by apply Z.div_pos; lia|by apply Z.div_lt_upper_bound; lia]. }
  change (Z.shiftr (byte_at b 12) 4) with (th_doff (decode_tcphdr b)) in Ha.
  set (doff := th_doff (decode_tcphdr b)) in *.
  rewrite (proj2 (Z.ltb_ge _ _)) by (pose proof (slice_inside _ _ _ _ Hb); lia).
  assert (u8 (doff * 4) = 4 * doff) as -> by (rewrite u8_small; [lia|width; lia]).
  rewrite (proj2 (Z.eqb_neq (4 * doff) 0)) by lia.
  unfold handshake_record in Ha. rewrite (at_u32 _ _ _ Hw Ha).
  assert (Ha3 : at_off skb (l4 + 4 * doff) ([CONTENT_TYPE_HANDSHAKE] ++ net16 version)).
  { rewrite app_assoc in Ha. by apply at_app in Ha as [Ha _]. }
  rewrite (skb_load_at _ _ _ 3 Hw Ha3) by done.
  pose proof (at_range _ _ _ Hw Ha3) as (_ & _ & Hu3).
  change (byte_at ([CONTENT_TYPE_HANDSHAKE] ++ net16 version) 0) with CONTENT_TYPE_HANDSHAKE.
  assert (bpf_ntohs (obj16 ([CONTENT_TYPE_HANDSHAKE] ++ net16 version) 1) = version) as ->.
  { rewrite <- (app_nil_r (net16 version)). apply ntohs_net16; [done|]. by rewrite app_nil_r. }
  cbv zeta. rewrite Hv. cbn [negb].
  change (CONTENT_TYPE_HANDSHAKE =? CONTENT_TYPE_HANDSHAKE) with true. cbv iota.
  rewrite !app_assoc in Ha. rewrite <- (app_assoc _ [type]), <- (app_assoc _ ([type] ++ _)) in Ha.
  apply at_app in Ha as [_ Ha].
  change (Z.of_nat (length (([CONTENT_TYPE_HANDSHAKE] ++ net16 version) ++ net16 len))) with 5 in Ha.
  rewrite <- !app_assoc in Ha. rewrite (at_u32 _ _ _ Hw Ha).
  rewrite (skb_load_byte _ _ _ _ Hw Ha). change (byte_at [type] 0) with type.
  rewrite app_assoc in Ha. apply at_app in Ha as [_ Ha].
  rewrite length_app, H24 in Ha. change (Z.of_nat (length [type] + 3)) with 4 in Ha.
  rewrite (at_u32 _ _ _ Hw Ha).
  replace (l4 + 4 * doff + 5 + 4) with (l4 + 4 * doff + 9) in * by lia.
  by split.
Qed.

(** An acknowledged TCP segment whose payload, at [off], is a handshake record
    with a message of type [type] and contents [body]. *)
Definition carries_handshake (cfg : config) (skb : sk_buff) (l4 flags type : Z) (body : list Z)
    (off : Z) : Prop :=
  wf_skb skb /\ enable_tls_usage_tracking cfg <> 0 /\ 0 <= l4 /\
  Z.land (u8 flags) 0x10 <> 0 /\ tcp_payload skb l4 = Some off /\
  ∃ version len len24, IS_KNOWN_VERSION version = true /\ length len24 = 3%nat /\
    at_off skb off (handshake_record version len type len24 body).

Lemma track_tls_hello cfg skb l4 flags type body off tls :
  carries_handshake cfg skb l4 flags type body off ->
  at_off skb (off + 9) body /\
  (type = 0x01 -> track_tls cfg skb IPPROTO_TCP (Some l4) flags tls
                  = Some (tls_read_client_hello skb (off + 9) tls)) /\
  (type = 0x02 -> track_tls cfg skb IPPROTO_TCP (Some l4) flags tls
                  = Some (tls_read_server_hello skb (off + 9) tls)).
Proof.
  intros (Hw & Hen & Hl4 & Hack & Hpay & version & len & len24 & Hv & H24 & Ha).
  destruct (track_tls_handshake cfg skb l4 flags version len type len24 body off tls)
    as [Hb ->]; [done..|]. split; [done|]. split; by intros ->.
Qed.
End Records.
