(* ===== verification/Dns.v ===== *)
(** * The DNS tracker ([bpf/dns_tracker.h])

    Correlates DNS queries and responses: a query leaves its time in
    [dns_flows] under a key made of the addresses, the ports, the transaction
    id and the protocol; the response, whose addresses and ports are reversed,
    takes it out again and computes the latency.  The raw name of the question
    goes through a per-CPU buffer. *)
From S2P Require Import Prelude Machine Types Kernel Maps Safety PacketUtils.

Definition DNS_QR_FLAG : Z := 0x8000.
Definition UDP_MAXMSG : Z := 512.
Definition sizeof_dns_header : Z := 12.

(** The fields of [struct dns_header] that the tracker reads, in the order of
    the load. *)
Record dns_header := mk_dns_header { dns_id : Z; dns_flags : Z }.

Definition fill_dns_id (id : flow_id) (dns_flow : dns_flow_id) (dns_id : Z) (reverse : bool)
    : dns_flow_id :=
  let dns_flow := dns_flow <| dfid_id := dns_id |>
    <| dfid_protocol := fid_transport_protocol id |> in
  if reverse then
    dns_flow <| dfid_src_ip := fid_dst_ip id |> <| dfid_dst_ip := fid_src_ip id |>
      <| dfid_src_port := fid_dst_port id |> <| dfid_dst_port := fid_src_port id |>
  else
    dns_flow <| dfid_src_ip := fid_src_ip id |> <| dfid_dst_ip := fid_dst_ip id |>
      <| dfid_src_port := fid_src_port id |> <| dfid_dst_port := fid_dst_port id |>.

Section Tracker.
Context {H : Host} {K : Kernel}.

Definition decode_dns_header (b : list Z) : dns_header :=
  mk_dns_header (obj16 b 0) (obj16 b 2).

(** [d] is the linear data; [None] is an access outside it.  The local [len]
    is a [u8]; the comparison with [UDP_MAXMSG] is on [size_t]. *)
Definition calc_dns_header_offset (d : list Z) (pkt : pkt_info) : option Z :=
  let data_end := Z.of_nat (length d) in
  let proto := fid_transport_protocol (pi_id pkt) in
  if proto =? IPPROTO_TCP then
    match pi_l4_hdr pkt with
    | None => Some 0
    | Some tcp =>
        if data_end <? tcp + sizeof_tcphdr then Some 0
        else
          tcp ← decode_tcphdr <$> slice d tcp sizeof_tcphdr;
          Some (u8 (th_doff tcp * 4 + 2))
    end
  else if proto =? IPPROTO_UDP then
    match pi_l4_hdr pkt with
    | None => Some 0
    | Some udp =>
        if data_end <? udp + sizeof_udphdr then Some 0
        else
          udp ← decode_udphdr <$> slice d udp sizeof_udphdr;
          let len := u8 (bpf_ntohs (uh_len udp)) in
          if UDP_MAXMSG <? u64 (len - sizeof_udphdr) then Some 0
          else Some (u8 sizeof_udphdr)
    end
  else Some 0.

(** The bounded loop from index [i]. *)
Fixpoint dns_port_loop (n : nat) (cfg : config) (port i : Z) : bool :=
  match n with
  | O => false
  | S n =>
      if dns_ports_count cfg <=? i then false
      else if port =? default 0 (dns_ports cfg !! Z.to_nat i) then true
      else dns_port_loop n cfg port (i + 1)
  end.
Definition is_dns_port (cfg : config) (port : Z) : bool :=
  dns_port_loop (Z.to_nat MAX_DNS_PORTS) cfg port 0.

Definition is_query (flags : Z) : bool := Z.land flags DNS_QR_FLAG =? 0.

(** The part of [track_dns_packet] behind the load of the header, whose
    result is [ret]. *)
Definition track_dns_message (skb : sk_buff) (pkt : pkt_info) (ret dns_offset id flags : Z)
    : prog (Z * pkt_info) :=
  ts ← call bpf_ktime_get_ns;
  if is_query flags then
    let dns_req := fill_dns_id (pi_id pkt) zeroed id false in
    ret ← call (bpf_map_update_elem dns_flows dns_req ts BPF_NOEXIST);
    mret (ret, pkt)
  else
    let dns_req := fill_dns_id (pi_id pkt) zeroed id true in
    value ← call (bpf_map_lookup_elem dns_flows dns_req);
    '(ret, pkt) ←
      match value with
      | Some p =>
          v ← call (elem_read dns_flows p);
          let pkt := pkt <| pi_dns_latency := u64 (ts - v) |> in
          _ ← call (bpf_map_delete_elem dns_flows dns_req);
          mret (ret, pkt)
      | None => mret (ENOENT, pkt)
      end;
    let pkt := pkt <| pi_dns_id := id |> <| pi_dns_flags := flags |> in
    dns_buf ← call (bpf_map_lookup_elem dns_name_map (0 : key dns_name_map));
    match dns_buf with
    | Some buf =>
        let qname_off := u32 (dns_offset + sizeof_dns_header) in
        let '(_, name) := k_skb_load_bytes skb qname_off (DNS_NAME_MAX_LEN - 1) in
        _ ← call (elem_write dns_name_map buf
              (λ old, (<[31%nat := 0]> (name ++ drop (length name) old), 0)));
        mret (ret, pkt <| pi_dns_name := Some buf |>)
    | None => mret (ret, pkt)
    end.

Definition track_dns_packet (cfg : config) (skb : sk_buff) (pkt : pkt_info)
    : prog (Z * pkt_info) :=
  if is_dns_port cfg (fid_dst_port (pi_id pkt)) || is_dns_port cfg (fid_src_port (pi_id pkt))
  then
    len ← deref (calc_dns_header_offset (skb_data skb) pkt);
    if len =? 0 then mret (EINVAL, pkt)
    else
      let dns_offset := u32 (default 0 (pi_l4_hdr pkt) + len) in
      let '(ret, dns) := k_skb_load_bytes skb dns_offset sizeof_dns_header in
      if ret <? 0 then mret (- ret, pkt)
      else
        let dns := decode_dns_header dns in
        track_dns_message skb pkt ret dns_offset (bpf_ntohs (dns_id dns))
          (bpf_ntohs (dns_flags dns))
  else mret (0, pkt).
End Tracker.

(** ** The port list *)

Lemma dns_port_loop_spec n cfg port i :
  0 <= i -> dns_ports_count cfg <= Z.of_nat (length (dns_ports cfg)) ->
  dns_port_loop n cfg port i = true <->
  ∃ j, i <= j < Z.min (i + Z.of_nat n) (dns_ports_count cfg) /\
       dns_ports cfg !! Z.to_nat j = Some port.
Proof.
  intros H0 Hc. revert i H0. induction n as [|n IH]; intros i H0; cbn [dns_port_loop].
  { split; [done | intros (j & ? & _); lia]. }
  destruct (dns_ports_count cfg <=? i) eqn:E; bool_to_prop.
  { split; [done | intros (j & ? & _); lia]. }
  destruct (lookup_lt_is_Some_2 (dns_ports cfg) (Z.to_nat i)) as [p Hp]; [lia|].
  rewrite Hp. change (default 0 (Some p)) with p.
  destruct (port =? p) eqn:Ep; bool_to_prop.
  - subst p. split; [|done]. intros _. exists i. split; [lia|done].
  - rewrite IH by lia. split; intros (j & Hj & Hl).
    + exists j. split; [lia|done].
    + exists j. split; [|done]. destruct (decide (j = i)) as [->|]; [congruence|lia].
Qed.

(** A port is a DNS port when it is among the configured ones. *)
Lemma is_dns_port_spec cfg port :
  length (dns_ports cfg) = Z.to_nat MAX_DNS_PORTS -> 0 <= dns_ports_count cfg <= MAX_DNS_PORTS ->
  is_dns_port cfg port = true <-> port ∈ take (Z.to_nat (dns_ports_count cfg)) (dns_ports cfg).
Proof.
  intros Hl Hc. unfold is_dns_port.
  rewrite dns_port_loop_spec by (rewrite ?Hl; unfold MAX_DNS_PORTS in *; lia).
  rewrite list_elem_of_lookup. split.
  - intros (j & Hj & Hp). exists (Z.to_nat j). rewrite lookup_take_lt; [done|lia].
  - intros (j & Hj). apply lookup_take_Some in Hj as [Hj Hlt].
    exists (Z.of_nat j). rewrite Nat2Z.id. split; [|done]. unfold MAX_DNS_PORTS in *. lia.
Qed.

(** ** Safety *)

(** What the tracker may change of the packet info. *)
Record dns_filled (pkt pkt' : pkt_info) : Prop := {
  dns_same_id : pi_id pkt' = pi_id pkt;
  dns_same_ts : pi_current_ts pkt' = pi_current_ts pkt;
  dns_same_pkt_flags : pi_flags pkt' = pi_flags pkt;
  dns_same_l4 : pi_l4_hdr pkt' = pi_l4_hdr pkt;
  dns_same_dscp : pi_dscp pkt' = pi_dscp pkt;
  dns_id_u16 : is_u16 (pi_dns_id pkt');
  dns_flags_u16 : is_u16 (pi_dns_flags pkt');
  dns_latency_u64 : is_u64 (pi_dns_latency pkt');
}.

Definition wf_dns_info (pkt : pkt_info) : Prop :=
  is_u16 (pi_dns_id pkt) /\ is_u16 (pi_dns_flags pkt) /\ is_u64 (pi_dns_latency pkt).

Section Safe.
Context {H : Host} {K : Kernel} {KL : KernelLaws K}.

Lemma calc_dns_header_offset_ok d pkt :
  Forall is_u8 d -> (∀ off, pi_l4_hdr pkt = Some off -> 0 <= off) ->
  ∃ n, calc_dns_header_offset d pkt = Some n /\ is_u8 n.
Proof.
  intros Hd Hl4. unfold calc_dns_header_offset.
  case_match; [|case_match]; [..|by exists 0; auto with width].
  - destruct (pi_l4_hdr pkt) as [off|]; [|by exists 0; auto with width].
    case_match; [by exists 0; auto with width|]. bool_to_prop. specialize (Hl4 off eq_refl).
    destruct (load_ok d off sizeof_tcphdr) as (b & -> & _); [done|done|lia|].
    cbn [fmap option_fmap option_map mbind option_bind]. eexists. split; [done|apply u8_range].
  - destruct (pi_l4_hdr pkt) as [off|]; [|by exists 0; auto with width].
    case_match; [by exists 0; auto with width|]. bool_to_prop. specialize (Hl4 off eq_refl).
    destruct (load_ok d off sizeof_udphdr) as (b & -> & _); [done|done|lia|].
    cbn [fmap option_fmap option_map mbind option_bind].
    case_match; eexists; (split; [done|]); auto with width.
Qed.

Lemma load_ret skb off n :
  wf_skb skb -> 0 <= off -> 0 < n ->
  length (k_skb_load_bytes skb off n).2 = Z.to_nat n /\
  Forall is_u8 (k_skb_load_bytes skb off n).2 /\
  -4096 < (k_skb_load_bytes skb off n).1 <= 0.
Proof.
  intros (_ & _ & _ & Hb & _) H0 Hn.
  destruct (skb_load_bytes_ok skb off n) as (Hl & Hf & Hr); [done..|].
  split_and!; [done..| |]; case_match; rewrite ?Hr; cbn; lia.
Qed.

Lemma dns_name_ok name old :
  is_bytes 32 old -> length name = 31%nat -> Forall is_u8 name ->
  is_bytes 32 (<[31%nat := 0]> (name ++ drop (length name) old)).
Proof.
  intros [Hl Hf] Hn Hu. split.
  - rewrite length_insert, length_app, length_drop. lia.
  - apply Forall_insert; [|width; lia]. apply Forall_app. split; [done|]. by apply Forall_drop.
Qed.

(** The tracker never faults, its result fits an [int] errno and it only
    touches the DNS fields of the packet info. *)
Lemma track_dns_packet_safe cfg skb pkt :
  wf_skb skb -> wf_dns_info pkt -> (∀ off, pi_l4_hdr pkt = Some off -> 0 <= off) ->
  safe (λ r, -4096 < r.1 < 4096 /\ dns_filled pkt r.2) (track_dns_packet cfg skb pkt).
Proof.
  intros Hw (Hi & Hf & Hl) Hl4. unfold track_dns_packet.
  assert (Hsame : dns_filled pkt pkt) by by split.
  case_match; [|apply safe_ret; split; [cbn; lia|done]].
  destruct (calc_dns_header_offset_ok (skb_data skb) pkt) as (len & Hlen & Hlu);
    [apply Hw|done|].
  eapply safe_bind, safe_deref; [done|].
  case_match; [apply safe_ret; by split; [unfold EINVAL; cbn; lia|]|].
  set (off := u32 (_ + len)). assert (0 <= off) by apply u32_range.
  destruct (load_ret skb off sizeof_dns_header) as (Hbl & Hbu & Hr); [done..|].
  destruct (k_skb_load_bytes skb off sizeof_dns_header) as [ret b]. cbn [fst snd] in *.
  case_match; [apply safe_ret; by split; [cbn; lia|]|]. cbv zeta.
  cbn [dns_id dns_flags decode_dns_header]. unfold track_dns_message.
  set (i := bpf_ntohs (obj16 b 0)). set (f := bpf_ntohs (obj16 b 2)).
  assert (Hi' : is_u16 i) by by apply bpf_ntohs_u16.
  assert (Hf' : is_u16 f) by by apply bpf_ntohs_u16.
  apply safe_bind, safe_call; [done|]. intros ts Hts. cbn in Hts.
  case_match.
  { apply safe_bind, safe_call; [done|]. cbn. intros r Hr'. apply safe_ret.
    split; [cbn; lia|done]. }
  apply safe_bind, safe_call; [done|]. intros value _. apply safe_bind.
  (* both cases go on with a result and a latency *)
  assert (Hrest : ∀ r l, -4096 < r < 4096 -> is_u64 l ->
    safe (λ r, -4096 < r.1 < 4096 /\ dns_filled pkt r.2)
      (let pkt := pkt <| pi_dns_latency := l |> <| pi_dns_id := i |> <| pi_dns_flags := f |> in
       dns_buf ← call (bpf_map_lookup_elem dns_name_map (0 : key dns_name_map));
       match dns_buf with
       | Some buf =>
           let qname_off := u32 (off + sizeof_dns_header) in
           let '(_, name) := k_skb_load_bytes skb qname_off (DNS_NAME_MAX_LEN - 1) in
           _ ← call (elem_write dns_name_map buf
                 (λ old, (<[31%nat := 0]> (name ++ drop (length name) old), 0)));
           mret (r, pkt <| pi_dns_name := Some buf |>)
       | None => mret (r, pkt)
       end)).
  { intros r l Hr' Hl'. cbv zeta. apply safe_bind, safe_call; [done|]. intros [buf|] _.
    - destruct (load_ret skb (u32 (off + sizeof_dns_header)) (DNS_NAME_MAX_LEN - 1))
        as (Hnl & Hnu & _); [done|apply u32_range|done|].
      destruct (k_skb_load_bytes _ _ _) as [? name]. cbn [fst snd] in *.
      apply safe_bind, safe_call; [cbn; intros; by apply dns_name_ok|].
      intros _ _. apply safe_ret. split; [done|]. by split.
    - apply safe_ret. split; [done|]. by split. }
  destruct value as [p|].
  - apply safe_bind, safe_call; [done|]. intros v Hv. cbn in Hv.
    apply safe_bind, safe_call; [done|]. intros _ _. apply safe_ret.
    apply Hrest; [lia|apply u64_range].
  - apply safe_ret. specialize (Hrest ENOENT (pi_dns_latency pkt)).
    replace (pkt <| pi_dns_latency := pi_dns_latency pkt |>) with pkt in Hrest by by destruct pkt.
    apply Hrest; [unfold ENOENT; lia|done].
Qed.

Lemma track_dns_packet_writes cfg skb pkt :
  writes [dns_flows; dns_name_map] [] (track_dns_packet cfg skb pkt).
Proof.
  unfold track_dns_packet. case_match; [|apply writes_ret].
  apply writes_bind; [apply writes_deref|]. intros len. case_match; [apply writes_ret|].
  destruct (k_skb_load_bytes _ _ _) as [ret b]. case_match; [apply writes_ret|].
  unfold track_dns_message.
  apply writes_bind; [done|]. intros ts. case_match.
  - apply writes_bind; [apply writes_call, list_elem_of_here|done].
  - apply writes_bind; [done|]. intros value. apply writes_bind.
    + destruct value; [|apply writes_ret]. apply writes_bind; [done|]. intros v.
      apply writes_bind; [apply writes_call, list_elem_of_here|]. intros; apply writes_ret.
    + intros [r pkt']. apply writes_bind; [done|]. intros [buf|]; [|apply writes_ret].
      destruct (k_skb_load_bytes _ _ _) as [? name].
      apply writes_bind; [apply writes_call, list_elem_of_further, list_elem_of_here|].
      intros; apply writes_ret.
Qed.
End Safe.

(** ** Correlation of queries and responses *)

(** The flow in the other direction. *)
Definition reverse_id (id : flow_id) : flow_id :=
  id <| fid_src_ip := fid_dst_ip id |> <| fid_dst_ip := fid_src_ip id |>
     <| fid_src_port := fid_dst_port id |> <| fid_dst_port := fid_src_port id |>.

(** A response looks for the entry that its query left. *)
Lemma fill_dns_id_reverse id z i :
  fill_dns_id (reverse_id id) z i true = fill_dns_id id z i false.
Proof. by destruct id, z. Qed.

(** Different queries leave different entries. *)
Lemma fill_dns_id_inj id id' z i i' :
  fill_dns_id id z i false = fill_dns_id id' z i' false ->
  i = i' /\ fid_src_ip id = fid_src_ip id' /\ fid_dst_ip id = fid_dst_ip id' /\
  fid_src_port id = fid_src_port id' /\ fid_dst_port id = fid_dst_port id' /\
  fid_transport_protocol id = fid_transport_protocol id'.
Proof. destruct id, id', z. cbn. intros [=]. by subst. Qed.

Section Correlate.
Context {H : Host} {K : Kernel} {KL : KernelLaws K}.
Implicit Types w : world.

(** The DNS message of a packet: the offset of its header, the transaction id
    and the flags. *)
Definition dns_message (cfg : config) (skb : sk_buff) (pkt : pkt_info)
    : option (Z * Z * Z) :=
  if is_dns_port cfg (fid_dst_port (pi_id pkt)) || is_dns_port cfg (fid_src_port (pi_id pkt))
  then
    len ← calc_dns_header_offset (skb_data skb) pkt;
    if len =? 0 then None
    else
      let off := u32 (default 0 (pi_l4_hdr pkt) + len) in
      let '(ret, b) := k_skb_load_bytes skb off sizeof_dns_header in
      if ret <? 0 then None
      else Some (off, bpf_ntohs (obj16 b 0), bpf_ntohs (obj16 b 2))
  else None.

Lemma track_dns_packet_message cfg skb pkt off i flags :
  wf_skb skb -> dns_message cfg skb pkt = Some (off, i, flags) ->
  track_dns_packet cfg skb pkt = track_dns_message skb pkt 0 off i flags.
Proof.
  intros Hw. unfold dns_message, track_dns_packet. case_match; [|done].
  destruct (calc_dns_header_offset _ _) as [len|]; [|done]. cbn.
  destruct (len =? 0); [done|].
  destruct (load_ret skb (u32 (default 0 (pi_l4_hdr pkt) + len)) sizeof_dns_header)
    as (_ & _ & Hr); [done|apply u32_range|done|].
  destruct (k_skb_load_bytes _ _ _) as [ret b]. cbn [fst] in Hr.
  destruct (ret <? 0) eqn:E; [done|]. bool_to_prop. intros [= <- <- <-].
  assert (ret = 0) as -> by lia. done.
Qed.

Lemma wp_dns_query cpu skb pkt off i flags (Q : Z * pkt_info → world → Prop) w :
  world_wf w -> is_query flags = true ->
  elem cpu dns_flows w (fill_dns_id (pi_id pkt) zeroed i false) = None ->
  (∀ ts w', elem cpu dns_flows w' (fill_dns_id (pi_id pkt) zeroed i false) = Some ts ->
     is_u64 ts -> clock w <= ts <= clock w' -> world_wf w' -> Q (0, pkt) w') ->
  (∀ e w', unchanged w w' ->
     map_refuses dns_flows (fill_dns_id (pi_id pkt) zeroed i false) e w w' -> Q (e, pkt) w') ->
  wp cpu (track_dns_message skb pkt 0 off i flags) Q w.
Proof.
  intros Hw Hq Hk HQ HE. unfold track_dns_message. rewrite Hq.
  apply wp_bind, wp_ktime. intros ts w1 Hu Hts Hc.
  apply wp_bind, wp_update_new;
    [by eapply unchanged_wf|done|by rewrite (unchanged_elem w)|..].
  - intros w' Hup. apply wp_ret, (HQ ts); [apply Hup|done| |apply Hup].
    pose proof (upd_clock _ _ _ _ _ _ Hup). lia.
  - intros e w' Hu' He.
    apply wp_ret, HE; [by eapply unchanged_trans|by eapply unchanged_refuses].
Qed.

(** The bytes of the question name, as the tracker copies them. *)
Definition raw_name (skb : sk_buff) (off : Z) : list Z :=
  (k_skb_load_bytes skb (u32 (off + sizeof_dns_header)) (DNS_NAME_MAX_LEN - 1)).2 ++ [0].

Lemma name_written name old :
  length old = 32%nat -> length name = 31%nat ->
  <[31%nat := 0]> (name ++ drop (length name) old) = name ++ [0].
Proof.
  intros Ho Hn. rewrite Hn. destruct (drop 31 old) as [|x l] eqn:E.
  { apply (f_equal length) in E. rewrite length_drop in E. cbn in E. lia. }
  assert (l = []) as ->.
  { apply (f_equal length) in E. rewrite length_drop in E. cbn in E.
    destruct l; [done|cbn in E; lia]. }
  by rewrite insert_app_r_alt, Hn by lia.
Qed.

Lemma wp_dns_response cpu skb pkt off i flags v (Q : Z * pkt_info → world → Prop) w :
  world_wf w -> typed w -> wf_skb skb -> is_query flags = false ->
  elem cpu dns_flows w (fill_dns_id (pi_id pkt) zeroed i true) = Some v ->
  (∀ ts buf w', clock w <= ts <= clock w' -> is_u64 ts ->
     elem cpu dns_flows w' (fill_dns_id (pi_id pkt) zeroed i true) = None ->
     elem_at cpu dns_name_map w' (0 : key dns_name_map) buf (raw_name skb off) ->
     Q (0, pkt <| pi_dns_latency := u64 (ts - v) |> <| pi_dns_id := i |>
             <| pi_dns_flags := flags |> <| pi_dns_name := Some buf |>) w') ->
  wp cpu (track_dns_message skb pkt 0 off i flags) Q w.
Proof.
  intros Hw Ht Hskb Hq Hk HQ. unfold track_dns_message. rewrite Hq.
  apply wp_bind, wp_ktime. intros ts w1 Hu Hts Hc.
  assert (Hw1 : world_wf w1) by by eapply unchanged_wf.
  rewrite <- (unchanged_elem w w1) in Hk by done.
  apply wp_bind, wp_lookup; [done|congruence|]. intros p v' Hv' Hat.
  rewrite Hk in Hv'. injection Hv' as <-.
  apply wp_bind, wp_bind, (wp_read _ _ _ _ _ _ _ Hat).
  apply wp_bind, (wp_delete _ _ _ v); [done..|]. intros w2 Hd. apply wp_ret.
  assert (Hn : ∃ buf old, elem_at cpu dns_name_map w2 (0 : key dns_name_map) buf old /\
    length old = 32%nat).
  { destruct (proj2 (proj2 Hw1)) as [buf Hb].
    exists buf, (cell_read (w_map w2 dns_name_map) buf cpu). split; [split|].
    - by rewrite (del_maps _ _ _ _ Hd).
    - done.
    - rewrite (del_maps _ _ _ _ Hd), (unch_map _ _ Hu) by done.
      by apply (typed_read w dns_name_map). }
  destruct Hn as (buf & old & Hn & Hl).
  apply wp_bind, wp_lookup; [done| |].
  { intros Hnone. apply elem_at_elem in Hn; [congruence|done]. }
  intros buf' old' _ Hat'.
  assert (buf' = buf) as -> by (destruct Hat' as [E1 _], Hn as [E2 _]; congruence).
  assert (old' = old) as -> by (destruct Hat' as [_ <-], Hn as [_ <-]; done).
  set (qoff := u32 (off + sizeof_dns_header)).
  destruct (load_ret skb qoff (DNS_NAME_MAX_LEN - 1)) as (Hnl & _ & _);
    [done|apply u32_range|done|].
  assert (Hraw : raw_name skb off = (k_skb_load_bytes skb qoff (DNS_NAME_MAX_LEN - 1)).2 ++ [0])
    by done.
  destruct (k_skb_load_bytes skb qoff _) as [? name]. cbn [snd] in *.
  apply wp_bind, (wp_write _ dns_name_map 0 _ old);
    [by apply (del_wf _ _ _ _ Hd)|done|done|].
  intros w' Hup Hat2. cbn [fst snd] in *. rewrite name_written in Hat2 by done.
  rewrite <- Hraw in Hat2. apply wp_ret, HQ; [| | |done].
  - pose proof (del_clock _ _ _ _ Hd). pose proof (upd_clock _ _ _ _ _ _ Hup). lia.
  - done.
  - rewrite (elem_ext _ _ w2 w') by (by apply Hup). apply Hd.
Qed.
End Correlate.
