(* ===== verification/Quic.v ===== *)
(** * The QUIC tracker ([bpf/quic_tracker.h])

    Recognises QUIC packets by the version-independent header (RFC 8999) and
    keeps, per flow, the version of the last long header and which kinds of
    header were seen.  [quic_header_at] specifies both kinds of header on the
    bytes of the packet, and the parser finds exactly those; [long_header] lays
    a long header out.  [quic_effect] is what a packet does to its flow. *)
From S2P Require Import Prelude Machine Types Kernel Maps Safety PacketUtils Frames Tls.

Definition QUIC_PORT : Z := 443.
Definition QUIC_LONG_HEADER : Z := 0x80.
Definition QUIC_FIXED_BIT : Z := 0x40.
Definition QUIC_MIN_PACKET_SIZE : Z := 21.
Definition QUIC_MAX_CID_LEN : Z := 20.
Definition QUIC_LH_VERSION_OFFSET : Z := 1.
Definition QUIC_LH_DCID_LEN_OFFSET : Z := QUIC_LH_VERSION_OFFSET + 4.
Definition QUIC_LH_DCID_OFFSET : Z := QUIC_LH_DCID_LEN_OFFSET + 1.
Definition QUIC_LH_SCID_LEN_OFFSET (dcid_len : Z) : Z := QUIC_LH_DCID_OFFSET + dcid_len.
Definition QUIC_LH_MIN_LEN : Z := 1 + 4 + 1 + 1.

(** [enum quic_config_t] *)
Definition QUIC_CONFIG_DISABLED : Z := 0.
Definition QUIC_CONFIG_ENABLED : Z := 1.
Definition QUIC_CONFIG_ANY_UDP_PORT : Z := 2.

Inductive quic_header_type :=
  | QUIC_HEADER_TYPE_NOT_QUIC
  | QUIC_HEADER_TYPE_SHORT
  | QUIC_HEADER_TYPE_LONG.
#[export] Instance quic_header_type_eq_dec : EqDecision quic_header_type.
Proof. solve_decision. Defined.

Section Tracker.
Context {H : Host} {K : Kernel}.

(** The header type, and the object [version] points to. *)
Definition parse_quic_header (skb : sk_buff) (offset payload_len version : Z)
    : quic_header_type * Z :=
  match skb_load skb offset 1 with
  | None => (QUIC_HEADER_TYPE_NOT_QUIC, version)
  | Some b =>
      let first_byte := byte_at b 0 in
      if Z.land first_byte QUIC_FIXED_BIT =? 0 then (QUIC_HEADER_TYPE_NOT_QUIC, version)
      else if negb (Z.land first_byte QUIC_LONG_HEADER =? 0) then
        if payload_len <? QUIC_LH_MIN_LEN then (QUIC_HEADER_TYPE_NOT_QUIC, version)
        else
          match skb_load skb (u32 (offset + QUIC_LH_VERSION_OFFSET)) 4 with
          | None => (QUIC_HEADER_TYPE_NOT_QUIC, version)
          | Some ver =>
              let version := bpf_ntohl (obj32 ver 0) in
              match skb_load skb (u32 (offset + QUIC_LH_DCID_LEN_OFFSET)) 1 with
              | None => (QUIC_HEADER_TYPE_NOT_QUIC, version)
              | Some b =>
                  let dcid_len := byte_at b 0 in
                  if QUIC_MAX_CID_LEN <? dcid_len then (QUIC_HEADER_TYPE_NOT_QUIC, version)
                  else if payload_len <? QUIC_LH_SCID_LEN_OFFSET dcid_len + 1
                  then (QUIC_HEADER_TYPE_NOT_QUIC, version)
                  else
                    match skb_load skb (u32 (offset + QUIC_LH_SCID_LEN_OFFSET dcid_len)) 1 with
                    | None => (QUIC_HEADER_TYPE_NOT_QUIC, version)
                    | Some b =>
                        let scid_len := byte_at b 0 in
                        if QUIC_MAX_CID_LEN <? scid_len
                        then (QUIC_HEADER_TYPE_NOT_QUIC, version)
                        else if payload_len <? QUIC_LH_MIN_LEN + dcid_len + scid_len
                        then (QUIC_HEADER_TYPE_NOT_QUIC, version)
                        else (QUIC_HEADER_TYPE_LONG, version)
                    end
              end
          end
      else (QUIC_HEADER_TYPE_SHORT, version)
  end.

(** The writes to an existing element of [quic_flows]. *)
Definition quic_seen (now version : Z) (hdr_type : quic_header_type) (flow : quic_metrics)
    : quic_metrics :=
  let flow := flow <| qm_end_mono_time_ts := now |> in
  if decide (hdr_type = QUIC_HEADER_TYPE_LONG) then
    let flow := flow <| qm_seen_long_hdr := 1 |> in
    if version =? 0 then flow else flow <| qm_version := version |>
  else flow <| qm_seen_short_hdr := 1 |>.

Definition track_quic_packet (cfg : config) (skb : sk_buff) (pkt : pkt_info)
    (eth_protocol : Z) : prog Z :=
  let id := pi_id pkt in
  if negb (fid_transport_protocol id =? IPPROTO_UDP) then mret 0
  else if (enable_quic_tracking cfg =? QUIC_CONFIG_ENABLED) &&
          (negb (fid_dst_port id =? QUIC_PORT) && negb (fid_src_port id =? QUIC_PORT))
  then mret 0
  else
    match pi_l4_hdr pkt with
    | None => mret 0
    | Some l4_hdr =>
        udp ← deref (decode_udphdr <$> slice (skb_data skb) l4_hdr sizeof_udphdr);
        let udp_len := bpf_ntohs (uh_len udp) in
        if udp_len <? sizeof_udphdr + QUIC_MIN_PACKET_SIZE then mret 0
        else
          let quic_offset := u32 (u32 l4_hdr + sizeof_udphdr) in
          let quic_payload_len := u32 (udp_len - sizeof_udphdr) in
          let '(hdr_type, version) :=
            parse_quic_header skb quic_offset quic_payload_len 0 in
          if decide (hdr_type = QUIC_HEADER_TYPE_NOT_QUIC) then mret 0
          else
            let now := pi_current_ts pkt in
            flow ← call (bpf_map_lookup_elem quic_flows id);
            match flow with
            | Some p =>
                _ ← call (elem_write quic_flows p (λ flow, (quic_seen now version hdr_type flow, 0)));
                mret 0
            | None =>
                let new_flow := mk_quic_metrics now now version eth_protocol
                  (if decide (hdr_type = QUIC_HEADER_TYPE_LONG) then 1 else 0)
                  (if decide (hdr_type = QUIC_HEADER_TYPE_SHORT) then 1 else 0) in
                ret ← call (bpf_map_update_elem quic_flows id new_flow BPF_NOEXIST);
                if ret =? - EEXIST then
                  flow ← call (bpf_map_lookup_elem quic_flows id);
                  match flow with
                  | Some p =>
                      _ ← call (elem_write quic_flows p
                            (λ flow, (quic_seen now version hdr_type flow, 0)));
                      mret 0
                  | None => mret 0
                  end
                else mret 0
            end
    end.
End Tracker.

(** ** The version-independent header *)

(** A long header: the first byte, the version, the connection ids. *)
Record long_header := mk_long_header {
  lh_first : Z;
  lh_version : Z;
  lh_dcid : list Z;
  lh_scid : list Z;
}.

Definition net32 (x : Z) : list Z := net16 (x / 65536) ++ net16 (x mod 65536).

Definition long_header_bytes (h : long_header) : list Z :=
  lh_first h :: net32 (lh_version h) ++ vec8 (lh_dcid h) ++ vec8 (lh_scid h).

(** The two top bits of the first byte: header form and fixed bit. *)
Definition quic_fixed (first_byte : Z) : bool := Z.testbit first_byte 6.
Definition quic_long (first_byte : Z) : bool := Z.testbit first_byte 7.

Definition wf_long_header (h : long_header) : Prop :=
  quic_fixed (lh_first h) = true /\ quic_long (lh_first h) = true /\
  (length (lh_dcid h) <= 20)%nat /\ (length (lh_scid h) <= 20)%nat.

Section Spec.
Context {H : Host} {K : Kernel} {KL : KernelLaws K}.

Lemma land_pow2_eqb x n : 0 <= n -> (Z.land x (2 ^ n) =? 0) = negb (Z.testbit x n).
Proof.
  intros Hn. destruct (Z.testbit x n) eqn:E.
  - apply Z.eqb_neq. intros Hz. apply (f_equal (λ y, Z.testbit y n)) in Hz.
    by rewrite Z.land_spec, E, Z.pow2_bits_true, Z.bits_0 in Hz.
  - apply Z.eqb_eq. apply Z.bits_inj'. intros m Hm.
    rewrite Z.land_spec, Z.bits_0. destruct (decide (m = n)) as [->|].
    + by rewrite E.
    + rewrite Z.pow2_bits_false by done. apply andb_false_r.
Qed.

Lemma fixed_bit_test x : (Z.land x QUIC_FIXED_BIT =? 0) = negb (quic_fixed x).
Proof. by apply (land_pow2_eqb x 6). Qed.
Lemma long_bit_test x : (Z.land x QUIC_LONG_HEADER =? 0) = negb (quic_long x).
Proof. by apply (land_pow2_eqb x 7). Qed.

(** Reading back a 32-bit field. *)
Lemma ntohl_net32 x l :
  Forall is_u8 (net32 x ++ l) -> bpf_ntohl (obj32 (net32 x ++ l) 0) = x.
Proof.
  intros Hu. rewrite ntohl_obj32 by done. cbn.
  unfold be32. rewrite !be16_net16.
  pose proof (Z.div_mod x 65536 ltac:(lia)). lia.
Qed.

(** Round trip: the parser finds a well-formed long header that fits. *)
Lemma parse_long_header skb off payload_len v h l :
  wf_skb skb -> at_off skb off (long_header_bytes h ++ l) -> wf_long_header h ->
  Z.of_nat (length (long_header_bytes h)) <= payload_len ->
  parse_quic_header skb off payload_len v = (QUIC_HEADER_TYPE_LONG, lh_version h).
Proof.
  intros Hw Ha (Hfix & Hlong & Hd & Hs) Hlen. unfold parse_quic_header, long_header_bytes in *.
  cbn [app] in Ha. rewrite (skb_load_byte _ _ _ _ Hw Ha).
  change (byte_at [?x] 0) with x. rewrite fixed_bit_test, long_bit_test, Hfix, Hlong.
  cbn [negb]. cbn [length] in Hlen. rewrite !length_app in Hlen. cbn [vec8 length] in Hlen.
  change (length (net32 _)) with 4%nat in Hlen.
  rewrite (proj2 (Z.ltb_ge _ QUIC_LH_MIN_LEN)) by (unfold QUIC_LH_MIN_LEN; lia).
  apply (at_app _ _ [_]) in Ha as [_ Ha]. change (Z.of_nat (length [_])) with 1 in Ha.
  rewrite <- !app_assoc in Ha. unfold QUIC_LH_VERSION_OFFSET.
  rewrite (at_u32 _ _ _ Hw Ha).
  pose proof (proj1 (at_app _ _ _ _ Ha)) as Hv.
  rewrite (skb_load_at _ _ _ 4 Hw Hv) by done.
  assert (bpf_ntohl (obj32 (net32 (lh_version h)) 0) = lh_version h) as ->.
  { pose proof (at_range _ _ _ Hw Hv) as (_ & _ & Hu). by apply (ntohl_net32 _ []). }
  apply at_app in Ha as [_ Ha]. change (Z.of_nat (length (net32 _))) with 4 in Ha.
  replace (off + 1 + 4) with (off + QUIC_LH_DCID_LEN_OFFSET) in Ha
    by (unfold QUIC_LH_DCID_LEN_OFFSET, QUIC_LH_VERSION_OFFSET; lia).
  rewrite (at_u32 _ _ _ Hw Ha).
  destruct (vec8_at _ _ _ _ Hw Ha) as [-> Ha']. change (byte_at [?x] 0) with x. cbv zeta.
  rewrite (proj2 (Z.ltb_ge QUIC_MAX_CID_LEN _)) by (unfold QUIC_MAX_CID_LEN; lia).
  replace (off + QUIC_LH_DCID_LEN_OFFSET + (1 + Z.of_nat (length (lh_dcid h))))
    with (off + QUIC_LH_SCID_LEN_OFFSET (Z.of_nat (length (lh_dcid h)))) in Ha'
    by (unfold QUIC_LH_SCID_LEN_OFFSET, QUIC_LH_DCID_OFFSET; lia).
  unfold QUIC_LH_SCID_LEN_OFFSET at 1.
  rewrite (proj2 (Z.ltb_ge payload_len _))
    by (unfold QUIC_LH_DCID_OFFSET, QUIC_LH_DCID_LEN_OFFSET, QUIC_LH_VERSION_OFFSET; lia).
  rewrite (at_u32 _ _ _ Hw Ha').
  destruct (vec8_at _ _ _ _ Hw Ha') as [-> _]. change (byte_at [?x] 0) with x.
  rewrite (proj2 (Z.ltb_ge QUIC_MAX_CID_LEN _)) by (unfold QUIC_MAX_CID_LEN; lia).
  by rewrite (proj2 (Z.ltb_ge payload_len _)) by (unfold QUIC_LH_MIN_LEN; lia).
Qed.

Lemma parse_short_header skb off payload_len v b l :
  wf_skb skb -> at_off skb off (b :: l) -> quic_fixed b = true -> quic_long b = false ->
  parse_quic_header skb off payload_len v = (QUIC_HEADER_TYPE_SHORT, v).
Proof.
  intros Hw Ha Hf Hl. unfold parse_quic_header. rewrite (skb_load_byte _ _ _ _ Hw Ha).
  change (byte_at [?x] 0) with x. by rewrite fixed_bit_test, long_bit_test, Hf, Hl.
Qed.

(** A load gives the bytes of the packet at an offset, if they are there. *)
Lemma skb_load_slice skb off n :
  wf_skb skb -> 0 <= off -> 0 < n -> skb_load skb off n = slice (skb_bytes skb) off n.
Proof.
  intros (_ & _ & _ & Hb & _) Ho Hn. unfold skb_load.
  destruct (skb_load_bytes_ok skb off n) as (_ & _ & Hr); [done..|].
  destruct (k_skb_load_bytes skb off n) as [ret bs]. cbn [fst] in Hr.
  destruct (slice (skb_bytes skb) off n); [by injection Hr as -> ->|].
  by rewrite (proj2 (Z.ltb_lt _ _)) by lia.
Qed.

Lemma slice_1 l off bs : slice l off 1 = Some bs -> bs = [byte_at bs 0].
Proof. intros Hs%slice_length. destruct bs as [|b [|]]; done. Qed.
Lemma slice_4 l off bs :
  slice l off 4 = Some bs -> bs = [byte_at bs 0; byte_at bs 1; byte_at bs 2; byte_at bs 3].
Proof. intros Hs%slice_length. by destruct bs as [|? [|? [|? [|? [|]]]]]. Qed.

(** The version-independent header (RFC 8999) at [off], in a UDP payload of
    [payload_len] bytes.  Both kinds of header have the fixed bit; the long one has
    the other bit too, then the version, and two connection ids of at most 20
    bytes, each after its length, that fit the payload. *)
Inductive quic_header_at (skb : sk_buff) (off payload_len : Z) : quic_header_type → Z → Prop :=
  | ShortHeaderAt b :
      slice (skb_bytes skb) off 1 = Some [b] -> quic_fixed b = true -> quic_long b = false ->
      quic_header_at skb off payload_len QUIC_HEADER_TYPE_SHORT 0
  | LongHeaderAt b v0 v1 v2 v3 dcid_len scid_len :
      slice (skb_bytes skb) off 1 = Some [b] -> quic_fixed b = true -> quic_long b = true ->
      slice (skb_bytes skb) (u32 (off + 1)) 4 = Some [v0; v1; v2; v3] ->
      slice (skb_bytes skb) (u32 (off + 5)) 1 = Some [dcid_len] -> dcid_len <= 20 ->
      slice (skb_bytes skb) (u32 (off + (6 + dcid_len))) 1 = Some [scid_len] -> scid_len <= 20 ->
      7 + dcid_len + scid_len <= payload_len ->
      quic_header_at skb off payload_len QUIC_HEADER_TYPE_LONG (be32 v0 v1 v2 v3).

(** The parser finds exactly those headers. *)
Lemma parse_quic_header_found skb off payload_len t v :
  wf_skb skb -> 0 <= off -> t <> QUIC_HEADER_TYPE_NOT_QUIC ->
  parse_quic_header skb off payload_len 0 = (t, v) -> quic_header_at skb off payload_len t v.
Proof.
  intros Hw Ho Ht. unfold parse_quic_header.
  rewrite !(skb_load_slice skb) by (done || apply u32_pos).
  destruct (slice (skb_bytes skb) off 1) as [b|] eqn:Eb; [|by intros [= <- _]].
  rewrite fixed_bit_test, long_bit_test, negb_involutive. rewrite (slice_1 _ _ _ Eb) in Eb.
  destruct (quic_fixed _) eqn:Ef; cbn [negb]; [|by intros [= <- _]].
  destruct (quic_long _) eqn:El; [|intros [= <- <-]; by eapply ShortHeaderAt].
  destruct (payload_len <? QUIC_LH_MIN_LEN); [by intros [= <- _]|].
  unfold QUIC_LH_SCID_LEN_OFFSET, QUIC_LH_DCID_OFFSET, QUIC_LH_DCID_LEN_OFFSET, QUIC_LH_VERSION_OFFSET.
  destruct (slice _ (u32 (off + 1)) 4) as [ver|] eqn:Ev; [|by intros [= <- _]].
  assert (Forall is_u8 ver) by (eapply slice_Forall; [apply Hw|exact Ev]).
  change (1 + 4) with 5. destruct (slice _ (u32 (off + 5)) 1) as [d|] eqn:Ed; [|by intros [= <- _]].
  rewrite (slice_1 _ _ _ Ed) in Ed. rewrite (slice_4 _ _ _ Ev) in Ev. unfold QUIC_MAX_CID_LEN.
  destruct (20 <? byte_at d 0) eqn:E1; [by intros [= <- _]|].
  destruct (payload_len <? _); [by intros [= <- _]|]. change (5 + 1) with 6 in *.
  rewrite (skb_load_slice skb) by (done || apply u32_pos).
  destruct (slice _ (u32 (off + (6 + _))) 1) as [s|] eqn:Es; [|by intros [= <- _]].
  rewrite (slice_1 _ _ _ Es) in Es.
  destruct (20 <? byte_at s 0) eqn:E3; [by intros [= <- _]|].
  destruct (payload_len <? QUIC_LH_MIN_LEN + _ + _) eqn:E4; [by intros [= <- _]|].
  unfold QUIC_LH_MIN_LEN in E4. bool_to_prop. intros [= <- <-]. rewrite ntohl_obj32 by done. cbn [Nat.add].
  by apply (LongHeaderAt _ _ _ (byte_at b 0) _ _ _ _ (byte_at d 0) (byte_at s 0)); done || lia.
Qed.

Lemma parse_quic_header_finds skb off payload_len t v :
  wf_skb skb -> 0 <= off -> quic_header_at skb off payload_len t v ->
  parse_quic_header skb off payload_len 0 = (t, v).
Proof.
  intros Hw Ho Hh. unfold parse_quic_header.
  destruct Hh as [b Eb Hf Hl|b v0 v1 v2 v3 d s Eb Hf Hl Ev Ed Hd Es Hs Hlen];
    rewrite (skb_load_slice skb off), Eb by done; change (byte_at [b] 0) with b;
    rewrite fixed_bit_test, long_bit_test, Hf, Hl; [done|]. cbn [negb].
  assert (Hu : ∀ o x, slice (skb_bytes skb) o 1 = Some [x] -> 0 <= x).
  { intros o x E. assert (Hx : Forall is_u8 [x]) by (eapply slice_Forall; [apply Hw|exact E]).
    by inversion_clear Hx as [|? ? [Hx0 _] _]. }
  pose proof (Hu _ _ Ed). pose proof (Hu _ _ Es).
  unfold QUIC_LH_MIN_LEN, QUIC_LH_SCID_LEN_OFFSET, QUIC_LH_DCID_OFFSET, QUIC_LH_DCID_LEN_OFFSET,
    QUIC_LH_VERSION_OFFSET, QUIC_MAX_CID_LEN. change (1 + 4 + 1) with 6. change (1 + 4) with 5.
  rewrite (proj2 (Z.ltb_ge payload_len _)) by lia.
  rewrite !(skb_load_slice skb) by (done || apply u32_pos). rewrite Ev, Ed. change (byte_at [d] 0) with d.
  rewrite (skb_load_slice skb), Es by (done || apply u32_pos). change (byte_at [s] 0) with s.
  rewrite (proj2 (Z.ltb_ge 20 d)), (proj2 (Z.ltb_ge payload_len (6 + d + 1))) by lia.
  rewrite (proj2 (Z.ltb_ge 20 s)), (proj2 (Z.ltb_ge payload_len _)) by lia.
  f_equal. apply ntohl_obj32. eapply slice_Forall; [apply Hw|exact Ev].
Qed.

Lemma quic_header_kind skb off payload_len t v :
  quic_header_at skb off payload_len t v -> t <> QUIC_HEADER_TYPE_NOT_QUIC.
Proof. by destruct 1. Qed.

(** Nothing else is taken for QUIC: the fixed bit is set, and a long header
    fits the UDP payload together with its connection ids. *)
Lemma parse_quic_header_sound skb off payload_len v t v' :
  parse_quic_header skb off payload_len v = (t, v') -> t <> QUIC_HEADER_TYPE_NOT_QUIC ->
  ∃ b, skb_load skb off 1 = Some b /\ quic_fixed (byte_at b 0) = true /\
    (t = QUIC_HEADER_TYPE_LONG -> quic_long (byte_at b 0) = true /\
       QUIC_LH_MIN_LEN <= payload_len) /\
    (t = QUIC_HEADER_TYPE_SHORT -> quic_long (byte_at b 0) = false /\ v' = v).
Proof.
  unfold parse_quic_header. intros Hp Ht.
  destruct (skb_load skb off 1) as [b|]; [|congruence]. exists b. split; [done|].
  rewrite fixed_bit_test, long_bit_test, negb_involutive in Hp.
  destruct (quic_fixed (byte_at b 0)); cbn [negb] in Hp; [|congruence]. split; [done|].
  destruct (quic_long (byte_at b 0)).
  - destruct (payload_len <? QUIC_LH_MIN_LEN) eqn:E; bool_to_prop; [congruence|].
    split; [done|]. intros ->. by repeat case_match; simplify_eq.
  - injection Hp as <- <-. split; [congruence|done].
Qed.
End Spec.

(** ** The tracker *)

Section Track.
Context {H : Host} {K : Kernel} {KL : KernelLaws K}.
Implicit Types w : world.

Lemma quic_seen_ok now version t m :
  is_u64 now -> is_u32 version -> wf_quic_metrics m -> wf_quic_metrics (quic_seen now version t m).
Proof.
  intros Hn Hv (?&?&?&?&?&?). assert (is_u8 1) by (width; lia).
  unfold quic_seen. repeat case_match; unfold wf_quic_metrics; cbn; tauto.
Qed.

Lemma parse_quic_version_u32 skb off payload_len t v :
  wf_skb skb -> parse_quic_header skb off payload_len 0 = (t, v) -> is_u32 v.
Proof.
  intros Hw. unfold parse_quic_header.
  destruct (skb_load skb off 1); [|by intros [= _ <-]; auto with width].
  case_match; [by intros [= _ <-]; auto with width|].
  case_match; [|by intros [= _ <-]; auto with width].
  case_match; [by intros [= _ <-]; auto with width|].
  destruct (skb_load skb _ 4) as [ver|] eqn:E; [|by intros [= _ <-]; auto with width].
  assert (is_u32 (bpf_ntohl (obj32 ver 0))).
  { assert (Forall is_u8 ver) by (eapply (skb_load_u8 skb); [done|apply u32_pos| |exact E]; done).
    rewrite ntohl_obj32 by done. auto with width. }
  repeat case_match; by intros [= _ <-].
Qed.

Lemma quic_offset_ok pkt d off :
  l4_ok d pkt -> fid_transport_protocol (pi_id pkt) = IPPROTO_UDP -> pi_l4_hdr pkt = Some off ->
  0 <= off /\ off + sizeof_udphdr <= Z.of_nat (length d).
Proof. intros Hl4 Hp Ho. specialize (Hl4 off Ho). by rewrite Hp in Hl4. Qed.

(** The tracker never faults although it reads the UDP header without a
    check of its own: the parser has checked it. *)
Lemma track_quic_packet_safe cfg skb pkt eth_protocol :
  wf_skb skb -> l4_ok (skb_data skb) pkt -> is_u64 (pi_current_ts pkt) -> is_u16 eth_protocol ->
  safe (λ r, r = 0) (track_quic_packet cfg skb pkt eth_protocol).
Proof.
  intros Hw Hl4 Hts He. unfold track_quic_packet.
  destruct (fid_transport_protocol (pi_id pkt) =? IPPROTO_UDP) eqn:Ep; [|done]. bool_to_prop.
  cbn [negb]. case_match; [done|]. destruct (pi_l4_hdr pkt) as [off|] eqn:Eo; [|done].
  destruct (quic_offset_ok _ _ _ Hl4 Ep Eo) as [Hlo Hhi].
  destruct (load_ok (skb_data skb) off sizeof_udphdr) as (b & Hb & _); [done|done|lia|].
  eapply safe_bind, safe_deref; [by rewrite Hb|].
  case_match; [done|].
  destruct (parse_quic_header _ _ _ _) as [t v] eqn:E.
  pose proof (parse_quic_version_u32 _ _ _ _ _ Hw E) as Hv.
  case_decide; [done|].
  assert (is_u8 1) by (width; lia).
  assert (Hwrite : ∀ p, safe (λ r, r = 0)
    (_ ← call (elem_write quic_flows p (λ flow, (quic_seen (pi_current_ts pkt) v t flow, 0)));
     mret 0)).
  { intros p. by apply safe_bind, safe_call; [intros m ?; apply quic_seen_ok|]. }
  apply safe_bind, safe_call; [done|]. intros [p|] _; [apply Hwrite|].
  apply safe_bind, safe_call.
  - cbn. unfold wf_quic_metrics. cbn. split_and!; auto; case_decide; auto with width.
  - intros r _. case_match; [|done]. apply safe_bind, safe_call; [done|].
    intros [p|] _; [apply Hwrite|done].
Qed.

Lemma track_quic_packet_writes cfg skb pkt eth_protocol :
  writes [quic_flows] [] (track_quic_packet cfg skb pkt eth_protocol).
Proof.
  unfold track_quic_packet. repeat (case_match; [apply writes_ret|]).
  case_match; [|apply writes_ret].
  apply writes_bind; [apply writes_deref|]. intros udp. case_match; [apply writes_ret|].
  destruct (parse_quic_header _ _ _ _) as [t v]. case_decide; [apply writes_ret|].
  assert (Hwrite : ∀ p f, writes [quic_flows] [] (_ ← call (elem_write quic_flows p f); mret 0)).
  { intros p f. by apply writes_bind; [apply writes_call, list_elem_of_here|]. }
  apply writes_bind; [done|]. intros [p|]; [apply Hwrite|].
  apply writes_bind; [apply writes_call, list_elem_of_here|]. intros r.
  case_match; [|apply writes_ret]. apply writes_bind; [done|].
  intros [p|]; [apply Hwrite|apply writes_ret].
Qed.
End Track.

(** ** What the tracker does *)

Section Effect.
Context {H : Host} {K : Kernel} {KL : KernelLaws K}.
Implicit Types w : world.

(** A packet that carries QUIC: a UDP packet, of the QUIC port unless any port is
    tracked, whose payload is long enough and begins with a header. *)
Record quic_packet (cfg : config) (skb : sk_buff) (pkt : pkt_info) (t : quic_header_type) (v : Z)
    : Prop := {
  qp_udp : fid_transport_protocol (pi_id pkt) = IPPROTO_UDP;
  qp_port : enable_quic_tracking cfg = QUIC_CONFIG_ENABLED ->
    fid_dst_port (pi_id pkt) = 443 \/ fid_src_port (pi_id pkt) = 443;
  qp_header : ∃ l4 b, pi_l4_hdr pkt = Some l4 /\ slice (skb_data skb) l4 sizeof_udphdr = Some b /\
    let udp_len := bpf_ntohs (uh_len (decode_udphdr b)) in
    29 <= udp_len /\ quic_header_at skb (l4 + 8) (udp_len - 8) t v;
}.

(** What a packet leaves of the metrics that its flow had. *)
Record quic_marked (now version : Z) (t : quic_header_type) (m m' : quic_metrics) : Prop := {
  qk_start : qm_start_mono_time_ts m' = qm_start_mono_time_ts m;
  qk_end : qm_end_mono_time_ts m' = now;
  qk_eth : qm_eth_protocol m' = qm_eth_protocol m;
  qk_kind : match t with
    | QUIC_HEADER_TYPE_LONG =>
        qm_seen_long_hdr m' = 1 /\ qm_seen_short_hdr m' = qm_seen_short_hdr m /\
        (version <> 0 -> qm_version m' = version) /\ (version = 0 -> qm_version m' = qm_version m)
    | QUIC_HEADER_TYPE_SHORT =>
        qm_seen_short_hdr m' = 1 /\ qm_seen_long_hdr m' = qm_seen_long_hdr m /\
        qm_version m' = qm_version m
    | QUIC_HEADER_TYPE_NOT_QUIC => False
    end;
}.

(** The metrics of the first QUIC packet of a flow. *)
Definition first_quic (now version : Z) (t : quic_header_type) (eth_protocol : Z) : quic_metrics :=
  match t with
  | QUIC_HEADER_TYPE_LONG => mk_quic_metrics now now version eth_protocol 1 0
  | _ => mk_quic_metrics now now version eth_protocol 0 1
  end.

(** What one packet does to the QUIC metrics of its flow on this CPU: nothing
    unless it carries QUIC; else the element is updated, and a missing one is
    created unless the map refuses it. *)
Inductive quic_effect cpu cfg skb pkt eth_protocol w w' : Prop :=
  | QuicNone :
      (∀ t v, ~ quic_packet cfg skb pkt t v) -> w' = w ->
      quic_effect cpu cfg skb pkt eth_protocol w w'
  | QuicSeen t v m m' :
      quic_packet cfg skb pkt t v -> elem cpu quic_flows w (pi_id pkt) = Some m ->
      quic_marked (pi_current_ts pkt) v t m m' -> updated cpu quic_flows (pi_id pkt) m' w w' ->
      quic_effect cpu cfg skb pkt eth_protocol w w'
  | QuicFirst t v :
      quic_packet cfg skb pkt t v -> elem cpu quic_flows w (pi_id pkt) = None ->
      updated cpu quic_flows (pi_id pkt) (first_quic (pi_current_ts pkt) v t eth_protocol) w w' ->
      quic_effect cpu cfg skb pkt eth_protocol w w'
  | QuicRefused t v e :
      quic_packet cfg skb pkt t v -> elem cpu quic_flows w (pi_id pkt) = None ->
      map_refuses quic_flows (pi_id pkt) e w w' -> unchanged w w' ->
      quic_effect cpu cfg skb pkt eth_protocol w w'.

Lemma quic_seen_marked now v t m :
  t <> QUIC_HEADER_TYPE_NOT_QUIC -> quic_marked now v t m (quic_seen now v t m).
Proof.
  intros Ht. unfold quic_seen.
  destruct t; [done|rewrite decide_False by done; by split|rewrite decide_True by done].
  destruct (v =? 0) eqn:E; bool_to_prop; by split.
Qed.

(** A UDP packet of a tracked port carries QUIC when its payload begins with a
    header. *)
Lemma quic_packet_at cfg skb pkt l4 b t v :
  fid_transport_protocol (pi_id pkt) = IPPROTO_UDP ->
  (enable_quic_tracking cfg =? QUIC_CONFIG_ENABLED) &&
    (negb (fid_dst_port (pi_id pkt) =? QUIC_PORT) && negb (fid_src_port (pi_id pkt) =? QUIC_PORT)) = false ->
  pi_l4_hdr pkt = Some l4 -> slice (skb_data skb) l4 sizeof_udphdr = Some b ->
  let udp_len := bpf_ntohs (uh_len (decode_udphdr b)) in
  29 <= udp_len ->
  quic_packet cfg skb pkt t v <-> quic_header_at skb (l4 + 8) (udp_len - 8) t v.
Proof.
  intros Ep Ec Eo Hb udp_len Hlen. split.
  - intros [_ _ (l4' & b' & E1 & E2 & _ & Hh)]. rewrite Eo in E1. by simplify_eq.
  - intros Hh. split; [done| |by exists l4, b].
    intros E1. rewrite E1, Z.eqb_refl in Ec. cbn [andb] in Ec.
    rewrite andb_false_iff, !negb_false_iff, !Z.eqb_eq in Ec. unfold QUIC_PORT in Ec. tauto.
Qed.

(** The offsets and lengths of a UDP header do not wrap. *)
Lemma udp_header_small skb l4 b :
  wf_skb skb -> slice (skb_data skb) l4 sizeof_udphdr = Some b ->
  0 <= l4 /\ l4 + 8 < 2 ^ 32 /\ is_u16 (bpf_ntohs (uh_len (decode_udphdr b))).
Proof.
  intros ([_ Hu] & _ & Hd & _ & Hpre & Hlen) Hb. apply prefix_length in Hpre.
  pose proof (slice_inside _ _ _ _ Hb) as (? & _ & Hhi). unfold sizeof_udphdr in Hhi.
  split; [done|]. split; [lia|]. apply bpf_ntohs_u16. by eapply slice_Forall.
Qed.

Lemma wp_track_quic cpu cfg skb pkt eth_protocol (Q : Z → world → Prop) w :
  world_wf w -> wf_skb skb -> l4_ok (skb_data skb) pkt ->
  (∀ w', quic_effect cpu cfg skb pkt eth_protocol w w' -> Q 0 w') ->
  wp cpu (track_quic_packet cfg skb pkt eth_protocol) Q w.
Proof.
  intros Hw Hskb Hl4 HQ. unfold track_quic_packet.
  assert (Hnone : (∀ t v, ~ quic_packet cfg skb pkt t v) -> wp cpu (mret 0) Q w)
    by (intros; by apply wp_ret, HQ, QuicNone).
  destruct (fid_transport_protocol (pi_id pkt) =? IPPROTO_UDP) eqn:Ep; bool_to_prop; cbn [negb].
  2: { apply Hnone. by intros t v [? _ _]. }
  destruct ((enable_quic_tracking cfg =? QUIC_CONFIG_ENABLED) && _) eqn:Ec.
  { apply Hnone. intros t v [_ Hport _]. rewrite !andb_true_iff, !negb_true_iff, !Z.eqb_neq, Z.eqb_eq in Ec.
    unfold QUIC_PORT in Ec. tauto. }
  destruct (pi_l4_hdr pkt) as [off|] eqn:Eo.
  2: { apply Hnone. by intros t v [_ _ (l4 & b & ? & _)]; simplify_eq. }
  destruct (quic_offset_ok _ _ _ Hl4 Ep Eo) as [Hlo Hhi].
  destruct (load_ok (skb_data skb) off sizeof_udphdr) as (b & Hb & _); [done|done|lia|].
  rewrite Hb. eapply wp_bind, wp_deref; [done|]. cbv zeta. change (sizeof_udphdr + QUIC_MIN_PACKET_SIZE) with 29.
  destruct (udp_header_small skb off b Hskb Hb) as (_ & Hoff & Hlen).
  set (udp_len := bpf_ntohs (uh_len (decode_udphdr b))) in *.
  destruct (udp_len <? 29) eqn:El; bool_to_prop.
  { apply Hnone. intros t v [_ _ (l4 & b' & E1 & E2 & H29 & _)]. rewrite Eo in E1. simplify_eq.
    fold udp_len in H29. lia. }
  rewrite (u32_small off), (u32_small (off + _)), u32_small by (unfold sizeof_udphdr; width; lia).
  change sizeof_udphdr with 8.
  pose proof (λ t v, quic_packet_at cfg skb pkt off b t v Ep Ec Eo Hb El) as Hiff. fold udp_len in Hiff.
  destruct (parse_quic_header skb (off + 8) (udp_len - 8) 0) as [t v] eqn:Eh.
  case_decide as Ht.
  { apply Hnone. intros t' v' Hh%Hiff. pose proof (quic_header_kind _ _ _ _ _ Hh).
    apply parse_quic_header_finds in Hh; [congruence|done|lia]. }
  assert (Hq : quic_packet cfg skb pkt t v) by (apply Hiff; apply parse_quic_header_found; done || lia).
  apply wp_bind, wp_lookup; [done|intros Hn|intros p m Hm Hat].
  - apply wp_bind, wp_update_new; [done..| |].
    + intros w' Hu. apply wp_ret, HQ. eapply (QuicFirst _ _ _ _ _ _ _ t v); [done..|].
      by destruct t.
    + intros e w' Hu He. rewrite (proj2 (Z.eqb_neq e _)) by apply (map_refuses_errno _ _ _ _ _ He).
      apply wp_ret, HQ. by eapply QuicRefused.
  - apply wp_bind, (wp_write _ quic_flows (pi_id pkt) _ m); [done..|].
    intros w' Hu _. apply wp_ret, HQ. eapply QuicSeen; [done..| |exact Hu]. by apply quic_seen_marked.
Qed.
End Effect.
