(* ===== verification/Flows.v ===== *)
(** * The flow monitor ([bpf/flows/flows.c])

    The program of the TC hooks: sampling, parsing, filtering, the trackers of
    the payload, then the accounting of the packet in the flow map or, when the
    map refuses a new flow, in the ring buffer. *)
From S2P Require Import Prelude Machine Types Kernel Maps Safety PacketUtils Filter Tls Dns Quic.

(** ** Operations *)

(** The loop of [add_observed_intf] from index [i]: the metrics when the
    interface was found. *)
Fixpoint observed_loop (n : nat) (i : nat) (if_index direction : Z) (value : flow_metrics)
    : option flow_metrics :=
  match n with
  | O => None
  | S n =>
      if default 0 (fm_observed_intf value !! i) =? if_index then
        let seen := default 0 (fm_observed_direction value !! i) in
        Some (if negb (seen =? direction) && negb (seen =? OBSERVED_DIRECTION_BOTH)
              then value <| fm_observed_direction ::= <[i := OBSERVED_DIRECTION_BOTH]> |>
              else value)
      else observed_loop n (S i) if_index direction value
  end.

(** 0 on success, 1 if the capacity is reached. *)
Definition add_observed_intf (value : flow_metrics) (if_index direction : Z)
    : Z * flow_metrics :=
  if MAX_OBSERVED_INTERFACES <=? fm_nb_observed_intf value then (1, value)
  else
    match observed_loop (Z.to_nat (fm_nb_observed_intf value)) 0 if_index direction value with
    | Some value => (0, value)
    | None =>
        let nb := Z.to_nat (fm_nb_observed_intf value) in
        (0, value <| fm_observed_intf ::= <[nb := if_index]> |>
                  <| fm_observed_direction ::= <[nb := direction]> |>
                  <| fm_nb_observed_intf ::= λ n, u8 (n + 1) |>)
    end.

(** The TLS fields of a flow, in [update_existing_flow]. *)
Definition update_tls (tls : tls_info) (flow : flow_metrics) : flow_metrics :=
  let flow :=
    if (0 <? tls_hello_version tls) && negb (fm_ssl_version flow =? tls_hello_version tls) then
      if fm_ssl_version flow =? 0 then flow <| fm_ssl_version := tls_hello_version tls |>
      else flow <| fm_misc_flags ::= λ f, Z.lor f MISC_FLAGS_SSL_MISMATCH |>
    else flow in
  let flow :=
    if (0 <? tls_cipher_suite tls) && (tls_type tls =? TLSTRACKER_BF_SERVER_HELLO)
    then flow <| fm_tls_cipher_suite := tls_cipher_suite tls |> else flow in
  let flow :=
    if (0 <? tls_key_share tls) && (tls_type tls =? TLSTRACKER_BF_SERVER_HELLO)
    then flow <| fm_tls_key_share := tls_key_share tls |> else flow in
  flow <| fm_tls_types ::= λ t, Z.lor t (tls_type tls) |>.

(** The section of [update_existing_flow] under the spin lock; the second
    component is [maxReached]. *)
Definition update_locked (pkt : pkt_info) (len sampling if_index direction : Z)
    (tls : tls_info) (flow : flow_metrics) : flow_metrics * Z :=
  if fm_if_index_first_seen flow =? if_index then
    let flow := flow
      <| fm_packets ::= λ n, u32 (n + 1) |>
      <| fm_bytes ::= λ n, u64 (n + len) |>
      <| fm_end_mono_time_ts := pi_current_ts pkt |>
      <| fm_flags ::= λ f, Z.lor f (pi_flags pkt) |>
      <| fm_dscp := pi_dscp pkt |>
      <| fm_sampling := sampling |> in
    (update_tls tls flow, 0)
  else if negb (if_index =? 0) then
    let flow := flow
      <| fm_end_mono_time_ts := pi_current_ts pkt |>
      <| fm_flags ::= λ f, Z.lor f (pi_flags pkt) |> in
    let '(maxReached, flow) := add_observed_intf flow if_index direction in
    (flow, maxReached)
  else (flow, 0).

Definition update_existing_flow (p : addr) (pkt : pkt_info)
    (len sampling if_index direction : Z) (tls : tls_info) : prog unit :=
  maxReached ← call (elem_write aggregated_flows p
                       (update_locked pkt len sampling if_index direction tls));
  if (0 <? maxReached) && negb (fid_transport_protocol (pi_id pkt) =? 0)
  then increase_counter (counter_index OBSERVED_INTF_MISSED)
  else mret tt.

(** [name] is what the name pointer of the packet info refers to. *)
Definition dns_write (pkt : pkt_info) (name : option (list Z)) (dns_errno : Z)
    (m : dns_metrics) : dns_metrics :=
  let m :=
    if negb (pi_dns_id pkt =? 0) then
      let m := m
        <| dm_end_mono_time_ts := pi_current_ts pkt |>
        <| dm_id := pi_dns_id pkt |>
        <| dm_flags := pi_dns_flags pkt |>
        <| dm_latency := pi_dns_latency pkt |> in
      match name with
      | Some name => m <| dm_name := name |>
      | None => m
      end
    else m in
  if negb (dns_errno =? 0) then m <| dm_errno := u8 dns_errno |> else m.

(** The object behind the name pointer, [None] for a null pointer. *)
Definition read_name (dns_name : option addr) : prog (option (list Z)) :=
  match dns_name with
  | Some buf => name ← call (elem_read dns_name_map buf); mret (Some name)
  | None => mret None
  end.

Definition update_dns (p : addr) (pkt : pkt_info) (dns_errno : Z) : prog unit :=
  name ← (if negb (pi_dns_id pkt =? 0) then read_name (pi_dns_name pkt) else mret None);
  _ ← call (elem_write aggregated_flows_dns p (λ m, (dns_write pkt name dns_errno m, 0)));
  mret tt.

Section Monitor.
Context {H : Host} {K : Kernel}.
Implicit Types cfg : config.

(** The flow of a first packet. *)
Definition new_flow_metrics (skb : sk_buff) (pkt : pkt_info) (eth : ethhdr)
    (eth_protocol len flow_sampling direction : Z) (tls : tls_info) : flow_metrics :=
  zeroed
    <| fm_if_index_first_seen := skb_ifindex skb |>
    <| fm_direction_first_seen := direction |>
    <| fm_packets := 1 |>
    <| fm_bytes := len |>
    <| fm_eth_protocol := eth_protocol |>
    <| fm_start_mono_time_ts := pi_current_ts pkt |>
    <| fm_end_mono_time_ts := pi_current_ts pkt |>
    <| fm_flags := pi_flags pkt |>
    <| fm_dscp := pi_dscp pkt |>
    <| fm_sampling := flow_sampling |>
    <| fm_dst_mac := h_dest eth |>
    <| fm_src_mac := h_source eth |>
    <| fm_ssl_version := tls_hello_version tls |>
    <| fm_tls_cipher_suite := tls_cipher_suite tls |>
    <| fm_tls_key_share := tls_key_share tls |>
    <| fm_tls_types := tls_type tls |>.

(** The accounting of the packet in the flow map; the result is [false] for
    the early return when the ring buffer is full. *)
Definition account_flow cfg (skb : sk_buff) (pkt : pkt_info)
    (eth_protocol len flow_sampling direction : Z) (tls : tls_info) : prog bool :=
  let id := pi_id pkt in
  let update p :=
    update_existing_flow p pkt len flow_sampling (skb_ifindex skb) direction tls in
  aggregate_flow ← call (bpf_map_lookup_elem aggregated_flows id);
  match aggregate_flow with
  | Some p => _ ← update p; mret true
  | None =>
      eth ← deref (decode_ethhdr <$> slice (skb_data skb) 0 sizeof_ethhdr);
      let new_flow :=
        new_flow_metrics skb pkt eth eth_protocol len flow_sampling direction tls in
      ret ← call (bpf_map_update_elem aggregated_flows id new_flow BPF_NOEXIST);
      if negb (ret =? 0) then
        if ret =? - EEXIST then
          aggregate_flow ← call (bpf_map_lookup_elem aggregated_flows id);
          match aggregate_flow with
          | Some p => _ ← update p; mret true
          | None =>
              _ ← increase_counter (counter_index HASHMAP_FAIL_UPDATE_FLOW);
              mret true
          end
        else if 0 <? enable_directflows_ringbuf cfg then
          let new_flow := new_flow <| fm_errno := u8 (- ret) |> in
          record ← call (bpf_ringbuf_reserve direct_flows);
          match record with
          | None => mret false
          | Some i =>
              _ ← call (bpf_ringbuf_submit direct_flows i (mk_flow_record id new_flow));
              mret true
          end
        else
          _ ← increase_counter (counter_index HASHMAP_FAIL_CREATE_FLOW);
          mret true
      else mret true
  end.

(** The DNS metrics of the flow. *)
Definition account_dns (pkt : pkt_info) (eth_protocol dns_errno : Z) : prog unit :=
  let id := pi_id pkt in
  if negb (pi_dns_id pkt =? 0) || negb (dns_errno =? 0) then
    extra_metrics ← call (bpf_map_lookup_elem aggregated_flows_dns id);
    match extra_metrics with
    | Some p => update_dns p pkt dns_errno
    | None =>
        name ← read_name (pi_dns_name pkt);
        let new_metrics := zeroed
          <| dm_start_mono_time_ts := pi_current_ts pkt |>
          <| dm_end_mono_time_ts := pi_current_ts pkt |>
          <| dm_eth_protocol := eth_protocol |>
          <| dm_id := pi_dns_id pkt |>
          <| dm_flags := pi_dns_flags pkt |>
          <| dm_latency := pi_dns_latency pkt |> in
        let new_metrics :=
          match name with Some name => new_metrics <| dm_name := name |> | None => new_metrics end in
        let new_metrics := new_metrics <| dm_errno := u8 dns_errno |> in
        ret ← call (bpf_map_update_elem aggregated_flows_dns id new_metrics BPF_NOEXIST);
        if negb (ret =? 0) then
          if ret =? - EEXIST then
            extra_metrics ← call (bpf_map_lookup_elem aggregated_flows_dns id);
            match extra_metrics with
            | Some p => update_dns p pkt dns_errno
            | None => increase_counter (counter_index HASHMAP_FAIL_UPDATE_DNS)
            end
          else increase_counter (counter_index HASHMAP_FAIL_UPDATE_DNS)
        else mret tt
    end
  else mret tt.

(** 1 packet out of [rate] is kept: [true] drops the packet. *)
Definition sampled_out (rate : Z) : prog bool :=
  if 1 <? rate then
    x ← call bpf_get_prandom_u32;
    mret (negb (x mod rate =? 0))
  else mret false.

(** A sampling decision, remembered for the other hooks. *)
Definition sample (rate : Z) : prog bool :=
  out ← sampled_out rate;
  if out : bool then _ ← call (do_sampling_set 0); mret false
  else _ ← call (do_sampling_set 1); mret true.

(** What happens to a packet that was parsed, kept by the sampling and let
    through by the filter. *)
Definition process_packet cfg (skb : sk_buff) (pkt : pkt_info)
    (eth_protocol flow_sampling direction : Z) : prog Z :=
  let len := skb_len skb in
  '(dns_errno, pkt) ←
    (if negb (enable_dns_tracking cfg =? 0) then track_dns_packet cfg skb pkt
     else mret (0, pkt));
  '(_, tls) ← deref (track_tls cfg skb (fid_transport_protocol (pi_id pkt)) (pi_l4_hdr pkt)
                       (pi_flags pkt) zeroed);
  _ ← (if negb (enable_quic_tracking cfg =? 0)
       then track_quic_packet cfg skb pkt eth_protocol else mret 0);
  continue ← account_flow cfg skb pkt eth_protocol len flow_sampling direction tls;
  if continue : bool then
    _ ← account_dns pkt eth_protocol dns_errno;
    mret TC_ACT_OK
  else mret TC_ACT_OK.

(** From the parsing to the decision to process the packet. *)
Definition parse_and_filter cfg (skb : sk_buff) (flow_sampling direction : Z) : prog Z :=
  ts ← call bpf_ktime_get_ns;
  '(verdict, pkt, eth_protocol) ←
    deref (fill_ethhdr (skb_data skb) 0 (Z.of_nat (length (skb_data skb)))
             (zeroed <| pi_current_ts := ts |>) 0);
  if verdict =? DISCARD then mret TC_ACT_OK
  else
    '(skip, filter_sampling) ← check_and_apply_filter cfg (pi_id pkt) (pi_flags pkt) 0
       eth_protocol (Some flow_sampling) direction;
    let flow_sampling := default flow_sampling filter_sampling in
    if negb (has_filter_sampling cfg =? 0) then
      let flow_sampling := if flow_sampling =? 0 then sampling cfg else flow_sampling in
      keep ← sample flow_sampling;
      if negb keep then mret TC_ACT_OK
      else if skip : bool then mret TC_ACT_OK
      else process_packet cfg skb pkt eth_protocol flow_sampling direction
    else if skip then mret TC_ACT_OK
    else process_packet cfg skb pkt eth_protocol flow_sampling direction.

Definition flow_monitor cfg (skb : sk_buff) (direction : Z) : prog Z :=
  if has_filter_sampling cfg =? 0 then
    keep ← sample (sampling cfg);
    if negb keep then mret TC_ACT_OK
    else parse_and_filter cfg skb (sampling cfg) direction
  else parse_and_filter cfg skb 0 direction.

(** *** Entry points *)

Definition tc_ingress_flow_parse cfg (skb : sk_buff) : prog Z := flow_monitor cfg skb INGRESS.
Definition tc_egress_flow_parse cfg (skb : sk_buff) : prog Z := flow_monitor cfg skb EGRESS.
Definition tcx_ingress_flow_parse cfg (skb : sk_buff) : prog Z :=
  _ ← flow_monitor cfg skb INGRESS; mret TCX_NEXT.
Definition tcx_egress_flow_parse cfg (skb : sk_buff) : prog Z :=
  _ ← flow_monitor cfg skb EGRESS; mret TCX_NEXT.
Definition netkit_primary_flow_parse cfg (skb : sk_buff) : prog Z :=
  _ ← flow_monitor cfg skb EGRESS; mret NETKIT_NEXT.
Definition netkit_peer_flow_parse cfg (skb : sk_buff) : prog Z :=
  _ ← flow_monitor cfg skb INGRESS; mret NETKIT_NEXT.
End Monitor.

(** ** Observed interfaces *)

Lemma observed_loop_None n i if_index direction v :
  (i + n <= length (fm_observed_intf v))%nat ->
  observed_loop n i if_index direction v = None <->
  if_index ∉ take n (drop i (fm_observed_intf v)).
Proof.
  revert i. induction n as [|n IH]; intros i Hi; cbn [observed_loop].
  { split; [intros _; apply not_elem_of_nil | done]. }
  destruct (lookup_lt_is_Some_2 (fm_observed_intf v) i) as [x Hx]; [lia|].
  rewrite Hx. change (default 0 (Some x)) with x.
  rewrite (drop_S _ x) by done. cbn [take]. rewrite not_elem_of_cons.
  destruct (x =? if_index) eqn:E; bool_to_prop.
  - split; [done | intros [? _]; congruence].
  - rewrite IH by lia. split; [intros ?; split; [congruence|done] | tauto].
Qed.

Lemma observed_loop_Some n i if_index direction v v' :
  observed_loop n i if_index direction v = Some v' ->
  ∃ d, v' = v <| fm_observed_direction := d |> /\
       (d = fm_observed_direction v \/
        ∃ j, d = <[j := OBSERVED_DIRECTION_BOTH]> (fm_observed_direction v)).
Proof.
  revert i. induction n as [|n IH]; intros i; cbn [observed_loop]; [done|].
  case_match; [|apply IH]. case_match; intros [= <-].
  - eexists. split; [done|]. right. by exists i.
  - exists (fm_observed_direction v). split; [by destruct v | by left].
Qed.

(** Adding an interface to well-formed metrics: the capacity is respected, an
    interface is recorded at most once, and the order of the others stays. *)
Lemma add_observed_intf_spec v if_index direction :
  wf_flow_metrics v -> is_u32 if_index -> if_index <> 0 ->
  if_index <> fm_if_index_first_seen v -> is_u8 direction ->
  ∃ v', add_observed_intf v if_index direction =
      ((if MAX_OBSERVED_INTERFACES <=? fm_nb_observed_intf v then 1 else 0), v') /\
    wf_flow_metrics v' /\
    observed_intfs v' =
      (if MAX_OBSERVED_INTERFACES <=? fm_nb_observed_intf v then observed_intfs v
       else if decide (if_index ∈ observed_intfs v) then observed_intfs v
       else observed_intfs v ++ [if_index]) /\
    (∃ i d n, v' = v <| fm_observed_intf := i |> <| fm_observed_direction := d |>
                     <| fm_nb_observed_intf := n |>).
Proof.
  intros Hv Hi H0 Hf Hd. pose proof (wfm_nb _ Hv) as Hn6.
  destruct (wfm_intfs _ Hv) as [Hl Hu]. destruct (wfm_directions _ Hv) as [Hdl Hdu].
  unfold add_observed_intf. unfold MAX_OBSERVED_INTERFACES in *.
  destruct (6 <=? fm_nb_observed_intf v) eqn:E; bool_to_prop.
  { exists v. split; [done|]. split; [done|]. split; [done|].
    exists (fm_observed_intf v), (fm_observed_direction v), (fm_nb_observed_intf v).
    by destruct v. }
  set (nb := Z.to_nat (fm_nb_observed_intf v)).
  assert (Hnb : (nb < 6)%nat) by lia.
  pose proof (observed_loop_None nb 0 if_index direction v ltac:(lia)) as Hnone.
  rewrite drop_0 in Hnone. change (take nb (fm_observed_intf v)) with (observed_intfs v) in Hnone.
  destruct (observed_loop nb 0 if_index direction v) as [v'|] eqn:El.
  - exists v'. split; [done|].
    apply observed_loop_Some in El as (d & -> & Hdir).
    assert (is_bytes 6 d).
    { destruct Hdir as [->|(j & ->)]; [done|].
      split; [by rewrite length_insert|]. by apply Forall_insert; [|width; unfold OBSERVED_DIRECTION_BOTH; lia]. }
    split; [destruct Hv; by split|]. split.
    + rewrite decide_True; [done|]. destruct (decide (if_index ∈ observed_intfs v)) as [|Hn]; [done|].
      by apply Hnone in Hn.
    + exists (fm_observed_intf v), d, (fm_nb_observed_intf v). by destruct v.
  - apply proj1 in Hnone. specialize (Hnone eq_refl).
    set (v' := v <| fm_observed_intf ::= _ |> <| fm_observed_direction ::= _ |>
                 <| fm_nb_observed_intf ::= _ |>).
    assert (Hnb' : fm_nb_observed_intf v' = fm_nb_observed_intf v + 1).
    { subst v'. cbn. apply u8_small. width. lia. }
    assert (Ho : observed_intfs v' = observed_intfs v ++ [if_index]).
    { unfold observed_intfs. rewrite Hnb'. subst v'. cbn. fold nb.
      replace (Z.to_nat (fm_nb_observed_intf v + 1)) with (S nb) by lia.
      rewrite (take_S_r _ _ if_index) by (apply list_lookup_insert_eq; lia).
      by rewrite take_insert_ge by lia. }
    exists v'. split; [done|]. split; [|split].
    + destruct (Hv) as []; split; try done; rewrite ?Ho, ?Hnb'.
      * unfold MAX_OBSERVED_INTERFACES. lia.
      * split; [cbn; by rewrite length_insert|]. by apply Forall_insert.
      * split; [cbn; by rewrite length_insert|]. by apply Forall_insert.
      * apply list.NoDup_app. split; [done|]. split; [|apply NoDup_singleton].
        by intros x Hx Ex%list_elem_of_singleton; subst x.
      * change (fm_if_index_first_seen v') with (fm_if_index_first_seen v).
        rewrite elem_of_app, list_elem_of_singleton. intros [?|?]; [done|congruence].
      * rewrite elem_of_app, list_elem_of_singleton. intros [?|?]; [done|congruence].
    + by rewrite decide_False.
    + by eexists _, _, _.
Qed.

(** The direction recorded for a known interface that is seen again. *)
Definition merge_direction (seen direction : Z) : Z :=
  if negb (seen =? direction) && negb (seen =? OBSERVED_DIRECTION_BOTH)
  then OBSERVED_DIRECTION_BOTH else seen.

(** Interface [x] is recorded with direction [d]. *)
Definition recorded (v : flow_metrics) (x d : Z) : Prop :=
  ∃ i, Z.of_nat i < fm_nb_observed_intf v /\ fm_observed_intf v !! i = Some x /\
       fm_observed_direction v !! i = Some d.

Lemma observed_loop_at n i if_index direction v v' :
  (i + n <= length (fm_observed_intf v))%nat ->
  (i + n <= length (fm_observed_direction v))%nat ->
  observed_loop n i if_index direction v = Some v' ->
  ∃ j s, (i <= j < i + n)%nat /\ fm_observed_intf v !! j = Some if_index /\
    fm_observed_direction v !! j = Some s /\
    v' = v <| fm_observed_direction ::= <[j := merge_direction s direction]> |>.
Proof.
  revert i. induction n as [|n IH]; intros i Hl Hd; cbn [observed_loop]; [done|].
  destruct (lookup_lt_is_Some_2 (fm_observed_intf v) i) as [x Hx]; [lia|].
  destruct (lookup_lt_is_Some_2 (fm_observed_direction v) i) as [s Hs]; [lia|].
  rewrite Hx, Hs. change (default 0 (Some x)) with x. change (default 0 (Some s)) with s.
  destruct (x =? if_index) eqn:E; bool_to_prop.
  - subst x. intros [= <-]. exists i, s. split_and!; [lia|lia|done|done|].
    unfold merge_direction. case_match; [done|]. destruct v; cbn in *.
    unfold set. cbn. by rewrite list_insert_id.
  - intros Hv. apply IH in Hv as (j & s' & Hj & Hr); [|lia..].
    exists j, s'. split; [lia|done].
Qed.

Lemma recorded_unique v x d d' :
  wf_flow_metrics v -> recorded v x d -> recorded v x d' -> d = d'.
Proof.
  intros Hv (i & Hi & Hx & Hd) (j & Hj & Hx' & Hd').
  assert (i = j) as ->; [|congruence].
  apply (NoDup_lookup (observed_intfs v) i j x); [apply Hv|unfold observed_intfs; rewrite lookup_take_lt by lia..]; done.
Qed.

Lemma recorded_observed v x :
  wf_flow_metrics v -> x ∈ observed_intfs v <-> ∃ d, recorded v x d.
Proof.
  intros Hv. unfold observed_intfs. rewrite list_elem_of_lookup. split.
  - intros (i & [Hi Hlt]%lookup_take_Some).
    destruct (lookup_lt_is_Some_2 (fm_observed_direction v) i) as [d Hd].
    { rewrite (proj1 (wfm_directions _ Hv)). pose proof (wfm_nb _ Hv).
      unfold MAX_OBSERVED_INTERFACES in *. lia. }
    exists d, i. split_and!; [lia|done..].
  - intros (d & i & Hi & Hx & _). exists i. by rewrite lookup_take_lt by lia.
Qed.

(** The directions after an interface was added: a new interface has the
    direction of the packet, a known one may become [BOTH], the others stay. *)
Lemma add_observed_intf_directions v if_index direction :
  wf_flow_metrics v -> fm_nb_observed_intf v < MAX_OBSERVED_INTERFACES ->
  let v' := (add_observed_intf v if_index direction).2 in
  (∀ s, recorded v if_index s -> recorded v' if_index (merge_direction s direction)) /\
  (if_index ∉ observed_intfs v -> recorded v' if_index direction) /\
  (∀ x d, x <> if_index -> recorded v' x d <-> recorded v x d).
Proof.
  intros Hv Hn. pose proof (wfm_nb _ Hv) as Hn6.
  destruct (wfm_intfs _ Hv) as [Hl _]. destruct (wfm_directions _ Hv) as [Hdl _].
  unfold add_observed_intf. unfold MAX_OBSERVED_INTERFACES in *.
  rewrite (proj2 (Z.leb_gt _ _)) by done.
  set (nb := Z.to_nat (fm_nb_observed_intf v)).
  destruct (observed_loop nb 0 if_index direction v) as [v'|] eqn:El; cbn [snd].
  - apply observed_loop_at in El as (j & s & Hj & Hx & Hs & ->); [|lia..].
    assert (Hrec : recorded v if_index s) by (exists j; split_and!; [lia|done..]).
    split_and!.
    + intros s' Hs'. rewrite (recorded_unique _ _ _ _ Hv Hs' Hrec).
      exists j. cbn. split_and!; [lia|done|]. apply list_lookup_insert_eq. lia.
    + intros Hnot. destruct Hnot. apply recorded_observed; [done|by eexists].
    + intros x d Hne. unfold recorded. cbn.
      split; intros (i & Hi & Hxi & Hd); exists i;
        (assert (i <> j) by (intros ->; congruence));
        rewrite list_lookup_insert_ne in * by done; by split_and!.
  - assert (Hnot : if_index ∉ observed_intfs v).
    { apply observed_loop_None in El; [|lia]. by rewrite drop_0 in El. }
    set (v' := v <| fm_observed_intf ::= _ |> <| fm_observed_direction ::= _ |>
                 <| fm_nb_observed_intf ::= _ |>).
    assert (Hnb : fm_nb_observed_intf v' = fm_nb_observed_intf v + 1).
    { subst v'. cbn. apply u8_small. width. lia. }
    split_and!.
    + intros s Hs. destruct Hnot. apply recorded_observed; [done|by eexists].
    + intros _. exists nb. rewrite Hnb. subst v'. cbn.
      split_and!; [lia|apply list_lookup_insert_eq; lia..].
    + intros x d Hne. unfold recorded. rewrite Hnb. subst v'. cbn. fold nb.
      split; intros (i & Hi & Hx & Hd); exists i.
      * destruct (decide (i = nb)) as [->|].
        { rewrite list_lookup_insert_eq in Hx by lia. congruence. }
        rewrite !list_lookup_insert_ne in * by done. split_and!; [lia|done..].
      * rewrite !list_lookup_insert_ne by lia. split_and!; [lia|done..].
Qed.

(** ** Updating a flow *)

(** The TLS part only touches the TLS fields. *)
Lemma update_tls_fields tls f :
  wf_tls_info tls -> is_u16 (fm_ssl_version f) -> is_u16 (fm_tls_cipher_suite f) ->
  is_u16 (fm_tls_key_share f) -> is_u8 (fm_tls_types f) -> is_u8 (fm_misc_flags f) ->
  ∃ ssl cipher share types misc,
    update_tls tls f = f <| fm_ssl_version := ssl |> <| fm_tls_cipher_suite := cipher |>
      <| fm_tls_key_share := share |> <| fm_tls_types := types |> <| fm_misc_flags := misc |> /\
    is_u16 ssl /\ is_u16 cipher /\ is_u16 share /\ is_u8 types /\ is_u8 misc.
Proof.
  intros (Hv & Hc & Hs & Ht) Hfs Hfc Hfk Hft Hfm. 
  assert (is_u8 (Z.lor (fm_misc_flags f) MISC_FLAGS_SSL_MISMATCH))
    by (apply lor_u8; [done|width; unfold MISC_FLAGS_SSL_MISMATCH; lia]).
  assert (is_u8 (Z.lor (fm_tls_types f) (tls_type tls))) by by apply lor_u8.
  exists (fm_ssl_version (update_tls tls f)), (fm_tls_cipher_suite (update_tls tls f)),
    (fm_tls_key_share (update_tls tls f)), (fm_tls_types (update_tls tls f)),
    (fm_misc_flags (update_tls tls f)).
  unfold update_tls.
  repeat case_match; (split; [by destruct f|]); cbn; split_and!; assumption.
Qed.

Record wf_pkt (pkt : pkt_info) : Prop := {
  wfp_id : wf_flow_id (pi_id pkt);
  wfp_ts : is_u64 (pi_current_ts pkt);
  wfp_flags : is_u16 (pi_flags pkt);
  wfp_dscp : is_u8 (pi_dscp pkt);
  wfp_dns : wf_dns_info pkt;
}.

Lemma update_locked_ok pkt len sampling if_index direction tls f :
  wf_flow_metrics f -> wf_pkt pkt -> is_u32 sampling -> is_u32 if_index -> is_u8 direction ->
  wf_tls_info tls ->
  wf_flow_metrics (update_locked pkt len sampling if_index direction tls f).1.
Proof.
  intros Hf Hp Hs Hi Hd Ht. unfold update_locked.
  assert (Hor : is_u16 (Z.lor (fm_flags f) (pi_flags pkt)))
    by (apply lor_u16; [apply Hf|apply Hp]).
  destruct (fm_if_index_first_seen f =? if_index) eqn:E1; bool_to_prop.
  - cbv zeta. set (f' := f <| fm_packets ::= _ |> <| fm_bytes ::= _ |> <| fm_end_mono_time_ts := _ |>
      <| fm_flags ::= _ |> <| fm_dscp := _ |> <| fm_sampling := _ |>).
    assert (Hf' : wf_flow_metrics f').
    { destruct Hf, Hp. split; subst f'; cbn; try done; auto with width. }
    destruct (update_tls_fields tls f') as (?&?&?&?&?& -> &?&?&?&?&?); try apply Hf'; [done|].
    destruct Hf'. by split.
  - destruct (if_index =? 0) eqn:E0; cbn [negb]; bool_to_prop; [done|].
    set (f' := f <| fm_end_mono_time_ts := _ |> <| fm_flags ::= _ |>).
    assert (Hf' : wf_flow_metrics f').
    { destruct Hf, Hp. by split. }
    destruct (add_observed_intf_spec f' if_index direction) as (v' & -> & Hv' & _);
      [done..|by subst f'; cbn; congruence|done|].
    done.
Qed.

(** What one packet adds to a flow: seen on the interface of the flow it counts,
    seen on another one it does not. *)
Lemma update_locked_counts pkt len sampling if_index direction tls f :
  wf_flow_metrics f -> wf_pkt pkt -> is_u32 if_index -> is_u8 direction -> wf_tls_info tls ->
  let f' := (update_locked pkt len sampling if_index direction tls f).1 in
  let here := fm_if_index_first_seen f =? if_index in
  fm_packets f' = (if here then u32 (fm_packets f + 1) else fm_packets f) /\
  fm_bytes f' = (if here then u64 (fm_bytes f + len) else fm_bytes f) /\
  fm_end_mono_time_ts f' =
    (if here || negb (if_index =? 0) then pi_current_ts pkt else fm_end_mono_time_ts f) /\
  fm_flags f' =
    (if here || negb (if_index =? 0) then Z.lor (fm_flags f) (pi_flags pkt) else fm_flags f) /\
  fm_if_index_first_seen f' = fm_if_index_first_seen f /\
  fm_start_mono_time_ts f' = fm_start_mono_time_ts f /\
  observed_intfs f' =
    (if here || (if_index =? 0) || (MAX_OBSERVED_INTERFACES <=? fm_nb_observed_intf f) ||
        bool_decide (if_index ∈ observed_intfs f)
     then observed_intfs f else observed_intfs f ++ [if_index]).
Proof.
  intros Hf Hp Hi Hd Ht. unfold update_locked. cbv zeta.
  destruct (fm_if_index_first_seen f =? if_index) eqn:E1; cbn [orb]; bool_to_prop.
  - set (f' := f <| fm_packets ::= _ |> <| fm_bytes ::= _ |> <| fm_end_mono_time_ts := _ |>
      <| fm_flags ::= _ |> <| fm_dscp := _ |> <| fm_sampling := _ |>).
    destruct (update_tls_fields tls f') as (?&?&?&?&?& -> &_); try apply Hf; done.
  - destruct (if_index =? 0) eqn:E0; cbn [negb orb]; bool_to_prop; [done|].
    set (f' := f <| fm_end_mono_time_ts := _ |> <| fm_flags ::= _ |>).
    assert (Hf' : wf_flow_metrics f').
    { assert (is_u16 (Z.lor (fm_flags f) (pi_flags pkt)))
        by (apply lor_u16; [apply Hf|apply Hp]). destruct Hf, Hp. by split. }
    destruct (add_observed_intf_spec f' if_index direction)
      as (v' & -> & _ & Ho & (i & d & n & ->));
      [done..|by subst f'; cbn; congruence|done|].
    cbn [fst]. do 6 (split; [done|]). rewrite Ho. subst f'. cbn [fm_nb_observed_intf set].
    change (observed_intfs (set _ _ (set _ _ f))) with (observed_intfs f).
    change (fm_nb_observed_intf (set _ _ (set _ _ f))) with (fm_nb_observed_intf f).
    destruct (MAX_OBSERVED_INTERFACES <=? _); cbn [orb]; [done|].
    destruct (decide (if_index ∈ observed_intfs f)).
    + by rewrite bool_decide_eq_true_2.
    + by rewrite bool_decide_eq_false_2.
Qed.

(** ** Safety of the monitor *)

Section Safe.
Context {H : Host} {K : Kernel} {KL : KernelLaws K}.

Lemma update_existing_flow_safe p pkt len sampling if_index direction tls :
  wf_pkt pkt -> is_u32 sampling -> is_u32 if_index -> is_u8 direction -> wf_tls_info tls ->
  safe (λ _, True) (update_existing_flow p pkt len sampling if_index direction tls).
Proof.
  intros. apply safe_bind, safe_call.
  - cbn. intros f Hf. by apply update_locked_ok.
  - intros r _. case_match; [apply increase_counter_safe|done].
Qed.

Lemma new_flow_metrics_ok skb pkt eth eth_protocol flow_sampling direction tls :
  wf_skb skb -> wf_pkt pkt -> is_bytes 6 (h_dest eth) -> is_bytes 6 (h_source eth) ->
  is_u16 eth_protocol -> is_u32 flow_sampling -> is_u8 direction -> wf_tls_info tls ->
  wf_flow_metrics
    (new_flow_metrics skb pkt eth eth_protocol (skb_len skb) flow_sampling direction tls).
Proof.
  intros (Hl & Hi & _) [] ????? (?&?&?&?).
  assert (is_u64 (skb_len skb)) by (width; lia).
  pose proof (wf_value_zero aggregated_flows) as Hz. destruct Hz.
  split; try done. apply not_elem_of_nil.
Qed.

Lemma set_errno_ok m e : wf_flow_metrics m -> wf_flow_metrics (m <| fm_errno := u8 e |>).
Proof. intros []. split; try done. apply u8_range. Qed.

Lemma account_flow_safe cfg skb pkt eth_protocol flow_sampling direction tls :
  wf_skb skb -> sizeof_ethhdr <= Z.of_nat (length (skb_data skb)) -> wf_pkt pkt ->
  is_u16 eth_protocol -> is_u32 flow_sampling -> is_u8 direction -> wf_tls_info tls ->
  safe (λ _, True)
    (account_flow cfg skb pkt eth_protocol (skb_len skb) flow_sampling direction tls).
Proof.
  intros Hskb Heth Hp He Hs Hd Ht. unfold account_flow.
  assert (Hupd : ∀ p, safe (λ _, True)
    (_ ← update_existing_flow p pkt (skb_len skb) flow_sampling (skb_ifindex skb) direction tls;
     mret true)).
  { intros p. apply safe_bind. eapply safe_mono; [|done].
    apply update_existing_flow_safe; try done. apply Hskb. }
  assert (Hinc : ∀ c, safe (λ _ : bool, True) (_ ← increase_counter (counter_index c); mret true)).
  { intros c. apply safe_bind. by eapply safe_mono; [apply increase_counter_safe|]. }
  apply safe_bind, safe_call; [done|]. intros [p|] _; [apply Hupd|].
  assert (Hu : Forall is_u8 (skb_data skb)) by apply Hskb.
  destruct (load_ok (skb_data skb) 0 sizeof_ethhdr) as (b & Hb & Hbl & Hbu); [done|done|lia|].
  eapply safe_bind, safe_deref; [by rewrite Hb|].
  set (new_flow := new_flow_metrics _ _ _ _ _ _ _ _).
  assert (Hnew : wf_flow_metrics new_flow).
  { specialize (Hbu Hu). change (Z.to_nat sizeof_ethhdr) with 14%nat in Hbl.
    apply new_flow_metrics_ok; try done; cbn [h_dest h_source decode_ethhdr].
    - rewrite <- (drop_0 b). apply take_drop_bytes; [lia|done].
    - apply take_drop_bytes; [lia|done]. }
  apply safe_bind, safe_call; [done|]. intros ret Hret.
  case_match; [|done]. case_match.
  { apply safe_bind, safe_call; [done|]. intros [p|] _; [apply Hupd|apply Hinc]. }
  case_match; [|apply Hinc].
  apply safe_bind, safe_call; [done|]. intros [i|] _; [|done].
  apply safe_bind, safe_call; [|done]. cbn. split; [apply Hp|]. by apply set_errno_ok.
Qed.

Lemma dns_write_ok pkt name dns_errno m :
  wf_pkt pkt -> (∀ n, name = Some n -> is_bytes 32 n) -> wf_dns_metrics m ->
  wf_dns_metrics (dns_write pkt name dns_errno m).
Proof.
  intros [_ ? _ _ (?&?&?)] Hn (?&?&?&?&?&?&?&?). unfold dns_write, wf_dns_metrics.
  pose proof (u8_range dns_errno).
  destruct name as [n|]; [specialize (Hn n eq_refl)|]; repeat case_match; cbn; tauto.
Qed.

Lemma read_name_safe dns_name :
  safe (λ name, ∀ n, name = Some n -> is_bytes 32 n) (read_name dns_name).
Proof.
  destruct dns_name as [buf|]; [|done]. apply safe_bind, safe_call; [done|].
  intros n Hn m [= <-]. done.
Qed.

Lemma update_dns_safe p pkt dns_errno :
  wf_pkt pkt -> safe (λ _, True) (update_dns p pkt dns_errno).
Proof.
  intros Hp. apply safe_bind. apply safe_mono with (λ name, ∀ n, name = Some n -> is_bytes 32 n).
  - case_match; [apply read_name_safe|done].
  - intros name Hn. apply safe_bind, safe_call; [|done]. cbn. intros m Hm.
    by apply dns_write_ok.
Qed.

Lemma account_dns_safe pkt eth_protocol dns_errno :
  wf_pkt pkt -> is_u16 eth_protocol -> safe (λ _, True) (account_dns pkt eth_protocol dns_errno).
Proof.
  intros Hp He. unfold account_dns. case_match; [|done].
  apply safe_bind, safe_call; [done|]. intros [p|] _; [by apply update_dns_safe|].
  apply safe_bind. eapply safe_mono; [apply read_name_safe|]. intros name Hn.
  apply safe_bind, safe_call.
  - destruct Hp as [_ ? _ _ (?&?&?)]. cbn. pose proof (u8_range dns_errno).
    destruct name as [n|]; [specialize (Hn n eq_refl)|]; unfold wf_dns_metrics; cbn;
      split_and!; try done; try apply zero_bytes_ok.
  - intros r _. case_match; [|done]. case_match; [|apply increase_counter_safe].
    apply safe_bind, safe_call; [done|].
    intros [p|] _; [by apply update_dns_safe|apply increase_counter_safe].
Qed.

Lemma sample_safe rate : is_u32 rate -> safe (λ _, True) (sample rate).
Proof.
  intros _. apply safe_bind. apply safe_mono with (λ _, True).
  - unfold sampled_out. case_match; [|done]. by apply safe_bind, safe_call.
  - intros [] _; apply safe_bind, safe_call; try done; cbn; width; lia.
Qed.

Lemma process_packet_safe cfg skb pkt eth_protocol flow_sampling direction :
  wf_skb skb -> sizeof_ethhdr <= Z.of_nat (length (skb_data skb)) -> wf_pkt pkt ->
  l4_ok (skb_data skb) pkt ->
  is_u16 eth_protocol -> is_u32 flow_sampling -> is_u8 direction ->
  safe (λ r, r = TC_ACT_OK) (process_packet cfg skb pkt eth_protocol flow_sampling direction).
Proof.
  intros Hskb Heth Hp Hl4 He Hs Hd. unfold process_packet.
  apply safe_bind. apply safe_mono with (λ r, dns_filled pkt r.2).
  { case_match; [|destruct Hp as [_ ? _ _ (?&?&?)]; by split].
    eapply safe_mono; [apply track_dns_packet_safe; [done|apply Hp|]|by intros r []].
    intros off Ho. by apply Hl4. }
  intros [dns_errno pkt'] [Hid Hts Hfl Hl4' Hds Hi Hf Hla]. cbn [snd] in *.
  assert (Hp' : wf_pkt pkt').
  { destruct Hp. split; rewrite ?Hid, ?Hts, ?Hfl, ?Hds; try done. }
  assert (Hl4'' : l4_ok (skb_data skb) pkt') by (unfold l4_ok; by rewrite Hl4', Hid).
  destruct (track_tls_ok cfg skb (fid_transport_protocol (pi_id pkt')) (pi_l4_hdr pkt')
    (pi_flags pkt') zeroed) as (r & tls & Htls & Hwt).
  { done. } { unfold wf_tls_info. cbn. auto with width. } { intros off Ho. by apply Hl4''. }
  eapply safe_bind, safe_deref; [done|].
  apply safe_bind. apply safe_mono with (λ _, True).
  { case_match; [|done]. eapply safe_mono; [by apply track_quic_packet_safe; [..|apply Hp'|]|done]. }
  intros _ _. apply safe_bind. eapply safe_mono; [by apply account_flow_safe|].
  intros [] _; [|done]. apply safe_bind. by eapply safe_mono; [by apply account_dns_safe|].
Qed.

Lemma parse_and_filter_safe cfg skb flow_sampling direction :
  wf_skb skb -> is_u32 (sampling cfg) -> is_u32 flow_sampling -> is_u8 direction ->
  safe (λ r, r = TC_ACT_OK) (parse_and_filter cfg skb flow_sampling direction).
Proof.
  intros Hskb Hcs Hs Hd. unfold parse_and_filter.
  apply safe_bind, safe_call; [done|]. intros ts Hts. cbn in Hts.
  assert (Hu : Forall is_u8 (skb_data skb)) by apply Hskb.
  destruct (fill_ethhdr_ok (skb_data skb) (zeroed <| pi_current_ts := ts |>))
    as (r & pkt & e & Hfill & [Hid Hfl Hds Hl4] & He & Hr & _); [done|..].
  { split; [exact (wf_value_zero ipsec_ingress_map)|].
    split; [exact zero_u16|]. split; [cbn; lia|done]. }
  destruct (fill_ethhdr_keeps _ _ _ _ _ _ _ _ Hfill) as (Kts & Ki & Kf & Kl & _).
  eapply safe_bind, safe_deref; [done|]. cbv beta iota.
  destruct (r =? DISCARD) eqn:Er; [done|].
  assert (Heth : sizeof_ethhdr <= Z.of_nat (length (skb_data skb))).
  { destruct (parsable (skb_data skb)) eqn:Ep; [|by rewrite Hr in Er].
    unfold parsable, sizeof_iphdr, sizeof_ipv6hdr in Ep. cbv zeta in Ep.
    apply orb_true_iff in Ep as [Ep|Ep]; bool_to_prop; lia. }
  assert (Hp : wf_pkt pkt).
  { split; [done|by rewrite Kts|done|width; lia|].
    unfold wf_dns_info. rewrite Ki, Kf, Kl. cbn. auto with width. }
  apply safe_bind. eapply safe_mono.
  { apply check_and_apply_filter_safe. by intros v [= <-]. }
  intros [skip fs] Hfs. cbn [snd] in Hfs. destruct fs as [fs|]; [|done]. cbn in Hfs.
  change (default flow_sampling (Some fs)) with fs.
  assert (Hproc : ∀ s, is_u32 s ->
    safe (λ r, r = TC_ACT_OK) (if skip then mret TC_ACT_OK
      else process_packet cfg skb pkt e s direction)).
  { intros s Hsu. destruct skip; [done|]. by apply process_packet_safe. }
  destruct (negb (has_filter_sampling cfg =? 0)); [|by apply Hproc].
  assert (is_u32 (if fs =? 0 then sampling cfg else fs)) by (by destruct (fs =? 0)).
  apply safe_bind. eapply safe_mono; [by apply sample_safe|].
  intros [] _; [by apply Hproc|done].
Qed.

(** The monitor is safe for any packet and any configuration. *)
Lemma flow_monitor_safe cfg skb direction :
  wf_skb skb -> is_u32 (sampling cfg) -> is_u8 direction ->
  safe (λ r, r = TC_ACT_OK) (flow_monitor cfg skb direction).
Proof.
  intros Hskb Hcs Hd. unfold flow_monitor.
  case_match; [|by apply parse_and_filter_safe; auto with width].
  apply safe_bind. eapply safe_mono; [by apply sample_safe|].
  intros [] _; [by apply parse_and_filter_safe|done].
Qed.
End Safe.

(** ** What the accounting does *)

Section Accounting.
Context {H : Host} {K : Kernel} {KL : KernelLaws K}.
Implicit Types w : world.

(** The ways to account a packet of flow [id]; [upd] updates an existing flow
    and [new] is the record of a new one.  A new flow is not created only if
    the map refuses it, and then it is lost only if the ring buffer is
    enabled and has no room.  The flag is whether the monitor goes on with the
    DNS metrics. *)
Inductive accounted (cpu : Z) (cfg : config) (id : flow_id)
    (upd : flow_metrics → flow_metrics * Z) (new : flow_metrics) (w w' : world)
    : bool → Prop :=
  | AccUpdated f w1 :
      elem cpu aggregated_flows w id = Some f ->
      updated cpu aggregated_flows id (upd f).1 w w1 ->
      (if (0 <? (upd f).2) && negb (fid_transport_protocol id =? 0)
       then counted cpu OBSERVED_INTF_MISSED w1 w' else w' = w1) ->
      accounted cpu cfg id upd new w w' true
  | AccCreated :
      elem cpu aggregated_flows w id = None ->
      updated cpu aggregated_flows id new w w' ->
      accounted cpu cfg id upd new w w' true
  | AccRing e :
      elem cpu aggregated_flows w id = None -> map_refuses aggregated_flows id e w w' ->
      0 < enable_directflows_ringbuf cfg ->
      ring_set direct_flows (w_ring w direct_flows ++
        [Committed (mk_flow_record id (new <| fm_errno := u8 (- e) |>) : payload direct_flows)])
        w w' ->
      accounted cpu cfg id upd new w w' true
  | AccLost e :
      elem cpu aggregated_flows w id = None -> map_refuses aggregated_flows id e w w' ->
      0 < enable_directflows_ringbuf cfg -> ring_refuses direct_flows w w' ->
      unchanged w w' ->
      accounted cpu cfg id upd new w w' false
  | AccFailed e w1 :
      elem cpu aggregated_flows w id = None -> map_refuses aggregated_flows id e w w1 ->
      enable_directflows_ringbuf cfg <= 0 ->
      unchanged w w1 -> counted cpu HASHMAP_FAIL_CREATE_FLOW w1 w' ->
      accounted cpu cfg id upd new w w' true.

(** The new flow of a packet whose Ethernet header is at the front of the
    linear data. *)
Definition first_flow (skb : sk_buff) (pkt : pkt_info)
    (eth_protocol flow_sampling direction : Z) (tls : tls_info) : flow_metrics :=
  new_flow_metrics skb pkt (decode_ethhdr (take 14 (skb_data skb))) eth_protocol
    (skb_len skb) flow_sampling direction tls.

Lemma ring_append_elem r l w w' cpu m k :
  ring_set r l w w' -> elem cpu m w' k = elem cpu m w k.
Proof. intros Hr. apply elem_ext, Hr. Qed.

Lemma wp_account_flow cpu cfg skb pkt eth_protocol flow_sampling direction tls
    (Q : bool → world → Prop) w :
  world_wf w -> sizeof_ethhdr <= Z.of_nat (length (skb_data skb)) ->
  (∀ b w',
     accounted cpu cfg (pi_id pkt)
       (update_locked pkt (skb_len skb) flow_sampling (skb_ifindex skb) direction tls)
       (first_flow skb pkt eth_protocol flow_sampling direction tls) w w' b ->
     Q b w') ->
  wp cpu (account_flow cfg skb pkt eth_protocol (skb_len skb) flow_sampling direction tls) Q w.
Proof.
  intros Hw Heth HQ. unfold account_flow.
  apply wp_bind, wp_lookup; [done|intros Hnone|intros p f Hf Hat].
  - eapply wp_bind, wp_deref.
    { rewrite slice_Some by (done || unfold sizeof_ethhdr in *; lia). done. }
    rewrite drop_0. change (Z.to_nat sizeof_ethhdr) with 14%nat.
    fold (first_flow skb pkt eth_protocol flow_sampling direction tls).
    apply wp_bind, wp_update_new; [done..| |].
    + intros w1 Hu. cbn [Z.eqb negb]. apply wp_ret, HQ. by eapply AccCreated.
    + intros e w1 Hu He. destruct (map_refuses_errno _ _ _ _ _ He) as [? Hne].
      rewrite (proj2 (Z.eqb_neq e 0)) by lia. cbn [negb]. rewrite (proj2 (Z.eqb_neq e _)) by done.
      destruct (0 <? enable_directflows_ringbuf cfg) eqn:Er; bool_to_prop.
      * apply wp_bind, wp_reserve.
        -- intros w2 H2. apply wp_bind, wp_submit. intros w3 H3.
           pose proof (ring_set_append _ _ _ _ _ H2 H3) as [G1 G2 G3 G4 G5].
           apply wp_ret, HQ. eapply (AccRing _ _ _ _ _ _ _ e); [done| |done|].
           { eapply map_refuses_within; [done|lia| |exact G5|exact He]. by rewrite G3. }
           rewrite <- (unch_ring _ _ Hu). split; [done|..].
           ++ intros r' ?. rewrite G2 by done. apply Hu.
           ++ intros m. rewrite G3. apply Hu.
           ++ rewrite G4. apply Hu.
           ++ pose proof (unch_clock _ _ Hu). lia.
        -- intros w2 H2 Hr2. pose proof (unch_clock _ _ Hu). pose proof (unch_clock _ _ H2).
           apply wp_ret, HQ. eapply (AccLost _ _ _ _ _ _ _ e); [done| |done| |by eapply unchanged_trans].
           ++ eapply map_refuses_within; [done|lia| |done|exact He]. by rewrite (unch_map _ _ H2).
           ++ by eapply ring_refuses_within; [..|exact Hr2].
      * apply wp_bind, wp_increase_counter; [by eapply unchanged_wf|].
        intros w2 Hc. apply wp_ret, HQ. by eapply (AccFailed _ _ _ _ _ _ _ e).
  - apply wp_bind, wp_bind, (wp_write _ aggregated_flows (pi_id pkt) _ f); [done..|].
    intros w1 Hu _. pose proof (upd_wf _ _ _ _ _ _ Hu) as Hw1.
    destruct (_ && _) eqn:Em; cbn [value] in Em.
    + apply wp_increase_counter; [done|]. intros w2 Hc. apply wp_ret, HQ.
      eapply (AccUpdated _ _ _ _ _ _ _ f); [done..|]. by rewrite Em.
    + apply wp_ret, wp_ret, HQ. eapply (AccUpdated _ _ _ _ _ _ _ f); [done..|]. by rewrite Em.
Qed.
End Accounting.

(** ** The whole monitor *)

Section Monitoring.
Context {H : Host} {K : Kernel} {KL : KernelLaws K}.
Implicit Types w : world.

(** The flow map and the ring of the flows, which only the accounting
    writes, are as before, some time later. *)
Definition same_flows w w' : Prop :=
  w_map w' aggregated_flows = w_map w aggregated_flows /\
  w_ring w' direct_flows = w_ring w direct_flows /\ clock w <= clock w'.

(** The effect of a packet of flow [id] on the flow map and the ring.  The packet
    is not accounted only if the map refuses a new flow and the ring buffer is
    either full or not enabled. *)
Inductive flow_effect (cpu : Z) (cfg : config) (id : flow_id)
    (upd : flow_metrics → flow_metrics * Z) (new : flow_metrics) (w w' : world) : Prop :=
  | EffUpdated f :
      elem cpu aggregated_flows w id = Some f ->
      elem cpu aggregated_flows w' id = Some (upd f).1 ->
      w_ring w' direct_flows = w_ring w direct_flows ->
      flow_effect cpu cfg id upd new w w'
  | EffCreated :
      elem cpu aggregated_flows w id = None ->
      elem cpu aggregated_flows w' id = Some new ->
      w_ring w' direct_flows = w_ring w direct_flows ->
      flow_effect cpu cfg id upd new w w'
  | EffRing e :
      elem cpu aggregated_flows w id = None ->
      elem cpu aggregated_flows w' id = None ->
      map_refuses aggregated_flows id e w w' -> 0 < enable_directflows_ringbuf cfg ->
      w_ring w' direct_flows = w_ring w direct_flows ++
        [Committed (mk_flow_record id (new <| fm_errno := u8 (- e) |>) : payload direct_flows)] ->
      flow_effect cpu cfg id upd new w w'
  | EffLost e :
      elem cpu aggregated_flows w id = None -> same_flows w w' ->
      map_refuses aggregated_flows id e w w' ->
      0 < enable_directflows_ringbuf cfg -> ring_refuses direct_flows w w' ->
      flow_effect cpu cfg id upd new w w'
  | EffFailed e :
      elem cpu aggregated_flows w id = None -> same_flows w w' ->
      map_refuses aggregated_flows id e w w' -> enable_directflows_ringbuf cfg <= 0 ->
      flow_effect cpu cfg id upd new w w'.

(** No other flow is touched. *)
Definition other_flows cpu (id : flow_id) w w' : Prop :=
  ∀ id', id' <> id -> elem cpu aggregated_flows w' id' = elem cpu aggregated_flows w id'.

Lemma same_flows_elem cpu w w' id :
  same_flows w w' -> elem cpu aggregated_flows w' id = elem cpu aggregated_flows w id.
Proof. intros [Hm _]. by apply elem_ext. Qed.

Lemma same_flows_trans w1 w2 w3 : same_flows w1 w2 -> same_flows w2 w3 -> same_flows w1 w3.
Proof. intros (? & ? & ?) (? & ? & ?). split; [congruence|]. split; [congruence|lia]. Qed.

(** Refusals, seen from worlds with the same flows. *)
Lemma same_flows_refuses id e w w1 w2 w' :
  same_flows w w1 -> same_flows w2 w' ->
  map_refuses aggregated_flows id e w1 w2 -> map_refuses aggregated_flows id e w w'.
Proof. intros (M1 & _ & C1) (M2 & _ & C2). apply map_refuses_within; by rewrite ?M1, ?M2. Qed.

Lemma same_flows_full w w1 w2 w' :
  same_flows w w1 -> same_flows w2 w' ->
  ring_refuses direct_flows w1 w2 -> ring_refuses direct_flows w w'.
Proof. intros (_ & _ & C1) (_ & _ & C2). by apply ring_refuses_within. Qed.

Lemma framed_same_flows ms rs w w' :
  framed ms rs w w' -> aggregated_flows ∉ ms -> direct_flows ∉ rs -> same_flows w w'.
Proof. intros Hf Hm Hr. split; [by apply Hf|]. split; by apply Hf. Qed.

Lemma counted_same_flows cpu c w w' : counted cpu c w w' -> same_flows w w'.
Proof. intros (v & _ & Hu). split; [by apply Hu|]. split; by apply Hu. Qed.

Lemma unchanged_same_flows w w' : unchanged w w' -> same_flows w w'.
Proof. intros Hu. split; [by apply Hu|]. split; by apply Hu. Qed.

Lemma accounted_effect cpu cfg id upd new w1 w2 b w w' :
  same_flows w w1 -> accounted cpu cfg id upd new w1 w2 b -> same_flows w2 w' ->
  flow_effect cpu cfg id upd new w w' /\ other_flows cpu id w w'.
Proof.
  intros Hw Ha Hw'.
  pose proof (same_flows_elem cpu _ _ id Hw) as E1.
  pose proof (same_flows_elem cpu _ _ id Hw') as E2.
  assert (Ho : other_flows cpu id w1 w2 -> other_flows cpu id w w').
  { intros Ho id' Hne. rewrite (same_flows_elem _ _ _ _ Hw'), Ho by done.
    by apply same_flows_elem. }
  pose proof Hw as (M1 & R1 & C1). pose proof Hw' as (M2 & R2 & C2).
  destruct Ha as [f wm Hf Hu Hc|Hn Hu|e Hn He Hr Hs|e Hn He Hr Hful Hu|e wm Hn He Hr Hu Hc].
  - assert (Hm : same_flows wm w2).
    { destruct (_ && _); [by eapply counted_same_flows|by subst]. }
    split.
    + apply (EffUpdated _ _ _ _ _ _ _ f); [congruence| |].
      * rewrite E2, (same_flows_elem _ _ _ _ Hm). apply Hu.
      * rewrite R2, (proj1 (proj2 Hm)), (upd_rings _ _ _ _ _ _ Hu). done.
    + apply Ho. intros id' Hne. rewrite (same_flows_elem _ _ _ _ Hm). by apply Hu.
  - split.
    + apply EffCreated; [congruence| |]; rewrite ?E2, ?R2; [apply Hu|].
      by rewrite (upd_rings _ _ _ _ _ _ Hu).
    + apply Ho. intros id' Hne. by apply Hu.
  - pose proof (rs_map _ _ _ _ Hs aggregated_flows) as Hm.
    split.
    + apply (EffRing _ _ _ _ _ _ _ e); [congruence| |by eapply same_flows_refuses|done|].
      * rewrite E2, (elem_ext _ _ w1 w2) by done. done.
      * rewrite R2, (rs_ring _ _ _ _ Hs). by rewrite R1.
    + apply Ho. intros id' Hne. by apply elem_ext.
  - pose proof (unchanged_same_flows _ _ Hu) as Hm. split.
    + apply (EffLost _ _ _ _ _ _ _ e); [congruence| |by eapply same_flows_refuses|done|].
      * eapply same_flows_trans; [exact Hw|]. by eapply same_flows_trans.
      * by eapply same_flows_full.
    + apply Ho. intros id' Hne. by apply same_flows_elem.
  - pose proof (unchanged_same_flows _ _ Hu) as Hm.
    pose proof (counted_same_flows _ _ _ _ Hc) as Hm2. split.
    + pose proof (same_flows_trans _ _ _ Hm2 Hw') as Hm3.
      apply (EffFailed _ _ _ _ _ _ _ e); [congruence| |by eapply same_flows_refuses|done].
      eapply same_flows_trans; [exact Hw|]. by eapply same_flows_trans.
    + apply Ho. intros id' Hne.
      by rewrite (same_flows_elem _ _ _ _ Hm2), (same_flows_elem _ _ _ _ Hm).
Qed.

(** *** Footprints *)

Lemma read_name_writes ms rs dns_name : writes ms rs (read_name dns_name).
Proof. destruct dns_name; [|done]. by apply writes_bind. Qed.

Lemma update_dns_writes p pkt dns_errno :
  writes [aggregated_flows_dns; global_counters] [] (update_dns p pkt dns_errno).
Proof.
  apply writes_bind; [case_match; [apply read_name_writes|done]|]. intros name.
  by apply writes_bind; [apply writes_call, list_elem_of_here|].
Qed.

Lemma account_dns_writes pkt eth_protocol dns_errno :
  writes [aggregated_flows_dns; global_counters] [] (account_dns pkt eth_protocol dns_errno).
Proof.
  assert (Hinc : ∀ c, writes [aggregated_flows_dns; global_counters] [] (increase_counter c)).
  { intros c. eapply writes_mono; [apply increase_counter_writes| |done].
    intros m. apply list_elem_of_further. }
  unfold account_dns. case_match; [|done].
  apply writes_bind; [done|]. intros [p|]; [apply update_dns_writes|].
  apply writes_bind; [apply read_name_writes|]. intros name.
  apply writes_bind; [apply writes_call, list_elem_of_here|]. intros r.
  case_match; [|done]. case_match; [|apply Hinc].
  apply writes_bind; [done|]. intros [p|]; [apply update_dns_writes|apply Hinc].
Qed.

(** *** Sampling *)

(** Maps and rings are as before. *)
Definition same_store w w' : Prop :=
  (∀ m, w_map w' m = w_map w m) /\ (∀ r, w_ring w' r = w_ring w r).

Lemma same_store_flows w w' : same_store w w' -> clock w <= clock w' -> same_flows w w'.
Proof. intros [Hm Hr] Hc. by split. Qed.

(** Between [w] and [w'], the draw for a sampling rate keeps a packet or not: the
    rate divides the random number that the kernel gives; without a rate every
    packet is kept. *)
Definition draws (rate : Z) (keep : bool) w w' : Prop :=
  if 1 <? rate then
    ∃ st, clock w <= k_clock st <= clock w' /\ ((k_prandom st).1 mod rate =? 0) = keep
  else keep = true.

Lemma draws_within rate keep w w1 w2 w' :
  clock w <= clock w1 -> clock w2 <= clock w' -> draws rate keep w1 w2 -> draws rate keep w w'.
Proof.
  intros C1 C2. unfold draws. destruct (1 <? rate); [|done]. intros (st & Hc & Hr).
  exists st. split; [lia|done].
Qed.

(** A sampling decision only shows in [do_sampling]. *)
Lemma wp_sample cpu rate (Q : bool → world → Prop) w :
  world_wf w -> typed w -> is_u32 rate ->
  (∀ keep w', same_store w w' -> world_wf w' -> typed w' ->
     w_do_sampling w' = (if keep : bool then 1 else 0) -> draws rate keep w w' ->
     clock w <= clock w' -> Q keep w') ->
  wp cpu (sample rate) Q w.
Proof.
  intros Hw Ht Hr HQ.
  assert (Hset : ∀ (keep : bool) w1, unchanged w w1 -> draws rate keep w w1 ->
    wp cpu (_ ← call (do_sampling_set (if keep then 1 else 0)); mret keep) Q w1).
  { intros keep w1 Hu Hk. apply wp_bind, wp_call. cbn [helper_sem fst snd].
    apply wp_ret, HQ; [| | |done|done|exact (unch_clock _ _ Hu)].
    - split; apply Hu.
    - assert (Hw1 : world_wf w1) by by eapply unchanged_wf. exact Hw1.
    - split.
      + intros m p c v Hl. cbn in Hl. rewrite (unch_map _ _ Hu) in Hl. by eapply (proj1 Ht).
      + cbn. destruct keep; width; lia. }
  unfold draws in Hset. unfold sample, sampled_out. destruct (1 <? rate).
  - apply wp_bind, wp_bind, wp_call. cbn [helper_sem]. pose proof (prandom_clock (w_kst w)) as Hc.
    destruct (k_prandom (w_kst w)) as [x st] eqn:Ex. apply wp_ret. cbn [snd] in Hc.
    assert (Hx : ∃ st', clock w <= k_clock st' <= clock (upd_kst st w)
      /\ ((k_prandom st').1 mod rate =? 0) = (x mod rate =? 0)).
    { exists (w_kst w). rewrite Ex. split; [unfold clock; cbn; lia|done]. }
    assert (unchanged w (upd_kst st w)) by (split; done).
    cbn [fst snd]. destruct (x mod rate =? 0); [by apply (Hset true)|by apply (Hset false)].
  - apply wp_bind, wp_ret. apply (Hset true); [apply unchanged_refl|done].
Qed.

(** *** Accounting *)

Lemma update_locked_dns pkt pkt' len sampling if_index direction tls f :
  dns_filled pkt pkt' ->
  update_locked pkt' len sampling if_index direction tls f
  = update_locked pkt len sampling if_index direction tls f.
Proof.
  intros [Hid Hts Hfl Hl4 Hds _ _ _]. unfold update_locked. by rewrite Hts, Hfl, Hds.
Qed.

Lemma first_flow_dns skb pkt pkt' eth_protocol flow_sampling direction tls :
  dns_filled pkt pkt' ->
  first_flow skb pkt' eth_protocol flow_sampling direction tls
  = first_flow skb pkt eth_protocol flow_sampling direction tls.
Proof.
  intros [Hid Hts Hfl Hl4 Hds _ _ _]. unfold first_flow, new_flow_metrics.
  by rewrite Hts, Hfl, Hds.
Qed.

Lemma flow_effect_ext cpu cfg id upd upd' new w w' :
  (∀ f, upd f = upd' f) -> flow_effect cpu cfg id upd new w w' ->
  flow_effect cpu cfg id upd' new w w'.
Proof.
  intros Hu [f ? He ?|? ? ?|e ? ? ? ? ?|e ? ? ? ? ?|e ? ? ? ?].
  - apply (EffUpdated _ _ _ _ _ _ _ f); try done. by rewrite <- Hu.
  - by apply EffCreated.
  - by apply (EffRing _ _ _ _ _ _ _ e).
  - by apply (EffLost _ _ _ _ _ _ _ e).
  - by apply (EffFailed _ _ _ _ _ _ _ e).
Qed.

(** The TLS information of a packet. *)
Definition packet_tls cfg (skb : sk_buff) (pkt : pkt_info) : tls_info :=
  match track_tls cfg skb (fid_transport_protocol (pi_id pkt)) (pi_l4_hdr pkt) (pi_flags pkt)
          zeroed with
  | Some (_, tls) => tls
  | None => zeroed
  end.

(** The accounting leaves the sampling decision alone. *)
Lemma accounted_sampling cpu cfg id upd new w w' b :
  accounted cpu cfg id upd new w w' b -> w_do_sampling w' = w_do_sampling w.
Proof.
  assert (Hc : ∀ c w1 w2, counted cpu c w1 w2 -> w_do_sampling w2 = w_do_sampling w1)
    by (intros c w1 w2 (v & _ & Hu); apply Hu).
  intros [f w1 _ Hu Hm|_ Hu|e _ _ _ Hs|e _ _ _ _ Hu|e w1 _ _ _ Hu Hm].
  - rewrite <- (upd_sampling _ _ _ _ _ _ Hu). destruct (_ && _); [by eapply Hc|by subst].
  - apply Hu.
  - apply Hs.
  - apply Hu.
  - rewrite (Hc _ _ _ Hm). apply Hu.
Qed.

(** The effect of a parsed packet. *)
Definition packet_effect cpu cfg (skb : sk_buff) (pkt : pkt_info)
    (eth_protocol flow_sampling direction : Z) w w' : Prop :=
  let tls := packet_tls cfg skb pkt in
  flow_effect cpu cfg (pi_id pkt)
    (update_locked pkt (skb_len skb) flow_sampling (skb_ifindex skb) direction tls)
    (first_flow skb pkt eth_protocol flow_sampling direction tls) w w' /\
  other_flows cpu (pi_id pkt) w w'.

(** What the monitor may assume of a packet that the parser submits. *)
Record submitted (skb : sk_buff) (pkt : pkt_info) (eth_protocol : Z) : Prop := {
  sub_eth : sizeof_ethhdr <= Z.of_nat (length (skb_data skb));
  sub_pkt : wf_pkt pkt;
  sub_l4 : l4_ok (skb_data skb) pkt;
  sub_proto : is_u16 eth_protocol;
}.

Lemma submitted_dns skb pkt pkt' e :
  submitted skb pkt e -> dns_filled pkt pkt' -> submitted skb pkt' e.
Proof.
  intros [? [] Hl4 ?] [Hid Hts Hfl Hl4' Hds Hi Hf Hla]. split; try done.
  - split; rewrite ?Hid, ?Hts, ?Hfl, ?Hds; try done.
  - unfold l4_ok. by rewrite Hl4', Hid.
Qed.

Lemma packet_tls_ok cfg skb pkt e :
  wf_skb skb -> submitted skb pkt e ->
  ∃ ret, track_tls cfg skb (fid_transport_protocol (pi_id pkt)) (pi_l4_hdr pkt) (pi_flags pkt)
      zeroed = Some (ret, packet_tls cfg skb pkt) /\ wf_tls_info (packet_tls cfg skb pkt).
Proof.
  intros Hskb Hsub. unfold packet_tls.
  destruct (track_tls_ok cfg skb (fid_transport_protocol (pi_id pkt)) (pi_l4_hdr pkt)
    (pi_flags pkt) zeroed) as (r & tls & -> & Hwt).
  - done.
  - split_and!; [exact zero_u16..|exact zero_u8].
  - intros off Ho. by apply (sub_l4 _ _ _ Hsub).
  - by exists r.
Qed.

Lemma wp_process_packet cpu cfg skb pkt eth_protocol flow_sampling direction
    (Q : Z → world → Prop) w :
  world_wf w -> typed w -> wf_skb skb -> submitted skb pkt eth_protocol ->
  is_u32 flow_sampling -> is_u8 direction ->
  (∀ w', packet_effect cpu cfg skb pkt eth_protocol flow_sampling direction w w' ->
     w_do_sampling w' = w_do_sampling w -> Q TC_ACT_OK w') ->
  wp cpu (process_packet cfg skb pkt eth_protocol flow_sampling direction) Q w.
Proof.
  intros Hw Ht Hskb Hsub Hs Hd HQ. unfold process_packet.
  assert (Hdns : wp cpu (if negb (enable_dns_tracking cfg =? 0) then track_dns_packet cfg skb pkt
                         else mret (0, pkt))
    (λ r w1, dns_filled pkt r.2 /\ framed [dns_flows; dns_name_map] [] w w1) w).
  { destruct (negb (enable_dns_tracking cfg =? 0)).
    - eapply wp_framed; [apply track_dns_packet_safe; [done|apply Hsub|]
        |apply track_dns_packet_writes|done|done|by intros [] w' []].
      intros off Ho. by apply (sub_l4 _ _ _ Hsub).
    - apply wp_ret. split; [|by apply framed_refl].
      destruct (sub_pkt _ _ _ Hsub) as [_ ? _ _ (?&?&?)]. by split. }
  apply wp_bind. eapply wp_mono; [exact Hdns|]. intros [dns_errno pkt'] w1 [Hpkt H1].
  cbn [snd] in Hpkt. pose proof (submitted_dns _ _ _ _ Hsub Hpkt) as Hsub'.
  destruct (packet_tls_ok cfg skb pkt' _ Hskb Hsub') as (r & Htls & Hwt).
  eapply wp_bind, wp_deref; [done|]. cbv beta iota.
  assert (Hquic : wp cpu (if negb (enable_quic_tracking cfg =? 0)
                          then track_quic_packet cfg skb pkt' eth_protocol else mret 0)
    (λ _ w2, framed [quic_flows] [] w1 w2) w1).
  { destruct (negb (enable_quic_tracking cfg =? 0)); [|by apply wp_ret, framed_refl; apply H1].
    eapply wp_framed; [apply track_quic_packet_safe; [done|apply Hsub'|apply (sub_pkt _ _ _ Hsub')|apply Hsub']
      |apply track_quic_packet_writes|apply H1|apply H1|done]. }
  apply wp_bind. eapply wp_mono; [exact Hquic|]. cbv beta. intros _ w2 H2.
  assert (Hsame : same_flows w w2).
  { eapply same_flows_trans; eapply framed_same_flows;
      [exact H1| | |exact H2| |]; apply (bool_decide_unpack _); by vm_compute. }
  set (tls := packet_tls cfg skb pkt') in *.
  apply wp_bind. eapply wp_mono.
  { apply wp_conj; [apply wp_account_flow; [apply H2|apply Hsub'|intros b w3 Ha; exact Ha]|].
    eapply wp_and_run.
    - apply (wp_safe cpu (λ _, True)); [|apply H2].
      apply account_flow_safe; try done; apply Hsub'.
    - apply run_wf, H2. }
  cbv beta. intros b w3 (Ha & (_ & Ht3) & Hw3).
  assert (Hds : w_do_sampling w3 = w_do_sampling w).
  { by rewrite (accounted_sampling _ _ _ _ _ _ _ _ Ha), (fr_sampling _ _ _ _ H2), (fr_sampling _ _ _ _ H1). }
  assert (Hend : ∀ w', same_flows w3 w' ->
    packet_effect cpu cfg skb pkt eth_protocol flow_sampling direction w w').
  { intros w' Hs3. destruct (accounted_effect _ _ _ _ _ _ _ _ _ _ Hsame Ha Hs3) as [He Ho].
    assert (Htls' : packet_tls cfg skb pkt = tls).
    { unfold tls, packet_tls. by rewrite (dns_same_id _ _ Hpkt), (dns_same_l4 _ _ Hpkt),
        (dns_same_pkt_flags _ _ Hpkt). }
    unfold packet_effect. rewrite Htls'. rewrite (dns_same_id _ _ Hpkt) in He, Ho.
    split; [|done]. rewrite (first_flow_dns skb pkt) in He by done.
    eapply flow_effect_ext; [|exact He]. intros f. by apply update_locked_dns. }
  destruct b.
  - apply wp_bind. eapply wp_framed; [by apply account_dns_safe; apply Hsub'
      |apply account_dns_writes|done|done|].
    intros _ w4 _ H4. apply wp_ret, HQ; [apply Hend|by rewrite (fr_sampling _ _ _ _ H4)].
    eapply framed_same_flows; [exact H4| |]; apply (bool_decide_unpack _); by vm_compute.
  - by apply wp_ret, HQ; [apply Hend|].
Qed.

(** *** The filter, seen from the monitor *)

(** Whether the packet is to be skipped, and the sampling after the filter. *)
Definition filter_verdict cpu cfg w (pkt : pkt_info) (eth_protocol s direction : Z) : bool * Z :=
  if is_filter_enabled cfg then
    let side src := side_of cpu w (pi_id pkt) src eth_protocol (pi_flags pkt) 0 direction in
    let d := filter_decision (side true) (side false) (Some s) in
    (d.1.1, default s d.2)
  else (false, s).

Lemma side_of_ext cpu w w' id src eth_protocol flags drop_reason direction :
  w_map w' filter_map = w_map w filter_map -> w_map w' peer_filter_map = w_map w peer_filter_map ->
  side_of cpu w' id src eth_protocol flags drop_reason direction
  = side_of cpu w id src eth_protocol flags drop_reason direction.
Proof. intros Hf Hp. unfold side_of. by rewrite !(elem_ext _ _ w w') by done. Qed.

Lemma filter_verdict_ext cpu cfg w w' pkt eth_protocol s direction :
  w_map w' filter_map = w_map w filter_map -> w_map w' peer_filter_map = w_map w peer_filter_map ->
  filter_verdict cpu cfg w' pkt eth_protocol s direction
  = filter_verdict cpu cfg w pkt eth_protocol s direction.
Proof.
  intros Hf Hp. unfold filter_verdict. destruct (is_filter_enabled cfg); [|done].
  cbv zeta. by rewrite !(side_of_ext cpu w w') by done.
Qed.

Lemma wp_filter cpu cfg pkt eth_protocol s direction (Q : bool * option Z → world → Prop) w :
  world_wf w -> typed w -> is_u32 s -> ip_protocol_type eth_protocol -> wf_flow_id (pi_id pkt) ->
  (∀ r w', framed [global_counters] [] w w' -> sampling_ok (Some s) r.2 ->
     (r.1, default s r.2) = filter_verdict cpu cfg w pkt eth_protocol s direction -> Q r w') ->
  wp cpu (check_and_apply_filter cfg (pi_id pkt) (pi_flags pkt) 0 eth_protocol (Some s)
            direction) Q w.
Proof.
  intros Hw Ht Hs Hip Hid HQ.
  assert (Hfr : wp cpu (check_and_apply_filter cfg (pi_id pkt) (pi_flags pkt) 0 eth_protocol
      (Some s) direction)
    (λ r w', sampling_ok (Some s) r.2 /\ framed [global_counters] [] w w') w).
  { eapply wp_framed; [apply check_and_apply_filter_safe; by intros v [= <-]
      |apply check_and_apply_filter_writes|done|done|done]. }
  assert (Hres : wp cpu (check_and_apply_filter cfg (pi_id pkt) (pi_flags pkt) 0 eth_protocol
      (Some s) direction)
    (λ r _, (r.1, default s r.2) = filter_verdict cpu cfg w pkt eth_protocol s direction) w).
  { unfold filter_verdict. destruct (is_filter_enabled cfg) eqn:E.
    - by apply wp_check_and_apply_filter.
    - by rewrite check_and_apply_filter_disabled. }
  eapply wp_mono; [apply (wp_conj _ _ _ _ _ Hfr Hres)|]. intros r w' [[? ?] ?]. by apply HQ.
Qed.

(** *** The monitor *)

(** The sampling a flow is recorded with. *)
Definition recorded_sampling cfg (s : Z) : Z :=
  if has_filter_sampling cfg =? 0 then s else if s =? 0 then sampling cfg else s.

(** The rate of the draw: that of the rule, if rules may have one. *)
Definition draw_rate cfg (s : Z) : Z :=
  if has_filter_sampling cfg =? 0 then sampling cfg else recorded_sampling cfg s.

(** The sampling before the filter. *)
Definition initial_sampling cfg : Z :=
  if has_filter_sampling cfg =? 0 then sampling cfg else 0.

(** How the monitor disposes of a packet: the draw leaves it out, before the
    parsing or, if rules have rates of their own, after the filter; it is not
    parsable; or it is parsed, and then accounted unless the filter or the draw
    leaves it out.  The draw is published in [do_sampling]. *)
Inductive monitor_outcome (cpu : Z) (cfg : config) (skb : sk_buff) (direction : Z) (w w' : world)
    : Prop :=
  | OutSampled :
      has_filter_sampling cfg = 0 -> draws (sampling cfg) false w w' ->
      w_do_sampling w' = 0 -> same_flows w w' ->
      monitor_outcome cpu cfg skb direction w w'
  | OutUnparsable :
      parsable (skb_data skb) = false -> same_flows w w' ->
      (has_filter_sampling cfg = 0 -> draws (sampling cfg) true w w') ->
      monitor_outcome cpu cfg skb direction w w'
  | OutParsed ts pkt eth_protocol (skip keep : bool) s :
      parsable (skb_data skb) = true ->
      fill_ethhdr (skb_data skb) 0 (Z.of_nat (length (skb_data skb)))
        (zeroed <| pi_current_ts := ts |>) 0 = Some (SUBMIT, pkt, eth_protocol) ->
      clock w <= ts <= clock w' ->
      filter_verdict cpu cfg w pkt eth_protocol (initial_sampling cfg) direction = (skip, s) ->
      draws (draw_rate cfg s) keep w w' -> (has_filter_sampling cfg = 0 -> keep = true) ->
      w_do_sampling w' = (if keep then 1 else 0) ->
      (if keep && negb skip
       then packet_effect cpu cfg skb pkt eth_protocol (recorded_sampling cfg s) direction w w'
       else same_flows w w') ->
      monitor_outcome cpu cfg skb direction w w'.

(** The parser as the monitor calls it. *)
Lemma parse_submitted skb ts :
  wf_skb skb -> is_u64 ts ->
  ∃ r pkt e,
    fill_ethhdr (skb_data skb) 0 (Z.of_nat (length (skb_data skb)))
      (zeroed <| pi_current_ts := ts |>) 0 = Some (r, pkt, e) /\
    r = (if parsable (skb_data skb) then SUBMIT else DISCARD) /\
    (parsable (skb_data skb) = true ->
     submitted skb pkt e /\ ip_protocol_type e /\ pi_current_ts pkt = ts).
Proof.
  intros Hskb Hts. assert (Hu : Forall is_u8 (skb_data skb)) by apply Hskb.
  destruct (fill_ethhdr_ok (skb_data skb) (zeroed <| pi_current_ts := ts |>))
    as (r & pkt & e & Hfill & [Hid Hfl Hds Hl4] & He & Hr & Het); [done|..].
  { split; [exact (wf_value_zero ipsec_ingress_map)|].
    split; [exact zero_u16|]. split; [cbn; lia|done]. }
  destruct (fill_ethhdr_keeps _ _ _ _ _ _ _ _ Hfill) as (Kts & Ki & Kf & Kl & _).
  exists r, pkt, e. split; [done|]. split; [done|]. intros Hp.
  assert (Heth : sizeof_ethhdr <= Z.of_nat (length (skb_data skb)) /\
    ip_protocol_type (ethertype (skb_data skb))).
  { unfold parsable, sizeof_iphdr, sizeof_ipv6hdr in Hp. cbv zeta in Hp.
    unfold ip_protocol_type. rewrite !elem_of_cons.
    apply orb_true_iff in Hp as [Hp|Hp]; bool_to_prop; (split; [lia|tauto]). }
  destruct Heth as [Heth Hip]. split; [|split; [|by rewrite Kts]].
  - split; [done| |done|done]. split; [done|by rewrite Kts|done|width; lia|].
    unfold wf_dns_info. rewrite Ki, Kf, Kl. cbn. auto with width.
  - rewrite Het by (unfold sizeof_ethhdr in Heth; lia). done.
Qed.

Lemma same_flows_refl w : same_flows w w.
Proof. split; [done|]. split; [done|lia]. Qed.

Lemma packet_effect_same cpu cfg skb pkt e s direction w w1 w' :
  same_flows w w1 -> packet_effect cpu cfg skb pkt e s direction w1 w' ->
  packet_effect cpu cfg skb pkt e s direction w w'.
Proof.
  intros Hs [He Ho]. pose proof (λ id, same_flows_elem cpu _ _ id Hs) as E.
  pose proof (same_flows_refl w') as Hend. pose proof Hs as (Hm & Hr & Hc). split.
  - destruct He as [f ? ? ?|? ? ?|er ? ? ? ? ?|er ? Hs' ? ? ?|er ? Hs' ? ?].
    + eapply (EffUpdated _ _ _ _ _ _ _ f); congruence.
    + apply EffCreated; congruence.
    + apply (EffRing _ _ _ _ _ _ _ er); [congruence|congruence|by eapply same_flows_refuses|done|congruence].
    + apply (EffLost _ _ _ _ _ _ _ er); [congruence|by eapply same_flows_trans
        |by eapply same_flows_refuses|done|by eapply same_flows_full].
    + apply (EffFailed _ _ _ _ _ _ _ er); [congruence|by eapply same_flows_trans
        |by eapply same_flows_refuses|done].
  - intros id Hne. by rewrite Ho, E.
Qed.

Lemma recorded_sampling_u32 cfg s :
  is_u32 (sampling cfg) -> is_u32 s -> is_u32 (recorded_sampling cfg s).
Proof. intros. unfold recorded_sampling. by repeat case_match. Qed.

(** From the parsing on.  Without rates of the rules, the packet has passed the
    draw before. *)
Lemma wp_parse_and_filter cpu cfg skb direction (Q : Z → world → Prop) w0 w :
  world_wf w -> typed w -> wf_skb skb -> is_u32 (sampling cfg) -> is_u8 direction ->
  same_store w0 w -> clock w0 <= clock w ->
  (has_filter_sampling cfg = 0 -> w_do_sampling w = 1 /\ draws (sampling cfg) true w0 w) ->
  (∀ w', monitor_outcome cpu cfg skb direction w0 w' -> Q TC_ACT_OK w') ->
  wp cpu (parse_and_filter cfg skb (initial_sampling cfg) direction) Q w.
Proof.
  intros Hw Ht Hskb Hcs Hd Hss0 Hc0 Hdraw HQ. unfold parse_and_filter.
  apply wp_bind, wp_ktime. intros ts w1 Hu Hts Hc. apply wp_clock.
  assert (Hw1 : world_wf w1) by by eapply unchanged_wf.
  assert (Ht1 : typed w1) by by eapply unchanged_typed.
  pose proof (unchanged_same_flows _ _ Hu) as Hs1.
  pose proof (same_store_flows _ _ Hss0 Hc0) as Hs0.
  pose proof (unch_clock _ _ Hu) as Hcu.
  assert (Hdraw' : ∀ w', clock w1 <= clock w' -> has_filter_sampling cfg = 0 -> draws (sampling cfg) true w0 w').
  { intros w' Hle E. destruct (Hdraw E) as [_ Hdr]. by apply (draws_within _ _ _ _ _ _ (Z.le_refl _)) with (2 := Hdr); lia. }
  destruct (parse_submitted skb ts Hskb Hts) as (r & pkt & e & Hfill & Hr & Hsub).
  eapply wp_bind, wp_deref; [done|]. cbv beta iota.
  destruct (parsable (skb_data skb)) eqn:Epar; subst r.
  2: { apply wp_ret. intros Hle. apply HQ, OutUnparsable; [done|by eapply same_flows_trans|by apply Hdraw']. }
  change (SUBMIT =? DISCARD) with false. cbv iota.
  destruct (Hsub eq_refl) as (Hsb & Hip & Hpts). clear Hsub.
  assert (His : is_u32 (initial_sampling cfg)).
  { unfold initial_sampling. by case_match; auto with width. }
  apply wp_bind, wp_filter; [done..|apply (sub_pkt _ _ _ Hsb)|].
  intros [skip fs] w2 Hf2 Hfs Hverd. cbn [fst snd] in *.
  assert (Hs2 : same_flows w0 w2).
  { eapply same_flows_trans; [exact Hs0|]. eapply same_flows_trans; [exact Hs1|].
    eapply framed_same_flows; [exact Hf2| |]; apply (bool_decide_unpack _); by vm_compute. }
  assert (Hv : filter_verdict cpu cfg w0 pkt e (initial_sampling cfg) direction
    = (skip, default (initial_sampling cfg) fs)).
  { rewrite Hverd. unfold filter_verdict. case_match; [|done].
    by rewrite !(side_of_ext cpu w0 w1) by (rewrite (unch_map _ _ Hu); apply Hss0). }
  set (s := default (initial_sampling cfg) fs) in *.
  assert (Hsu : is_u32 s) by (by destruct fs).
  (* the end, from a world where the flows are still the same and the draw has kept the packet *)
  assert (Hend : ∀ w3, same_flows w0 w3 -> world_wf w3 -> typed w3 -> w_do_sampling w3 = 1 ->
    (∀ w', clock w3 <= clock w' -> draws (draw_rate cfg s) true w0 w') ->
    wp cpu (if skip then mret TC_ACT_OK
            else process_packet cfg skb pkt e (recorded_sampling cfg s) direction)
      (λ r w', clock w1 <= clock w' -> Q r w') w3).
  { intros w3 Hs3 Hw3 Ht3 Hd3 Hdr. destruct skip.
    - apply wp_ret. intros Hclk. apply HQ.
      eapply (OutParsed _ _ _ _ _ _ ts pkt e true true); [done|done|lia|exact Hv|by apply Hdr|done..].
    - apply wp_clock, wp_process_packet; [done|done|done|done|by apply recorded_sampling_u32|done|].
      intros w' He Hds Hc3 Hclk. apply HQ.
      eapply (OutParsed _ _ _ _ _ _ ts pkt e false true); [done|done|lia|exact Hv|by apply Hdr|done|congruence|].
      by eapply packet_effect_same. }
  unfold recorded_sampling in Hend. unfold draw_rate in Hend.
  destruct (has_filter_sampling cfg =? 0) eqn:Ehs; cbn [negb]; bool_to_prop.
  - apply Hend; [done|apply Hf2..| |].
    + rewrite (fr_sampling _ _ _ _ Hf2), (unch_sampling _ _ Hu). by apply Hdraw.
    + intros w' Hle. pose proof (fr_clock _ _ _ _ Hf2). apply Hdraw'; [lia|done].
  - assert (Hru : is_u32 (if s =? 0 then sampling cfg else s)) by (by destruct (s =? 0)).
    apply wp_bind, wp_sample; [apply Hf2..|done|].
    intros keep w3 Hss Hw3 Ht3 Hds Hdr Hc3. pose proof (fr_clock _ _ _ _ Hf2) as Hcf.
    assert (Hs3 : same_flows w0 w3).
    { eapply same_flows_trans; [exact Hs2|by apply same_store_flows; [|lia]]. }
    assert (Hdr' : ∀ w', clock w3 <= clock w' -> draws (if s =? 0 then sampling cfg else s) keep w0 w').
    { intros w' Hle. eapply draws_within; [|exact Hle|exact Hdr]. lia. }
    assert (Erec : recorded_sampling cfg s = if s =? 0 then sampling cfg else s)
      by (unfold recorded_sampling; by rewrite (proj2 (Z.eqb_neq _ _) Ehs)).
    destruct keep; cbn [negb]; [by apply Hend; rewrite ?Erec|].
    apply wp_ret. intros Hle. apply HQ.
    eapply (OutParsed _ _ _ _ _ _ ts pkt e skip false); [done|done|lia|exact Hv| |done..].
    unfold draw_rate. rewrite (proj2 (Z.eqb_neq _ _) Ehs), Erec. by apply Hdr'.
Qed.

(** Every run of the monitor ends in [TC_ACT_OK], and with one of the
    outcomes. *)
Lemma wp_flow_monitor cpu cfg skb direction (Q : Z → world → Prop) w :
  world_wf w -> typed w -> wf_skb skb -> is_u32 (sampling cfg) -> is_u8 direction ->
  (∀ w', monitor_outcome cpu cfg skb direction w w' -> Q TC_ACT_OK w') ->
  wp cpu (flow_monitor cfg skb direction) Q w.
Proof.
  intros Hw Ht Hskb Hcs Hd HQ. unfold flow_monitor.
  assert (Hi : initial_sampling cfg = if has_filter_sampling cfg =? 0 then sampling cfg else 0)
    by done.
  destruct (has_filter_sampling cfg =? 0) eqn:Ehs; bool_to_prop.
  2: { rewrite <- Hi. apply (wp_parse_and_filter _ _ _ _ _ w); done || lia. }
  apply wp_bind, wp_sample; [done..|]. intros keep w1 Hss Hw1 Ht1 Hds Hdr Hclk.
  pose proof (same_store_flows _ _ Hss Hclk) as Hs1.
  destruct keep; cbn [negb].
  - rewrite <- Hi. by apply (wp_parse_and_filter _ _ _ _ _ w).
  - by apply wp_ret, HQ, OutSampled.
Qed.

Lemma wp_flow_monitor_run cpu cfg skb direction w :
  world_wf w -> typed w -> wf_skb skb -> is_u32 (sampling cfg) -> is_u8 direction ->
  ∃ w', run cpu (flow_monitor cfg skb direction) w = (Some TC_ACT_OK, w') /\
    monitor_outcome cpu cfg skb direction w w'.
Proof.
  intros Hw Ht Hskb Hc Hd.
  pose proof (wp_flow_monitor cpu cfg skb direction
    (λ r w', r = TC_ACT_OK /\ monitor_outcome cpu cfg skb direction w w') w
    Hw Ht Hskb Hc Hd ltac:(done)) as (r & Hr & -> & Ho)%wp_run. by eexists.
Qed.
End Monitoring.
