(* ===== verification/Capture.v ===== *)
(** * Packet capture ([bpf/packets/packet_capture.h])

    The other eBPF object of the agent: instead of aggregating flows it sends
    the first bytes of every packet that the sampling and the filter keep to
    user space, through a ring buffer. *)
From S2P Require Import Prelude Machine Types Kernel Maps Safety PacketUtils Filter Hooks.
From S2P Require Import Flows.

(** ** Operations *)

Section Capture.
Context {H : Host} {K : Kernel}.
Implicit Types cfg : config.

(** [stale] is what the payload field of the reserved sample holds before the
    program writes it: the ring buffer does not clear its memory. *)
Definition attach_packet_payload (skb : sk_buff) (stale : list Z) : prog unit :=
  let packetSize := skb_len skb in
  event ← call (bpf_ringbuf_reserve packet_record);
  match event with
  | None => mret tt
  | Some i =>
      if packetSize =? 0 then call (bpf_ringbuf_discard packet_record i)
      else
        let packetSize := if MAX_PAYLOAD_SIZE <? packetSize then MAX_PAYLOAD_SIZE else packetSize in
        timestamp ← call bpf_ktime_get_ns;
        let '(err, payload) := k_skb_load_bytes skb 0 packetSize in
        if negb (err =? 0) then call (bpf_ringbuf_discard packet_record i)
        else
          call (bpf_ringbuf_submit packet_record i
            (mk_payload_meta (skb_ifindex skb) packetSize timestamp
               (payload ++ drop (Z.to_nat packetSize) stale)))
  end.

Definition validate_packet_filter cfg (skb : sk_buff) (dir : Z) : prog bool :=
  '(verdict, pkt, eth_protocol) ←
    deref (fill_ethhdr (skb_data skb) 0 (Z.of_nat (length (skb_data skb))) zeroed 0);
  if verdict =? DISCARD then mret false
  else
    '(skip, _) ← check_and_apply_filter cfg (pi_id pkt) (pi_flags pkt) 0 eth_protocol None dir;
    if skip : bool then mret false else mret true.

Definition export_packet_payload cfg (skb : sk_buff) (dir : Z) (stale : list Z) : prog unit :=
  out ← sampled_out (sampling cfg);
  if out : bool then mret tt
  else
    valid ← validate_packet_filter cfg skb dir;
    if valid : bool then attach_packet_payload skb stale else mret tt.

(** *** Entry points *)

Definition tc_ingress_packet_parse cfg (skb : sk_buff) (stale : list Z) : prog Z :=
  _ ← export_packet_payload cfg skb INGRESS stale; mret TC_ACT_OK.
Definition tc_egress_packet_parse cfg (skb : sk_buff) (stale : list Z) : prog Z :=
  _ ← export_packet_payload cfg skb EGRESS stale; mret TC_ACT_OK.
Definition tcx_ingress_packet_parse cfg (skb : sk_buff) (stale : list Z) : prog Z :=
  _ ← export_packet_payload cfg skb INGRESS stale; mret TCX_NEXT.
Definition tcx_egress_packet_parse cfg (skb : sk_buff) (stale : list Z) : prog Z :=
  _ ← export_packet_payload cfg skb EGRESS stale; mret TCX_NEXT.
Definition netkit_primary_packet_parse cfg (skb : sk_buff) (stale : list Z) : prog Z :=
  _ ← export_packet_payload cfg skb EGRESS stale; mret NETKIT_NEXT.
Definition netkit_peer_packet_parse cfg (skb : sk_buff) (stale : list Z) : prog Z :=
  _ ← export_packet_payload cfg skb INGRESS stale; mret NETKIT_NEXT.
End Capture.

(** ** Specification *)

(** How much of a packet is captured. *)
Definition captured_size (skb : sk_buff) : Z := Z.min (skb_len skb) MAX_PAYLOAD_SIZE.

(** The sample of a packet: its first bytes, then whatever was in the ring
    buffer; the length field tells the two apart. *)
Definition packet_sample (skb : sk_buff) (timestamp : Z) (stale : list Z) : payload_meta :=
  mk_payload_meta (skb_ifindex skb) (captured_size skb) timestamp
    (take (Z.to_nat (captured_size skb)) (skb_bytes skb)
     ++ drop (Z.to_nat (captured_size skb)) stale).

Section CaptureOk.
Context {H : Host} {K : Kernel} {KL : KernelLaws K}.
Implicit Types w : world.

(** The first bytes of a packet that is not empty can always be loaded. *)
Lemma load_captured skb :
  wf_skb skb -> skb_len skb <> 0 ->
  k_skb_load_bytes skb 0 (captured_size skb)
  = (0, take (Z.to_nat (captured_size skb)) (skb_bytes skb)).
Proof.
  intros ([Hlen _] & _ & _ & Hb & _ & Hl) Hne.
  assert (Hc : 0 < captured_size skb) by (unfold captured_size, MAX_PAYLOAD_SIZE; lia).
  destruct (skb_load_bytes_ok skb 0 (captured_size skb)) as (_ & _ & Hs); [lia|done|done|].
  by rewrite slice_Some in Hs by (unfold captured_size in *; lia).
Qed.

Lemma captured_size_eq skb :
  (if MAX_PAYLOAD_SIZE <? skb_len skb then MAX_PAYLOAD_SIZE else skb_len skb) = captured_size skb.
Proof. unfold captured_size. case_match; bool_to_prop; lia. Qed.

(** The packet is appended to the ring buffer, unless that is full. *)
Lemma wp_attach_packet_payload cpu skb stale (Q : unit → world → Prop) w :
  wf_skb skb -> skb_len skb <> 0 ->
  (∀ ts w', clock w <= ts <= clock w' ->
     ring_set packet_record
       (w_ring w packet_record ++ [Committed (packet_sample skb ts stale : payload packet_record)])
       w w' -> Q tt w') ->
  (∀ w', (k_reserve packet_record (w_kst w)).1 = false -> unchanged w w' -> Q tt w') ->
  wp cpu (attach_packet_payload skb stale) Q w.
Proof.
  intros Hskb Hne HQ HN. unfold attach_packet_payload. cbv zeta.
  apply wp_bind, wp_reserve_room.
  2: { intros w' Hroom Hu. by apply wp_ret, HN. }
  intros w1 Hr. rewrite (proj2 (Z.eqb_neq _ 0)) by done. rewrite captured_size_eq.
  apply wp_bind, wp_ktime. intros ts w2 Hu _ Hts.
  rewrite load_captured by done. cbv beta iota. change (negb (0 =? 0)) with false. cbv iota.
  apply wp_submit. intros w3 Hs.
  apply (HQ ts).
  - pose proof (rs_clock _ _ _ _ Hr). pose proof (rs_clock _ _ _ _ Hs).
    pose proof (unch_clock _ _ Hu). lia.
  - eapply ring_set_append; [|done]. by eapply ring_set_unchanged.
Qed.

(** ** Safety and footprint *)

Lemma packet_sample_ok skb ts stale :
  wf_skb skb -> is_u64 ts -> is_bytes 256 stale -> wf_payload packet_record (packet_sample skb ts stale).
Proof.
  intros ([Hl Hl'] & Hi & _ & Hb & _ & Hlen) Ht [Hs Hsu].
  assert (Hc : 0 <= captured_size skb <= 256 /\ captured_size skb <= skb_len skb)
    by (unfold captured_size, MAX_PAYLOAD_SIZE; lia).
  cbn. splits; try done; [width; lia|].
  split; [rewrite length_app, length_take, length_drop; lia|].
  apply Forall_app. split; [by apply Forall_take|by apply Forall_drop].
Qed.

Lemma attach_packet_payload_safe skb stale :
  wf_skb skb -> is_bytes 256 stale -> safe (λ _, True) (attach_packet_payload skb stale).
Proof.
  intros Hskb Hst. unfold attach_packet_payload. cbv zeta.
  apply safe_bind, safe_call; [done|]. intros [i|] _; [|done].
  destruct (skb_len skb =? 0) eqn:E; bool_to_prop; [done|]. rewrite captured_size_eq.
  apply safe_bind, safe_call; [done|]. intros ts Hts.
  rewrite load_captured by done. cbv beta iota. apply safe_call; [|done].
  by apply (packet_sample_ok skb ts stale).
Qed.

Lemma validate_packet_filter_safe cfg skb dir :
  wf_skb skb -> safe (λ _, True) (validate_packet_filter cfg skb dir).
Proof.
  intros Hskb. destruct (parse_submitted skb 0 Hskb zero_u64) as (r & pkt & e & Hf & _).
  apply safe_bind. eapply safe_deref; [exact Hf|]. cbv beta iota. case_match; [done|].
  apply safe_bind. eapply safe_mono; [by apply check_and_apply_filter_safe|]. by intros [[] s] _.
Qed.

Lemma sampled_out_safe rate : safe (λ _, True) (sampled_out rate).
Proof.
  unfold sampled_out. case_match; [|done]. by apply safe_bind, safe_call.
Qed.

Lemma export_packet_payload_safe cfg skb dir stale :
  wf_skb skb -> is_bytes 256 stale -> safe (λ _, True) (export_packet_payload cfg skb dir stale).
Proof.
  intros Hskb Hst. apply safe_bind. eapply safe_mono; [apply sampled_out_safe|].
  intros [] _; [done|]. apply safe_bind. eapply safe_mono; [by apply validate_packet_filter_safe|].
  intros [] _; [|done]. by apply attach_packet_payload_safe.
Qed.

Lemma attach_packet_payload_writes ms rs skb stale :
  packet_record ∈ rs -> writes ms rs (attach_packet_payload skb stale).
Proof.
  intros Hr. unfold attach_packet_payload. cbv zeta.
  apply writes_bind; [by apply writes_call|]. intros [i|]; [|done].
  case_match; [by apply writes_call|]. apply writes_bind; [done|]. intros ts.
  destruct (k_skb_load_bytes _ _ _) as [err payload]. case_match; by apply writes_call.
Qed.

(** ** What becomes of a packet *)

(** The answer of the filter about the packet. *)
Definition capture_rejected cpu cfg w (skb : sk_buff) (dir : Z) : bool :=
  match fill_ethhdr (skb_data skb) 0 (Z.of_nat (length (skb_data skb))) zeroed 0 with
  | Some (_, pkt, eth_protocol) =>
      filter_rejects cpu cfg w (pi_id pkt) (pi_flags pkt) 0 eth_protocol dir
  | None => true
  end.

(** A packet is left out by the sampling, by the parser, by the filter, or
    because the ring buffer is full; else its sample is appended.  A sample is
    never reserved in vain. *)
Inductive capture_outcome cpu cfg (skb : sk_buff) (dir : Z) (stale : list Z) w w' : Prop :=
  | CapSampledOut :
      1 < sampling cfg -> unchanged w w' -> capture_outcome cpu cfg skb dir stale w w'
  | CapUnparsable :
      parsable (skb_data skb) = false -> unchanged w w' ->
      capture_outcome cpu cfg skb dir stale w w'
  | CapRejected :
      parsable (skb_data skb) = true -> capture_rejected cpu cfg w skb dir = true ->
      framed [global_counters] [] w w' -> capture_outcome cpu cfg skb dir stale w w'
  | CapFull st :
      parsable (skb_data skb) = true -> capture_rejected cpu cfg w skb dir = false ->
      (k_reserve packet_record st).1 = false ->
      framed [global_counters] [] w w' -> capture_outcome cpu cfg skb dir stale w w'
  | CapCaptured ts :
      parsable (skb_data skb) = true -> capture_rejected cpu cfg w skb dir = false ->
      clock w <= ts <= clock w' ->
      w_ring w' packet_record
      = w_ring w packet_record ++ [Committed (packet_sample skb ts stale : payload packet_record)] ->
      framed [global_counters] [packet_record] w w' ->
      capture_outcome cpu cfg skb dir stale w w'.
Lemma filter_rejects_ext cpu cfg w w' id flags drop_reason eth_protocol direction :
  w_map w' filter_map = w_map w filter_map -> w_map w' peer_filter_map = w_map w peer_filter_map ->
  filter_rejects cpu cfg w' id flags drop_reason eth_protocol direction
  = filter_rejects cpu cfg w id flags drop_reason eth_protocol direction.
Proof. intros Hf Hp. unfold filter_rejects. by rewrite !(side_of_ext cpu w w') by done. Qed.

Lemma wp_validate_packet_filter cpu cfg skb dir (Q : bool → world → Prop) w :
  world_wf w -> typed w -> wf_skb skb ->
  (parsable (skb_data skb) = false -> Q false w) ->
  (∀ w', parsable (skb_data skb) = true -> framed [global_counters] [] w w' ->
     Q (negb (capture_rejected cpu cfg w skb dir)) w') ->
  wp cpu (validate_packet_filter cfg skb dir) Q w.
Proof.
  intros Hw Ht Hskb HN HQ. unfold validate_packet_filter, capture_rejected in *.
  destruct (parse_submitted skb 0 Hskb zero_u64) as (r & pkt & e & Hf & -> & Hsub).
  change (zeroed <| pi_current_ts := 0 |>) with (zeroed : pkt_info) in Hf. rewrite Hf in HQ |- *.
  apply wp_bind. cbn [deref]. apply wp_ret. cbv beta iota.
  destruct (parsable (skb_data skb)); cbn [Z.eqb].
  2: { change (DISCARD =? DISCARD) with true. cbv iota. by apply wp_ret, HN. }
  change (SUBMIT =? DISCARD) with false. cbv iota. destruct (Hsub eq_refl) as (Hs & _).
  apply wp_bind, wp_hook_filter; [done|done|apply (sub_pkt _ _ _ Hs)|].
  intros w' [Hfr _]. cbv beta iota. specialize (HQ w' eq_refl Hfr).
  by destruct (filter_rejects _ _ _ _ _ _ _ _); apply wp_ret.
Qed.

(** The first half of the program: sampling and filter. *)
Lemma wp_sampled_out cpu rate (Q : bool → world → Prop) w :
  (∀ out w', unchanged w w' -> (out = true -> 1 < rate) -> Q out w') ->
  wp cpu (sampled_out rate) Q w.
Proof.
  intros HQ. unfold sampled_out. destruct (1 <? rate) eqn:E; bool_to_prop.
  - apply wp_bind, wp_prandom. intros x w' Hu _. by apply wp_ret, HQ.
  - apply wp_ret, HQ; [apply unchanged_refl|done].
Qed.

Lemma parsable_not_empty skb : wf_skb skb -> parsable (skb_data skb) = true -> skb_len skb <> 0.
Proof.
  intros (_ & _ & _ & _ & Hp & Hl) Hd. apply prefix_length in Hp.
  unfold parsable, sizeof_ethhdr, sizeof_iphdr, sizeof_ipv6hdr in Hd. cbv zeta in Hd.
  apply orb_true_iff in Hd as [Hd|Hd]; bool_to_prop; lia.
Qed.

Lemma wp_export_packet_payload cpu cfg skb dir stale (Q : unit → world → Prop) w :
  world_wf w -> typed w -> wf_skb skb ->
  (∀ w', capture_outcome cpu cfg skb dir stale w w' -> Q tt w') ->
  wp cpu (export_packet_payload cfg skb dir stale) Q w.
Proof.
  intros Hw Ht Hskb HQ. apply wp_bind, wp_sampled_out. intros [] w1 Hu Hs.
  { by apply wp_ret, HQ, CapSampledOut; [apply Hs|]. }
  pose proof (unchanged_wf _ _ Hu Hw) as Hw1. pose proof (unchanged_typed _ _ Hu Ht) as Ht1.
  assert (Hf1 : framed [global_counters] [] w w1) by by apply unchanged_framed.
  apply wp_bind, wp_validate_packet_filter; [done..|intros Hp|intros w2 Hp Hf2].
  { by apply wp_ret, HQ, CapUnparsable. }
  pose proof (framed_trans _ _ _ _ _ Hf1 Hf2) as Hf.
  assert (E : capture_rejected cpu cfg w1 skb dir = capture_rejected cpu cfg w skb dir).
  { unfold capture_rejected. repeat case_match; [|done]. apply filter_rejects_ext; apply Hu. }
  rewrite E. destruct (capture_rejected cpu cfg w skb dir) eqn:Er; cbn [negb].
  { by apply wp_ret, HQ, CapRejected. }
  apply wp_attach_packet_payload; [done|by apply parsable_not_empty|..].
  - intros ts w3 Hts Hr. pose proof (fr_clock _ _ _ _ Hf). apply HQ, (CapCaptured _ _ _ _ _ _ _ ts);
      [done|done|lia| |].
    + rewrite (rs_ring _ _ _ _ Hr). by rewrite (fr_ring _ _ _ _ Hf) by apply not_elem_of_nil.
    + eapply framed_trans; [eapply framed_mono; [exact Hf|done|apply list_subseteq_nil]|].
      eapply ring_set_framed; [apply list_elem_of_here|apply Hf|apply Hf|exact Hr].
  - intros w3 Hroom Hu3. apply HQ, (CapFull _ _ _ _ _ _ _ (w_kst w2)); [done..|].
    eapply framed_trans; [exact Hf|]. apply unchanged_framed; [apply Hf|apply Hf|done].
Qed.
End CaptureOk.
