(* ===== verification/Ssl.v ===== *)
(** * TLS plaintext capture ([bpf/tls_plaintext.h], [bpf/openssl_tracker.h])

    Probes on the functions of the OpenSSL library: [SSL_set_fd] and its return
    tell which socket a connection uses, [SSL_write] and the return of [SSL_read]
    send the data to user space before encryption and after decryption.  Two
    maps carry what the entry of a function leaves for its return. *)
From S2P Require Import Prelude Machine Types Kernel Maps Safety PacketUtils.

(** ** What the probes read of the kernel: the file descriptors of the task *)

(** The fields of [struct sock_common]; [sk_dport] and the addresses are the
    memory of the fields, in network order. *)
Record sock := mk_sock {
  sk_family : Z;
  sk_num : Z;
  sk_dport : Z;
  sk_rcv_saddr : list Z;
  sk_daddr : list Z;
  sk_v6_rcv_saddr : list Z;
  sk_v6_daddr : list Z;
}.

(** [struct socket]; [so_sk] is [None] for a null pointer. *)
Record socket := mk_socket {
  so_type : Z;
  so_sk : option sock;
}.

(** [struct file]: the mode of its inode, and its private data, which is a
    socket if the mode says so. *)
Record file := mk_file {
  f_mode : Z;
  f_private_data : option socket;
}.

(** [struct fdtable]; an entry is [None] for a null pointer, and an array that
    is shorter than [max_fds] makes the read of an entry fail. *)
Record fdtable := mk_fdtable {
  fdt_max_fds : Z;
  fdt_fd : list (option file);
}.

(** The table of the current task; [None] if it cannot be read. *)
Abbreviation task_files := (option fdtable) (only parsing).

Definition S_IFMT : Z := 0xf000.
Definition S_IFSOCK : Z := 0xc000.
Definition SOCK_STREAM : Z := 1.

Definition SSL_DIRECTION_WRITE : Z := 0.
Definition SSL_DIRECTION_READ : Z := 1.
Definition TLS_SOURCE_OPENSSL : Z := 0.

(** ** Operations *)

Section Ssl.
Context {H : Host}.
Implicit Types cfg : config.

Definition ssl_socket_tuple (task : task_files) (fd : Z) (event : ssl_data_event_t)
    : ssl_data_event_t :=
  if fd <? 0 then event
  else
    match task with
    | None => event
    | Some fdt =>
        if fdt_max_fds fdt <=? u32 fd then event
        else
          match mjoin (fdt_fd fdt !! Z.to_nat fd) with
          | None => event
          | Some file =>
              if negb (Z.land (f_mode file) S_IFMT =? S_IFSOCK) then event
              else
                match f_private_data file with
                | None => event
                | Some socket =>
                    if negb (so_type socket =? SOCK_STREAM) then event
                    else
                      match so_sk socket with
                      | None => event
                      | Some sk =>
                          let event := event <| sde_src_port := sk_num sk |>
                                             <| sde_dst_port := bpf_ntohs (sk_dport sk) |> in
                          if (sde_src_port event =? 0) || (sde_dst_port event =? 0) then event
                          else if sk_family sk =? AF_INET then
                            event
                              <| sde_src_addr := zero_bytes 10 ++ [0xff; 0xff] ++ sk_rcv_saddr sk |>
                              <| sde_dst_addr := zero_bytes 10 ++ [0xff; 0xff] ++ sk_daddr sk |>
                              <| sde_tuple_valid := 1 |>
                          else if sk_family sk =? AF_INET6 then
                            event
                              <| sde_src_addr := sk_v6_rcv_saddr sk |>
                              <| sde_dst_addr := sk_v6_daddr sk |>
                              <| sde_tuple_valid := 1 |>
                          else event
                      end
                end
          end
    end.

(** The process part of [bpf_get_current_pid_tgid]. *)
Definition tgid_of (pid_tgid : Z) : Z := u32 (Z.shiftr pid_tgid 32).

Definition ssl_key (ssl pid_tgid : Z) : ssl_fd_key_t := mk_ssl_fd_key_t ssl (tgid_of pid_tgid).

(** The descriptor that the fd map has for the connection, if it is one. *)
Definition bound_fd (tls_source conn_user_ptr pid_tgid : Z) : prog (option Z) :=
  if (tls_source =? TLS_SOURCE_OPENSSL) && negb (conn_user_ptr =? 0) then
    p ← call (bpf_map_lookup_elem ssl_fd_map (ssl_key conn_user_ptr pid_tgid));
    match p with
    | Some p =>
        fd ← call (elem_read ssl_fd_map p);
        mret (if 0 <=? fd then Some fd else None)
    | None => mret None
    end
  else mret None.

(** [user a n] is what [bpf_probe_read_user] leaves in a buffer of [n] bytes
    when it reads at address [a] of the process, with its result; [stale] is
    the memory of the reserved sample, which the ring buffer does not clear. *)
Definition generate_SSL_data_event (user : Z → Z → Z * list Z) (task : task_files)
    (stale : ssl_data_event_t) (pid_tgid ssl_type direction tls_source buf len conn_user_ptr : Z)
    : prog unit :=
  if len <=? 0 then mret tt
  else
    event ← call (bpf_ringbuf_reserve ssl_data_event_map);
    match event with
    | None => mret tt
    | Some i =>
        timestamp_ns ← call bpf_ktime_get_ns;
        let event := stale
          <| sde_timestamp_ns := timestamp_ns |>
          <| sde_pid_tgid := pid_tgid |>
          <| sde_ssl_type := ssl_type |>
          <| sde_direction := direction |>
          <| sde_tls_source := tls_source |>
          <| sde_tuple_valid := 0 |>
          <| sde_conn_user_ptr := conn_user_ptr |>
          <| sde_socket_fd := -1 |> in
        fd ← bound_fd tls_source conn_user_ptr pid_tgid;
        let event :=
          match fd with
          | Some fd => ssl_socket_tuple task fd (event <| sde_socket_fd := fd |>)
          | None => event
          end in
        let capture_len := if len <? MAX_DATA_SIZE_OPENSSL then len else MAX_DATA_SIZE_OPENSSL in
        let event := event
          <| sde_data_len := s32 capture_len |>
          <| sde_data ::= λ d, (user buf capture_len).2 ++ drop (Z.to_nat capture_len) d |> in
        call (bpf_ringbuf_submit ssl_data_event_map i event)
    end.

Definition openssl_ssl_type (user : Z → Z → Z * list Z) (ssl : Z) : Z :=
  let '(err, ssl_type_raw) := user ssl 4 in
  if negb (err =? 0) then 0 else u8 (obj32 ssl_type_raw 0).

(** [ssl], [buf], [parm2] and [parm3] are the argument registers, [rc] the
    register of the result. *)
Definition probe_entry_SSL_set_fd cfg (pid_tgid ssl parm2 : Z) : prog Z :=
  if enable_openssl_tracking cfg =? 0 then mret 0
  else
    let fd := s32 parm2 in
    if (ssl =? 0) || (fd <? 0) then mret 0
    else
      let key := ssl_key ssl pid_tgid in
      _ ← call (bpf_map_delete_elem ssl_fd_map key);
      let pending := mk_ssl_fd_pending_t key fd in
      _ ← call (bpf_map_update_elem ssl_fd_pending_map pid_tgid pending BPF_ANY);
      mret 0.

Definition probe_ret_SSL_set_fd (pid_tgid rc : Z) : prog Z :=
  pending ← call (bpf_map_lookup_elem ssl_fd_pending_map pid_tgid);
  match pending with
  | None => mret 0
  | Some p =>
      binding ← call (elem_read ssl_fd_pending_map p);
      _ ← call (bpf_map_delete_elem ssl_fd_pending_map pid_tgid);
      _ ← (if rc =? 1
           then call (bpf_map_update_elem ssl_fd_map (sfp_key binding) (sfp_fd binding) BPF_ANY)
           else mret 0);
      mret 0
  end.

Definition probe_entry_SSL_free (pid_tgid ssl : Z) : prog Z :=
  _ ← call (bpf_map_delete_elem ssl_fd_map (ssl_key ssl pid_tgid));
  mret 0.

Definition probe_entry_SSL_write cfg (user : Z → Z → Z * list Z) (task : task_files)
    (stale : ssl_data_event_t) (pid_tgid ssl buf parm3 : Z) : prog Z :=
  if enable_openssl_tracking cfg =? 0 then mret 0
  else
    let num := u32 parm3 in
    if (0 <? num) && negb (buf =? 0) then
      _ ← generate_SSL_data_event user task stale pid_tgid (openssl_ssl_type user ssl)
            SSL_DIRECTION_WRITE TLS_SOURCE_OPENSSL buf num ssl;
      mret 0
    else mret 0.

Definition probe_entry_SSL_read cfg (user : Z → Z → Z * list Z) (pid_tgid ssl buf : Z) : prog Z :=
  if enable_openssl_tracking cfg =? 0 then mret 0
  else
    let active := mk_ssl_read_active_t (openssl_ssl_type user ssl) buf ssl in
    _ ← call (bpf_map_update_elem ssl_read_active_map pid_tgid active BPF_ANY);
    mret 0.

Definition probe_ret_SSL_read cfg (user : Z → Z → Z * list Z) (task : task_files)
    (stale : ssl_data_event_t) (pid_tgid rc : Z) : prog Z :=
  if enable_openssl_tracking cfg =? 0 then mret 0
  else
    active ← call (bpf_map_lookup_elem ssl_read_active_map pid_tgid);
    match active with
    | None => mret 0
    | Some p =>
        let ret := s32 rc in
        captured ← call (elem_read ssl_read_active_map p);
        _ ← call (bpf_map_delete_elem ssl_read_active_map pid_tgid);
        if (ret <=? 0) || (sra_buf_user captured =? 0) then mret 0
        else
          _ ← generate_SSL_data_event user task stale pid_tgid (sra_ssl_type captured)
                SSL_DIRECTION_READ TLS_SOURCE_OPENSSL (sra_buf_user captured) (u32 ret)
                (sra_conn_user_ptr captured);
          mret 0
    end.
End Ssl.

(** ** Specification *)

(** The process has the bytes [bs] at address [a]: reads inside them succeed. *)
Definition holds_bytes (user : Z → Z → Z * list Z) (a : Z) (bs : list Z) : Prop :=
  ∀ n, 0 <= n <= Z.of_nat (length bs) -> user a n = (0, take (Z.to_nat n) bs).

(** What the helper fills is bytes, as many as asked for. *)
Definition user_ok (user : Z → Z → Z * list Z) : Prop :=
  ∀ a n, 0 <= n -> is_bytes (Z.to_nat n) (user a n).2.

(** The stream socket behind a descriptor of the task. *)
Definition task_sock (task : task_files) (fd : Z) : option sock :=
  fdt ← task;
  if (0 <=? fd) && (u32 fd <? fdt_max_fds fdt) then
    file ← mjoin (fdt_fd fdt !! Z.to_nat fd);
    if Z.land (f_mode file) S_IFMT =? S_IFSOCK then
      socket ← f_private_data file;
      if so_type socket =? SOCK_STREAM then so_sk socket else None
    else None
  else None.

(** The end points of a connected socket: ports and 16-byte addresses, local
    then remote. *)
Definition sock_tuple `{Host} (sk : sock) : option (Z * Z * list Z * list Z) :=
  let dport := bpf_ntohs (sk_dport sk) in
  if (sk_num sk =? 0) || (dport =? 0) then None
  else if sk_family sk =? AF_INET then
    Some (sk_num sk, dport, ip4in6 ++ sk_rcv_saddr sk, ip4in6 ++ sk_daddr sk)
  else if sk_family sk =? AF_INET6 then
    Some (sk_num sk, dport, sk_v6_rcv_saddr sk, sk_v6_daddr sk)
  else None.

(** The end points that an event carries. *)
Definition event_tuple (ev : ssl_data_event_t) : option (Z * Z * list Z * list Z) :=
  if sde_tuple_valid ev =? 1
  then Some (sde_src_port ev, sde_dst_port ev, sde_src_addr ev, sde_dst_addr ev) else None.

Section Tuple.
Context {H : Host}.

(** The pointer chase finds exactly the end points of the socket, and touches
    nothing else of the event. *)
Lemma ssl_socket_tuple_spec task fd ev :
  sde_tuple_valid ev = 0 ->
  event_tuple (ssl_socket_tuple task fd ev) = task_sock task fd ≫= sock_tuple /\
  ∃ sp dp sa da v, ssl_socket_tuple task fd ev =
    ev <| sde_src_port := sp |> <| sde_dst_port := dp |> <| sde_src_addr := sa |>
       <| sde_dst_addr := da |> <| sde_tuple_valid := v |>.
Proof.
  intros Hv.
  assert (Hsame : ∃ sp dp sa da v, ev = ev <| sde_src_port := sp |> <| sde_dst_port := dp |>
    <| sde_src_addr := sa |> <| sde_dst_addr := da |> <| sde_tuple_valid := v |>).
  { exists (sde_src_port ev), (sde_dst_port ev), (sde_src_addr ev), (sde_dst_addr ev),
      (sde_tuple_valid ev). by destruct ev. }
  assert (Hnone : event_tuple ev = None) by (unfold event_tuple; by rewrite Hv).
  unfold ssl_socket_tuple, task_sock.
  destruct task as [fdt|]; [|by case_match]. cbn [mbind option_bind].
  rewrite (Z.leb_antisym fd 0), (Z.ltb_antisym (fdt_max_fds fdt) (u32 fd)).
  destruct (fd <? 0); [done|]. destruct (fdt_max_fds fdt <=? u32 fd); [done|]. cbn [negb andb].
  destruct (mjoin _) as [file|]; [|done]. cbn [mbind option_bind].
  destruct (_ =? S_IFSOCK); [|done]. cbn [negb].
  destruct (f_private_data file) as [socket|]; [|done]. cbn [mbind option_bind].
  destruct (so_type socket =? SOCK_STREAM); [|done]. cbn [negb].
  destruct (so_sk socket) as [sk|]; [|done]. cbn [mbind option_bind].
  unfold sock_tuple. cbn -[Z.eqb zero_bytes].
  destruct ((sk_num sk =? 0) || (bpf_ntohs (sk_dport sk) =? 0)).
  { split; [|by exists (sk_num sk), (bpf_ntohs (sk_dport sk)), (sde_src_addr ev),
      (sde_dst_addr ev), (sde_tuple_valid ev); destruct ev].
    unfold event_tuple. cbn. by rewrite Hv. }
  destruct (sk_family sk =? AF_INET).
  { split; [done|]. by eexists _, _, _, _, 1. }
  destruct (sk_family sk =? AF_INET6).
  { split; [done|]. by eexists _, _, _, _, 1. }
  split; [|by exists (sk_num sk), (bpf_ntohs (sk_dport sk)), (sde_src_addr ev),
      (sde_dst_addr ev), (sde_tuple_valid ev); destruct ev].
  unfold event_tuple. cbn. by rewrite Hv.
Qed.

(** The memory of a socket. *)
Definition wf_sock (sk : sock) : Prop :=
  is_u16 (sk_num sk) /\ is_u16 (sk_dport sk) /\ is_bytes 4 (sk_rcv_saddr sk) /\
  is_bytes 4 (sk_daddr sk) /\ is_bytes 16 (sk_v6_rcv_saddr sk) /\ is_bytes 16 (sk_v6_daddr sk).

Definition wf_task (task : task_files) : Prop :=
  ∀ fd sk, task_sock task fd = Some sk -> wf_sock sk.
End Tuple.

(** What an event says about the data [bs] of a call on the connection [conn]:
    the first 16 KiB at most, and, when the descriptor is known, the end points
    of its socket. *)
Record ssl_recorded `{Host} (task : task_files) (pid_tgid ssl_type direction conn : Z)
    (fd : option Z) (bs : list Z) (ts : Z) (ev : ssl_data_event_t) : Prop := {
  sr_timestamp : sde_timestamp_ns ev = ts;
  sr_pid : sde_pid_tgid ev = pid_tgid;
  sr_type : sde_ssl_type ev = ssl_type;
  sr_direction : sde_direction ev = direction;
  sr_source : sde_tls_source ev = TLS_SOURCE_OPENSSL;
  sr_conn : sde_conn_user_ptr ev = conn;
  sr_fd : sde_socket_fd ev = default (-1) fd;
  sr_tuple : event_tuple ev = (fd ≫= task_sock task) ≫= sock_tuple;
  sr_len : sde_data_len ev = Z.min (Z.of_nat (length bs)) MAX_DATA_SIZE_OPENSSL;
  sr_data : take (Z.to_nat (sde_data_len ev)) (sde_data ev)
            = take (Z.to_nat MAX_DATA_SIZE_OPENSSL) bs;
}.

(** The descriptor of a connection, as the probes know it. *)
Definition ssl_binding `{Kernel} (cpu : Z) (w : world) (conn pid_tgid : Z) : option Z :=
  if conn =? 0 then None
  else
    fd ← elem cpu ssl_fd_map w (ssl_key conn pid_tgid);
    if (0 <=? fd) then Some fd else None.

Section SslOk.
Context {H : Host} {K : Kernel} {KL : KernelLaws K}.
Implicit Types w : world.

Lemma wp_bound_fd cpu conn pid_tgid (Q : option Z → world → Prop) w :
  Q (ssl_binding cpu w conn pid_tgid) w ->
  wp cpu (bound_fd TLS_SOURCE_OPENSSL conn pid_tgid) Q w.
Proof.
  intros HQ. unfold bound_fd. change (TLS_SOURCE_OPENSSL =? TLS_SOURCE_OPENSSL) with true.
  unfold ssl_binding in HQ. destruct (conn =? 0); cbn [negb andb]; [apply wp_ret; exact HQ|].
  apply wp_bind, wp_lookup; [done|intros E; rewrite E in HQ; apply wp_ret; exact HQ|].
  intros p fd E Hat. rewrite E in HQ. apply wp_bind, (wp_read _ _ _ _ _ _ _ Hat), wp_ret. exact HQ.
Qed.

Lemma capture_len_eq len :
  (if len <? MAX_DATA_SIZE_OPENSSL then len else MAX_DATA_SIZE_OPENSSL)
  = Z.min len MAX_DATA_SIZE_OPENSSL.
Proof. case_match; bool_to_prop; lia. Qed.

(** The event that the program fills in. *)
Lemma ssl_event_recorded user task stale pid_tgid ssl_type direction buf bs conn fd ts :
  holds_bytes user buf bs ->
  let event := stale
    <| sde_timestamp_ns := ts |> <| sde_pid_tgid := pid_tgid |> <| sde_ssl_type := ssl_type |>
    <| sde_direction := direction |> <| sde_tls_source := TLS_SOURCE_OPENSSL |>
    <| sde_tuple_valid := 0 |> <| sde_conn_user_ptr := conn |> <| sde_socket_fd := -1 |> in
  let event :=
    match fd with
    | Some fd => ssl_socket_tuple task fd (event <| sde_socket_fd := fd |>)
    | None => event
    end in
  let capture_len := Z.min (Z.of_nat (length bs)) MAX_DATA_SIZE_OPENSSL in
  ssl_recorded task pid_tgid ssl_type direction conn fd bs ts
    (event <| sde_data_len := s32 capture_len |>
           <| sde_data ::= λ d, (user buf capture_len).2 ++ drop (Z.to_nat capture_len) d |>).
Proof.
  intros Hb event event' capture_len.
  assert (Hc : 0 <= capture_len <= MAX_DATA_SIZE_OPENSSL /\ capture_len <= Z.of_nat (length bs))
    by (unfold capture_len, MAX_DATA_SIZE_OPENSSL; lia).
  assert (Hs : s32 capture_len = capture_len)
    by (apply s32_small; unfold MAX_DATA_SIZE_OPENSSL in Hc; lia).
  assert (Hev : ∃ sp dp sa da v, event' = event <| sde_socket_fd := default (-1) fd |>
      <| sde_src_port := sp |> <| sde_dst_port := dp |> <| sde_src_addr := sa |>
      <| sde_dst_addr := da |> <| sde_tuple_valid := v |> /\
    event_tuple event' = (fd ≫= task_sock task) ≫= sock_tuple).
  { unfold event'. destruct fd as [fd|]; cbn [default mbind option_bind].
    - destruct (ssl_socket_tuple_spec task fd (event <| sde_socket_fd := fd |>))
        as (Ht & sp & dp & sa & da & v & E); [done|].
      exists sp, dp, sa, da, v. by rewrite Ht.
    - exists (sde_src_port stale), (sde_dst_port stale), (sde_src_addr stale),
        (sde_dst_addr stale), 0. done. }
  destruct Hev as (sp & dp & sa & da & v & E & Ht). clearbody event'. rewrite Hs.
  split; try (by rewrite E); [exact Ht|].
  cbn. rewrite (Hb capture_len) by lia. cbn [snd].
  rewrite take_app_le by (rewrite length_take; lia). rewrite take_take.
  unfold capture_len. rewrite Nat.min_id.
  destruct (Z.le_ge_cases (Z.of_nat (length bs)) MAX_DATA_SIZE_OPENSSL).
  - rewrite Z.min_l by done. rewrite !take_ge by lia. done.
  - by rewrite Z.min_r by done.
Qed.

(** One event is appended, unless there is no data or no room. *)
Lemma wp_generate cpu user task stale pid_tgid ssl_type direction buf bs conn
    (Q : unit → world → Prop) w :
  world_wf w -> holds_bytes user buf bs -> bs <> [] ->
  (∀ ts ev w', clock w <= ts <= clock w' ->
     ssl_recorded task pid_tgid ssl_type direction conn (ssl_binding cpu w conn pid_tgid) bs ts ev ->
     ring_set ssl_data_event_map
       (w_ring w ssl_data_event_map ++ [Committed (ev : payload ssl_data_event_map)]) w w' ->
     Q tt w') ->
  (∀ w', (k_reserve ssl_data_event_map (w_kst w)).1 = false -> unchanged w w' -> Q tt w') ->
  wp cpu (generate_SSL_data_event user task stale pid_tgid ssl_type direction TLS_SOURCE_OPENSSL buf
            (Z.of_nat (length bs)) conn) Q w.
Proof.
  intros Hw Hb Hne HQ HN. unfold generate_SSL_data_event.
  assert (Hlen : 0 < Z.of_nat (length bs)) by (destruct bs; cbn; [done|lia]).
  rewrite (proj2 (Z.leb_gt _ _)) by done.
  apply wp_bind, wp_reserve_room.
  2: { intros w' Hr Hu. by apply wp_ret, HN. }
  intros w1 Hr. apply wp_bind, wp_ktime. intros ts w2 Hu _ Hts.
  assert (Hr2 : ring_set ssl_data_event_map (w_ring w ssl_data_event_map ++ [Busy]) w w2)
    by by eapply ring_set_unchanged.
  assert (Hfd : ssl_binding cpu w2 conn pid_tgid = ssl_binding cpu w conn pid_tgid)
    by (unfold ssl_binding; by rewrite (elem_ext cpu ssl_fd_map w w2) by apply Hr2).
  apply wp_bind, wp_bound_fd. rewrite Hfd. apply wp_submit. intros w3 Hs.
  set (fd := ssl_binding cpu w conn pid_tgid) in *.
  assert (Hcl : clock w <= ts <= clock w3).
  { pose proof (rs_clock _ _ _ _ Hr). pose proof (rs_clock _ _ _ _ Hs).
    pose proof (unch_clock _ _ Hu). lia. }
  eapply (HQ ts); [exact Hcl| |by eapply ring_set_append].
  rewrite capture_len_eq. by apply ssl_event_recorded.
Qed.

(** ** Safety and footprint *)

Lemma ssl_socket_tuple_ok task fd ev :
  wf_task task -> wf_ssl_data_event_t ev -> sde_tuple_valid ev = 0 ->
  wf_ssl_data_event_t (ssl_socket_tuple task fd ev).
Proof.
  intros Ht Hev Hv. pose proof Hev as (? & ? & ? & ? & ? & ? & ? & ? & ? & ? & ? & ? & ? & ?).
  assert (Hmap : ∀ l, is_bytes 4 l -> is_bytes 16 (zero_bytes 10 ++ [0xff; 0xff] ++ l))
    by exact mapped_bytes.
  unfold ssl_socket_tuple. specialize (Ht fd). unfold task_sock in Ht.
  destruct (fd <? 0) eqn:E0; [done|]. bool_to_prop.
  destruct task as [fdt|]; [|done].
  cbn [mbind option_bind] in Ht. rewrite (proj2 (Z.leb_le _ _)) in Ht by done.
  rewrite (Z.ltb_antisym (fdt_max_fds fdt) (u32 fd)) in Ht.
  destruct (fdt_max_fds fdt <=? u32 fd); [done|].
  cbn [negb andb] in Ht.
  destruct (mjoin _) as [file|]; [|done].
  cbn [mbind option_bind] in Ht.
  destruct (_ =? S_IFSOCK); [|done]. cbn [negb].
  destruct (f_private_data file) as [socket|]; [|done].
  cbn [mbind option_bind] in Ht.
  destruct (so_type socket =? SOCK_STREAM); [|done]. cbn [negb].
  destruct (so_sk socket) as [sk|]; [|done].
  destruct (Ht sk eq_refl) as (? & ? & ? & ? & ? & ?).
  assert (is_u16 (bpf_ntohs (sk_dport sk))) by by apply bpf_ntohs_range.
  cbv zeta. repeat case_match; unfold wf_ssl_data_event_t; cbn -[zero_bytes app]; splits; try done; auto; lia.
Qed.

Lemma generate_safe user task stale pid_tgid ssl_type direction tls_source buf len conn :
  user_ok user -> wf_task task -> wf_ssl_data_event_t stale -> is_u64 pid_tgid -> is_u8 ssl_type ->
  is_u8 direction -> is_u8 tls_source -> is_u64 conn ->
  safe (λ _, True)
    (generate_SSL_data_event user task stale pid_tgid ssl_type direction tls_source buf len conn).
Proof.
  intros Hu Ht (? & ? & ? & ? & ? & ? & ? & ? & ? & ? & ? & ? & ? & [Hdl Hdu]) Hp Hty Hd Hs Hc.
  unfold generate_SSL_data_event. destruct (len <=? 0) eqn:E; bool_to_prop; [done|].
  apply safe_bind, safe_call; [done|]. intros [i|] _; [|done].
  apply safe_bind, safe_call; [done|]. intros ts Hts. apply safe_bind.
  assert (Hb : safe (λ o, ∀ fd, o = Some fd -> is_s32 fd) (bound_fd tls_source conn pid_tgid)).
  { unfold bound_fd. case_match; [|done]. apply safe_bind, safe_call; [done|].
    intros [p|] _; [|done]. apply safe_bind, safe_call; [done|]. intros fd Hfd. cbn in Hfd.
    case_match; [|done]. by intros fd' [= <-]. }
  eapply safe_mono; [exact Hb|]. intros fd Hfd. apply safe_call; [|done].
  set (ev := match fd with Some _ => _ | None => _ end).
  assert (Hev : wf_ssl_data_event_t ev).
  { assert (is_s32 (-1)) by (width; lia). unfold ev. destruct fd as [fd|].
    - specialize (Hfd fd eq_refl). apply ssl_socket_tuple_ok; [done| |done].
      unfold wf_ssl_data_event_t. cbn -[Z.le Z.lt is_bytes]. splits; try done; lia.
    - unfold wf_ssl_data_event_t. cbn -[Z.le Z.lt is_bytes]. splits; try done; lia. }
  clearbody ev. destruct Hev as (? & ? & ? & ? & ? & ? & ? & ? & ? & ? & ? & ? & ? & [Hel Heu]).
  rewrite capture_len_eq. set (n := Z.min len MAX_DATA_SIZE_OPENSSL).
  assert (Hn : 0 <= n <= MAX_DATA_SIZE_OPENSSL) by (unfold n, MAX_DATA_SIZE_OPENSSL; lia).
  clearbody n. destruct (Hu buf n) as [Hul Huu]; [lia|].
  cbn [helper_ok wf_payload]. unfold wf_ssl_data_event_t. cbn -[Z.le Z.lt is_bytes]. splits; try done.
  - rewrite s32_small by (unfold MAX_DATA_SIZE_OPENSSL in Hn; lia). lia.
  - rewrite s32_small by (unfold MAX_DATA_SIZE_OPENSSL in Hn; lia). lia.
  - split; [rewrite length_app, length_drop; lia|].
    apply Forall_app. split; [done|by apply Forall_drop].
Qed.

Lemma openssl_ssl_type_u8 user ssl : is_u8 (openssl_ssl_type user ssl).
Proof.
  unfold openssl_ssl_type. destruct (user ssl 4) as [err raw].
  case_match; [apply zero_u8|apply u8_range].
Qed.

Lemma generate_writes ms rs user task stale pid_tgid ssl_type direction tls_source buf len conn :
  ssl_data_event_map ∈ rs ->
  writes ms rs
    (generate_SSL_data_event user task stale pid_tgid ssl_type direction tls_source buf len conn).
Proof.
  intros Hr. unfold generate_SSL_data_event. case_match; [done|].
  apply writes_bind; [by apply writes_call|]. intros [i|]; [|done].
  apply writes_bind; [done|]. intros ts. apply writes_bind.
  - unfold bound_fd. case_match; [|done]. apply writes_bind; [done|]. intros [p|]; [|done].
    by apply writes_bind.
  - intros fd. by apply writes_call.
Qed.
End SslOk.

(** ** The probes as operations of one type *)

(** A call of a probe, with the registers it reads and the memory it finds. *)
Inductive ssl_op :=
  | OpSetFd (pid_tgid ssl parm2 : Z)
  | OpSetFdRet (pid_tgid rc : Z)
  | OpFree (pid_tgid ssl : Z)
  | OpWrite (user : Z → Z → Z * list Z) (task : task_files) (stale : ssl_data_event_t)
      (pid_tgid ssl buf parm3 : Z)
  | OpRead (user : Z → Z → Z * list Z) (pid_tgid ssl buf : Z)
  | OpReadRet (user : Z → Z → Z * list Z) (task : task_files) (stale : ssl_data_event_t)
      (pid_tgid rc : Z).

Definition ssl_prog `{Host} (cfg : config) (op : ssl_op) : prog Z :=
  match op with
  | OpSetFd pid_tgid ssl parm2 => probe_entry_SSL_set_fd cfg pid_tgid ssl parm2
  | OpSetFdRet pid_tgid rc => probe_ret_SSL_set_fd pid_tgid rc
  | OpFree pid_tgid ssl => probe_entry_SSL_free pid_tgid ssl
  | OpWrite user task stale pid_tgid ssl buf parm3 =>
      probe_entry_SSL_write cfg user task stale pid_tgid ssl buf parm3
  | OpRead user pid_tgid ssl buf => probe_entry_SSL_read cfg user pid_tgid ssl buf
  | OpReadRet user task stale pid_tgid rc => probe_ret_SSL_read cfg user task stale pid_tgid rc
  end.

(** Registers are 64-bit, and memory is bytes. *)
Definition wf_ssl_op (op : ssl_op) : Prop :=
  match op with
  | OpSetFd pid_tgid ssl _ | OpFree pid_tgid ssl => is_u64 pid_tgid /\ is_u64 ssl
  | OpSetFdRet pid_tgid _ => is_u64 pid_tgid
  | OpWrite user task stale pid_tgid ssl _ _ =>
      user_ok user /\ wf_task task /\ wf_ssl_data_event_t stale /\ is_u64 pid_tgid /\ is_u64 ssl
  | OpRead user pid_tgid ssl buf => user_ok user /\ is_u64 pid_tgid /\ is_u64 ssl /\ is_u64 buf
  | OpReadRet user task stale pid_tgid _ =>
      user_ok user /\ wf_task task /\ wf_ssl_data_event_t stale /\ is_u64 pid_tgid
  end.

Lemma tgid_u32 pid_tgid : is_u32 (tgid_of pid_tgid).
Proof. apply u32_range. Qed.

Lemma ssl_prog_safe `{Host} cfg op : wf_ssl_op op -> safe (λ r, r = 0) (ssl_prog cfg op).
Proof.
  destruct op as [pid ssl p2|pid rc|pid ssl|user task stale pid ssl buf p3|user pid ssl buf
                 |user task stale pid rc]; cbn [ssl_prog wf_ssl_op].
  - intros [Hp Hs]. unfold probe_entry_SSL_set_fd. case_match; [done|]. cbv zeta.
    case_match; [done|]. apply safe_bind, safe_call; [done|]. intros r _.
    apply safe_bind, safe_call; [|done]. cbn. unfold wf_ssl_fd_pending_t. cbn.
    split; [done|]. split; [apply tgid_u32|apply s32_range].
  - intros Hp. apply safe_bind, safe_call; [done|]. intros [p|] _; [|done].
    apply safe_bind, safe_call; [done|]. intros binding (_ & _ & Hfd).
    apply safe_bind, safe_call; [done|]. intros r _. apply safe_bind.
    case_match; [|done]. by apply safe_call.
  - intros [Hp Hs]. by apply safe_bind, safe_call.
  - intros (Hu & Ht & Hst & Hp & Hs). unfold probe_entry_SSL_write. case_match; [done|].
    cbv zeta. case_match; [|done]. apply safe_bind.
    eapply safe_mono; [apply generate_safe|done]; try done. apply openssl_ssl_type_u8.
  - intros (Hu & Hp & Hs & Hb). unfold probe_entry_SSL_read. case_match; [done|].
    apply safe_bind, safe_call; [|done]. cbn. unfold wf_ssl_read_active_t. cbn.
    split; [apply openssl_ssl_type_u8|done].
  - intros (Hu & Ht & Hst & Hp). unfold probe_ret_SSL_read. case_match; [done|].
    apply safe_bind, safe_call; [done|]. intros [p|] _; [|done]. cbv zeta.
    apply safe_bind, safe_call; [done|]. intros active (Hty & Hb & Hc).
    apply safe_bind, safe_call; [done|]. intros r _. case_match; [done|].
    apply safe_bind. eapply safe_mono; [by apply generate_safe|done].
Qed.

(** ** The data of a connection *)

Section Data.
Context {H : Host} {K : Kernel} {KL : KernelLaws K}.
Implicit Types w : world.

(** Neither the maps nor the ring buffer of the SSL events are full. *)
Definition ssl_room : Prop :=
  (∀ idx k st, ∃ ev, (k_admit ssl_read_active_map idx k st).1 = Accept ev) /\
  (∀ st, (k_reserve ssl_data_event_map st).1 = true).

(** The event that follows the others. *)
Definition event_appended task pid_tgid ssl_type direction conn fd bs (w w' : world) : Prop :=
  ∃ ts ev, clock w <= ts <= clock w' /\
    ssl_recorded task pid_tgid ssl_type direction conn fd bs ts ev /\
    w_ring w' ssl_data_event_map
    = w_ring w ssl_data_event_map ++ [Committed (ev : payload ssl_data_event_map)].

Lemma wp_ssl_write cpu cfg user task stale pid_tgid ssl buf parm3 bs (Q : Z → world → Prop) w :
  world_wf w -> ssl_room -> enable_openssl_tracking cfg <> 0 -> buf <> 0 -> bs <> [] ->
  u32 parm3 = Z.of_nat (length bs) -> holds_bytes user buf bs ->
  (∀ w', event_appended task pid_tgid (openssl_ssl_type user ssl) SSL_DIRECTION_WRITE ssl
     (ssl_binding cpu w ssl pid_tgid) bs w w' -> (∀ m, w_map w' m = w_map w m) -> Q 0 w') ->
  wp cpu (probe_entry_SSL_write cfg user task stale pid_tgid ssl buf parm3) Q w.
Proof.
  intros Hw [_ Hroom] He Hbuf Hne Hn Hb HQ. unfold probe_entry_SSL_write.
  assert (Hlen : 0 < Z.of_nat (length bs)) by (destruct bs; cbn; [done|lia]).
  rewrite Hn, (proj2 (Z.eqb_neq _ 0)), (proj2 (Z.ltb_lt _ _)), (proj2 (Z.eqb_neq buf 0)) by done.
  cbn [negb andb]. apply wp_bind, wp_generate; [done..| |].
  - intros ts ev w' Hts Hrec Hr. apply wp_ret, HQ; [|apply Hr].
    exists ts, ev. split_and!; [lia|lia|done|apply Hr].
  - intros w' Hf. by rewrite Hroom in Hf.
Qed.

(** The entry of [SSL_read] leaves the buffer for the return. *)
Lemma wp_ssl_read_entry cpu cfg user pid_tgid ssl buf (Q : Z → world → Prop) w :
  world_wf w -> ssl_room -> enable_openssl_tracking cfg <> 0 ->
  (∀ w', replaced ssl_read_active_map pid_tgid
     (mk_ssl_read_active_t (openssl_ssl_type user ssl) buf ssl) w w' -> Q 0 w') ->
  wp cpu (probe_entry_SSL_read cfg user pid_tgid ssl buf) Q w.
Proof.
  intros Hw [Hroom _] He HQ. unfold probe_entry_SSL_read.
  rewrite (proj2 (Z.eqb_neq _ 0)) by done.
  apply wp_bind, wp_update_any; [done..|intros w' Hr; by apply wp_ret, HQ|].
  intros e w' Hf. destruct (Hroom (st_index (w_map w ssl_read_active_map)) pid_tgid (w_kst w)) as [ev Ha].
  by rewrite Ha in Hf.
Qed.

(** The return sends what was read, if something was, and forgets the call. *)
Lemma wp_ssl_read_ret cpu cfg user task stale pid_tgid rc active bs (Q : Z → world → Prop) w :
  world_wf w -> ssl_room -> enable_openssl_tracking cfg <> 0 ->
  elem cpu ssl_read_active_map w pid_tgid = Some active ->
  s32 rc = Z.of_nat (length bs) -> holds_bytes user (sra_buf_user active) bs ->
  (∀ w', elem cpu ssl_read_active_map w' pid_tgid = None ->
     (if decide (bs <> [] /\ sra_buf_user active <> 0) then
        event_appended task pid_tgid (sra_ssl_type active) SSL_DIRECTION_READ
          (sra_conn_user_ptr active) (ssl_binding cpu w (sra_conn_user_ptr active) pid_tgid) bs w w'
      else ∀ r, w_ring w' r = w_ring w r) -> Q 0 w') ->
  wp cpu (probe_ret_SSL_read cfg user task stale pid_tgid rc) Q w.
Proof.
  intros Hw [_ Hroom] He Ha Hrc Hb HQ. unfold probe_ret_SSL_read.
  rewrite (proj2 (Z.eqb_neq _ 0)) by done.
  apply wp_bind, wp_lookup; [done|intros Hn; by rewrite Hn in Ha|].
  intros p v Hv Hat. rewrite Ha in Hv. injection Hv as <-. cbv zeta.
  apply wp_bind, (wp_read _ _ _ _ _ _ _ Hat).
  apply wp_bind, wp_delete_any; [done..|]. intros r w1 Hd. rewrite Hrc.
  assert (Hret : Z.of_nat (length bs) < 2 ^ 31) by (rewrite <- Hrc; apply s32_range).
  destruct (decide _) as [[Hne Hbuf]|Hno].
  - assert (Hlen : 0 < Z.of_nat (length bs)) by (destruct bs; cbn; [done|lia]).
    rewrite (proj2 (Z.leb_gt _ _)), (proj2 (Z.eqb_neq (sra_buf_user active) 0)) by done. cbn [orb].
    rewrite u32_small by (unfold is_u32; lia).
    apply wp_bind, wp_generate; [apply Hd|done|done| |intros w' Hf; by rewrite Hroom in Hf].
    intros ts ev w' Hts Hrec Hr. pose proof (del_clock _ _ _ _ Hd).
    apply wp_ret, HQ.
    + rewrite (elem_ext cpu ssl_read_active_map w1 w') by apply Hr. apply Hd.
    + exists ts, ev. split; [lia|]. split.
      * assert (E : ssl_binding cpu w1 (sra_conn_user_ptr active) pid_tgid
          = ssl_binding cpu w (sra_conn_user_ptr active) pid_tgid); [|by rewrite <- E].
        unfold ssl_binding. by rewrite (elem_ext cpu ssl_fd_map w w1) by by apply Hd.
      * rewrite (rs_ring _ _ _ _ Hr). by rewrite (del_rings _ _ _ _ Hd).
  - assert (E : (Z.of_nat (length bs) <=? 0) || (sra_buf_user active =? 0) = true).
    { apply orb_true_iff. rewrite Z.leb_le, Z.eqb_eq.
      destruct (decide (sra_buf_user active = 0)); [by right|left].
      destruct bs; [done|]. by destruct Hno. }
    rewrite E. apply wp_ret, HQ; apply Hd.
Qed.
End Data.
