(* ===== verification/SslBinding.v ===== *)
(** * The binding of TLS connections to descriptors

    Over any sequence of calls of the OpenSSL probes, by any threads on any CPUs,
    what the maps say about the descriptor of a connection stays backed by the
    calls: [ssl_step] is an abstract machine that may lose knowledge but never
    makes any up, the probes refine it ([ssl_refines]), and its invariant
    ([ssl_trace_sound]) carries over to the programs. *)
From stdpp Require Import functions.
From S2P Require Import Prelude Machine Types Kernel Maps Safety Ssl.

(** ** The abstract machine *)

(** What is known: the bindings, and the calls of [SSL_set_fd] under way. *)
Record ssl_view := mk_ssl_view {
  sv_bound : ssl_fd_key_t → option Z;
  sv_pending : Z → option ssl_fd_pending_t;
}.

(** Knowledge may be lost at any time: the maps evict, and refuse. *)
Definition lost {A B} (f f' : A → option B) : Prop := ∀ k v, f' k = Some v -> f k = Some v.

Definition sets_fd (cfg : config) (ssl parm2 : Z) : Prop :=
  enable_openssl_tracking cfg <> 0 /\ ssl <> 0 /\ 0 <= s32 parm2.

(** Only a successful return of [SSL_set_fd] binds, to the descriptor of its
    call; a new call and [SSL_free] unbind at once. *)
Inductive ssl_step (cfg : config) : ssl_op → ssl_view → ssl_view → Prop :=
  | StepSetFd pid ssl p2 v v' :
      sets_fd cfg ssl p2 ->
      lost (<[ssl_key ssl pid := None]> (sv_bound v)) (sv_bound v') ->
      lost (<[pid := Some (mk_ssl_fd_pending_t (ssl_key ssl pid) (s32 p2))]> (sv_pending v))
        (sv_pending v') \/ lost (sv_pending v) (sv_pending v') ->
      ssl_step cfg (OpSetFd pid ssl p2) v v'
  | StepBind pid binding v v' :
      sv_pending v pid = Some binding ->
      lost (<[sfp_key binding := Some (sfp_fd binding)]> (sv_bound v)) (sv_bound v') ->
      lost (<[pid := None]> (sv_pending v)) (sv_pending v') ->
      ssl_step cfg (OpSetFdRet pid 1) v v'
  | StepFail pid rc v v' :
      lost (sv_bound v) (sv_bound v') -> lost (<[pid := None]> (sv_pending v)) (sv_pending v') ->
      ssl_step cfg (OpSetFdRet pid rc) v v'
  | StepFree pid ssl v v' :
      lost (<[ssl_key ssl pid := None]> (sv_bound v)) (sv_bound v') ->
      lost (sv_pending v) (sv_pending v') ->
      ssl_step cfg (OpFree pid ssl) v v'
  | StepOther op v v' :
      match op with
      | OpSetFd _ ssl p2 => ~ sets_fd cfg ssl p2
      | OpSetFdRet _ _ | OpFree _ _ => False
      | _ => True
      end ->
      lost (sv_bound v) (sv_bound v') -> lost (sv_pending v) (sv_pending v') ->
      ssl_step cfg op v v'.

(** The views of a sequence of operations, last one first. *)
Inductive ssl_trace (cfg : config) : list ssl_op → ssl_view → Prop :=
  | TraceNil v : (∀ k, sv_bound v k = None) -> (∀ p, sv_pending v p = None) -> ssl_trace cfg [] v
  | TraceStep tr op v v' :
      ssl_trace cfg tr v -> ssl_step cfg op v v' -> ssl_trace cfg (op :: tr) v'.

(** The operation takes away the binding of [key]. *)
Definition revokes cfg (key : ssl_fd_key_t) (op : ssl_op) : Prop :=
  match op with
  | OpSetFd pid ssl p2 => ssl_key ssl pid = key /\ sets_fd cfg ssl p2
  | OpFree pid ssl => ssl_key ssl pid = key
  | _ => False
  end.

Definition returns_in (pid : Z) (op : ssl_op) : Prop :=
  match op with OpSetFdRet pid' _ => pid' = pid | _ => False end.

(** [SSL_set_fd] was called with this connection and descriptor by a thread
    that has not returned from it (last operation first). *)
Definition called cfg (tr : list ssl_op) (pid : Z) (key : ssl_fd_key_t) (fd : Z) : Prop :=
  ∃ after before ssl p2, tr = after ++ OpSetFd pid ssl p2 :: before /\
    key = ssl_key ssl pid /\ fd = s32 p2 /\ sets_fd cfg ssl p2 /\
    Forall (λ op, ~ returns_in pid op) after.

(** Such a call returned with success, and nothing has revoked the binding
    since. *)
Definition committed cfg (tr : list ssl_op) (key : ssl_fd_key_t) (fd : Z) : Prop :=
  ∃ after before pid, tr = after ++ OpSetFdRet pid 1 :: before /\
    called cfg before pid key fd /\ Forall (λ op, ~ revokes cfg key op) after.

Lemma called_cons cfg tr op pid key fd :
  ~ returns_in pid op -> called cfg tr pid key fd -> called cfg (op :: tr) pid key fd.
Proof.
  intros Hop (after & before & ssl & p2 & -> & ? & ? & ? & ?).
  exists (op :: after), before, ssl, p2. split_and!; try done. by constructor.
Qed.

Lemma committed_cons cfg tr op key fd :
  ~ revokes cfg key op -> committed cfg tr key fd -> committed cfg (op :: tr) key fd.
Proof.
  intros Hop (after & before & pid & -> & ? & ?).
  exists (op :: after), before, pid. split_and!; try done. by constructor.
Qed.

Lemma fn_insert_Some {A B} `{EqDecision A} (f : A → option B) k o k' v :
  <[k := o]> f k' = Some v -> (k' = k /\ o = Some v) \/ (k' <> k /\ f k' = Some v).
Proof.
  destruct (decide (k' = k)) as [->|].
  - rewrite fn_lookup_insert. by left.
  - rewrite fn_lookup_insert_ne by done. by right.
Qed.

(** What the abstract machine knows is always backed by the operations. *)
Lemma ssl_trace_sound cfg tr v :
  ssl_trace cfg tr v ->
  (∀ key fd, sv_bound v key = Some fd -> committed cfg tr key fd) /\
  (∀ pid b, sv_pending v pid = Some b -> called cfg tr pid (sfp_key b) (sfp_fd b)).
Proof.
  induction 1 as [v Hb Hp|tr op v v' Htr [IHb IHp] Hstep].
  { split; [intros key fd; by rewrite Hb|intros pid b; by rewrite Hp]. }
  destruct Hstep as [pid ssl p2 v v' Hs Hb Hp|pid binding v v' Hpend Hb Hp|pid rc v v' Hb Hp
    |pid ssl v v' Hb Hp|op v v' Hop Hb Hp].
  - split.
    + intros key fd [[_ [=]]|[Hne Hk]]%Hb%fn_insert_Some. apply committed_cons; [|auto].
      cbn. intros [E _]. congruence.
    + intros pid' b Hk. assert (Hk' : (pid' = pid /\ b = mk_ssl_fd_pending_t (ssl_key ssl pid) (s32 p2))
        \/ sv_pending v pid' = Some b).
      { destruct Hp as [Hp|Hp]; [|right; by apply Hp].
        apply Hp, fn_insert_Some in Hk as [[-> [= <-]]|[_ Hk]]; [by left|by right]. }
      destruct Hk' as [[-> ->]|Hk']; [|by apply called_cons; [intros []|apply IHp]].
      exists [], tr, ssl, p2. by split_and!.
  - split.
    + intros key fd [[-> [= <-]]|[Hne Hk]]%Hb%fn_insert_Some.
      * exists [], tr, pid. split_and!; [done|by apply IHp|done].
      * apply committed_cons; [intros []|auto].
    + intros pid' b [[_ [=]]|[Hne Hk]]%Hp%fn_insert_Some. apply called_cons; [|auto].
      cbn. congruence.
  - split.
    + intros key fd Hk%Hb. apply committed_cons; [intros []|auto].
    + intros pid' b [[_ [=]]|[Hne Hk]]%Hp%fn_insert_Some. apply called_cons; [|auto].
      cbn. congruence.
  - split.
    + intros key fd [[_ [=]]|[Hne Hk]]%Hb%fn_insert_Some. apply committed_cons; [|auto].
      cbn. congruence.
    + intros pid' b Hk%Hp. by apply called_cons; [intros []|apply IHp].
  - split.
    + intros key fd Hk%Hb. apply committed_cons; [|auto].
      destruct op; cbn; tauto.
    + intros pid' b Hk%Hp. apply called_cons; [|auto]. destruct op; cbn in *; tauto.
Qed.

(** ** The probes refine the abstract machine *)

Section Refine.
Context {H : Host} {K : Kernel} {KL : KernelLaws K}.
Implicit Types w : world.

Definition ssl_view_of (w : world) : ssl_view :=
  mk_ssl_view (elem 0 ssl_fd_map w) (elem 0 ssl_fd_pending_map w).

Lemma lost_refl {A B} (f f' : A → option B) : (∀ k, f' k = f k) -> lost f f'.
Proof. intros Hf k v. by rewrite Hf. Qed.

Lemma lost_map m w w' : w_map w' m = w_map w m -> lost (elem 0 m w) (elem 0 m w').
Proof. intros E. apply lost_refl. intros k. by apply elem_ext. Qed.

Lemma lost_deleted m k w w' : deleted m k w w' -> lost (<[k := None]> (elem 0 m w)) (elem 0 m w').
Proof.
  intros Hd k' v Hv. destruct (decide (k' = k)) as [->|Hne].
  - by rewrite (del_elem _ _ _ _ Hd) in Hv.
  - rewrite fn_lookup_insert_ne by done. by rewrite <- (del_others _ _ _ _ Hd).
Qed.

Lemma lost_replaced m k u w w' :
  replaced m k u w w' -> lost (<[k := Some u]> (elem 0 m w)) (elem 0 m w').
Proof.
  intros Hr k' v Hv. destruct (decide (k' = k)) as [->|Hne].
  - rewrite fn_lookup_insert. by rewrite (rep_elem _ _ _ _ _ Hr) in Hv.
  - rewrite fn_lookup_insert_ne by done.
    destruct (rep_others _ _ _ _ _ Hr 0 k' Hne) as [E|[_ E]]; congruence.
Qed.

Lemma set_fd_refines cpu cfg pid ssl p2 w :
  world_wf w ->
  wp cpu (probe_entry_SSL_set_fd cfg pid ssl p2)
    (λ _ w', ssl_step cfg (OpSetFd pid ssl p2) (ssl_view_of w) (ssl_view_of w')) w.
Proof.
  intros Hw. unfold probe_entry_SSL_set_fd.
  assert (Hskip : ~ sets_fd cfg ssl p2 ->
    ssl_step cfg (OpSetFd pid ssl p2) (ssl_view_of w) (ssl_view_of w))
    by (intros Hn; by apply StepOther; [|apply lost_refl|apply lost_refl]).
  destruct (enable_openssl_tracking cfg =? 0) eqn:Ee; bool_to_prop.
  { apply wp_ret, Hskip. by intros [? _]. }
  cbv zeta. destruct (ssl =? 0) eqn:Es; cbn [orb].
  { bool_to_prop. apply wp_ret, Hskip. by intros (_ & ? & _). }
  destruct (s32 p2 <? 0) eqn:Ef; bool_to_prop.
  { apply wp_ret, Hskip. intros (_ & _ & ?). lia. }
  apply wp_bind, wp_delete_any; [done..|]. intros r w1 Hd.
  apply wp_bind, wp_update_any; [apply Hd|done|done|intros w2 Hr|intros e w2 _ Hu];
    apply wp_ret, StepSetFd; try done; cbn [ssl_view_of sv_bound sv_pending].
  - intros k v Hv. apply (lost_deleted _ _ _ _ Hd). by rewrite <- (elem_ext 0 ssl_fd_map w1 w2) by by apply Hr.
  - left. intros k v Hv%(lost_replaced _ _ _ _ _ Hr).
    apply fn_insert_Some in Hv as [[-> [= <-]]|[Hne Hv]]; [by rewrite fn_lookup_insert|].
    rewrite fn_lookup_insert_ne by done. by rewrite <- (elem_ext 0 _ w w1) by by apply Hd.
  - intros k v Hv. apply (lost_deleted _ _ _ _ Hd). by rewrite <- (elem_ext 0 ssl_fd_map w1 w2) by apply Hu.
  - right. apply (lost_map ssl_fd_pending_map). rewrite (unch_map _ _ Hu). by apply Hd.
Qed.

Lemma set_fd_ret_refines cpu cfg pid rc w :
  world_wf w ->
  wp cpu (probe_ret_SSL_set_fd pid rc)
    (λ _ w', ssl_step cfg (OpSetFdRet pid rc) (ssl_view_of w) (ssl_view_of w')) w.
Proof.
  intros Hw. apply wp_bind, wp_lookup; [done|intros Hn|intros p binding Hv Hat].
  { apply wp_ret, StepFail; [by apply (lost_map ssl_fd_map)|]. intros k v Hk.
    destruct (decide (k = pid)) as [->|Hne]; [|by rewrite fn_lookup_insert_ne].
    by pose proof (eq_trans (eq_sym Hn) Hk). }
  apply wp_bind, (wp_read _ _ _ _ _ _ _ Hat).
  apply wp_bind, wp_delete_any; [done..|]. intros r w1 Hd. apply wp_bind.
  assert (Hfail : ∀ w2, unchanged w1 w2 -> ssl_step cfg (OpSetFdRet pid rc) (ssl_view_of w) (ssl_view_of w2)).
  { intros w2 Hu. apply StepFail.
    - apply (lost_map ssl_fd_map). rewrite (unch_map _ _ Hu). by apply Hd.
    - intros k v Hk. apply (lost_deleted _ _ _ _ Hd).
      by rewrite <- (elem_ext 0 ssl_fd_pending_map w1 w2) by apply Hu. }
  destruct (rc =? 1) eqn:Er; bool_to_prop; [subst rc|by apply wp_ret, wp_ret, Hfail, unchanged_refl].
  apply wp_update_any; [apply Hd|done|done|intros w2 Hr|intros e w2 _ Hu; by apply wp_ret, Hfail].
  apply wp_ret, (StepBind _ _ binding); [exact Hv| |].
  - intros k v Hk%(lost_replaced _ _ _ _ _ Hr).
    apply fn_insert_Some in Hk as [[-> [= <-]]|[Hne Hk]]; [by rewrite fn_lookup_insert|].
    rewrite fn_lookup_insert_ne by done. change (elem 0 ssl_fd_map w k = Some v).
    by rewrite <- (elem_ext 0 ssl_fd_map w w1) by by apply Hd.
  - intros k v Hk. apply (lost_deleted _ _ _ _ Hd).
    by rewrite <- (elem_ext 0 ssl_fd_pending_map w1 w2) by by apply Hr.
Qed.

Lemma free_refines cpu cfg pid ssl w :
  world_wf w ->
  wp cpu (probe_entry_SSL_free pid ssl)
    (λ _ w', ssl_step cfg (OpFree pid ssl) (ssl_view_of w) (ssl_view_of w')) w.
Proof.
  intros Hw. apply wp_bind, wp_delete_any; [done..|]. intros r w1 Hd.
  apply wp_ret, StepFree; [by apply (lost_deleted ssl_fd_map)|]. apply (lost_map ssl_fd_pending_map). by apply Hd.
Qed.

(** The probes of the data leave the bindings alone. *)
Lemma data_probes_writes cfg op :
  match op with OpWrite _ _ _ _ _ _ _ | OpRead _ _ _ _ | OpReadRet _ _ _ _ _ => True | _ => False end ->
  writes [ssl_read_active_map] [ssl_data_event_map] (ssl_prog cfg op).
Proof.
  destruct op; cbn [ssl_prog]; try done; intros _.
  - unfold probe_entry_SSL_write. case_match; [done|]. cbv zeta. case_match; [|done].
    apply writes_bind; [|done]. apply generate_writes, list_elem_of_here.
  - unfold probe_entry_SSL_read. case_match; [done|].
    apply writes_bind; [|done]. apply writes_call, list_elem_of_here.
  - unfold probe_ret_SSL_read. case_match; [done|]. apply writes_bind; [done|].
    intros [p|]; [|done]. apply writes_bind; [done|]. intros active.
    apply writes_bind; [apply writes_call, list_elem_of_here|]. intros r. case_match; [done|].
    apply writes_bind; [|done]. apply generate_writes, list_elem_of_here.
Qed.

Lemma ssl_refines cpu cfg op w :
  world_wf w -> typed w -> wf_ssl_op op ->
  wp cpu (ssl_prog cfg op)
    (λ r w', r = 0 /\ ssl_step cfg op (ssl_view_of w) (ssl_view_of w') /\ typed w' /\ world_wf w') w.
Proof.
  intros Hw Ht Hop.
  assert (Hstep : wp cpu (ssl_prog cfg op)
    (λ _ w', ssl_step cfg op (ssl_view_of w) (ssl_view_of w')) w).
  { destruct op; [by apply set_fd_refines|by apply set_fd_ret_refines|by apply free_refines|..];
      (eapply wp_framed; [by apply ssl_prog_safe|by apply data_probes_writes|done|done|];
       intros r w' _ Hf; apply StepOther; [done|apply (lost_map ssl_fd_map)|apply (lost_map ssl_fd_pending_map)]; apply Hf;
       rewrite list_elem_of_singleton; done). }
  pose proof (wp_safe cpu _ _ _ (ssl_prog_safe cfg op Hop) Ht) as Hs.
  pose proof (wp_and_run _ _ _ world_wf _ (wp_conj _ _ _ _ _ Hstep Hs) (run_wf _ _ _ Hw)) as Hall.
  eapply wp_mono; [exact Hall|]. intros r w' [[? [? ?]] ?]. done.
Qed.

(** Operations on any CPUs, one after the other. *)
Definition run_ssl cfg (tr : list (Z * ssl_op)) w : world :=
  foldr (λ o w, (run o.1 (ssl_prog cfg o.2) w).2) w tr.

Lemma run_ssl_trace cfg tr w :
  world_wf w -> typed w -> Forall wf_ssl_op tr.*2 ->
  (∀ key, elem 0 ssl_fd_map w key = None) -> (∀ pid, elem 0 ssl_fd_pending_map w pid = None) ->
  ssl_trace cfg tr.*2 (ssl_view_of (run_ssl cfg tr w)) /\
  world_wf (run_ssl cfg tr w) /\ typed (run_ssl cfg tr w).
Proof.
  intros Hw Ht Hops Hb Hp. induction tr as [|[cpu op] tr IH]; cbn in *.
  { split; [by apply TraceNil|done]. }
  apply list.Forall_cons_1 in Hops as [Hop Hops]. destruct (IH Hops) as (Htr & Hw' & Ht').
  destruct (wp_run _ _ _ _ (ssl_refines cpu cfg op _ Hw' Ht' Hop)) as (r & _ & _ & Hs & ? & ?).
  split; [by eapply TraceStep|done].
Qed.
End Refine.
