(* ===== verification/Concurrency.v ===== *)
(** * Programs on several CPUs

    A pool is a list of programs, each on its CPU, that share one world.  One
    step of the pool is one helper call of one of its programs: the calls are
    the only accesses to shared memory, and a section under the spin lock of a
    flow is one call.  The order of the steps is arbitrary.

    Safe programs stay safe in every interleaving, and every interleaving ends. *)
From stdpp Require Import relations.
From S2P Require Import Prelude Machine Types Kernel Maps Safety.

Section Pool.
Context {K : Kernel} {KL : KernelLaws K} {A : Type}.
Implicit Types w : world.

Definition pool : Type := list (Z * prog A).

(** The next helper call of a program. *)
Definition prog_step (cpu : Z) (p : prog A) (w : world) : option (prog A * world) :=
  match p with
  | Vis e k => let '(x, w') := helper_sem cpu e w in Some (k x, w')
  | _ => None
  end.

Inductive pool_step : pool * world → pool * world → Prop :=
  | pool_step_at i cpu p p' ps w w' :
      ps !! i = Some (cpu, p) -> prog_step cpu p w = Some (p', w') ->
      pool_step (ps, w) (<[i := (cpu, p')]> ps, w').

(** A schedule names the program of each step; programs that have ended are
    passed over. *)
Fixpoint run_schedule (s : list nat) (ps : pool) (w : world) : pool * world :=
  match s with
  | [] => (ps, w)
  | i :: s =>
      match (ps !! i) ≫= λ '(cpu, p), (λ '(p', w'), (cpu, p', w')) <$> prog_step cpu p w with
      | Some (cpu, p', w') => run_schedule s (<[i := (cpu, p')]> ps) w'
      | None => run_schedule s ps w
      end
  end.

Lemma run_schedule_steps s ps w : rtc pool_step (ps, w) (run_schedule s ps w).
Proof.
  revert ps w. induction s as [|i s IH]; intros ps w; cbn [run_schedule]; [done|].
  destruct (ps !! i) as [[cpu p]|] eqn:Ei; cbn [mbind option_bind]; [|apply IH].
  destruct (prog_step cpu p w) as [[p' w']|] eqn:Es; cbn [fmap option_fmap option_map]; [|apply IH].
  eapply rtc_l; [by econstructor|apply IH].
Qed.

Definition ended (ps : pool) : Prop := Forall (λ t, ∃ a, t.2 = Ret a) ps.

(** *** Safety *)

Definition pool_safe (Q : A → Prop) (ps : pool) : Prop := Forall (λ t, safe Q t.2) ps.

Lemma prog_step_safe Q cpu p w p' w' :
  safe Q p -> typed w -> world_wf w -> prog_step cpu p w = Some (p', w') ->
  safe Q p' /\ typed w' /\ world_wf w'.
Proof.
  destruct p as [a| |X e k]; cbn; [done..|]. intros [He Hk] Ht Hw.
  pose proof (helper_sem_ok cpu e w Ht He) as [Ha Ht'].
  pose proof (helper_sem_wf cpu e w Hw) as Hw'.
  destruct (helper_sem cpu e w) as [x w1]. intros [= <- <-]. split_and!; [by apply Hk|done..].
Qed.

Lemma pool_step_safe Q s s' :
  pool_step s s' -> pool_safe Q s.1 -> typed s.2 -> world_wf s.2 ->
  pool_safe Q s'.1 /\ typed s'.2 /\ world_wf s'.2.
Proof.
  intros [i cpu p p' ps w w' Hi Hp] Hs Ht Hw. cbn in *.
  pose proof (Forall_lookup_1 _ _ _ _ Hs Hi) as Hsp.
  destruct (prog_step_safe Q _ _ _ _ _ Hsp Ht Hw Hp) as (? & ? & ?).
  split_and!; [by apply Forall_insert|done..].
Qed.

Lemma pool_steps_safe Q s s' :
  rtc pool_step s s' -> pool_safe Q s.1 -> typed s.2 -> world_wf s.2 ->
  pool_safe Q s'.1 /\ typed s'.2 /\ world_wf s'.2.
Proof.
  induction 1 as [s|s1 s2 s3 H12 _ IH]; [done|]. intros Hs Ht Hw.
  destruct (pool_step_safe Q _ _ H12 Hs Ht Hw) as (? & ? & ?). by apply IH.
Qed.

(** A safe program that has not ended can take its next step. *)
Lemma safe_progress Q cpu p w :
  safe Q p -> (∃ a, p = Ret a /\ Q a) \/ is_Some (prog_step cpu p w).
Proof.
  destruct p as [a| |X e k]; cbn; [by left; eexists|done|]. intros _. right.
  destruct (helper_sem cpu e w). by eexists.
Qed.

Lemma pool_progress Q ps w :
  pool_safe Q ps -> (∃ s', pool_step (ps, w) s') \/ ended ps.
Proof.
  intros Hs. unfold ended.
  induction Hs as [|[cpu p] ps Hp Hs IH]; [by right|].
  destruct (safe_progress Q cpu p w Hp) as [(a & -> & _)|[[p' w'] Hst]].
  2: { left. eexists. by apply (pool_step_at 0 cpu p). }
  destruct IH as [[s' Hs']|He]; [left|right; by constructor; [eexists|]].
  inversion Hs' as [i cpu' p p' ps0 w0 w' Hi Hst]; subst.
  eexists. by apply (pool_step_at (S i) cpu' p).
Qed.

Lemma pool_ended_results (r : A) ps :
  pool_safe (λ a, a = r) ps -> ended ps -> Forall (λ t, t.2 = Ret r) ps.
Proof.
  intros Hs He. induction He as [|[cpu p] ps [a Ha] He IH]; [by constructor|].
  apply Forall_cons_iff in Hs as [Hp Hs]. cbn in *. subst p. constructor; [by rewrite <- Hp|].
  by apply IH.
Qed.

(** *** Termination: a step takes one program to a smaller tree *)

Definition smaller (p' p : prog A) : Prop :=
  match p with Vis _ k => ∃ x, p' = k x | _ => False end.

Lemma smaller_wf : well_founded smaller.
Proof.
  intros p. induction p as [a| |X e k IH]; constructor; intros p' Hp'; cbn in Hp'; [done..|].
  destruct Hp' as [x ->]. apply IH.
Qed.

(** One program of the pool becomes smaller. *)
Definition pool_smaller (ps' ps : pool) : Prop :=
  ∃ i cpu p p', ps !! i = Some (cpu, p) /\ smaller p' p /\ ps' = <[i := (cpu, p')]> ps.

Lemma pool_smaller_wf : well_founded pool_smaller.
Proof.
  intros ps. induction ps as [|[cpu p] ps IH].
  { constructor. intros ps' (i & ? & ? & ? & Hi & _). done. }
  revert ps IH. induction (smaller_wf p) as [p _ IHp]. intros ps Hps.
  pose proof Hps as Hacc. induction Hacc as [ps _ IHps].
  constructor. intros ps' ([|i] & cpu' & q & q' & Hi & Hq & ->); cbn in *.
  - simplify_eq. by apply IHp.
  - apply IHps; [by eexists _, _, _, _|].
    apply (Acc_inv Hps). by eexists _, _, _, _.
Qed.

Lemma pool_terminates ps w : sn pool_step (ps, w).
Proof.
  revert w. induction (pool_smaller_wf ps) as [ps _ IH]. intros w. constructor.
  intros [ps' w'] Hs. inversion Hs as [i cpu p p' ps0 w0 w1 Hi Hst]; subst.
  apply IH. exists i, cpu, p, p'. split_and!; [done| |done].
  destruct p as [| |X e k]; cbn in Hst; [done..|].
  destruct (helper_sem cpu e w) as [x w2]. simplify_eq. by exists x.
Qed.
End Pool.
Arguments pool _ : clear implicits.
