(* ===== verification/Programs.v ===== *)
(** * The programs of the agent, as one type

    Every program that the agent attaches, with the input that the kernel or the
    traced process gives it, so that theorems can speak of any mix of them. *)
From S2P Require Import Prelude Machine Types Kernel Maps Safety PacketUtils Frames CoreFill.
From S2P Require Import Metrics Filter Hooks Drops Rtt NetEvents Xlat Ipsec Dns Quic Flows Capture Ssl Concurrency.

Inductive program :=
  | FlowMonitor (direction : Z) (skb : sk_buff)
  | PacketCapture (direction : Z) (skb : sk_buff) (stale : list Z)
  | DropProbe (args : kfree_args)
  | RttFentry (sk : option tcp_sock) (skb : option ksk_buff)
  | RttKprobe (sk : option tcp_sock) (skb : option ksk_buff)
  | EventProbe (group : option Z) (skb : option ksk_buff) (md : option psample_metadata)
      (stale stale' : list Z)
  | NatProbe (ct : nf_conn) (skb : ksk_buff)
  | XfrmInput (pid_tgid : Z) (skb : option ksk_buff)
  | XfrmInputRet (pid_tgid xfrm_ret : Z)
  | XfrmOutput (pid_tgid : Z) (skb : option ksk_buff)
  | XfrmOutputRet (pid_tgid xfrm_ret : Z)
  | SslProbe (op : ssl_op).

Definition program_code `{Host} `{Kernel} (cfg : config) (p : program) : prog Z :=
  match p with
  | FlowMonitor direction skb => flow_monitor cfg skb direction
  | PacketCapture direction skb stale =>
      _ ← export_packet_payload cfg skb direction stale; mret TC_ACT_OK
  | DropProbe args => kfree_skb cfg args
  | RttFentry sk skb => tcp_rcv_fentry cfg sk skb
  | RttKprobe sk skb => tcp_rcv_kprobe cfg sk skb
  | EventProbe group skb md stale stale' =>
      network_events_monitoring cfg group skb md stale stale'
  | NatProbe ct skb => track_nat_manip_pkt cfg ct skb
  | XfrmInput pid_tgid skb => xfrm_input_kprobe cfg pid_tgid skb
  | XfrmInputRet pid_tgid xfrm_ret => xfrm_input_kretprobe cfg pid_tgid xfrm_ret
  | XfrmOutput pid_tgid skb => xfrm_output_kprobe cfg pid_tgid skb
  | XfrmOutputRet pid_tgid xfrm_ret => xfrm_output_kretprobe cfg pid_tgid xfrm_ret
  | SslProbe op => ssl_prog cfg op
  end.

(** Inputs of their C types; pointers may be null, and what is behind them may
    be any bytes. *)
Definition wf_buffer (skb : option ksk_buff) : Prop := ∀ b, skb = Some b -> wf_ksk_buff b.

Definition wf_program (p : program) : Prop :=
  match p with
  | FlowMonitor direction skb => wf_skb skb /\ is_u8 direction
  | PacketCapture _ skb stale => wf_skb skb /\ is_bytes 256 stale
  | DropProbe args => wf_kfree_args args
  | RttFentry _ skb | RttKprobe _ skb => wf_buffer skb
  | EventProbe _ skb md stale stale' =>
      wf_buffer skb /\ (∀ d, md = Some d -> wf_psample d) /\ is_bytes 8 stale /\ is_bytes 8 stale'
  | NatProbe ct skb => wf_conn ct /\ wf_ksk_buff skb
  | XfrmInput _ skb | XfrmOutput _ skb => wf_buffer skb
  | XfrmInputRet _ xfrm_ret | XfrmOutputRet _ xfrm_ret => is_s32 xfrm_ret
  | SslProbe op => wf_ssl_op op
  end.

Section Programs.
Context {H : Host} {K : Kernel} {KL : KernelLaws K}.

Lemma program_safe cfg p :
  is_u32 (sampling cfg) -> wf_program p -> safe (λ _, True) (program_code cfg p).
Proof.
  intros Hc. destruct p; cbn [wf_program program_code].
  - intros [Hs Hd]. eapply safe_mono; [by apply flow_monitor_safe|done].
  - intros [Hs Hst]. apply safe_bind. by eapply safe_mono; [apply export_packet_payload_safe|].
  - apply kfree_skb_safe.
  - intros Hb. by apply tcp_rcv_safe.
  - intros Hb. by apply tcp_rcv_safe.
  - intros (Hb & Hd & ? & ?). by apply network_events_safe.
  - intros [? ?]. by apply track_nat_manip_pkt_safe.
  - intros Hb. by destruct (xfrm_probes_safe cfg pid_tgid skb 0 Hb zero_s32) as (Hs & _).
  - intros Hr. by destruct (xfrm_probes_safe cfg pid_tgid None xfrm_ret) as (_ & Hs & _).
  - intros Hb. by destruct (xfrm_probes_safe cfg pid_tgid skb 0 Hb zero_s32) as (_ & _ & Hs & _).
  - intros Hr. by destruct (xfrm_probes_safe cfg pid_tgid None xfrm_ret) as (_ & _ & _ & Hs).
  - intros Hop. eapply safe_mono; [by apply ssl_prog_safe|done].
Qed.

(** Programs on their CPUs. *)
Definition programs cfg (l : list (Z * program)) : pool Z :=
  (λ t, (t.1, program_code cfg t.2)) <$> l.

Lemma programs_safe cfg l :
  is_u32 (sampling cfg) -> Forall wf_program l.*2 -> pool_safe (λ _, True) (programs cfg l).
Proof.
  intros Hc Hl. apply Forall_fmap. induction l as [|[cpu p] l IH]; [constructor|].
  cbn in Hl. apply list.Forall_cons_1 in Hl as [Hp Hl].
  constructor; [by apply program_safe|by apply IH].
Qed.
End Programs.

(** ** Footprints

    The maps and the ring buffers that a program writes.  The flow monitor is
    the only one that writes the flow map and its ring buffer, and that sets the
    sampling flag; each other program has its own map for what it adds to the
    flows. *)

Definition program_maps (p : program) : list mapname :=
  match p with
  | FlowMonitor _ _ => [aggregated_flows; aggregated_flows_dns; quic_flows; dns_flows; dns_name_map]
  | PacketCapture _ _ _ => []
  | DropProbe _ => [aggregated_flows_pkt_drop]
  | RttFentry _ _ | RttKprobe _ _ => [additional_flow_metrics]
  | EventProbe _ _ _ _ _ => [aggregated_flows_network_events]
  | NatProbe _ _ => [aggregated_flows_xlat]
  | XfrmInput _ _ => [ipsec_ingress_map]
  | XfrmOutput _ _ => [ipsec_egress_map]
  | XfrmInputRet _ _ => [ipsec_ingress_map; additional_flow_metrics]
  | XfrmOutputRet _ _ => [ipsec_egress_map; additional_flow_metrics]
  | SslProbe _ => [ssl_read_active_map; ssl_fd_map; ssl_fd_pending_map]
  end.

Definition program_rings (p : program) : list ring :=
  match p with
  | FlowMonitor _ _ => [direct_flows]
  | PacketCapture _ _ _ => [packet_record]
  | SslProbe _ => [ssl_data_event_map]
  | _ => []
  end.

Definition is_monitor (p : program) : bool :=
  match p with FlowMonitor _ _ => true | _ => false end.

Lemma writes_within {A} ms ms' rs (p : prog A) :
  writes ms [] p -> Forall (λ m, m ∈ ms') ms -> writes ms' rs p.
Proof.
  intros Hp Hm. eapply writes_mono; [exact Hp| |apply list_subseteq_nil].
  exact (proj1 (list.Forall_forall _ _) Hm).
Qed.

#[local] Ltac by_computing := apply (bool_decide_unpack _); by vm_compute.
#[local] Ltac within H := eapply writes_within; [apply H|by_computing].
#[local] Ltac footprint :=
  cbv zeta;
  repeat lazymatch goal with
    | |- writes _ _ (_ ≫= _) => apply writes_bind; [|intros ?]
    | |- writes _ _ (deref _) => apply writes_deref
    | |- writes _ _ (upsert _ _ _ _) => apply upsert_writes; by_computing
    | |- writes _ _ (increase_counter _) => within increase_counter_writes
    | |- writes _ _ (check_and_apply_filter _ _ _ _ _ _ _) => within check_and_apply_filter_writes
    | |- writes _ _ (track_dns_packet _ _ _) => within track_dns_packet_writes
    | |- writes _ _ (track_quic_packet _ _ _ _) => within track_quic_packet_writes
    | |- writes _ _ (account_dns _ _ _) => within account_dns_writes
    | |- writes _ _ (call _) => apply writes_call; cbn [helper_writes]; first [done|by_computing]
    | |- writes _ _ (match _ with _ => _ end) => case_match
    | |- writes _ _ _ => done
    end.

Section Footprints.
Context {H : Host} {K : Kernel}.

(** The monitor once it has decided to keep the packet. *)
Lemma process_packet_footprint cfg skb pkt eth_protocol flow_sampling direction :
  writes (global_counters :: program_maps (FlowMonitor direction skb))
    (program_rings (FlowMonitor direction skb))
    (process_packet cfg skb pkt eth_protocol flow_sampling direction).
Proof.
  unfold process_packet, account_flow, update_existing_flow. cbn [program_maps program_rings].
  footprint.
Qed.

Lemma program_footprint cfg p :
  is_monitor p = false ->
  writes (global_counters :: program_maps p) (program_rings p) (program_code cfg p).
Proof.
  intros Hp. destruct p; try done; cbn [program_code program_maps program_rings].
  - unfold export_packet_payload, sampled_out, validate_packet_filter, attach_packet_payload. footprint.
  - unfold kfree_skb, trace_pkt_drop. footprint.
  - unfold tcp_rcv_fentry, calculate_flow_rtt_tcp. footprint.
  - unfold tcp_rcv_kprobe, calculate_flow_rtt_tcp. footprint.
  - unfold network_events_monitoring, trace_network_events, record_event,
      lookup_and_update_existing_flow_network_events. footprint.
  - unfold track_nat_manip_pkt, trace_nat_manip_pkt, translate_lookup_and_update_flow. footprint.
  - unfold xfrm_input_kprobe, enter_xfrm_func, remember_flow. footprint.
  - unfold xfrm_input_kretprobe, update_flow_with_ipsec_return, ipsec_pending. footprint.
  - unfold xfrm_output_kprobe, enter_xfrm_func, remember_flow. footprint.
  - unfold xfrm_output_kretprobe, update_flow_with_ipsec_return, ipsec_pending. footprint.
  - destruct op; cbn [ssl_prog]; unfold probe_entry_SSL_set_fd, probe_ret_SSL_set_fd,
      probe_entry_SSL_free, probe_entry_SSL_write, probe_entry_SSL_read, probe_ret_SSL_read,
      generate_SSL_data_event, bound_fd; footprint.
Qed.
End Footprints.
