(* ===== verification/Rings.v ===== *)
(** * The protocol of the ring buffers

    A program reserves a sample, fills it, and submits or discards it.  No
    program keeps a reservation when it ends, none holds two, and none touches a
    sample that it has not reserved; so, however the programs interleave, a
    sample that was delivered stays as it is, and every sample is delivered or
    discarded in the end.

    [holding] follows what one program has reserved through its calls; [owned]
    is the invariant of a pool: the samples still to be delivered are exactly
    those that a program holds, each one held once. *)
From stdpp Require Import relations.
From S2P Require Import Prelude Machine Types Kernel Maps Safety PacketUtils Metrics Filter.
From S2P Require Import Drops Rtt NetEvents Xlat Ipsec Tls Dns Quic Flows Capture Ssl.
From S2P Require Import Concurrency Programs.

(** ** One program *)

(** The sample that a program has reserved: its ring and its position. *)
Abbreviation held := (option (ring * nat)).

(** A call within the protocol, for a program that holds [h], and what it holds
    after the answer. *)
Definition allowed {X} (e : helper X) (h : held) : Prop :=
  match e with
  | bpf_ringbuf_reserve _ => h = None
  | bpf_ringbuf_submit r i _ | bpf_ringbuf_discard r i => h = Some (r, i)
  | _ => True
  end.

Definition held_after {X} (e : helper X) : X → held → held :=
  match e in helper X return X → held → held with
  | bpf_ringbuf_reserve r => λ o _, pair r <$> o
  | bpf_ringbuf_submit _ _ _ | bpf_ringbuf_discard _ _ => λ _ _, None
  | _ => λ _ h, h
  end.

(** Holding [h], the program [p] follows the protocol, and ends with a result
    and a reservation in [Q]. *)
Fixpoint holding {A} (Q : A → held → Prop) (h : held) (p : prog A) : Prop :=
  match p with
  | Ret a => Q a h
  | Fault => True
  | Vis e k => allowed e h /\ ∀ x, holding Q (held_after e x h) (k x)
  end.

(** A program that keeps to the protocol from no reservation to none. *)
Definition tidy {A} (p : prog A) : Prop := holding (λ _ h, h = None) None p.

Lemma holding_mono {A} (Q Q' : A → held → Prop) h p :
  holding Q h p -> (∀ a h', Q a h' -> Q' a h') -> holding Q' h p.
Proof.
  intros Hp HQ. revert h Hp. induction p as [a| |X e k IH]; intros h Hp; cbn in *; [auto|done|].
  destruct Hp as [He Hk]. split; [done|]. intros x. apply IH, Hk.
Qed.

Lemma holding_bind {A B} (Q : B → held → Prop) h (p : prog A) (f : A → prog B) :
  holding (λ a h', holding Q h' (f a)) h p -> holding Q h (p ≫= f).
Proof.
  revert h. induction p as [a| |X e k IH]; intros h Hp; cbn in *; [done..|].
  destruct Hp as [He Hk]. split; [done|]. intros x. apply IH, Hk.
Qed.

Lemma holding_deref {A} (Q : A → held → Prop) h (o : option A) :
  (∀ a, Q a h) -> holding Q h (deref o).
Proof. by destruct o; cbn. Qed.

Lemma holding_ret {A} (Q : A → held → Prop) h a : Q a h -> holding Q h (mret a).
Proof. done. Qed.

(** A call that is not about ring buffers. *)
Definition ringless {X} (e : helper X) : bool :=
  match e with
  | bpf_ringbuf_reserve _ | bpf_ringbuf_submit _ _ _ | bpf_ringbuf_discard _ _ => false
  | _ => true
  end.

Lemma ringless_held {X} (e : helper X) h :
  ringless e = true -> allowed e h /\ ∀ x, held_after e x h = h.
Proof. by destruct e. Qed.

(** A program that writes no ring buffer keeps its reservation. *)
Lemma holding_writes {A} ms (Q : A → held → Prop) h (p : prog A) :
  writes ms [] p -> (∀ a, Q a h) -> holding Q h p.
Proof.
  intros Hp HQ. induction p as [a| |X e k IH]; cbn in *; [done..|].
  destruct Hp as [He Hk].
  assert (Hr : ringless e = true) by (destruct e; try done; by apply not_elem_of_nil in He).
  destruct (ringless_held e h Hr) as [Ha Hh]. split; [done|]. intros x. rewrite Hh. by apply IH.
Qed.

Lemma holding_call {X} (Q : X → held → Prop) h (e : helper X) :
  ringless e = true -> (∀ x, Q x h) -> holding Q h (call e).
Proof.
  intros Hr HQ. destruct (ringless_held e h Hr) as [Ha Hh]. split; [done|]. intros x.
  cbn. by rewrite Hh.
Qed.

Lemma holding_reserve (Q : option nat → held → Prop) r :
  Q None None -> (∀ i, Q (Some i) (Some (r, i))) ->
  holding Q None (call (bpf_ringbuf_reserve r)).
Proof. intros HN HS. split; [done|]. by intros [i|]; cbn. Qed.

Lemma holding_release (Q : unit → held → Prop) r i :
  Q tt None ->
  (∀ d, holding Q (Some (r, i)) (call (bpf_ringbuf_submit r i d))) /\
  holding Q (Some (r, i)) (call (bpf_ringbuf_discard r i)).
Proof. intros HQ. split; [intros d|]; (split; [done|by intros []]). Qed.

#[local] Ltac keep :=
  lazymatch goal with
  | |- holding _ None (call (bpf_ringbuf_reserve _)) => apply holding_reserve; [|intros ?]
  | |- holding _ (Some _) (call (bpf_ringbuf_submit _ _ _)) => apply holding_release
  | |- holding _ (Some _) (call (bpf_ringbuf_discard _ _)) => apply holding_release
  | |- holding _ _ (mret _) => apply holding_ret
  | |- holding _ _ (Ret _) => apply holding_ret
  | |- holding _ _ (deref _) => apply holding_deref; intros ?
  | |- holding _ _ (_ ≫= _) => apply holding_bind
  | |- holding _ _ (upsert ?m _ _ _) =>
      apply (holding_writes [m]); [apply upsert_writes, list_elem_of_here|intros ?]
  | |- holding _ _ (increase_counter _) =>
      eapply holding_writes; [apply increase_counter_writes|intros ?]
  | |- holding _ _ (check_and_apply_filter _ _ _ _ _ _ _) =>
      eapply holding_writes; [apply check_and_apply_filter_writes|intros ?]
  | |- holding _ _ (call _) => apply holding_call; [done|intros ?]
  | |- holding _ _ (match _ with _ => _ end) => case_match
  end.
#[local] Ltac keeps := unfold tidy; cbv zeta; repeat keep; done.

Section Protocol.
Context {H : Host} {K : Kernel}.
Implicit Types cfg : config.

(** A tidy part of a program, and what follows it. *)
Lemma tidy_bind {A B} (p : prog A) (f : A → prog B) :
  tidy p -> (∀ a, tidy (f a)) -> tidy (p ≫= f).
Proof. intros Hp Hf. apply holding_bind. eapply holding_mono; [exact Hp|]. intros a h ->. apply Hf. Qed.

Lemma tidy_writes {A} ms (p : prog A) : writes ms [] p -> tidy p.
Proof. intros Hp. by eapply holding_writes. Qed.

(** *** The flow monitor *)

Lemma sample_tidy rate : tidy (sample rate).
Proof. unfold sample, sampled_out. keeps. Qed.

Lemma account_flow_tidy cfg skb pkt eth_protocol len flow_sampling direction tls :
  tidy (account_flow cfg skb pkt eth_protocol len flow_sampling direction tls).
Proof. unfold account_flow, update_existing_flow. keeps. Qed.

Lemma process_packet_tidy cfg skb pkt eth_protocol flow_sampling direction :
  tidy (process_packet cfg skb pkt eth_protocol flow_sampling direction).
Proof.
  unfold process_packet. cbv zeta. apply tidy_bind.
  { case_match; [|done]. eapply tidy_writes, track_dns_packet_writes. }
  intros [dns_errno pkt']. apply tidy_bind; [by keeps|]. intros [ok tls]. apply tidy_bind.
  { case_match; [|done]. eapply tidy_writes, track_quic_packet_writes. }
  intros _. apply tidy_bind; [apply account_flow_tidy|]. intros []; [|done].
  apply tidy_bind; [|done]. eapply tidy_writes, account_dns_writes.
Qed.

Lemma parse_and_filter_tidy cfg skb flow_sampling direction :
  tidy (parse_and_filter cfg skb flow_sampling direction).
Proof.
  unfold parse_and_filter. apply tidy_bind; [done|]. intros ts.
  apply tidy_bind; [by keeps|]. intros [[verdict pkt] e]. case_match; [done|].
  apply tidy_bind; [eapply tidy_writes, check_and_apply_filter_writes|].
  intros [skip s]. cbv zeta. case_match.
  - apply tidy_bind; [apply sample_tidy|]. intros keep.
    repeat case_match; done || apply process_packet_tidy.
  - case_match; [done|apply process_packet_tidy].
Qed.

Lemma flow_monitor_tidy cfg skb direction : tidy (flow_monitor cfg skb direction).
Proof.
  unfold flow_monitor. case_match; [|apply parse_and_filter_tidy].
  apply tidy_bind; [apply sample_tidy|]. intros []; [apply parse_and_filter_tidy|done].
Qed.

(** *** The programs that fill the other ring buffers *)

Lemma export_packet_payload_tidy cfg skb dir stale :
  tidy (export_packet_payload cfg skb dir stale).
Proof.
  unfold export_packet_payload, sampled_out, validate_packet_filter, attach_packet_payload.
  keeps.
Qed.

Lemma ssl_prog_tidy cfg op : tidy (ssl_prog cfg op).
Proof.
  destruct op; cbn [ssl_prog]; unfold probe_entry_SSL_set_fd, probe_ret_SSL_set_fd,
    probe_entry_SSL_free, probe_entry_SSL_write, probe_entry_SSL_read, probe_ret_SSL_read,
    generate_SSL_data_event, bound_fd; keeps.
Qed.

(** *** Every program *)

Lemma program_tidy cfg p : tidy (program_code cfg p).
Proof.
  destruct p; cbn [program_code].
  - apply flow_monitor_tidy.
  - apply tidy_bind; [apply export_packet_payload_tidy|done].
  - unfold kfree_skb, trace_pkt_drop. keeps.
  - unfold tcp_rcv_fentry, calculate_flow_rtt_tcp. keeps.
  - unfold tcp_rcv_kprobe, calculate_flow_rtt_tcp. keeps.
  - unfold network_events_monitoring, trace_network_events, record_event,
      lookup_and_update_existing_flow_network_events. keeps.
  - unfold track_nat_manip_pkt, trace_nat_manip_pkt, translate_lookup_and_update_flow. keeps.
  - unfold xfrm_input_kprobe, enter_xfrm_func, remember_flow. keeps.
  - unfold xfrm_input_kretprobe, update_flow_with_ipsec_return, ipsec_pending. keeps.
  - unfold xfrm_output_kprobe, enter_xfrm_func, remember_flow. keeps.
  - unfold xfrm_output_kretprobe, update_flow_with_ipsec_return, ipsec_pending. keeps.
  - apply ssl_prog_tidy.
Qed.
End Protocol.

(** ** Programs together *)

Section Owned.
Context {K : Kernel} {A : Type}.
Implicit Types (w : world) (ps : pool A) (hs : list held).

(** What a step does to the ring buffers and to the reservation of its
    program. *)
Inductive ring_effect : held → held → world → world → Prop :=
  | ring_quiet h w w' :
      (∀ r, w_ring w' r = w_ring w r) ->
      ring_effect h h w w'
  | ring_reserved r w w' :
      (∀ r', w_ring w' r' = w_ring (upd_ring r (w_ring w r ++ [Busy]) w) r') ->
      ring_effect None (Some (r, length (w_ring w r))) w w'
  | ring_released r i s w w' :
      s <> Busy ->
      (∀ r', w_ring w' r' = w_ring (upd_ring r (<[i := s]> (w_ring w r)) w) r') ->
      ring_effect (Some (r, i)) None w w'.

Lemma helper_sem_ringless {X} cpu (e : helper X) w r :
  ringless e = true -> w_ring (helper_sem cpu e w).2 r = w_ring w r.
Proof.
  intros He. destruct e; try done; cbn.
  - by destruct (k_ktime _).
  - by destruct (k_prandom _).
  - unfold map_update, map_insert. by split_cases.
  - unfold map_delete. by split_cases.
  - unfold map_write. by case_match.
Qed.

Lemma helper_ring_effect {X} cpu (e : helper X) h w :
  allowed e h ->
  ring_effect h (held_after e (helper_sem cpu e w).1 h) w (helper_sem cpu e w).2.
Proof.
  intros He. destruct (ringless e) eqn:Hr.
  - rewrite (proj2 (ringless_held e h Hr)). constructor. intros r. by apply helper_sem_ringless.
  - destruct e; try done; cbn in He |- *; subst h.
    + destruct (k_reserve r (w_kst w)) as [[] st]; by constructor.
    + by eapply (ring_released _ _ (Committed d)).
    + by eapply (ring_released _ _ Discarded).
Qed.

(** The samples that the programs hold are still to be delivered, and no two
    programs hold the same one; none is to be delivered that nobody holds. *)
Definition owned hs w : Prop :=
  (∀ j r i, hs !! j = Some (Some (r, i)) -> w_ring w r !! i = Some Busy) /\
  (∀ j j' x, hs !! j = Some (Some x) -> hs !! j' = Some (Some x) -> j = j').

Definition tracked hs w : Prop :=
  ∀ r i, w_ring w r !! i = Some Busy -> ∃ j, hs !! j = Some (Some (r, i)).

Lemma owned_ext hs w w' : (∀ r, w_ring w' r = w_ring w r) -> owned hs w -> owned hs w'.
Proof. intros Hr [Hb Hu]. split; [|done]. intros j r i Hj. rewrite Hr. by eapply Hb. Qed.

(** What was delivered stays. *)
Definition ring_stable w w' : Prop :=
  ∀ r i s, w_ring w r !! i = Some s -> s <> Busy -> w_ring w' r !! i = Some s.

(** The pending samples after a step. *)
Lemma busy_reserved r w r' i :
  w_ring (upd_ring r (w_ring w r ++ [Busy]) w) r' !! i = Some Busy <->
  w_ring w r' !! i = Some Busy \/ (r', i) = (r, length (w_ring w r)).
Proof.
  destruct (decide (r = r')) as [<-|Hne].
  - rewrite upd_ring_eq, lookup_app. destruct (w_ring w r !! i) as [s|] eqn:E.
    + pose proof (lookup_lt_Some _ _ _ E). split; [by left|]. intros [?|[= ->]]; [done|lia].
    + apply lookup_ge_None in E. rewrite list_lookup_singleton_Some.
      split; [intros [? _]; right; f_equal; lia|]. intros [?|[= ->]]; [done|]. split; [lia|done].
  - rewrite upd_ring_ne by done. split; [by left|]. by intros [?|[= -> _]].
Qed.

Lemma busy_released r i s w r' i' :
  s <> Busy ->
  w_ring (upd_ring r (<[i := s]> (w_ring w r)) w) r' !! i' = Some Busy <->
  w_ring w r' !! i' = Some Busy /\ (r', i') <> (r, i).
Proof.
  intros Hs. destruct (decide (r = r')) as [<-|Hne].
  - rewrite upd_ring_eq. destruct (decide (i = i')) as [<-|Hi].
    + rewrite list_lookup_insert_Some. split; [|by intros []]. intros [(_ & ? & _)|[? _]]; congruence.
    + rewrite list_lookup_insert_ne by done. split; [|by intros []]. intros ?. split; [done|congruence].
  - rewrite upd_ring_ne by done. split; [|by intros []]. intros ?. split; [done|congruence].
Qed.

(** The held samples after a step. *)
Lemma held_insert hs j h h' x :
  hs !! j = Some h ->
  (∃ j', <[j := h']> hs !! j' = Some (Some x)) <->
  h' = Some x \/ ∃ j', j' <> j /\ hs !! j' = Some (Some x).
Proof.
  intros Hj. split.
  - intros [j' [(-> & -> & _)|[? ?]]%list_lookup_insert_Some]; [by left|right; eauto].
  - intros [->|(j' & Hne & Hj')].
    + exists j. by eapply list_lookup_insert_eq, lookup_lt_Some.
    + exists j'. by rewrite list_lookup_insert_ne.
Qed.

Lemma ring_effect_owned hs j h h' w w' :
  owned hs w -> hs !! j = Some h -> ring_effect h h' w w' ->
  owned (<[j := h']> hs) w' /\ ring_stable w w'.
Proof.
  intros [Hb Hu] Hj He. destruct He as [h w w' Hr|r w w' Hr|r i s w w' Hs Hr].
  - rewrite list_insert_id by done. split; [|by intros r i s; rewrite Hr].
    split; [|done]. intros j' r i. rewrite Hr. apply Hb.
  - assert (Hnew : ∀ j', hs !! j' <> Some (Some (r, length (w_ring w r)))).
    { intros j' Hs%Hb%lookup_lt_Some. lia. }
    split; [split|].
    + intros j' r' i Hj'. rewrite Hr, busy_reserved.
      apply list_lookup_insert_Some in Hj' as [(_ & [= <- <-] & _)|[_ Hj']]; [by right|left; eauto].
    + intros j1 j2 x [(<- & <- & _)|[_ H1]]%list_lookup_insert_Some
        [(<- & E2 & _)|[_ H2]]%list_lookup_insert_Some; [done| | |by apply (Hu j1 j2 x)].
      * by apply Hnew in H2.
      * injection E2 as <-. by apply Hnew in H1.
    + intros r' i s Hi Hs. rewrite Hr. destruct (decide (r = r')) as [<-|].
      * rewrite upd_ring_eq. by apply lookup_app_l_Some.
      * by rewrite upd_ring_ne.
  - split; [split|].
    + intros j' r' i' [(_ & ? & _)|[Hne Hj']]%list_lookup_insert_Some; [done|].
      rewrite Hr, busy_released by done. split; [eauto|]. intros [= -> ->]. by eapply Hne, Hu.
    + intros j1 j2 x [(_ & ? & _)|[_ H1]]%list_lookup_insert_Some
        [(_ & ? & _)|[_ H2]]%list_lookup_insert_Some; [done..|by apply (Hu j1 j2 x)].
    + intros r' i' s' Hi' Hs'. rewrite Hr. destruct (decide (r = r')) as [<-|].
      * rewrite upd_ring_eq, list_lookup_insert_ne; [done|].
        intros <-. pose proof (Hb _ _ _ Hj). congruence.
      * by rewrite upd_ring_ne.
Qed.

Lemma ring_effect_tracked hs j h h' w w' :
  tracked hs w -> hs !! j = Some h -> ring_effect h h' w w' -> tracked (<[j := h']> hs) w'.
Proof.
  intros Ht Hj He. destruct He as [h w w' Hr|r w w' Hr|r i s w w' Hs Hr]; intros r' i'; rewrite Hr.
  - rewrite list_insert_id by done. apply Ht.
  - rewrite busy_reserved, (held_insert hs j None) by done. intros [[j' Hj']%Ht|[= -> ->]]; [|by left].
    right. exists j'. split; [|done]. intros ->. by rewrite Hj in Hj'.
  - rewrite busy_released, (held_insert hs j (Some (r, i))) by done. intros [[j' Hj']%Ht Hne].
    right. exists j'. split; [|done]. intros ->. by rewrite Hj in Hj'; simplify_eq.
Qed.

(** *** The invariant of a pool *)

Definition holders ps hs : Prop :=
  Forall2 (λ t h, holding (λ _ h', h' = None) h t.2) ps hs.

(** The step of the program at [j]. *)
Lemma step_owned ps hs j cpu {X} (e : helper X) (k : X → prog A) w :
  ps !! j = Some (cpu, Vis e k) -> holders ps hs -> owned hs w ->
  let x := (helper_sem cpu e w).1 in
  let w' := (helper_sem cpu e w).2 in
  ∃ h, hs !! j = Some h /\
    (∀ r i, h = Some (r, i) -> w_ring w r !! i = Some Busy) /\
    holders (<[j := (cpu, k x)]> ps) (<[j := held_after e x h]> hs) /\
    owned (<[j := held_after e x h]> hs) w' /\ ring_stable w w' /\
    (tracked hs w -> tracked (<[j := held_after e x h]> hs) w').
Proof.
  intros Hj Hps Ho x w'.
  destruct (Forall2_lookup_l _ _ _ _ _ Hps Hj) as (h & Hh & Ha & Hk).
  exists h. split; [done|]. split; [intros r i ->; by apply (proj1 Ho j)|].
  split; [apply Forall2_insert; [done|apply Hk]|].
  pose proof (helper_ring_effect cpu e h w Ha) as He.
  destruct (ring_effect_owned hs j h _ w w' Ho Hh He) as [Ho' Hst].
  split_and!; [done..|]. intros Ht. by eapply ring_effect_tracked.
Qed.

Lemma pool_step_owned ps ps' hs w w' :
  pool_step (ps, w) (ps', w') -> holders ps hs -> owned hs w ->
  ∃ hs', holders ps' hs' /\ owned hs' w' /\ ring_stable w w' /\ (tracked hs w -> tracked hs' w').
Proof.
  intros Hs Hps Ho. inversion Hs as [j cpu p p' ps0 w0 w1 Hj Hp]; subst.
  destruct p as [a| |X e k]; cbn in Hp; [done..|].
  destruct (step_owned ps hs j cpu e k w Hj Hps Ho) as (h & _ & _ & H1 & H2 & H3 & H4).
  destruct (helper_sem cpu e w) as [x w2]. injection Hp as <- <-. by eexists.
Qed.

Lemma ring_stable_trans w1 w2 w3 : ring_stable w1 w2 -> ring_stable w2 w3 -> ring_stable w1 w3.
Proof. intros H1 H2 r i s Hi Hs. apply H2, Hs. by apply H1. Qed.

Lemma pool_steps_owned s s' hs :
  rtc pool_step s s' -> holders s.1 hs -> owned hs s.2 ->
  ∃ hs', holders s'.1 hs' /\ owned hs' s'.2 /\ ring_stable s.2 s'.2 /\
    (tracked hs s.2 -> tracked hs' s'.2).
Proof.
  intros Hs. revert hs. induction Hs as [[ps w]|[ps w] [ps1 w1] [ps2 w2] H12 _ IH];
    intros hs Hps Ho; [exists hs; split_and!; [done|done|by intros r i s|done]|].
  destruct (pool_step_owned _ _ _ _ _ H12 Hps Ho) as (hs1 & Hps1 & Ho1 & Hst1 & Ht1).
  destruct (IH hs1 Hps1 Ho1) as (hs2 & ? & ? & ? & ?). exists hs2. split_and!; [done..| |auto].
  by apply (ring_stable_trans _ w1).
Qed.

Lemma ended_holders ps hs w :
  ended ps -> holders ps hs -> tracked hs w -> ∀ r, Busy ∉ w_ring w r.
Proof.
  intros He Hps Hb r [i Hi]%list_elem_of_lookup_1. apply Hb in Hi as [j Hj].
  destruct (Forall2_lookup_r _ _ _ _ _ Hps Hj) as ([cpu p] & Hp & Hh).
  destruct (Forall_lookup_1 _ _ _ _ He Hp) as [a Ha]. cbn in *. by subst p.
Qed.
End Owned.

(** Before the programs start, nobody holds a sample, and when none is pending
    all of them are tracked. *)
Lemma owned_start {K : Kernel} (n : nat) w : owned (replicate n None) w.
Proof.
  split; [by intros j r i [? _]%lookup_replicate_1|].
  by intros j j' x [? _]%lookup_replicate_1.
Qed.

Lemma tracked_start {K : Kernel} hs w : (∀ r, Busy ∉ w_ring w r) -> tracked hs w.
Proof. intros Hb r i Hi%list_elem_of_lookup_2. by destruct (Hb r). Qed.

Lemma programs_holders `{Host} {K : Kernel} cfg (l : list (Z * program)) :
  holders (programs cfg l) (replicate (length l) None).
Proof.
  unfold holders, programs. induction l as [|[cpu p] l IH]; constructor; [|done].
  apply program_tidy.
Qed.
