(* ===== verification/Credits.v ===== *)
(** * Rely-guarantee with credits

    A program owes some work and pays for it in its steps; the others may act in
    between, within a rely.  A [Discipline] relates the two; [rg] says that a
    program follows it, and [pool_rg_steps] that in any interleaving the work of
    the programs adds up.  Work is measured in any commutative monoid: amounts
    that add up, or samples of which the largest remains.  A program that has
    reserved a sample in a ring buffer may count on it, which the protocol of the
    ring buffers guarantees. *)
From stdpp Require Import relations.
From S2P Require Import Prelude Machine Types Kernel Maps Safety Concurrency Rings.

(** ** Work *)

Class Credit (M : Type) := {
  credit_op : M → M → M;
  no_credit : M;
  credit_assoc :: Assoc (=) credit_op;
  credit_comm :: Comm (=) credit_op;
  credit_left_id :: LeftId (=) no_credit credit_op;
}.
#[export] Hint Mode Credit ! : typeclass_instances.
Infix "⊕" := credit_op (at level 50, left associativity) : ebpf_scope.
Open Scope ebpf_scope.

(** Amounts that add up. *)
#[export] Instance Z_sum : Credit Z := {| credit_op := Z.add; no_credit := 0 |}.

Section Totals.
Context {M : Type} {C : Credit M}.
Implicit Types (c : M) (cs : list M).

#[export] Instance credit_right_id : RightId (=) no_credit (credit_op (M := M)).
Proof. intros c. by rewrite (comm_L credit_op), (left_id_L no_credit credit_op). Qed.

Definition total cs : M := foldr credit_op no_credit cs.

Lemma total_insert cs i c d c' :
  cs !! i = Some c -> c = d ⊕ c' -> total cs = d ⊕ total (<[i := c']> cs).
Proof.
  revert i. induction cs as [|x cs IH]; intros [|i] Hi Hc; cbn in *; [done..| |].
  - injection Hi as ->. rewrite Hc. by rewrite (assoc_L credit_op).
  - change (x ⊕ total cs = d ⊕ (x ⊕ total (<[i:=c']> cs))). rewrite (IH i Hi Hc).
    by rewrite !(assoc_L credit_op), (comm_L credit_op x d).
Qed.

Lemma total_zero cs : (∀ i c, cs !! i = Some c -> c = no_credit) -> total cs = no_credit.
Proof.
  induction cs as [|c cs IH]; intros Hz; cbn; [done|].
  rewrite (Hz 0%nat c eq_refl), (left_id_L no_credit credit_op). apply IH. intros i. apply (Hz (S i)).
Qed.

Lemma total_app cs cs' : total (cs ++ cs') = total cs ⊕ total cs'.
Proof.
  unfold total. induction cs as [|c cs IH]; cbn; [by rewrite (left_id_L no_credit credit_op)|].
  by rewrite IH, (assoc_L credit_op).
Qed.
End Totals.

Lemma total_fmap_insert {A} (f : A → Z) l i a a' :
  l !! i = Some a -> total (f <$> <[i := a']> l) = total (f <$> l) + (f a' - f a).
Proof.
  intros Hi. rewrite list_fmap_insert.
  rewrite (total_insert (f <$> l) i (f a) (f a - f a') (f a')); [cbn; lia| |cbn; lia].
  apply list_lookup_fmap_Some. by exists a.
Qed.

(** Every call of a program is of some kind. *)
Fixpoint calls {A} (T : ∀ X, helper X → Prop) (p : prog A) : Prop :=
  match p with
  | Ret _ | Fault => True
  | Vis e k => T _ e /\ ∀ x, calls T (k x)
  end.

Lemma calls_mono {A} (T T' : ∀ X, helper X → Prop) (p : prog A) :
  calls T p -> (∀ X (e : helper X), T X e -> T' X e) -> calls T' p.
Proof.
  intros Hp HT. induction p as [a| |X e k IH]; cbn in *; [done..|].
  destruct Hp as [He Hk]. split; [by apply HT|]. intros x. apply IH, Hk.
Qed.

Lemma calls_bind {A B} T (p : prog A) (f : A → prog B) :
  calls T p -> (∀ a, calls T (f a)) -> calls T (p ≫= f).
Proof.
  intros Hp Hf. induction p as [a| |X e k IH]; cbn in *; [apply Hf|done|].
  destruct Hp as [He Hk]. split; [done|]. intros x. apply IH, Hk.
Qed.

Lemma writes_calls {A} ms rs (p : prog A) :
  writes ms rs p -> calls (λ _, helper_writes ms rs) p.
Proof.
  induction p as [a| |X e k IH]; cbn; [done..|]. intros [He Hk]. split; [done|]. intros x. apply IH, Hk.
Qed.

Section RelyGuarantee.
Context {K : Kernel} {KL : KernelLaws K} {M : Type} {C : Credit M}.
Implicit Types w : world.

(** What a program may count on between two of its steps, and what its own
    steps do, the amount of work included.  The steps of a program are within
    the rely of the others. *)
Class Discipline (R : world → world → Prop) (G : M → world → world → Prop) : Prop := {
  rely_trans w1 w2 w3 : R w1 w2 -> R w2 w3 -> R w1 w3;
  rely_refl w1 w2 : R w1 w2 -> R w2 w2;
  guar_rely d w w' : G d w w' -> R w w';
  guar_refl w : R w w -> G no_credit w w;
  guar_trans d1 d2 w1 w2 w3 : G d1 w1 w2 -> G d2 w2 w3 -> G (d1 ⊕ d2) w1 w3;
}.

Context {R : world → world → Prop} {G : M → world → world → Prop} {D : Discipline R G}.

(** The sample that a program holds is still pending. *)
Definition pending (h : held) w : Prop := ∀ r i, h = Some (r, i) -> w_ring w r !! i = Some Busy.

(** [c] is the work still to be done, [h] what the program holds; [Q] sees what
    is left of both. *)
Fixpoint rg {A} (cpu : Z) (Q : A → M → world → Prop) (h : held) (p : prog A) (c : M) w : Prop :=
  match p with
  | Ret a => Q a c w
  | Fault => False
  | Vis e k => ∀ w1, R w w1 -> pending h w1 ->
      ∃ d c', c = d ⊕ c' /\ G d w1 (helper_sem cpu e w1).2 /\
        rg cpu Q (held_after e (helper_sem cpu e w1).1 h) (k (helper_sem cpu e w1).1) c'
          (helper_sem cpu e w1).2
  end.

Lemma rg_ret {A} cpu (Q : A → M → world → Prop) h a c w : Q a c w -> rg cpu Q h (Ret a) c w.
Proof. done. Qed.

(** What follows must not depend on what is held. *)
Lemma rg_bind {A B} cpu (Q : B → M → world → Prop) h (p : prog A) (f : A → prog B) c w :
  rg cpu (λ a c' w', ∀ h', rg cpu Q h' (f a) c' w') h p c w -> rg cpu Q h (p ≫= f) c w.
Proof.
  revert h c w. induction p as [a| |X e k IH]; intros h c w; cbn; [done..|].
  intros Hp w1 H1 Hh. destruct (Hp w1 H1 Hh) as (d & c' & Hc & Hd & Hk). exists d, c'. by split_and!; [| |apply IH].
Qed.

Lemma rg_mono {A} cpu (Q Q' : A → M → world → Prop) h (p : prog A) c w :
  rg cpu Q h p c w -> (∀ a c' w', Q a c' w' -> Q' a c' w') -> rg cpu Q' h p c w.
Proof.
  intros Hp HQ. revert h c w Hp. induction p as [a| |X e k IH]; intros h c w Hp; cbn in *;
    [by apply HQ|done|].
  intros w1 H1 Hh. destruct (Hp w1 H1 Hh) as (d & c' & Hc & Hd & Hk). exists d, c'. by split_and!; [| |apply IH].
Qed.

(** A call and the rest of a program, which may use what the call has reserved:
    the call pays for nothing, or for everything. *)
Lemma rg_call {X A} cpu (Q : A → M → world → Prop) h (e : helper X) (f : X → prog A) c w :
  (∀ w1, R w w1 -> pending h w1 ->
     let x := (helper_sem cpu e w1).1 in
     let w2 := (helper_sem cpu e w1).2 in
     (G no_credit w1 w2 /\ rg cpu Q (held_after e x h) (f x) c w2) \/
     (G c w1 w2 /\ rg cpu Q (held_after e x h) (f x) no_credit w2)) ->
  rg cpu Q h (call e ≫= f) c w.
Proof.
  intros Hp w1 H1 Hh. destruct (Hp w1 H1 Hh) as [[Hg Hk]|[Hg Hk]].
  - exists no_credit, c. split_and!; [|done|exact Hk]. by rewrite (left_id_L no_credit credit_op).
  - exists c, no_credit. split_and!; [|done|exact Hk]. by rewrite (right_id_L no_credit credit_op).
Qed.

(** A safe program whose calls do nothing that counts. *)
Lemma rg_safe {A} cpu (T : ∀ X, helper X → Prop) (P : A → Prop) (Q : A → M → world → Prop) h
    (p : prog A) c w :
  (∀ w, R w w -> typed w) ->
  (∀ X (e : helper X) w1, R w1 w1 -> helper_ok e -> T X e -> G no_credit w1 (helper_sem cpu e w1).2) ->
  safe P p -> calls T p -> R w w -> (∀ a w', P a -> R w w' -> Q a c w') ->
  rg cpu Q h p c w.
Proof.
  intros Ht Hquiet Hs Hp Hw HQ. revert h w Hs Hp Hw HQ.
  induction p as [a| |X e k IH]; intros h w Hs Hp Hw HQ; cbn in *; [by apply HQ|done|].
  destruct Hs as [He Hk], Hp as [Hwe Hwk]. intros w1 H1 _. exists no_credit, c.
  pose proof (rely_refl _ _ H1) as Hw1.
  destruct (helper_sem_ok cpu e w1 (Ht _ Hw1) He) as [Ha _].
  pose proof (Hquiet X e w1 Hw1 He Hwe) as Hg. pose proof (guar_rely _ _ _ Hg) as H2.
  split; [by rewrite (left_id_L no_credit credit_op)|]. split; [done|].
  apply IH; [by apply Hk|apply Hwk|by eapply rely_refl|].
  intros a w' HP H'. apply HQ; [done|]. eapply rely_trans; [exact H1|]. by eapply rely_trans.
Qed.

Lemma rg_stable {A} cpu (Q : A → M → world → Prop) h (p : prog A) c w w' :
  (∀ a c w w', Q a c w -> R w w' -> Q a c w') ->
  rg cpu Q h p c w -> R w w' -> rg cpu Q h p c w'.
Proof.
  intros HQ. destruct p as [a| |X e k]; cbn; [by eauto|done|].
  intros Hp Hr w1 H1. apply Hp. by eapply rely_trans.
Qed.

(** *** Pools *)

(** A program that has done all its work. *)
Definition paid {A} (_ : A) (c : M) (_ : world) : Prop := c = no_credit.

Record pool_rg {A} (Q : A → M → world → Prop) (ps : pool A) (hs : list held) (cs : list M) w : Prop := {
  prg_holders : holders ps hs;
  prg_owned : owned hs w;
  prg_length : length cs = length ps;
  prg_rg j cpu p h c : ps !! j = Some (cpu, p) -> hs !! j = Some h -> cs !! j = Some c ->
    rg cpu Q h p c w;
}.

(** What the programs want to hold in the end must not depend on the others. *)
Definition stable_end {A} (Q : A → M → world → Prop) : Prop := ∀ a c w w', Q a c w -> R w w' -> Q a c w'.

Lemma paid_stable {A} : stable_end (A := A) paid.
Proof. by intros a c w w' ->. Qed.

(** Somebody else acts, and leaves the ring buffers alone. *)
Lemma pool_rg_others {A} (Q : A → M → world → Prop) ps hs cs w w' :
  stable_end Q -> R w w' -> (∀ r, w_ring w' r = w_ring w r) -> pool_rg Q ps hs cs w -> pool_rg Q ps hs cs w'.
Proof.
  intros HQ Hr Hring [Hh Ho Hl Hp]. split; [done| |done|].
  - by eapply owned_ext.
  - intros j cpu p h c Hj Hhj Hc. eapply rg_stable; [exact HQ|by eapply Hp|done].
Qed.

Lemma pool_rg_step {A} (Q : A → M → world → Prop) (ps ps' : pool A) hs cs w w' :
  stable_end Q -> R w w -> pool_step (ps, w) (ps', w') -> pool_rg Q ps hs cs w ->
  ∃ hs' cs' d, pool_rg Q ps' hs' cs' w' /\ G d w w' /\ total cs = d ⊕ total cs'.
Proof.
  intros HQ Hw Hs [Hh Ho Hl Hp]. inversion Hs as [j cpu p p' ps0 w0 w1 Hj Hst]; subst.
  destruct p as [a| |X e k]; cbn in Hst; [done..|].
  destruct (step_owned ps hs j cpu e k w Hj Hh Ho) as (h & Hhj & Hpd & Hh' & Ho' & _).
  destruct (lookup_lt_is_Some_2 cs j) as [c Hc]; [rewrite Hl; by eapply lookup_lt_Some|].
  destruct (Hp j cpu _ h c Hj Hhj Hc w Hw Hpd) as (d & c' & Hcd & Hd & Hk).
  destruct (helper_sem cpu e w) as [x w2]. cbn [fst snd] in *. simplify_eq.
  eexists _, (<[j := c']> cs), d. split_and!; [|done|].
  - split; [exact Hh'|exact Ho'| |]; unfold pool in *; [by rewrite !length_insert|].
    intros j' cpu' p' h' c2 [(<- & [= <- <-] & _)|[Hne Hj']]%list_lookup_insert_Some.
    + rewrite (list_lookup_insert_eq hs), (list_lookup_insert_eq cs)
        by (eapply lookup_lt_Some; eassumption). by intros [= <-] [= <-].
    + rewrite !list_lookup_insert_ne by done. intros Hh2 Hc2.
      eapply rg_stable; [exact HQ|by eapply Hp|by eapply guar_rely].
  - by eapply total_insert.
Qed.

(** In any interleaving, the work of the programs adds up. *)
Lemma pool_rg_steps {A} (Q : A → M → world → Prop) (ps ps' : pool A) hs cs w w' :
  stable_end Q -> R w w -> rtc pool_step (ps, w) (ps', w') -> pool_rg Q ps hs cs w ->
  ∃ hs' cs' d, pool_rg Q ps' hs' cs' w' /\ G d w w' /\ total cs = d ⊕ total cs'.
Proof.
  intros HQ Hw Hs. remember (ps, w) as s eqn:Es. remember (ps', w') as s' eqn:Es'.
  revert ps w hs cs Hw Es. induction Hs as [s|s1 [ps2 w2] s3 H12 _ IH]; intros ps w hs cs Hw -> Hp.
  - simplify_eq. exists hs, cs, no_credit. split_and!; [done|by apply guar_refl|]. by rewrite (left_id_L no_credit credit_op).
  - destruct (pool_rg_step _ _ _ _ _ _ _ HQ Hw H12 Hp) as (hs1 & cs1 & d1 & Hp1 & Hd1 & E1).
    assert (Hw2 : R w2 w2) by (eapply rely_refl, guar_rely, Hd1).
    destruct (IH Es' ps2 w2 hs1 cs1 Hw2 eq_refl Hp1) as (hs2 & cs2 & d2 & Hp2 & Hd2 & E2).
    exists hs2, cs2, (d1 ⊕ d2). split_and!; [done|by eapply guar_trans|]. by rewrite E1, E2, (assoc_L credit_op).
Qed.

(** When all programs have ended, all the work is done. *)
Lemma pool_rg_ended {A} (ps ps' : pool A) hs cs w w' :
  R w w -> rtc pool_step (ps, w) (ps', w') -> pool_rg paid ps hs cs w -> ended ps' ->
  G (total cs) w w'.
Proof.
  intros Hw Hs Hp He. destruct (pool_rg_steps _ _ _ _ _ _ _ paid_stable Hw Hs Hp) as (hs' & cs' & d & Hp' & Hg & Hd).
  rewrite Hd, (total_zero cs'), (right_id_L no_credit credit_op); [done|]. intros j c Hc.
  destruct (lookup_lt_is_Some_2 ps' j) as [[cpu p] Hj].
  { rewrite <- (prg_length _ _ _ _ _ Hp'). by eapply lookup_lt_Some. }
  destruct (Forall2_lookup_l _ _ _ _ _ (prg_holders _ _ _ _ _ Hp') Hj) as (h & Hh & _).
  pose proof (prg_rg _ _ _ _ _ Hp' _ _ _ _ _ Hj Hh Hc) as Hr.
  destruct (Forall_lookup_1 _ _ _ _ He Hj) as [a Ha]. cbn in Ha. subst p. exact Hr.
Qed.
End RelyGuarantee.
