(* ===== verification/Gauges.v ===== *)
(** * Metrics of all CPUs together

    The tracing hooks add to metrics that every CPU has a copy of.  A [Gauge] is a
    number that the copies of a metric hold together: a count that is cut off, or
    a maximum.  In any interleaving, on any CPUs, the gauge of a flow moves by
    what the programs add to it and by nothing else: two CPUs that see a flow for
    the first time create one element, and no copy is ever lost. *)
From S2P Require Import Prelude Machine Types Kernel Maps Safety Metrics Concurrency Rings Credits.

(** The value of a copy, what a credit does to a value, and the value of all
    copies together. *)
Class Gauge (m : mapname) (M : Type) := {
  g_credit :: Credit M;
  g_get : value m → Z;
  g_add : Z → M → Z;
  g_all : list Z → Z;
}.

Class GaugeLaws {m M} (G : Gauge m M) := {
  g_percpu : map_type m = PERCPU_HASH;
  g_nonneg v : wf_value m v -> 0 <= g_get v;
  g_zero : g_get zeroed = 0;
  g_add_op x d1 d2 : g_add (g_add x d1) d2 = g_add x (d1 ⊕ d2);
  g_add_none l : g_add (g_all l) no_credit = g_all l;
  g_all_insert l i x d : Forall (Z.le 0) l -> l !! i = Some x ->
    g_all (<[i := g_add x d]> l) = g_add (g_all l) d;
  g_all_zeros n : g_all (replicate n 0) = 0;
}.

Section Gauges.
Context {K : Kernel} {KL : KernelLaws K} {m : mapname} {M : Type} {G : Gauge m M} {GL : GaugeLaws G}.
Context (cpus : list Z) (Hcpus : NoDup cpus).
Implicit Types (w : world) (id : key m).

Definition copies w (p : addr) : list Z := (λ c, g_get (cell_read (w_map w m) p c)) <$> cpus.

(** The gauge of a flow. *)
Definition gauge w id : Z :=
  match st_index (w_map w m) !! id with Some p => g_all (copies w p) | None => 0 end.

(** Elements are not removed, and the hooks stay on. *)
Record gauge_rely w w' : Prop := {
  grl_typed : typed w';
  grl_wf : world_wf w';
  grl_on : w_do_sampling w' <> 0;
  grl_stay id p : st_index (w_map w m) !! id = Some p -> st_index (w_map w' m) !! id = Some p;
}.

Definition gauge_guar id (d : M) w w' : Prop :=
  gauge_rely w w' /\ gauge w' id = g_add (gauge w id) d.

Lemma gauge_none w id : g_add (gauge w id) no_credit = gauge w id.
Proof.
  unfold gauge. case_match; [apply g_add_none|].
  pose proof (g_add_none (replicate 0 0)) as E. by rewrite g_all_zeros in E.
Qed.

Lemma gauge_rely_self w w' : gauge_rely w w' -> gauge_rely w' w'.
Proof. intros []. by split. Qed.
Lemma gauge_rely_trans w1 w2 w3 : gauge_rely w1 w2 -> gauge_rely w2 w3 -> gauge_rely w1 w3.
Proof. intros [] []. split; auto. Qed.

#[export] Instance gauge_discipline id : Discipline gauge_rely (gauge_guar id).
Proof.
  split.
  - apply gauge_rely_trans.
  - apply gauge_rely_self.
  - by intros d w w' [].
  - intros w Hw. split; [done|]. by rewrite gauge_none.
  - intros d1 d2 w1 w2 w3 [R1 E1] [R2 E2]. split.
    + by eapply gauge_rely_trans.
    + by rewrite E2, E1, g_add_op.
Qed.

Lemma gauge_ext w w' id : w_map w' m = w_map w m -> gauge w' id = gauge w id.
Proof. unfold gauge, copies. by intros ->. Qed.

(** ** Programs that leave the metric alone *)

Definition spares {X} (e : helper X) : Prop :=
  match e with
  | bpf_map_update_elem m' _ _ _ | bpf_map_delete_elem m' _ | elem_write m' _ _ => m' <> m
  | do_sampling_set v => v <> 0
  | _ => True
  end.

Lemma spares_map {X} cpu (e : helper X) w : spares e -> w_map (helper_sem cpu e w).2 m = w_map w m.
Proof.
  intros He.
  assert (Hone : ∀ m', m' <> m -> helper_writes [m'] [] e -> w_map (helper_sem cpu e w).2 m = w_map w m).
  { intros m' Hm' Hw. eapply helper_sem_map_frame; [exact Hw|]. rewrite list_elem_of_singleton. congruence. }
  destruct e; cbn in He; try (by apply (Hone m0); [|apply list_elem_of_here]); cbn.
  - by destruct (k_ktime _).
  - by destruct (k_prandom _).
  - done.
  - done.
  - by destruct (k_reserve _ _) as [[] ?].
  - done.
  - done.
  - done.
  - done.
Qed.

Lemma spares_sampling {X} cpu (e : helper X) w :
  spares e -> w_do_sampling w <> 0 -> w_do_sampling (helper_sem cpu e w).2 <> 0.
Proof.
  intros He Hw. destruct e; cbn in *; try done.
  - by destruct (k_ktime _).
  - by destruct (k_prandom _).
  - unfold map_update, map_insert. by split_cases.
  - unfold map_delete. by split_cases.
  - unfold map_write. by case_match.
  - by destruct (k_reserve _ _) as [[] ?].
Qed.

Lemma spared cpu id {X} (e : helper X) w :
  gauge_rely w w -> helper_ok e -> spares e -> gauge_guar id no_credit w (helper_sem cpu e w).2.
Proof.
  intros [Ht Hw Hs _] He Hsp. pose proof (spares_map cpu e w Hsp) as Hm. split.
  - split; [by apply helper_sem_ok|by apply helper_sem_wf|by apply spares_sampling|].
    intros i p. by rewrite Hm.
  - by rewrite gauge_none, (gauge_ext w).
Qed.

(** ** Programs that update the metric *)

Lemma copies_nonneg w p : typed w -> Forall (Z.le 0) (copies w p).
Proof.
  intros Ht. apply Forall_fmap, list.Forall_forall. intros c _. cbn. by apply g_nonneg, typed_read.
Qed.

(** A new value of one copy. *)
Lemma copies_insert w w' p cpu i v :
  cpus !! i = Some cpu ->
  (∀ c, c <> cpu -> cell_read (w_map w' m) p c = cell_read (w_map w m) p c) ->
  cell_read (w_map w' m) p cpu = v ->
  copies w' p = <[i := g_get v]> (copies w p).
Proof.
  intros Hi Ho Hv. apply list_eq. intros j. unfold copies. rewrite list_lookup_fmap.
  destruct (decide (i = j)) as [<-|Hne].
  - rewrite Hi, list_lookup_insert_eq by (rewrite length_fmap; by eapply lookup_lt_Some).
    cbn. by rewrite Hv.
  - rewrite list_lookup_insert_ne, list_lookup_fmap by done.
    destruct (cpus !! j) as [c|] eqn:Hj; [|done]. cbn. f_equal. rewrite Ho; [done|].
    intros ->. by apply Hne, (NoDup_lookup cpus i j cpu).
Qed.

Section Update.
Context (upd : Z → value m → value m) (new : Z → value m) (d : M) (id id' : key m).

(** What an update adds to the gauge of [id]. *)
Definition gauge_amount : M := if decide (id' = id) then d else no_credit.

(** The update adds [d] to a copy. *)
Record adds : Prop := {
  adds_upd_wf ts v : is_u64 ts -> wf_value m v -> wf_value m (upd ts v);
  adds_new_wf ts : is_u64 ts -> wf_value m (new ts);
  adds_upd ts v : wf_value m v -> g_get (upd ts v) = g_add (g_get v) d;
  adds_new ts : g_get (new ts) = g_add 0 d;
}.
Hypothesis Hadds : adds.

(** The map takes new flows. *)
Definition metric_room : Prop := ∀ idx k s, ∃ ev, (k_admit m idx k s).1 = Accept ev.
Hypothesis Hroom : metric_room.

Lemma gauge_amount_apply w w' :
  gauge_rely w w' -> (id' = id -> gauge w' id = g_add (gauge w id) d) ->
  (id' <> id -> gauge w' id = gauge w id) -> gauge_guar id gauge_amount w w'.
Proof.
  intros Hr He Hn. split; [done|]. unfold gauge_amount. case_decide; [by apply He|].
  by rewrite gauge_none, Hn.
Qed.

Lemma gauge_write cpu p ts w :
  cpu ∈ cpus -> gauge_rely w w -> is_u64 ts -> st_index (w_map w m) !! id' = Some p ->
  gauge_guar id gauge_amount w (helper_sem cpu (elem_write m p (λ v, (upd ts v, 0))) w).2.
Proof.
  intros [i Hi]%list_elem_of_lookup_1 [Ht Hw Hs _] Hts Hp.
  set (e := elem_write m p (λ v, (upd ts v, 0))).
  assert (He : helper_ok e) by (intros v Hv; by apply adds_upd_wf).
  pose proof (helper_sem_ok cpu e w Ht He) as [_ Ht'].
  pose proof (helper_sem_wf cpu e w Hw) as Hw'. set (w' := (helper_sem cpu e w).2) in *.
  assert (Hlt : (p <? st_next (w_map w m))%N = true).
  { apply N.ltb_lt. by eapply (index_fresh _ (proj1 Hw m)). }
  assert (Em : w_map w' m = cell_write (w_map w m) p cpu (upd ts (cell_read (w_map w m) p cpu))
      /\ w_do_sampling w' = w_do_sampling w).
  { unfold w', e. cbn. unfold map_write, slot, is_percpu. rewrite g_percpu, Hlt. cbn [snd fst].
    by rewrite upd_map_eq. }
  destruct Em as [Em Es]. apply gauge_amount_apply.
  - split; [done|done|by rewrite Es|]. intros k q. by rewrite Em.
  - intros <-. unfold gauge. rewrite Em. cbn [cell_write st_index]. rewrite Hp.
    rewrite (copies_insert w w' p cpu i (upd ts (cell_read (w_map w m) p cpu))); [|done|..].
    + rewrite adds_upd by (done || by apply typed_read).
      apply g_all_insert; [by apply copies_nonneg|]. unfold copies. by rewrite list_lookup_fmap, Hi.
    + intros c Hc. rewrite Em. unfold cell_read, cell_write. cbn. by rewrite lookup_insert_ne by congruence.
    + rewrite Em. unfold cell_read at 1, cell_write. cbn. by rewrite lookup_insert_eq.
  - intros Hne. unfold gauge. rewrite Em. cbn [cell_write st_index].
    destruct (st_index (w_map w m) !! id) as [q|] eqn:Hq; [|done].
    assert (q <> p) by (intros ->; apply Hne; by eapply (index_inj _ (proj1 Hw m))).
    f_equal. unfold copies. rewrite Em. unfold cell_read, cell_write. cbn.
    apply list_fmap_ext. intros j c _. by rewrite lookup_insert_ne by congruence.
Qed.

Lemma gauge_create cpu ts w :
  cpu ∈ cpus -> gauge_rely w w -> is_u64 ts -> st_index (w_map w m) !! id' = None ->
  let r := helper_sem cpu (bpf_map_update_elem m id' (new ts) BPF_NOEXIST) w in
  r.1 = 0 /\ gauge_guar id gauge_amount w r.2.
Proof.
  intros [i Hi]%list_elem_of_lookup_1 [Ht Hw Hs _] Hts Hn.
  set (e := bpf_map_update_elem m id' (new ts) BPF_NOEXIST).
  assert (He : helper_ok e) by by apply adds_new_wf.
  pose proof (helper_sem_ok cpu e w Ht He) as [_ Ht'].
  pose proof (helper_sem_wf cpu e w Hw) as Hw'. cbv zeta.
  set (r := helper_sem cpu e w) in *. set (w' := r.2) in *.
  assert (Er : r.1 = 0 /\ w_map w' m = cell_new (w_map w m) id' cpu (new ts) []
      /\ w_do_sampling w' = w_do_sampling w).
  { unfold w', r, e. cbn. unfold map_update, slot, is_percpu. rewrite g_percpu, Hn.
    rewrite decide_False by done. unfold map_insert.
    destruct (Hroom (st_index (w_map w m)) id' (w_kst w)) as [ev Hev].
    pose proof (admit_evicts m (st_index (w_map w m)) id' (w_kst w) ev Hev ltac:(by rewrite g_percpu)) as ->.
    destruct (k_admit _ _ _ _) as [verd st]. cbn in Hev. subst verd. cbn [fst snd].
    change (w_map (upd_kst st ?w') m) with (w_map w' m). by rewrite upd_map_eq. }
  destruct Er as (Er & Em & Es). split; [done|].
  assert (Hfresh : ∀ c, cell_read (w_map w m) (st_next (w_map w m)) c = zeroed).
  { intros c. unfold cell_read. by rewrite (cells_fresh _ (proj1 Hw m)). }
  apply gauge_amount_apply.
  - split; [done|done|by rewrite Es|]. intros k q Hq. rewrite Em. cbn.
    rewrite lookup_insert_ne; [done|]. intros ->. by rewrite Hn in Hq.
  - intros <-. unfold gauge. rewrite Em, Hn. cbn [cell_new st_index foldr]. rewrite lookup_insert_eq.
    rewrite (copies_insert w w' _ cpu i (new ts)); [|done|..].
    + rewrite (adds_new Hadds).
      assert (E : copies w (st_next (w_map w m)) = replicate (length cpus) 0).
      { unfold copies. apply list_eq. intros j. rewrite list_lookup_fmap.
        destruct (cpus !! j) as [c|] eqn:Hj; cbn.
        - rewrite Hfresh, g_zero. symmetry. apply lookup_replicate_2. by eapply lookup_lt_Some.
        - symmetry. apply lookup_replicate_None. by apply lookup_ge_None in Hj. }
      rewrite (g_all_insert _ _ 0), E, g_all_zeros; [done|by apply copies_nonneg|].
      rewrite E. apply lookup_replicate_2. by eapply lookup_lt_Some.
    + intros c Hc. rewrite Em. unfold cell_read, cell_new. cbn. by rewrite lookup_insert_ne by congruence.
    + rewrite Em. unfold cell_read, cell_new. cbn. by rewrite lookup_insert_eq.
  - intros Hne. unfold gauge. rewrite Em. cbn [cell_new st_index foldr].
    rewrite lookup_insert_ne by done. destruct (st_index (w_map w m) !! id) as [q|] eqn:Hq; [|done].
    f_equal. unfold copies. rewrite Em. apply list_fmap_ext. intros j c _.
    unfold cell_read, cell_new. cbn. rewrite lookup_insert_ne; [done|]. intros [= E].
    pose proof (index_fresh _ (proj1 Hw m) _ _ Hq). lia.
Qed.

Lemma rg_lookup_and_update cpu h w c (Q : Z → M → world → Prop) :
  cpu ∈ cpus -> gauge_rely w w ->
  (∀ w', gauge_rely w w' -> Q 0 no_credit w') ->
  (∀ w', gauge_rely w w' -> st_index (w_map w m) !! id' = None -> Q (-1) c w') ->
  c = gauge_amount ->
  rg (R := gauge_rely) (G := gauge_guar id) cpu Q h (lookup_and_update m id' upd) c w.
Proof.
  intros Hc Hw HQ HN ->. apply rg_call. intros w1 H1 _. left.
  cbn [helper_sem fst snd held_after]. rewrite map_find_index by (by rewrite g_percpu).
  pose proof (gauge_rely_self _ _ H1) as Hw1. split; [by apply guar_refl|].
  destruct (st_index (w_map w1 m) !! id') as [p|] eqn:Hp.
  - apply rg_call. intros w2 H2 _. left. pose proof (gauge_rely_self _ _ H2) as Hw2.
    split; [apply spared; done|].
    destruct (helper_sem_ok cpu bpf_ktime_get_ns w2 (grl_typed _ _ Hw2) I) as [Hts _].
    set (ts := (helper_sem cpu bpf_ktime_get_ns w2).1) in *.
    pose proof (spared cpu id bpf_ktime_get_ns w2 Hw2 I I) as [H3 _].
    set (w3 := (helper_sem cpu bpf_ktime_get_ns w2).2) in *.
    apply rg_call. intros w4 H4 _. right. pose proof (gauge_rely_self _ _ H4) as Hw4.
    assert (Hp4 : st_index (w_map w4 m) !! id' = Some p) by (by apply H4, H3, H2).
    pose proof (gauge_write cpu p ts w4 Hc Hw4 Hts Hp4) as Hg. split; [exact Hg|].
    apply rg_ret, HQ. eapply gauge_rely_trans; [exact H1|]. eapply gauge_rely_trans; [exact H2|].
    eapply gauge_rely_trans; [exact H3|]. eapply gauge_rely_trans; [exact H4|apply Hg].
  - apply rg_ret, HN; [done|]. destruct (st_index (w_map w m) !! id') as [p|] eqn:E; [|done].
    by rewrite (grl_stay _ _ H1 _ _ E) in Hp.
Qed.

(** The pattern of the hooks pays for its amount, whoever creates the element. *)
Lemma rg_upsert cpu h w :
  cpu ∈ cpus -> gauge_rely w w ->
  rg (R := gauge_rely) (G := gauge_guar id) cpu (λ _ c' w', c' = no_credit /\ gauge_rely w' w') h
    (upsert m id' upd new) gauge_amount w.
Proof.
  intros Hc Hw. apply rg_bind. eapply rg_lookup_and_update; [done|done|..|done].
  { intros w1 H1 h1. apply rg_ret. split; [done|by eapply gauge_rely_self]. }
  intros w1 H1 _ h1. change (-1 =? 0) with false. cbv iota.
  apply rg_call. intros w2 H2 _. left. pose proof (gauge_rely_self _ _ H2) as Hw2.
  pose proof (spared cpu id bpf_ktime_get_ns w2 Hw2 I I) as Hg3. split; [exact Hg3|].
  destruct (helper_sem_ok cpu bpf_ktime_get_ns w2 (grl_typed _ _ Hw2) I) as [Hts _].
  set (ts := (helper_sem cpu bpf_ktime_get_ns w2).1) in *.
  set (w3 := (helper_sem cpu bpf_ktime_get_ns w2).2) in *.
  apply rg_call. intros w4 H4 _. pose proof (gauge_rely_self _ _ H4) as Hw4.
  destruct (st_index (w_map w4 m) !! id') as [p|] eqn:Hp.
  - left. cbn [helper_sem]. unfold map_update. rewrite Hp. cbn [fst snd].
    split; [by apply guar_refl|].
    change (negb (- EEXIST =? 0)) with true. change (- EEXIST =? - EEXIST) with true. cbv iota.
    apply rg_lookup_and_update; [done|done| | |done].
    + intros w5 H5. split; [done|by eapply gauge_rely_self].
    + intros w5 H5 Hn. by rewrite Hp in Hn.
  - right. destruct (gauge_create cpu ts w4 Hc Hw4 Hts Hp) as [Hr Hg]. split; [exact Hg|].
    rewrite Hr. change (negb (0 =? 0)) with false. cbv iota.
    apply rg_ret. split; [done|]. eapply gauge_rely_self, Hg.
Qed.
End Update.

(** A safe program that spares the metric. *)
Lemma rg_spared {A} cpu id (P : A → Prop) (Q : A → M → world → Prop) h (p : prog A) c w :
  safe P p -> calls (@spares) p -> gauge_rely w w -> (∀ a w', P a -> gauge_rely w w' -> Q a c w') ->
  rg (R := gauge_rely) (G := gauge_guar id) cpu Q h p c w.
Proof.
  intros Hs Hp Hw HQ. eapply (rg_safe cpu (@spares) P); [by intros ? []| |done..].
  intros X e w1 H1 He Hsp. by apply spared.
Qed.

Lemma spares_writes {A} ms rs (p : prog A) : m ∉ ms -> writes ms rs p -> calls (@spares) p.
Proof.
  intros Hm Hp. eapply calls_mono; [by apply writes_calls|]. intros X e He.
  destruct e; cbn in *; try done; intros ->; by apply Hm.
Qed.
End Gauges.
