(* ===== verification/PerCpu.v ===== *)
(** * Metrics kept per CPU, while other CPUs run

    The tracing hooks write into per-CPU maps without a lock.  Here a program
    runs on a CPU [c] while any programs run on other CPUs: [apart] is what those
    may do to the world, [lwp] is the weakest precondition of a program whose
    calls are interleaved with theirs, and [upserted_apart] is what the update of
    a metric then does.  The elements are shared, their copies are not: an
    element may appear under way, but with a zero copy for [c], and no copy that
    [c] has written is ever changed or lost. *)
From stdpp Require Import relations.
From S2P Require Import Prelude Machine Types Kernel Maps Safety PacketUtils Frames Metrics CoreFill.
From S2P Require Import Filter Hooks Drops Rtt NetEvents Xlat Ipsec Tls Dns Quic Flows Capture Ssl.
From S2P Require Import Concurrency Programs.

(** ** Tame programs *)

(** A call that removes no element of a per-CPU hash, leaves the rules of the
    filter alone, and does not turn the hooks off. *)
Definition helper_tame {X} (e : helper X) : Prop :=
  match e with
  | bpf_map_update_elem m _ _ _ | elem_write m _ _ => map_type m <> LPM_TRIE
  | bpf_map_delete_elem m _ => map_type m <> LPM_TRIE /\ map_type m <> PERCPU_HASH
  | do_sampling_set v => v <> 0
  | _ => True
  end.

Fixpoint tame {A} (p : prog A) : Prop :=
  match p with
  | Ret _ | Fault => True
  | Vis e k => helper_tame e /\ ∀ x, tame (k x)
  end.

Lemma tame_bind {A B} (p : prog A) (f : A → prog B) :
  tame p -> (∀ a, tame (f a)) -> tame (p ≫= f).
Proof.
  intros Hp Hf. induction p as [a| |X e k IH]; cbn in *; [apply Hf|done|].
  destruct Hp as [He Hk]. split; [done|]. intros x. apply IH, Hk.
Qed.

Lemma tame_call {X} (e : helper X) : helper_tame e -> tame (call e).
Proof. done. Qed.

Lemma tame_deref {A} (o : option A) : tame (deref o).
Proof. by destruct o. Qed.

(** A known footprint is enough where nothing can be removed. *)
Lemma tame_writes {A} ms rs (p : prog A) :
  writes ms rs p -> Forall (λ m, map_type m <> LPM_TRIE /\ map_type m <> PERCPU_HASH) ms -> tame p.
Proof.
  rewrite list.Forall_forall. intros Hp Hms. induction p as [a| |X e k IH]; cbn in *; [done..|].
  destruct Hp as [He Hk]. split; [|intros x; apply IH, Hk].
  destruct e; cbn in *; try done; by destruct (Hms _ He).
Qed.

Lemma upsert_tame m id upd new : map_type m <> LPM_TRIE -> tame (upsert m id upd new).
Proof.
  intros Hm. assert (Hl : tame (lookup_and_update m id upd)).
  { apply tame_bind; [done|]. intros [p|]; [|done].
    apply tame_bind; [done|]. intros ts. by apply tame_bind; [apply tame_call|]. }
  apply tame_bind; [done|]. intros r. case_match; [done|].
  apply tame_bind; [done|]. intros ts. apply tame_bind; [by apply tame_call|]. intros r'.
  by repeat case_match.
Qed.

Lemma increase_counter_tame k : tame (increase_counter k).
Proof. eapply tame_writes; [apply increase_counter_writes|by repeat constructor]. Qed.

Lemma check_and_apply_filter_tame cfg id flags drop_reason eth_protocol sampling direction :
  tame (check_and_apply_filter cfg id flags drop_reason eth_protocol sampling direction).
Proof. eapply tame_writes; [apply check_and_apply_filter_writes|by repeat constructor]. Qed.

Create HintDb tame.
#[export] Hint Resolve upsert_tame increase_counter_tame check_and_apply_filter_tame tame_deref : tame.

#[local] Ltac tames :=
  cbv zeta;
  repeat lazymatch goal with
    | |- tame (_ ≫= _) => apply tame_bind; [|intros ?]
    | |- tame (call _) => apply tame_call
    | |- tame (match _ with _ => _ end) => case_match
    | |- tame _ => solve [done | auto with tame]
    end; try done.

Section TamePrograms.
Context {H : Host} {K : Kernel}.
Implicit Types cfg : config.

(** Every packet is sampled. *)
Definition samples_all cfg : Prop := sampling cfg <= 1 /\ has_filter_sampling cfg = 0.

Lemma account_flow_tame cfg skb pkt eth_protocol len flow_sampling direction tls :
  tame (account_flow cfg skb pkt eth_protocol len flow_sampling direction tls).
Proof. unfold account_flow, update_existing_flow. tames. Qed.
Lemma account_dns_tame pkt eth_protocol dns_errno : tame (account_dns pkt eth_protocol dns_errno).
Proof. unfold account_dns, update_dns, read_name. tames. Qed.
Lemma track_dns_packet_tame cfg skb pkt : tame (track_dns_packet cfg skb pkt).
Proof. eapply tame_writes; [apply track_dns_packet_writes|by repeat constructor]. Qed.
Lemma track_quic_packet_tame cfg skb pkt eth_protocol :
  tame (track_quic_packet cfg skb pkt eth_protocol).
Proof. unfold track_quic_packet. tames. Qed.
End TamePrograms.
#[export] Hint Resolve account_flow_tame account_dns_tame track_dns_packet_tame
  track_quic_packet_tame : tame.

Section TameAll.
Context {H : Host} {K : Kernel}.
Implicit Types cfg : config.

Lemma flow_monitor_tame cfg skb direction : samples_all cfg -> tame (flow_monitor cfg skb direction).
Proof.
  intros [Hs Hf]. unfold flow_monitor. rewrite Hf. change (0 =? 0) with true. cbv iota.
  assert (tame (sample (sampling cfg))).
  { unfold sample, sampled_out. by rewrite (proj2 (Z.ltb_ge 1 (sampling cfg))). }
  unfold parse_and_filter, process_packet. rewrite Hf. tames.
Qed.

Lemma program_tame cfg p : samples_all cfg -> tame (program_code cfg p).
Proof.
  intros Hs. destruct p; cbn [program_code].
  - by apply flow_monitor_tame.
  - unfold export_packet_payload, sampled_out, validate_packet_filter, attach_packet_payload. tames.
  - unfold kfree_skb, trace_pkt_drop. tames.
  - unfold tcp_rcv_fentry, calculate_flow_rtt_tcp. tames.
  - unfold tcp_rcv_kprobe, calculate_flow_rtt_tcp. tames.
  - unfold network_events_monitoring, trace_network_events, record_event,
      lookup_and_update_existing_flow_network_events. tames.
  - unfold track_nat_manip_pkt, trace_nat_manip_pkt, translate_lookup_and_update_flow. tames.
  - unfold xfrm_input_kprobe, enter_xfrm_func, remember_flow. tames.
  - unfold xfrm_input_kretprobe, update_flow_with_ipsec_return, ipsec_pending. tames.
  - unfold xfrm_output_kprobe, enter_xfrm_func, remember_flow. tames.
  - unfold xfrm_output_kretprobe, update_flow_with_ipsec_return, ipsec_pending. tames.
  - destruct op; cbn [ssl_prog]; unfold probe_entry_SSL_set_fd, probe_ret_SSL_set_fd,
      probe_entry_SSL_free, probe_entry_SSL_write, probe_entry_SSL_read, probe_ret_SSL_read,
      generate_SSL_data_event, bound_fd; tames.
Qed.
End TameAll.

(** ** What other programs may do *)

Section Apart.
Context {K : Kernel} {KL : KernelLaws K} (c : Z).
Implicit Types w : world.

(** A per-CPU hash seen from CPU [c]: elements stay, and unless the change is
    [c]'s own, so do its copies, and a new element has a zero copy. *)
Record store_apart {m} (own : Prop) (s s' : store m) : Prop := {
  sa_index k p : st_index s !! k = Some p -> st_index s' !! k = Some p;
  sa_cell p : ~ own -> cell_read s' p c = cell_read s p c;
  sa_new k p : ~ own -> st_index s' !! k = Some p ->
    st_index s !! k = Some p \/ cell_read s' p c = zeroed;
}.

(** The world seen from CPU [c], whose own changes are in [ms]: the per-CPU
    hashes, the filter, and the sampling flag as far as the hooks look at it. *)
Record apart (ms : list mapname) w w' : Prop := {
  ap_wf : world_wf w';
  ap_clock : clock w <= clock w';
  ap_sampling : w_do_sampling w <> 0 -> w_do_sampling w' <> 0;
  ap_filter m : map_type m = LPM_TRIE -> w_map w' m = w_map w m;
  ap_store m : map_type m = PERCPU_HASH -> store_apart (m ∈ ms) (w_map w m) (w_map w' m);
}.

Lemma store_apart_refl {m} own (s : store m) : store_apart own s s.
Proof. split; auto. Qed.

Lemma store_apart_trans {m} own (s1 s2 s3 : store m) :
  store_apart own s1 s2 -> store_apart own s2 s3 -> store_apart own s1 s3.
Proof.
  intros A B. split.
  - intros k p ?. by apply B, A.
  - intros p Ho. by rewrite (sa_cell _ _ _ B), (sa_cell _ _ _ A).
  - intros k p Ho H3. destruct (sa_new _ _ _ B k p Ho H3) as [H2|]; [|by right].
    destruct (sa_new _ _ _ A k p Ho H2) as [|H1]; [by left|]. right. by rewrite (sa_cell _ _ _ B).
Qed.

Lemma apart_refl ms w : world_wf w -> apart ms w w.
Proof. intros Hw. split; [done|lia|done|done|]. intros m _. apply store_apart_refl. Qed.

Lemma apart_trans ms w1 w2 w3 : apart ms w1 w2 -> apart ms w2 w3 -> apart ms w1 w3.
Proof.
  intros [A1 A2 A3 A4 A5] [B1 B2 B3 B4 B5]. split; [done|lia|auto|..].
  - intros m Hm. by rewrite B4, A4.
  - intros m Hm. eapply store_apart_trans; eauto.
Qed.

Lemma apart_mono ms ms' w w' : apart ms w w' -> ms ⊆ ms' -> apart ms' w w'.
Proof.
  intros [A1 A2 A3 A4 A5] Hms. split; [done..|]. intros m Hm. destruct (A5 m Hm) as [S1 S2 S3].
  split; [done|..]; intros; [apply S2|apply S3]; auto.
Qed.

(** A change of one map, and of none. *)
Lemma apart_one_map ms m w w' :
  world_wf w' -> clock w <= clock w' -> w_do_sampling w' = w_do_sampling w ->
  (∀ m', m' <> m -> w_map w' m' = w_map w m') -> map_type m <> LPM_TRIE ->
  (map_type m = PERCPU_HASH -> store_apart (m ∈ ms) (w_map w m) (w_map w' m)) ->
  apart ms w w'.
Proof.
  intros Hw Hc Hs Ho Hl Hm. split; [done|done|by rewrite Hs|..].
  - intros m' Hm'. apply Ho. by intros ->.
  - intros m' Hm'. destruct (decide (m' = m)) as [->|Hne]; [by apply Hm|].
    rewrite Ho by done. apply store_apart_refl.
Qed.

Lemma apart_same_maps ms w w' :
  world_wf w' -> clock w <= clock w' -> (∀ m, w_map w' m = w_map w m) ->
  (w_do_sampling w <> 0 -> w_do_sampling w' <> 0) -> apart ms w w'.
Proof.
  intros Hw Hc Hm Hs. split; [done..|]. intros m _. rewrite Hm. apply store_apart_refl.
Qed.

(** A write to the copy of another CPU. *)
Lemma cell_write_apart (own : Prop) m (s : store m) p cpu v :
  map_type m = PERCPU_HASH -> cpu <> c \/ own -> store_apart own s (cell_write s p (slot m cpu) v).
Proof.
  intros Hm Hc. split; [done| |by left]. intros q Ho. destruct Hc as [Hc|]; [|done].
  unfold cell_read, cell_write, slot, is_percpu. rewrite Hm. cbn.
  by rewrite lookup_insert_ne by congruence.
Qed.

Lemma cell_new_apart (own : Prop) m (s : store m) k cpu v :
  store_wf s -> map_type m = PERCPU_HASH -> st_index s !! k = None -> cpu <> c \/ own ->
  store_apart own s (cell_new s k (slot m cpu) v []).
Proof.
  intros Hs Hm Hk Hc.
  assert (Hread : ¬ own -> ∀ q, cell_read (cell_new s k (slot m cpu) v []) q c = cell_read s q c).
  { intros Ho q. destruct Hc as [Hc|]; [|done]. unfold cell_read, cell_new, slot, is_percpu.
    rewrite Hm. cbn. by rewrite lookup_insert_ne by congruence. }
  split; [|auto|].
  - intros k' q Hq. cbn. rewrite lookup_insert_ne; [done|]. intros ->. by rewrite Hk in Hq.
  - intros k' q Ho. cbn [cell_new st_index foldr]. intros [[_ <-]|[_ ?]]%lookup_insert_Some; [|by left].
    right. rewrite Hread by done. unfold cell_read. by rewrite (cells_fresh _ Hs).
Qed.

Lemma map_insert_apart (own : Prop) m k cpu v w :
  world_wf w -> map_type m = PERCPU_HASH -> st_index (w_map w m) !! k = None -> cpu <> c \/ own ->
  store_apart own (w_map w m) (w_map (map_insert (slot m cpu) k v (w_map w m) w).2 m).
Proof.
  intros Hw Hm Hk Hc. unfold map_insert.
  pose proof (admit_evicts m (st_index (w_map w m)) k (w_kst w)) as Hev.
  destruct (k_admit _ _ _ _) as [[ev|e] st]; cbn [fst snd] in *; [|apply store_apart_refl].
  rewrite (Hev ev eq_refl) by congruence.
  change (w_map (upd_kst st ?w') m) with (w_map w' m). rewrite upd_map_eq.
  apply cell_new_apart; [apply Hw|done..].
Qed.

(** A tame call of another CPU, or one of [c] that writes only to [ms]. *)
Lemma helper_apart {X} cpu (e : helper X) ms rs w :
  world_wf w -> helper_tame e -> cpu <> c \/ helper_writes ms rs e ->
  apart ms w (helper_sem cpu e w).2.
Proof.
  intros Hw He Hc. pose proof (helper_sem_wf cpu e w Hw) as Hw'.
  pose proof (helper_sem_clock cpu e w) as Hcl.
  assert (Hone : ∀ m, helper_writes [m] [] e -> map_type m <> LPM_TRIE ->
    (map_type m = PERCPU_HASH ->
      store_apart (m ∈ ms) (w_map w m) (w_map (helper_sem cpu e w).2 m)) ->
    apart ms w (helper_sem cpu e w).2).
  { intros m Hm Hl Hs. apply (apart_one_map ms m); [done|done| | |done|done].
    - destruct e; try done; cbn in *; [by destruct (k_ktime _)|by destruct (k_prandom _)| | | |].
      + unfold map_update, map_insert. by split_cases.
      + unfold map_delete. by split_cases.
      + unfold map_write. by case_match.
      + by destruct (k_reserve _ _) as [[] ?].
    - intros m' Hne. eapply helper_sem_map_frame; [exact Hm|]. by rewrite list_elem_of_singleton. }
  destruct e; try (apply apart_same_maps; done).
  - apply apart_same_maps; [done..| |]; cbn; by destruct (k_ktime _).
  - apply apart_same_maps; [done..| |]; cbn; by destruct (k_prandom _).
  - apply (Hone m); [by apply list_elem_of_singleton|done|]. intros Hm. cbn in Hc |- *.
    unfold map_update. rewrite Hm. destruct (st_index _ !! k) as [p|] eqn:Ek; [destruct f|].
    + unfold is_percpu. rewrite Hm. cbn [snd]. rewrite upd_map_eq. by apply cell_write_apart.
    + apply store_apart_refl.
    + case_decide; [done|]. by apply map_insert_apart.
  - apply (Hone m); [by apply list_elem_of_singleton|apply He|]. intros Hm. by destruct He.
  - apply (Hone m); [by apply list_elem_of_singleton|done|]. intros Hm. cbn in Hc |- *.
    unfold map_write. cbn [snd]. case_match; [|apply store_apart_refl].
    rewrite upd_map_eq. by apply cell_write_apart.
  - apply apart_same_maps; [done..| |]; cbn; by destruct (k_reserve _ _) as [[] ?].
Qed.
End Apart.

(** ** A program among others *)

Section Lwp.
Context {K : Kernel} {KL : KernelLaws K} (c : Z).
Implicit Types w : world.

(** Before each call of [p] on CPU [c], the others may have acted. *)
Fixpoint lwp {A} (Q : A → world → Prop) (p : prog A) w : Prop :=
  match p with
  | Ret a => Q a w
  | Fault => False
  | Vis e k => ∀ w1, apart c [] w w1 ->
      lwp Q (k (helper_sem c e w1).1) (helper_sem c e w1).2
  end.

Definition stable {A} (Q : A → world → Prop) : Prop :=
  ∀ a w w', Q a w -> apart c [] w w' -> Q a w'.

Lemma lwp_bind {A B} (p : prog A) (f : A → prog B) Q w :
  lwp (λ a w', lwp Q (f a) w') p w -> lwp Q (p ≫= f) w.
Proof.
  revert w. induction p as [a| |X e k IH]; intros w; cbn; [done..|].
  intros Hp w1 H1. by apply IH, Hp.
Qed.

Lemma lwp_mono {A} (p : prog A) (Q Q' : A → world → Prop) w :
  lwp Q p w -> (∀ a w', Q a w' -> Q' a w') -> lwp Q' p w.
Proof.
  intros Hp HQ. revert w Hp. induction p as [a| |X e k IH]; intros w; cbn; [auto|done|].
  intros Hp w1 H1. by apply IH, Hp.
Qed.

Lemma lwp_call {X} (e : helper X) (Q : X → world → Prop) w :
  (∀ w1, apart c [] w w1 -> Q (helper_sem c e w1).1 (helper_sem c e w1).2) -> lwp Q (call e) w.
Proof. done. Qed.

Lemma lwp_stable {A} (p : prog A) (Q : A → world → Prop) w w' :
  stable Q -> apart c [] w w' -> lwp Q p w -> lwp Q p w'.
Proof.
  intros HQ Hw. destruct p as [a| |X e k]; cbn; [by intros; eapply HQ|done|].
  intros Hp w1 H1. apply Hp. by eapply apart_trans.
Qed.

(** What the program itself has changed is within its footprint. *)
Lemma lwp_framed {A} (p : prog A) (Q : A → world → Prop) ms rs w :
  tame p -> writes ms rs p -> world_wf w -> lwp Q p w ->
  lwp (λ a w', Q a w' /\ apart c ms w w') p w.
Proof.
  intros Ht Hp Hw Hl.
  assert (Hg : ∀ w0, apart c ms w0 w -> lwp (λ a w', Q a w' /\ apart c ms w0 w') p w);
    [|by apply Hg, apart_refl].
  intros w0. clear Hw. revert w Hl.
  induction p as [a| |X e k IH]; intros w Hl H0; cbn in *; [done..|].
  destruct Ht as [He Ht], Hp as [Hwr Hp]. intros w1 H1.
  apply IH; [done|done|by apply Hl|]. eapply apart_trans; [exact H0|].
  eapply apart_trans; [by eapply apart_mono; [exact H1|apply list_subseteq_nil]|].
  eapply (helper_apart c); [apply H1|done|by right].
Qed.

(** *** Programs that only read the filter *)

Fixpoint reader {A} (p : prog A) : Prop :=
  match p with
  | Ret _ => True
  | Fault => False
  | Vis e k =>
      match e with
      | bpf_map_lookup_elem m _ | elem_read m _ => map_type m = LPM_TRIE
      | _ => False
      end /\ ∀ x, reader (k x)
  end.

Lemma reader_bind {A B} (p : prog A) (f : A → prog B) :
  reader p -> (∀ a, reader (f a)) -> reader (p ≫= f).
Proof.
  intros Hp Hf. induction p as [a| |X e k IH]; cbn in *; [apply Hf|done|].
  destruct Hp as [He Hk]. split; [done|]. intros x. apply IH, Hk.
Qed.

(** A reader answers as if it ran alone, at once. *)
Lemma lwp_reader {A} cpu (p : prog A) w0 w (Q : A → world → Prop) :
  reader p -> (∀ m, map_type m = LPM_TRIE -> w_map w m = w_map w0 m) -> world_wf w ->
  (∀ a w', (run cpu p w0).1 = Some a -> apart c [] w w' -> Q a w') -> lwp Q p w.
Proof.
  intros Hp Hm Hw HQ.
  assert (Hg : ∀ w1, apart c [] w w1 -> lwp Q p w1); [|by apply Hg, apart_refl].
  induction p as [a| |X e k IH]; intros w1 H1; cbn in Hp |- *; [by apply HQ|done|].
  destruct Hp as [He Hk]. intros w2 H2.
  assert (H02 : apart c [] w w2) by by eapply apart_trans.
  assert (E : ∀ m, map_type m = LPM_TRIE -> w_map w2 m = w_map w0 m).
  { intros m Hl. by rewrite (ap_filter _ _ _ _ H02 m Hl), Hm. }
  destruct e; try done; cbn [helper_sem fst snd].
  - rewrite E by done. apply IH; [done| |done]. intros a w' Ha. apply HQ. exact Ha.
  - apply IH; [done| |done]. intros a w' Ha. apply HQ. cbn.
    assert (slot m cpu = slot m c) as -> by (unfold slot, is_percpu; by rewrite He).
    by rewrite <- E.
Qed.
End Lwp.

(** *** The filter, and the update of a metric *)

Section Hook.
Context {K : Kernel} {KL : KernelLaws K} (c : Z).
Implicit Types w : world.

(** The copy of [c], zero when there is no element. *)
Definition copy (m : mapname) w (k : key m) : value m := default zeroed (elem c m w k).

Lemma apart_elem ms m w w' k v :
  map_type m = PERCPU_HASH -> m ∉ ms -> apart c ms w w' ->
  elem c m w k = Some v -> elem c m w' k = Some v.
Proof.
  intros Hm Hn Ha. assert (map_type m <> LPM_TRIE) by congruence.
  rewrite !elem_index by done. destruct (ap_store _ _ _ _ Ha m Hm) as [Hi Hc _].
  destruct (st_index (w_map w m) !! k) as [p|] eqn:E; [|done]. rewrite (Hi _ _ E). cbn.
  unfold slot, is_percpu. rewrite Hm. by rewrite Hc.
Qed.

Lemma apart_copy ms m w w' k :
  map_type m = PERCPU_HASH -> m ∉ ms -> apart c ms w w' -> copy m w' k = copy m w k.
Proof.
  intros Hm Hn Ha. unfold copy. destruct (elem c m w k) as [v|] eqn:E.
  { by rewrite (apart_elem _ _ _ _ _ _ Hm Hn Ha E). }
  assert (Hl : map_type m <> LPM_TRIE) by congruence.
  rewrite elem_index in E |- * by done. apply fmap_None in E.
  destruct (st_index (w_map w' m) !! k) as [p|] eqn:E'; [|done]. cbn.
  unfold slot, is_percpu. rewrite Hm.
  destruct (sa_new _ _ _ _ (ap_store _ _ _ _ Ha m Hm) k p Hn E') as [?|Hz]; [congruence|done].
Qed.

(** A call of the program itself that writes nothing. *)
Lemma own_step {X} (e : helper X) w :
  world_wf w -> helper_tame e -> helper_writes [] [] e -> apart c [] w (helper_sem c e w).2.
Proof. intros Hw Ht He. eapply (helper_apart c); [done|done|by right]. Qed.

Lemma matches_filter_reader id flags drop_reason eth_protocol sampling direction :
  reader (matches_filter id flags drop_reason eth_protocol sampling direction).
Proof.
  assert (Hl : ∀ key action len offset sampling use_src_ip, reader (do_filter_lookup id key action len offset
    flags drop_reason sampling direction use_src_ip eth_protocol)).
  { intros key action len offset s use_src_ip. unfold do_filter_lookup. apply reader_bind; [done|]. intros [p|]; [|done].
    apply reader_bind; [done|]. intros rule. destruct (if decide _ then _ else _).
    apply reader_bind.
    - case_match; [done|]. destruct (filter_setup_lookup_key _ _ _ _ _ _) as [[[ret ?] ?] ?].
      case_match; [done|]. apply reader_bind; [done|]. by intros [|].
    - intros [r|]; [|done]. by destruct (match s with Some _ => _ | None => _ end). }
  unfold matches_filter. destruct (filter_setup_lookup_key _ _ _ _ _ _) as [[[ret k] l] o].
  case_match; [done|]. apply reader_bind; [apply Hl|]. intros [[result action] s']. case_match; [done|].
  destruct (filter_setup_lookup_key _ _ _ _ _ _) as [[[ret' k'] l'] o'].
  case_match; [done|apply Hl].
Qed.

Lemma lwp_increase_counter k w : world_wf w -> lwp c (λ _ _, True) (increase_counter k) w.
Proof.
  intros Hw. apply lwp_bind, lwp_call. intros w1 H1.
  by destruct (helper_sem _ _ _).1.
Qed.

(** The filter decides as if the hook ran alone: nobody changes its rules. *)
Lemma lwp_hook_filter cfg id flags drop_reason eth_protocol direction
    (Q : bool * option Z → world → Prop) w0 w :
  world_wf w0 -> typed w0 -> wf_flow_id id -> apart c [] w0 w ->
  (∀ w', apart c [global_counters] w w' ->
     Q (filter_rejects c cfg w0 id flags drop_reason eth_protocol direction, None) w') ->
  lwp c Q (check_and_apply_filter cfg id flags drop_reason eth_protocol None direction) w.
Proof.
  intros Hw0 Ht Hid H0 HQ. pose proof (ap_wf _ _ _ _ H0) as Hw.
  set (r0 := (filter_rejects c cfg w0 id flags drop_reason eth_protocol direction, None)) in *.
  assert (Hwp : wp c (check_and_apply_filter cfg id flags drop_reason eth_protocol None direction)
    (λ r _, r = r0) w0) by by apply wp_hook_filter.
  assert (Hl : lwp c (λ r _, r = r0)
    (check_and_apply_filter cfg id flags drop_reason eth_protocol None direction) w).
  { revert Hwp. unfold check_and_apply_filter. case_match; [|done]. intros Hwp.
    apply lwp_bind. eapply (lwp_reader c c _ w0); [apply matches_filter_reader| |done|].
    { intros m Hm. by apply H0. }
    intros [[result action] s] w1 Hrun H1. unfold wp in Hwp. rewrite run_bind in Hwp.
    destruct (run c (matches_filter _ _ _ _ _ _) w0) as [? w2]. cbn in Hrun. subst.
    assert (Hc : ∀ k r,
      match run c (_ ← increase_counter k; mret (r : bool * option Z)) w2 with
      | (Some a, _) => a = r0 | (None, _) => False end ->
      lwp c (λ r _, r = r0) (_ ← increase_counter k; mret r) w1).
    { intros k r. rewrite run_bind. destruct (run c (increase_counter k) w2) as [[[]|] w3]; [|done].
      intros ->. apply lwp_bind. eapply lwp_mono; [apply lwp_increase_counter, H1|done]. }
    revert Hwp. destruct (negb _ && negb _); [destruct action; [apply Hc..|done]|apply Hc]. }
  eapply lwp_mono; [eapply lwp_framed; [apply check_and_apply_filter_tame
    |apply check_and_apply_filter_writes|done|exact Hl]|].
  intros r w' [-> Ha]. by apply HQ.
Qed.
End Hook.

Lemma lwp_ktime {K : Kernel} {KL : KernelLaws K} c (Q : Z → world → Prop) w :
  (∀ ts w', clock w <= ts <= clock w' -> apart c [] w w' -> Q ts w') ->
  lwp c Q (call bpf_ktime_get_ns) w.
Proof.
  intros HQ. apply lwp_call. intros w1 H1.
  pose proof (own_step c bpf_ktime_get_ns w1 (ap_wf _ _ _ _ H1) I I) as H2.
  pose proof (ktime_clock (w_kst w1)) as Hts. pose proof (ap_clock _ _ _ _ H1).
  apply HQ; [|by eapply apart_trans]. cbn. unfold clock in *. destruct (k_ktime (w_kst w1)). cbn in *. lia.
Qed.

Section Upsert.
Context {K : Kernel} {KL : KernelLaws K} (c : Z).
Context (m : mapname) (Hm : map_type m = PERCPU_HASH) (id : key m).
Context (upd : Z → value m → value m) (new : Z → value m).
Implicit Types w : world.

(** What an update does to [c]'s copy, with the time of the write: it updates
    what [c] had (or the zero copy of an element that another CPU created), or
    it creates the element, or the map refuses the flow, at a moment when there
    is no element of it. *)
Inductive upserted_apart w w' : Z → Prop :=
  | ApUpdated ts :
      clock w <= ts <= clock w' -> elem c m w' id = Some (upd ts (copy c m w id)) ->
      upserted_apart w w' 0
  | ApCreated ts :
      elem c m w id = None -> clock w <= ts <= clock w' -> elem c m w' id = Some (new ts) ->
      upserted_apart w w' 0
  | ApRefused e :
      elem c m w id = None -> map_refuses m id e w w' -> copy c m w' id = zeroed ->
      upserted_apart w w' e.

(** The elements of a per-CPU map only become more. *)
Lemma apart_index ms w w' :
  apart c ms w w' -> st_index (w_map w m) ⊆ st_index (w_map w' m).
Proof. intros Ha. apply map_subseteq_spec. intros k p. by apply (ap_store _ _ _ _ Ha m Hm). Qed.

Lemma upserted_apart_later ms w w1 w2 r :
  m ∉ ms -> apart c ms w w1 -> upserted_apart w1 w2 r -> upserted_apart w w2 r.
Proof.
  intros Hn Ha Hu. pose proof (ap_clock _ _ _ _ Ha) as Hc.
  pose proof (apart_copy c ms m w w1 id Hm Hn Ha) as Hcp.
  assert (Hno : elem c m w1 id = None -> elem c m w id = None).
  { intros H1. destruct (elem c m w id) as [v|] eqn:E; [|done].
    by rewrite (apart_elem c ms m w w1 id v Hm Hn Ha E) in H1. }
  destruct Hu as [ts Hts He|ts H1 Hts He|e H1 He Hz].
  - apply (ApUpdated _ _ ts); [lia|by rewrite <- Hcp].
  - apply (ApCreated _ _ ts); [auto|lia|done].
  - apply ApRefused; [auto| |done].
    eapply map_refuses_within; [by eapply apart_index|done|done|lia|exact He].
Qed.

Lemma upserted_apart_stable w : stable c (λ r w', upserted_apart w w' r).
Proof.
  intros r w1 w2 Hu Ha. pose proof (ap_clock _ _ _ _ Ha) as Hc.
  assert (Hn : m ∉ []) by apply not_elem_of_nil.
  destruct Hu as [ts Hts He|ts H1 Hts He|e H1 He Hz].
  - apply (ApUpdated _ _ ts); [lia|by eapply apart_elem].
  - apply (ApCreated _ _ ts); [done|lia|by eapply apart_elem].
  - apply ApRefused; [done| |by rewrite (apart_copy c [] m w1 w2)].
    eapply map_refuses_within; [done|lia|by eapply apart_index|exact Hc|exact He].
Qed.

Lemma elem_hash w : elem c m w id = (λ p, cell_read (w_map w m) p c) <$> st_index (w_map w m) !! id.
Proof. rewrite elem_index by congruence. unfold slot, is_percpu. by rewrite Hm. Qed.

Lemma lwp_lookup_and_update w (Q : Z → world → Prop) :
  world_wf w ->
  (∀ w', upserted_apart w w' 0 -> Q 0 w') ->
  (∀ w', elem c m w id = None -> apart c [] w w' -> Q (-1) w') ->
  lwp c Q (lookup_and_update m id upd) w.
Proof.
  intros Hw HQ HN. assert (Hn : m ∉ []) by apply not_elem_of_nil.
  apply lwp_bind, lwp_call. intros w1 H1. cbn [helper_sem fst snd].
  rewrite map_find_index by congruence.
  destruct (st_index (w_map w1 m) !! id) as [p|] eqn:Ep.
  - apply lwp_bind, lwp_ktime. intros ts w2 Hts H2.
    apply lwp_bind, lwp_call. intros w3 H3. apply HQ.
    assert (H13 : apart c [] w1 w3) by by eapply apart_trans.
    assert (Ep3 : st_index (w_map w3 m) !! id = Some p) by by apply (ap_store _ _ _ _ H13 m Hm).
    assert (Hp : (p <? st_next (w_map w3 m))%N = true).
    { apply N.ltb_lt. by eapply (index_fresh _ (proj1 (ap_wf _ _ _ _ H13) m)). }
    pose proof (apart_copy c [] m w w3 id Hm Hn (apart_trans _ _ _ _ _ H1 H13)) as Hcp.
    apply (ApUpdated _ _ ts).
    + pose proof (ap_clock _ _ _ _ H1). pose proof (ap_clock _ _ _ _ H2).
      pose proof (ap_clock _ _ _ _ H3).
      pose proof (helper_sem_clock c (elem_write m p (λ v, (upd ts v, 0))) w3). lia.
    + rewrite <- Hcp. unfold copy. rewrite !elem_hash, Ep3. cbn [helper_sem snd].
      unfold map_write. rewrite Hp. cbn [snd fst]. rewrite upd_map_eq. cbn. rewrite Ep3. cbn.
      unfold cell_read, cell_write, slot, is_percpu. rewrite Hm. cbn. by rewrite lookup_insert_eq.
  - apply HN; [|done]. destruct (elem c m w id) as [v|] eqn:E; [|done].
    pose proof (apart_elem c [] m w w1 id v Hm Hn H1 E) as E1. rewrite elem_hash, Ep in E1. done.
Qed.

Lemma lwp_upsert w : world_wf w -> lwp c (λ r w', upserted_apart w w' r) (upsert m id upd new) w.
Proof.
  intros Hw. assert (Hn : m ∉ []) by apply not_elem_of_nil.
  apply lwp_bind, lwp_lookup_and_update; [done|by intros w'|]. intros w1 HN H1. cbv iota.
  change (-1 =? 0) with false. cbv iota.
  apply lwp_bind, lwp_ktime. intros ts w2 Hts H2. apply lwp_bind, lwp_call. intros w3 H3.
  assert (H13 : apart c [] w w3)
    by (eapply apart_trans; [exact H1|]; by eapply apart_trans).
  pose proof (ap_wf _ _ _ _ H13) as Hw3.
  pose proof (ap_clock _ _ _ _ H1). pose proof (ap_clock _ _ _ _ H2).
  pose proof (ap_clock _ _ _ _ H3).
  pose proof (helper_sem_clock c (bpf_map_update_elem m id (new ts) BPF_NOEXIST) w3) as Hc3.
  cbn [helper_sem] in *. unfold map_update in *.
  destruct (st_index (w_map w3 m) !! id) as [p|] eqn:Ep.
  - cbn [fst snd]. change (negb (- EEXIST =? 0)) with true. change (- EEXIST =? - EEXIST) with true.
    cbv iota. apply lwp_lookup_and_update; [done| |].
    + intros w'. by apply (upserted_apart_later []).
    + intros w' E. by rewrite elem_hash, Ep in E.
  - rewrite decide_False in * by congruence. unfold map_insert in *.
    pose proof (admit_refuse m (st_index (w_map w3 m)) id (w_kst w3)) as Hr.
    destruct (k_admit _ _ _ _) as [[ev|e] st] eqn:Ea; cbn [fst snd] in *.
    + change (negb (0 =? 0)) with false. cbv iota. apply (ApCreated _ _ ts); [done|lia|].
      rewrite elem_hash. change (w_map (upd_kst st ?w') m) with (w_map w' m).
      rewrite upd_map_eq. cbn. rewrite lookup_insert_eq. cbn. unfold cell_read, slot, is_percpu.
      rewrite Hm. cbn. by rewrite lookup_insert_eq.
    + destruct (Hr e eq_refl) as [He Hne]. rewrite (proj2 (Z.eqb_neq e 0)) by lia. cbn [negb].
      rewrite (proj2 (Z.eqb_neq e _)) by done. apply ApRefused; [done| |].
      { exists (st_index (w_map w3 m)), (w_kst w3). split; [by eapply apart_index|]. split; [done|].
        split; [done|]. split; [unfold clock in *; cbn in *; lia|by rewrite Ea]. }
      unfold copy. rewrite elem_hash. change (w_map (upd_kst st w3) m) with (w_map w3 m). by rewrite Ep.
Qed.
End Upsert.

(** ** In a pool *)

Section Pool.
Context {K : Kernel} {KL : KernelLaws K} {A : Type} (c : Z).
Implicit Types w : world.

(** The program at [i] runs on [c], and no other one does. *)
Definition alone_on (i : nat) (Q : A → world → Prop) (ps : pool A) w : Prop :=
  world_wf w /\ (∃ p, ps !! i = Some (c, p) /\ lwp c Q p w) /\
  ∀ j cpu p, ps !! j = Some (cpu, p) -> tame p /\ (j <> i -> cpu <> c).

Lemma prog_step_tame cpu (p p' : prog A) w w' :
  tame p -> prog_step cpu p w = Some (p', w') -> tame p'.
Proof.
  destruct p as [a| |X e k]; cbn; [done..|]. intros [_ Hk].
  destruct (helper_sem cpu e w). intros [= <- <-]. apply Hk.
Qed.

(** The step of a program, seen from [c]. *)
Lemma prog_step_apart cpu (p p' : prog A) w w' :
  world_wf w -> tame p -> cpu <> c -> prog_step cpu p w = Some (p', w') -> apart c [] w w'.
Proof.
  destruct p as [a| |X e k]; cbn; [done..|]. intros Hw [He _] Hc.
  pose proof (helper_apart c cpu e [] [] w Hw He (or_introl Hc)) as Ha.
  destruct (helper_sem cpu e w). by intros [= <- <-].
Qed.

Lemma pool_step_alone i Q s s' :
  stable c Q -> pool_step s s' -> alone_on i Q s.1 s.2 -> alone_on i Q s'.1 s'.2.
Proof.
  unfold alone_on, pool in *. intros HQ [j cpu p p' ps w w' Hj Hp] (Hw & (q & Hi & Hq) & Hall).
  unfold pool in *. cbn [fst snd] in *.
  destruct (Hall _ _ _ Hj) as [Ht Hc]. pose proof (prog_step_tame _ _ _ _ _ Ht Hp) as Ht'.
  assert (Hw' : world_wf w').
  { destruct p as [a| |X e k]; cbn in Hp; [done..|].
    pose proof (helper_sem_wf cpu e w Hw) as Hw'. destruct (helper_sem cpu e w). by simplify_eq. }
  split; [done|]. split.
  - destruct (decide (j = i)) as [->|Hne].
    + rewrite Hj in Hi. injection Hi as -> ->. exists p'. split.
      * by eapply list_lookup_insert_eq, lookup_lt_Some.
      * destruct q as [a| |X e k]; cbn in Hp; [done..|]. pose proof (Hq w (apart_refl c [] w Hw)) as Hk.
        destruct (helper_sem c e w). cbn in Hk. by injection Hp as <- <-.
    + exists q. rewrite list_lookup_insert_ne by done. split; [done|].
      eapply lwp_stable; [done| |done].
      eapply (prog_step_apart cpu p p'); [done|done|by apply Hc|exact Hp].
  - intros j' cpu' p1 [(<- & [= <- <-] & _)|[_ Hj']]%list_lookup_insert_Some; [done|]. by apply Hall in Hj'.
Qed.

Lemma pool_steps_alone i Q s s' :
  stable c Q -> rtc pool_step s s' -> alone_on i Q s.1 s.2 -> alone_on i Q s'.1 s'.2.
Proof.
  intros HQ. induction 1 as [s|s1 s2 s3 H12 _ IH]; [done|]. intros Hs. apply IH.
  by eapply pool_step_alone.
Qed.
End Pool.

(** ** Drops, while other programs run *)

Section DropsApart.
Context {H : Host} {K : Kernel} {KL : KernelLaws K} (c : Z).
Implicit Types w : world.

Definition drop_recorded_apart (f : frame) (args : kfree_args) : world → world → Z → Prop :=
  let state := default 0 (ka_sk args) in
  let len := ks_len (ka_skb args) in
  upserted_apart c aggregated_flows_pkt_drop (frame_id f)
    (pkt_drop_update state (frame_flags f) (ka_reason args) len)
    (new_pkt_drop (ip_ethertype (f_ip f)) state (frame_flags f) (ka_reason args) len).

Lemma lwp_kfree_skb cfg args f w :
  world_wf w -> typed w -> holds_frame (ka_skb args) f -> wf_frame f -> records_drop w args ->
  filter_rejects c cfg w (frame_id f) (frame_flags f) (ka_reason args) (ip_ethertype (f_ip f)) 0
    = false ->
  lwp c (λ r w', drop_recorded_apart f args w w' r) (kfree_skb cfg args) w.
Proof.
  intros Hw Ht Hh Hf (Hs & Hr & Hi) Hrej. unfold kfree_skb. apply lwp_bind, lwp_call.
  intros w1 H1. cbn [helper_sem fst snd].
  rewrite (proj2 (Z.eqb_neq (w_do_sampling w1) 0)) by by apply (ap_sampling _ _ _ _ H1).
  rewrite (proj2 (Z.ltb_lt _ _)) by done. unfold trace_pkt_drop.
  rewrite elem_of_cons, list_elem_of_singleton in Hi.
  rewrite !(proj2 (Z.eqb_neq (ks_skb_iif _) _)) by tauto. cbn [orb].
  destruct (core_fill_frame _ _ Hh Hf) as (id & -> & ->). cbv beta iota.
  apply lwp_bind, (lwp_hook_filter c _ _ _ _ _ _ _ w); [done|done|apply (frame_id_ok _ _ Hh Hf)|done|].
  intros w2 H2. rewrite Hrej. cbv beta iota zeta.
  eapply lwp_mono; [apply lwp_upsert; [done|apply H2]|]. intros r w' Hu.
  eapply (upserted_apart_later c aggregated_flows_pkt_drop eq_refl _ _ _ [global_counters]); [by rewrite list_elem_of_singleton| |exact Hu].
  eapply apart_trans; [|exact H2]. eapply apart_mono; [exact H1|apply list_subseteq_nil].
Qed.
End DropsApart.
