(* ===== verification/HookTotals.v ===== *)
(** * The drops and the round-trip times of all CPUs

    Gauges of the metrics that the tracing hooks keep per CPU: the packets and the
    bytes that were dropped, cut off at 65535, and the largest round-trip time.
    Each hook adds its amount exactly once, and no other program of the agent
    moves the gauge, in any interleaving on any CPUs. *)
From S2P Require Import Prelude Machine Types Kernel Maps Safety PacketUtils Metrics CoreFill.
From S2P Require Import Filter Hooks Drops Rtt NetEvents Xlat Ipsec Tls Dns Quic Flows Capture Ssl.
From S2P Require Import Concurrency Programs Rings Credits Gauges PerCpu.

(** ** The gauges *)

Definition N_sum : Credit N := {| credit_op := N.add; no_credit := 0%N |}.
#[local] Instance N_max_assoc : Assoc (=) N.max := N.max_assoc.
#[local] Instance N_max_comm : Comm (=) N.max := N.max_comm.
#[local] Instance N_max_left_id : LeftId (=) 0%N N.max := N.max_0_l.
Definition N_max : Credit N := {| credit_op := N.max; no_credit := 0%N |}.

(** A count that is cut off at the largest 16-bit number. *)
Definition cut_off (x : Z) : Z := Z.min 65535 x.

Definition drop_gauge (get : pkt_drop_metrics → Z) : Gauge aggregated_flows_pkt_drop N :=
  {| g_credit := N_sum; g_get := get : value aggregated_flows_pkt_drop → Z;
     g_add x d := cut_off (x + Z.of_N d); g_all l := cut_off (Zsum l) |}.
Definition drop_packets : Gauge aggregated_flows_pkt_drop N := drop_gauge pd_packets.
Definition drop_bytes : Gauge aggregated_flows_pkt_drop N := drop_gauge pd_bytes.

Definition Zmax (l : list Z) : Z := foldr Z.max 0 l.
Definition rtt_peak : Gauge additional_flow_metrics N :=
  {| g_credit := N_max; g_get := am_flow_rtt : value additional_flow_metrics → Z;
     g_add x d := Z.max x (Z.of_N d); g_all := Zmax |}.

Lemma Zsum_insert l i x y : l !! i = Some x -> Zsum (<[i := y]> l) = Zsum l + (y - x).
Proof.
  unfold Zsum. revert i. induction l as [|z l IH]; intros [|i] Hi; cbn in *; [done..| |].
  - injection Hi as ->. lia.
  - change (z + foldr Z.add 0 (<[i:=y]> l) = z + foldr Z.add 0 l + (y - x)). rewrite (IH i Hi). lia.
Qed.

Lemma Zsum_part l i x : Forall (Z.le 0) l -> l !! i = Some x -> 0 <= x <= Zsum l.
Proof.
  unfold Zsum. intros Hl. revert i. induction Hl as [|z l Hz Hl IH]; intros [|i] Hi; cbn in *;
    [done..| |].
  - injection Hi as ->. enough (0 <= foldr Z.add 0 l) by lia.
    clear IH. induction Hl as [|? ? ? ? IH]; cbn; lia.
  - specialize (IH i Hi). lia.
Qed.

Lemma drop_gauge_laws get :
  (∀ v, wf_pkt_drop_metrics v -> 0 <= get v) -> get zeroed = 0 -> GaugeLaws (drop_gauge get).
Proof.
  intros Hw Hz. split; [done|exact Hw|exact Hz|..].
  - intros x d1 d2. cbn. unfold cut_off. lia.
  - intros l. cbn. unfold cut_off. lia.
  - intros l i x d Hl Hi. cbn. unfold cut_off. pose proof (Zsum_part l i x Hl Hi).
    rewrite (Zsum_insert l i x) by done. lia.
  - intros n. cbn. unfold cut_off, Zsum. induction n as [|n IH]; cbn in *; lia.
Qed.

#[export] Instance drop_packets_laws : GaugeLaws drop_packets.
Proof. apply drop_gauge_laws; [|done]. intros v (_ & _ & _ & [? _] & _). done. Qed.
#[export] Instance drop_bytes_laws : GaugeLaws drop_bytes.
Proof. apply drop_gauge_laws; [|done]. intros v (_ & _ & [? _] & _). done. Qed.

Lemma Zmax_insert l i x d :
  l !! i = Some x -> Zmax (<[i := Z.max x d]> l) = Z.max (Zmax l) d.
Proof.
  unfold Zmax. revert i. induction l as [|z l IH]; intros [|i] Hi; cbn in *; [done..| |].
  - injection Hi as ->. lia.
  - change (Z.max z (foldr Z.max 0 (<[i:=Z.max x d]> l)) = Z.max (Z.max z (foldr Z.max 0 l)) d).
    rewrite (IH i Hi). lia.
Qed.

Lemma Zmax_nonneg l : 0 <= Zmax l.
Proof. unfold Zmax. induction l; cbn; lia. Qed.

#[export] Instance rtt_peak_laws : GaugeLaws rtt_peak.
Proof.
  split; [done| |done|..].
  - intros v (_ & _ & [? _] & _). done.
  - intros x d1 d2. cbn. lia.
  - intros l. cbn. pose proof (Zmax_nonneg l). lia.
  - intros l i x d _ Hi. by apply Zmax_insert.
  - intros n. cbn. unfold Zmax. induction n as [|n IH]; cbn in *; [done|]. by rewrite IH.
Qed.

(** ** The programs that leave a metric alone *)

Section Spared.
Context {H : Host} {K : Kernel} {KL : KernelLaws K} {m : mapname} {M : Type} {G : Gauge m M}.
Implicit Types cfg : config.

Lemma flow_monitor_spares cfg skb direction :
  samples_all cfg -> m ∉ global_counters :: program_maps (FlowMonitor direction skb) ->
  calls (@spares m) (flow_monitor cfg skb direction).
Proof.
  intros [Hs Hf] Hm. unfold flow_monitor. rewrite Hf. change (0 =? 0) with true. cbv iota.
  unfold sample, sampled_out. rewrite (proj2 (Z.ltb_ge 1 (sampling cfg))) by done.
  apply calls_bind; [by split|]. intros []; [|done]. cbn [negb].
  unfold parse_and_filter. apply calls_bind; [done|]. intros ts.
  apply calls_bind; [unfold deref; by case_match|]. intros [[verdict pkt] e]. case_match; [done|].
  apply calls_bind.
  { eapply spares_writes; [|apply check_and_apply_filter_writes].
    intros ->%list_elem_of_singleton. by apply Hm, list_elem_of_here. }
  intros [skip s]. rewrite Hf. change (negb (0 =? 0)) with false. cbv iota zeta.
  destruct skip; [done|]. eapply spares_writes; [|apply process_packet_footprint]. exact Hm.
Qed.

Lemma program_spares cfg p :
  samples_all cfg -> m ∉ global_counters :: program_maps p -> calls (@spares m) (program_code cfg p).
Proof.
  intros Hc Hm. destruct (is_monitor p) eqn:E.
  - destruct p; try done. by apply flow_monitor_spares.
  - eapply spares_writes; [exact Hm|by apply program_footprint].
Qed.
End Spared.

(** ** Pools *)

Section Pools.
Context {H : Host} {K : Kernel} {KL : KernelLaws K} {m : mapname} {M : Type} {G : Gauge m M} {GL : GaugeLaws G}.
Context (cfg : config) (cpus : list Z) (id : key m) (amount : program → M).
Implicit Types w : world.

(** Programs that each pay for their amount. *)
Lemma programs_gauge l w ps w' :
  (∀ cpu h p w1, cpu ∈ cpus -> wf_program p -> gauge_rely (m := m) w1 w1 ->
     rg (R := gauge_rely (m := m)) (G := gauge_guar cpus id) cpu paid h (program_code cfg p) (amount p) w1) ->
  gauge_rely (m := m) w w -> Forall (λ t, t.1 ∈ cpus /\ wf_program t.2) l ->
  rtc pool_step (programs cfg l, w) (ps, w') -> ended ps ->
  gauge cpus w' id = g_add (gauge cpus w id) (total ((λ t, amount t.2) <$> l)).
Proof.
  intros Hpay Hw Hl Hs He.
  assert (Hg : gauge_guar cpus id (total ((λ t, amount t.2) <$> l)) w w'); [|by apply Hg].
  eapply (pool_rg_ended (R := gauge_rely (m := m))); [done|exact Hs| |done]. split.
  - apply programs_holders.
  - apply owned_start.
  - unfold programs. by rewrite !length_fmap.
  - intros j cpu p h c Hj _ Hc. unfold programs in Hj.
    apply list_lookup_fmap_Some in Hj as (t & [= -> ->] & Hj).
    rewrite list_lookup_fmap, Hj in Hc. injection Hc as <-.
    destruct (list.Forall_lookup_1 _ _ _ _ Hl Hj) as [Hcpu Hp]. by apply Hpay.
Qed.

(** A program that has no part in the metric pays nothing. *)
Lemma rg_other cpu h p w :
  samples_all cfg -> is_u32 (sampling cfg) -> wf_program p -> m ∉ global_counters :: program_maps p ->
  gauge_rely (m := m) w w ->
  rg (R := gauge_rely (m := m)) (G := gauge_guar cpus id) cpu paid h (program_code cfg p) no_credit w.
Proof.
  intros Hs Hu Hp Hm Hw.
  eapply (rg_spared cpus cpu id (λ _, True)); [by apply program_safe|by apply program_spares|done|done].
Qed.
End Pools.

(** ** Drops *)

Section Drops.
Context {H : Host} {K : Kernel} {KL : KernelLaws K}.
Implicit Types (cfg : config) (w : world).

(** The flow under which the hook records a drop. *)
Definition drop_key (args : kfree_args) : option flow_id :=
  let skb := ka_skb args in
  if (SKB_DROP_REASON_NOT_SPECIFIED <? ka_reason args)
      && negb ((ks_skb_iif skb =? 0) || (ks_skb_iif skb =? 1)) then
    let '(id, _, _, protocol) := core_fill_in_l23 skb in fst <$> core_fill_in_l4 skb id protocol 0
  else None.

Section Gauge.
Context (get : pkt_drop_metrics → Z) (GL : GaugeLaws (drop_gauge get)) (amt : kfree_args → N).
#[local] Instance G : Gauge aggregated_flows_pkt_drop N := drop_gauge get.
#[local] Instance G_laws : GaugeLaws G := GL.
Context (cpus : list Z) (Hcpus : NoDup cpus) (id : flow_id).

(** What a drop adds to the gauge of [id]. *)
Definition drop_amount (args : kfree_args) : N :=
  if decide (drop_key args = Some id) then amt args else 0%N.

(** The two ways in which the hook writes add the amount. *)
Hypothesis Hadds : ∀ args e flags, wf_kfree_args args -> is_u16 e -> is_u16 flags ->
  let state := default 0 (ka_sk args) in
  let len := ks_len (ka_skb args) in
  adds (m := aggregated_flows_pkt_drop)
    (pkt_drop_update state flags (ka_reason args) len)
    (new_pkt_drop e state flags (ka_reason args) len) (amt args).

Lemma rg_kfree_skb cfg cpu h args w :
  is_filter_enabled cfg = false -> metric_room (m := aggregated_flows_pkt_drop) -> cpu ∈ cpus ->
  wf_kfree_args args -> gauge_rely (m := aggregated_flows_pkt_drop) w w ->
  rg (R := gauge_rely (m := aggregated_flows_pkt_drop)) (G := gauge_guar cpus id) cpu paid h (kfree_skb cfg args) (drop_amount args) w.
Proof.
  intros Hf Hroom Hcpu Hwf Hw. destruct Hwf as (Hskb & Hst & Hre). unfold kfree_skb.
  apply rg_call. intros w1 H1 _. left. pose proof (gauge_rely_self _ _ H1) as Hw1.
  cbn [helper_sem fst snd held_after]. split; [by apply guar_refl|].
  rewrite (proj2 (Z.eqb_neq _ 0)) by apply Hw1. unfold drop_amount, drop_key, trace_pkt_drop.
  destruct (SKB_DROP_REASON_NOT_SPECIFIED <? ka_reason args); [|by apply rg_ret].
  destruct ((ks_skb_iif (ka_skb args) =? 0) || _); [by apply rg_ret|]. cbn [negb andb].
  pose proof (core_fill_in_l23_ok _ Hskb) as Hl.
  destruct (core_fill_in_l23 (ka_skb args)) as [[[i e] family] protocol]. destruct Hl as (Hi & He & Hp & _).
  destruct (core_fill_in_l4 (ka_skb args) i protocol 0) as [[i' flags]|] eqn:E; [|by apply rg_ret].
  destruct (core_fill_in_l4_ok _ _ _ _ _ _ Hskb Hi Hp zero_u16 E) as (Hi' & Hfl & _).
  rewrite check_and_apply_filter_disabled by done. cbn [fmap option_fmap option_map fst].
  apply rg_bind, rg_ret. intros h1.
  replace (if decide (Some i' = Some id) then amt args else 0%N)
    with (gauge_amount (m := aggregated_flows_pkt_drop) (amt args) id i')
    by (unfold gauge_amount; repeat case_decide; congruence || done).
  eapply rg_mono; [eapply (rg_upsert cpus Hcpus)|]; [by apply (Hadds args)|done..|].
  by intros r c w' [].
Qed.

(** What the programs add. *)
Definition program_drops (p : program) : N :=
  match p with DropProbe args => drop_amount args | _ => 0%N end.

Lemma programs_drops cfg l w ps w' :
  is_filter_enabled cfg = false -> metric_room (m := aggregated_flows_pkt_drop) ->
  samples_all cfg -> is_u32 (sampling cfg) ->
  gauge_rely (m := aggregated_flows_pkt_drop) w w -> Forall (λ t, t.1 ∈ cpus /\ wf_program t.2) l ->
  rtc pool_step (programs cfg l, w) (ps, w') -> ended ps ->
  gauge cpus w' id = cut_off (gauge cpus w id + Z.of_N (total (C := N_sum) ((λ t, program_drops t.2) <$> l))).
Proof.
  intros Hf Hroom Hs Hu Hw Hl Hst He.
  refine (programs_gauge (m := aggregated_flows_pkt_drop) cfg cpus id program_drops l w ps w' _ Hw Hl Hst He).
  intros cpu h p w1 Hcpu Hp Hw1.
  destruct (decide (aggregated_flows_pkt_drop ∈ global_counters :: program_maps p)) as [Hm|Hm].
  - destruct p; try (exfalso; revert Hm; apply (bool_decide_unpack _); by vm_compute).
    by apply rg_kfree_skb.
  - replace (program_drops p) with (no_credit (M := N)); [by apply rg_other|].
    destruct p; try done. exfalso. apply Hm, (bool_decide_unpack _). by vm_compute.
Qed.
End Gauge.
End Drops.

(** The drops of a flow among some programs, and their bytes. *)
Definition drops_of `{Host, Kernel} (id : flow_id) (l : list (Z * program)) : list kfree_args :=
  omap (λ t, match t.2 with
    | DropProbe args => if decide (drop_key args = Some id) then Some args else None
    | _ => None
    end) l.

Section DropTotals.
Context {H : Host} {K : Kernel} {KL : KernelLaws K}.
Implicit Types (cfg : config) (w : world).

Lemma total_drops amt id l :
  Z.of_N (total (C := N_sum) ((λ t, program_drops amt id t.2) <$> l))
  = Zsum ((λ a, Z.of_N (amt a)) <$> drops_of id l).
Proof.
  unfold drops_of, Zsum. induction l as [|[cpu p] l IH]; [done|].
  change (total (C := N_sum) ((λ t, program_drops amt id t.2) <$> (cpu, p) :: l))
    with (program_drops amt id p + total (C := N_sum) ((λ t, program_drops amt id t.2) <$> l))%N.
  rewrite N2Z.inj_add, IH. destruct p; try done. cbn [omap list_omap snd program_drops].
  unfold drop_amount. by case_decide.
Qed.

Lemma packets_add args e flags :
  wf_kfree_args args -> is_u16 e -> is_u16 flags ->
  adds (G := drop_packets)
    (pkt_drop_update (default 0 (ka_sk args)) flags (ka_reason args) (ks_len (ka_skb args)))
    (new_pkt_drop e (default 0 (ka_sk args)) flags (ka_reason args) (ks_len (ka_skb args))) 1%N.
Proof.
  intros (Hs & ? & ?) ??. split.
  - intros. by apply pkt_drop_update_ok.
  - intros. by apply new_pkt_drop_ok.
  - intros ts v (_ & _ & _ & Hp & _). by apply add_len_u16_min.
  - done.
Qed.

Lemma bytes_add args e flags :
  wf_kfree_args args -> is_u16 e -> is_u16 flags ->
  adds (G := drop_bytes)
    (pkt_drop_update (default 0 (ka_sk args)) flags (ka_reason args) (ks_len (ka_skb args)))
    (new_pkt_drop e (default 0 (ka_sk args)) flags (ka_reason args) (ks_len (ka_skb args)))
    (Z.to_N (ks_len (ka_skb args))).
Proof.
  intros (Hs & ? & ?) ??. destruct Hs as (_ & _ & _ & _ & _ & Hlen). split.
  - intros. by apply pkt_drop_update_ok.
  - intros. by apply new_pkt_drop_ok.
  - intros ts v (_ & _ & Hb & _).
    etrans; [by apply add_len_u16_min; [|apply Hlen]|]. cbn. by rewrite Z2N.id by apply Hlen.
  - intros ts.
    etrans; [by apply (add_len_u16_min 0); [|apply Hlen]|]. cbn. by rewrite Z2N.id by apply Hlen.
Qed.

(** In every interleaving the gauges count the drops of the flow, all of them. *)
Lemma drops_counted cpus id cfg l w ps w' :
  NoDup cpus -> is_filter_enabled cfg = false -> metric_room (m := aggregated_flows_pkt_drop) ->
  samples_all cfg -> is_u32 (sampling cfg) -> typed w -> world_wf w -> w_do_sampling w <> 0 ->
  Forall (λ t, t.1 ∈ cpus /\ wf_program t.2) l ->
  rtc pool_step (programs cfg l, w) (ps, w') -> ended ps ->
  gauge (G := drop_packets) cpus w' id
    = cut_off (gauge (G := drop_packets) cpus w id + Z.of_nat (length (drops_of id l))) /\
  gauge (G := drop_bytes) cpus w' id
    = cut_off (gauge (G := drop_bytes) cpus w id + dropped_bytes (drops_of id l)).
Proof.
  intros Hc Hf Hroom Hs Hu Ht Hw Hon Hl Hst He.
  assert (Hr : gauge_rely (m := aggregated_flows_pkt_drop) w w) by by split.
  pose proof (programs_drops pd_packets drop_packets_laws (λ _, 1%N) cpus Hc id
    (λ a e f Ha He Hf, packets_add a e f Ha He Hf) cfg l w ps w') as Hp.
  pose proof (programs_drops pd_bytes drop_bytes_laws (λ a, Z.to_N (ks_len (ka_skb a))) cpus Hc id
    (λ a e f Ha He Hf, bytes_add a e f Ha He Hf) cfg l w ps w') as Hb.
  split; [etrans; [by apply Hp|]|etrans; [by apply Hb|]]; rewrite total_drops; f_equal; f_equal.
  - unfold Zsum. induction (drops_of id l) as [|a l' IH]; [done|]. cbn in *. lia.
  - unfold dropped_bytes. f_equal. apply list_fmap_ext. intros i a Ha. cbn. rewrite Z2N.id; [done|].
    apply list_elem_of_lookup_2 in Ha. unfold drops_of in Ha.
    apply list_elem_of_omap in Ha as ([cpu p] & Hin & Ha). destruct p; try done. cbn in Ha. case_decide; [|done].
    injection Ha as ->. destruct (proj1 (list.Forall_forall _ _) Hl _ Hin) as [_ ((_ & _ & _ & _ & _ & Hlen) & _)].
    apply Hlen.
Qed.
End DropTotals.

(** ** Round-trip times *)

Section RoundTrips.
Context {H : Host} {K : Kernel} {KL : KernelLaws K}.
Implicit Types (cfg : config) (w : world).

(** The flow under which the hook records a round-trip time. *)
Definition rtt_key cfg (skb : ksk_buff) : option flow_id :=
  if (enable_rtt cfg =? 0) || (ks_skb_iif skb =? 0) || (ks_skb_iif skb =? 1) then None
  else
    let '(id, _, _, protocol) := core_fill_in_l23 skb in
    if protocol =? IPPROTO_TCP then Some (core_fill_in_tcp skb id 0).1 else None.

(** The round-trip time that a program measures of a flow, if any. *)
Definition measured cfg (id : flow_id) (sk : option tcp_sock) (skb : option ksk_buff) : option Z :=
  match sk, skb with
  | Some sk, Some skb => if decide (rtt_key cfg skb = Some id) then Some (rtt_ns sk) else None
  | _, _ => None
  end.
Definition program_rtt cfg (id : flow_id) (p : program) : option Z :=
  match p with
  | RttFentry sk skb | RttKprobe sk skb => measured cfg id sk skb
  | _ => None
  end.

Section Gauge.
Context (cpus : list Z) (Hcpus : NoDup cpus) (cfg : config) (id : flow_id).
Hypothesis Hfilter : is_filter_enabled cfg = false.
Hypothesis Hroom : metric_room (m := additional_flow_metrics).
#[local] Instance rtt_G : Gauge additional_flow_metrics N := rtt_peak.
#[local] Instance rtt_G_laws : GaugeLaws rtt_G := rtt_peak_laws.

Abbreviation rtt_rely := (gauge_rely (m := additional_flow_metrics)).
Abbreviation rrg := (rg (R := rtt_rely) (G := gauge_guar cpus id)).

Definition rtt_amount (o : option Z) : N := Z.to_N (default 0 o).

Lemma rtt_adds e sk : is_u16 e ->
  adds (m := additional_flow_metrics) (rtt_update (rtt_ns sk)) (new_rtt e (rtt_ns sk)) (Z.to_N (rtt_ns sk)).
Proof.
  intros He. pose proof (rtt_ns_u64 sk) as Hr. assert (0 <= rtt_ns sk) by apply Hr. split.
  - intros. by apply rtt_update_ok.
  - intros. by apply new_rtt_ok.
  - intros ts v Hv. cbn. unfold rtt_update. cbn. rewrite Z2N.id by done.
    case_match eqn:E; bool_to_prop; cbn in *; lia.
  - intros ts. cbn. rewrite Z2N.id by done. lia.
Qed.

Lemma ipsec_adds ret e : is_s32 ret -> is_u16 e ->
  adds (m := additional_flow_metrics) (ipsec_update ret e) (new_ipsec ret e) 0%N.
Proof.
  intros Hr He. split.
  - intros. by apply ipsec_update_ok.
  - intros. by apply new_ipsec_ok.
  - intros ts v (_ & _ & [Hv _] & _). cbn. assert (E : am_flow_rtt (ipsec_update ret e ts v) = am_flow_rtt v)
      by (unfold ipsec_update; cbv zeta; by repeat case_match).
    rewrite E. lia.
  - done.
Qed.

Lemma rg_hook_on {A} cpu h (k : Z → prog A) c w :
  rtt_rely w w -> (∀ s w', s <> 0 -> rtt_rely w' w' -> rrg cpu paid h (k s) c w') ->
  rrg cpu paid h (call do_sampling_get ≫= k) c w.
Proof.
  intros Hw Hk. apply rg_call. intros w1 H1 _. left. pose proof (gauge_rely_self _ _ H1) as Hw1.
  cbn [helper_sem fst snd held_after]. split; [by apply guar_refl|].
  apply Hk; [apply Hw1|done].
Qed.

Lemma rg_tcp_rcv cpu h sk skb w :
  cpu ∈ cpus -> wf_buffer skb -> rtt_rely w w ->
  rrg cpu paid h (tcp_rcv_fentry cfg sk skb) (rtt_amount (measured cfg id sk skb)) w.
Proof.
  intros Hcpu Hb Hw. unfold tcp_rcv_fentry, measured.
  destruct sk as [sk|], skb as [skb|]; try (by apply rg_ret).
  apply rg_hook_on; [done|]. intros s w1 Hs Hw1. rewrite (proj2 (Z.eqb_neq _ _) Hs).
  unfold calculate_flow_rtt_tcp, rtt_key.
  destruct (enable_rtt cfg =? 0); [by apply rg_ret|]. cbn [orb].
  destruct ((ks_skb_iif skb =? 0) || _); [by apply rg_ret|].
  pose proof (core_fill_in_l23_ok skb (Hb _ eq_refl)) as Hl.
  destruct (core_fill_in_l23 skb) as [[[i e] family] protocol]. destruct Hl as (_ & He & _).
  destruct (protocol =? IPPROTO_TCP); cbn [negb]; [|by apply rg_ret].
  destruct (core_fill_in_tcp skb i 0) as [i' flags]. cbn [fst].
  rewrite check_and_apply_filter_disabled by done. apply rg_bind, rg_ret. intros h1. cbv beta iota zeta.
  replace (rtt_amount (if decide (Some i' = Some id) then Some (rtt_ns sk) else None))
    with (gauge_amount (m := additional_flow_metrics) (Z.to_N (rtt_ns sk)) id i')
    by (unfold gauge_amount; repeat case_decide; congruence || done).
  apply rg_bind. eapply rg_mono; [eapply (rg_upsert cpus Hcpus)|]; [by apply (rtt_adds e sk)|done..|].
  intros r c w' [-> _] h2. by apply rg_ret.
Qed.

(** The returns of the IPsec functions write into the same map, and leave the
    round-trip times as they are. *)
Lemma rg_ipsec_return cpu h pid_tgid ret dir w :
  cpu ∈ cpus -> is_s32 ret -> rtt_rely w w ->
  rrg cpu paid h (update_flow_with_ipsec_return pid_tgid ret dir) 0%N w.
Proof.
  intros Hcpu Hr Hw. unfold update_flow_with_ipsec_return. apply rg_bind.
  eapply (rg_spared (m := additional_flow_metrics) cpus cpu id); [apply ipsec_pending_safe| |done|].
  { unfold ipsec_pending. case_match; (apply calls_bind; [done|]); intros [p|]; try done;
      by apply calls_bind. }
  intros [i|] w1 _ H1 h1; [|by apply rg_ret]. pose proof (gauge_rely_self _ _ H1) as Hw1.
  apply rg_bind.
  replace 0%N with (gauge_amount (m := additional_flow_metrics) 0%N id i)
    by (unfold gauge_amount; by case_decide).
  eapply rg_mono; [eapply (rg_upsert cpus Hcpus)|];
    [by apply (ipsec_adds ret); [|apply ethertype_u16]|done..|].
  intros r c w2 [-> Hw2] h2. apply rg_bind.
  eapply (rg_spared (m := additional_flow_metrics) cpus cpu id (λ _, True)); [|by case_match|done|].
  { by case_match; apply safe_call. }
  intros a w3 _ H3 h3. by apply rg_ret.
Qed.

Lemma rg_program_rtt cpu h p w :
  cpu ∈ cpus -> samples_all cfg -> is_u32 (sampling cfg) -> wf_program p -> rtt_rely w w ->
  rrg cpu paid h (program_code cfg p) (rtt_amount (program_rtt cfg id p)) w.
Proof.
  intros Hcpu Hs Hu Hp Hw.
  destruct (decide (additional_flow_metrics ∈ global_counters :: program_maps p)) as [Hm|Hm].
  - destruct p; try (exfalso; revert Hm; apply (bool_decide_unpack _); by vm_compute).
    + by apply rg_tcp_rcv.
    + by apply rg_tcp_rcv.
    + apply rg_hook_on; [done|]. intros s w1 _ Hw1. case_match; [by apply rg_ret|].
      by apply rg_ipsec_return.
    + apply rg_hook_on; [done|]. intros s w1 _ Hw1. case_match; [by apply rg_ret|].
      by apply rg_ipsec_return.
  - replace (rtt_amount (program_rtt cfg id p)) with (no_credit (M := N)); [by apply rg_other|].
    destruct p; try done; exfalso; apply Hm, (bool_decide_unpack _); by vm_compute.
Qed.

Lemma total_rtt l :
  Z.of_N (total (C := N_max) ((λ t : Z * program, rtt_amount (program_rtt cfg id t.2)) <$> l))
  = Zmax (omap (λ t, program_rtt cfg id t.2) l).
Proof.
  induction l as [|[cpu p] l IH]; [done|].
  change (total (C := N_max) (?f <$> (cpu, p) :: l))
    with (N.max (rtt_amount (program_rtt cfg id p)) (total (C := N_max) (f <$> l))).
  rewrite N2Z.inj_max, IH. unfold rtt_amount. cbn [omap list_omap snd].
  destruct (program_rtt cfg id p) as [t|] eqn:E; cbn [default].
  - change (Zmax (t :: ?x)) with (Z.max t (Zmax x)). rewrite Z2N.id; [done|].
    assert (∃ sk, t = rtt_ns sk) as [sk ->].
    { destruct p; try done; cbn in E; unfold measured in E; repeat case_match; simplify_eq; by eexists. }
    apply rtt_ns_u64.
  - pose proof (Zmax_nonneg (omap (λ t, program_rtt cfg id t.2) l)). cbn. lia.
Qed.

(** In every interleaving the gauge is the largest time measured. *)
Lemma rtt_measured l w ps w' :
  samples_all cfg -> is_u32 (sampling cfg) -> typed w -> world_wf w -> w_do_sampling w <> 0 ->
  Forall (λ t, t.1 ∈ cpus /\ wf_program t.2) l ->
  rtc pool_step (programs cfg l, w) (ps, w') -> ended ps ->
  gauge cpus w' id = Z.max (gauge cpus w id) (Zmax (omap (λ t, program_rtt cfg id t.2) l)).
Proof.
  intros Hs Hu Ht Hw Hon Hl Hst He. rewrite <- total_rtt.
  refine (programs_gauge (m := additional_flow_metrics) cfg cpus id
    (λ p, rtt_amount (program_rtt cfg id p)) l w ps w' _ _ Hl Hst He); [|by split].
  intros cpu h p w1 Hcpu Hp Hw1. by apply rg_program_rtt.
Qed.
End Gauge.
End RoundTrips.
