(* ===== verification/Accounting.v ===== *)
(** * Flow accounting under concurrency

    The flow map is shared by the CPUs: a flow is created with
    [BPF_NOEXIST] by the first program that gets there, and updated under its
    spin lock; when the map refuses a flow, its packet goes to the ring buffer.
    A [Tally] is a counter of the flow metrics with the amount a packet adds to
    it, and [balance] is what the map and the ring buffer hold together of the
    tally of a flow.  The discipline [flow_rely]/[flow_guar] says how the
    programs change the balance, and [frg_flow_monitor] shows that a run of the
    monitor adds the amount of its packet exactly once.  With the rely-guarantee
    logic, no packet is lost in any interleaving. *)
From S2P Require Import Prelude Machine Types Kernel Maps Safety PacketUtils Filter Metrics.
From S2P Require Import Drops Rtt NetEvents Xlat Ipsec Tls Dns Quic Flows Capture Ssl.
From S2P Require Import Concurrency Programs Rings Credits.

(** A counter of the flow metrics: its value, its modulus, and what a packet
    seen on the first interface of the flow adds to it. *)
Class Tally := {
  t_get : flow_metrics → Z;
  t_mod : Z;
  t_amount : sk_buff → Z;
}.

Class TallyLaws (T : Tally) := {
  t_range f : wf_flow_metrics f -> 0 <= t_get f < t_mod;
  t_new `{Host} skb pkt eth eth_protocol s direction tls :
    wf_skb skb ->
    t_get (new_flow_metrics skb pkt eth eth_protocol (skb_len skb) s direction tls)
    = t_amount skb mod t_mod;
  t_update pkt skb s direction tls f :
    fm_if_index_first_seen f = skb_ifindex skb ->
    t_get (update_locked pkt (skb_len skb) s (skb_ifindex skb) direction tls f).1
    = (t_get f + t_amount skb) mod t_mod;
  t_other pkt skb s direction tls f :
    fm_if_index_first_seen f <> skb_ifindex skb ->
    t_get (update_locked pkt (skb_len skb) s (skb_ifindex skb) direction tls f).1 = t_get f;
  t_errno e f : t_get (f <| fm_errno := e |>) = t_get f;
  t_positive skb : wf_skb skb -> 0 <= t_amount skb;
}.

(** The packets and the bytes of a flow. *)
Definition packets_tally : Tally :=
  {| t_get := fm_packets; t_mod := 2 ^ 32; t_amount _ := 1 |}.
Definition bytes_tally : Tally :=
  {| t_get := fm_bytes; t_mod := 2 ^ 64; t_amount := skb_len |}.

Lemma update_tls_get tls f :
  fm_packets (update_tls tls f) = fm_packets f /\ fm_bytes (update_tls tls f) = fm_bytes f /\
  fm_if_index_first_seen (update_tls tls f) = fm_if_index_first_seen f.
Proof. unfold update_tls. by repeat case_match. Qed.

Lemma add_observed_intf_get f i d :
  fm_packets (add_observed_intf f i d).2 = fm_packets f /\
  fm_bytes (add_observed_intf f i d).2 = fm_bytes f /\
  fm_if_index_first_seen (add_observed_intf f i d).2 = fm_if_index_first_seen f.
Proof.
  unfold add_observed_intf. case_match; [done|].
  destruct (observed_loop _ _ _ _ _) eqn:E; [|done].
  by apply observed_loop_Some in E as (? & -> & _).
Qed.

Lemma update_locked_get pkt len s if_index direction tls f :
  let f' := (update_locked pkt len s if_index direction tls f).1 in
  fm_if_index_first_seen f' = fm_if_index_first_seen f /\
  (if fm_if_index_first_seen f =? if_index
   then fm_packets f' = u32 (fm_packets f + 1) /\ fm_bytes f' = u64 (fm_bytes f + len)
   else fm_packets f' = fm_packets f /\ fm_bytes f' = fm_bytes f).
Proof.
  unfold update_locked. destruct (_ =? if_index).
  - cbn [fst]. match goal with |- context [update_tls tls ?g] =>
      destruct (update_tls_get tls g) as (-> & -> & ->) end. done.
  - destruct (negb (if_index =? 0)); [|done].
    match goal with |- context [add_observed_intf ?g if_index direction] =>
      pose proof (add_observed_intf_get g if_index direction) as (H1 & H2 & H3);
      destruct (add_observed_intf g if_index direction) as [r g'] end.
    cbn [fst snd] in *. by rewrite H1, H2, H3.
Qed.

#[export] Instance packets_tally_laws : TallyLaws packets_tally.
Proof.
  split; [intros f Hf; apply (wfm_packets _ Hf)|done| | |done|done]; intros pkt skb s direction tls f Hf; cbn;
    pose proof (update_locked_get pkt (skb_len skb) s (skb_ifindex skb) direction tls f) as [_ Hu];
    [rewrite (proj2 (Z.eqb_eq _ _) Hf) in Hu|rewrite (proj2 (Z.eqb_neq _ _) Hf) in Hu]; apply Hu.
Qed.

#[export] Instance bytes_tally_laws : TallyLaws bytes_tally.
Proof.
  split; [intros f Hf; apply (wfm_bytes _ Hf)|..].
  - intros H skb pkt eth e s d tls ((?&?) & _). cbn. rewrite Z.mod_small; [done|]. width. lia.
  - intros pkt skb s direction tls f Hf; cbn;
      pose proof (update_locked_get pkt (skb_len skb) s (skb_ifindex skb) direction tls f) as [_ Hu].
    rewrite (proj2 (Z.eqb_eq _ _) Hf) in Hu. apply Hu.
  - intros pkt skb s direction tls f Hf; cbn;
      pose proof (update_locked_get pkt (skb_len skb) s (skb_ifindex skb) direction tls f) as [_ Hu].
    rewrite (proj2 (Z.eqb_neq _ _) Hf) in Hu. apply Hu.
  - done.
  - intros skb ((? & ?) & _). done.
Qed.

(** ** The discipline of the flow map *)

Section FlowDiscipline.
Context {K : Kernel} {KL : KernelLaws K} {T : Tally} {TL : TallyLaws T}.
Implicit Types w : world.

Definition flow_addr w (id : key aggregated_flows) : option addr := st_index (w_map w aggregated_flows) !! id.
Definition the_flow w (id : flow_id) : option flow_metrics := elem 0 aggregated_flows w id.

(** Flows are not removed. *)
Record flow_rely w w' : Prop := {
  frl_typed : typed w';
  frl_wf : world_wf w';
  frl_stay id p : flow_addr w id = Some p -> flow_addr w' id = Some p;
}.

(** The map always has room for a flow; the ring buffer for a record. *)
Definition flows_room : Prop :=
  ∀ idx id s, ∃ ev, (k_admit aggregated_flows idx id s).1 = Accept ev.
Definition ring_room : Prop := ∀ s, (k_reserve direct_flows s).1 = true.

(** A packet finds a place in the map or in the ring buffer. *)
Definition kept (cfg : config) : Prop :=
  flows_room \/ ring_room /\ 0 < enable_directflows_ringbuf cfg.

(** What the ring buffer holds of flow [id], as seen on the interface [ifx]. *)
Definition record_amount (id : flow_id) (ifx : Z) (s : Kernel.sample flow_record) : Z :=
  match s with
  | Committed d =>
      if decide (fr_id d = id /\ fm_if_index_first_seen (fr_metrics d) = ifx)
      then t_get (fr_metrics d) else 0
  | Busy | Discarded => 0
  end.
Definition ring_amount (id : flow_id) (ifx : Z) w : Z :=
  total (record_amount id ifx <$> w_ring w direct_flows).

Definition balance (id : flow_id) (ifx : Z) w : Z :=
  default 0 (t_get <$> the_flow w id) + ring_amount id ifx w.

(** No other interface is the first one of the flow. *)
Definition fits (id : flow_id) (ifx : Z) w : Prop :=
  ∀ f, the_flow w id = Some f -> fm_if_index_first_seen f = ifx.

(** The balance of flow [id] goes up by [d], if [ifx] is its first interface;
    the ring buffer is only used when the map has refused a flow. *)
Record flow_guar (id : flow_id) (ifx d : Z) w w' : Prop := {
  fg_rely : flow_rely w w';
  fg_fits : fits id ifx w' -> fits id ifx w;
  fg_balance : fits id ifx w' ->
    balance id ifx w' mod t_mod = (balance id ifx w + d) mod t_mod;
  fg_ring : flows_room -> w_ring w' direct_flows = w_ring w direct_flows;
}.

Lemma the_flow_addr w id :
  the_flow w id = (λ p, cell_read (w_map w aggregated_flows) p 0) <$> flow_addr w id.
Proof. unfold the_flow. by rewrite elem_index. Qed.

Lemma the_flow_None w id : the_flow w id = None <-> flow_addr w id = None.
Proof. rewrite the_flow_addr. by destruct (flow_addr w id). Qed.

Lemma the_flow_wf w id f : typed w -> the_flow w id = Some f -> wf_flow_metrics f.
Proof. apply (typed_elem 0 aggregated_flows). Qed.

Lemma stay_None w w' id : flow_rely w w' -> the_flow w' id = None -> the_flow w id = None.
Proof.
  intros Hr. rewrite !the_flow_None. destruct (flow_addr w id) as [p|] eqn:E; [|done].
  by rewrite (frl_stay _ _ Hr id p E).
Qed.

Lemma flow_rely_refl w : typed w -> world_wf w -> flow_rely w w.
Proof. by split. Qed.

Lemma flow_rely_self w w' : flow_rely w w' -> flow_rely w' w'.
Proof. intros []. by apply flow_rely_refl. Qed.

Lemma flow_rely_trans w1 w2 w3 : flow_rely w1 w2 -> flow_rely w2 w3 -> flow_rely w1 w3.
Proof. intros [] []. split; auto. Qed.

(** The flow and the ring buffer are as before. *)
Lemma flow_guar_unchanged id ifx w w' :
  flow_rely w w' -> the_flow w' id = the_flow w id -> ring_amount id ifx w' = ring_amount id ifx w ->
  (flows_room -> w_ring w' direct_flows = w_ring w direct_flows) -> flow_guar id ifx 0 w w'.
Proof.
  intros Hr Hf Ha Hg. split; [done| |intros _|done].
  - intros Hfit f E. apply Hfit. by rewrite Hf.
  - unfold balance. by rewrite Hf, Ha, Z.add_0_r.
Qed.

Lemma ring_amount_ext id ifx w w' :
  w_ring w' direct_flows = w_ring w direct_flows -> ring_amount id ifx w' = ring_amount id ifx w.
Proof. unfold ring_amount. by intros ->. Qed.

Lemma balance_Some id ifx w f :
  the_flow w id = Some f -> balance id ifx w = t_get f + ring_amount id ifx w.
Proof. unfold balance. by intros ->. Qed.

Lemma balance_None id ifx w : the_flow w id = None -> balance id ifx w = ring_amount id ifx w.
Proof. unfold balance. by intros ->. Qed.

(** Nothing happens to the flow map and the ring buffer. *)
Lemma flow_guar_same id ifx w w' :
  typed w' -> world_wf w' -> w_map w' aggregated_flows = w_map w aggregated_flows ->
  w_ring w' direct_flows = w_ring w direct_flows -> flow_guar id ifx 0 w w'.
Proof.
  intros Ht Hw Hm Hr. apply flow_guar_unchanged; [| |by apply ring_amount_ext|done].
  - split; [done..|]. intros id' p. unfold flow_addr. by rewrite Hm.
  - exact (elem_ext 0 aggregated_flows w w' id Hm).
Qed.

#[export] Instance flow_discipline id ifx : Discipline flow_rely (flow_guar id ifx).
Proof.
  split.
  - apply flow_rely_trans.
  - apply flow_rely_self.
  - by intros d w w' [].
  - intros w [Ht Hw _]. by apply flow_guar_same.
  - intros d1 d2 w1 w2 w3 [R1 F1 B1 G1] [R2 F2 B2 G2]. split.
    + by eapply flow_rely_trans.
    + auto.
    + intros Hf. rewrite (B2 Hf), <- Zplus_mod_idemp_l, (B1 (F2 Hf)), Zplus_mod_idemp_l.
      by rewrite Z.add_assoc.
    + intros Hr. by rewrite (G2 Hr), (G1 Hr).
Qed.

(** Programs that write neither the flow map nor its ring buffer. *)
Lemma frg_safe {A} cpu id ifx ms rs (P : A → Prop) (Q : A → Z → world → Prop) h (p : prog A) c w :
  safe P p -> writes ms rs p -> aggregated_flows ∉ ms -> direct_flows ∉ rs -> flow_rely w w ->
  (∀ a w', P a -> flow_rely w w' -> Q a c w') ->
  rg (R := flow_rely) (G := flow_guar id ifx) cpu Q h p c w.
Proof.
  intros Hs Hp Hm Hrs Hw HQ. eapply (rg_safe cpu (λ _, helper_writes ms rs) P);
    [by intros ? []| |done|by apply writes_calls|done..].
  intros X e w1 H1 He Hwe. apply flow_guar_same.
  - by apply (helper_sem_ok cpu e w1 (frl_typed _ _ H1)).
  - apply helper_sem_wf, H1.
  - by eapply helper_sem_map_frame.
  - by eapply helper_sem_ring_frame.
Qed.

(** What a packet of flow [id'] adds to the tally of [id]. *)
Definition packet_amount (id : flow_id) (ifx : Z) (skb : sk_buff) (id' : flow_id) : Z :=
  if decide (id' = id) then if skb_ifindex skb =? ifx then t_amount skb else 0 else 0.

(** Writing a flow through its pointer. *)
Lemma flow_write cpu w id p f v :
  world_wf w -> flow_addr w id = Some p -> the_flow w id = Some v ->
  let w' := (helper_sem cpu (elem_write aggregated_flows p f) w).2 in
  the_flow w' id = Some (f v).1 /\
  (∀ id', id' <> id -> the_flow w' id' = the_flow w id') /\
  (∀ id', flow_addr w' id' = flow_addr w id').
Proof.
  intros Hw Hp Hv w'.
  assert (Hat : elem_at 0 aggregated_flows w id p v).
  { split; [done|]. rewrite the_flow_addr, Hp in Hv. by injection Hv. }
  pose proof (wp_write 0 aggregated_flows id p v f (λ _ w1, w1 = w' ->
    the_flow w1 id = Some (f v).1 /\ (∀ id', id' <> id -> the_flow w1 id' = the_flow w id')) w
    Hw ltac:(done) Hat) as Hwp.
  cut (∀ id', flow_addr w' id' = flow_addr w id').
  - intros Ha. split_and!; [..|done].
    + refine (proj1 (Hwp _ eq_refl)). intros w1 Hu _ _. split; [apply Hu|]. intros. by apply Hu.
    + refine (proj2 (Hwp _ eq_refl)). intros w1 Hu _ _. split; [apply Hu|]. intros. by apply Hu.
  - intros id'. unfold flow_addr, w'. cbn. unfold map_write. cbn. case_match; [|done].
    by rewrite upd_map_eq.
Qed.

Lemma guar_update cpu id ifx (id' : flow_id) skb pkt s direction tls p w :
  flow_rely w w -> flow_addr w id' = Some p -> wf_skb skb -> wf_pkt pkt -> is_u32 s ->
  is_u8 direction -> wf_tls_info tls ->
  flow_guar id ifx (packet_amount id ifx skb id') w
    (helper_sem cpu (elem_write aggregated_flows p
      (update_locked pkt (skb_len skb) s (skb_ifindex skb) direction tls)) w).2.
Proof.
  intros Hw Hp Hskb Hpkt Hs Hd Htls.
  destruct (the_flow w id') as [v|] eqn:Hv; [|by apply the_flow_None in Hv; rewrite Hv in Hp].
  pose proof (the_flow_wf _ _ _ (frl_typed _ _ Hw) Hv) as Hvw.
  set (f := update_locked _ _ _ _ _ _).
  assert (Hf : ∀ u, wf_flow_metrics u -> wf_flow_metrics (f u).1)
    by (intros u Hu; apply update_locked_ok; try done; apply Hskb).
  pose proof (helper_sem_ok cpu (elem_write aggregated_flows p f) w (frl_typed _ _ Hw) Hf) as [_ Ht].
  pose proof (helper_sem_wf cpu (elem_write aggregated_flows p f) w (frl_wf _ _ Hw)) as Hw'.
  destruct (flow_write cpu w id' p f v (frl_wf _ _ Hw) Hp Hv) as (E & Eo & Ea).
  set (w' := (helper_sem _ _ _).2) in *.
  assert (Hr : flow_rely w w').
  { split; [done..|]. intros i q. by rewrite Ea. }
  assert (Hring : w_ring w' direct_flows = w_ring w direct_flows)
    by (unfold w'; cbn; unfold map_write; by case_match).
  unfold packet_amount. destruct (decide (id' = id)) as [->|Hne].
  2: { apply flow_guar_unchanged; [done| |by apply ring_amount_ext|done]. apply Eo. congruence. }
  destruct (update_locked_get pkt (skb_len skb) s (skb_ifindex skb) direction tls v) as [Hfirst _].
  split; [done| | |done].
  - intros Hfit u Hu. rewrite Hv in Hu. injection Hu as <-. etrans; [symmetry; exact Hfirst|by apply Hfit].
  - intros Hfit. rewrite (balance_Some _ _ _ _ E), (balance_Some _ _ _ _ Hv), (ring_amount_ext _ _ _ _ Hring).
    assert (Hfv : fm_if_index_first_seen v = ifx) by (rewrite <- (Hfit _ E); symmetry; exact Hfirst).
    subst f. destruct (skb_ifindex skb =? ifx) eqn:Ei; bool_to_prop.
    + rewrite t_update by congruence. rewrite Zplus_mod_idemp_l. f_equal. lia.
    + rewrite t_other by congruence. by rewrite Z.add_0_r.
Qed.

(** Creating a flow, unless another program did or the map refuses it. *)
Lemma flow_create cpu w id v :
  world_wf w ->
  let r := helper_sem cpu (bpf_map_update_elem aggregated_flows id v BPF_NOEXIST) w in
  match flow_addr w id with
  | Some p => r = (- EEXIST, w)
  | None =>
      (r.1 = 0 /\ the_flow r.2 id = Some v /\
        (∀ id', id' <> id -> the_flow r.2 id' = the_flow w id') /\
        (∀ id' p, flow_addr w id' = Some p -> flow_addr r.2 id' = Some p)) \/
      (~ flows_room /\ -4096 < r.1 < 0 /\ r.1 <> - EEXIST /\ ∀ m, w_map r.2 m = w_map w m)
  end.
Proof.
  intros Hw r. unfold flow_addr at 1.
  destruct (st_index (w_map w aggregated_flows) !! id) as [p|] eqn:Hp.
  { subst r. cbn. unfold map_update. by rewrite Hp. }
  assert (Hn : elem 0 aggregated_flows w id = None) by by apply the_flow_None.
  destruct (k_admit aggregated_flows (st_index (w_map w aggregated_flows)) id (w_kst w)).1
    as [ev|e] eqn:Hadm.
  2: { right. destruct (admit_refuse _ _ _ _ _ Hadm) as [He Hne]. split.
    - intros Hroom. destruct (Hroom (st_index (w_map w aggregated_flows)) id (w_kst w)) as [ev Hev].
      by rewrite Hadm in Hev.
    - subst r. cbn. unfold map_update. rewrite Hp. cbn. unfold map_insert.
      destruct (k_admit aggregated_flows _ id (w_kst w)) as [verd st]. cbn in *. by subst verd. }
  left. assert (ev = []) as -> by (by eapply (admit_evicts aggregated_flows)).
  assert (Hr : r = (0, r.2) /\ r.2 = upd_kst (k_admit aggregated_flows
      (st_index (w_map w aggregated_flows)) id (w_kst w)).2
    (upd_map aggregated_flows (cell_new (w_map w aggregated_flows) id 0 v []) w)).
  { subst r. cbn. unfold map_update. rewrite Hp. cbn. unfold map_insert.
    destruct (k_admit aggregated_flows _ id (w_kst w)) as [verd st]. cbn in *. by subst verd. }
  destruct Hr as [Hr1 Hr2].
  pose proof (cell_new_updated 0 aggregated_flows id v w _ Hw ltac:(done) ltac:(done) Hp
    (admit_clock aggregated_flows (st_index (w_map w aggregated_flows)) id (w_kst w))) as Hu.
  change (slot aggregated_flows 0) with 0 in Hu. rewrite <- Hr2 in Hu.
  split_and!; [by rewrite Hr1|apply Hu|intros; by apply Hu|].
  intros id' p Hp'. rewrite Hr2. unfold flow_addr in *.
  change (st_index (w_map (upd_map aggregated_flows
    (cell_new (w_map w aggregated_flows) id 0 v []) w) aggregated_flows) !! id' = Some p).
  rewrite upd_map_eq. cbn. rewrite lookup_insert_ne; [done|]. intros ->. by rewrite Hp in Hp'.
Qed.

(** The record of the packet of a flow. *)
Definition packet_record_of (skb : sk_buff) (v : flow_metrics) : Prop :=
  t_get v = t_amount skb mod t_mod /\ fm_if_index_first_seen v = skb_ifindex skb.

Lemma errno_record skb v e :
  packet_record_of skb v -> packet_record_of skb (v <| fm_errno := e |>).
Proof. intros []. split; [by rewrite t_errno|done]. Qed.

Lemma guar_create cpu id ifx (id' : flow_id) skb v w :
  flow_rely w w -> wf_flow_metrics v -> packet_record_of skb v -> flow_addr w id' = None ->
  let r := helper_sem cpu (bpf_map_update_elem aggregated_flows id' v BPF_NOEXIST) w in
  (r.1 = 0 /\ flow_guar id ifx (packet_amount id ifx skb id') w r.2) \/
  (~ flows_room /\ -4096 < r.1 < 0 /\ r.1 <> - EEXIST /\ flow_guar id ifx 0 w r.2).
Proof.
  intros Hw Hv [Hg Hi] Hn r.
  pose proof (helper_sem_ok cpu (bpf_map_update_elem aggregated_flows id' v BPF_NOEXIST) w
    (frl_typed _ _ Hw) Hv) as [_ Ht].
  pose proof (helper_sem_wf cpu (bpf_map_update_elem aggregated_flows id' v BPF_NOEXIST) w
    (frl_wf _ _ Hw)) as Hw'.
  pose proof (flow_create cpu w id' v (frl_wf _ _ Hw)) as Hc. cbv zeta in Hc.
  pose proof (helper_sem_ringless cpu (bpf_map_update_elem aggregated_flows id' v BPF_NOEXIST) w
    direct_flows eq_refl) as Hring.
  rewrite Hn in Hc. fold r in Ht, Hw', Hc, Hring.
  destruct Hc as [(Hr & E & Eo & Ea)|(Hroom & He & Hne & Hm)]; [left|right].
  2: { destruct He. split_and!; [exact Hroom|done..|]. by apply flow_guar_same. }
  split; [done|]. assert (Hrel : flow_rely w r.2) by by split.
  unfold packet_amount. destruct (decide (id' = id)) as [->|Hneq].
  2: { apply flow_guar_unchanged; [done| |by apply ring_amount_ext|done]. apply Eo. congruence. }
  apply the_flow_None in Hn. split; [done| | |done].
  - intros _ u Hu. by rewrite Hn in Hu.
  - intros Hfit. specialize (Hfit _ E).
    rewrite (balance_Some _ _ _ _ E), (balance_None _ _ _ Hn), (ring_amount_ext _ _ _ _ Hring).
    rewrite (proj2 (Z.eqb_eq _ _)) by congruence. rewrite Hg, Zplus_mod_idemp_l. f_equal. lia.
Qed.

(** Reserving a sample of the ring buffer, and submitting the record of a
    packet. *)
Lemma guar_reserve cpu id ifx w :
  ring_room -> ~ flows_room -> flow_rely w w ->
  let r := helper_sem cpu (bpf_ringbuf_reserve direct_flows) w in
  (∃ i, r.1 = Some i) /\ flow_guar id ifx 0 w r.2.
Proof.
  intros Hring Hroom Hw r. subst r. cbn. pose proof (Hring (w_kst w)) as Hr.
  destruct (k_reserve direct_flows (w_kst w)) as [ok st]. cbn in Hr. subst ok.
  split; [by eexists|]. apply flow_guar_unchanged; [|done| |done].
  - split; [apply Hw|apply Hw|done].
  - unfold ring_amount. cbn [snd].
    change (w_ring (upd_kst st ?w') direct_flows) with (w_ring w' direct_flows).
    rewrite upd_ring_eq, fmap_app, total_app. cbn. lia.
Qed.

Lemma guar_submit cpu id ifx i skb (d : flow_record) w :
  ~ flows_room -> flow_rely w w -> w_ring w direct_flows !! i = Some Busy ->
  packet_record_of skb (fr_metrics d) ->
  flow_guar id ifx (packet_amount id ifx skb (fr_id d)) w
    (helper_sem cpu (bpf_ringbuf_submit direct_flows i d) w).2.
Proof.
  intros Hroom Hw Hi [Hg Hx]. cbn [helper_sem snd].
  set (w' := upd_ring _ _ _).
  assert (Hf : the_flow w' id = the_flow w id) by done.
  assert (Hr : ring_amount id ifx w' = ring_amount id ifx w + record_amount id ifx (Committed d)).
  { unfold ring_amount, w'. rewrite upd_ring_eq.
    rewrite (total_fmap_insert _ _ _ _ (Committed d : Kernel.sample flow_record) Hi). cbn. lia. }
  split; [split; [apply Hw|apply Hw|done]|by unfold fits; rewrite Hf| |done].
  intros _. unfold balance. rewrite Hf, Hr.
  assert (Hd : record_amount id ifx (Committed d) mod t_mod
    = packet_amount id ifx skb (fr_id d) mod t_mod).
  { unfold packet_amount, record_amount. rewrite Hx.
    destruct (decide (fr_id d = id)) as [E|E];
      destruct (decide (_ /\ _)) as [[E1 E2]|E1]; try tauto.
    - rewrite (proj2 (Z.eqb_eq _ _) E2), Hg. apply Zmod_mod.
    - rewrite (proj2 (Z.eqb_neq _ _)); [done|]. tauto. }
  rewrite <- (Zplus_mod_idemp_r (packet_amount _ _ _ _)), <- Hd, Zplus_mod_idemp_r.
  by rewrite Z.add_assoc.
Qed.

Lemma lookup_flow cpu (id : key aggregated_flows) w :
  helper_sem cpu (bpf_map_lookup_elem aggregated_flows id) w = (flow_addr w id, w).
Proof. done. Qed.

Section Account.
Context {H : Host}.
Variables (id : flow_id) (ifx : Z) (cfg : config).
Hypothesis Hroom : kept cfg.

Abbreviation frg := (rg (R := flow_rely) (G := flow_guar id ifx)).

(** The work is done. *)
Definition settled {A} (_ : A) (c : Z) w : Prop := c = 0 /\ flow_rely w w.

(** The flow that the parser finds. *)
Definition packet_flow (skb : sk_buff) : option flow_id :=
  '(r, pkt, _) ← fill_ethhdr (skb_data skb) 0 (Z.of_nat (length (skb_data skb))) zeroed 0;
  if r =? DISCARD then None else Some (pi_id pkt).

(** What a packet adds to the tally of the flow. *)
Definition amount (skb : sk_buff) : Z :=
  match packet_flow skb with Some id' => packet_amount id ifx skb id' | None => 0 end.

Definition at_time (ts : Z) (pkt : pkt_info) : pkt_info := pkt <| pi_current_ts := ts |>.

Lemma fill_l4info_time ts d l4 n proto pkt :
  fill_l4info d l4 n proto (at_time ts pkt) = at_time ts <$> fill_l4info d l4 n proto pkt.
Proof.
  unfold fill_l4info.
  repeat match goal with |- context [if ?b then _ else _] => destruct b end; try done;
    by destruct (slice d l4 _).
Qed.

Lemma fill_ethhdr_time ts d eth n pkt e :
  fill_ethhdr d eth n (at_time ts pkt) e
  = (λ '(r, pkt, e), (r, at_time ts pkt, e)) <$> fill_ethhdr d eth n pkt e.
Proof.
  unfold fill_ethhdr. destruct (n <? _); [done|].
  destruct (slice d eth sizeof_ethhdr) as [b|]; [|done].
  cbn [fmap option_fmap option_map mbind option_bind].
  destruct (_ =? ETH_P_IP); [|destruct (_ =? ETH_P_IPV6); [|done]].
  - unfold fill_iphdr. destruct (n <? _); [done|].
    destruct (slice d _ sizeof_iphdr) as [b'|]; [|done].
    cbn [fmap option_fmap option_map mbind option_bind].
    match goal with |- context [fill_l4info d ?l n ?p (set pi_dscp ?f (set _ ?g (set _ ?h (at_time ts ?q))))] =>
      change (set pi_dscp f (set pi_id g (set pi_id h (at_time ts q))))
        with (at_time ts (set pi_dscp f (set pi_id g (set pi_id h q)))) end.
    rewrite fill_l4info_time. by destruct (fill_l4info _ _ _ _ _).
  - unfold fill_ip6hdr. destruct (n <? _); [done|].
    destruct (slice d _ sizeof_ipv6hdr) as [b'|]; [|done].
    cbn [fmap option_fmap option_map mbind option_bind].
    match goal with |- context [fill_l4info d ?l n ?p (set pi_dscp ?f (set _ ?g (set _ ?h (at_time ts ?q))))] =>
      change (set pi_dscp f (set pi_id g (set pi_id h (at_time ts q))))
        with (at_time ts (set pi_dscp f (set pi_id g (set pi_id h q)))) end.
    rewrite fill_l4info_time. by destruct (fill_l4info _ _ _ _ _).
Qed.

Lemma frg_update cpu h skb pkt p s direction tls w :
  flow_rely w w -> flow_addr w (pi_id pkt) = Some p -> wf_skb skb -> wf_pkt pkt ->
  is_u32 s -> is_u8 direction -> wf_tls_info tls ->
  frg cpu settled h
    (_ ← update_existing_flow p pkt (skb_len skb) s (skb_ifindex skb) direction tls; mret true)
    (packet_amount id ifx skb (pi_id pkt)) w.
Proof.
  intros Hw Hp Hskb Hpkt Hs Hd Htls. apply rg_bind, rg_call. intros w1 H1 _.
  pose proof (flow_rely_self _ _ H1) as Hw1.
  pose proof (guar_update cpu id ifx (pi_id pkt) skb pkt s direction tls p w1 Hw1
    (frl_stay _ _ H1 _ _ Hp) Hskb Hpkt Hs Hd Htls) as Hg.
  right. split; [exact Hg|].
  pose proof (flow_rely_self _ _ (fg_rely _ _ _ _ _ Hg)) as Hw2.
  destruct (_ && _).
  - eapply (frg_safe _ _ _ [global_counters] []); [apply increase_counter_safe
      |apply increase_counter_writes|apply (bool_decide_unpack _); by vm_compute
      |apply not_elem_of_nil|done|].
    intros [] w3 _ H3 h3. split; [done|]. by eapply flow_rely_self.
  - by apply rg_ret.
Qed.

(** The map has refused the flow: the ring buffer takes the packet. *)
Lemma frg_direct cpu h skb pkt v w :
  ~ flows_room -> flow_rely w w -> packet_record_of skb v ->
  frg cpu settled h
    (record ← call (bpf_ringbuf_reserve direct_flows);
     match record with
     | None => mret false
     | Some i => _ ← call (bpf_ringbuf_submit direct_flows i (mk_flow_record (pi_id pkt) v)); mret true
     end)
    (packet_amount id ifx skb (pi_id pkt)) w.
Proof.
  intros Hfull Hw Hv. destruct Hroom as [|[Hring _]]; [done|].
  apply rg_call. intros w1 H1 _. pose proof (flow_rely_self _ _ H1) as Hw1.
  destruct (guar_reserve cpu id ifx w1 Hring Hfull Hw1) as [[i Hi] Hg].
  left. split; [exact Hg|]. rewrite Hi.
  apply rg_call. intros w2 H2 Hp. pose proof (flow_rely_self _ _ H2) as Hw2.
  pose proof (guar_submit cpu id ifx i skb (mk_flow_record (pi_id pkt) v) w2 Hfull Hw2
    (Hp _ _ eq_refl) Hv) as Hg2.
  right. split; [exact Hg2|]. apply rg_ret.
  split; [done|]. eapply flow_rely_self, fg_rely, Hg2.
Qed.

Lemma frg_account_flow cpu h skb pkt e s direction tls w :
  flow_rely w w -> wf_skb skb -> sizeof_ethhdr <= Z.of_nat (length (skb_data skb)) ->
  wf_pkt pkt -> is_u16 e -> is_u32 s -> is_u8 direction -> wf_tls_info tls ->
  frg cpu settled h (account_flow cfg skb pkt e (skb_len skb) s direction tls)
    (packet_amount id ifx skb (pi_id pkt)) w.
Proof.
  intros Hw Hskb Heth Hpkt He Hs Hd Htls. unfold account_flow.
  apply rg_call. intros w1 H1 _. left. rewrite lookup_flow. cbn [fst snd held_after].
  pose proof (flow_rely_self _ _ H1) as Hw1.
  split; [by apply guar_refl|].
  destruct (flow_addr w1 (pi_id pkt)) as [p|] eqn:Ep.
  { by apply frg_update. }
  destruct (load_ok (skb_data skb) 0 sizeof_ethhdr) as (b & Hb & Hbl & Hbu); [done|done|lia|].
  rewrite Hb. cbn [fmap option_fmap option_map deref mbind prog_bind].
  set (new_flow := new_flow_metrics _ _ _ _ _ _ _ _).
  assert (Hnew : wf_flow_metrics new_flow).
  { assert (Hu : Forall is_u8 b) by (apply Hbu, Hskb).
    change (Z.to_nat sizeof_ethhdr) with 14%nat in Hbl.
    apply new_flow_metrics_ok; try done; cbn [h_dest h_source decode_ethhdr].
    - rewrite <- (drop_0 b). apply take_drop_bytes; [lia|done].
    - apply take_drop_bytes; [lia|done]. }
  assert (Hrec : packet_record_of skb new_flow) by by split; [apply t_new|].
  apply rg_call. intros w2 H2 _. cbn [held_after].
  pose proof (flow_rely_self _ _ H2) as Hw2.
  destruct (flow_addr w2 (pi_id pkt)) as [p|] eqn:Ep2.
  - pose proof (flow_create cpu w2 (pi_id pkt) new_flow (frl_wf _ _ H2)) as Hc.
    rewrite Ep2 in Hc. cbv zeta in Hc. rewrite Hc. cbn [fst snd].
    left. split; [by apply guar_refl|].
    change (negb (- EEXIST =? 0)) with true. change (- EEXIST =? - EEXIST) with true. cbv iota.
    apply rg_call. intros w3 H3 _. left. rewrite lookup_flow. cbn [fst snd held_after].
    pose proof (flow_rely_self _ _ H3) as Hw3.
    split; [by apply guar_refl|].
    pose proof (frl_stay _ _ H3 _ _ Ep2) as Ep3. rewrite Ep3. by apply frg_update.
  - destruct (guar_create cpu id ifx (pi_id pkt) skb new_flow w2 Hw2 Hnew Hrec Ep2)
      as [[Hr Hg]|(Hfull & He1 & He2 & Hg)]; [right|left]; (split; [exact Hg|]).
    + rewrite Hr. cbn [Z.eqb negb].
      apply rg_ret. split; [done|]. eapply flow_rely_self, fg_rely, Hg.
    + rewrite (proj2 (Z.eqb_neq _ 0)), (proj2 (Z.eqb_neq _ (- EEXIST))) by (done || lia).
      cbv iota. destruct Hroom as [|[_ Hdirect]]; [done|].
      rewrite (proj2 (Z.ltb_lt _ _) Hdirect). apply frg_direct; [done|eapply flow_rely_self, Hg|].
      by apply errno_record.
Qed.

Lemma frg_process_packet cpu h skb pkt e s direction w :
  flow_rely w w -> wf_skb skb -> submitted skb pkt e -> is_u32 s -> is_u8 direction ->
  frg cpu settled h (process_packet cfg skb pkt e s direction)
    (packet_amount id ifx skb (pi_id pkt)) w.
Proof.
  intros Hw Hskb Hsub Hs Hd. unfold process_packet.
  set (c := packet_amount id ifx skb (pi_id pkt)).
  apply rg_bind. apply rg_mono with
    (λ r c' w', dns_filled pkt r.2 /\ c' = c /\ flow_rely w' w').
  { destruct (negb (enable_dns_tracking cfg =? 0)).
    - eapply frg_safe; [apply track_dns_packet_safe; [done|apply Hsub|]
        |apply track_dns_packet_writes|apply (bool_decide_unpack _); by vm_compute
        |apply not_elem_of_nil|done|].
      + intros off Ho. by apply (sub_l4 _ _ _ Hsub).
      + intros r w' [_ Hr] H'. split_and!; [done..|by eapply flow_rely_self].
    - apply rg_ret. split_and!; [|done..].
      destruct (sub_pkt _ _ _ Hsub) as [_ ? _ _ (?&?&?)]. by split. }
  intros [dns_errno pkt'] c1 w1 (Hpkt & -> & Hw1) h1. cbn [snd] in Hpkt.
  pose proof (submitted_dns _ _ _ _ Hsub Hpkt) as Hsub'.
  destruct (packet_tls_ok cfg skb pkt' _ Hskb Hsub') as (r & Htls & Hwt).
  rewrite Htls. apply rg_bind, rg_ret. intros ht. apply rg_bind.
  apply rg_mono with (λ _ c' w', c' = c /\ flow_rely w' w').
  { destruct (negb (enable_quic_tracking cfg =? 0)); [|by apply rg_ret].
    eapply frg_safe; [apply track_quic_packet_safe; [done|apply Hsub'|apply (sub_pkt _ _ _ Hsub')|apply Hsub']
      |apply track_quic_packet_writes|apply (bool_decide_unpack _); by vm_compute
        |apply not_elem_of_nil|done|].
    intros a w' _ H'. split; [done|by eapply flow_rely_self]. }
  intros _ c2 w2 (-> & Hw2) h2. unfold c. rewrite <- (dns_same_id _ _ Hpkt).
  apply rg_bind. eapply rg_mono; [by apply frg_account_flow; try apply Hsub'|].
  intros [] c3 w3 (-> & Hw3) h3; [|by apply rg_ret].
  apply rg_bind. eapply frg_safe; [by apply account_dns_safe; apply Hsub'
    |apply account_dns_writes|apply (bool_decide_unpack _); by vm_compute
        |apply not_elem_of_nil|done|].
  intros _ w4 _ H4 h4. apply rg_ret. split; [done|by eapply flow_rely_self].
Qed.

(** Every packet is kept and no filter is set. *)
Definition unsampled : Prop :=
  has_filter_sampling cfg = 0 /\ 0 <= sampling cfg <= 1 /\ is_filter_enabled cfg = false.

Lemma packet_flow_parsed skb ts r pkt e :
  fill_ethhdr (skb_data skb) 0 (Z.of_nat (length (skb_data skb)))
    (zeroed <| pi_current_ts := ts |>) 0 = Some (r, pkt, e) ->
  packet_flow skb = (if r =? DISCARD then None else Some (pi_id pkt)).
Proof.
  change (zeroed <| pi_current_ts := ts |>) with (at_time ts zeroed).
  rewrite fill_ethhdr_time. unfold packet_flow.
  destruct (fill_ethhdr _ _ _ zeroed 0) as [[[r' pkt'] e']|]; cbn; [|done].
  intros [= <- <- <-]. done.
Qed.

Lemma frg_parse_and_filter cpu h skb direction w :
  unsampled -> flow_rely w w -> wf_skb skb -> is_u8 direction ->
  frg cpu settled h (parse_and_filter cfg skb (sampling cfg) direction) (amount skb) w.
Proof.
  intros (Hfs & Hsm & Hfe) Hw Hskb Hd. unfold parse_and_filter.
  apply rg_bind. eapply (frg_safe _ _ _ [] [] is_u64); [by apply safe_call|done|apply not_elem_of_nil|apply not_elem_of_nil|done|].
  intros ts w1 Hts H1 h1. pose proof (flow_rely_self _ _ H1) as Hw1.
  destruct (parse_submitted skb ts Hskb Hts) as (r & pkt & e & Hfill & Hr & Hsub).
  rewrite Hfill. apply rg_bind, rg_ret. intros ?. cbv beta iota.
  unfold amount. rewrite (packet_flow_parsed _ _ _ _ _ Hfill).
  destruct (parsable (skb_data skb)); subst r.
  2: { by apply rg_ret. }
  change (SUBMIT =? DISCARD) with false. cbv iota.
  destruct (Hsub eq_refl) as (Hsb & _ & _).
  rewrite check_and_apply_filter_disabled by done.
  apply rg_bind, rg_ret. intros ?. cbv beta iota. rewrite Hfs. cbn [Z.eqb negb].
  change (default (sampling cfg) (Some (sampling cfg))) with (sampling cfg).
  apply frg_process_packet; try done. width. lia.
Qed.

(** The monitor adds the amount of its packet, once. *)
Lemma frg_flow_monitor cpu h skb direction w :
  unsampled -> flow_rely w w -> wf_skb skb -> is_u8 direction ->
  frg cpu settled h (flow_monitor cfg skb direction) (amount skb) w.
Proof.
  intros Hc Hw Hskb Hd. pose proof Hc as (Hfs & Hsm & Hfe). unfold flow_monitor.
  rewrite Hfs. change (0 =? 0) with true. cbv iota. apply rg_bind.
  unfold sample, sampled_out. rewrite (proj2 (Z.ltb_ge 1 (sampling cfg))) by lia.
  apply rg_bind, rg_ret. intros ?. cbv beta iota. apply rg_bind, rg_call. intros w1 H1 _. left.
  assert (Hg : flow_guar id ifx 0 w1 (helper_sem cpu (do_sampling_set 1) w1).2).
  { apply flow_guar_same; [|apply H1|done..].
    by apply (helper_sem_ok cpu (do_sampling_set 1)); [apply H1|cbn; width; lia]. }
  split; [exact Hg|]. intros ?. apply rg_ret. intros ?. cbn [negb].
  apply frg_parse_and_filter; try done. eapply flow_rely_self, Hg.
Qed.
End Account.

(** *** The programs of a pool *)

Context {H : Host}.

(** Only the monitor owes something. *)
Definition program_amount (id : flow_id) (ifx : Z) (p : program) : Z :=
  match p with FlowMonitor _ skb => amount id ifx skb | _ => 0 end.

Lemma frg_program cpu cfg id ifx h p w :
  kept cfg -> unsampled cfg -> flow_rely w w -> wf_program p ->
  rg (R := flow_rely) (G := flow_guar id ifx) cpu paid h (program_code cfg p)
    (program_amount id ifx p) w.
Proof.
  intros Hk Hc Hw Hp. destruct (is_monitor p) eqn:Hm.
  - destruct p; try done. destruct Hp. eapply rg_mono; [by apply frg_flow_monitor|]. by intros ??? [].
  - replace (program_amount id ifx p) with 0 by by destruct p.
    assert (Hu : is_u32 (sampling cfg)) by (destruct Hc as (_ & ? & _); width; lia).
    eapply frg_safe; [by apply program_safe|by apply program_footprint| | |done|done].
    + destruct p; try done; apply (bool_decide_unpack _); by vm_compute.
    + destruct p; try done; apply (bool_decide_unpack _); by vm_compute.
Qed.

Lemma programs_pay cfg id ifx l w :
  kept cfg -> unsampled cfg -> flow_rely w w -> Forall wf_program l.*2 ->
  pool_rg (R := flow_rely) (G := flow_guar id ifx) paid (programs cfg l) (replicate (length l) None)
    ((λ t, program_amount id ifx t.2) <$> l) w.
Proof.
  intros Hk Hc Hw Hl. split.
  - apply programs_holders.
  - apply owned_start.
  - unfold programs. by rewrite !length_fmap.
  - intros j cpu p h c Hj _ Hcj. unfold programs in Hj.
    apply list_lookup_fmap_Some in Hj as (t & [= -> ->] & Hj).
    rewrite list_lookup_fmap, Hj in Hcj. injection Hcj as <-. apply frg_program; [done..|].
    apply (list.Forall_lookup_1 _ _ j _ Hl). by rewrite list_lookup_fmap, Hj.
Qed.

(** A packet on its way through a hook: its CPU and direction. *)
Record arrival := mk_arrival { ar_cpu : Z; ar_direction : Z; ar_skb : sk_buff }.
Definition wf_arrival (a : arrival) : Prop := wf_skb (ar_skb a) /\ is_u8 (ar_direction a).

Definition monitors cfg (l : list arrival) : pool Z :=
  (λ a, (ar_cpu a, flow_monitor cfg (ar_skb a) (ar_direction a))) <$> l.

(** The packets that the monitors among some programs get. *)
Definition arrival_of (t : Z * program) : option arrival :=
  match t.2 with
  | FlowMonitor direction skb => Some (mk_arrival t.1 direction skb)
  | _ => None
  end.
Definition arrivals (l : list (Z * program)) : list arrival := omap arrival_of l.

(** What the packets of a flow that were seen on an interface add. *)
Definition total_amount (id : flow_id) (ifx : Z) (l : list arrival) : Z :=
  total ((λ a, amount id ifx (ar_skb a)) <$> l).

Lemma total_program_amount id ifx l :
  total ((λ t, program_amount id ifx t.2) <$> l) = total_amount id ifx (arrivals l).
Proof.
  unfold total_amount, arrivals. induction l as [|[cpu p] l IH]; [done|].
  destruct p; [exact (f_equal (Z.add _) IH)|exact IH..].
Qed.

(** In every interleaving that runs the programs to their end, the balance of a
    flow is what it was plus what its packets add. *)
Lemma programs_balance cfg id ifx l w ps w' :
  kept cfg -> unsampled cfg -> typed w -> world_wf w -> Forall wf_program l.*2 ->
  rtc pool_step (programs cfg l, w) (ps, w') -> ended ps ->
  flow_guar id ifx (total_amount id ifx (arrivals l)) w w'.
Proof.
  intros Hk Hc Ht Hw Hl Hs He. rewrite <- total_program_amount.
  assert (Hr : flow_rely w w) by by apply flow_rely_refl.
  eapply pool_rg_ended; [done|exact Hs|by apply programs_pay|done].
Qed.

(** With room in the map, the ring buffer has no part in it. *)
Lemma programs_tally cfg id ifx l w ps w' f' :
  flows_room -> unsampled cfg -> typed w -> world_wf w -> Forall wf_program l.*2 ->
  rtc pool_step (programs cfg l, w) (ps, w') -> ended ps ->
  the_flow w' id = Some f' -> fm_if_index_first_seen f' = ifx ->
  t_get f' = (default 0 (t_get <$> the_flow w id) + total_amount id ifx (arrivals l)) mod t_mod.
Proof.
  intros Hroom Hc Ht Hw Hl Hs He Hf' Hi.
  destruct (programs_balance cfg id ifx l w ps w') as [Hr _ Hb Hg]; [by left|done..|].
  specialize (Hb ltac:(intros u Hu; congruence)).
  rewrite (balance_Some _ _ _ _ Hf'), (ring_amount_ext _ _ _ _ (Hg Hroom)) in Hb.
  unfold balance in Hb.
  pose proof (t_range f' (the_flow_wf _ _ _ (frl_typed _ _ Hr) Hf')) as Hf.
  rewrite <- (Z.mod_small (t_get f') t_mod Hf).
  set (x := default _ _) in *. set (y := ring_amount _ _ _) in *. set (z := total_amount _ _ _) in *.
  assert (E : ((t_get f' + y) - y) mod t_mod = ((x + y + z) - y) mod t_mod)
    by by rewrite Zminus_mod, Hb, <- Zminus_mod.
  by replace (t_get f' + y - y) with (t_get f') in E by lia; replace (x + y + z - y) with (x + z) in E by lia.
Qed.
End FlowDiscipline.

(** ** Packets and bytes *)

Section Totals.
Context {H : Host}.

(** What the map and the ring buffer hold of the packets and bytes of a flow. *)
Definition packets_balance `{Kernel} : flow_id → Z → world → Z := balance (T := packets_tally).
Definition bytes_balance `{Kernel} : flow_id → Z → world → Z := balance (T := bytes_tally).

(** The packets of a flow among some arrivals, seen on an interface. *)
Definition of_flow (id : flow_id) (ifx : Z) (a : arrival) : Prop :=
  packet_flow (ar_skb a) = Some id /\ skb_ifindex (ar_skb a) = ifx.
#[global] Instance of_flow_dec id ifx a : Decision (of_flow id ifx a).
Proof. unfold of_flow. apply _. Defined.

Definition flow_packets (id : flow_id) (ifx : Z) (l : list arrival) : Z :=
  Z.of_nat (length (filter (of_flow id ifx) l)).
Definition flow_bytes (id : flow_id) (ifx : Z) (l : list arrival) : Z :=
  foldr Z.add 0 ((λ a, skb_len (ar_skb a)) <$> filter (of_flow id ifx) l).

Lemma amount_of_flow {T : Tally} id ifx a :
  amount id ifx (ar_skb a) = if decide (of_flow id ifx a) then t_amount (ar_skb a) else 0.
Proof.
  unfold amount, packet_amount. destruct (decide (of_flow id ifx a)) as [[-> Hi]|Hn].
  - by rewrite decide_True, (proj2 (Z.eqb_eq _ _) Hi).
  - unfold of_flow in Hn. destruct (packet_flow (ar_skb a)) as [id'|]; [|done].
    destruct (decide (id' = id)) as [->|]; [|done].
    destruct (_ =? ifx) eqn:Ei; bool_to_prop; [tauto|done].
Qed.

Lemma total_packets id ifx l :
  total_amount (T := packets_tally) id ifx l = flow_packets id ifx l.
Proof.
  unfold total_amount, total, flow_packets. induction l as [|a l IH]; [done|].
  rewrite fmap_cons, filter_cons, amount_of_flow. cbn [foldr credit_op no_credit Z_sum] in *.
  rewrite IH. destruct (decide (of_flow id ifx a)); [|lia]. cbn [length t_amount packets_tally]. lia.
Qed.

Lemma total_bytes id ifx l :
  total_amount (T := bytes_tally) id ifx l = flow_bytes id ifx l.
Proof.
  unfold total_amount, total, flow_bytes. induction l as [|a l IH]; [done|].
  rewrite fmap_cons, filter_cons, amount_of_flow. cbn [foldr credit_op no_credit Z_sum] in *.
  rewrite IH. by destruct (decide (of_flow id ifx a)).
Qed.
End Totals.
