(* ===== verification/Records.v ===== *)
(** * Flows of one interface

    A flow that the monitor creates, in the map or as a record of the ring buffer,
    is about the packet at hand: its key is that of the packet, and its first
    interface the one on which the packet was seen, for good.  So, when all
    packets of a flow are seen on one interface, the flow in the map and all
    records of the flow carry that interface. *)
From stdpp Require Import relations.
From S2P Require Import Prelude Machine Types Kernel Maps Safety PacketUtils Filter Metrics.
From S2P Require Import Drops Rtt NetEvents Xlat Ipsec Tls Dns Quic Flows Capture Ssl.
From S2P Require Import Concurrency Programs Rings Credits Accounting.

(** ** Kinds of calls

    All calls of a program are of a kind, when the answers are of their types. *)
Fixpoint within {A} (T : ∀ X, helper X → Prop) (Q : A → Prop) (p : prog A) : Prop :=
  match p with
  | Ret a => Q a
  | Fault => True
  | Vis e k => T _ e /\ ∀ x, answer_ok e x -> within T Q (k x)
  end.

Lemma within_bind {A B} T (Q : B → Prop) (p : prog A) (f : A → prog B) :
  within T (λ a, within T Q (f a)) p -> within T Q (p ≫= f).
Proof.
  induction p as [a| |X e k IH]; cbn; [done..|]. intros [He Hk]. split; [done|]. auto.
Qed.

Lemma within_call {X A} (T : ∀ X, helper X → Prop) (Q : A → Prop) (e : helper X) (f : X → prog A) :
  T X e -> (∀ x, answer_ok e x -> within T Q (f x)) -> within T Q (call e ≫= f).
Proof. done. Qed.

Lemma within_mono {A} T (Q Q' : A → Prop) p :
  within T Q p -> (∀ a, Q a -> Q' a) -> within T Q' p.
Proof.
  intros Hp HQ. induction p as [a| |X e k IH]; cbn in *; [auto|done|].
  destruct Hp as [He Hk]. split; [done|]. auto.
Qed.

Lemma within_safe {A} T (Q : A → Prop) p : safe Q p -> calls T p -> within T Q p.
Proof.
  induction p as [a| |X e k IH]; cbn; [done..|]. intros [_ Hs] [He Hk]. split; [done|]. auto.
Qed.

Section Pool.
Context {K : Kernel} {KL : KernelLaws K} {A : Type}.
Context (T : ∀ X, helper X → Prop) (Inv : world → Prop).
Hypothesis Hcall : ∀ cpu X (e : helper X) w, T X e -> Inv w -> Inv (helper_sem cpu e w).2.

(** What every call of a kind keeps, a pool keeps. *)
Lemma pool_within (s s' : pool A * world) :
  rtc pool_step s s' -> pool_safe (λ _, True) s.1 -> typed s.2 -> world_wf s.2 ->
  Forall (λ t, within T (λ _, True) t.2) s.1 -> Inv s.2 -> Inv s'.2.
Proof.
  induction 1 as [s|s1 s2 s3 H12 _ IH]; [done|]. intros Hs Ht Hw Hp Hi.
  destruct (pool_step_safe _ _ _ H12 Hs Ht Hw) as (Hs2 & Ht2 & Hw2). apply IH; [done..| |].
  - inversion H12 as [j cpu p p' ps w w' Hj Hst]; subst. cbn [fst snd] in *.
    apply Forall_insert; [done|]. pose proof (Forall_lookup_1 _ _ _ _ Hp Hj) as Hpj.
    pose proof (Forall_lookup_1 _ _ _ _ Hs Hj) as Hsj. cbn [snd] in *.
    destruct p as [a| |X e k]; cbn in Hst; [done..|].
    destruct Hpj as [_ Hk], Hsj as [He _].
    pose proof (helper_sem_ok cpu e w Ht He) as [Ha _].
    destruct (helper_sem cpu e w) as [x w2]. injection Hst as <- <-. by apply Hk.
  - inversion H12 as [j cpu p p' ps w w' Hj Hst]; subst. cbn [fst snd] in *.
    pose proof (Forall_lookup_1 _ _ _ _ Hp Hj) as Hpj. cbn [snd] in Hpj.
    destruct p as [a| |X e k]; cbn in Hst; [done..|]. destruct Hpj as [He _].
    pose proof (Hcall cpu X e w He Hi) as Hi'. destruct (helper_sem cpu e w). by injection Hst as _ <-.
Qed.
End Pool.

(** ** Records of one interface *)

Section Records.
Context {H : Host} {K : Kernel} {KL : KernelLaws K} (id : flow_id) (ifx : Z).
Implicit Types (cfg : config) (w : world).

Definition of_interface (d : flow_record) : Prop :=
  fr_id d = id -> fm_if_index_first_seen (fr_metrics d) = ifx.

Definition sends_of_interface X (e : helper X) : Prop :=
  match e with
  | bpf_ringbuf_submit r _ d =>
      match r return payload r → Prop with direct_flows => of_interface | _ => λ _, True end d
  | bpf_map_update_elem m k v f =>
      match m return key m → value m → Prop with
      | aggregated_flows => λ k v, f = BPF_NOEXIST /\ of_interface (mk_flow_record k v)
      | _ => λ _ _, True
      end k v
  | bpf_map_delete_elem m _ => m <> aggregated_flows
  | elem_write m _ f =>
      match m return (value m → value m * Z) → Prop with
      | aggregated_flows => λ f, ∀ v, fm_if_index_first_seen (f v).1 = fm_if_index_first_seen v
      | _ => λ _, True
      end f
  | _ => True
  end.

(** All records of the flow are of the interface, and the flow in the map. *)
Record flow_of_interface w : Prop := {
  foi_wf : world_wf w;
  foi_records : Forall (λ s, ∀ d, s = Committed d -> of_interface d) (w_ring w direct_flows);
  foi_fits : fits id ifx w;
}.

Lemma fits_ext w w' : w_map w' aggregated_flows = w_map w aggregated_flows -> fits id ifx w -> fits id ifx w'.
Proof.
  intros Hm Hf f. assert (E : the_flow w' id = the_flow w id) by exact (elem_ext 0 aggregated_flows w w' id Hm).
  rewrite E. apply Hf.
Qed.

Lemma sends_fit cpu X (e : helper X) w :
  sends_of_interface X e -> world_wf w -> fits id ifx w -> fits id ifx (helper_sem cpu e w).2.
Proof.
  intros He Hw Hf.
  assert (Hone : ∀ m', m' <> aggregated_flows -> helper_writes [m'] [] e -> fits id ifx (helper_sem cpu e w).2).
  { intros m' Hm' Hwr. apply (fits_ext w); [|done]. eapply helper_sem_map_frame; [exact Hwr|].
    rewrite list_elem_of_singleton. congruence. }
  destruct e as [| |m k|m k v f|m k|m p|m p f|r|r i d|r i| |v]; try done; cbn in He.
  - apply (fits_ext w); [|done]. cbn. by destruct (k_ktime _).
  - apply (fits_ext w); [|done]. cbn. by destruct (k_prandom _).
  - destruct (decide (m = aggregated_flows)) as [->|Hm]; [|by apply (Hone m), list_elem_of_here].
    destruct He as [-> Hv]. pose proof (flow_create cpu w k v Hw) as Hc. cbv zeta in Hc.
    destruct (flow_addr w k) as [p|]; [by rewrite Hc|].
    destruct Hc as [(_ & E & Eo & _)|(_ & _ & _ & Hm)]; [|by apply (fits_ext w)].
    intros g Hg. destruct (decide (id = k)) as [<-|Hne]; [|rewrite Eo in Hg by done; by apply Hf].
    rewrite E in Hg. injection Hg as <-. by apply Hv.
  - by apply (Hone m), list_elem_of_here.
  - destruct (decide (m = aggregated_flows)) as [->|Hm]; [|by apply (Hone m), list_elem_of_here].
    intros g. cbn [helper_sem]. unfold map_write. cbn [snd]. case_match; [|by apply Hf].
    set (w2 := upd_map _ _ _).
    assert (Ha : flow_addr w2 id = flow_addr w id) by (unfold flow_addr, w2; by rewrite upd_map_eq).
    pose proof Hf as Hf'. unfold fits in Hf'. rewrite the_flow_addr in Hf' |- *. rewrite Ha.
    destruct (flow_addr w id) as [q|]; [|done]. specialize (Hf' _ eq_refl).
    unfold w2. rewrite upd_map_eq. intros [= <-]. unfold cell_read, cell_write in *. cbn in *.
    destruct (decide (q = p)) as [->|Hne]; [rewrite lookup_insert_eq|by rewrite lookup_insert_ne by congruence].
    cbn. by rewrite He.
  - apply (fits_ext w); [|done]. cbn. by destruct (k_reserve _ _) as [[] ?].
Qed.

Lemma sends_keep cpu X (e : helper X) w :
  sends_of_interface X e -> flow_of_interface w -> flow_of_interface (helper_sem cpu e w).2.
Proof.
  intros He [Hwf Hw Hf]. split; [by apply helper_sem_wf| |by apply sends_fit].
  clear Hf Hwf. destruct (ringless e) eqn:Hr.
  { by rewrite helper_sem_ringless. }
  destruct e as [| | | | | | |r|r i d|r i| |]; try done; cbn in He; cbn [helper_sem].
  - destruct (k_reserve r (w_kst w)) as [[] st]; cbn [snd]; [|done].
    change (w_ring (upd_kst st ?w') direct_flows) with (w_ring w' direct_flows).
    destruct (decide (r = direct_flows)) as [->|]; [|by rewrite upd_ring_ne].
    rewrite upd_ring_eq. apply Forall_app. split; [done|]. by apply list.Forall_singleton.
  - cbn [snd]. destruct (decide (r = direct_flows)) as [->|]; [|by rewrite upd_ring_ne].
    rewrite upd_ring_eq. apply Forall_insert; [done|]. by intros d' [= <-].
  - cbn [snd]. destruct (decide (r = direct_flows)) as [->|]; [|by rewrite upd_ring_ne].
    rewrite upd_ring_eq. by apply Forall_insert.
Qed.

Lemma writes_sends {A} ms rs (p : prog A) :
  writes ms rs p -> aggregated_flows ∉ ms -> direct_flows ∉ rs -> calls sends_of_interface p.
Proof.
  intros Hp Hm Hr. eapply calls_mono; [by apply writes_calls|]. intros X e He.
  destruct e as [| | |m k v f|m k| |m p' f| |r i d| | |]; try done; cbn in *.
  - by destruct m.
  - by intros ->.
  - by destruct m.
  - by destruct r.
Qed.

#[local] Ltac sending :=
  repeat lazymatch goal with
    | |- calls _ (_ ≫= _) => apply calls_bind; [|intros ?]
    | |- calls _ (call _) => split; [|done]
    | |- calls _ (deref _) => unfold deref
    | |- calls _ (match _ with _ => _ end) => case_match
    | |- calls _ _ => done
    end.

Lemma account_flow_sends cfg skb pkt eth_protocol len flow_sampling direction tls :
  (pi_id pkt = id -> skb_ifindex skb = ifx) ->
  calls sends_of_interface (account_flow cfg skb pkt eth_protocol len flow_sampling direction tls).
Proof.
  intros Hi. unfold account_flow, update_existing_flow, increase_counter. cbv zeta.
  assert (Hlock : ∀ v, fm_if_index_first_seen
      (update_locked pkt len flow_sampling (skb_ifindex skb) direction tls v).1 = fm_if_index_first_seen v)
    by (intros v; apply update_locked_get).
  sending; try exact I; try exact Hi; [exact Hlock|split; [done|exact Hi]|exact Hlock].
Qed.

Lemma process_packet_sends cfg skb pkt e s direction :
  wf_skb skb -> submitted skb pkt e -> (pi_id pkt = id -> skb_ifindex skb = ifx) ->
  within sends_of_interface (λ _, True) (process_packet cfg skb pkt e s direction).
Proof.
  intros Hskb Hsub Hi. unfold process_packet. cbv zeta. apply within_bind.
  apply within_mono with (λ r, pi_id r.2 = pi_id pkt /\ submitted skb r.2 e).
  { case_match; [|by split]. eapply within_mono; [apply within_safe|].
    - apply track_dns_packet_safe; [done|apply Hsub|]. intros off Ho. by apply (sub_l4 _ _ _ Hsub).
    - eapply writes_sends; [apply track_dns_packet_writes|apply (bool_decide_unpack _); by vm_compute
        |apply not_elem_of_nil].
    - intros r [_ Hr]. split; [by apply dns_same_id|by eapply submitted_dns]. }
  intros [dns_errno pkt'] [Hid Hsub']. cbn [snd] in *.
  destruct (packet_tls_ok cfg skb pkt' _ Hskb Hsub') as (r & Htls & _). rewrite Htls.
  apply within_bind. cbn [deref within].
  apply within_bind. apply within_mono with (λ _, True).
  { case_match; [|done]. eapply within_mono; [apply within_safe|done].
    - apply track_quic_packet_safe; [done|apply Hsub'|apply (sub_pkt _ _ _ Hsub')|apply Hsub'].
    - eapply writes_sends; [apply track_quic_packet_writes|apply (bool_decide_unpack _); by vm_compute
        |apply not_elem_of_nil]. }
  intros _ _. assert (Hcalls : ∀ {A} (p : prog A), calls sends_of_interface p -> within sends_of_interface (λ _, True) p).
  { intros A p. induction p as [a| |X h k IH]; cbn; [done..|]. intros [? ?]. split; auto. }
  apply Hcalls, calls_bind; [apply account_flow_sends; by rewrite Hid|].
  intros []; [|done]. apply calls_bind; [|done].
  eapply writes_sends; [apply account_dns_writes|apply (bool_decide_unpack _); by vm_compute
    |apply not_elem_of_nil].
Qed.
End Records.

Section Programs.
Context {H : Host} {K : Kernel} {KL : KernelLaws K} (id : flow_id) (ifx : Z).
Implicit Types (cfg : config) (w : world).

Lemma within_calls {A} T (p : prog A) : calls T p -> within T (λ _, True) p.
Proof. induction p as [a| |X e k IH]; cbn; [done..|]. intros [? ?]. split; auto. Qed.

Lemma flow_monitor_sends cfg skb direction :
  unsampled cfg -> wf_skb skb -> is_u8 direction ->
  (packet_flow skb = Some id -> skb_ifindex skb = ifx) ->
  within (sends_of_interface id ifx) (λ _, True) (flow_monitor cfg skb direction).
Proof.
  intros (Hfs & Hsm & Hfe) Hskb Hd Hi. unfold flow_monitor. rewrite Hfs.
  change (0 =? 0) with true. cbv iota. apply within_bind.
  unfold sample, sampled_out. rewrite (proj2 (Z.ltb_ge 1 (sampling cfg))) by lia.
  split; [done|]. intros x _. cbn [within negb]. unfold parse_and_filter.
  apply within_call; [done|]. intros ts Hts.
  destruct (parse_submitted skb ts Hskb Hts) as (r & pkt & e & Hfill & Hr & Hsub).
  rewrite Hfill. pose proof (packet_flow_parsed _ _ _ _ _ Hfill) as Hp.
  destruct (parsable (skb_data skb)); subst r; [|done].
  change (SUBMIT =? DISCARD) with false in *. cbv iota in Hp.
  destruct (Hsub eq_refl) as (Hsb & _ & _).
  apply within_bind. cbn [deref within]. change (SUBMIT =? DISCARD) with false. cbv iota.
  rewrite check_and_apply_filter_disabled by done. apply within_bind. cbn [within].
  rewrite Hfs. change (negb (0 =? 0)) with false. cbv iota zeta.
  apply process_packet_sends; [done..|]. intros <-. by apply Hi.
Qed.

(** All packets of the flow are seen on the interface. *)
Definition seen_on_one (l : list (Z * program)) : Prop :=
  Forall (λ a, packet_flow (ar_skb a) = Some id -> skb_ifindex (ar_skb a) = ifx) (arrivals l).

Lemma programs_send cfg l :
  unsampled cfg -> Forall wf_program l.*2 -> seen_on_one l ->
  Forall (λ t, within (sends_of_interface id ifx) (λ _, True) t.2) (programs cfg l).
Proof.
  intros Hc Hl Ho. apply Forall_fmap, list.Forall_forall. intros [cpu p] Hin. cbn.
  assert (Hp : wf_program p).
  { apply (proj1 (list.Forall_forall _ _) Hl). by apply (list_elem_of_fmap_2 snd) in Hin. }
  destruct (is_monitor p) eqn:E.
  - destruct p as [direction skb| | | | | | | | | | |]; try done. destruct Hp as [Hskb Hd].
    apply flow_monitor_sends; [done..|].
    apply (proj1 (list.Forall_forall _ _) Ho (mk_arrival cpu direction skb)).
    apply list_elem_of_omap. by exists (cpu, FlowMonitor direction skb).
  - apply within_calls. eapply writes_sends; [by apply program_footprint|..];
      (destruct p; try done; apply (bool_decide_unpack _); by vm_compute).
Qed.

Lemma flows_one_interface cfg l w ps w' :
  unsampled cfg -> is_u32 (sampling cfg) -> typed w -> world_wf w -> Forall wf_program l.*2 ->
  seen_on_one l -> flow_of_interface id ifx w ->
  rtc pool_step (programs cfg l, w) (ps, w') -> flow_of_interface id ifx w'.
Proof.
  intros Hc Hu Ht Hw Hl Ho Hr Hs.
  apply (pool_within _ (flow_of_interface id ifx) (sends_keep id ifx) _ _ Hs); try done.
  - by apply programs_safe.
  - by apply programs_send.
Qed.
End Programs.
