(* ===== verification/Collect.v ===== *)
(** * What the agent makes of the metrics ([pkg/model/flow_content.go],
    [pkg/flow/account.go], [pkg/tracer/flows/fetcher.go])

    The user-space side of the agent, written in Go, takes the flows out of the
    maps.  The metrics of the tracing hooks are kept per CPU: the agent takes the
    copies of all CPUs and merges them into the content of the flow.  The records
    of the ring buffer are merged by the accounter.  This file translates the
    merging; errors of the system calls and the statistics are left out.

    A Go pointer to a metrics structure that may be nil is an [option].  The
    structures that the merging writes through such a pointer were made for it by
    the preceding system call, and nobody else reads them later, so that a value
    does for them. *)
From S2P Require Import Prelude Machine Types Kernel Maps Safety Credits Gauges HookTotals.

(** [addUint16]: a sum that wraps, cut off when it did. *)
Definition addUint16 (a b : Z) : Z := let s := u16 (a + b) in if s <? a then 65535 else s.

Definition AllZerosMac (mac : list Z) : bool := forallb (λ v, v =? 0) mac.

(** [net.IP.Equal] to [IPv4zero], the mapped form, or to [IPv6zero]. *)
Definition AllZeroIP (ip : list Z) : bool :=
  bool_decide (ip = ip4in6 ++ zero_bytes 4) || bool_decide (ip = zero_bytes 16).

(** The content of a flow. *)
Record BpfFlowContent := mk_BpfFlowContent {
  fc_base : flow_metrics;
  fc_dns : option dns_metrics;
  fc_drops : option pkt_drop_metrics;
  fc_events : option network_events_metrics;
  fc_xlat : option xlat_metrics;
  fc_additional : option additional_metrics;
  fc_quic : option quic_metrics;
}.
#[export] Instance eta_BpfFlowContent : Eta BpfFlowContent := λ x,
  mk_BpfFlowContent (fc_base x) (fc_dns x) (fc_drops x) (fc_events x) (fc_xlat x)
    (fc_additional x) (fc_quic x).

Definition NewBpfFlowContent (metrics : flow_metrics) : BpfFlowContent :=
  mk_BpfFlowContent metrics None None None None None None.

(** ** Merging the flow metrics *)

Definition AccumulateBase (p other : flow_metrics) : flow_metrics :=
  let p := if (fm_start_mono_time_ts p =? 0)
      || ((fm_start_mono_time_ts other <? fm_start_mono_time_ts p)
          && negb (fm_start_mono_time_ts other =? 0))
    then p <| fm_start_mono_time_ts := fm_start_mono_time_ts other |> else p in
  let p := if (fm_end_mono_time_ts p =? 0) || (fm_end_mono_time_ts p <? fm_end_mono_time_ts other)
    then p <| fm_end_mono_time_ts := fm_end_mono_time_ts other |> else p in
  let p := p <| fm_bytes ::= λ n, u64 (n + fm_bytes other) |>
             <| fm_packets ::= λ n, u32 (n + fm_packets other) |>
             <| fm_flags ::= λ n, Z.lor n (fm_flags other) |> in
  let p := if negb (fm_eth_protocol other =? 0)
    then p <| fm_eth_protocol := fm_eth_protocol other |> else p in
  let p := if AllZerosMac (fm_src_mac p) then p <| fm_src_mac := fm_src_mac other |> else p in
  let p := if AllZerosMac (fm_dst_mac p) then p <| fm_dst_mac := fm_dst_mac other |> else p in
  let p := if negb (fm_dscp other =? 0) then p <| fm_dscp := fm_dscp other |> else p in
  if negb (fm_sampling other =? 0) then p <| fm_sampling := fm_sampling other |> else p.

(** ** Merging a copy of the metrics of a hook *)

Definition buildBaseFromAdditional (start end_ ethProto : Z) (p : BpfFlowContent) : BpfFlowContent :=
  p <| fc_base ::= λ b,
    let b := if (fm_start_mono_time_ts b =? 0)
        || ((start <? fm_start_mono_time_ts b) && negb (start =? 0))
      then b <| fm_start_mono_time_ts := start |> else b in
    let b := if (fm_end_mono_time_ts b =? 0) || (fm_end_mono_time_ts b <? end_)
      then b <| fm_end_mono_time_ts := end_ |> else b in
    if fm_eth_protocol b =? 0 then b <| fm_eth_protocol := ethProto |> else b |>.

Definition merge_dns (d other : dns_metrics) : dns_metrics :=
  let d := d <| dm_flags ::= λ n, Z.lor n (dm_flags other) |> in
  let d := if negb (dm_id other =? 0) then d <| dm_id := dm_id other |> else d in
  let d := if negb (dm_errno d =? dm_errno other) then d <| dm_errno := dm_errno other |> else d in
  if dm_latency d <? dm_latency other then d <| dm_latency := dm_latency other |> else d.

Definition merge_drops (d other : pkt_drop_metrics) : pkt_drop_metrics :=
  let d := d <| pd_bytes ::= λ n, addUint16 n (pd_bytes other) |>
             <| pd_packets ::= λ n, addUint16 n (pd_packets other) |>
             <| pd_latest_flags ::= λ n, Z.lor n (pd_latest_flags other) |> in
  let d := if negb (pd_latest_drop_cause other =? 0)
    then d <| pd_latest_drop_cause := pd_latest_drop_cause other |> else d in
  if negb (pd_latest_state other =? 0) then d <| pd_latest_state := pd_latest_state other |> else d.

(** One event of the other copy: taken if its cookie is not known yet. *)
Definition merge_event (other : network_events_metrics) (d : network_events_metrics) (i : nat)
    : network_events_metrics :=
  let md := nth i (ne_network_events other) [] in
  if negb (nth i (ne_packets other) 0 =? 0) && negb (bool_decide (md ∈ ne_network_events d)) then
    let idx := Z.to_nat (ne_network_events_idx d) in
    d <| ne_bytes ::= alter (λ n, addUint16 n (nth i (ne_bytes other) 0)) idx |>
      <| ne_packets ::= alter (λ n, addUint16 n (nth i (ne_packets other) 0)) idx |>
      <| ne_network_events ::= <[idx := md]> |>
      <| ne_network_events_idx ::= λ n, (n + 1) mod 4 |>
  else d.

Definition merge_events (d other : network_events_metrics) : network_events_metrics :=
  foldl (merge_event other) d (seq 0 4).

Definition merge_xlat (d other : xlat_metrics) : xlat_metrics :=
  if negb (AllZeroIP (xm_saddr other)) && negb (AllZeroIP (xm_daddr other)) then other else d.

Definition merge_additional (d other : additional_metrics) : additional_metrics :=
  let d := if am_flow_rtt d <? am_flow_rtt other
    then d <| am_flow_rtt := am_flow_rtt other |> else d in
  let d := if am_ipsec_encrypted_ret d <? am_ipsec_encrypted_ret other
    then d <| am_ipsec_encrypted := am_ipsec_encrypted other |>
           <| am_ipsec_encrypted_ret := am_ipsec_encrypted_ret other |> else d in
  if am_ipsec_encrypted_ret d =? am_ipsec_encrypted_ret other then
    if am_ipsec_encrypted other then d <| am_ipsec_encrypted := am_ipsec_encrypted other |> else d
  else d.

Definition merge_quic (d other : quic_metrics) : quic_metrics :=
  let d := if qm_version d <? qm_version other then d <| qm_version := qm_version other |> else d in
  let d := if qm_seen_long_hdr d <? qm_seen_long_hdr other
    then d <| qm_seen_long_hdr := qm_seen_long_hdr other |> else d in
  if qm_seen_short_hdr d <? qm_seen_short_hdr other
  then d <| qm_seen_short_hdr := qm_seen_short_hdr other |> else d.

(** The first copy is taken as it is, the others are merged into it. *)
Definition merged {V} (f : V → V → V) (d : option V) (other : V) : option V :=
  Some match d with Some d => f d other | None => other end.

Definition AccumulateDNS (p : BpfFlowContent) (other : dns_metrics) : BpfFlowContent :=
  buildBaseFromAdditional (dm_start_mono_time_ts other) (dm_end_mono_time_ts other)
    (dm_eth_protocol other) p <| fc_dns ::= λ d, merged merge_dns d other |>.

Definition AccumulateDrops (p : BpfFlowContent) (other : pkt_drop_metrics) : BpfFlowContent :=
  buildBaseFromAdditional (pd_start_mono_time_ts other) (pd_end_mono_time_ts other)
    (pd_eth_protocol other) p <| fc_drops ::= λ d, merged merge_drops d other |>.

Definition AccumulateNetworkEvents (p : BpfFlowContent) (other : network_events_metrics)
    : BpfFlowContent :=
  buildBaseFromAdditional (ne_start_mono_time_ts other) (ne_end_mono_time_ts other)
    (ne_eth_protocol other) p <| fc_events ::= λ d, merged merge_events d other |>.

Definition AccumulateXlat (p : BpfFlowContent) (other : xlat_metrics) : BpfFlowContent :=
  buildBaseFromAdditional (xm_start_mono_time_ts other) (xm_end_mono_time_ts other)
    (xm_eth_protocol other) p <| fc_xlat ::= λ d, merged merge_xlat d other |>.

Definition AccumulateAdditional (p : BpfFlowContent) (other : additional_metrics)
    : BpfFlowContent :=
  buildBaseFromAdditional (am_start_mono_time_ts other) (am_end_mono_time_ts other)
    (am_eth_protocol other) p <| fc_additional ::= λ d, merged merge_additional d other |>.

Definition AccumulateQuic (p : BpfFlowContent) (other : quic_metrics) : BpfFlowContent :=
  buildBaseFromAdditional (qm_start_mono_time_ts other) (qm_end_mono_time_ts other)
    (qm_eth_protocol other) p <| fc_quic ::= λ d, merged merge_quic d other |>.

(** ** Taking the elements out of the maps *)

Section Fetcher.
Context {K : Kernel}.
Implicit Types w : world.

(** [Map.LookupAndDelete]: an element and its removal at once; the copies of all
    possible CPUs where there are several. *)
Definition LookupAndDelete (m : mapname) (id : key m) w : option (value m) * world :=
  match st_index (w_map w m) !! id with
  | Some p => (Some (cell_read (w_map w m) p 0), (map_delete m id w).2)
  | None => (None, w)
  end.

Definition LookupAndDeletePerCPU (cpus : list Z) (m : mapname) (id : key m) w
    : option (list (value m)) * world :=
  match st_index (w_map w m) !! id with
  | Some p => (Some ((λ c, cell_read (w_map w m) p c) <$> cpus), (map_delete m id w).2)
  | None => (None, w)
  end.

(** The flows: [ids] is what the iteration over the map has returned. *)
Definition take_flow (st : gmap flow_id BpfFlowContent * world) (id : flow_id)
    : gmap flow_id BpfFlowContent * world :=
  match LookupAndDelete aggregated_flows id st.2 with
  | (Some baseMetrics, w) => (<[id := NewBpfFlowContent baseMetrics]> st.1, w)
  | (None, w) => (st.1, w)
  end.
Definition lookupAndDeleteAggregatedFlows (ids : list flow_id) w
    : gmap flow_id BpfFlowContent * world :=
  foldl take_flow (∅, w) ids.

(** A metric of the hooks; a flow that has no metrics of its own gets empty
    ones. *)
Definition lookupAndDeletePerCPUMap (cpus : list Z) (m : mapname) (ids : list (key m))
    (to_flow : key m → flow_id) (accumulate : BpfFlowContent → value m → BpfFlowContent)
    (st : gmap flow_id BpfFlowContent * world) : gmap flow_id BpfFlowContent * world :=
  foldl (λ '(flows, w) id,
    match LookupAndDeletePerCPU cpus m id w with
    | (Some perCPUReceiver, w) =>
        let flow := default (NewBpfFlowContent zeroed) (flows !! to_flow id) in
        (<[to_flow id := foldl accumulate flow perCPUReceiver]> flows, w)
    | (None, w) => (flows, w)
    end) st ids.
End Fetcher.

(** ** The accounter of the ring buffer

    Records come in through a channel; a flow that is new when the cache is full
    sends the cached flows on, as does the tick of the clock and the end. *)

Inductive accounter_event := AccountTick | AccountRecord (record : flow_record).

Record Accounter := mk_Accounter {
  ac_maxEntries : nat;
  ac_entries : gmap flow_id flow_metrics;
}.

(** One round of the loop of [Account]: the batch that it sends, if any. *)
Definition account_event (c : Accounter) (e : accounter_event)
    : Accounter * option (gmap flow_id flow_metrics) :=
  match e with
  | AccountTick =>
      if decide (ac_entries c = ∅) then (c, None)
      else (mk_Accounter (ac_maxEntries c) ∅, Some (ac_entries c))
  | AccountRecord record =>
      match ac_entries c !! fr_id record with
      | Some stored =>
          (mk_Accounter (ac_maxEntries c)
             (<[fr_id record := AccumulateBase stored (fr_metrics record)]> (ac_entries c)), None)
      | None =>
          if (ac_maxEntries c <=? size (ac_entries c))%nat then
            (mk_Accounter (ac_maxEntries c) {[fr_id record := fr_metrics record]}, Some (ac_entries c))
          else
            (mk_Accounter (ac_maxEntries c) (<[fr_id record := fr_metrics record]> (ac_entries c)), None)
      end
  end.

(** The whole loop, until the input is closed: the batches in order. *)
Fixpoint Account (c : Accounter) (events : list accounter_event) : list (gmap flow_id flow_metrics) :=
  match events with
  | [] => [ac_entries c]
  | e :: events =>
      let '(c', batch) := account_event c e in
      match batch with Some b => b :: Account c' events | None => Account c' events end
  end.

(** ** The merging, as arithmetic *)

Lemma addUint16_cut_off a b : is_u16 a -> is_u16 b -> addUint16 a b = cut_off (a + b).
Proof.
  unfold addUint16, cut_off, u16. width. intros Ha Hb.
  destruct (decide (a + b < 65536)) as [Hlt|Hge].
  - rewrite Z.mod_small by lia. rewrite (proj2 (Z.ltb_ge _ _)) by lia. lia.
  - assert (E : (a + b) mod 2 ^ 16 = a + b - 65536).
    { symmetry. apply Z.mod_unique with 1; lia. }
    change (2 ^ 16) with 65536 in E. rewrite E, (proj2 (Z.ltb_lt _ _)) by lia. lia.
Qed.

(** The metrics of a hook only bring times and the EtherType into the base. *)
Lemma base_counts start end_ e p :
  fm_packets (fc_base (buildBaseFromAdditional start end_ e p)) = fm_packets (fc_base p) /\
  fm_bytes (fc_base (buildBaseFromAdditional start end_ e p)) = fm_bytes (fc_base p).
Proof. unfold buildBaseFromAdditional. cbn. by repeat case_match. Qed.

(** The copies merged into what is there. *)
Lemma drops_foldl (get : pkt_drop_metrics → Z) (l : list pkt_drop_metrics) p d :
  (∀ a b, get (merge_drops a b) = addUint16 (get a) (get b)) ->
  (∀ v, v ∈ l -> is_u16 (get v)) -> is_u16 (get d) -> fc_drops p = Some d ->
  get <$> fc_drops (foldl AccumulateDrops p l) = Some (cut_off (get d + Zsum (get <$> l))).
Proof.
  intros Hg. revert p d. induction l as [|v l IH]; intros p d Hl Hd Hp.
  - cbn. rewrite Hp. cbn. f_equal. unfold cut_off, Zsum. cbn. width. lia.
  - assert (Hv : is_u16 (get v)) by apply Hl, list_elem_of_here.
    cbn [foldl]. rewrite (IH _ (merge_drops d v)).
    + f_equal. rewrite Hg, addUint16_cut_off by done. unfold cut_off, Zsum. cbn.
      assert (Hpos : 0 <= foldr Z.add 0 (get <$> l)).
      { assert (Hl' : ∀ u, u ∈ l -> 0 <= get u)
          by (intros u Hu; apply Hl; by apply list_elem_of_further).
        clear -Hl'. induction l as [|u l IH]; cbn; [done|].
        specialize (IH (λ x Hx, Hl' x (list_elem_of_further _ _ _ Hx))).
        specialize (Hl' u (list_elem_of_here _ _)). lia. }
      lia.
    + intros u Hu. apply Hl. by apply list_elem_of_further.
    + rewrite Hg, addUint16_cut_off by done. unfold cut_off. width. lia.
    + unfold AccumulateDrops. cbn. by rewrite Hp.
Qed.

Lemma rtt_merge d v : am_flow_rtt (merge_additional d v) = Z.max (am_flow_rtt d) (am_flow_rtt v).
Proof.
  unfold merge_additional. cbv zeta.
  assert (Hi : ∀ d, am_flow_rtt (let d := if am_ipsec_encrypted_ret d <? am_ipsec_encrypted_ret v
      then d <| am_ipsec_encrypted := am_ipsec_encrypted v |>
             <| am_ipsec_encrypted_ret := am_ipsec_encrypted_ret v |> else d in
    if am_ipsec_encrypted_ret d =? am_ipsec_encrypted_ret v then
      if am_ipsec_encrypted v then d <| am_ipsec_encrypted := am_ipsec_encrypted v |> else d
    else d) = am_flow_rtt d) by (intros d'; cbv zeta; by repeat case_match).
  cbv zeta in Hi. rewrite Hi.
  destruct (am_flow_rtt d <? am_flow_rtt v) eqn:E; bool_to_prop; cbn; lia.
Qed.

Lemma rtts_foldl (l : list additional_metrics) p d :
  fc_additional p = Some d ->
  am_flow_rtt <$> fc_additional (foldl AccumulateAdditional p l)
  = Some (foldr Z.max (am_flow_rtt d) (am_flow_rtt <$> l)).
Proof.
  revert p d. induction l as [|v l IH]; intros p d Hp; cbn [foldl].
  - by rewrite Hp.
  - rewrite (IH _ (merge_additional d v)).
    + f_equal. rewrite rtt_merge. cbn.
      generalize (am_flow_rtt d) (am_flow_rtt v). clear. induction l as [|u l IH]; intros x y; cbn; [lia|].
      rewrite IH. lia.
    + unfold AccumulateAdditional. cbn. by rewrite Hp.
Qed.

(** ** Collecting a map *)

Section Collecting.
Context {K : Kernel} {KL : KernelLaws K}.
Context (cpus : list Z) (m : mapname) (to_flow : key m → flow_id) (Hinj : Inj (=) (=) to_flow).
Context (acc : BpfFlowContent → value m → BpfFlowContent).
Implicit Types w : world.

(** What the agent gets of an element: the copies merged into the flow. *)
Definition collected (flows : gmap flow_id BpfFlowContent) w (id : key m) : option BpfFlowContent :=
  match st_index (w_map w m) !! id with
  | Some p => Some (foldl acc (default (NewBpfFlowContent zeroed) (flows !! to_flow id))
                      ((λ c, cell_read (w_map w m) p c) <$> cpus))
  | None => flows !! to_flow id
  end.

Definition collect_one id (st : gmap flow_id BpfFlowContent * world) :=
  lookupAndDeletePerCPUMap cpus m [id] to_flow acc st.

(** An element that is taken later is not touched before. *)
Lemma collect_one_other id id' flows w :
  id <> id' ->
  collected (collect_one id (flows, w)).1 (collect_one id (flows, w)).2 id' = collected flows w id' /\
  (collect_one id (flows, w)).1 !! to_flow id' = flows !! to_flow id'.
Proof.
  intros Hne. unfold collect_one, lookupAndDeletePerCPUMap, collected. cbn [foldl].
  unfold LookupAndDeletePerCPU. destruct (st_index (w_map w m) !! id) as [p|] eqn:Hp; [|done].
  assert (Hf : to_flow id <> to_flow id') by (intros E; apply Hne; by apply Hinj).
  cbn [fst snd]. rewrite lookup_insert_ne by done.
  unfold map_delete. rewrite Hp. case_decide; cbn [snd]; [done|]. rewrite upd_map_eq. cbn [st_index].
  by rewrite lookup_delete_ne.
Qed.

Lemma collect_one_same id flows w :
  (collect_one id (flows, w)).1 !! to_flow id = collected flows w id.
Proof.
  unfold collect_one, lookupAndDeletePerCPUMap, collected. cbn [foldl].
  unfold LookupAndDeletePerCPU. destruct (st_index (w_map w m) !! id) as [p|]; [|done].
  cbn [fst]. by rewrite lookup_insert_eq.
Qed.

Lemma collect_cons id ids st :
  lookupAndDeletePerCPUMap cpus m (id :: ids) to_flow acc st
  = lookupAndDeletePerCPUMap cpus m ids to_flow acc (collect_one id st).
Proof. done. Qed.

(** Every element is taken once, whatever the order of the iteration. *)
Lemma collect_all ids flows w id :
  NoDup ids ->
  (lookupAndDeletePerCPUMap cpus m ids to_flow acc (flows, w)).1 !! to_flow id
  = if decide (id ∈ ids) then collected flows w id else flows !! to_flow id.
Proof.
  intros Hnd. revert flows w. induction Hnd as [|i ids Hi Hnd IH]; intros flows w.
  { rewrite decide_False by apply not_elem_of_nil. done. }
  rewrite collect_cons. destruct (collect_one i (flows, w)) as [flows' w'] eqn:E.
  pose proof (collect_one_same i flows w) as Hs. rewrite E in Hs. cbn [fst] in Hs.
  rewrite IH. destruct (decide (id = i)) as [->|Hne].
  - rewrite (decide_False (P := i ∈ ids)), (decide_True (P := i ∈ i :: ids)); [done|apply list_elem_of_here|done].
  - destruct (collect_one_other i id flows w ltac:(congruence)) as [Hc Hf]. rewrite E in Hc, Hf.
    cbn [fst snd] in *. rewrite Hc, Hf.
    assert (Hiff : id ∈ i :: ids <-> id ∈ ids) by (rewrite elem_of_cons; tauto).
    destruct (decide (id ∈ ids)); [rewrite decide_True by tauto|rewrite decide_False by tauto]; done.
Qed.

(** What the agent has of a flow, or would have of a new one. *)
Definition empty_content : BpfFlowContent := NewBpfFlowContent zeroed.
Definition part {V} (get : BpfFlowContent → V) (flows : gmap flow_id BpfFlowContent) (id : flow_id) : V :=
  get (default empty_content (flows !! id)).

Definition cpu_copies w (id : key m) : list (value m) :=
  match st_index (w_map w m) !! id with
  | Some p => (λ c, cell_read (w_map w m) p c) <$> cpus
  | None => []
  end.

Lemma collect_part {V} (get : BpfFlowContent → V) ids flows w id :
  NoDup ids ->
  part get (lookupAndDeletePerCPUMap cpus m ids to_flow acc (flows, w)).1 (to_flow id)
  = if decide (id ∈ ids) then get (foldl acc (default empty_content (flows !! to_flow id)) (cpu_copies w id))
    else part get flows (to_flow id).
Proof.
  intros Hnd. unfold part. rewrite collect_all by done. case_decide; [|done].
  unfold collected, cpu_copies. by destruct (st_index (w_map w m) !! id).
Qed.

(** What the accumulation does not touch stays. *)
Lemma collect_keeps {V} (get : BpfFlowContent → V) ids st id :
  (∀ f v, get (acc f v) = get f) ->
  part get (lookupAndDeletePerCPUMap cpus m ids to_flow acc st).1 id = part get st.1 id.
Proof.
  intros Hacc. assert (Hf : ∀ l f, get (foldl acc f l) = get f).
  { induction l as [|v l IH]; intros f; [done|]. cbn [foldl]. by rewrite IH. }
  revert st. induction ids as [|i ids IH]; intros [flows w]; [done|].
  rewrite collect_cons, IH. unfold collect_one, lookupAndDeletePerCPUMap. cbn [foldl].
  destruct (LookupAndDeletePerCPU cpus m i w) as [[l|] w']; [|done]. cbn [fst]. unfold part.
  destruct (decide (to_flow i = id)) as [<-|]; [|by rewrite lookup_insert_ne].
  rewrite lookup_insert_eq. cbn [default from_option]. apply Hf.
Qed.

Lemma collect_other_map ids st m' :
  m <> m' -> w_map (lookupAndDeletePerCPUMap cpus m ids to_flow acc st).2 m' = w_map st.2 m'.
Proof.
  intros Hm. revert st. induction ids as [|i ids IH]; intros [flows w]; [done|].
  rewrite collect_cons, IH. unfold collect_one, lookupAndDeletePerCPUMap. cbn [foldl].
  unfold LookupAndDeletePerCPU. destruct (st_index (w_map w m) !! i); [|done]. cbn [snd].
  unfold map_delete. case_decide; [done|]. case_match; [|done]. cbn [snd]. by rewrite upd_map_ne.
Qed.

Lemma gauge_copies {M} (G : Gauge m M) w id :
  g_all [] = 0 -> gauge cpus w id = g_all (g_get <$> cpu_copies w id).
Proof.
  intros H0. unfold gauge, copies, cpu_copies. destruct (st_index (w_map w m) !! id); [|by symmetry].
  by rewrite <- list_fmap_compose.
Qed.

Lemma gauge_no_element {M} (G : Gauge m M) w id : map_type m <> LPM_TRIE -> elem 0 m w id = None -> gauge cpus w id = 0.
Proof.
  intros Hm. rewrite elem_index by done. unfold gauge. by destruct (st_index (w_map w m) !! id).
Qed.

Lemma copies_wf (P : value m → Prop) w id :
  typed w -> (∀ v, wf_value m v -> P v) -> Forall P (cpu_copies w id).
Proof.
  intros Ht HP. unfold cpu_copies. destruct (st_index (w_map w m) !! id) as [p|]; [|constructor].
  apply list.Forall_fmap, list.Forall_true. intros cpu. apply HP, (typed_read w m p cpu Ht).
Qed.
End Collecting.

(** The copies merged: the gauges of the hooks. *)
Lemma drops_collected get (l : list pkt_drop_metrics) f :
  (∀ a b, get (merge_drops a b) = addUint16 (get a) (get b)) ->
  Forall (λ v, is_u16 (get v)) l -> fc_drops f = None ->
  default 0 (get <$> fc_drops (foldl AccumulateDrops f l)) = cut_off (Zsum (get <$> l)).
Proof.
  intros Hg Hl Hf. destruct l as [|v l]; cbn [foldl]; [by rewrite Hf|].
  apply list.Forall_cons_1 in Hl as [Hv Hl]. rewrite (drops_foldl get l _ v Hg).
  - done.
  - intros u Hu. by eapply list.Forall_forall in Hl.
  - done.
  - unfold AccumulateDrops. cbn. by rewrite Hf.
Qed.

Lemma rtts_collected (l : list additional_metrics) f :
  Forall (λ v, 0 <= am_flow_rtt v) l -> fc_additional f = None ->
  default 0 (am_flow_rtt <$> fc_additional (foldl AccumulateAdditional f l)) = Zmax (am_flow_rtt <$> l).
Proof.
  intros Hl Hf. destruct l as [|v l]; cbn [foldl]; [by rewrite Hf|].
  apply list.Forall_cons_1 in Hl as [Hv _].
  rewrite (rtts_foldl l _ v) by (unfold AccumulateAdditional; cbn; by rewrite Hf).
  cbn. unfold Zmax. cbn. generalize (am_flow_rtt <$> l). clear -Hv. intros r.
  induction r as [|x r IH]; cbn; lia.
Qed.
