(* ===== verification/Evictions.v ===== *)
(** * Emptying the flow map while the programs run

    The agent takes flows out of the map while the monitors are at work.  A
    monitor that has looked a flow up may then write into an element that has left
    the map already, and a packet of the flow may create it anew.  So packets can
    be missed; but none is counted twice: what was taken out of the map, what is
    still in it and what is in the ring buffer never exceed, together, the packets
    that the monitors got.  This holds for any configuration and any removals, at
    every moment. *)
From stdpp Require Import relations.
From S2P Require Import Prelude Machine Types Kernel Maps Safety PacketUtils Filter Metrics.
From S2P Require Import Drops Rtt NetEvents Xlat Ipsec Tls Dns Quic Flows Capture Ssl.
From S2P Require Import Concurrency Programs Rings Credits Gauges HookTotals Accounting Collect.

#[local] Instance N_credit : Credit N := N_sum.

Section Discipline.
Context {K : Kernel} {KL : KernelLaws K} {T : Tally} {TL : TallyLaws T}.
Implicit Types w : world.

(** What the ring buffer, and what the map and the ring buffer hold of a flow. *)
Definition record_holds (id : flow_id) (s : Kernel.sample flow_record) : Z :=
  match s with
  | Committed d => if decide (fr_id d = id) then t_get (fr_metrics d) else 0
  | Busy | Discarded => 0
  end.
Definition ring_holds (id : flow_id) w : Z := total (record_holds id <$> w_ring w direct_flows).
Definition holds (id : flow_id) w : Z := default 0 (t_get <$> the_flow w id) + ring_holds id w.

Definition next_flow w : addr := st_next (w_map w aggregated_flows).

(** Flows come and go, but no element is used again for another flow. *)
Record live_rely w w' : Prop := {
  lrl_typed : typed w';
  lrl_wf : world_wf w';
  lrl_next : (next_flow w <= next_flow w')%N;
  lrl_keys id p : (p < next_flow w)%N -> flow_addr w' id = Some p -> flow_addr w id = Some p;
}.

Record live_guar (id : flow_id) (d : N) w w' : Prop := {
  lg_rely : live_rely w w';
  lg_holds : holds id w' <= holds id w + Z.of_N d;
}.

Lemma live_rely_refl w : typed w -> world_wf w -> live_rely w w.
Proof. by split. Qed.
Lemma live_rely_self w w' : live_rely w w' -> live_rely w' w'.
Proof. intros []. by apply live_rely_refl. Qed.
Lemma live_rely_trans w1 w2 w3 : live_rely w1 w2 -> live_rely w2 w3 -> live_rely w1 w3.
Proof. intros [?? N1 K1] [?? N2 K2]. split; [done..|lia|]. intros id p Hp H3. apply K1; [done|]. apply K2; [lia|done]. Qed.

#[export] Instance live_discipline id : Discipline live_rely (live_guar id).
Proof.
  split.
  - apply live_rely_trans.
  - apply live_rely_self.
  - by intros d w w' [].
  - intros w Hw. split; [done|]. cbn. lia.
  - intros d1 d2 w1 w2 w3 [R1 H1] [R2 H2]. split; [by eapply live_rely_trans|]. cbn. lia.
Qed.

Lemma live_guar_refl id w : live_rely w w -> live_guar id 0%N w w.
Proof. intros Hw. split; [done|]. cbn. lia. Qed.

Lemma live_guar_same id w w' :
  typed w' -> world_wf w' -> w_map w' aggregated_flows = w_map w aggregated_flows ->
  w_ring w' direct_flows = w_ring w direct_flows -> live_guar id 0%N w w'.
Proof.
  intros Ht Hw Hm Hr. split.
  - split; [done..| |]; unfold next_flow, flow_addr; rewrite Hm; [lia|done].
  - unfold holds, ring_holds. rewrite Hr.
    assert (E : the_flow w' id = the_flow w id) by exact (elem_ext 0 aggregated_flows w w' id Hm).
    rewrite E. lia.
Qed.

Lemma live_safe {A} cpu id ms rs (P : A → Prop) (Q : A → N → world → Prop) h (p : prog A) c w :
  safe P p -> writes ms rs p -> aggregated_flows ∉ ms -> direct_flows ∉ rs -> live_rely w w ->
  (∀ a w', P a -> live_rely w w' -> Q a c w') ->
  rg (R := live_rely) (G := live_guar id) cpu Q h p c w.
Proof.
  intros Hs Hp Hm Hrs Hw HQ. eapply (rg_safe cpu (λ _, helper_writes ms rs) P);
    [by intros ? []| |done|by apply writes_calls|done..].
  intros X e w1 H1 He Hwe. apply live_guar_same.
  - by apply (helper_sem_ok cpu e w1 (lrl_typed _ _ H1)).
  - apply helper_sem_wf, H1.
  - by eapply helper_sem_map_frame.
  - by eapply helper_sem_ring_frame.
Qed.

(** *** Writing through a pointer *)

(** The element at [p] was made for the flow [id], which may have gone. *)
Definition made_for w (p : addr) (id : flow_id) : Prop :=
  (p < next_flow w)%N /\ ∀ j, flow_addr w j = Some p -> j = id.

Lemma made_for_lookup w p id : world_wf w -> flow_addr w id = Some p -> made_for w p id.
Proof.
  intros [Hw _] Hp. split; [by eapply index_fresh; [apply Hw|exact Hp]|].
  intros j Hj. by eapply index_inj; [apply (Hw aggregated_flows)|exact Hj|exact Hp].
Qed.

Lemma made_for_stable w w' p id : live_rely w w' -> made_for w p id -> made_for w' p id.
Proof.
  intros [_ _ Hn Hk] [Hp Hi]. split; [lia|]. intros j Hj. by apply Hi, Hk.
Qed.

(** What a packet of flow [id'] adds to [id] at most. *)
Definition packet_share (id : flow_id) (skb : sk_buff) (id' : flow_id) : N :=
  if decide (id' = id) then Z.to_N (t_amount skb) else 0%N.

Lemma mod_at_most x y : 0 <= x -> 0 <= y -> (x + y) mod t_mod <= x + y.
Proof.
  intros Hx Hy. pose proof (t_range _ (wf_value_zero aggregated_flows)). apply Z.mod_le; lia.
Qed.

Lemma dead_write cpu p f w id :
  (∀ j, flow_addr w j <> Some p) ->
  the_flow (helper_sem cpu (elem_write aggregated_flows p f) w).2 id = the_flow w id.
Proof.
  intros Hp. cbn [helper_sem]. unfold map_write. cbn [snd]. case_match; [|done].
  set (w' := upd_map _ _ _).
  assert (Ha : flow_addr w' id = flow_addr w id) by (unfold flow_addr, w'; by rewrite upd_map_eq).
  rewrite !the_flow_addr, Ha. specialize (Hp id). destruct (flow_addr w id) as [q|]; [|done].
  cbn [fmap option_fmap option_map]. f_equal. unfold w'. rewrite upd_map_eq. unfold cell_read, cell_write. cbn [st_cells].
  rewrite lookup_insert_ne; [done|]. congruence.
Qed.

Lemma write_addr cpu p f w id :
  flow_addr (helper_sem cpu (elem_write aggregated_flows p f) w).2 id = flow_addr w id /\
  next_flow (helper_sem cpu (elem_write aggregated_flows p f) w).2 = next_flow w /\
  w_ring (helper_sem cpu (elem_write aggregated_flows p f) w).2 direct_flows = w_ring w direct_flows.
Proof.
  cbn [helper_sem]. unfold map_write. cbn [snd]. case_match; [|done].
  unfold flow_addr, next_flow. by rewrite !upd_map_eq.
Qed.

Lemma live_update cpu id (id' : flow_id) skb pkt s direction tls p w :
  live_rely w w -> made_for w p id' -> wf_skb skb -> wf_pkt pkt -> is_u32 s ->
  is_u8 direction -> wf_tls_info tls ->
  live_guar id (packet_share id skb id') w
    (helper_sem cpu (elem_write aggregated_flows p
      (update_locked pkt (skb_len skb) s (skb_ifindex skb) direction tls)) w).2.
Proof.
  intros Hw [Hp Hown] Hskb Hpkt Hs Hd Htls. set (f := update_locked _ _ _ _ _ _).
  assert (Hf : ∀ u, wf_flow_metrics u -> wf_flow_metrics (f u).1)
    by (intros u Hu; apply update_locked_ok; try done; apply Hskb).
  pose proof (helper_sem_ok cpu (elem_write aggregated_flows p f) w (lrl_typed _ _ Hw) Hf) as [_ Ht].
  pose proof (helper_sem_wf cpu (elem_write aggregated_flows p f) w (lrl_wf _ _ Hw)) as Hw'.
  pose proof (write_addr cpu p f w) as Ha.
  assert (Hr : live_rely w (helper_sem cpu (elem_write aggregated_flows p f) w).2).
  { split; [done..| |]; [by rewrite (proj1 (proj2 (Ha id)))|]. intros j q _. by rewrite (proj1 (Ha j)). }
  split; [done|]. unfold holds, ring_holds. rewrite (proj2 (proj2 (Ha id))).
  destruct (decide (flow_addr w id' = Some p)) as [Hlive|Hdead].
  2:{ rewrite dead_write; [lia|]. intros j Hj. pose proof (Hown j Hj) as ->. done. }
  destruct (the_flow w id') as [v|] eqn:Hv; [|by apply the_flow_None in Hv; rewrite Hv in Hlive].
  pose proof (t_range v (the_flow_wf _ _ _ (lrl_typed _ _ Hw) Hv)) as Hvr.
  destruct (flow_write cpu w id' p f v (lrl_wf _ _ Hw) Hlive Hv) as (E & Eo & _).
  unfold packet_share. destruct (decide (id' = id)) as [->|Hne]; [|rewrite Eo by done; lia].
  rewrite E, Hv. cbn [fmap option_fmap option_map default from_option].
  pose proof (t_positive skb Hskb) as Hpos. rewrite Z2N.id by done.
  destruct (decide (fm_if_index_first_seen v = skb_ifindex skb)) as [Hi|Hi]; unfold f.
  - rewrite t_update by done. pose proof (mod_at_most (t_get v) (t_amount skb) (proj1 Hvr) Hpos). cbn. lia.
  - rewrite t_other by done. cbn. lia.
Qed.

(** *** Creating a flow, sending a record *)

(** The record of the packet of a flow. *)
Definition counts_packet (skb : sk_buff) (v : flow_metrics) : Prop := t_get v = t_amount skb mod t_mod.

Lemma counts_at_most skb v : wf_skb skb -> counts_packet skb v -> t_get v <= t_amount skb.
Proof.
  intros Hskb ->. pose proof (t_positive skb Hskb) as Hpos. by apply (mod_at_most 0).
Qed.

Lemma create_addr cpu w id v j :
  let w' := (helper_sem cpu (bpf_map_update_elem aggregated_flows id v BPF_NOEXIST) w).2 in
  (next_flow w <= next_flow w')%N /\
  (flow_addr w' j = flow_addr w j \/ flow_addr w' j = Some (next_flow w)).
Proof.
  cbv zeta. cbn [helper_sem]. unfold map_update. destruct (st_index _ !! id); [by split; [|left]|].
  rewrite decide_False by done. unfold map_insert.
  destruct (k_admit aggregated_flows _ id (w_kst w)) as [[ev|e] st] eqn:Ea; cbn [snd]; [|by split; [|left]].
  assert (ev = []) as ->.
  { apply (admit_evicts aggregated_flows (st_index (w_map w aggregated_flows)) id (w_kst w)); [by rewrite Ea|done]. }
  unfold next_flow, flow_addr.
  change (w_map (upd_kst st ?w0) aggregated_flows) with (w_map w0 aggregated_flows).
  rewrite upd_map_eq. cbn [st_next st_index cell_new foldr]. split; [lia|].
  destruct (decide (j = id)) as [->|]; [right; apply lookup_insert_eq|left; by apply lookup_insert_ne].
Qed.

Lemma live_create cpu id (id' : flow_id) skb v w :
  live_rely w w -> wf_skb skb -> wf_flow_metrics v -> counts_packet skb v ->
  live_guar id (packet_share id skb id') w
    (helper_sem cpu (bpf_map_update_elem aggregated_flows id' v BPF_NOEXIST) w).2.
Proof.
  intros Hw Hskb Hv Hc.
  pose proof (helper_sem_ok cpu (bpf_map_update_elem aggregated_flows id' v BPF_NOEXIST) w
    (lrl_typed _ _ Hw) Hv) as [_ Ht].
  pose proof (helper_sem_wf cpu (bpf_map_update_elem aggregated_flows id' v BPF_NOEXIST) w
    (lrl_wf _ _ Hw)) as Hw'.
  pose proof (create_addr cpu w id' v) as Ha. pose proof (flow_create cpu w id' v (lrl_wf _ _ Hw)) as Hf.
  pose proof (helper_sem_ringless cpu (bpf_map_update_elem aggregated_flows id' v BPF_NOEXIST) w
    direct_flows eq_refl) as Hring.
  cbv zeta in Ha, Hf. set (r := helper_sem _ _ w) in *.
  split; [split; [done..|apply (Ha id)|]|].
  { intros j p Hp Hj. destruct (Ha j) as [_ [E|E]]; [by rewrite <- E|]. rewrite E in Hj. injection Hj as <-. lia. }
  unfold holds, ring_holds. rewrite Hring. destruct (flow_addr w id') as [p|] eqn:Ep.
  { rewrite Hf. cbn [snd]. lia. }
  destruct Hf as [(_ & E & Eo & _)|(_ & _ & _ & Hm)].
  - unfold packet_share. destruct (decide (id' = id)) as [->|Hne]; [|rewrite Eo by done; lia].
    apply the_flow_None in Ep. rewrite E, Ep. cbn.
    rewrite Z2N.id by by apply t_positive. pose proof (counts_at_most skb v Hskb Hc). lia.
  - assert (E : the_flow r.2 id = the_flow w id) by exact (elem_ext 0 aggregated_flows w r.2 id (Hm _)).
    rewrite E. lia.
Qed.

Lemma live_submit cpu id i skb (d : flow_record) w :
  live_rely w w -> wf_skb skb -> w_ring w direct_flows !! i = Some Busy -> counts_packet skb (fr_metrics d) ->
  live_guar id (packet_share id skb (fr_id d)) w
    (helper_sem cpu (bpf_ringbuf_submit direct_flows i d) w).2.
Proof.
  intros Hw Hskb Hi Hc. cbn [helper_sem snd]. set (w' := upd_ring _ _ _).
  split; [split; [apply Hw..|done|done]|].
  assert (Hr : ring_holds id w' = ring_holds id w + record_holds id (Committed d)).
  { unfold ring_holds, w'. rewrite upd_ring_eq.
    rewrite (total_fmap_insert _ _ _ _ (Committed d : Kernel.sample flow_record) Hi). cbn. lia. }
  unfold holds. rewrite Hr. change (the_flow w' id) with (the_flow w id).
  unfold record_holds, packet_share. destruct (decide (fr_id d = id)); [|lia].
  rewrite Z2N.id by by apply t_positive. pose proof (counts_at_most skb _ Hskb Hc). lia.
Qed.

Lemma live_reserve cpu id w :
  live_rely w w -> live_guar id 0%N w (helper_sem cpu (bpf_ringbuf_reserve direct_flows) w).2.
Proof.
  intros Hw. cbn [helper_sem]. destruct (k_reserve direct_flows (w_kst w)) as [[] st]; cbn [snd].
  2: by apply live_guar_same; [apply Hw..| |].
  split; [by split; [apply Hw|apply Hw| |]|].
  unfold holds, ring_holds. change (w_ring (upd_kst st ?w') direct_flows) with (w_ring w' direct_flows).
  change (the_flow (upd_kst _ _) id) with (the_flow w id).
  rewrite upd_ring_eq, fmap_app, total_app. cbn. lia.
Qed.
End Discipline.

(** ** The monitors *)

Section Monitor.
Context {H : Host} {K : Kernel} {KL : KernelLaws K} {T : Tally} {TL : TallyLaws T}.
Context (id : flow_id) (cfg : config).
Implicit Types w : world.

Abbreviation lrg := (rg (R := live_rely) (G := live_guar id)).

(** A monitor may owe something in the end: the packet was not counted. *)
Definition at_most {A} (_ : A) (_ : N) w : Prop := live_rely w w.

Lemma at_most_stable {A} : stable_end (R := live_rely) (A := A) at_most.
Proof. intros a c w w' _. apply live_rely_self. Qed.

Lemma lrg_safe {A} cpu h ms rs (P : A → Prop) (p : prog A) c w :
  safe P p -> writes ms rs p -> aggregated_flows ∉ ms -> direct_flows ∉ rs -> live_rely w w ->
  lrg cpu at_most h p c w.
Proof.
  intros Hs Hp Hm Hr Hw. eapply live_safe; [done..|]. intros a w' _. by apply live_rely_self.
Qed.

(** A program that goes on, whatever it owes. *)
Lemma lrg_bind {A B} cpu h ms rs (P : A → Prop) (p : prog A) (f : A → prog B) c w :
  safe P p -> writes ms rs p -> aggregated_flows ∉ ms -> direct_flows ∉ rs -> live_rely w w ->
  (∀ a w' h', P a -> live_rely w' w' -> lrg cpu at_most h' (f a) c w') ->
  lrg cpu at_most h (p ≫= f) c w.
Proof.
  intros Hs Hp Hm Hr Hw Hf. apply rg_bind. eapply live_safe; [done..|].
  intros a w' Ha H' h'. apply Hf; [done|by eapply live_rely_self].
Qed.

Lemma lrg_call {X A} cpu h (e : helper X) (f : X → prog A) c w :
  (∀ w1, live_rely w w1 -> live_rely w1 w1 -> pending h w1 ->
     let x := (helper_sem cpu e w1).1 in
     let w2 := (helper_sem cpu e w1).2 in
     (live_guar id 0%N w1 w2 /\ lrg cpu at_most (held_after e x h) (f x) c w2) \/
     (live_guar id c w1 w2 /\ lrg cpu at_most (held_after e x h) (f x) 0%N w2)) ->
  lrg cpu at_most h (call e ≫= f) c w.
Proof. intros Hp. apply rg_call. intros w1 H1 Hh. by apply Hp; [|eapply live_rely_self|]. Qed.

Lemma lrg_count {A} cpu h k (a : A) c w :
  live_rely w w -> lrg cpu at_most h (_ ← increase_counter k; mret a) c w.
Proof.
  intros Hw. eapply lrg_bind; [apply increase_counter_safe|apply increase_counter_writes
    |apply (bool_decide_unpack _); by vm_compute|apply not_elem_of_nil|done|]. by intros.
Qed.

Lemma lrg_update cpu h skb pkt p s direction tls w :
  live_rely w w -> made_for w p (pi_id pkt) -> wf_skb skb -> wf_pkt pkt ->
  is_u32 s -> is_u8 direction -> wf_tls_info tls ->
  lrg cpu at_most h
    (_ ← update_existing_flow p pkt (skb_len skb) s (skb_ifindex skb) direction tls; mret true)
    (packet_share id skb (pi_id pkt)) w.
Proof.
  intros Hw Hp Hskb Hpkt Hs Hd Htls. apply rg_bind. apply rg_mono with at_most.
  2:{ by intros a c w' Ha h'. }
  apply lrg_call. intros w1 H1 Hw1 _.
  pose proof (live_update cpu id (pi_id pkt) skb pkt s direction tls p w1 Hw1
    (made_for_stable _ _ _ _ H1 Hp) Hskb Hpkt Hs Hd Htls) as Hg.
  right. split; [exact Hg|]. pose proof (live_rely_self _ _ (lg_rely _ _ _ _ Hg)) as Hw2.
  destruct (_ && _); [|done].
  eapply lrg_safe; [apply increase_counter_safe|apply increase_counter_writes
    |apply (bool_decide_unpack _); by vm_compute|apply not_elem_of_nil|done].
Qed.

Lemma lrg_lookup {A} cpu h (id' : flow_id) (f : option addr → prog A) c w :
  live_rely w w ->
  (∀ o w' h', live_rely w' w' -> (∀ p, o = Some p -> made_for w' p id') -> lrg cpu at_most h' (f o) c w') ->
  lrg cpu at_most h (call (bpf_map_lookup_elem aggregated_flows id') ≫= f) c w.
Proof.
  intros Hw Hf. apply lrg_call. intros w1 H1 Hw1 _. left. rewrite lookup_flow. cbn [fst snd held_after].
  split; [by apply live_guar_refl|]. apply Hf; [done|]. intros p Hp.
  apply made_for_lookup; [apply Hw1|done].
Qed.

Lemma lrg_account_flow cpu h skb pkt e s direction tls w :
  live_rely w w -> wf_skb skb -> sizeof_ethhdr <= Z.of_nat (length (skb_data skb)) ->
  wf_pkt pkt -> is_u16 e -> is_u32 s -> is_u8 direction -> wf_tls_info tls ->
  lrg cpu at_most h (account_flow cfg skb pkt e (skb_len skb) s direction tls)
    (packet_share id skb (pi_id pkt)) w.
Proof.
  intros Hw Hskb Heth Hpkt He Hs Hd Htls. unfold account_flow.
  apply lrg_lookup; [done|]. intros o w1 h1 Hw1 Ho. destruct o as [p|]; [by apply lrg_update; auto|]. clear Ho.
  destruct (load_ok (skb_data skb) 0 sizeof_ethhdr) as (b & Hb & Hbl & Hbu); [done|done|lia|].
  rewrite Hb. cbn [fmap option_fmap option_map deref mbind prog_bind].
  set (new_flow := new_flow_metrics _ _ _ _ _ _ _ _).
  assert (Hnew : wf_flow_metrics new_flow).
  { assert (Hu : Forall is_u8 b) by (apply Hbu, Hskb).
    change (Z.to_nat sizeof_ethhdr) with 14%nat in Hbl.
    apply new_flow_metrics_ok; try done; cbn [h_dest h_source decode_ethhdr].
    - rewrite <- (drop_0 b). apply take_drop_bytes; [lia|done].
    - apply take_drop_bytes; [lia|done]. }
  assert (Hc : counts_packet skb new_flow) by by apply t_new.
  apply lrg_call. intros w2 H2 Hw2 _. cbn [held_after].
  destruct (flow_addr w2 (pi_id pkt)) as [p|] eqn:Ep2.
  - pose proof (flow_create cpu w2 (pi_id pkt) new_flow (lrl_wf _ _ Hw2)) as Hf.
    rewrite Ep2 in Hf. cbv zeta in Hf. rewrite Hf. cbn [fst snd].
    left. split; [by apply live_guar_refl|].
    change (negb (- EEXIST =? 0)) with true. change (- EEXIST =? - EEXIST) with true. cbv iota.
    apply lrg_lookup; [done|]. intros o w3 h3 Hw3 Ho. destruct o as [q|]; [by apply lrg_update; auto|].
    by apply lrg_count.
  - pose proof (live_create cpu id (pi_id pkt) skb new_flow w2 Hw2 Hskb Hnew Hc) as Hg.
    pose proof (live_rely_self _ _ (lg_rely _ _ _ _ Hg)) as Hw3.
    pose proof (flow_create cpu w2 (pi_id pkt) new_flow (lrl_wf _ _ Hw2)) as Hf.
    rewrite Ep2 in Hf. cbv zeta in Hf. destruct Hf as [(Hr & _)|(_ & He1 & He2 & Hm)].
    + right. split; [exact Hg|]. rewrite Hr. exact Hw3.
    + left. split.
      { apply live_guar_same; [apply Hw3..|apply Hm|by apply helper_sem_ringless]. }
      rewrite (proj2 (Z.eqb_neq _ 0)), (proj2 (Z.eqb_neq _ (- EEXIST))) by (done || lia). cbv iota.
      destruct (0 <? enable_directflows_ringbuf cfg); [|by apply lrg_count].
      apply lrg_call. intros w4 H4 Hw4 _. pose proof (live_reserve cpu id w4 Hw4) as Hg4.
      pose proof (live_rely_self _ _ (lg_rely _ _ _ _ Hg4)) as Hw5.
      left. split; [exact Hg4|]. destruct (helper_sem cpu (bpf_ringbuf_reserve direct_flows) w4) as [[i|] w5];
        cbn [fst snd] in *; [|exact Hw5].
      apply lrg_call. intros w6 H6 Hw6 Hp. right.
      assert (Hg6 : live_guar id (packet_share id skb (pi_id pkt)) w6 (helper_sem cpu (bpf_ringbuf_submit direct_flows i
        (mk_flow_record (pi_id pkt) (new_flow <| fm_errno := u8 (- (helper_sem cpu
          (bpf_map_update_elem aggregated_flows (pi_id pkt) new_flow BPF_NOEXIST) w2).1) |>))) w6).2).
      { apply (live_submit cpu id i skb (mk_flow_record _ _)); [done..|by apply Hp|].
        unfold counts_packet. cbn [fr_metrics]. by rewrite t_errno. }
      split; [exact Hg6|]. by eapply live_rely_self, lg_rely.
Qed.

Lemma lrg_process_packet cpu h skb pkt e s direction w :
  live_rely w w -> wf_skb skb -> submitted skb pkt e -> is_u32 s -> is_u8 direction ->
  lrg cpu at_most h (process_packet cfg skb pkt e s direction) (packet_share id skb (pi_id pkt)) w.
Proof.
  intros Hw Hskb Hsub Hs Hd. unfold process_packet.
  apply rg_bind. apply rg_mono with (λ r c' w', dns_filled pkt r.2 /\
    c' = packet_share id skb (pi_id pkt) /\ live_rely w' w').
  { destruct (negb (enable_dns_tracking cfg =? 0)).
    - eapply live_safe; [apply track_dns_packet_safe; [done|apply Hsub|]
        |apply track_dns_packet_writes|apply (bool_decide_unpack _); by vm_compute
        |apply not_elem_of_nil|done|].
      + intros off Ho. by apply (sub_l4 _ _ _ Hsub).
      + intros r w' [_ Hr] H'. split_and!; [done..|by eapply live_rely_self].
    - apply rg_ret. split_and!; [|done..].
      destruct (sub_pkt _ _ _ Hsub) as [_ ? _ _ (?&?&?)]. by split. }
  intros [dns_errno pkt'] c1 w1 (Hpkt & -> & Hw1) h1. cbn [snd] in Hpkt.
  pose proof (submitted_dns _ _ _ _ Hsub Hpkt) as Hsub'.
  destruct (packet_tls_ok cfg skb pkt' _ Hskb Hsub') as (r & Htls & Hwt).
  rewrite Htls. apply rg_bind, rg_ret. intros ht.
  assert (Hquic : safe (λ _, True) (if negb (enable_quic_tracking cfg =? 0) then track_quic_packet cfg skb pkt' e else mret 0)).
  { case_match; [|done]. eapply safe_mono; [apply track_quic_packet_safe|done]; [done|apply Hsub'|apply (sub_pkt _ _ _ Hsub')|apply Hsub']. }
  eapply (lrg_bind _ _ [quic_flows] []); [exact Hquic| |apply (bool_decide_unpack _); by vm_compute
    |apply not_elem_of_nil|done|].
  { case_match; [|done]. apply track_quic_packet_writes. }
  intros _ w2 h2 _ Hw2. rewrite <- (dns_same_id _ _ Hpkt).
  apply rg_bind. eapply rg_mono; [by apply lrg_account_flow; try apply Hsub'|].
  intros [] c3 w3 Hw3 h3; [|exact Hw3].
  eapply lrg_bind; [by apply account_dns_safe; apply Hsub'
    |apply account_dns_writes|apply (bool_decide_unpack _); by vm_compute
    |apply not_elem_of_nil|done|]. by intros.
Qed.

(** What a packet adds at most. *)
Definition skb_share (skb : sk_buff) : N :=
  match packet_flow skb with Some id' => packet_share id skb id' | None => 0%N end.

Lemma lrg_sample {A} cpu h rate (f : bool → prog A) c w :
  live_rely w w -> (∀ b w' h', live_rely w' w' -> lrg cpu at_most h' (f b) c w') ->
  lrg cpu at_most h (sample rate ≫= f) c w.
Proof.
  intros Hw Hf. unfold sample. apply rg_bind, rg_bind. eapply rg_mono with (λ _ c' w', c' = c /\ live_rely w' w').
  { unfold sampled_out. case_match; [|by apply rg_ret].
    eapply (live_safe _ _ [] [] (λ _, True)).
    - by apply safe_bind, safe_call.
    - by apply writes_bind.
    - apply not_elem_of_nil.
    - apply not_elem_of_nil.
    - done.
    - intros a w' _ H'. split; [done|by eapply live_rely_self]. }
  intros out c1 w1 (-> & Hw1) h1.
  assert (Hset : ∀ v (b : bool), 0 <= v <= 1 ->
    lrg cpu (λ (a : bool) c' w', ∀ h', lrg cpu at_most h' (f a) c' w') h1
      (_ ← call (do_sampling_set v); mret b) c w1).
  { intros v b Hv. apply rg_call. intros w2 H2 _. pose proof (live_rely_self _ _ H2) as Hw2. left.
    assert (Hg : live_guar id 0%N w2 (helper_sem cpu (do_sampling_set v) w2).2).
    { apply live_guar_same; [|apply Hw2|done..]. by apply (helper_sem_ok cpu (do_sampling_set v)); [apply Hw2|cbn; width; lia]. }
    split; [exact Hg|]. intros h2. apply Hf. eapply live_rely_self, lg_rely, Hg. }
  destruct out; apply Hset; lia.
Qed.

Lemma lrg_parse_and_filter cpu h skb flow_sampling direction w :
  live_rely w w -> wf_skb skb -> is_u32 (sampling cfg) -> is_u32 flow_sampling -> is_u8 direction ->
  lrg cpu at_most h (parse_and_filter cfg skb flow_sampling direction) (skb_share skb) w.
Proof.
  intros Hw Hskb Hcs Hs Hd. unfold parse_and_filter.
  eapply (lrg_bind _ _ [] [] is_u64); [by apply safe_call|done|apply not_elem_of_nil|apply not_elem_of_nil|done|].
  intros ts w1 h1 Hts Hw1.
  destruct (parse_submitted skb ts Hskb Hts) as (r & pkt & e & Hfill & Hr & Hsub).
  rewrite Hfill. apply rg_bind, rg_ret. intros ?. cbv beta iota.
  unfold skb_share. rewrite (packet_flow_parsed _ _ _ _ _ Hfill).
  destruct (parsable (skb_data skb)); subst r; [|exact Hw1].
  change (SUBMIT =? DISCARD) with false. cbv iota. destruct (Hsub eq_refl) as (Hsb & _ & _).
  eapply lrg_bind; [apply check_and_apply_filter_safe; by intros v [= <-]|apply check_and_apply_filter_writes
    |apply (bool_decide_unpack _); by vm_compute|apply not_elem_of_nil|done|].
  intros [skip fs] w2 h2 Hfs Hw2. cbn [snd] in Hfs. destruct fs as [fs|]; [|done]. cbn in Hfs.
  change (default flow_sampling (Some fs)) with fs.
  assert (Hproc : ∀ s h w, is_u32 s -> live_rely w w ->
    lrg cpu at_most h (if skip then mret TC_ACT_OK else process_packet cfg skb pkt e s direction)
      (packet_share id skb (pi_id pkt)) w).
  { intros s h3 w' Hsu Hw'. destruct skip; [exact Hw'|]. by apply lrg_process_packet. }
  destruct (negb (has_filter_sampling cfg =? 0)); [|by apply Hproc].
  assert (is_u32 (if fs =? 0 then sampling cfg else fs)) by (by destruct (fs =? 0)).
  apply lrg_sample; [done|]. intros [] w3 h3 Hw3; [by apply Hproc|exact Hw3].
Qed.

Lemma lrg_flow_monitor cpu h skb direction w :
  live_rely w w -> wf_skb skb -> is_u32 (sampling cfg) -> is_u8 direction ->
  lrg cpu at_most h (flow_monitor cfg skb direction) (skb_share skb) w.
Proof.
  intros Hw Hskb Hcs Hd. unfold flow_monitor.
  case_match; [|by apply lrg_parse_and_filter; auto with width].
  apply lrg_sample; [done|]. intros [] w1 h1 Hw1; [by apply lrg_parse_and_filter|exact Hw1].
Qed.

(** What a program adds at most. *)
Definition program_share (p : program) : N :=
  match p with FlowMonitor _ skb => skb_share skb | _ => 0%N end.

Lemma lrg_program cpu h p w :
  live_rely w w -> is_u32 (sampling cfg) -> wf_program p ->
  lrg cpu at_most h (program_code cfg p) (program_share p) w.
Proof.
  intros Hw Hu Hp. destruct (is_monitor p) eqn:Hm.
  - destruct p; try done. destruct Hp. by apply lrg_flow_monitor.
  - eapply lrg_safe; [by apply program_safe|by apply program_footprint| | |done];
      (destruct p; try done; apply (bool_decide_unpack _); by vm_compute).
Qed.
End Monitor.

(** ** Programs and removals, in any order *)

Section Agent.
Context {K : Kernel} {KL : KernelLaws K}.
Implicit Types w : world.

(** A state: the programs, the world, and what the agent has taken out so far. *)
Inductive agent_step {A} : pool A * world * list (flow_id * flow_metrics) →
    pool A * world * list (flow_id * flow_metrics) → Prop :=
  | program_steps ps w ps' w' taken :
      pool_step (ps, w) (ps', w') -> agent_step (ps, w, taken) (ps', w', taken)
  | agent_takes ps w id f w' taken :
      LookupAndDelete aggregated_flows id w = (Some f, w') ->
      agent_step (ps, w, taken) (ps, w', taken ++ [(id, f)]).

Lemma pool_steps_agent {A} (s s' : pool A * world) taken :
  rtc pool_step s s' -> rtc agent_step (s.1, s.2, taken) (s'.1, s'.2, taken).
Proof.
  induction 1 as [s|[ps1 w1] [ps2 w2] s3 H12 _ IH]; [done|].
  eapply rtc_l; [|exact IH]. by apply program_steps.
Qed.

(** One removal between two schedules. *)
Definition taking_between {A} (s s' : list nat) (id : flow_id) (ps : pool A) w :
    pool A * world * list (flow_id * flow_metrics) :=
  let m := run_schedule s ps w in
  match LookupAndDelete aggregated_flows id m.2 with
  | (Some f, w') => (run_schedule s' m.1 w', [(id, f)])
  | (None, _) => (run_schedule s' m.1 m.2, [])
  end.

Lemma taking_between_steps {A} s s' id (ps : pool A) w :
  rtc agent_step (ps, w, []) (taking_between s s' id ps w).
Proof.
  unfold taking_between. cbv zeta. pose proof (pool_steps_agent _ _ [] (run_schedule_steps s ps w)) as Hs.
  destruct (run_schedule s ps w) as [ps1 w1]. cbn [fst snd] in *. etrans; [exact Hs|].
  destruct (LookupAndDelete aggregated_flows id w1) as [[f|] w2] eqn:Ht.
  - eapply rtc_l; [exact (agent_takes _ _ _ _ _ [] Ht)|].
    pose proof (pool_steps_agent _ _ [(id, f)] (run_schedule_steps s' ps1 w2)) as Hs'.
    by destruct (run_schedule s' ps1 w2).
  - pose proof (pool_steps_agent _ _ [] (run_schedule_steps s' ps1 w1)) as Hs'.
    by destruct (run_schedule s' ps1 w1).
Qed.

(** The flow leaves the map; nothing else changes. *)
Lemma taken_out w i f w' :
  world_wf w -> LookupAndDelete aggregated_flows i w = (Some f, w') ->
  the_flow w i = Some f /\ the_flow w' i = None /\ (∀ j, j <> i -> the_flow w' j = the_flow w j) /\
  (∀ j p, flow_addr w' j = Some p -> flow_addr w j = Some p) /\ next_flow w' = next_flow w /\
  (∀ r, w_ring w' r = w_ring w r) /\ world_wf w' /\ (typed w -> typed w').
Proof.
  intros Hwf. unfold LookupAndDelete. destruct (st_index (w_map w aggregated_flows) !! i) as [p|] eqn:Ep; [|done].
  intros [= <- <-].
  pose proof (helper_sem_wf 0 (bpf_map_delete_elem aggregated_flows i) w Hwf) as Hw'.
  assert (Ht' : typed w -> typed (map_delete aggregated_flows i w).2).
  { intros Ht. by apply (helper_sem_ok 0 (bpf_map_delete_elem aggregated_flows i) w Ht). }
  cbn [helper_sem] in Hw'. unfold map_delete in *. rewrite Ep, decide_False in * by done. cbn [snd] in *.
  rewrite !the_flow_addr. unfold flow_addr, next_flow. rewrite upd_map_eq. cbn [st_index st_next]. rewrite Ep.
  split; [done|]. rewrite lookup_delete_eq. split; [done|]. split.
  { intros j Hj. rewrite !the_flow_addr. unfold flow_addr. rewrite !upd_map_eq. cbn [st_index].
    by rewrite lookup_delete_ne. }
  split; [by intros j q [_ ?]%lookup_delete_Some|]. done.
Qed.
End Agent.

Section Bound.
Context {H : Host} {K : Kernel} {KL : KernelLaws K} {T : Tally} {TL : TallyLaws T}.
Context (id : flow_id) (cfg : config).
Implicit Types w : world.

Definition taken_holds (taken : list (flow_id * flow_metrics)) : Z :=
  total ((λ t, if decide (t.1 = id) then t_get t.2 else 0) <$> taken).

Lemma taken_holds_snoc taken (i : flow_id) (f : flow_metrics) :
  taken_holds (taken ++ [(i, f)]) = taken_holds taken + (if decide (i = id) then t_get f else 0).
Proof. unfold taken_holds. rewrite fmap_app, total_app. cbn. lia. Qed.

Lemma take_holds w (i : flow_id) (f : flow_metrics) w' :
  live_rely w w -> LookupAndDelete aggregated_flows i w = (Some f, w') ->
  live_rely w w' /\ (∀ r, w_ring w' r = w_ring w r) /\
  holds id w' + (if decide (i = id) then t_get f else 0) = holds id w.
Proof.
  intros Hw Ht. destruct (taken_out w i f w' (lrl_wf _ _ Hw) Ht) as (E & En & Eo & Ea & Ex & Er & Hw' & Ht').
  split; [split; [apply Ht', Hw|done|lia|by intros j p _ ?%Ea]|]. split; [done|].
  unfold holds, ring_holds. rewrite Er. case_decide as Hi.
  - subst i. rewrite E, En. cbn. lia.
  - rewrite Eo by done. lia.
Qed.

(** What has been taken out and what is held never exceed a bound, with what the
    programs still owe. *)
Definition bounded (B : Z) (s : pool Z * world * list (flow_id * flow_metrics)) : Prop :=
  let '(ps, w, taken) := s in
  ∃ hs cs, pool_rg (R := live_rely) (G := live_guar id) at_most ps hs cs w /\ live_rely w w /\
    taken_holds taken + holds id w + Z.of_N (total cs) <= B.

Lemma bounded_step B s s' : agent_step s s' -> bounded B s -> bounded B s'.
Proof.
  intros Hs. destruct Hs as [ps w ps' w' taken Hst|ps w i f w' taken Ht]; intros (hs & cs & Hp & Hw & Hb).
  - destruct (pool_rg_step _ _ _ _ _ _ _ at_most_stable Hw Hst Hp) as (hs' & cs' & d & Hp' & Hg & Hd).
    exists hs', cs'. split; [done|]. split; [eapply live_rely_self, lg_rely, Hg|].
    pose proof (lg_holds _ _ _ _ Hg) as Hh. rewrite Hd in Hb.
    change (Z.of_N (d ⊕ total cs')) with (Z.of_N (d + total cs')) in Hb. rewrite N2Z.inj_add in Hb. lia.
  - destruct (take_holds w i f w' Hw Ht) as (Hr & Hring & Hh). exists hs, cs. split.
    { by eapply pool_rg_others; [apply at_most_stable|..]. }
    split; [by eapply live_rely_self|]. rewrite taken_holds_snoc. lia.
Qed.

Lemma agent_bound l w ps w' taken :
  typed w -> world_wf w -> is_u32 (sampling cfg) -> Forall wf_program l.*2 ->
  rtc agent_step (programs cfg l, w, []) (ps, w', taken) ->
  taken_holds taken + holds id w' <= holds id w + Z.of_N (total ((λ t, program_share id t.2) <$> l)).
Proof.
  intros Ht Hw Hu Hl Hs.
  set (B := holds id w + Z.of_N (total ((λ t, program_share id t.2) <$> l))).
  assert (H0 : bounded B (programs cfg l, w, [])).
  { exists (replicate (length l) None), ((λ t, program_share id t.2) <$> l). split; [|split].
    - split; [apply programs_holders|apply owned_start|unfold programs; by rewrite !length_fmap|].
      intros j cpu p h c Hj _ Hc. unfold programs in Hj.
      apply list_lookup_fmap_Some in Hj as (t & [= -> ->] & Hj).
      rewrite list_lookup_fmap, Hj in Hc. injection Hc as <-. apply lrg_program; [by apply live_rely_refl|done|].
      apply (list.Forall_lookup_1 _ _ j _ Hl). by rewrite list_lookup_fmap, Hj.
    - by apply live_rely_refl.
    - unfold B, taken_holds. cbn. lia. }
  assert (Hend : bounded B (ps, w', taken)).
  { clear -Hs H0 KL TL. remember (ps, w', taken) as s' eqn:E. clear E. revert H0.
    induction Hs as [s|s1 s2 s3 H12 _ IH]; [done|]. intros Hb. apply IH. by eapply bounded_step. }
  destruct Hend as (hs & cs & _ & _ & Hb). lia.
Qed.
End Bound.

(** ** Packets and bytes *)

Section Sightings.
Context {H : Host}.

(** The packets of a flow among some arrivals, each as often as it was seen. *)
Definition sightings (id : flow_id) (l : list (Z * program)) : list arrival :=
  filter (λ a, packet_flow (ar_skb a) = Some id) (arrivals l).

Lemma total_share {T : Tally} id l :
  (∀ a, a ∈ sightings id l -> 0 <= t_amount (ar_skb a)) ->
  Z.of_N (total ((λ t, program_share id t.2) <$> l)) = Zsum ((λ a, t_amount (ar_skb a)) <$> sightings id l).
Proof.
  unfold sightings, arrivals, Zsum. induction l as [|[cpu p] l IH]; [done|].
  intros Hpos. change (total ((λ t, program_share id t.2) <$> (cpu, p) :: l))
    with (program_share id p + total ((λ t, program_share id t.2) <$> l))%N.
  rewrite N2Z.inj_add. destruct p; try exact (IH Hpos).
  change (omap arrival_of ((cpu, FlowMonitor direction skb) :: l))
    with (mk_arrival cpu direction skb :: omap arrival_of l) in *.
  rewrite filter_cons in Hpos |- *. cbn [ar_skb] in *.
  assert (Hs : program_share id (FlowMonitor direction skb)
    = if decide (packet_flow skb = Some id) then Z.to_N (t_amount skb) else 0%N).
  { cbn. unfold skb_share, packet_share. destruct (packet_flow skb) as [i|]; [|by rewrite decide_False].
    destruct (decide (i = id)) as [->|]; [by rewrite decide_True|by rewrite decide_False by congruence]. }
  rewrite Hs. case_decide; rewrite IH.
  - cbn [fmap list_fmap foldr ar_skb]. rewrite Z2N.id; [done|].
    apply (Hpos (mk_arrival cpu direction skb)), list_elem_of_here.
  - intros a Ha. apply Hpos. by apply list_elem_of_further.
  - done.
  - done.
Qed.
End Sightings.

Lemma sightings_wf `{Host} id l a :
  Forall wf_program l.*2 -> a ∈ sightings id l -> wf_skb (ar_skb a).
Proof.
  unfold sightings, arrivals. intros Hl [_ Ha]%list_elem_of_filter.
  apply list_elem_of_omap in Ha as ([cpu p] & Hp & Ea).
  rewrite list.Forall_fmap in Hl. pose proof (proj1 (list.Forall_forall _ _) Hl _ Hp) as Hwf.
  destruct p; try done. injection Ea as <-. apply Hwf.
Qed.

Lemma sum_of_ones {A} (l : list A) : Zsum ((λ _, 1) <$> l) = Z.of_nat (length l).
Proof. unfold Zsum. induction l; cbn in *; lia. Qed.

(** What the agent has taken out of a flow, and what the map and the ring buffer
    still hold of it. *)
Definition packets_taken : flow_id → list (flow_id * flow_metrics) → Z := taken_holds (T := packets_tally).
Definition bytes_taken : flow_id → list (flow_id * flow_metrics) → Z := taken_holds (T := bytes_tally).
Definition packets_held `{Kernel} : flow_id → world → Z := holds (T := packets_tally).
Definition bytes_held `{Kernel} : flow_id → world → Z := holds (T := bytes_tally).
