(* ===== verification/InForce.v ===== *)
(** * The rules stay in force

    The programs only read the tries of the filter, and the agent only takes flows
    out of the flow map: once programmed, the rules stay what they are, whatever the
    programs and the agent do. *)
From stdpp Require Import relations.
From S2P Require Import Prelude Machine Types Kernel Maps Safety PacketUtils Filter.
From S2P Require Import Flows Concurrency Programs Credits Collect Evictions.

(** A call that leaves the tries alone. *)
Definition keeps_tries X (e : helper X) : Prop :=
  match e with
  | bpf_map_update_elem m _ _ _ | elem_write m _ _ | bpf_map_delete_elem m _ => map_type m <> LPM_TRIE
  | _ => True
  end.

Section InForce.
Context {H : Host} {K : Kernel} {KL : KernelLaws K}.
Implicit Types w : world.

(** The tries are the same. *)
Definition same_tries w w' : Prop := ∀ m, map_type m = LPM_TRIE -> w_map w' m = w_map w m.

Lemma writes_keeps_tries {A} ms rs (p : prog A) :
  writes ms rs p -> Forall (λ m, map_type m <> LPM_TRIE) ms -> calls keeps_tries p.
Proof.
  rewrite list.Forall_forall. intros Hp Hms. apply (calls_mono (λ _, helper_writes ms rs)); [by apply writes_calls|].
  intros X [] He; cbn in *; try done; by apply Hms.
Qed.

Lemma helper_keeps_tries {X} cpu (e : helper X) w :
  keeps_tries X e -> same_tries w (helper_sem cpu e w).2.
Proof.
  intros He m Hm.
  assert (Hw : ∀ m', map_type m' <> LPM_TRIE -> helper_writes [m'] [] e -> w_map (helper_sem cpu e w).2 m = w_map w m).
  { intros m' Hm' Hw. apply (helper_sem_map_frame cpu e [m'] []); [done|]. intros Hin. apply list_elem_of_singleton in Hin. congruence. }
  destruct e; cbn in He; try done; try by (apply (Hw _ He), list_elem_of_here).
  all: cbn; repeat case_match; done.
Qed.

Lemma calls_sample rate : calls keeps_tries (sample rate).
Proof. unfold sample, sampled_out. repeat (apply calls_bind; [|intros ?]); by repeat case_match. Qed.

Lemma program_keeps_tries cfg p : calls keeps_tries (program_code cfg p).
Proof.
  destruct (is_monitor p) eqn:Em.
  - destruct p; try done. cbn [program_code].
    assert (Hp : ∀ pkt eth s, calls keeps_tries (process_packet cfg skb pkt eth s direction)).
    { intros pkt eth s. eapply writes_keeps_tries; [apply process_packet_footprint|]. by repeat constructor. }
    assert (Hf : ∀ s, calls keeps_tries (parse_and_filter cfg skb s direction)).
    { intros s. unfold parse_and_filter. apply calls_bind; [done|]. intros ts.
      apply calls_bind; [by destruct (fill_ethhdr _ _ _ _ _)|]. intros [[verdict pkt] eth].
      case_match; [done|]. apply calls_bind.
      { eapply writes_keeps_tries; [apply check_and_apply_filter_writes|]. by repeat constructor. }
      intros [skip fs]. case_match.
      - apply calls_bind; [apply calls_sample|]. intros keep. by repeat case_match.
      - by case_match. }
    unfold flow_monitor. case_match; [|apply Hf]. apply calls_bind; [apply calls_sample|].
    intros keep. case_match; [done|apply Hf].
  - eapply writes_keeps_tries; [by apply program_footprint|]. destruct p; try done; by repeat constructor.
Qed.

Definition pool_keeps {A} (ps : pool A) : Prop := Forall (λ t, calls keeps_tries t.2) ps.

Lemma pool_step_tries {A} (ps ps' : pool A) w w' :
  pool_step (ps, w) (ps', w') -> pool_keeps ps -> pool_keeps ps' /\ same_tries w w'.
Proof.
  intros Hs Hps. inversion Hs as [i cpu p p' ps0 w0 w1 Hi Hp]; subst.
  pose proof (list.Forall_lookup_1 _ _ _ _ Hps Hi) as Hc. cbn in Hc.
  destruct p as [a| |X e k]; cbn in Hp; [done..|]. destruct Hc as [He Hk].
  pose proof (helper_keeps_tries cpu e w He) as Hsame. destruct (helper_sem cpu e w) as [x w1].
  injection Hp as <- <-. split; [|exact Hsame]. apply list.Forall_insert; [done|]. apply Hk.
Qed.

Lemma take_same_tries (id : flow_id) f w w' :
  LookupAndDelete aggregated_flows id w = (Some f, w') -> same_tries w w'.
Proof.
  unfold LookupAndDelete. case_match; [|done]. intros [= _ <-] m Hm.
  exact (helper_keeps_tries 0 (bpf_map_delete_elem aggregated_flows id) w ltac:(done) m Hm).
Qed.

(** Whatever the programs and the agent do, the tries stay the same. *)
Lemma agent_same_tries cfg l w ps w' taken :
  rtc agent_step (programs cfg l, w, []) (ps, w', taken) -> same_tries w w'.
Proof.
  assert (Hgen : ∀ s s' : pool Z * world * list (flow_id * flow_metrics), rtc agent_step s s' ->
    pool_keeps s.1.1 -> same_tries s.1.2 s'.1.2).
  { induction 1 as [s|s1 s2 s3 H12 _ IH]; [done|]. intros Hk.
    assert (Hstep : pool_keeps s2.1.1 /\ same_tries s1.1.2 s2.1.2).
    { destruct H12 as [ps1 w1 ps2 w2 t Hs|ps1 w1 i f w2 t Ht]; cbn [fst snd] in *.
      - by apply pool_step_tries in Hs.
      - split; [done|]. by eapply take_same_tries. }
    destruct Hstep as [Hk' Hs]. intros m Hm. rewrite (IH Hk' m Hm). by apply Hs. }
  intros Hs. apply (Hgen _ _ Hs). cbn [fst]. unfold pool_keeps, programs. apply list.Forall_fmap.
  apply list.Forall_true. intros [cpu p]. apply program_keeps_tries.
Qed.

Lemma agent_steps_wf {A} (s s' : pool A * world * list (flow_id * flow_metrics)) :
  rtc agent_step s s' -> world_wf s.1.2 -> world_wf s'.1.2.
Proof.
  induction 1 as [s|s1 s2 s3 H12 _ IH]; [done|]. intros Hw. apply IH.
  destruct H12 as [ps1 w1 ps2 w2 t Hs|ps1 w1 i f w2 t Ht]; cbn [fst snd] in *.
  - inversion Hs as [j cpu p p' ps0 w0 w0' Hj Hp]; subst.
    destruct p as [a| |X e k]; cbn in Hp; [done..|]. pose proof (helper_sem_wf cpu e w1 Hw) as Hw'.
    destruct (helper_sem cpu e w1). by injection Hp as <- <-.
  - by destruct (taken_out w1 i f w2 Hw Ht) as (_ & _ & _ & _ & _ & _ & ? & _).
Qed.
End InForce.
