(* ===== verification/Orphans.v ===== *)
(** * IPsec metadata of flows that the hooks never saw ([ipsec_merge.go])

    The IPsec probes see the inner packet, the hooks of an interface the encrypted
    one.  Where the two have different flows, the metadata end up in an entry
    without packets, an orphan.  The agent moves it to a flow on the wire between
    the same hosts, the least one in a fixed order, before it reports the flows.

    The order in which Go iterates over a map is not specified: here it is the
    list [order].  The main lemma is [orphans_moved]. *)
From stdpp Require Import sorting.
From S2P Require Import Prelude Types Collect.

Definition udpPortNATT : Z := 4500.

(** [bytes.Compare]. *)
Fixpoint bytes_Compare (a b : list Z) : comparison :=
  match a, b with
  | [], [] => Eq
  | [], _ => Lt
  | _, [] => Gt
  | x :: a, y :: b => match x ?= y with Eq => bytes_Compare a b | c => c end
  end.

Definition or_else (c d : comparison) : comparison := match c with Eq => d | _ => c end.

Definition cmpBpfFlowID (a b : flow_id) : comparison :=
  or_else (bytes_Compare (fid_src_ip a) (fid_src_ip b))
    (or_else (bytes_Compare (fid_dst_ip a) (fid_dst_ip b))
      (or_else (fid_src_port a ?= fid_src_port b)
        (or_else (fid_dst_port a ?= fid_dst_port b)
          (or_else (fid_transport_protocol a ?= fid_transport_protocol b)
            (or_else (fid_icmp_type a ?= fid_icmp_type b)
              (fid_icmp_code a ?= fid_icmp_code b)))))).

Definition isIPsecOrphan (flow : BpfFlowContent) : bool :=
  match fc_additional flow with
  | None => false
  | Some additional =>
      if negb (fm_packets (fc_base flow) =? 0) || negb (fm_bytes (fc_base flow) =? 0) then false
      else am_ipsec_encrypted additional || negb (am_ipsec_encrypted_ret additional =? 0)
  end.

Definition isIPsecWireFlow (id : flow_id) : bool :=
  if fid_transport_protocol id =? IPPROTO_ESP then true
  else (fid_transport_protocol id =? IPPROTO_UDP)
    && ((fid_src_port id =? udpPortNATT) || (fid_dst_port id =? udpPortNATT)).

(** ** The two passes *)

Definition ipKey : Type := list Z * list Z.
Definition ips (id : flow_id) : ipKey := (fid_src_ip id, fid_dst_ip id).
Definition swapped (id : flow_id) : ipKey := (fid_dst_ip id, fid_src_ip id).

(** The flows on the wire by their hosts, and the orphans. *)
Definition classify (flows : gmap flow_id BpfFlowContent)
    (st : gmap ipKey (list flow_id) * list flow_id) (id : flow_id)
    : gmap ipKey (list flow_id) * list flow_id :=
  let '(wireFlows, orphans) := st in
  match flows !! id with
  | None => st
  | Some flow =>
      if isIPsecOrphan flow then (wireFlows, orphans ++ [id])
      else if fm_packets (fc_base flow) =? 0 then st
      else if negb (isIPsecWireFlow id) then st
      else (<[ips id := default [] (wireFlows !! ips id) ++ [id]]> wireFlows, orphans)
  end.

(** [targets[0]] of the sorted slice. *)
Definition precedes (a b : flow_id) : Prop := cmpBpfFlowID a b <> Gt.
#[export] Instance precedes_dec : RelDecision precedes.
Proof. intros a b. unfold precedes. apply _. Defined.

Definition orphan_target (wireFlows : gmap ipKey (list flow_id)) (orphanID : flow_id)
    : option flow_id :=
  let targets :=
    match default [] (wireFlows !! ips orphanID) with
    | [] => default [] (wireFlows !! swapped orphanID)
    | targets => targets
    end in
  head (merge_sort precedes targets).

Definition move_orphan (wireFlows : gmap ipKey (list flow_id))
    (flows : gmap flow_id BpfFlowContent) (orphanID : flow_id) : gmap flow_id BpfFlowContent :=
  match flows !! orphanID ≫= fc_additional with
  | None => flows
  | Some additional =>
      match orphan_target wireFlows orphanID with
      | None => flows
      | Some targetID =>
          let target := default (NewBpfFlowContent zeroed) (flows !! targetID) in
          delete orphanID (<[targetID := AccumulateAdditional target additional]> flows)
      end
  end.

Definition mergeIPsecOrphans (order : list flow_id) (flows : gmap flow_id BpfFlowContent)
    : gmap flow_id BpfFlowContent :=
  let '(wireFlows, orphans) := foldl (classify flows) (∅, []) order in
  foldl (move_orphan wireFlows) flows orphans.

(** ** The order of the targets is total *)

Class Comparing {A} (f : A → A → comparison) : Prop := {
  cmp_eq x y : f x y = Eq -> x = y;
  cmp_opp x y : f y x = CompOpp (f x y);
  cmp_trans x y z : f x y = Lt -> f y z = Lt -> f x z = Lt;
}.

Lemma cmp_refl {A} (f : A → A → comparison) `{!Comparing f} x : f x x = Eq.
Proof. pose proof (cmp_opp x x) as E. destruct (f x x); done. Qed.

#[export] Instance Z_comparing : Comparing Z.compare.
Proof.
  split.
  - intros. by apply Z.compare_eq.
  - intros. apply Z.compare_antisym.
  - intros x y z. rewrite !Z.compare_lt_iff. lia.
Qed.

Lemma or_else_trans {A B} (f : A → A → comparison) (g : B → B → comparison) `{!Comparing f, !Comparing g} :
  Comparing (λ p q : A * B, or_else (f p.1 q.1) (g p.2 q.2)).
Proof.
  split.
  - intros [x x'] [y y']. cbn. destruct (f x y) eqn:E; cbn; [|done..].
    intros E'. f_equal; [by eapply cmp_eq|by eapply cmp_eq].
  - intros [x x'] [y y']. cbn. rewrite (cmp_opp x y). destruct (f x y); cbn; [|done..]. apply cmp_opp.
  - intros [x x'] [y y'] [z z']. cbn.
    destruct (f x y) eqn:Exy; cbn; [apply cmp_eq in Exy as ->| |done].
    + destruct (f y z) eqn:Eyz; cbn; [|done..]. apply cmp_trans.
    + intros _. destruct (f y z) eqn:Eyz; cbn; [apply cmp_eq in Eyz as ->; by rewrite Exy| |done].
      intros _. by rewrite (cmp_trans _ _ _ Exy Eyz).
Qed.

Lemma comparing_on {A B} (f : B → B → comparison) (g : A → B) `{!Comparing f, !Inj (=) (=) g} :
  Comparing (λ x y, f (g x) (g y)).
Proof.
  split.
  - intros x y E. by eapply (inj g), cmp_eq.
  - intros. apply cmp_opp.
  - intros x y z. apply cmp_trans.
Qed.

#[export] Instance bytes_comparing : Comparing bytes_Compare.
Proof.
  split.
  - intros x. induction x as [|a x IH]; intros [|b y]; cbn; [done..|].
    destruct (a ?= b) eqn:E; [|done..]. intros Hx. f_equal; [by apply cmp_eq in E|by apply IH].
  - intros x. induction x as [|a x IH]; intros [|b y]; cbn; [done..|].
    rewrite (cmp_opp a b). destruct (a ?= b); cbn; [apply IH|done..].
  - intros x. induction x as [|a x IH]; intros [|b y] [|c z]; cbn; try done.
    destruct (a ?= b) eqn:Eab; [apply cmp_eq in Eab as ->| |done].
    + destruct (b ?= c); [apply IH|done..].
    + intros _. destruct (b ?= c) eqn:Ebc; [apply cmp_eq in Ebc as ->; by rewrite Eab| |done].
      intros _. by rewrite (cmp_trans _ _ _ Eab Ebc).
Qed.

#[export] Instance flow_id_comparing : Comparing cmpBpfFlowID.
Proof.
  set (fields id := (fid_src_ip id, (fid_dst_ip id, (fid_src_port id, (fid_dst_port id,
    (fid_transport_protocol id, (fid_icmp_type id, fid_icmp_code id))))))).
  assert (Hinj : Inj (=) (=) fields) by (intros [] []; unfold fields; cbn; congruence).
  pose proof (or_else_trans Z.compare Z.compare) as H1.
  pose proof (or_else_trans Z.compare _ (Comparing1 := H1)) as H2.
  pose proof (or_else_trans Z.compare _ (Comparing1 := H2)) as H3.
  pose proof (or_else_trans Z.compare _ (Comparing1 := H3)) as H4.
  pose proof (or_else_trans bytes_Compare _ (Comparing1 := H4)) as H5.
  pose proof (or_else_trans bytes_Compare _ (Comparing1 := H5)) as H6.
  exact (comparing_on _ fields (Comparing0 := H6)).
Qed.

#[export] Instance precedes_total : Total precedes.
Proof.
  intros x y. unfold precedes. rewrite (cmp_opp (f := cmpBpfFlowID) x y). by destruct (cmpBpfFlowID x y); [left|left|right].
Qed.
#[export] Instance precedes_trans : Transitive precedes.
Proof.
  intros x y z. unfold precedes. destruct (cmpBpfFlowID x y) eqn:Exy; [apply (cmp_eq (f := cmpBpfFlowID)) in Exy as ->| |]; [done| |done].
  intros _. destruct (cmpBpfFlowID y z) eqn:Eyz; [apply (cmp_eq (f := cmpBpfFlowID)) in Eyz as ->; by rewrite Exy| |done].
  by rewrite (cmp_trans (f := cmpBpfFlowID) _ _ _ Exy Eyz).
Qed.
#[export] Instance precedes_antisym : AntiSymm (=) precedes.
Proof.
  intros x y. unfold precedes. rewrite (cmp_opp (f := cmpBpfFlowID) x y). destruct (cmpBpfFlowID x y) eqn:E; [|done..].
  intros _ _. by apply (cmp_eq (f := cmpBpfFlowID)) in E.
Qed.

(** The first of the sorted slice is the least of its elements. *)
Lemma least_head (l : list flow_id) t :
  head (merge_sort precedes l) = Some t <-> t ∈ l /\ ∀ u, u ∈ l -> precedes t u.
Proof.
  pose proof (merge_sort_Permutation precedes l) as Hp.
  pose proof (StronglySorted_merge_sort precedes l) as Hs.
  destruct (merge_sort precedes l) as [|x s]; cbn.
  - split; [done|]. intros [Hin _]. rewrite <- Hp in Hin. by apply not_elem_of_nil in Hin.
  - apply StronglySorted_inv in Hs as [_ Hx].
    assert (Hleast : ∀ u, u ∈ l -> precedes x u).
    { intros u Hu. rewrite <- Hp in Hu. apply elem_of_cons in Hu as [->|Hu].
      - unfold precedes. by rewrite (cmp_refl cmpBpfFlowID).
      - by eapply list.Forall_forall in Hx. }
    assert (Hin : x ∈ l) by (rewrite <- Hp; apply list_elem_of_here).
    split; [intros [= <-]; done|]. intros [Ht Hl]. f_equal.
    apply (anti_symm precedes); auto.
Qed.

(** ** The first pass *)

(** A flow that the monitors have seen on the wire, encrypted. *)
Definition on_wire (flows : gmap flow_id BpfFlowContent) (id : flow_id) : bool :=
  match flows !! id with
  | Some f => negb (isIPsecOrphan f) && negb (fm_packets (fc_base f) =? 0) && isIPsecWireFlow id
  | None => false
  end.
Definition is_orphan (flows : gmap flow_id BpfFlowContent) (id : flow_id) : bool :=
  match flows !! id with Some f => isIPsecOrphan f | None => false end.

Lemma classified flows order :
  (foldl (classify flows) (∅, []) order).2 = filter (λ id, is_orphan flows id) order /\
  ∀ k, default [] ((foldl (classify flows) (∅, []) order).1 !! k)
    = filter (λ id, on_wire flows id /\ ips id = k) order.
Proof.
  induction order as [|id order IH] using rev_ind.
  { split; [done|]. intros k. cbn [foldl fst]. by rewrite lookup_empty. }
  rewrite foldl_snoc. destruct (foldl (classify flows) (∅, []) order) as [wires orphans].
  cbn [fst snd] in IH. destruct IH as [IHo IHw].
  assert (Hs : ∀ P (D : ∀ x, Decision (P x)), filter P (order ++ [id])
    = filter P order ++ (if decide (P id) then [id] else [])).
  { intros P D. by rewrite list.filter_app. }
  rewrite Hs. setoid_rewrite Hs. rewrite <- IHo.
  assert (Eo : is_orphan flows id = match flows !! id with Some f => isIPsecOrphan f | None => false end) by done.
  assert (Ew : on_wire flows id = match flows !! id with
    | Some f => negb (isIPsecOrphan f) && negb (fm_packets (fc_base f) =? 0) && isIPsecWireFlow id
    | None => false end) by done.
  revert Eo Ew. generalize (is_orphan flows id) (on_wire flows id). intros bo bw.
  unfold classify. destruct (flows !! id) as [f|]; intros -> ->.
  2:{ cbn. split; [by rewrite app_nil_r|]. intros k. rewrite IHw.
      rewrite decide_False by tauto. by rewrite app_nil_r. }
  destruct (isIPsecOrphan f); cbn [negb andb].
  { split; [done|]. intros k. rewrite decide_False by (cbn; tauto). by rewrite app_nil_r. }
  assert (Hno : orphans ++ (if decide (Is_true false) then [id] else []) = orphans)
    by (rewrite decide_False by (cbn; tauto); apply app_nil_r).
  rewrite Hno.
  destruct (fm_packets (fc_base f) =? 0); cbn [negb andb].
  { split; [done|]. intros k. rewrite decide_False by (cbn; tauto). by rewrite app_nil_r. }
  destruct (isIPsecWireFlow id); cbn [negb andb].
  2:{ split; [done|]. intros k. rewrite decide_False by (cbn; tauto). by rewrite app_nil_r. }
  split; [done|]. intros k. cbn [fst]. destruct (decide (ips id = k)) as [<-|Hk].
  - rewrite lookup_insert_eq. cbn. rewrite IHw, decide_True by done. done.
  - rewrite lookup_insert_ne by done. rewrite decide_False by tauto. by rewrite IHw, app_nil_r.
Qed.

(** The flow that gets the metadata of an orphan: the least flow on the wire
    between the hosts, in the direction of the orphan if there is one. *)
Definition attached (flows : gmap flow_id BpfFlowContent) (orphan id : flow_id) : Prop :=
  on_wire flows id /\
  (ips id = ips orphan \/
   (ips id = swapped orphan /\ ∀ u, on_wire flows u -> ips u <> ips orphan)) /\
  ∀ u, on_wire flows u -> ips u = ips id -> precedes id u.

Section Order.
Context (flows : gmap flow_id BpfFlowContent) (order : list flow_id).
Context (Horder : ∀ id, id ∈ order <-> is_Some (flows !! id)).

Lemma wires_elem k id :
  id ∈ default [] ((foldl (classify flows) (∅, []) order).1 !! k) <-> on_wire flows id /\ ips id = k.
Proof.
  rewrite (proj2 (classified flows order)), list_elem_of_filter, Horder.
  split; [tauto|]. intros [Hw Hk]. split; [done|]. unfold on_wire in Hw.
  by destruct (flows !! id).
Qed.

Lemma target_attached orphan id :
  orphan_target (foldl (classify flows) (∅, []) order).1 orphan = Some id <-> attached flows orphan id.
Proof.
  unfold orphan_target, attached.
  pose proof (wires_elem (ips orphan)) as H1. pose proof (wires_elem (swapped orphan)) as H2.
  destruct (default [] (_ !! ips orphan)) as [|x l]; rewrite least_head.
  - rewrite H2. assert (Hno : ∀ u, on_wire flows u -> ips u <> ips orphan).
    { intros u Hu E. by apply (not_elem_of_nil u), H1. }
    split.
    + intros [[Hw Hk] Hl]. split; [done|]. split; [by right|]. rewrite Hk. intros u Hu Hi. by apply Hl, H2.
    + intros (Hw & [E|[Hk _]] & Hl); [by apply Hno in E|]. split; [done|].
      intros u [Hu Hi]%H2. apply Hl; [done|congruence].
  - rewrite H1. split.
    + intros [[Hw Hk] Hl]. split; [done|]. split; [by left|]. rewrite Hk. intros u Hu Hi. by apply Hl, H1.
    + intros (Hw & Hk & Hl). assert (Hi : ips id = ips orphan).
      { destruct Hk as [|[_ Hno]]; [done|]. assert (Hx : x ∈ x :: l) by apply list_elem_of_here.
        apply H1 in Hx as [Hx Ex]. by apply Hno in Ex. }
      split; [done|]. intros u [Hu Eu]%H1. apply Hl; [done|congruence].
Qed.
End Order.

(** ** The second pass *)

Section Moving.
Context (wireFlows : gmap ipKey (list flow_id)).

(** What the flow [id] gets from the orphans [l]. *)
Definition moved_to (flows : gmap flow_id BpfFlowContent) (l : list flow_id) (id : flow_id)
    : list additional_metrics :=
  omap (λ o, if decide (orphan_target wireFlows o = Some id) then flows !! o ≫= fc_additional else None) l.

Lemma additional_of_orphan f : isIPsecOrphan f = true -> ∃ a, fc_additional f = Some a.
Proof. unfold isIPsecOrphan. destruct (fc_additional f); [by eexists|done]. Qed.

Lemma not_orphan f : fm_packets (fc_base f) <> 0 -> isIPsecOrphan f = false.
Proof. intros Hf. unfold isIPsecOrphan. case_match; [|done]. by rewrite (proj2 (Z.eqb_neq _ _) Hf). Qed.

Lemma additional_counts f a :
  fm_packets (fc_base (AccumulateAdditional f a)) = fm_packets (fc_base f) /\
  fm_bytes (fc_base (AccumulateAdditional f a)) = fm_bytes (fc_base f).
Proof. unfold AccumulateAdditional. by split; (etrans; [apply base_counts|]). Qed.

(** One round moves the metadata of [o] to its target, and removes [o]. *)
Lemma move_orphan_lookup flows o t ft :
  is_orphan flows o -> orphan_target wireFlows o = Some t ->
  flows !! t = Some ft -> fm_packets (fc_base ft) <> 0 ->
  ∃ a, flows !! o ≫= fc_additional = Some a /\ t <> o /\
    ∀ i, move_orphan wireFlows flows o !! i
      = if decide (i = o) then None
        else if decide (i = t) then Some (AccumulateAdditional ft a) else flows !! i.
Proof.
  intros Ho Ht Hft Hp. unfold is_orphan in Ho. destruct (flows !! o) as [fo|] eqn:Efo; [|done].
  apply Is_true_true in Ho. destruct (additional_of_orphan fo Ho) as [a Ha]. exists a. split; [done|].
  assert (Hto : t <> o).
  { intros ->. rewrite Hft in Efo. injection Efo as ->. by rewrite (not_orphan _ Hp) in Ho. }
  split; [done|]. intros i. unfold move_orphan. rewrite Efo. cbn [mbind option_bind]. rewrite Ha, Ht, Hft.
  cbn [from_option]. destruct (decide (i = o)) as [->|Hio]; [apply lookup_delete_eq|].
  rewrite lookup_delete_ne by done.
  destruct (decide (i = t)) as [->|Hit]; [apply lookup_insert_eq|by apply lookup_insert_ne].
Qed.

Lemma move_orphan_stays flows o : orphan_target wireFlows o = None -> move_orphan wireFlows flows o = flows.
Proof. intros Ht. unfold move_orphan. rewrite Ht. by destruct (flows !! o ≫= fc_additional). Qed.

Lemma moved_to_ext flows flows' l id :
  (∀ o, o ∈ l -> flows' !! o = flows !! o) -> moved_to flows' l id = moved_to flows l id.
Proof.
  unfold moved_to. induction l as [|o l IH]; intros Hl; [done|]. cbn [omap list_omap].
  rewrite (Hl o) by apply list_elem_of_here. rewrite IH; [done|].
  intros o' Hin. apply Hl. by apply list_elem_of_further.
Qed.

(** The orphans are there, and their targets have packets. *)
Definition movable (flows : gmap flow_id BpfFlowContent) (l : list flow_id) : Prop :=
  (∀ o, o ∈ l -> is_orphan flows o) /\
  (∀ o t, o ∈ l -> orphan_target wireFlows o = Some t ->
     ∃ f, flows !! t = Some f /\ fm_packets (fc_base f) <> 0).

Lemma orphan_no_target flows l o t f :
  movable flows l -> o ∈ l -> flows !! t = Some f -> fm_packets (fc_base f) <> 0 -> o <> t.
Proof.
  intros [Hl _] Hin Ht Hf ->. specialize (Hl t Hin). unfold is_orphan in Hl.
  rewrite Ht in Hl. by rewrite (not_orphan f Hf) in Hl.
Qed.

Lemma movable_step flows o l t ft :
  movable flows (o :: l) -> o ∉ l -> orphan_target wireFlows o = Some t -> flows !! t = Some ft ->
  fm_packets (fc_base ft) <> 0 ->
  movable (move_orphan wireFlows flows o) l /\
  ∀ o', o' ∈ l -> move_orphan wireFlows flows o !! o' = flows !! o'.
Proof.
  intros Hm Ho Ht Hft Hp. pose proof Hm as [Hl Htgt].
  destruct (move_orphan_lookup flows o t ft (Hl o (list_elem_of_here _ _)) Ht Hft Hp) as (a & _ & Hto & Hlook).
  assert (Hkeep : ∀ o', o' ∈ l -> move_orphan wireFlows flows o !! o' = flows !! o').
  { intros o' Hin. rewrite Hlook, decide_False by (by intros ->). rewrite decide_False; [done|].
    eapply orphan_no_target; [exact Hm|by apply list_elem_of_further|done..]. }
  split; [split|done].
  - intros o' Hin. unfold is_orphan. rewrite Hkeep by done. by apply (Hl o'), list_elem_of_further.
  - intros o' t' Hin Et'. destruct (Htgt o' t' (list_elem_of_further _ _ _ Hin) Et') as (f & Ef & Hf).
    rewrite Hlook, decide_False.
    + case_decide as E; [|by eexists]. eexists. split; [done|]. by rewrite (proj1 (additional_counts ft a)).
    + apply not_eq_sym. eapply orphan_no_target; [exact Hm|apply list_elem_of_here|done..].
Qed.

Lemma moved flows l id :
  NoDup l -> movable flows l ->
  foldl (move_orphan wireFlows) flows l !! id
  = (f ← flows !! id;
     if isIPsecOrphan f then
       if decide (id ∈ l /\ is_Some (orphan_target wireFlows id)) then None else Some f
     else Some (foldl AccumulateAdditional f (moved_to flows l id))).
Proof.
  intros Hnd. revert flows. induction Hnd as [|o l Ho Hnd IH]; intros flows Hm.
  { cbn [foldl]. destruct (flows !! id) as [f|]; [|done]. cbn [mbind option_bind].
    destruct (isIPsecOrphan f); [|done].
    rewrite decide_False; [done|]. by intros [?%not_elem_of_nil _]. }
  cbn [foldl]. unfold moved_to. cbn [omap list_omap]. fold (moved_to flows l id).
  destruct (orphan_target wireFlows o) as [t|] eqn:Et.
  2:{ rewrite move_orphan_stays, IH by (done || (destruct Hm; split; eauto using list_elem_of_further)).
      rewrite decide_False by done. destruct (flows !! id) as [f|]; [|done]. cbn [mbind option_bind].
      destruct (isIPsecOrphan f); [|done]. apply decide_ext. rewrite elem_of_cons.
      split; [tauto|]. intros [[->|?] Hs]; [|done]. rewrite Et in Hs. by destruct Hs. }
  pose proof Hm as [Hl Htgt]. destruct (Htgt o t (list_elem_of_here _ _) Et) as (ft & Eft & Hft).
  pose proof (Hl o (list_elem_of_here _ _)) as Hof.
  destruct (move_orphan_lookup flows o t ft Hof Et Eft Hft) as (a & Ha & Hto & Hlook).
  destruct (movable_step flows o l t ft Hm Ho Et Eft Hft) as [Hm' Hkeep].
  rewrite IH, (moved_to_ext _ _ l id Hkeep), Hlook by done. rewrite Ha.
  destruct (decide (id = o)) as [->|Hio].
  { unfold is_orphan in Hof. destruct (flows !! o) as [fo|]; [|done]. cbn [mbind option_bind].
    apply Is_true_true in Hof. rewrite Hof, decide_True; [done|]. split; [apply list_elem_of_here|by eexists]. }
  destruct (decide (id = t)) as [->|Hit].
  { rewrite Eft, decide_True by done. cbn [mbind option_bind].
    rewrite !not_orphan; [done|done|]. by rewrite (proj1 (additional_counts ft a)). }
  rewrite decide_False by congruence. destruct (flows !! id) as [f|]; [|done]. cbn [mbind option_bind].
  destruct (isIPsecOrphan f); [|done]. apply decide_ext. rewrite elem_of_cons. tauto.
Qed.
End Moving.

(** ** What becomes of the IPsec metadata

    The merge prefers the larger return code, and for equal codes the encrypted
    status. *)

Definition status : Type := Z * bool.
Definition status_of (a : additional_metrics) : status :=
  (am_ipsec_encrypted_ret a, am_ipsec_encrypted a).
Definition status_le (p q : status) : Prop := p.1 < q.1 \/ (p.1 = q.1 /\ (p.2 -> q.2)).
#[export] Instance status_le_preorder : PreOrder status_le.
Proof.
  split; [intros []; by right|]. intros [] [] []. unfold status_le. cbn. intuition lia.
Qed.

Lemma merge_status d o :
  let r := status_of (merge_additional d o) in
  (r = status_of d \/ r = status_of o) /\ status_le (status_of d) r /\ status_le (status_of o) r.
Proof.
  unfold status_of, status_le, merge_additional. cbv zeta.
  destruct (am_flow_rtt d <? am_flow_rtt o); cbn;
    destruct (am_ipsec_encrypted_ret d <? am_ipsec_encrypted_ret o) eqn:E1; bool_to_prop; cbn;
    destruct (_ =? am_ipsec_encrypted_ret o) eqn:E2; bool_to_prop; cbn;
    destruct (am_ipsec_encrypted o) eqn:Eo; cbn; rewrite ?Eo; intuition (auto with f_equal; lia).
Qed.

Lemma merge_rtt d o :
  am_flow_rtt (merge_additional d o) = Z.max (am_flow_rtt d) (am_flow_rtt o).
Proof.
  unfold merge_additional. cbv zeta.
  destruct (am_flow_rtt d <? am_flow_rtt o) eqn:E; bool_to_prop; cbn; repeat case_match; cbn; lia.
Qed.

(** The largest of some values that may be missing. *)
Definition largest {A} (le : A → A → Prop) (all : option A → Prop) (r : option A) : Prop :=
  all r /\ ∀ a, all (Some a) -> ∃ b, r = Some b /\ le a b.

(** What part of the additional metrics a content has. *)
Definition view_of {A} (view : additional_metrics → A) (f : BpfFlowContent) : option A :=
  view <$> fc_additional f.

(** The merge keeps the larger one of each part. *)
Section Views.
Context {A} (view : additional_metrics → A) (le : A → A → Prop) `{!PreOrder le}.
Context (Hmerge : ∀ d o, let r := view (merge_additional d o) in
  (r = view d \/ r = view o) /\ le (view d) r /\ le (view o) r).

Lemma merged_view f l :
  largest le (λ s, s = view_of view f \/ ∃ a, a ∈ l /\ s = Some (view a))
    (view_of view (foldl AccumulateAdditional f l)).
Proof.
  induction l as [|a l IH] using rev_ind.
  { split; [by left|]. intros b [Hb|(a & ?%not_elem_of_nil & _)]; [|done]. exists b. by split. }
  rewrite foldl_snoc. set (g := foldl AccumulateAdditional f l) in *. destruct IH as [IH1 IH2].
  assert (Hg : view_of view (AccumulateAdditional g a)
    = Some (match fc_additional g with Some d => view (merge_additional d a) | None => view a end)).
  { unfold view_of, AccumulateAdditional. cbn. by destruct (fc_additional g). }
  rewrite Hg. unfold view_of at 1 3 in IH1. split.
  - destruct (fc_additional g) as [d|]; [|right; exists a; split; [set_solver|done]].
    destruct (Hmerge d a) as [[->| ->] _]; [|right; exists a; split; [set_solver|done]].
    destruct IH1 as [IH1|(b & Hb & IH1)]; [by left|]. right. exists b. split; [set_solver|done].
  - intros b Hb. eexists. split; [done|].
    assert (Hcase : le b (view a) \/ ∃ d, fc_additional g = Some d /\ le b (view d)).
    { destruct Hb as [Hb|(b' & Hb' & [= ->])].
      - right. destruct (IH2 b) as (s & Hs & Hle); [by left|]. unfold view_of in Hs.
        destruct (fc_additional g) as [d|]; [|done]. injection Hs as <-. by exists d.
      - apply elem_of_app in Hb' as [Hb'| ->%list_elem_of_singleton]; [|by left].
        right. destruct (IH2 (view b')) as (s & Hs & Hle); [right; by exists b'|].
        unfold view_of in Hs. destruct (fc_additional g) as [d|]; [|done].
        injection Hs as <-. by exists d. }
    destruct Hcase as [Hle|(d & -> & Hle)].
    + destruct (fc_additional g) as [d|]; [|done]. etrans; [exact Hle|apply Hmerge].
    + etrans; [exact Hle|apply Hmerge].
Qed.
End Views.

(** The base of a flow after some additional metrics: everything but the times,
    which may only be moved apart, and an EtherType that was unknown. *)
Record base_kept (b b' : flow_metrics) : Prop := {
  kept_fields : b' = b
    <| fm_start_mono_time_ts := fm_start_mono_time_ts b' |>
    <| fm_end_mono_time_ts := fm_end_mono_time_ts b' |>
    <| fm_eth_protocol := fm_eth_protocol b' |>;
  kept_start : fm_start_mono_time_ts b <> 0 ->
    fm_start_mono_time_ts b' <> 0 /\ fm_start_mono_time_ts b' <= fm_start_mono_time_ts b;
  kept_end : 0 < fm_end_mono_time_ts b -> fm_end_mono_time_ts b <= fm_end_mono_time_ts b';
  kept_eth : fm_eth_protocol b <> 0 -> fm_eth_protocol b' = fm_eth_protocol b;
}.

Lemma base_kept_refl b : base_kept b b.
Proof. split; [by destruct b|lia|lia|done]. Qed.

Lemma base_kept_trans b1 b2 b3 : base_kept b1 b2 -> base_kept b2 b3 -> base_kept b1 b3.
Proof.
  intros [F1 S1 E1 P1] [F2 S2 E2 P2]. split.
  - etrans; [exact F2|]. by rewrite F1.
  - intros H1. destruct (S1 H1) as [H2 ?]. destruct (S2 H2). lia.
  - intros H1. specialize (E1 H1). specialize (E2 ltac:(lia)). lia.
  - intros H1. specialize (P1 H1). rewrite P2; congruence.
Qed.

Lemma start_kept start b :
  base_kept b (if (fm_start_mono_time_ts b =? 0)
        || ((start <? fm_start_mono_time_ts b) && negb (start =? 0))
      then b <| fm_start_mono_time_ts := start |> else b).
Proof.
  destruct (_ || _) eqn:E; [|apply base_kept_refl]. split; cbn; [by destruct b| |lia|done].
  intros H0. rewrite (proj2 (Z.eqb_neq _ 0) H0) in E. cbn [orb] in E.
  rewrite andb_true_iff, negb_true_iff, Z.eqb_neq, Z.ltb_lt in E. lia.
Qed.

Lemma end_kept end_ b :
  base_kept b (if (fm_end_mono_time_ts b =? 0) || (fm_end_mono_time_ts b <? end_)
      then b <| fm_end_mono_time_ts := end_ |> else b).
Proof.
  destruct (_ || _) eqn:E; [|apply base_kept_refl]. split; cbn; [by destruct b|lia| |done].
  intros H0. rewrite orb_true_iff, Z.eqb_eq, Z.ltb_lt in E. lia.
Qed.

Lemma eth_kept ethProto b :
  base_kept b (if fm_eth_protocol b =? 0 then b <| fm_eth_protocol := ethProto |> else b).
Proof.
  destruct (_ =? 0) eqn:E; [|apply base_kept_refl]. bool_to_prop. split; cbn; [by destruct b|lia|lia|done].
Qed.

Lemma build_base_kept start end_ ethProto p :
  base_kept (fc_base p) (fc_base (buildBaseFromAdditional start end_ ethProto p)).
Proof.
  unfold buildBaseFromAdditional. cbn.
  eapply base_kept_trans; [apply (start_kept start)|]. eapply base_kept_trans; [apply (end_kept end_)|].
  apply eth_kept.
Qed.

(** What remains of a flow [f] in [g] when additional metrics are merged into it:
    the base and all other metrics. *)
Record remains (f g : BpfFlowContent) : Prop := {
  rem_base : base_kept (fc_base f) (fc_base g);
  rem_dns : fc_dns g = fc_dns f;
  rem_drops : fc_drops g = fc_drops f;
  rem_events : fc_events g = fc_events f;
  rem_xlat : fc_xlat g = fc_xlat f;
  rem_quic : fc_quic g = fc_quic f;
}.

Lemma remains_step f g a : remains f g -> remains f (AccumulateAdditional g a).
Proof.
  intros [Hb ? ? ? ? ?]. split; [|done..]. eapply base_kept_trans; [exact Hb|].
  exact (build_base_kept (am_start_mono_time_ts a) (am_end_mono_time_ts a) (am_eth_protocol a) g).
Qed.

Lemma accumulated_remains f l : remains f (foldl AccumulateAdditional f l).
Proof.
  induction l as [|a l IH] using rev_ind; [split; [apply base_kept_refl|done..]|].
  rewrite foldl_snoc. by apply remains_step.
Qed.

(** The metadata that may end up in the flow [id]: its own, and those of the
    orphans attached to it. *)
Definition candidate {A} (view : additional_metrics → A) (flows : gmap flow_id BpfFlowContent)
    (id : flow_id) (s : option A) : Prop :=
  (∃ f, flows !! id = Some f /\ s = view_of view f) \/
  ∃ o g, is_orphan flows o /\ attached flows o id /\ flows !! o = Some g /\ s = view_of view g.

Section Moved.
Context (flows : gmap flow_id BpfFlowContent) (order : list flow_id).
Context (Hnd : NoDup order) (Horder : ∀ id, id ∈ order <-> is_Some (flows !! id)).

Abbreviation wires := (foldl (classify flows) (∅, []) order).1.
Abbreviation orphans := (filter (λ id, is_orphan flows id) order).

Lemma orphan_elem o : o ∈ orphans <-> is_orphan flows o.
Proof.
  rewrite list_elem_of_filter, Horder. split; [by intros []|]. intros Hor. split; [done|].
  unfold is_orphan in Hor. by destruct (flows !! o).
Qed.

Lemma orphans_lookup id :
  mergeIPsecOrphans order flows !! id
  = (f ← flows !! id;
     if isIPsecOrphan f then
       if decide (is_Some (orphan_target wires id)) then None else Some f
     else Some (foldl AccumulateAdditional f (moved_to wires flows orphans id))).
Proof.
  unfold mergeIPsecOrphans. pose proof (target_attached flows order Horder) as Htgt.
  pose proof orphan_elem as Hin.
  destruct (classified flows order) as [Ho _].
  destruct (foldl (classify flows) (∅, []) order) as [ws os]. cbn [fst snd] in *. subst os.
  rewrite moved.
  - destruct (flows !! id) as [f|] eqn:Hf; [|done]. cbn [mbind option_bind].
    destruct (isIPsecOrphan f) eqn:Ef; [|done]. apply decide_ext. rewrite Hin.
    unfold is_orphan. rewrite Hf, Ef. by split; [intros []|].
  - by apply list.NoDup_filter.
  - split; [intros o; apply Hin|]. intros o t _ [Hw _]%Htgt. unfold on_wire in Hw.
    destruct (flows !! t) as [g|]; [|done]. exists g. split; [done|].
    destruct (fm_packets (fc_base g) =? 0) eqn:E; [|by bool_to_prop].
    exfalso. revert Hw. by destruct (isIPsecOrphan g).
Qed.

Lemma moved_candidates {A} (view : additional_metrics → A) id f s :
  flows !! id = Some f ->
  (s = view_of view f \/ ∃ a, a ∈ moved_to wires flows orphans id /\ s = Some (view a))
  <-> candidate view flows id s.
Proof.
  intros Hf. assert (Hmoved : ∀ a, a ∈ moved_to wires flows orphans id <->
    ∃ o, is_orphan flows o /\ attached flows o id /\ flows !! o ≫= fc_additional = Some a).
  { intros a. unfold moved_to. rewrite list_elem_of_omap. setoid_rewrite orphan_elem.
    setoid_rewrite <- (target_attached flows order Horder). split.
    - intros (o & Hor & Ha). case_decide as Et; [|done]. by exists o.
    - intros (o & Hor & Ht & Ha). exists o. split; [done|]. by rewrite decide_True. }
  split.
  - intros [->|(a & (o & Hor & Hat & Ha)%Hmoved & ->)]; [left; by exists f|].
    right. destruct (flows !! o) as [g|] eqn:Eg; [|done]. exists o, g. cbn in Ha.
    unfold view_of. by rewrite Ha.
  - intros [(f' & Hf' & ->)|(o & g & Hor & Hat & Hg & ->)].
    + rewrite Hf in Hf'. injection Hf' as <-. by left.
    + pose proof Hor as Hor'. unfold is_orphan in Hor'. rewrite Hg in Hor'. apply Is_true_true in Hor'.
      destruct (additional_of_orphan g Hor') as [a Ha]. right. exists a.
      unfold view_of. rewrite Ha. split; [|done]. apply Hmoved. exists o. by rewrite Hg.
Qed.

Lemma moved_largest {A} (view : additional_metrics → A) (le : A → A → Prop) `{!PreOrder le} id f :
  (∀ d o, let r := view (merge_additional d o) in
    (r = view d \/ r = view o) /\ le (view d) r /\ le (view o) r) ->
  flows !! id = Some f ->
  largest le (candidate view flows id)
    (view_of view (foldl AccumulateAdditional f (moved_to wires flows orphans id))).
Proof.
  intros Hmerge Hf. destruct (merged_view view le Hmerge f (moved_to wires flows orphans id)) as [H1 H2].
  split; [by apply (moved_candidates view id f)|]. intros a Ha. apply H2. by apply (moved_candidates view id f).
Qed.

(** What becomes of every flow. *)
Lemma orphans_moved id f :
  flows !! id = Some f ->
  match mergeIPsecOrphans order flows !! id with
  | None => isIPsecOrphan f = true /\ ∃ t, attached flows id t
  | Some f' =>
      if isIPsecOrphan f then f' = f /\ ∀ t, ~ attached flows id t
      else remains f f' /\
        largest status_le (candidate status_of flows id) (view_of status_of f') /\
        largest Z.le (candidate am_flow_rtt flows id) (view_of am_flow_rtt f')
  end.
Proof.
  intros Hf. pose proof (target_attached flows order Horder) as Htgt.
  rewrite orphans_lookup, Hf. cbn [mbind option_bind]. destruct (isIPsecOrphan f) eqn:Ef.
  - case_decide as Hd.
    + split; [done|]. destruct Hd as [t Ht]. exists t. by apply Htgt.
    + split; [done|]. intros t Ht%Htgt. apply Hd. by eexists.
  - split; [apply accumulated_remains|].
    split; [apply (moved_largest status_of status_le id f merge_status Hf)|].
    apply (moved_largest am_flow_rtt Z.le id f); [|exact Hf].
    intros d o. cbv zeta. rewrite merge_rtt. lia.
Qed.

(** Only flows on the wire get metadata, and a flow that is unknown stays so. *)
Lemma orphans_others id f :
  flows !! id = Some f -> isIPsecOrphan f = false -> isIPsecWireFlow id = false ->
  mergeIPsecOrphans order flows !! id = Some f.
Proof.
  intros Hf Ho Hw. rewrite orphans_lookup, Hf. cbn [mbind option_bind]. rewrite Ho. f_equal.
  unfold moved_to. assert (Hno : ∀ o, orphan_target wires o <> Some id).
  { intros o [E _]%(target_attached flows order Horder). unfold on_wire in E. rewrite Hf, Hw in E.
    by rewrite andb_false_r in E. }
  induction orphans as [|o l IH]; [done|]. cbn [omap list_omap]. by rewrite decide_False by auto.
Qed.
End Moved.
