(* ===== verification/Fetch.v ===== *)
(** * Emptying the maps ([pkg/tracer/flows/fetcher.go])

    Periodically the agent takes everything out of the maps: the flows, then the
    metrics of each enabled feature, then it moves the metadata of the orphans,
    and it reads and resets the counters.  [iter] is what the iteration over each
    map has returned, [order] the order of Go's iteration over the flows. *)
From S2P Require Import Prelude Machine Types Kernel Maps Safety Accounting Credits Gauges HookTotals.
From S2P Require Import Collect Orphans.

(** The features, as in the configuration of the agent. *)
Record FetcherConfig := mk_FetcherConfig {
  EnableDNSTracking : bool;
  EnablePktDrops : bool;
  EnableNetworkEventsMonitoring : bool;
  EnablePktTranslationTracking : bool;
  EnableRTT : bool;
  EnableIPsecTracking : bool;
  QUICTrackingMode : Z;
}.

(** Go iterates over a map in any order, each key once. *)
Class RangeOrder (order : gmap flow_id BpfFlowContent → list flow_id) : Prop := {
  range_once flows : NoDup (order flows);
  range_all flows id : id ∈ order flows <-> is_Some (flows !! id);
}.

#[export] Instance keys_range : RangeOrder (λ flows, (map_to_list flows).*1).
Proof.
  split; intros flows; [apply NoDup_fst_map_to_list|]. intros id. rewrite list_elem_of_fmap. split.
  - intros ([i f] & -> & Hin). apply elem_of_map_to_list in Hin. by eexists.
  - intros [f Hf]. exists (id, f). by rewrite elem_of_map_to_list.
Qed.

(** What the iteration over the maps returns when nobody else writes: the keys,
    once each. *)
Definition iterates `{Kernel} (iter : ∀ m, list (key m)) (w : world) : Prop :=
  ∀ m, NoDup (iter m) /\ ∀ k, k ∈ iter m <-> is_Some (st_index (w_map w m) !! k).

Definition all_keys `{Kernel} (w : world) m : list (key m) := (map_to_list (st_index (w_map w m))).*1.

Lemma all_keys_iterates `{Kernel} w : iterates (all_keys w) w.
Proof.
  intros m. split; [apply NoDup_fst_map_to_list|]. intros k. unfold all_keys.
  rewrite list_elem_of_fmap. split.
  - intros ([i p] & -> & Hin). apply elem_of_map_to_list in Hin. by eexists.
  - intros [p Hp]. exists (k, p). by rewrite elem_of_map_to_list.
Qed.

Section Fetcher.
Context {K : Kernel}.
Implicit Types w : world.

Section Maps.
Context (c : FetcherConfig) (cpus : list Z) (iter : ∀ m, list (key m)).
Context (order : gmap flow_id BpfFlowContent → list flow_id).

Definition secondary (enabled : bool) (m : mapname) (to_flow : key m → flow_id)
    (accumulate : BpfFlowContent → value m → BpfFlowContent)
    (st : gmap flow_id BpfFlowContent * world) : gmap flow_id BpfFlowContent * world :=
  if enabled then lookupAndDeletePerCPUMap cpus m (iter m) to_flow accumulate st else st.

Definition accumulateSecondaryMaps (st : gmap flow_id BpfFlowContent * world)
    : gmap flow_id BpfFlowContent * world :=
  let st := secondary (EnableDNSTracking c) aggregated_flows_dns (λ x, x) AccumulateDNS st in
  let st := secondary (EnablePktDrops c) aggregated_flows_pkt_drop (λ x, x) AccumulateDrops st in
  let st := secondary (EnableNetworkEventsMonitoring c) aggregated_flows_network_events (λ x, x)
    AccumulateNetworkEvents st in
  let st := secondary (EnablePktTranslationTracking c) aggregated_flows_xlat (λ x, x)
    AccumulateXlat st in
  let st :=
    if EnableRTT c || EnableIPsecTracking c then
      let st := secondary true additional_flow_metrics (λ x, x) AccumulateAdditional st in
      if EnableIPsecTracking c then (mergeIPsecOrphans (order st.1) st.1, st.2) else st
    else st in
  secondary (negb (QUICTrackingMode c =? 0)) quic_flows (λ x, x) AccumulateQuic st.
End Maps.

(** The sums of the counters over the CPUs, which are then reset; it stops at the
    first error. *)
Fixpoint read_counters (cpus : list Z) (keys : list Z) w : list Z * world :=
  match keys with
  | [] => ([], w)
  | key :: keys =>
      match st_index (w_map w global_counters) !! (key : Kernel.key global_counters) with
      | None => ([], w)
      | Some p =>
          let sum := Zsum ((λ c, cell_read (w_map w global_counters) p c) <$> cpus) in
          let '(sums, w') := read_counters cpus keys
            (upd_map global_counters
              (foldl (λ s c, cell_write s p c (0 : value global_counters)) (w_map w global_counters) cpus) w) in
          (sum :: sums, w')
      end
  end.
Definition ReadGlobalCounter (cpus : list Z) w : list Z * world :=
  read_counters cpus (seqZ 0 MAX_COUNTERS) w.

Definition LookupAndDeleteMap (c : FetcherConfig) (cpus : list Z) (iter : ∀ m, list (key m))
    (order : gmap flow_id BpfFlowContent → list flow_id) w
    : gmap flow_id BpfFlowContent * list Z * world :=
  let '(flows, w) := lookupAndDeleteAggregatedFlows (iter aggregated_flows) w in
  let '(flows, w) := accumulateSecondaryMaps c cpus iter order (flows, w) in
  let '(counters, w) := ReadGlobalCounter cpus w in
  (flows, counters, w).

(** DNS queries that got no response in time. *)
Definition stale_query (timeOut monotonicTimeNow dnsVal : Z) : bool :=
  timeOut <=? s64 (u64 (monotonicTimeNow - dnsVal)).

Definition is_stale (timeOut monotonicTimeNow : Z) w (dnsKey : dns_flow_id) : bool :=
  match st_index (w_map w dns_flows) !! (dnsKey : key dns_flows) with
  | Some p => stale_query timeOut monotonicTimeNow (cell_read (w_map w dns_flows) p 0)
  | None => false
  end.

Definition lookupAndDeleteDNSMap (timeOut monotonicTimeNow : Z) (iter : list dns_flow_id) w : world :=
  let keysToDelete := filter (λ k, is_stale timeOut monotonicTimeNow w k) iter in
  foldl (λ w k, (map_delete dns_flows k w).2) w keysToDelete.
End Fetcher.

(** ** The parts of the report *)

Section Parts.
Context {K : Kernel} {KL : KernelLaws K}.
Context (c : FetcherConfig) (cpus : list Z) (iter : ∀ m, list (key m)).
Context (order : gmap flow_id BpfFlowContent → list flow_id) {RO : RangeOrder order}.
Implicit Types (w : world) (id : flow_id).

(** What is reported of a flow: the flows first, then the other maps. *)
Definition base_flows w := lookupAndDeleteAggregatedFlows (iter aggregated_flows) w.
Definition report {V} (get : BpfFlowContent → V) w id : V :=
  part get (LookupAndDeleteMap c cpus iter order w).1.1 id.

Lemma report_eq {V} (get : BpfFlowContent → V) w id :
  report get w id = part get (accumulateSecondaryMaps c cpus iter order (base_flows w)).1 id.
Proof.
  unfold report, LookupAndDeleteMap, base_flows. destruct (lookupAndDeleteAggregatedFlows _ w) as [flows w1].
  destruct (accumulateSecondaryMaps c cpus iter order (flows, w1)) as [flows' w2].
  by destruct (ReadGlobalCounter cpus w2).
Qed.

Lemma secondary_keeps {V} (get : BpfFlowContent → V) on m (to_flow : key m → flow_id) acc st id :
  (∀ f v, get (acc f v) = get f) -> part get (secondary cpus iter on m to_flow acc st).1 id = part get st.1 id.
Proof. intros Hacc. unfold secondary. destruct on; [|done]. by apply collect_keeps. Qed.

Lemma secondary_other_map on m (to_flow : key m → flow_id) acc st m' :
  m <> m' -> w_map (secondary cpus iter on m to_flow acc st).2 m' = w_map st.2 m'.
Proof. intros Hm. unfold secondary. destruct on; [|done]. by apply collect_other_map. Qed.

(** *** The flows themselves *)

Lemma take_flow_step w i flows :
  let st := take_flow (flows, w) i in
  (∀ j, j <> i -> st.1 !! j = flows !! j /\ the_flow st.2 j = the_flow w j) /\
  st.1 !! i = match the_flow w i with Some v => Some (NewBpfFlowContent v) | None => flows !! i end /\
  ∀ m, m <> aggregated_flows -> w_map st.2 m = w_map w m.
Proof.
  cbv zeta. unfold take_flow, LookupAndDelete. rewrite the_flow_addr. unfold flow_addr. cbn [fst snd].
  set (o := st_index (w_map w aggregated_flows) !! _). destruct o as [p|] eqn:Ep; subst o; [|done].
  cbn [fst snd]. split; [|split].
  - intros j Hj. rewrite lookup_insert_ne by done. split; [done|].
    rewrite !the_flow_addr. unfold flow_addr, map_delete. rewrite Ep.
    rewrite decide_False by done. cbn [snd]. rewrite upd_map_eq. cbn [st_index cell_read st_cells].
    by rewrite lookup_delete_ne.
  - apply lookup_insert_eq.
  - intros m Hm. unfold map_delete. rewrite Ep, decide_False by done. cbn [snd]. by rewrite upd_map_ne.
Qed.

Lemma base_flow w id :
  iterates iter w ->
  (base_flows w).1 !! id = NewBpfFlowContent <$> the_flow w id /\
  ∀ m, m <> aggregated_flows -> w_map (base_flows w).2 m = w_map w m.
Proof.
  intros Hiter. unfold base_flows, lookupAndDeleteAggregatedFlows. destruct (Hiter aggregated_flows) as [Hnd Hall].
  assert (Hid : (if decide (id ∈ (iter aggregated_flows : list flow_id)) then NewBpfFlowContent <$> the_flow w id else None)
    = NewBpfFlowContent <$> the_flow w id).
  { case_decide as Hd; [done|]. rewrite the_flow_addr. unfold flow_addr.
    pose proof (not_iff_compat (Hall id)) as Hn. destruct (st_index (w_map w aggregated_flows) !! _); [|done].
    exfalso. apply Hn in Hd. by apply Hd. }
  rewrite <- Hid. clear Hid Hall Hiter.
  revert Hnd. generalize (iter aggregated_flows : list flow_id). intros ids Hnd.
  cut (∀ st, (foldl take_flow st ids).1 !! id
    = (if decide (id ∈ ids) then
        match the_flow st.2 id with Some v => Some (NewBpfFlowContent v) | None => st.1 !! id end
      else st.1 !! id) /\
    ∀ m, m <> aggregated_flows -> w_map (foldl take_flow st ids).2 m = w_map st.2 m).
  { intros Hc. destruct (Hc (∅, w)) as [-> Hm]. split; [|done]. cbn [fst snd].
    rewrite lookup_empty. by destruct (the_flow w id). }
  clear w. induction Hnd as [|i ids Hi Hnd IH]; intros st.
  { by rewrite decide_False by apply not_elem_of_nil. }
  cbn [foldl]. destruct (take_flow_step st.2 i st.1) as (Ho & Hs & Hm). rewrite <- surjective_pairing in *.
  destruct (IH (take_flow st i)) as [-> Hm']. split; [|intros m Hne; by rewrite Hm', Hm].
  destruct (decide (id = i)) as [->|Hne].
  - rewrite (decide_False (P := i ∈ ids)), (decide_True (P := i ∈ i :: ids)); [done|apply list_elem_of_here|done].
  - destruct (Ho id Hne) as [-> ->]. apply decide_ext. rewrite elem_of_cons. tauto.
Qed.

(** *** The metrics of the hooks *)

Definition orphans_step (st : gmap flow_id BpfFlowContent * world) :=
  if EnableIPsecTracking c then (mergeIPsecOrphans (order st.1) st.1, st.2) else st.

(** Before the additional metrics, before the orphans, and all. *)
Definition dns_step := secondary cpus iter (EnableDNSTracking c) aggregated_flows_dns (λ x, x) AccumulateDNS.
Definition drops_step := secondary cpus iter (EnablePktDrops c) aggregated_flows_pkt_drop (λ x, x) AccumulateDrops.
Definition events_step := secondary cpus iter (EnableNetworkEventsMonitoring c) aggregated_flows_network_events
  (λ x, x) AccumulateNetworkEvents.
Definition xlat_step := secondary cpus iter (EnablePktTranslationTracking c) aggregated_flows_xlat
  (λ x, x) AccumulateXlat.
Definition additional_step := secondary cpus iter (EnableRTT c || EnableIPsecTracking c) additional_flow_metrics
  (λ x, x) AccumulateAdditional.
Definition quic_step := secondary cpus iter (negb (QUICTrackingMode c =? 0)) quic_flows (λ x, x) AccumulateQuic.

Lemma accumulate_eq st :
  accumulateSecondaryMaps c cpus iter order st
  = quic_step (orphans_step (additional_step (xlat_step (events_step (drops_step (dns_step st)))))).
Proof.
  unfold accumulateSecondaryMaps, orphans_step, additional_step. cbv zeta.
  destruct (EnableRTT c) eqn:Er, (EnableIPsecTracking c) eqn:Ei; done.
Qed.

(** A part that the additional metrics do not reach, and that orphans do not
    have. *)
Lemma orphans_step_keeps {V} (get : BpfFlowContent → V) st id :
  (∀ f a, get (AccumulateAdditional f a) = get f) ->
  (EnableIPsecTracking c = true -> ∀ f, st.1 !! id = Some f -> isIPsecOrphan f = true -> get f = get empty_content) ->
  part get (orphans_step st).1 id = part get st.1 id.
Proof.
  intros Ha Ho. unfold orphans_step. destruct (EnableIPsecTracking c); [|done]. cbn [fst]. unfold part.
  assert (Hf : ∀ l f, get (foldl AccumulateAdditional f l) = get f).
  { induction l as [|a l IH]; intros f; [done|]. cbn [foldl]. by rewrite IH. }
  rewrite (orphans_lookup st.1 (order st.1) (range_once _) (range_all _)).
  destruct (st.1 !! id) as [f|] eqn:E; [|done]. cbn [mbind option_bind].
  destruct (isIPsecOrphan f) eqn:Eo; [|apply Hf]. case_decide; [|done]. symmetry. by apply Ho.
Qed.

(** A count of the base. *)
Class BaseCount (get : flow_metrics → Z) : Prop := {
  base_kept s e t p : get (fc_base (buildBaseFromAdditional s e t p)) = get (fc_base p);
  base_orphan f : isIPsecOrphan f = true -> get (fc_base f) = 0;
  base_empty : get zeroed = 0;
}.

Section Count.
Context (get : flow_metrics → Z) {BC : BaseCount get}.
Abbreviation count := (λ f, get (fc_base f)).

Lemma additional_count f a : count (AccumulateAdditional f a) = count f.
Proof. unfold AccumulateAdditional. etrans; [apply base_kept|done]. Qed.

Lemma before_orphans_count st id :
  part count (additional_step (xlat_step (events_step (drops_step (dns_step st))))).1 id = part count st.1 id.
Proof.
  unfold additional_step, xlat_step, events_step, drops_step, dns_step.
  rewrite !secondary_keeps; [done|..]; intros f v;
    unfold AccumulateDNS, AccumulateDrops, AccumulateNetworkEvents, AccumulateXlat, AccumulateAdditional;
    by (etrans; [apply base_kept|]).
Qed.

(** The flows are reported as the map held them. *)
Lemma reported_count w id :
  iterates iter w -> report count w id = default 0 (get <$> the_flow w id).
Proof.
  intros Hiter. rewrite report_eq, accumulate_eq. unfold quic_step. rewrite secondary_keeps.
  2:{ intros f v. unfold AccumulateQuic. by (etrans; [apply base_kept|]). }
  rewrite orphans_step_keeps.
  - rewrite before_orphans_count. unfold part. rewrite (proj1 (base_flow w id Hiter)).
    destruct (the_flow w id); [done|apply base_empty].
  - apply additional_count.
  - intros _ f _ Ho. cbn. by rewrite base_orphan, base_empty.
Qed.
End Count.

#[export] Instance packets_count : BaseCount fm_packets.
Proof.
  split; [intros; apply base_counts| |done]. intros f. unfold isIPsecOrphan.
  destruct (fc_additional f); [|done]. destruct (fm_packets (fc_base f) =? 0) eqn:E; [|done]. by bool_to_prop.
Qed.
#[export] Instance bytes_count : BaseCount fm_bytes.
Proof.
  split; [intros; apply base_counts| |done]. intros f. unfold isIPsecOrphan.
  destruct (fc_additional f); [|done]. destruct (fm_bytes (fc_base f) =? 0) eqn:E; [by bool_to_prop|].
  by rewrite orb_true_r.
Qed.

(** With IPsec tracking, the metrics of a flow without packets may go with it. *)
Definition stays w id : Prop :=
  EnableIPsecTracking c = false \/ ∃ f, the_flow w id = Some f /\ fm_packets f <> 0.

Lemma stays_no_orphan w id f :
  iterates iter w -> stays w id -> EnableIPsecTracking c = true ->
  (additional_step (xlat_step (events_step (drops_step (dns_step (base_flows w)))))).1 !! id = Some f ->
  isIPsecOrphan f = false.
Proof.
  intros Hiter [->|(v & Hv & Hp)] Hi Hf; [done|]. apply not_orphan. intros E. apply Hp.
  pose proof (before_orphans_count fm_packets (base_flows w) id) as Hc. unfold part in Hc.
  rewrite Hf, (proj1 (base_flow w id Hiter)), Hv in Hc. cbn in Hc. congruence.
Qed.

Lemma no_copies w m (id : key m) : iterates iter w -> id ∉ iter m -> cpu_copies cpus m w id = [].
Proof.
  intros Hiter Hid. unfold cpu_copies. destruct (st_index (w_map w m) !! id) eqn:E; [|done].
  exfalso. apply Hid, Hiter. by eexists.
Qed.

(** The drops are the copies of the CPUs, merged. *)
Lemma reported_drops w id :
  iterates iter w -> EnablePktDrops c = true -> stays w id ->
  ∃ f, fc_drops f = None /\
    report fc_drops w id
    = fc_drops (foldl AccumulateDrops f (cpu_copies cpus aggregated_flows_pkt_drop w id)).
Proof.
  intros Hiter He Hst. rewrite report_eq, accumulate_eq. unfold quic_step.
  rewrite secondary_keeps by done. rewrite orphans_step_keeps; [|done|].
  2:{ intros Hi f Hf Ho. pose proof (stays_no_orphan w id f Hiter Hst Hi Hf). congruence. }
  unfold additional_step, xlat_step, events_step. rewrite !secondary_keeps by done.
  unfold drops_step, secondary at 1. rewrite He.
  destruct (dns_step (base_flows w)) as [flows w1] eqn:E.
  assert (Hw : w_map w1 aggregated_flows_pkt_drop = w_map w aggregated_flows_pkt_drop).
  { change w1 with (flows, w1).2. rewrite <- E. unfold dns_step. rewrite secondary_other_map by done.
    by apply base_flow. }
  assert (Hn : part fc_drops flows id = None).
  { change flows with (flows, w1).1. rewrite <- E. unfold dns_step. rewrite secondary_keeps by done.
    unfold part. rewrite (proj1 (base_flow w id Hiter)). by destruct (the_flow w id). }
  rewrite (collect_part cpus aggregated_flows_pkt_drop (λ x, x) _ AccumulateDrops fc_drops) by apply Hiter.
  eexists. split; [exact Hn|]. assert (Ew : cpu_copies cpus aggregated_flows_pkt_drop w1 id
    = cpu_copies cpus aggregated_flows_pkt_drop w id) by (unfold cpu_copies; by rewrite Hw).
  rewrite Ew. case_decide as Hd; [done|]. by rewrite (no_copies w aggregated_flows_pkt_drop id Hiter Hd), Hn.
Qed.

(** So are the additional metrics, but for the flows on the wire. *)
Lemma reported_additional w id :
  iterates iter w -> EnableRTT c || EnableIPsecTracking c = true -> stays w id ->
  EnableIPsecTracking c = false \/ isIPsecWireFlow id = false ->
  ∃ f, fc_additional f = None /\
    report fc_additional w id
    = fc_additional (foldl AccumulateAdditional f (cpu_copies cpus additional_flow_metrics w id)).
Proof.
  intros Hiter He Hst Hwire. rewrite report_eq, accumulate_eq. unfold quic_step.
  rewrite secondary_keeps by done.
  set (st := xlat_step (events_step (drops_step (dns_step (base_flows w))))).
  assert (Ho : part fc_additional (orphans_step (additional_step st)).1 id
    = part fc_additional (additional_step st).1 id).
  { unfold orphans_step. destruct (EnableIPsecTracking c) eqn:Ei; [|done]. destruct Hwire as [|Hwire]; [done|].
    cbn [fst]. unfold part. set (flows := (additional_step st).1).
    destruct (flows !! id) as [f|] eqn:Ef.
    - by rewrite (orphans_others flows _ (range_once _) (range_all _) id f) by eauto using stays_no_orphan.
    - by rewrite (orphans_lookup flows _ (range_once _) (range_all _)), Ef. }
  rewrite Ho. unfold additional_step, secondary. rewrite He.
  assert (Hw : w_map st.2 additional_flow_metrics = w_map w additional_flow_metrics).
  { unfold st, xlat_step, events_step, drops_step, dns_step. rewrite !secondary_other_map by done.
    by apply base_flow. }
  assert (Hn : part fc_additional st.1 id = None).
  { unfold st, xlat_step, events_step, drops_step, dns_step. rewrite !secondary_keeps by done.
    unfold part. rewrite (proj1 (base_flow w id Hiter)). by destruct (the_flow w id). }
  destruct st as [flows w1]. cbn [fst snd] in *.
  rewrite (collect_part cpus additional_flow_metrics (λ x, x) _ AccumulateAdditional fc_additional) by apply Hiter.
  eexists. split; [exact Hn|]. assert (Ew : cpu_copies cpus additional_flow_metrics w1 id
    = cpu_copies cpus additional_flow_metrics w id) by (unfold cpu_copies; by rewrite Hw).
  rewrite Ew. case_decide as Hd; [done|]. by rewrite (no_copies w additional_flow_metrics id Hiter Hd), Hn.
Qed.
End Parts.

(** ** The counters and the stale queries *)

Section Others.
Context {K : Kernel} {KL : KernelLaws K}.
Implicit Types (w : world).

Lemma zeroed_cells (s : store global_counters) p cpus q c :
  cell_read (foldl (λ s c, cell_write s p c (0 : value global_counters)) s cpus) q c
  = if decide (q = p /\ c ∈ cpus) then 0 else cell_read s q c.
Proof.
  revert s. induction cpus as [|c' cpus IH]; intros s; cbn [foldl].
  { rewrite decide_False; [done|]. by intros [_ ?%not_elem_of_nil]. }
  rewrite IH. destruct (decide (q = p /\ c ∈ cpus)) as [[-> Hc]|Hn].
  - rewrite decide_True; [done|]. split; [done|]. by apply list_elem_of_further.
  - unfold cell_read, cell_write. cbn [st_cells]. destruct (decide ((p, c') = (q, c))) as [[= -> ->]|Hne].
    + rewrite lookup_insert_eq, decide_True; [done|]. split; [done|apply list_elem_of_here].
    + rewrite lookup_insert_ne by done. rewrite decide_False; [done|].
      intros [-> [->|?]%elem_of_cons]; [done|tauto].
Qed.

Lemma zeroed_index (s : store global_counters) p cpus :
  st_index (foldl (λ s c, cell_write s p c (0 : value global_counters)) s cpus) = st_index s.
Proof. revert s. induction cpus as [|c cpus IH]; intros s; [done|]. cbn [foldl]. by rewrite IH. Qed.

(** Every counter is read once, summed over the CPUs, and starts again at 0. *)
Lemma counters_read cpus keys w :
  (∀ k, k ∈ keys -> is_Some (st_index (w_map w global_counters) !! (k : key global_counters))) ->
  (∀ k k' p, st_index (w_map w global_counters) !! k = Some p ->
     st_index (w_map w global_counters) !! k' = Some p -> k = k') ->
  NoDup keys ->
  (read_counters cpus keys w).1 = (λ k, Zsum (cpu_copies cpus global_counters w k)) <$> keys /\
  (∀ k, cpu_copies cpus global_counters (read_counters cpus keys w).2 k
    = if decide (k ∈ keys) then (λ _, 0) <$> cpus else cpu_copies cpus global_counters w k) /\
  ∀ m, m <> global_counters -> w_map (read_counters cpus keys w).2 m = w_map w m.
Proof.
  intros Hk Hinj Hnd. revert w Hk Hinj. induction Hnd as [|k keys Hin Hnd IH]; intros w Hk Hinj.
  { split; [done|]. split; [|done]. intros k. by rewrite decide_False by apply not_elem_of_nil. }
  destruct (Hk k (list_elem_of_here _ _)) as [p Hp]. cbn [read_counters]. rewrite Hp.
  set (s := foldl _ (w_map w global_counters) cpus). set (w1 := upd_map global_counters s w).
  assert (Hi : st_index (w_map w1 global_counters) = st_index (w_map w global_counters)).
  { unfold w1. rewrite upd_map_eq. apply zeroed_index. }
  assert (Hc : ∀ k', cpu_copies cpus global_counters w1 k'
    = if decide (k' = k) then (λ _, 0) <$> cpus else cpu_copies cpus global_counters w k').
  { intros k'. unfold cpu_copies. rewrite Hi. unfold w1. rewrite upd_map_eq.
    destruct (decide (k' = k)) as [->|Hne].
    - rewrite Hp. apply list_fmap_ext. intros i c Hic. unfold s. rewrite zeroed_cells, decide_True; [done|].
      split; [done|]. by eapply list_elem_of_lookup_2.
    - destruct (st_index (w_map w global_counters) !! k') as [q|] eqn:Eq; [|done].
      apply list_fmap_ext. intros i c Hic. unfold s. rewrite zeroed_cells, decide_False; [done|].
      intros [-> _]. by eapply Hne, Hinj. }
  destruct (IH w1) as (H1 & H2 & H3).
  { intros k' Hk'. rewrite Hi. apply Hk. by apply list_elem_of_further. }
  { by rewrite Hi. }
  destruct (read_counters cpus keys w1) as [sums w2]. cbn [fst snd] in *. split; [|split].
  - rewrite fmap_cons. f_equal; [unfold cpu_copies; by rewrite Hp|]. rewrite H1.
    apply list_fmap_ext. intros i k' Hk'. rewrite Hc, decide_False; [done|]. intros ->.
    apply Hin. by eapply list_elem_of_lookup_2.
  - intros k'. rewrite H2, Hc. destruct (decide (k' ∈ keys)) as [Hk'|Hk'].
    + rewrite decide_True; [done|]. by apply list_elem_of_further.
    + apply decide_ext. rewrite elem_of_cons. tauto.
  - intros m Hm. rewrite H3 by done. unfold w1. by rewrite upd_map_ne.
Qed.

(** Exactly the stale queries among the iterated ones are forgotten. *)
Lemma stale_queries_deleted timeOut now iter w k :
  st_index (w_map (lookupAndDeleteDNSMap timeOut now iter w) dns_flows) !! (k : key dns_flows)
  = if decide (k ∈ iter /\ is_stale timeOut now w k) then None
    else st_index (w_map w dns_flows) !! (k : key dns_flows).
Proof.
  unfold lookupAndDeleteDNSMap.
  assert (Hd : ∀ l w, st_index (w_map (foldl (λ w k, (map_delete dns_flows k w).2) w l) dns_flows) !! (k : key dns_flows)
    = if decide (k ∈ (l : list dns_flow_id)) then None else st_index (w_map w dns_flows) !! (k : key dns_flows)).
  { induction l as [|i l IH]; intros w1.
    { by rewrite decide_False by apply not_elem_of_nil. }
    cbn [foldl]. rewrite IH. assert (Hone : st_index (w_map (map_delete dns_flows i w1).2 dns_flows) !! (k : key dns_flows)
      = if decide (k = i) then None else st_index (w_map w1 dns_flows) !! (k : key dns_flows)).
    { unfold map_delete. rewrite decide_False by done.
      destruct (st_index (w_map w1 dns_flows) !! (i : key dns_flows)) eqn:E; cbn [snd].
      - rewrite upd_map_eq. cbn [st_index]. destruct (decide (k = i)) as [->|Hne].
        + apply lookup_delete_eq.
        + by apply lookup_delete_ne.
      - by destruct (decide (k = i)) as [->|Hne]. }
    rewrite Hone. repeat case_decide; set_solver. }
  rewrite Hd. apply decide_ext. rewrite list_elem_of_filter. tauto.
Qed.

(** A query is stale when it is older than the time-out, whatever the width. *)
Lemma stale_query_age timeOut now sent :
  0 <= sent < 2 ^ 63 -> 0 <= now < 2 ^ 63 -> 0 < timeOut ->
  stale_query timeOut now sent = (timeOut <=? now - sent).
Proof.
  intros Hs Hn Ht. unfold stale_query, s64, u64. cbv zeta.
  change (2 ^ 64) with 18446744073709551616 in *. change (2 ^ 63) with 9223372036854775808 in *.
  destruct (decide (sent <= now)).
  - rewrite Zmod_mod, Z.mod_small by lia. by rewrite (proj2 (Z.ltb_lt _ _)) by lia.
  - assert (E : (now - sent) mod 18446744073709551616 = now - sent + 18446744073709551616).
    { symmetry. apply Z.mod_unique with (-1); lia. }
    rewrite Zmod_mod, E, (proj2 (Z.ltb_ge _ _)) by lia. f_equal. lia.
Qed.
End Others.
