(* ===== verification/Setup.v ===== *)
(** * The settings of the programs ([pkg/tracer/flows/fetcher.go],
    [pkg/tracer/packets/fetcher.go])

    Before the programs are loaded, the agent writes the constants that configure
    them.  The record [SetupConfig] has the settings of the agent that this uses;
    the result is the [config] that all programs of this development take as their
    argument.  What a program does under [configureFlowSpecVariables] is thereby
    known in the terms of the settings. *)
From S2P Require Import Prelude Machine Types Kernel Maps Safety PacketUtils Filter GoText Tries Rules.
From S2P Require Import Dns Quic Fetch.

Record SetupConfig := mk_SetupConfig {
  sc_Flows : FetcherConfig;
  sc_Sampling : Z;
  sc_DNSTrackingPorts : list Z;
  sc_FilterConfig : list FilterConfig;
  sc_NetworkEventsMonitoringGroupID : Z;
  sc_EnableFlowsRingbufFallback : bool;
  sc_EnableTLSTracking : bool;
  sc_EnableOpenSSLTracking : bool;
}.

Definition DefaultNetworkEventsGroupID : Z := 10.

(** The loop of [parseDNSTrackingPorts], with the array and the count. *)
Fixpoint dns_ports_from (ports : list Z) (dnsPorts : list Z) (dnsPortsCount : Z) : list Z * Z :=
  match ports with
  | [] => (dnsPorts, dnsPortsCount)
  | port :: ports =>
      if 8 <=? dnsPortsCount then (dnsPorts, dnsPortsCount)
      else dns_ports_from ports (<[Z.to_nat dnsPortsCount := port]> dnsPorts) (u8 (dnsPortsCount + 1))
  end.
Definition parseDNSTrackingPorts (ports : list Z) : list Z * Z := dns_ports_from ports (replicate 8 0) 0.

Definition flag (b : bool) : Z := if b then 1 else 0.

Definition configureFlowSpecVariables (cfg : SetupConfig) : config :=
  let features := sc_Flows cfg in
  let '(dnsPorts, dnsPortsCount) :=
    if EnableDNSTracking features then parseDNSTrackingPorts (sc_DNSTrackingPorts cfg)
    else (replicate 8 0, 0) in
  let '(enableFlowFiltering, hasFilterSampling) :=
    match sc_FilterConfig cfg with
    | [] => (0, 0)
    | filter => (1, HasSampling filter)
    end in
  let networkEventsMonitoringGroupID :=
    if 0 <? sc_NetworkEventsMonitoringGroupID cfg then sc_NetworkEventsMonitoringGroupID cfg
    else DefaultNetworkEventsGroupID in
  let enableQUICTracking :=
    if QUICTrackingMode features =? 2 then QUIC_CONFIG_ANY_UDP_PORT
    else if QUICTrackingMode features =? 1 then QUIC_CONFIG_ENABLED
    else QUIC_CONFIG_DISABLED in
  {| sampling := u32 (sc_Sampling cfg);
     has_filter_sampling := hasFilterSampling;
     enable_rtt := flag (EnableRTT features);
     enable_dns_tracking := flag (EnableDNSTracking features);
     dns_ports := dnsPorts;
     dns_ports_count := dnsPortsCount;
     enable_filtering := enableFlowFiltering;
     enable_network_events_monitoring := flag (EnableNetworkEventsMonitoring features);
     network_events_monitoring_groupid := u8 networkEventsMonitoringGroupID;
     enable_pkt_translation_tracking := flag (EnablePktTranslationTracking features);
     enable_ipsec := flag (EnableIPsecTracking features);
     enable_directflows_ringbuf := flag (sc_EnableFlowsRingbufFallback cfg);
     enable_openssl_tracking := flag (sc_EnableOpenSSLTracking cfg);
     enable_tls_usage_tracking := flag (sc_EnableTLSTracking cfg);
     enable_quic_tracking := u8 enableQUICTracking |}.

(** The variables of the packet capture; the others keep their initial 0. *)
Definition packet_variables (cfg : SetupConfig) : config := {|
  sampling := u32 (sc_Sampling cfg);
  enable_filtering := flag (negb (bool_decide (length (sc_FilterConfig cfg) = 0%nat)));
  enable_openssl_tracking := flag (sc_EnableOpenSSLTracking cfg);
  has_filter_sampling := 0; enable_rtt := 0; enable_dns_tracking := 0; dns_ports := replicate 8 0;
  dns_ports_count := 0; enable_network_events_monitoring := 0; network_events_monitoring_groupid := 0;
  enable_pkt_translation_tracking := 0; enable_ipsec := 0; enable_directflows_ringbuf := 0;
  enable_tls_usage_tracking := 0; enable_quic_tracking := 0;
|}.

(** ** The DNS ports *)

Lemma dns_ports_from_spec ports dnsPorts n :
  length dnsPorts = 8%nat -> (n <= 8)%nat ->
  let r := dns_ports_from ports dnsPorts (Z.of_nat n) in
  length r.1 = 8%nat /\ 0 <= r.2 <= 8 /\
  take (Z.to_nat r.2) r.1 = take 8 (take n dnsPorts ++ ports).
Proof.
  revert dnsPorts n. induction ports as [|p ports IH]; intros l n Hl Hn; cbn [dns_ports_from]; cbv zeta.
  - cbn [fst snd]. rewrite app_nil_r, Nat2Z.id, take_take. split_and!; [done|lia|lia|]. by f_equal; lia.
  - destruct (8 <=? Z.of_nat n) eqn:E; bool_to_prop.
    + assert (n = 8%nat) as -> by lia. cbn [fst snd]. split_and!; [done|lia|lia|].
      rewrite take_app_le by (rewrite length_take; lia). by rewrite take_take.
    + assert (Eu : u8 (Z.of_nat n + 1) = Z.of_nat (S n)) by (unfold u8; rewrite Z.mod_small; lia).
      rewrite Eu, Nat2Z.id. destruct (IH (<[n := p]> l) (S n)) as (H1 & H2 & H3); [by rewrite length_insert|lia|].
      split_and!; [done|lia|lia|]. rewrite H3. f_equal.
      rewrite (take_S_r _ _ p) by (apply list_lookup_insert_eq; lia).
      rewrite take_insert_ge by done. by rewrite <- app_assoc.
Qed.

Lemma parseDNSTrackingPorts_spec ports :
  let r := parseDNSTrackingPorts ports in
  length r.1 = 8%nat /\ 0 <= r.2 <= 8 /\ take (Z.to_nat r.2) r.1 = take 8 ports.
Proof. exact (dns_ports_from_spec ports (replicate 8 0) 0 eq_refl ltac:(lia)). Qed.

(** The programs take a port for a DNS port when it is one of the first eight of the
    settings, and DNS is tracked. *)
Lemma configured_dns_port cfg port :
  is_dns_port (configureFlowSpecVariables cfg) port = true <->
  EnableDNSTracking (sc_Flows cfg) = true /\ port ∈ take 8 (sc_DNSTrackingPorts cfg).
Proof.
  unfold configureFlowSpecVariables. destruct (EnableDNSTracking (sc_Flows cfg)).
  - destruct (parseDNSTrackingPorts_spec (sc_DNSTrackingPorts cfg)) as (Hl & Hc & Ht).
    destruct (parseDNSTrackingPorts _) as [l n]. cbn [fst snd] in *.
    destruct (match sc_FilterConfig cfg with [] => _ | _ => _ end) as [ef hs].
    rewrite is_dns_port_spec by (cbn; unfold MAX_DNS_PORTS; lia || done). cbn. rewrite Ht. tauto.
  - destruct (match sc_FilterConfig cfg with [] => _ | _ => _ end) as [ef hs].
    rewrite is_dns_port_spec by (cbn; unfold MAX_DNS_PORTS; lia || done). cbn. rewrite elem_of_nil. naive_solver.
Qed.

(** ** The filter *)

Lemma configured_filter cfg :
  is_filter_enabled (configureFlowSpecVariables cfg) = true <-> sc_FilterConfig cfg <> [].
Proof.
  unfold is_filter_enabled, configureFlowSpecVariables.
  destruct (if EnableDNSTracking _ then _ else _). by destruct (sc_FilterConfig cfg).
Qed.

Lemma configured_sampling cfg :
  is_u32 (sampling (configureFlowSpecVariables cfg)) /\
  (has_filter_sampling (configureFlowSpecVariables cfg) <> 0 <->
   ∃ r, r ∈ sc_FilterConfig cfg /\ 0 < cf_Sample r).
Proof.
  unfold configureFlowSpecVariables. destruct (if EnableDNSTracking _ then _ else _) as [dp dn].
  assert (Hs : ∀ l, HasSampling l <> 0 <-> ∃ r, r ∈ l /\ 0 < cf_Sample r).
  { intros l. unfold HasSampling. destruct (existsb _ l) eqn:E.
    - apply existsb_exists in E as (r & Hr & Hc). bool_to_prop. split; [|done]. intros _. exists r.
      by rewrite list_elem_of_In.
    - split; [done|]. intros (r & Hr%list_elem_of_In & Hc) _. apply not_true_iff_false in E. apply E.
      apply existsb_exists. exists r. split; [done|]. by apply Z.ltb_lt. }
  destruct (sc_FilterConfig cfg) as [|c rules]; cbn [sampling has_filter_sampling].
  - split; [apply u32_range|]. split; [done|]. by intros (r & Hr%elem_of_nil & _).
  - split; [apply u32_range|]. apply Hs.
Qed.

(** ** The other features *)

Lemma flag_on b : flag b <> 0 <-> b = true.
Proof. by destruct b. Qed.

Lemma configured_flags cfg :
  let c := configureFlowSpecVariables cfg in
  (is_u32 (sc_Sampling cfg) -> sampling c = sc_Sampling cfg) /\
  (enable_rtt c <> 0 <-> EnableRTT (sc_Flows cfg) = true) /\
  (enable_ipsec c <> 0 <-> EnableIPsecTracking (sc_Flows cfg) = true) /\
  (enable_network_events_monitoring c <> 0 <-> EnableNetworkEventsMonitoring (sc_Flows cfg) = true) /\
  (enable_pkt_translation_tracking c <> 0 <-> EnablePktTranslationTracking (sc_Flows cfg) = true) /\
  (enable_directflows_ringbuf c <> 0 <-> sc_EnableFlowsRingbufFallback cfg = true) /\
  (enable_tls_usage_tracking c <> 0 <-> sc_EnableTLSTracking cfg = true) /\
  (enable_openssl_tracking c <> 0 <-> sc_EnableOpenSSLTracking cfg = true) /\
  (enable_quic_tracking c <> 0 <-> QUICTrackingMode (sc_Flows cfg) ∈ [1; 2]).
Proof.
  intros c. subst c. unfold configureFlowSpecVariables. destruct (if EnableDNSTracking _ then _ else _) as [dp dn].
  destruct (match sc_FilterConfig cfg with [] => _ | _ => _ end) as [ef hs]. cbn [sampling enable_rtt enable_ipsec
    enable_network_events_monitoring enable_pkt_translation_tracking enable_directflows_ringbuf
    enable_tls_usage_tracking enable_openssl_tracking enable_quic_tracking].
  split; [intros Hs; unfold u32; apply Z.mod_small; width; lia|].
  split_and!; try apply flag_on. rewrite !elem_of_cons, elem_of_nil.
  repeat case_match; bool_to_prop; cbn; (split; [|]); try tauto; try done; intros [?|[?|[]]]; lia.
Qed.
