(* ===== verification/Reports.v ===== *)
(** * What the agent reports of a flow

    The agent takes a flow out of the map, and its accounter merges the records
    of the ring buffer: together they hold every packet of the flow.  The metrics
    of the hooks are merged over the CPUs ([Collect.v]); here is the rest of the
    way from the wire to the reports. *)
From stdpp Require Import relations.
From S2P Require Import Prelude Machine Types Kernel Maps Safety Flows Programs Rings Credits.
From S2P Require Import Accounting Records Collect Fetch.

(** ** The accounter loses nothing *)

Section Accounter.
Context {T : Tally} {TL : TallyLaws T}.

(** What a batch holds of the tally of a flow, and a record. *)
Definition batch_amount (id : flow_id) (b : gmap flow_id flow_metrics) : Z :=
  default 0 (t_get <$> b !! id).
Definition event_record (e : accounter_event) : option flow_record :=
  match e with AccountRecord r => Some r | AccountTick => None end.
Definition record_tally (id : flow_id) (r : flow_record) : Z :=
  if decide (fr_id r = id) then t_get (fr_metrics r) else 0.

Lemma total_modulo a b c d : a mod t_mod = b mod t_mod -> c = d -> (a + c) mod t_mod = (b + d) mod t_mod.
Proof. intros E ->. by rewrite <- Zplus_mod_idemp_l, E, Zplus_mod_idemp_l. Qed.

Class MergedTally := merged_tally p o : t_get (AccumulateBase p o) = (t_get p + t_get o) mod t_mod.
Context {MT : MergedTally}.

Lemma account_event_amount id c e :
  let '(c', batch) := account_event c e in
  (batch_amount id (ac_entries c') + default 0 (batch_amount id <$> batch)) mod t_mod
  = (batch_amount id (ac_entries c) + default 0 (record_tally id <$> event_record e)) mod t_mod.
Proof.
  unfold account_event, batch_amount, record_tally. destruct e as [|r]; cbn [event_record].
  - case_decide as E; cbn; [done|]. rewrite lookup_empty. cbn. f_equal. lia.
  - destruct (ac_entries c !! fr_id r) as [stored|] eqn:E.
    + cbn. rewrite Z.add_0_r. destruct (decide (fr_id r = id)) as [<-|Hne].
      * rewrite lookup_insert_eq, E. cbn. by rewrite merged_tally, Zmod_mod.
      * rewrite lookup_insert_ne by done. by rewrite Z.add_0_r.
    + assert (Hid : fr_id r = id -> ac_entries c !! id = None) by by intros <-.
      destruct (_ <=? _)%nat; cbn; destruct (decide (fr_id r = id)) as [Hr|Hne].
      * rewrite Hr in *. rewrite lookup_singleton_eq, Hid by done. cbn. f_equal. lia.
      * rewrite lookup_singleton_ne by done. cbn. f_equal. lia.
      * rewrite Hr in *. rewrite lookup_insert_eq, Hid by done. cbn. f_equal. lia.
      * rewrite lookup_insert_ne by done. done.
Qed.

Lemma account_total id c events :
  Zsum (batch_amount id <$> Account c events) mod t_mod
  = (batch_amount id (ac_entries c) + Zsum (record_tally id <$> omap event_record events)) mod t_mod.
Proof.
  revert c. induction events as [|e events IH]; intros c; [done|].
  pose proof (account_event_amount id c e) as He. cbn [Account]. destruct (account_event c e) as [c' batch].
  assert (E : Zsum (batch_amount id <$> match batch with Some b => b :: Account c' events | None => Account c' events end)
    = default 0 (batch_amount id <$> batch) + Zsum (batch_amount id <$> Account c' events)).
  { destruct batch; cbn; [done|lia]. }
  rewrite E, <- Zplus_mod_idemp_r, IH, Zplus_mod_idemp_r.
  assert (E2 : Zsum (record_tally id <$> omap event_record (e :: events))
    = default 0 (record_tally id <$> event_record e) + Zsum (record_tally id <$> omap event_record events)).
  { cbn [omap list_omap]. destruct (event_record e); cbn; [done|lia]. }
  rewrite E2. set (s := Zsum (record_tally id <$> omap event_record events)) in *.
  replace (default 0 (batch_amount id <$> batch) + (batch_amount id (ac_entries c') + s))
    with ((batch_amount id (ac_entries c') + default 0 (batch_amount id <$> batch)) + s) by lia.
  rewrite Z.add_assoc. by apply total_modulo.
Qed.

(** No batch is larger than the cache. *)
Lemma account_bounded c events :
  (size (ac_entries c) <= max 1 (ac_maxEntries c))%nat ->
  Forall (λ b, (size b <= max 1 (ac_maxEntries c))%nat) (Account c events).
Proof.
  revert c. induction events as [|e events IH]; intros c Hc; [by constructor|].
  assert (He : let '(c', batch) := account_event c e in
    ac_maxEntries c' = ac_maxEntries c /\ (size (ac_entries c') <= max 1 (ac_maxEntries c))%nat /\
    ∀ b, batch = Some b -> b = ac_entries c).
  { unfold account_event. destruct e as [|r]; [case_decide|].
    - done.
    - cbn. rewrite map_size_empty. split_and!; [done|lia|by intros b [= <-]].
    - destruct (ac_entries c !! fr_id r) as [stored|] eqn:E; [|destruct (_ <=? _)%nat eqn:El]; cbn.
      + split_and!; [done| |done]. by rewrite map_size_insert_Some by by eexists.
      + split_and!; [done| |by intros b [= <-]]. rewrite map_size_singleton. lia.
      + split_and!; [done| |done]. rewrite map_size_insert_None by done.
        apply Nat.leb_gt in El. lia. }
  cbn [Account]. destruct (account_event c e) as [c' batch]. destruct He as (Hm & Hs & Hb).
  pose proof (IH c') as IH'. rewrite Hm in IH'. specialize (IH' Hs).
  destruct batch as [b|]; [|done]. constructor; [|done]. by rewrite (Hb b eq_refl).
Qed.
End Accounter.

#[export] Instance packets_merged : MergedTally (T := packets_tally).
Proof. intros p o. unfold AccumulateBase. cbv zeta. by repeat case_match. Qed.
#[export] Instance bytes_merged : MergedTally (T := bytes_tally).
Proof. intros p o. unfold AccumulateBase. cbv zeta. by repeat case_match. Qed.

(** ** From the wire to the reports *)

Section Reported.
Context {H : Host} {K : Kernel} {KL : KernelLaws K}.
Implicit Types w : world.

(** The records that the reader of the ring buffer gets, in order. *)
Definition committed w : list flow_record :=
  omap (λ s, match s with Committed d => Some d | _ => None end) (w_ring w direct_flows).

Section Tally.
Context {T : Tally} {TL : TallyLaws T} {MT : MergedTally} {BC : BaseCount t_get}.
Context (c : FetcherConfig) (cpus : list Z) (iter : ∀ m, list (key m)).
Context (order : gmap flow_id BpfFlowContent → list flow_id) {RO : RangeOrder order}.

(** What the agent reports of a flow: what the map held of it, and what the
    accounter has sent on. *)
Definition reported_flow (get : flow_metrics → Z) (id : flow_id) (cache : nat)
    (events : list accounter_event) w : Z :=
  report c cpus iter order (λ f, get (fc_base f)) w id +
  Zsum ((λ b : gmap flow_id flow_metrics, default 0 (get <$> b !! id))
    <$> Account (mk_Accounter cache ∅) events).

(** Where all records are of one interface, this is the balance. *)
Lemma reported_balance id ifx cache events w :
  iterates iter w -> flow_of_interface id ifx w ->
  omap event_record events = committed w ->
  reported_flow t_get id cache events w mod t_mod = balance id ifx w mod t_mod.
Proof.
  intros Hiter [_ Hrec _] Hev. unfold reported_flow, balance.
  rewrite <- Zplus_mod_idemp_r. pose proof (account_total id (mk_Accounter cache ∅) events) as Ha.
  unfold batch_amount in Ha at 1. rewrite Ha, Zplus_mod_idemp_r. f_equal. rewrite Hev.
  f_equal.
  - by rewrite (reported_count c cpus iter order t_get).
  - unfold batch_amount. cbn [ac_entries]. rewrite lookup_empty. cbn [fmap option_fmap option_map default].
    unfold ring_amount, committed. rewrite Z.add_0_l. clear -Hrec.
    induction Hrec as [|s l Hs _ IH]; [done|]. rewrite fmap_cons.
    change (total (?x :: ?y)) with (x + total y). rewrite <- IH.
    destruct s as [|d|]; cbn [omap list_omap record_amount]; [lia| |lia].
    unfold Zsum. cbn. f_equal. unfold record_tally. specialize (Hs d eq_refl).
    destruct (decide (fr_id d = id)) as [E|E]; [rewrite decide_True by auto|rewrite decide_False by tauto]; done.
Qed.
End Tally.
End Reported.
