(* ===== verification/Samples.v ===== *)
(** * Sample packets and configurations

    Concrete inputs for the examples: frames, the socket buffers that carry
    them, and configurations of the agent. *)
From S2P Require Import Prelude Machine Types Kernel Maps Safety RefKernel PacketUtils Frames.
From S2P Require Import CoreFill Filter Drops Rtt Tls Dns Quic Flows Ssl Concurrency Programs Accounting.

Definition plain_config : config :=
  mk_config 0 0 0 0 0 (replicate 8 0) 0 0 0 0 0 0 0 0 0.

(** [plain_config] with DNS, TLS and QUIC tracking on, and port 53 for DNS. *)
Definition tracking_config : config :=
  mk_config 0 0 0 1 0 (53 :: replicate 7 0) 1 0 0 0 0 0 0 1 1.

Definition filter_config : config :=
  mk_config 0 0 0 0 1 (replicate 8 0) 0 0 0 0 0 0 0 0 0.

Definition ring_config : config :=
  mk_config 0 0 0 0 0 (replicate 8 0) 0 0 0 0 0 0 1 0 0.

Definition macs : list Z := [2; 0; 0; 0; 0; 1; 2; 0; 0; 0; 0; 2].

Definition ipv4 (src dst : list Z) : ip_header := Ipv4Header 0 (replicate 7 0) [0; 0] src dst.
Definition host_a : list Z := [10; 0; 0; 1].
Definition host_b : list Z := [10; 0; 0; 2].

Definition syn_bits : tcp_bits := mk_tcp_bits false true false false false false false false.
Definition ack_bits : tcp_bits := mk_tcp_bits false false false false true false false false.

Definition tcp (sport dport : Z) (bits : tcp_bits) : l4_header :=
  TcpHeader sport dport (replicate 8 0) 5 bits (replicate 6 0).
Definition udp (sport dport len : Z) : l4_header := UdpHeader sport dport len [0; 0].

Definition frame_of (src dst : list Z) (l4 : l4_header) (payload : list Z) : frame :=
  mk_frame macs (ipv4 src dst) l4 payload.

(** A packet on interface [ifindex], all of it in the linear data. *)
Definition skb_of (ifindex : Z) (f : frame) : sk_buff :=
  let d := frame_bytes f in mk_sk_buff (Z.of_nat (length d)) ifindex d d.

Definition syn_frame : frame := frame_of host_a host_b (tcp 40000 443 syn_bits) [].
Definition syn_packet (ifindex : Z) : sk_buff := skb_of ifindex syn_frame.
Definition syn_flow : flow_id := frame_id syn_frame.

(** Well-formedness of concrete data, by computation. *)
Ltac decide_u8s := apply (bool_decide_unpack _); vm_compute; exact I.
Ltac concrete_skb :=
  split_and!; [by vm_compute|by vm_compute|by vm_compute|by vm_compute| decide_u8s|decide_u8s|by exists []|by vm_compute].

Lemma syn_packet_wf n : is_u32 n -> wf_skb (syn_packet n).
Proof. intros Hn. unfold wf_skb. split_and!; try done; [decide_u8s|decide_u8s]. Qed.

(** ** Buffers of the kernel *)

(** A kernel buffer with [room] bytes before the frame, that came in through
    interface [iif]. *)
Definition ksk_of (room : nat) (iif : Z) (f : frame) : ksk_buff :=
  let mac := Z.of_nat room in
  mk_ksk_buff (zero_bytes room ++ frame_bytes f) mac (mac + sizeof_ethhdr)
    (mac + sizeof_ethhdr + ip_size (f_ip f)) iif (Z.of_nat (length (frame_bytes f))).

Lemma ksk_of_holds room iif f :
  is_u32 iif -> wf_frame f -> Z.of_nat room < 2 ^ 10 -> Z.of_nat (length (frame_bytes f)) < 2 ^ 10 ->
  holds_frame (ksk_of room iif f) f.
Proof.
  intros Hi Hf Hr Hl. assert (0 <= ip_size (f_ip f) <= 40) by (by destruct (f_ip f)).
  split; try done.
  - unfold wf_ksk_buff, ksk_of, sizeof_ethhdr. cbn -[zero_bytes].
    split; [apply Forall_app; split; [apply zero_bytes_ok|by apply frame_bytes_u8]|].
    width. lia.
  - unfold ksk_of. cbn [ks_head ks_mac_header]. destruct (zero_bytes_ok room) as [Hz _].
    rewrite slice_app_r by lia. rewrite Hz, Z.sub_diag. by apply slice_0_all.
Qed.

(** The worlds in which the packet flows are sampled. *)
Definition sampled_start (t : Z) : @world roomy := upd_do_sampling 1 (start t).
Lemma sampled_start_wf t : world_wf (sampled_start t).
Proof. apply start_wf. Qed.
Lemma sampled_start_typed t : typed (sampled_start t).
Proof. split; [apply start_typed|]. apply (bool_decide_unpack _). by vm_compute. Qed.

(** The world that a program leaves is as good as the one it starts in. *)
Lemma run_keeps {K : Kernel} {KL : KernelLaws K} {A} cpu (Q : A → Prop) (p : prog A) w :
  safe Q p -> world_wf w -> typed w -> world_wf (run cpu p w).2 /\ typed (run cpu p w).2.
Proof.
  intros Hs Hw Ht. split; [by apply run_wf|].
  by destruct (run_safe cpu Q p w Hs Ht) as (_ & _ & _ & ?).
Qed.

(** ** Programs on several CPUs *)

(** Two monitors of a packet, and the end of a connection on a third CPU. *)
Definition racers : list (Z * program) :=
  [(0, FlowMonitor INGRESS (syn_packet 3)); (1, FlowMonitor EGRESS (syn_packet 3));
   (2, SslProbe (OpFree 301 0x5000))].
Definition race_end : pool Z * world :=
  run_schedule (concat (replicate 12 [0; 1; 2]%nat)) (programs plain_config racers) (start 100).

Lemma racers_wf : Forall wf_program racers.*2.
Proof. repeat constructor; cbn; (by apply syn_packet_wf) || done. Qed.

(** The same race on a kernel whose flow map is full. *)
Abbreviation crowded := (RefKernel false true).
Definition crowded_start : @world crowded := init_world 100.
Definition direct_config : config :=
  mk_config 0 0 0 0 0 (replicate 8 0) 0 0 0 0 0 0 1 0 0.
Definition crowded_end : pool Z * @world crowded :=
  run_schedule (concat (replicate 12 [0; 1; 2]%nat)) (programs (K := crowded) direct_config racers) crowded_start.

(** A buffer of the kernel with the packet, its drop, and its round-trip times. *)
Definition syn_buffer : ksk_buff := ksk_of 64 3 syn_frame.
Lemma syn_frame_wf : wf_frame syn_frame.
Proof.
  unfold wf_frame. split_and!; try done; [decide_u8s| |];
    cbn; unfold is_bytes; split_and!; try done; decide_u8s.
Qed.
Lemma syn_buffer_holds : holds_frame syn_buffer syn_frame.
Proof. by apply ksk_of_holds; [|apply syn_frame_wf|..]. Qed.

(** A drop of the packet, with reason 6, on an established socket. *)
Definition syn_drop : kfree_args := mk_kfree_args syn_buffer (Some 1) 6.
Lemma syn_drop_wf : wf_kfree_args syn_drop.
Proof. split; [apply syn_buffer_holds|]. by split. Qed.

(** Two CPUs drop packets of the same new flow, one call of each in turn, and
    another monitors: the second one finds the element created by the first
    between its lookup and its insertion. *)
Definition drop_race : list (Z * program) :=
  [(1, DropProbe syn_drop); (0, DropProbe syn_drop); (2, FlowMonitor INGRESS (syn_packet 3))].
Definition drop_race_end : pool Z * world :=
  run_schedule (mjoin (replicate 9 [1; 0; 2]%nat)) (programs plain_config drop_race) (sampled_start 100).

Definition rtt_config : config :=
  mk_config 0 0 1 0 0 (replicate 8 0) 0 0 0 0 0 0 0 0 0.
Definition timed (us : Z) : tcp_sock := mk_tcp_sock us.
