(* ===== verification/Correctness.v ===== *)
(** * Correctness of the programs

    The theorems that state what the programs guarantee, each with an example
    at a concrete input.  They are assembled from the lemmas of the components;
    nothing depends on them. *)
From stdpp Require Import relations.
From S2P Require Import Prelude Machine Types Kernel Maps Safety RefKernel PacketUtils Frames.
From S2P Require Import Filter Tls Dns Quic Flows Ssl Concurrency Programs Accounting Samples.

(** ** The flow monitor *)

Section Monitor.
Context {H : Host} {K : Kernel} {KL : KernelLaws K}.

(** C1. The monitor, run on any packet, under any configuration and from any
    well-formed state, makes no invalid memory access, ends, and lets the
    packet pass.  Afterwards the maps are well-formed again and the packet was
    disposed of in one way.  The flows are untouched if the random draw of the
    sampling left it out, if it was not parsable, or if the filter rejects it.
    In all other cases it was accounted to the flow of its parsed header, the
    other flows untouched: an existing flow was updated, a missing one was
    created, or, if the map refused it, sent through the ring buffer; it remains
    unaccounted only if the map refused the new flow and the ring buffer was
    full or is not enabled. *)
Theorem monitor_correct cpu cfg skb direction w :
  world_wf w -> typed w -> wf_skb skb -> is_u32 (sampling cfg) -> is_u8 direction ->
  ∃ w', run cpu (flow_monitor cfg skb direction) w = (Some TC_ACT_OK, w') /\
    monitor_outcome cpu cfg skb direction w w' /\ world_wf w' /\ typed w'.
Proof.
  intros Hw Ht Hskb Hc Hd.
  destruct (wp_flow_monitor_run cpu cfg skb direction w) as (w' & Hr & Ho); [done..|].
  destruct (run_safe cpu _ _ w (flow_monitor_safe cfg skb direction Hskb Hc Hd) Ht)
    as (_ & _ & _ & Ht').
  pose proof (run_wf cpu (flow_monitor cfg skb direction) w Hw) as Hw'.
  rewrite Hr in Ht', Hw'. by exists w'.
Qed.

(** The hooks: the program, the direction it reports and its verdict. *)
Definition hooks cfg skb : list (prog Z * Z * Z) :=
  [(tc_ingress_flow_parse cfg skb, INGRESS, TC_ACT_OK);
   (tc_egress_flow_parse cfg skb, EGRESS, TC_ACT_OK);
   (tcx_ingress_flow_parse cfg skb, INGRESS, TCX_NEXT);
   (tcx_egress_flow_parse cfg skb, EGRESS, TCX_NEXT);
   (netkit_primary_flow_parse cfg skb, EGRESS, NETKIT_NEXT);
   (netkit_peer_flow_parse cfg skb, INGRESS, NETKIT_NEXT)].

(** C2. Each hook hands the packet to the monitor with the direction of its
    attachment point, and always answers with the verdict that lets the packet
    go on: the agent never drops traffic. *)
Theorem hooks_pass cpu cfg skb w p direction verdict :
  world_wf w -> typed w -> wf_skb skb -> is_u32 (sampling cfg) ->
  (p, direction, verdict) ∈ hooks cfg skb ->
  ∃ w', run cpu p w = (Some verdict, w') /\ monitor_outcome cpu cfg skb direction w w'.
Proof.
  intros Hw Ht Hskb Hc Hin.
  assert (Hmon : ∀ d, is_u8 d -> ∃ w', run cpu (flow_monitor cfg skb d) w = (Some TC_ACT_OK, w') /\
    monitor_outcome cpu cfg skb d w w').
  { intros d Hd. apply wp_flow_monitor_run; done. }
  assert (H0 : is_u8 INGRESS) by done. assert (H1 : is_u8 EGRESS) by done.
  destruct (Hmon _ H0) as (wi & Hi & Oi), (Hmon _ H1) as (we & He & Oe).
  assert (Hthen : ∀ d (v : Z) w', run cpu (flow_monitor cfg skb d) w = (Some TC_ACT_OK, w') ->
    run cpu (flow_monitor cfg skb d ≫= λ _, mret v) w = (Some v, w'))
    by (intros d v w' Hr; by rewrite run_bind, Hr).
  unfold hooks in Hin. repeat setoid_rewrite elem_of_cons in Hin.
  destruct Hin as [E|[E|[E|[E|[E|[E|Hn]]]]]]; [simplify_eq..|by apply not_elem_of_nil in Hn].
  - by exists wi.
  - by exists we.
  - exists wi. split; [by apply Hthen|done].
  - exists we. split; [by apply Hthen|done].
  - exists we. split; [by apply Hthen|done].
  - exists wi. split; [by apply Hthen|done].
Qed.
End Monitor.

(** A packet of a new flow: the flow exists afterwards and has counted it. *)
Lemma monitor_correct_witness :
  let w' := (run 0 (flow_monitor plain_config (syn_packet 3) INGRESS) (start 100)).2 in
  monitor_outcome 0 plain_config (syn_packet 3) INGRESS (start 100) w' /\
  world_wf w' /\ typed w' /\ fm_packets <$> elem 0 aggregated_flows w' syn_flow = Some 1.
Proof.
  destruct (monitor_correct 0 plain_config (syn_packet 3) INGRESS (start 100))
    as (w' & Hr & Ho & Hw & Ht).
  - apply start_wf.
  - apply start_typed.
  - by apply syn_packet_wf.
  - done.
  - done.
  - rewrite Hr. cbn [snd]. do 3 (split; [done|]).
    apply (f_equal snd) in Hr. cbn [snd] in Hr. subst w'. by vm_compute.
Defined.

Lemma hooks_pass_witness :
  ∃ w', run 1 (tcx_egress_flow_parse plain_config (syn_packet 3)) (start 100)
          = (Some TCX_NEXT, w') /\
    monitor_outcome 1 plain_config (syn_packet 3) EGRESS (start 100) w'.
Proof.
  apply (hooks_pass 1 plain_config (syn_packet 3) (start 100)
    (tcx_egress_flow_parse plain_config (syn_packet 3)) EGRESS TCX_NEXT).
  - apply start_wf.
  - apply start_typed.
  - by apply syn_packet_wf.
  - done.
  - do 3 apply list_elem_of_further. apply list_elem_of_here.
Defined.

(** ** Several CPUs *)

Section Interleaved.
Context {H : Host} {K : Kernel} {KL : KernelLaws K}.

(** C3. No update is lost between CPUs: when the monitors of some packets have
    all ended, whatever the interleaving and whatever other programs of the
    agent run meanwhile, each flow counts the packets and the bytes that were
    seen on its first interface, once each, modulo the widths of the counters.
    This includes the race of several CPUs to create the flow.  (No sampling and
    no filter, room in the flow map, and no eviction meanwhile.) *)
Theorem no_update_lost cfg l w ps w' id f :
  flows_room -> unsampled cfg -> typed w -> world_wf w -> Forall wf_program l.*2 ->
  rtc pool_step (programs cfg l, w) (ps, w') -> ended ps ->
  the_flow w' id = Some f ->
  let old g := default 0 (g <$> the_flow w id) in
  let ifx := fm_if_index_first_seen f in
  fm_packets f = u32 (old fm_packets + flow_packets id ifx (arrivals l)) /\
  fm_bytes f = u64 (old fm_bytes + flow_bytes id ifx (arrivals l)).
Proof.
  intros Hroom Hc Ht Hw Hl Hs He Hf old ifx. rewrite <- total_packets, <- total_bytes.
  split; [by apply (programs_tally (T := packets_tally) cfg id ifx l w ps w' f)
    |by apply (programs_tally (T := bytes_tally) cfg id ifx l w ps w' f)].
Qed.

(** C4. No packet is lost when the flow map is full: the agent then sends the
    packet to its reader through the ring buffer, and whatever the interleaving
    of the monitors and of any other programs of the agent, the map and the ring
    buffer account together for every packet of a flow and for its bytes,
    exactly once, also when the map has room for some of the packets only, or
    again after a refusal.  (The flow is counted on its first interface [ifx];
    no sampling and no filter, and the ring buffer takes records if the map may
    refuse flows.) *)
Theorem no_packet_lost cfg l w ps w' id ifx :
  kept cfg -> unsampled cfg -> typed w -> world_wf w -> Forall wf_program l.*2 ->
  rtc pool_step (programs cfg l, w) (ps, w') -> ended ps -> fits id ifx w' ->
  u32 (packets_balance id ifx w') = u32 (packets_balance id ifx w + flow_packets id ifx (arrivals l)) /\
  u64 (bytes_balance id ifx w') = u64 (bytes_balance id ifx w + flow_bytes id ifx (arrivals l)).
Proof.
  intros Hk Hc Ht Hw Hl Hs He Hf. rewrite <- total_packets, <- total_bytes.
  split; [by apply (programs_balance (T := packets_tally) cfg id ifx l w ps w')
    |by apply (programs_balance (T := bytes_tally) cfg id ifx l w ps w')].
Qed.
End Interleaved.

(** Two packets of a new flow, on two CPUs and at two hooks, step by step in
    turn: both find no flow, the second one loses the race to create it. *)
Definition race : list arrival :=
  [mk_arrival 0 INGRESS (syn_packet 3); mk_arrival 1 EGRESS (syn_packet 3)].

Definition race_flow : flow_metrics := default zeroed (the_flow race_end.2 syn_flow).

Lemma no_update_lost_witness :
  fm_packets race_flow = u32 (0 + flow_packets syn_flow 3 race) /\
  fm_bytes race_flow = u64 (0 + flow_bytes syn_flow 3 race).
Proof.
  apply (no_update_lost plain_config racers (start 100) race_end.1 race_end.2 syn_flow race_flow).
  - intros idx id s. by exists [].
  - by vm_compute.
  - apply start_typed.
  - apply start_wf.
  - apply racers_wf.
  - rewrite <- surjective_pairing. apply run_schedule_steps.
  - vm_compute. repeat constructor; by eexists.
  - by vm_compute.
Defined.

Example race_counts : fm_packets race_flow = 2 /\ fm_bytes race_flow = 108.
Proof. by vm_compute. Qed.

Lemma no_packet_lost_witness :
  length (w_ring crowded_end.2 direct_flows) = 2%nat /\
  u32 (packets_balance syn_flow 3 crowded_end.2) = u32 (0 + flow_packets syn_flow 3 race) /\
  u64 (bytes_balance syn_flow 3 crowded_end.2) = u64 (0 + flow_bytes syn_flow 3 race).
Proof.
  split; [by vm_compute|].
  apply (no_packet_lost direct_config racers crowded_start crowded_end.1 crowded_end.2 syn_flow 3).
  - right. by split.
  - by vm_compute.
  - apply init_world_typed.
  - apply init_world_wf.
  - apply racers_wf.
  - rewrite <- surjective_pairing. apply run_schedule_steps.
  - vm_compute. repeat constructor; by eexists.
  - intros f. vm_compute. discriminate.
Defined.

(** ** Parsing *)

Section Parsing.
Context {H : Host}.

(** C11. Round trip: from the bytes of a well-formed Ethernet frame (IPv4
    without options or IPv6 without extension headers; TCP, UDP, SCTP, ICMP or
    ICMPv6), whatever its payload, the parser
    recovers the flow key, the TCP flag, the DSCP, the EtherType and the
    position of the L4 header, on hosts of either byte order. *)
Theorem parse_frame f :
  wf_frame f ->
  fill_ethhdr (frame_bytes f) 0 (Z.of_nat (length (frame_bytes f))) zeroed 0
  = Some (SUBMIT, frame_info f, ip_ethertype (f_ip f)).
Proof. apply fill_ethhdr_frame. Qed.

(** C16. On arbitrary bytes the parser never reads outside the packet, and it
    accepts exactly the packets with a whole Ethernet and a whole IPv4 or IPv6
    header; the flow key it fills in is well-formed, and if it sets the L4
    pointer, a whole L4 header of that protocol lies behind it. *)
Theorem parse_any d ts :
  Forall is_u8 d -> is_u64 ts ->
  ∃ r pkt e,
    fill_ethhdr d 0 (Z.of_nat (length d)) (zeroed <| pi_current_ts := ts |>) 0
      = Some (r, pkt, e) /\
    r = (if parsable d then SUBMIT else DISCARD) /\
    wf_flow_id (pi_id pkt) /\ is_u16 (pi_flags pkt) /\ 0 <= pi_dscp pkt < 64 /\
    l4_ok d pkt /\ pi_current_ts pkt = ts.
Proof.
  intros Hd Hts.
  destruct (fill_ethhdr_ok d (zeroed <| pi_current_ts := ts |>))
    as (r & pkt & e & Hfill & [Hid Hfl Hds Hl4] & He & Hr & _); [done|..].
  { split; [exact (wf_value_zero ipsec_ingress_map)|].
    split; [exact zero_u16|]. split; [cbn; lia|done]. }
  pose proof (proj1 (fill_ethhdr_keeps _ _ _ _ _ _ _ _ Hfill)).
  exists r, pkt, e.
  splits; try done; apply Hds.
Qed.
End Parsing.

Lemma parse_frame_witness :
  fill_ethhdr (frame_bytes syn_frame) 0 (Z.of_nat (length (frame_bytes syn_frame))) zeroed 0
  = Some (SUBMIT, frame_info syn_frame, ETH_P_IP).
Proof.
  apply (parse_frame syn_frame). unfold wf_frame. split_and!; try done; [decide_u8s| |].
  - cbn. unfold is_bytes. split_and!; try done; decide_u8s.
  - cbn. unfold is_bytes. split_and!; try done; decide_u8s.
Defined.

(** A runt: an IPv4 EtherType but only half an IP header. *)
Definition runt : list Z := macs ++ [8; 0] ++ replicate 10 69.

Lemma parse_any_witness :
  ∃ r pkt e,
    fill_ethhdr runt 0 (Z.of_nat (length runt)) (zeroed <| pi_current_ts := 7 |>) 0
      = Some (r, pkt, e) /\
    r = (if parsable runt then SUBMIT else DISCARD) /\
    wf_flow_id (pi_id pkt) /\ is_u16 (pi_flags pkt) /\ 0 <= pi_dscp pkt < 64 /\
    l4_ok runt pkt /\ pi_current_ts pkt = 7.
Proof. apply (parse_any runt 7); [decide_u8s|done]. Defined.

Example runt_discarded : parsable runt = false.
Proof. done. Qed.

(** ** Filtering *)

(** The checks of a filter rule decide the specification of a match: the
    protocol, the three port conditions, the TCP flags, the ICMP type and code,
    the direction and the drops, each a wildcard when unset. *)
Lemma rule_check_correct rule id flags drop_reason direction result :
  is_Some (check_rule rule id flags drop_reason direction result) <->
  rule_matches rule id flags drop_reason direction.
Proof.
  pose proof (check_rule_decides rule id flags drop_reason direction result) as Hd.
  destruct (check_rule _ _ _ _ _ _) as [n|]; cbn in Hd.
  - split; [tauto|by eexists].
  - split; [by intros []|tauto].
Qed.

Section Filtering.
Context {H : Host} {K : Kernel} {KL : KernelLaws K}.

(** C13. The filter of the programs is the abstract filter: the verdict and the
    sampling are those that the outcomes of the source lookup and of the
    destination lookup combine to, and the only effect is one increment of the
    counter of the decision, on this CPU. *)
Theorem filter_correct cpu cfg id flags drop_reason eth_protocol sampling direction w :
  world_wf w -> ip_protocol_type eth_protocol -> wf_flow_id id ->
  is_filter_enabled cfg = true ->
  let side src := side_of cpu w id src eth_protocol flags drop_reason direction in
  let '(skip, counter, sampling') := filter_decision (side true) (side false) sampling in
  ∃ w',
    run cpu (check_and_apply_filter cfg id flags drop_reason eth_protocol sampling direction) w
      = (Some (skip, sampling'), w') /\
    counted cpu counter w w'.
Proof.
  intros Hw Hip Hid Hen side.
  destruct (filter_decision (side true) (side false) sampling) as [[skip counter] s] eqn:Ed.
  pose proof (wp_check_and_apply_filter cpu cfg id flags drop_reason eth_protocol sampling
    direction (λ r w', r = (skip, s) /\ counted cpu counter w w') w Hw Hip Hid Hen) as Hwp.
  cbv zeta in Hwp. fold (side true) (side false) in Hwp. rewrite Ed in Hwp.
  destruct (wp_run _ _ _ _ (Hwp ltac:(done))) as (r & Hr & -> & Hc). by eexists.
Qed.
End Filtering.

(** (Divergence.) A rule that lists one port also lets the packets of port 0
    through: the unused entries of the list are 0 and are compared as well. *)
Lemma unset_port_matches_zero rule id :
  fv_dstPort1 rule <> 0 -> fv_dstPort2 rule = 0 -> fid_dst_port id = 0 ->
  dst_port_condition rule id /\
  (∀ result, is_Some (check_ports (fv_dstPortStart rule) (fv_dstPortEnd rule)
     (fv_dstPort1 rule) (fv_dstPort2 rule)
     ((fv_dstPortStart rule =? fid_dst_port id) || (fv_dstPort1 rule =? fid_dst_port id)
      || (fv_dstPort2 rule =? fid_dst_port id))
     ((fv_dstPortStart rule <=? fid_dst_port id) && (fid_dst_port id <=? fv_dstPortEnd rule))
     result)).
Proof.
  intros H1 H2 H0. assert (Hc : dst_port_condition rule id).
  { unfold dst_port_condition, port_condition. rewrite decide_True by tauto.
    exists 0. rewrite H0, H2. split; [apply list_elem_of_here|].
    do 2 apply list_elem_of_further. apply list_elem_of_here. }
  split; [done|]. intros result.
  pose proof (check_ports_decides (fv_dstPortStart rule) (fv_dstPortEnd rule) (fv_dstPort1 rule)
    (fv_dstPort2 rule) _ _ [fid_dst_port id] result (ports1_listed _ _ _ _) (ports1_inside _ _ _))
    as Hd.
  destruct (check_ports _ _ _ _ _ _ _); [by eexists|]. by apply Hd in Hc.
Qed.

(** (Divergence.) IPv4 and IPv6 rules share one trie: an IPv4 packet also
    matches an IPv6 rule whose prefix of at most 32 bits begins with the bytes
    of the IPv4 address. *)
Lemma ipv4_key_covered_by_ipv6_rule id prefix_len ip6 :
  wf_flow_id id -> 0 <= prefix_len <= 32 -> is_bytes 16 ip6 ->
  take 4 ip6 = drop 12 (fid_src_ip id) ->
  covers (mk_filter_key_t prefix_len ip6) (lookup_key id true ETH_P_IP).
Proof.
  intros ([Hl _] & _) Hp [H6 _] He. unfold covers, lookup_key.
  change (ETH_P_IP =? ETH_P_IP) with true. cbv iota. cbn [fk_prefix_len fk_ip_data].
  split; [lia|]. rewrite <- (take_drop 4 ip6), He.
  assert (Hb : length (addr_bits (drop 12 (fid_src_ip id))) = 32%nat).
  { apply (addr_bits_length _ 4). rewrite length_drop. lia. }
  rewrite !addr_bits_app, !take_app_le by lia. done.
Qed.

Definition web_rule : filter_value_t :=
  zeroed <| fv_dstPort1 := 443 |> <| fv_direction := MAX_DIRECTION |>.

(** A rule for all of 10/8, in the filter trie of a world. *)
Definition filter_world (rule : filter_value_t) : world :=
  upd_map filter_map
    (cell_new (empty_store filter_map)
       (mk_filter_key_t 8 ([10] ++ zero_bytes 15) : key filter_map) 0
       (rule : value filter_map) []) (start 100).

Lemma filter_world_wf rule : world_wf (filter_world rule).
Proof. apply upd_map_wf; [apply start_wf| |done]. apply cell_new_wf, empty_store_wf. Qed.

Lemma filter_correct_witness :
  ∃ w', run 0 (check_and_apply_filter filter_config syn_flow SYN_FLAG 0 ETH_P_IP (Some 1) EGRESS)
          (filter_world web_rule) = (Some (false, Some 1), w') /\
    counted 0 FILTER_ACCEPT (filter_world web_rule) w'.
Proof.
  refine (filter_correct 0 filter_config syn_flow SYN_FLAG 0 ETH_P_IP (Some 1) EGRESS
    (filter_world web_rule) _ _ _ _).
  - apply filter_world_wf.
  - apply list_elem_of_here.
  - unfold wf_flow_id, is_bytes. split_and!; try done; decide_u8s.
  - done.
Defined.

Lemma unset_port_matches_zero_witness :
  dst_port_condition web_rule (zeroed : flow_id) /\
  (∀ result, is_Some (check_ports 0 0 443 0 true true result)).
Proof. refine (unset_port_matches_zero web_rule zeroed _ _ _); done. Defined.

(** 32.1.13.184 is taken for 2001:db8::/32. *)
Definition odd_flow : flow_id := zeroed <| fid_src_ip := ip4in6 ++ [32; 1; 13; 184] |>.

Lemma ipv4_key_covered_by_ipv6_rule_witness :
  covers (mk_filter_key_t 32 ([32; 1; 13; 184] ++ zero_bytes 12)) (lookup_key odd_flow true ETH_P_IP).
Proof.
  apply (ipv4_key_covered_by_ipv6_rule odd_flow 32).
  - unfold wf_flow_id, is_bytes. split_and!; try done; decide_u8s.
  - lia.
  - split; [done|decide_u8s].
  - done.
Defined.

(** ** Accounting a packet *)

(** C19. Recording another interface of a flow: the array never overflows, an
    interface is recorded at most once and only when there is room, which the
    result says; its direction becomes [BOTH] when it is seen in the other
    direction too, and the other interfaces and their directions stay. *)
Theorem observed_interfaces v if_index direction :
  wf_flow_metrics v -> is_u32 if_index -> if_index <> 0 ->
  if_index <> fm_if_index_first_seen v -> is_u8 direction ->
  let '(full, v') := add_observed_intf v if_index direction in
  wf_flow_metrics v' /\
  (if MAX_OBSERVED_INTERFACES <=? fm_nb_observed_intf v
   then full = 1 /\ v' = v
   else full = 0 /\
     observed_intfs v' = (if decide (if_index ∈ observed_intfs v) then observed_intfs v
                          else observed_intfs v ++ [if_index]) /\
     (∀ s, recorded v if_index s -> recorded v' if_index (merge_direction s direction)) /\
     (if_index ∉ observed_intfs v -> recorded v' if_index direction) /\
     (∀ x d, x <> if_index -> recorded v' x d <-> recorded v x d)).
Proof.
  intros Hv Hi H0 Hf Hd.
  pose proof (add_observed_intf_directions v if_index direction Hv) as Hdir.
  destruct (add_observed_intf_spec v if_index direction) as (v' & E & Hv' & Ho & _); [done..|].
  rewrite E in *. cbn [snd] in Hdir. split; [done|].
  destruct (MAX_OBSERVED_INTERFACES <=? fm_nb_observed_intf v) eqn:En; bool_to_prop.
  - split; [done|]. unfold add_observed_intf in E.
    rewrite (proj2 (Z.leb_le _ _)) in E by done. congruence.
  - by split_and!; [..|apply Hdir|apply Hdir|apply Hdir].
Qed.

(** C18. The update of an existing flow under its lock keeps every field within
    its type, counts the packet and its bytes exactly when it is seen on the
    first interface of the flow (modulo the widths of the counters), ors in its
    flags, moves the end time, and never changes the start or the first
    interface. *)
Theorem locked_update pkt len sampling if_index direction tls f :
  wf_flow_metrics f -> wf_pkt pkt -> is_u32 sampling -> is_u32 if_index -> is_u8 direction ->
  wf_tls_info tls ->
  let f' := (update_locked pkt len sampling if_index direction tls f).1 in
  let here := fm_if_index_first_seen f =? if_index in
  wf_flow_metrics f' /\
  fm_packets f' = (if here then u32 (fm_packets f + 1) else fm_packets f) /\
  fm_bytes f' = (if here then u64 (fm_bytes f + len) else fm_bytes f) /\
  fm_end_mono_time_ts f' =
    (if here || negb (if_index =? 0) then pi_current_ts pkt else fm_end_mono_time_ts f) /\
  fm_flags f' =
    (if here || negb (if_index =? 0) then Z.lor (fm_flags f) (pi_flags pkt) else fm_flags f) /\
  fm_if_index_first_seen f' = fm_if_index_first_seen f /\
  fm_start_mono_time_ts f' = fm_start_mono_time_ts f.
Proof.
  intros Hf Hp Hs Hi Hd Ht f' here.
  pose proof (update_locked_counts pkt len sampling if_index direction tls f Hf Hp Hi Hd Ht)
    as (? & ? & ? & ? & ? & ? & _).
  split; [by apply update_locked_ok|done].
Qed.

Section Accounted.
Context {H : Host} {K : Kernel} {KL : KernelLaws K}.

(** C17. The accounting of a packet always ends in exactly one way: an existing
    flow is updated (and a full interface list counted), a new flow is
    created, or, when the map refuses it, the flow goes out whole through the
    ring buffer with the errno, is lost if that is full as well, or is counted
    as a failure if the ring buffer is disabled.  The last three happen only
    when the kernel refuses the element, and the loss only when it also refuses
    the record. *)
Theorem account_flow_correct cpu cfg skb pkt eth_protocol s direction tls w :
  world_wf w -> sizeof_ethhdr <= Z.of_nat (length (skb_data skb)) ->
  ∃ b w',
    run cpu (account_flow cfg skb pkt eth_protocol (skb_len skb) s direction tls) w
      = (Some b, w') /\
    accounted cpu cfg (pi_id pkt)
      (update_locked pkt (skb_len skb) s (skb_ifindex skb) direction tls)
      (first_flow skb pkt eth_protocol s direction tls) w w' b.
Proof.
  intros Hw Hl.
  destruct (wp_run _ _ _ _ (wp_account_flow cpu cfg skb pkt eth_protocol s direction tls
    (λ b w', accounted cpu cfg (pi_id pkt)
      (update_locked pkt (skb_len skb) s (skb_ifindex skb) direction tls)
      (first_flow skb pkt eth_protocol s direction tls) w w' b) w Hw Hl (λ b w' Ha, Ha)))
    as (b & Hr & Ha). by eexists _, _.
Qed.

(** C20. Sampling: with a rate above 1 a packet is kept exactly when the rate
    divides the next random number, with any other rate always; the decision
    is published in [do_sampling] for the other hooks, and nothing else
    changes. *)
Theorem sampling_correct cpu rate w :
  let '(x, st) := k_prandom (w_kst w) in
  let keep := if 1 <? rate then x mod rate =? 0 else true in
  ∃ w', run cpu (sample rate) w = (Some keep, w') /\
    w_do_sampling w' = (if keep then 1 else 0) /\ same_store w w' /\
    w_kst w' = (if 1 <? rate then st else w_kst w).
Proof.
  destruct (k_prandom (w_kst w)) as [x st] eqn:E. unfold sample, sampled_out.
  rewrite run_bind. destruct (1 <? rate).
  - cbn. rewrite E. cbn. destruct (x mod rate =? 0); cbn; by eexists.
  - cbn. by eexists.
Qed.
End Accounted.

(** A flow on its first interface, 3, that was also seen on 7 when coming in. *)
Definition seen_flow : flow_metrics :=
  zeroed <| fm_if_index_first_seen := 3 |> <| fm_nb_observed_intf := 1 |>
    <| fm_observed_intf := [7; 0; 0; 0; 0; 0] |> <| fm_packets := 5 |>
    <| fm_bytes := 400 |> <| fm_direction_first_seen := INGRESS |>.

Lemma seen_flow_wf : wf_flow_metrics seen_flow.
Proof.
  pose proof (wf_value_zero aggregated_flows) as Hz. destruct Hz.
  split; try assumption; try (by apply (bool_decide_unpack _)).
Qed.

Lemma observed_interfaces_witness :
  let v' := (add_observed_intf seen_flow 7 EGRESS).2 in
  wf_flow_metrics v' /\ 0 = 0 /\ observed_intfs v' = [7] /\
  (∀ s, recorded seen_flow 7 s -> recorded v' 7 (merge_direction s EGRESS)) /\
  (7 ∉ observed_intfs seen_flow -> recorded v' 7 EGRESS) /\
  (∀ x d, x <> 7 -> recorded v' x d <-> recorded seen_flow x d).
Proof.
  refine (observed_interfaces seen_flow 7 EGRESS _ _ _ _ _); try done. apply seen_flow_wf.
Defined.

Definition sample_pkt : pkt_info :=
  (frame_info syn_frame) <| pi_current_ts := 200 |>.

Lemma sample_pkt_wf : wf_pkt sample_pkt.
Proof.
  split; try (by vm_compute).
  unfold wf_flow_id, is_bytes. split_and!; try done; decide_u8s.
Qed.

Lemma locked_update_witness :
  let f' := (update_locked sample_pkt 54 1 3 INGRESS zeroed seen_flow).1 in
  wf_flow_metrics f' /\ fm_packets f' = 6 /\ fm_bytes f' = 454 /\
  fm_end_mono_time_ts f' = 200 /\ fm_flags f' = SYN_FLAG /\
  fm_if_index_first_seen f' = 3 /\ fm_start_mono_time_ts f' = 0.
Proof.
  refine (locked_update sample_pkt 54 1 3 INGRESS zeroed seen_flow _ _ _ _ _ _); try done.
  - apply seen_flow_wf.
  - apply sample_pkt_wf.
Defined.

(** The same packet of a new flow on a kernel whose maps are full and on one
    with room: the first sends the flow out whole, with the errno, and the second
    one creates it. *)
Lemma account_flow_correct_witness :
  (∃ w',
    run 0 (account_flow ring_config (syn_packet 3) sample_pkt ETH_P_IP 54 1 INGRESS zeroed)
      (@init_world false true 100) = (Some true, w') /\
    accounted 0 ring_config syn_flow (update_locked sample_pkt 54 1 3 INGRESS zeroed)
      (first_flow (syn_packet 3) sample_pkt ETH_P_IP 1 INGRESS zeroed)
      (@init_world false true 100) w' true /\
    w_ring w' direct_flows = [Committed (mk_flow_record syn_flow
      ((first_flow (syn_packet 3) sample_pkt ETH_P_IP 1 INGRESS zeroed) <| fm_errno := ENOMEM |>))]) /\
  (∃ w',
    run 0 (account_flow ring_config (syn_packet 3) sample_pkt ETH_P_IP 54 1 INGRESS zeroed)
      (start 100) = (Some true, w') /\
    elem 0 aggregated_flows w' syn_flow
      = Some (first_flow (syn_packet 3) sample_pkt ETH_P_IP 1 INGRESS zeroed)).
Proof.
  split.
  - destruct (account_flow_correct (K := RefKernel false true) (KL := RefKernelLaws false true)
      0 ring_config (syn_packet 3) sample_pkt ETH_P_IP 1 INGRESS zeroed (init_world 100))
      as (b & w' & Hr & Ha); [apply init_world_wf|done|].
    assert (b = true) as -> by (apply (f_equal fst) in Hr; vm_compute in Hr; congruence).
    exists w'. split; [done|]. split; [done|].
    apply (f_equal snd) in Hr. cbn [snd] in Hr. subst w'. by vm_compute.
  - destruct (account_flow_correct (K := roomy) (KL := roomy_laws)
      0 ring_config (syn_packet 3) sample_pkt ETH_P_IP 1 INGRESS zeroed (start 100))
      as (b & w' & Hr & Ha); [apply start_wf|done|].
    assert (b = true) as -> by (apply (f_equal fst) in Hr; vm_compute in Hr; congruence).
    exists w'. split; [done|].
    inversion Ha as [f ? Hf|Hn Hu|e Hn He|e|e ? Hn He]; subst.
    + by vm_compute in Hf.
    + apply Hu.
    + by destruct (roomy_map_accepts _ _ _ _ _ _ He).
    + by destruct (roomy_map_accepts _ _ _ _ _ _ He).
Defined.

(** ** DNS *)

Section Dns.
Context {H : Host} {K : Kernel} {KL : KernelLaws K}.

(** C32. A DNS query followed by its response, on any CPUs and with anything in
    between that leaves [dns_flows] alone: the query is remembered unless the
    map refuses it, and if it was, the response finds it, removes it, and reports the transaction id, the flags,
    the raw question name, and a latency that is the time between the two
    messages, with no wrap-around. *)
Theorem dns_query_response cpu cfg skb pkt off i flags w :
  world_wf w -> typed w -> wf_skb skb ->
  dns_message cfg skb pkt = Some (off, i, flags) -> is_query flags = true ->
  elem cpu dns_flows w (fill_dns_id (pi_id pkt) zeroed i false) = None ->
  ∃ r w1, run cpu (track_dns_packet cfg skb pkt) w = (Some (r, pkt), w1) /\
    -4096 < r <= 0 /\
    (r = 0 \/ map_refuses dns_flows (fill_dns_id (pi_id pkt) zeroed i false) r w w1) /\
    (r = 0 -> ∀ cpu' skb' pkt' off' flags' w2,
       world_wf w2 -> typed w2 -> w_map w2 dns_flows = w_map w1 dns_flows ->
       clock w1 <= clock w2 -> wf_skb skb' -> pi_id pkt' = reverse_id (pi_id pkt) ->
       dns_message cfg skb' pkt' = Some (off', i, flags') -> is_query flags' = false ->
       ∃ latency buf w3,
         run cpu' (track_dns_packet cfg skb' pkt') w2 =
           (Some (0, pkt' <| pi_dns_latency := latency |> <| pi_dns_id := i |>
                          <| pi_dns_flags := flags' |> <| pi_dns_name := Some buf |>), w3) /\
         clock w2 - clock w1 <= latency <= clock w3 - clock w /\
         elem cpu' dns_flows w3 (fill_dns_id (pi_id pkt) zeroed i false) = None /\
         elem_at cpu' dns_name_map w3 (0 : key dns_name_map) buf (raw_name skb' off')).
Proof.
  intros Hw Ht Hskb Hm Hq Hk.
  rewrite (track_dns_packet_message _ _ _ _ _ _ Hskb Hm).
  set (k := fill_dns_id (pi_id pkt) zeroed i false) in *.
  assert (Hwp : wp cpu (track_dns_message skb pkt 0 off i flags)
    (λ r w1, r.2 = pkt /\ -4096 < r.1 <= 0 /\ (r.1 = 0 \/ map_refuses dns_flows k r.1 w w1) /\
       (r.1 = 0 -> ∃ ts, is_u64 ts /\
       elem cpu dns_flows w1 k = Some ts /\ clock w <= ts <= clock w1)) w).
  { apply wp_dns_query; [done..| |]; cbn [fst snd].
    - intros ts w' He Hts Hc _. split; [done|]. split; [lia|]. split; [by left|]. intros _. by exists ts.
    - intros e w' _ He. pose proof (map_refuses_errno _ _ _ _ _ He).
      split; [done|]. split; [lia|]. split; [by right|lia]. }
  apply wp_run in Hwp as ([r pkt1] & Hr & Heq & Hrange & Hroom & Hts). cbn [fst snd] in *. subst pkt1.
  exists r, (run cpu (track_dns_message skb pkt 0 off i flags) w).2.
  split; [done|]. split; [done|]. split; [done|].
  intros Hr0 cpu' skb' pkt' off' flags' w2 Hw2 Ht2 Hsame Hc2 Hskb' Hid Hm' Hq'.
  destruct (Hts Hr0) as (ts & Hts64 & He & Hc1).
  rewrite (track_dns_packet_message _ _ _ _ _ _ Hskb' Hm').
  assert (Hk2 : elem cpu' dns_flows w2 (fill_dns_id (pi_id pkt') zeroed i true) = Some ts).
  { rewrite Hid, fill_dns_id_reverse. fold k.
    rewrite <- He. exact (elem_ext cpu' dns_flows _ w2 k Hsame). }
  assert (Hwp : wp cpu' (track_dns_message skb' pkt' 0 off' i flags')
    (λ r w3, ∃ latency buf, r = (0, pkt' <| pi_dns_latency := latency |> <| pi_dns_id := i |>
                          <| pi_dns_flags := flags' |> <| pi_dns_name := Some buf |>) /\
       clock w2 - ts <= latency <= clock w3 - ts /\
       elem cpu' dns_flows w3 k = None /\
       elem_at cpu' dns_name_map w3 (0 : key dns_name_map) buf (raw_name skb' off')) w2).
  { eapply wp_dns_response; [done..|]. intros t buf w' Ht' Ht64 Hgone Hn. exists (t - ts), buf.
    rewrite u64_small by (width; lia). split; [done|]. split; [lia|].
    rewrite Hid, fill_dns_id_reverse in Hgone. done. }
  apply wp_run in Hwp as (r2 & Hr2 & latency & buf & -> & Hl & Hgone & Hn).
  exists latency, buf, (run cpu' (track_dns_message skb' pkt' 0 off' i flags') w2).2.
  split; [done|]. split; [lia|done].
Qed.

(** (Bug.) The UDP length that the DNS tracker reads is kept in 8 bits: a
    message is given up exactly when its UDP length is below 8 modulo 256, so
    a response of 256 to 263 bytes is, and the limit of 512 bytes never
    applies. *)
Lemma dns_udp_length_truncated d pkt l4 b :
  fid_transport_protocol (pi_id pkt) = IPPROTO_UDP -> pi_l4_hdr pkt = Some l4 ->
  slice d l4 sizeof_udphdr = Some b ->
  calc_dns_header_offset d pkt =
    Some (if bpf_ntohs (uh_len (decode_udphdr b)) mod 256 <? 8 then 0 else 8).
Proof.
  intros Hp Hl Hb. unfold calc_dns_header_offset. rewrite Hp, Hl, Hb.
  change (IPPROTO_UDP =? IPPROTO_TCP) with false.
  change (IPPROTO_UDP =? IPPROTO_UDP) with true. cbv iota.
  rewrite (proj2 (Z.ltb_ge _ _)) by (pose proof (slice_inside _ _ _ _ Hb); lia).
  cbn [fmap option_fmap option_map mbind option_bind].
  set (n := bpf_ntohs _). change (u8 n) with (n mod 256).
  pose proof (Z.mod_pos_bound n 256 ltac:(lia)).
  destruct (n mod 256 <? 8) eqn:E; bool_to_prop; unfold u64, UDP_MAXMSG, sizeof_udphdr.
  - replace ((n mod 256 - 8) mod 2 ^ 64) with (n mod 256 - 8 + 2 ^ 64)
      by (apply Z.mod_unique with (-1); change (2 ^ 64) with 18446744073709551616; lia).
    by rewrite (proj2 (Z.ltb_lt _ _)) by (change (2 ^ 64) with 18446744073709551616; lia).
  - rewrite Z.mod_small by (change (2 ^ 64) with 18446744073709551616; lia).
    by rewrite (proj2 (Z.ltb_ge _ _)) by lia.
Qed.
End Dns.

(** A query for example.org and its answer, transaction 0x1234. *)
Definition qname : list Z :=
  [7; 101; 120; 97; 109; 112; 108; 101; 3; 111; 114; 103; 0; 0; 1; 0; 1] ++ zero_bytes 16.
Definition dns_bytes (flags : Z) : list Z := net16 0x1234 ++ net16 flags ++ zero_bytes 8 ++ qname.
Definition query_frame : frame := frame_of host_a host_b (udp 40000 53 53) (dns_bytes 0x0100).
Definition answer_frame : frame := frame_of host_b host_a (udp 53 40000 53) (dns_bytes 0x8180).

Lemma query_wf : wf_skb (skb_of 3 query_frame).
Proof. unfold wf_skb. split_and!; try done; decide_u8s. Qed.

Definition queried : world :=
  (run 0 (track_dns_packet tracking_config (skb_of 3 query_frame) (frame_info query_frame))
     (start 100)).2.

Lemma answer_wf : wf_skb (skb_of 3 answer_frame).
Proof. unfold wf_skb. split_and!; try done; decide_u8s. Qed.

Lemma queried_ok : world_wf queried /\ typed queried.
Proof.
  eapply run_keeps; [apply track_dns_packet_safe|apply start_wf|apply start_typed].
  - apply query_wf.
  - unfold wf_dns_info. cbn. auto with width.
  - intros off [= <-]. by vm_compute.
Qed.

(** The whole exchange, the query at time 100 on one CPU and the answer at time
    101 on another. *)
Lemma dns_query_response_witness :
  ∃ latency buf w3,
    run 1 (track_dns_packet tracking_config (skb_of 3 answer_frame) (frame_info answer_frame)) queried =
      (Some (0, (frame_info answer_frame) <| pi_dns_latency := latency |> <| pi_dns_id := 0x1234 |>
                  <| pi_dns_flags := 0x8180 |> <| pi_dns_name := Some buf |>), w3) /\
    clock queried - clock queried <= latency <= clock w3 - clock (start 100) /\
    elem 1 dns_flows w3 (fill_dns_id (frame_id query_frame) zeroed 0x1234 false) = None /\
    elem_at 1 dns_name_map w3 (0 : key dns_name_map) buf (raw_name (skb_of 3 answer_frame) 42).
Proof.
  destruct (dns_query_response 0 tracking_config (skb_of 3 query_frame) (frame_info query_frame)
    42 0x1234 0x0100 (start 100)) as (r & w1 & Hr & _ & Hroom & Hans).
  - apply start_wf.
  - apply start_typed.
  - apply query_wf.
  - by vm_compute.
  - done.
  - by vm_compute.
  - assert (w1 = queried) as -> by (unfold queried; by rewrite Hr).
    assert (r = 0) as -> by (destruct Hroom as [->|He]; [done|by destruct (roomy_map_accepts _ _ _ _ _ _ He)]).
    refine (Hans eq_refl 1 _ (frame_info answer_frame) 42 0x8180 queried _ _ _ _ answer_wf _ _ _).
    + apply queried_ok.
    + apply queried_ok.
    + done.
    + lia.
    + by vm_compute.
    + by vm_compute.
    + done.
Defined.

(** An answer of 260 bytes of UDP. *)
Definition long_answer : frame :=
  frame_of host_b host_a (udp 53 40000 260) (dns_bytes 0x8180 ++ zero_bytes 207).

Lemma dns_udp_length_truncated_witness :
  calc_dns_header_offset (frame_bytes long_answer) (frame_info long_answer) = Some 0.
Proof.
  refine (dns_udp_length_truncated (frame_bytes long_answer) (frame_info long_answer) 34
    (take 8 (drop 34 (frame_bytes long_answer))) _ _ _); done.
Defined.

(** ** TLS *)

Section Tls.
Context {H : Host} {K : Kernel} {KL : KernelLaws K}.

(** C33. A ClientHello that offers versions in an extension: the tracker finds
    the extension among the first 30, and reports the best of the first five
    versions.  The sizes of the other parts of the message are arbitrary. *)
Theorem tls_client_hello cfg skb l4 flags h es es' vs off :
  carries_handshake cfg skb l4 flags 0x01 (client_hello_bytes h) off ->
  length (he_random h) = 32%nat ->
  he_extensions h = es ++ (EXT_SUPPORTED_VERSIONS, versions_data vs) :: es' ->
  Forall (λ e : extension, e.1 <> EXT_SUPPORTED_VERSIONS) es -> (length es < 30)%nat ->
  Z.of_nat (length (extensions_bytes (he_extensions h))) < 2 ^ 16 ->
  track_tls cfg skb IPPROTO_TCP (Some l4) flags zeroed =
    Some (TLSTRACKER_MATCHED,
      zeroed <| tls_type := TLSTRACKER_BF_CLIENT_HELLO |>
             <| tls_hello_version := best_version vs |>).
Proof.
  intros Hc Hr He Hes Hn Hlen.
  destruct (track_tls_hello _ _ _ _ _ _ _ zeroed Hc) as (Ha & -> & _); [|done].
  f_equal. by apply (client_hello_versions skb _ h es es' vs); [apply Hc|..].
Qed.

(** C34. A ServerHello with both extensions, in any order: the tracker reports
    the negotiated version, the cipher suite and the key share group. *)
Theorem tls_server_hello cfg skb l4 flags h cipher compression e1 e2 e3 v g (swap : bool) off :
  carries_handshake cfg skb l4 flags 0x02 (server_hello_bytes h cipher compression) off ->
  length (he_random h) = 32%nat -> Forall has_field (he_extensions h) ->
  Z.of_nat (length (extensions_bytes (he_extensions h))) < 2 ^ 16 ->
  (length (he_extensions h) <= 30)%nat ->
  Forall unread e1 -> Forall unread e2 ->
  let x := (EXT_SUPPORTED_VERSIONS, v) in let y := (EXT_KEY_SHARE, g) in
  he_extensions h = e1 ++ (if swap then y else x) :: e2 ++ (if swap then x else y) :: e3 ->
  track_tls cfg skb IPPROTO_TCP (Some l4) flags zeroed =
    Some (TLSTRACKER_MATCHED, mk_tls_info (field16 v) cipher (field16 g) TLSTRACKER_BF_SERVER_HELLO).
Proof.
  intros Hc Hr Hf Hlen Hn H1 H2 x y He.
  destruct (track_tls_hello _ _ _ _ _ _ _ zeroed Hc) as (Ha & _ & ->); [|done].
  rewrite (server_hello_scan skb _ h cipher compression) by (done || apply Hc).
  rewrite take_ge, He by done. subst x y. cbv zeta.
  pose proof (scan_both e1 e2 e3 v g swap (zeroed <| tls_type := TLSTRACKER_BF_SERVER_HELLO |>
    <| tls_cipher_suite := cipher |>) H1 H2) as E. cbv zeta in E. by rewrite E.
Qed.

(** (Bug.) A TLS 1.3 ServerHello with a version but no key share, as in a
    PSK-only resumption: the version is read, but the loop then waits for the
    key share and the legacy version 1.2 overwrites it. *)
Lemma tls_version_lost cfg skb l4 flags h cipher compression e1 e2 v off :
  carries_handshake cfg skb l4 flags 0x02 (server_hello_bytes h cipher compression) off ->
  length (he_random h) = 32%nat -> Forall has_field (he_extensions h) ->
  Z.of_nat (length (extensions_bytes (he_extensions h))) < 2 ^ 16 ->
  (length (he_extensions h) <= 30)%nat ->
  Forall unread e1 -> Forall unread e2 ->
  he_extensions h = e1 ++ (EXT_SUPPORTED_VERSIONS, v) :: e2 ->
  track_tls cfg skb IPPROTO_TCP (Some l4) flags zeroed =
    Some (TLSTRACKER_MATCHED, mk_tls_info 0x0303 cipher 0 TLSTRACKER_BF_SERVER_HELLO).
Proof.
  intros Hc Hr Hf Hlen Hn H1 H2 He.
  destruct (track_tls_hello _ _ _ _ _ _ _ zeroed Hc) as (Ha & _ & ->); [|done].
  rewrite (server_hello_scan skb _ h cipher compression) by (done || apply Hc).
  by rewrite take_ge, He, scan_no_key_share by done.
Qed.
End Tls.

Definition client_hello : hello :=
  mk_hello (replicate 32 9) (replicate 32 8) [0x13; 1; 0x13; 2] [0]
    [(0, [0; 3; 97; 98; 99]); (EXT_SUPPORTED_VERSIONS, versions_data [0x1a1a; 0x0304; 0x0303]);
     (EXT_KEY_SHARE, [0; 2; 0; 29])].
Definition server_hello (exts : list extension) : hello :=
  mk_hello (replicate 32 9) (replicate 32 8) [] [] exts.

Definition tls_frame (type : Z) (body : list Z) : frame :=
  frame_of host_a host_b (tcp 40000 443 ack_bits)
    (handshake_record 0x0303 (Z.of_nat (length body)) type [0; 0; 0] body).

Lemma tls_frame_carries type body :
  wf_skb (skb_of 3 (tls_frame type body)) ->
  tcp_payload (skb_of 3 (tls_frame type body)) 34 = Some 54 ->
  carries_handshake tracking_config (skb_of 3 (tls_frame type body)) 34 ACK_FLAG type body 54.
Proof.
  intros Hw Hp. unfold carries_handshake. split_and!; try done.
  exists 0x0303, (Z.of_nat (length body)), [0; 0; 0]. split_and!; try done.
  unfold at_off, skb_of. cbn [skb_bytes].
  set (r := handshake_record _ _ _ _ _).
  assert (E : frame_bytes (tls_frame type body) = take 54 (frame_bytes (tls_frame type body)) ++ r ++ [])
    by (by rewrite app_nil_r).
  rewrite E. by apply slice_mid.
Qed.

Lemma client_hello_carried :
  carries_handshake tracking_config (skb_of 3 (tls_frame 0x01 (client_hello_bytes client_hello)))
    34 ACK_FLAG 0x01 (client_hello_bytes client_hello) 54.
Proof.
  apply tls_frame_carries; [|by vm_compute]. unfold wf_skb. split_and!; try done; decide_u8s.
Qed.

Lemma tls_client_hello_witness :
  track_tls tracking_config (skb_of 3 (tls_frame 0x01 (client_hello_bytes client_hello)))
    IPPROTO_TCP (Some 34) ACK_FLAG zeroed =
  Some (TLSTRACKER_MATCHED,
    zeroed <| tls_type := TLSTRACKER_BF_CLIENT_HELLO |> <| tls_hello_version := 0x0304 |>).
Proof.
  refine (tls_client_hello tracking_config _ 34 ACK_FLAG client_hello [(0, [0; 3; 97; 98; 99])]
    [(EXT_KEY_SHARE, [0; 2; 0; 29])] [0x1a1a; 0x0304; 0x0303] 54 client_hello_carried _ _ _ _ _).
  - done.
  - done.
  - by repeat constructor.
  - cbn. lia.
  - done.
Defined.

Definition both_exts : list extension :=
  [(EXT_KEY_SHARE, [0; 29; 0; 0]); (EXT_SUPPORTED_VERSIONS, [3; 4])].
Definition psk_exts : list extension := [(EXT_SUPPORTED_VERSIONS, [3; 4]); (0x0029, [0; 0])].

Lemma both_carried :
  carries_handshake tracking_config
    (skb_of 3 (tls_frame 0x02 (server_hello_bytes (server_hello both_exts) 0x1301 0)))
    34 ACK_FLAG 0x02 (server_hello_bytes (server_hello both_exts) 0x1301 0) 54.
Proof.
  apply tls_frame_carries; [|by vm_compute]. unfold wf_skb. split_and!; try done; decide_u8s.
Qed.
Lemma psk_carried :
  carries_handshake tracking_config
    (skb_of 3 (tls_frame 0x02 (server_hello_bytes (server_hello psk_exts) 0x1301 0)))
    34 ACK_FLAG 0x02 (server_hello_bytes (server_hello psk_exts) 0x1301 0) 54.
Proof.
  apply tls_frame_carries; [|by vm_compute]. unfold wf_skb. split_and!; try done; decide_u8s.
Qed.

Lemma tls_server_hello_witness :
  track_tls tracking_config
    (skb_of 3 (tls_frame 0x02 (server_hello_bytes (server_hello both_exts) 0x1301 0)))
    IPPROTO_TCP (Some 34) ACK_FLAG zeroed =
  Some (TLSTRACKER_MATCHED, mk_tls_info 0x0304 0x1301 29 TLSTRACKER_BF_SERVER_HELLO).
Proof.
  refine (tls_server_hello tracking_config _ 34 ACK_FLAG (server_hello both_exts) 0x1301 0
    [] [] [] [3; 4] [0; 29; 0; 0] true 54 both_carried _ _ _ _ _ _ _).
  - done.
  - repeat constructor; cbn; lia.
  - done.
  - cbn. lia.
  - constructor.
  - constructor.
  - done.
Defined.

Lemma tls_version_lost_witness :
  track_tls tracking_config
    (skb_of 3 (tls_frame 0x02 (server_hello_bytes (server_hello psk_exts) 0x1301 0)))
    IPPROTO_TCP (Some 34) ACK_FLAG zeroed =
  Some (TLSTRACKER_MATCHED, mk_tls_info 0x0303 0x1301 0 TLSTRACKER_BF_SERVER_HELLO).
Proof.
  refine (tls_version_lost tracking_config _ 34 ACK_FLAG (server_hello psk_exts) 0x1301 0
    [] [(0x0029, [0; 0])] [3; 4] 54 psk_carried _ _ _ _ _ _ _).
  - done.
  - repeat constructor; cbn; lia.
  - done.
  - cbn. lia.
  - constructor.
  - by repeat constructor.
  - done.
Defined.

(** ** QUIC *)

Section Quic.
Context {H : Host} {K : Kernel} {KL : KernelLaws K}.

(** C35. What a packet does to the QUIC metrics of its flow on this CPU: nothing
    unless it carries QUIC, that is unless its UDP payload, on port 443 unless
    any port is tracked, has at least 21 bytes and begins with the
    version-independent header of RFC 8999, read byte by byte; else the element
    of the flow records the time, the kind of header and, for a long header with
    a version, the version, and keeps the rest; a missing element is created,
    and is still missing only if the map refused it.  Nothing else changes and
    the packet is never held up. *)
Theorem quic_tracking cpu cfg skb pkt eth_protocol w :
  world_wf w -> wf_skb skb -> l4_ok (skb_data skb) pkt ->
  ∃ w', run cpu (track_quic_packet cfg skb pkt eth_protocol) w = (Some 0, w') /\
    quic_effect cpu cfg skb pkt eth_protocol w w'.
Proof.
  intros Hw Hskb Hl4.
  assert (Hwp : wp cpu (track_quic_packet cfg skb pkt eth_protocol)
    (λ r w', r = 0 /\ quic_effect cpu cfg skb pkt eth_protocol w w') w) by by apply wp_track_quic.
  apply wp_run in Hwp as (r & Hr & -> & Hp). by eexists.
Qed.
End Quic.

Definition initial_header : long_header := mk_long_header 0xc3 1 (replicate 8 5) [].
Definition quic_frame : frame :=
  frame_of host_a host_b (udp 50000 443 38) (long_header_bytes initial_header ++ replicate 15 0).

Lemma quic_wf : wf_skb (skb_of 3 quic_frame).
Proof. unfold wf_skb. split_and!; try done; decide_u8s. Qed.

Lemma quic_long_header_read :
  parse_quic_header (skb_of 3 quic_frame) 42 30 0 = (QUIC_HEADER_TYPE_LONG, 1).
Proof.
  apply (parse_long_header (skb_of 3 quic_frame) 42 30 0 initial_header (replicate 15 0)).
  - apply quic_wf.
  - by vm_compute.
  - unfold wf_long_header. cbn. split_and!; try done; lia.
  - cbn. lia.
Defined.

(** The initial packet of a connection: the flow has an element afterwards, that
    of a long header of version 1. *)
Lemma quic_tracking_witness :
  let pkt := frame_info quic_frame in
  ∃ w', run 0 (track_quic_packet tracking_config (skb_of 3 quic_frame) pkt ETH_P_IP) (start 100)
      = (Some 0, w') /\
    quic_effect 0 tracking_config (skb_of 3 quic_frame) pkt ETH_P_IP (start 100) w' /\
    elem 0 quic_flows w' (pi_id pkt) = Some (mk_quic_metrics 0 0 1 ETH_P_IP 1 0).
Proof.
  destruct (quic_tracking 0 tracking_config (skb_of 3 quic_frame) (frame_info quic_frame) ETH_P_IP
    (start 100)) as (w' & Hr & He).
  - apply start_wf.
  - apply quic_wf.
  - intros off [= <-]. by vm_compute.
  - exists w'. split; [done|]. split; [done|].
    apply (f_equal snd) in Hr. cbn [snd] in Hr. subst w'. by vm_compute.
Defined.

Example quic_frame_header :
  quic_packet tracking_config (skb_of 3 quic_frame) (frame_info quic_frame) QUIC_HEADER_TYPE_LONG 1.
Proof.
  split; [done|by left|]. exists 34, (take 8 (drop 34 (frame_bytes quic_frame))).
  split; [done|]. split; [done|]. split; [by vm_compute|].
  apply parse_quic_header_found; [apply quic_wf|by vm_compute|done|by vm_compute].
Qed.
