(* ===== verification/HookCorrectness.v ===== *)
(** * Correctness of the other programs

    The theorems about the tracing hooks, the packet capture and the TLS probes,
    and about the programs of the agent taken together, each with an example at
    a concrete input.  Nothing depends on them. *)
From stdpp Require Import relations.
From S2P Require Import Prelude Machine Types Kernel Maps Safety RefKernel PacketUtils Frames.
From S2P Require Import Metrics CoreFill Filter Hooks Drops Rtt NetEvents Xlat Ipsec.
From S2P Require Import Tls Dns Quic Flows Capture Ssl SslBinding Concurrency Programs Rings PerCpu.
From S2P Require Import Accounting Samples.

(** ** Packets seen in kernel buffers *)

Section SameKey.
Context {H : Host} {K : Kernel} {KL : KernelLaws K}.

(** C14. A packet without IPv4 options and IPv6 extension headers has one flow
    key.  The tracing hooks rebuild the key from the kernel's buffer with probe
    reads, the TC hooks parse the linear data; on every such well-formed frame
    (TCP, UDP, SCTP, ICMP or ICMPv6) the two independent parsers agree on the
    key, the TCP flags and the EtherType, so that what a hook adds lands on the
    flow that the monitor accounts.  (With IPv4 options they disagree:
    [ip_options_split_key].) *)
Theorem hooks_agree_on_key skb f :
  wf_frame f -> holds_frame skb f ->
  ∃ pkt, fill_ethhdr (frame_bytes f) 0 (Z.of_nat (length (frame_bytes f))) zeroed 0
      = Some (SUBMIT, pkt, ip_ethertype (f_ip f)) /\
    core_flow skb = (pi_id pkt, pi_flags pkt, ip_ethertype (f_ip f), frame_family f).
Proof.
  intros Hf Hh. exists (frame_info f). split; [by apply fill_ethhdr_frame|].
  by rewrite (core_flow_frame skb f).
Qed.
End SameKey.

Lemma hooks_agree_on_key_witness :
  ∃ pkt, fill_ethhdr (frame_bytes syn_frame) 0 (Z.of_nat (length (frame_bytes syn_frame))) zeroed 0
      = Some (SUBMIT, pkt, ETH_P_IP) /\
    core_flow syn_buffer = (pi_id pkt, pi_flags pkt, ETH_P_IP, AF_INET).
Proof.
  apply (hooks_agree_on_key syn_buffer syn_frame); [apply syn_frame_wf|apply syn_buffer_holds].
Defined.

(** A SYN from port 40000 to port 443 whose IPv4 header has four bytes of
    options, on the wire and in a kernel buffer, where the stack has set the
    transport header behind the options. *)
Definition optioned_bytes : list Z :=
  macs ++ [8; 0] ++ [0x46; 0; 0; 44; 0; 0; 0; 0; 64; 6; 0; 0] ++ host_a ++ host_b ++ [1; 1; 1; 0]
    ++ l4_bytes (tcp 40000 443 syn_bits).
Definition optioned_buffer : ksk_buff :=
  mk_ksk_buff (zero_bytes 64 ++ optioned_bytes) 64 78 (78 + 24) 3 (Z.of_nat (length optioned_bytes)).

(** (Bug.) The TC parser takes the L4 header to be 20 bytes behind the start of
    the IPv4 header, the tracing hooks take it where the stack has found it.  On
    a packet with IPv4 options the first one reads the options as ports, so that
    the two keys differ and what a hook adds is not found with the flow. *)
Lemma ip_options_split_key :
  wf_ksk_buff optioned_buffer /\
  slice (ks_head optioned_buffer) (ks_mac_header optioned_buffer)
    (Z.of_nat (length optioned_bytes)) = Some optioned_bytes /\
  ∃ pkt id flags,
    fill_ethhdr optioned_bytes 0 (Z.of_nat (length optioned_bytes)) zeroed 0 = Some (SUBMIT, pkt, ETH_P_IP) /\
    core_flow optioned_buffer = (id, flags, ETH_P_IP, AF_INET) /\
    (fid_src_port (pi_id pkt), fid_dst_port (pi_id pkt)) = (257, 256) /\
    (fid_src_port id, fid_dst_port id) = (40000, 443).
Proof.
  split; [split; [decide_u8s|by vm_compute]|]. split; [by vm_compute|].
  eexists _, _, _. split; [vm_compute; reflexivity|]. split; [vm_compute; reflexivity|]. done.
Qed.

(** ** Packet drops *)

Section DropHook.
Context {H : Host} {K : Kernel} {KL : KernelLaws K}.



(** C24. A drop is recorded whatever the other CPUs do meanwhile: when every
    packet is sampled, a drop that the filter lets through leaves this CPU's copy
    of the metrics updated exactly once, or the element created, with any
    programs of the agent interleaved on other CPUs, also when one of them
    creates the element of the flow in the middle of the hook.  It is lost only
    if the map refuses a new element, at a moment of the run when it has none of
    the flow; that another CPU was faster is no such refusal. *)
Theorem drop_recorded_among_others cpu cfg args f others w ps w' r :
  world_wf w -> typed w -> samples_all cfg -> holds_frame (ka_skb args) f -> wf_frame f ->
  records_drop w args ->
  filter_rejects cpu cfg w (frame_id f) (frame_flags f) (ka_reason args) (ip_ethertype (f_ip f)) 0
    = false ->
  Forall (λ t, t.1 <> cpu) others ->
  rtc pool_step (programs cfg ((cpu, DropProbe args) :: others), w) (ps, w') ->
  ps !! 0%nat = Some (cpu, Ret r) ->
  drop_recorded_apart cpu f args w w' r.
Proof.
  intros Hw Ht Hs Hh Hf Hd Hrej Ho Hst Hr.
  destruct (pool_steps_alone cpu 0 (λ r w', drop_recorded_apart cpu f args w w' r) _ _
    (upserted_apart_stable cpu aggregated_flows_pkt_drop eq_refl _ _ _ w) Hst)
    as (_ & (p & Hp & Hl) & _).
  - split; [done|]. split.
    + eexists. split; [reflexivity|]. by apply lwp_kfree_skb.
    + intros j cpu' p Hj. unfold programs in Hj. apply list_lookup_fmap_Some in Hj as (t & [= -> ->] & Hj).
      split; [by apply program_tame|]. destruct j as [|j]; [done|]. intros _.
      apply (Forall_lookup_1 _ _ _ _ Ho Hj).
  - cbn in Hp. rewrite Hr in Hp. by injection Hp as <-.
Qed.
End DropHook.




Lemma drop_recorded_among_others_witness :
  drop_recorded_apart 1 syn_frame syn_drop (sampled_start 100) drop_race_end.2 0 /\
  pd_packets (copy 0 aggregated_flows_pkt_drop drop_race_end.2 syn_flow) = 1 /\
  pd_packets (copy 1 aggregated_flows_pkt_drop drop_race_end.2 syn_flow) = 1.
Proof.
  split; [|split; vm_compute; reflexivity].
  apply (drop_recorded_among_others 1 plain_config syn_drop syn_frame
    [(0, DropProbe syn_drop); (2, FlowMonitor INGRESS (syn_packet 3))] (sampled_start 100)
    drop_race_end.1).
  - apply sampled_start_wf.
  - apply sampled_start_typed.
  - by split.
  - apply syn_buffer_holds.
  - apply syn_frame_wf.
  - split; [by vm_compute|]. split; [done|]. apply (bool_decide_unpack _). by vm_compute.
  - reflexivity.
  - by repeat constructor.
  - rewrite <- surjective_pairing. apply run_schedule_steps.
  - vm_compute. reflexivity.
Defined.

(** ** Round-trip times *)

Section RttHook.
Context {H : Host} {K : Kernel} {KL : KernelLaws K}.

(** The RTT recorded for a flow is the largest one of its segments: after
    any sequence of received segments of a flow that has an element, it is the
    maximum of the old value and the times of the sockets. *)
Lemma rtt_is_maximum cpu cfg f (l : list (tcp_sock * ksk_buff)) w v :
  world_wf w -> typed w -> wf_frame f -> is_filter_enabled cfg = false ->
  Forall (λ x, holds_frame x.2 f /\ records_rtt w cfg (x.2) f) l ->
  elem cpu additional_flow_metrics w (frame_id f) = Some v ->
  ∃ v', elem cpu additional_flow_metrics
      (run_all cpu ((λ x, tcp_rcv_fentry cfg (Some x.1) (Some x.2)) <$> l) w) (frame_id f)
      = Some v' /\
    am_flow_rtt v' = foldl Z.max (am_flow_rtt v) (rtt_ns ∘ fst <$> l).
Proof. apply rtts_maximum. Qed.
End RttHook.

Definition timed_once : @world roomy :=
  (run 0 (tcp_rcv_fentry rtt_config (Some (timed 800)) (Some syn_buffer)) (sampled_start 100)).2.
Lemma timed_once_ok : world_wf timed_once /\ typed timed_once.
Proof.
  apply (run_keeps 0 (λ _, True)); [|apply sampled_start_wf|apply sampled_start_typed].
  apply tcp_rcv_safe. intros b [= <-]. apply syn_buffer_holds.
Qed.

Lemma timed_once_rtt :
  ∃ v, elem 0 additional_flow_metrics timed_once syn_flow = Some v /\ am_flow_rtt v = 100000.
Proof.
  assert (E : am_flow_rtt <$> elem 0 additional_flow_metrics timed_once syn_flow = Some 100000)
    by by vm_compute.
  apply fmap_Some in E as (v & Hv & Hr). exists v. exact (conj Hv (eq_sym Hr)).
Qed.

Lemma rtt_is_maximum_witness :
  ∃ v', elem 0 additional_flow_metrics
      (run_all 0 ((λ x, tcp_rcv_fentry rtt_config (Some x.1) (Some x.2)) <$>
         [(timed 1600, syn_buffer); (timed 400, syn_buffer)]) timed_once) syn_flow = Some v' /\
    am_flow_rtt v' = 200000.
Proof.
  destruct timed_once_rtt as (v & Hv & Hr).
  replace 200000 with (foldl Z.max (am_flow_rtt v)
    (rtt_ns ∘ fst <$> [(timed 1600, syn_buffer); (timed 400, syn_buffer)]))
    by (rewrite Hr; reflexivity).
  apply (rtt_is_maximum 0 rtt_config syn_frame [(timed 1600, syn_buffer); (timed 400, syn_buffer)]
    timed_once v).
  - apply timed_once_ok.
  - apply timed_once_ok.
  - apply syn_frame_wf.
  - done.
  - assert (Hd : records_rtt timed_once rtt_config syn_buffer syn_frame).
    { split; [by vm_compute|]. split; [done|]. split; [|done].
      apply (bool_decide_unpack _). by vm_compute. }
    do 2 (constructor; [split; [apply syn_buffer_holds|exact Hd]|]). constructor.
  - exact Hv.
Defined.

(** ** Network events *)

Section EventHook.
Context {H : Host} {K : Kernel} {KL : KernelLaws K}.




End EventHook.

Definition cookie_a : list Z := [1; 2; 3; 4; 5; 6; 7; 8].




(** ** Address translation *)

Section NatHook.
Context {H : Host} {K : Kernel} {KL : KernelLaws K}.

(** C27. A translated connection is recorded with both of its faces: under the
    key that its packets had before any translation, taken from the original
    tuple, the metrics hold the end points of the reply tuple the other way
    round, that is, what the packets look like after the translation.  With the
    tracking on, the flows sampled and no filter, every call leaves such an
    element, for a packet without IP options or extension headers; it leaves
    none only if there was none and the map refused it, which the result
    tells. *)
Theorem translation_is_recorded cpu cfg skb f src dst sport dport pad rsrc rdst rsport rdport rpad
    zone_id w :
  world_wf w -> typed w -> holds_frame skb f -> wf_frame f -> records_xlat w cfg ->
  is_filter_enabled cfg = false ->
  let family := frame_family f in
  wf_addr family src pad -> wf_addr family dst pad -> is_u16 sport -> is_u16 dport ->
  wf_addr family rsrc rpad -> wf_addr family rdst rpad -> is_u16 rsport -> is_u16 rdport ->
  let ct := mk_nf_conn (tuple_between src dst sport dport pad)
              (tuple_between rsrc rdst rsport rdport rpad) zone_id in
  let key := connection_id (frame_id f) family src dst sport dport in
  ∃ r w', run cpu (track_nat_manip_pkt cfg ct skb) w = (Some r, w') /\
    ((r = 0 /\ ∃ v,
        elem cpu aggregated_flows_xlat w' key = Some v /\
        xm_saddr v = mapped_addr family rdst /\ xm_daddr v = mapped_addr family rsrc /\
        (is_transport_protocol (l4_proto (f_l4 f)) = true ->
           xm_sport v = rdport /\ xm_dport v = rsport) /\
        xm_zone_id v = zone_id) \/
     (elem cpu aggregated_flows_xlat w key = None /\ elem cpu aggregated_flows_xlat w' key = None /\
      map_refuses aggregated_flows_xlat key r w w')).
Proof.
  intros Hw Ht Hh Hf Hrec Hen family Hs Hd Hsp Hdp Hrs Hrd Hrsp Hrdp ct key.
  assert (Ep : fid_transport_protocol (frame_id f) = l4_proto (f_l4 f)) by (unfold frame_id; by destruct (f_l4 f)).
  assert (Hset : ∀ m, let v := parse_tuple (ct_reply ct) zone_id family
      (fid_transport_protocol (frame_id f)) true m in
    xm_saddr v = mapped_addr family rdst /\ xm_daddr v = mapped_addr family rsrc /\
       (is_transport_protocol (l4_proto (f_l4 f)) = true ->
          xm_sport v = rdport /\ xm_dport v = rsport) /\ xm_zone_id v = zone_id).
  { intros m. rewrite Ep. cbn [ct_reply ct]. rewrite parse_tuple_between by done. unfold set_endpoints.
    by destruct (is_transport_protocol _). }
  assert (Hwp : wp cpu (track_nat_manip_pkt cfg ct skb) (λ r w',
    (r = 0 /\ ∃ v, elem cpu aggregated_flows_xlat w' key = Some v /\
       xm_saddr v = mapped_addr family rdst /\ xm_daddr v = mapped_addr family rsrc /\
       (is_transport_protocol (l4_proto (f_l4 f)) = true ->
          xm_sport v = rdport /\ xm_dport v = rsport) /\
       xm_zone_id v = zone_id) \/
     (elem cpu aggregated_flows_xlat w key = None /\ elem cpu aggregated_flows_xlat w' key = None /\
      map_refuses aggregated_flows_xlat key r w w')) w).
  { eapply wp_track_nat; [done|done|exact Hh|done|done|]. cbn [ct_original ct_zone_id ct].
    rewrite original_id_between by done. fold key. intros r w' Hk.
    inversion Hk as [E _|w1 r' E [Hfr _] Hup]; subst; [unfold filter_rejects in E; by rewrite Hen in E|].
    inversion Hup as [v ts _ _ _ Hu|ts _ _ _ Hu|e Hn Hu He]; subst.
    - left. split; [done|]. eexists. split; [apply Hu|]. apply Hset.
    - left. split; [done|]. eexists. split; [apply Hu|]. apply Hset.
    - right. assert (Hx : aggregated_flows_xlat ∉ [global_counters]) by by rewrite list_elem_of_singleton.
      rewrite <- (framed_elem _ _ _ _ cpu aggregated_flows_xlat key Hfr) by done.
      split; [done|]. split; [by rewrite (unchanged_elem _ _ _ _ _ Hu)|].
      eapply map_refuses_within; [by rewrite (fr_map _ _ _ _ Hfr)|apply Hfr|done|done|exact He]. }
  apply wp_run in Hwp as (r & Hr & Ho). by eexists r, _.
Qed.
End NatHook.

Definition nat_config : config :=
  mk_config 0 0 0 0 0 (replicate 8 0) 0 0 0 1 0 0 0 0 0.
Definition backend : list Z := [10; 0; 0; 9].

Lemma translation_is_recorded_witness :
  ∃ w', run 0 (track_nat_manip_pkt nat_config
      (mk_nf_conn (tuple_between host_a host_b 40000 443 (zero_bytes 12))
         (tuple_between backend host_a 8443 40000 (zero_bytes 12)) 7) syn_buffer)
      (sampled_start 100) = (Some 0, w') /\
    ∃ v, elem 0 aggregated_flows_xlat w'
         (connection_id syn_flow AF_INET host_a host_b 40000 443) = Some v /\
       xm_saddr v = mapped_addr AF_INET host_a /\ xm_daddr v = mapped_addr AF_INET backend /\
       (is_transport_protocol IPPROTO_TCP = true -> xm_sport v = 40000 /\ xm_dport v = 8443) /\
       xm_zone_id v = 7.
Proof.
  assert (Ha : ∀ l, l = host_a \/ l = host_b \/ l = backend -> wf_addr AF_INET l (zero_bytes 12)).
  { intros l Hl. unfold wf_addr, is_bytes.
    destruct Hl as [->|[->| ->]]; (split; [split; [reflexivity|decide_u8s]|]);
      (split; [split; [reflexivity|decide_u8s]|apply list_elem_of_here]). }
  destruct (translation_is_recorded 0 nat_config syn_buffer syn_frame host_a host_b 40000 443
    (zero_bytes 12) backend host_a 8443 40000 (zero_bytes 12) 7 (sampled_start 100))
    as (r & w' & Hr & Ho).
  - apply sampled_start_wf.
  - apply sampled_start_typed.
  - apply syn_buffer_holds.
  - apply syn_frame_wf.
  - split; discriminate.
  - reflexivity.
  - apply Ha. by left.
  - apply Ha. right. by left.
  - done.
  - done.
  - apply Ha. right. by right.
  - apply Ha. by left.
  - done.
  - done.
  - exists w'. destruct Ho as [[-> Hv]|(_ & _ & He)]; [exact (conj Hr Hv)|].
    by destruct (roomy_map_accepts _ _ _ _ _ _ He).
Defined.

(** ** IPsec *)

Section IpsecHook.
Context {H : Host} {K : Kernel} {KL : KernelLaws K}.

Lemma xfrm_kprobe_writes dir cfg pid_tgid skb :
  writes [global_counters; ipsec_ingress_map; ipsec_egress_map] []
    (xfrm_kprobe dir cfg pid_tgid skb).
Proof.
  assert (Hent : ∀ b d, writes [global_counters; ipsec_ingress_map; ipsec_egress_map] []
    (enter_xfrm_func cfg pid_tgid b d)).
  { intros b d. unfold enter_xfrm_func. destruct (core_flow b) as [[[id flags] e] fam].
    apply writes_bind.
    - eapply writes_mono; [apply check_and_apply_filter_writes| |done].
      intros m Hm. apply list_elem_of_singleton in Hm as ->. apply list_elem_of_here.
    - intros [[] s]; [done|]. apply writes_bind; [|done]. unfold remember_flow.
      case_match; apply writes_call, list_elem_of_further;
      [apply list_elem_of_here|apply list_elem_of_further, list_elem_of_here]. }
  unfold xfrm_kprobe, xfrm_input_kprobe, xfrm_output_kprobe.
  case_match; (apply writes_bind; [done|]); intros s; case_match; try done;
    destruct skb; try done; apply Hent.
Qed.

Lemma ipsec_update_status xfrm_ret e ts v :
  am_ipsec_encrypted (ipsec_update xfrm_ret e ts v) = (xfrm_ret =? 0) /\
  (xfrm_ret <> 0 -> am_ipsec_encrypted_ret (ipsec_update xfrm_ret e ts v) = xfrm_ret).
Proof.
  unfold ipsec_update. destruct (xfrm_ret =? 0) eqn:E; cbn [negb]; bool_to_prop; [by split|].
  cbn [am_ipsec_encrypted set]. by destruct (am_ipsec_encrypted v) eqn:Ev.
Qed.

(** What the status of a transformation leaves in the metrics of its flow. *)
Definition ipsec_marked (xfrm_ret : Z) (v : additional_metrics) : Prop :=
  am_ipsec_encrypted v = (xfrm_ret =? 0) /\
  (xfrm_ret <> 0 -> am_ipsec_encrypted_ret v = xfrm_ret).

(** The probes of a direction only write its map, the counters and the metrics. *)
Lemma ipsec_elem_framed cpu dir pid_tgid w w' :
  framed [global_counters] [] w w' -> ipsec_elem cpu dir w' pid_tgid = ipsec_elem cpu dir w pid_tgid.
Proof.
  intros Hfr. unfold ipsec_elem. case_match.
  - apply (framed_elem _ _ _ _ cpu ipsec_ingress_map _ Hfr). by rewrite list_elem_of_singleton.
  - apply (framed_elem _ _ _ _ cpu ipsec_egress_map _ Hfr). by rewrite list_elem_of_singleton.
Qed.

Lemma ipsec_refuses_framed dir pid_tgid e w w1 w' :
  framed [global_counters] [] w w1 -> ipsec_refuses dir pid_tgid e w1 w' -> ipsec_refuses dir pid_tgid e w w'.
Proof.
  intros Hfr. unfold ipsec_refuses. case_match;
    (apply map_refuses_within; [|apply Hfr|done|done]);
    (rewrite (fr_map _ _ _ _ Hfr); [done|by rewrite list_elem_of_singleton]).
Qed.

(** C28. One transformation, from the entry probe to the return probe of the same
    thread, possibly on another CPU, for a packet (without IP options or
    extension headers) that the filter lets through, with nothing pending for
    the thread.  The entry remembers the flow of the packet as it appears on the
    wire, unless the map of the pending calls refuses it, and then no metrics
    change.  The return marks that flow as encrypted exactly if the
    transformation succeeded, keeps the error code if it did not, and creates
    the metrics of the flow if there are none, unless the map refuses them; and
    it forgets the call. *)
Theorem ipsec_exchange cpu1 cpu2 cfg dir pid_tgid skb f xfrm_ret w :
  world_wf w -> typed w -> holds_frame skb f -> wf_frame f -> ipsec_active w cfg ->
  dir ∈ [INGRESS; EGRESS] ->
  filter_rejects cpu1 cfg w (frame_id f) (frame_flags f) 0 (ip_ethertype (f_ip f)) dir = false ->
  ipsec_elem cpu1 dir w pid_tgid = None ->
  let wire := ipsec_to_wire_flow_id (frame_id f) in
  ∃ w1 w2, run cpu1 (xfrm_kprobe dir cfg pid_tgid (Some skb)) w = (Some 0, w1) /\
    run cpu2 (xfrm_kretprobe dir cfg pid_tgid xfrm_ret) w1 = (Some 0, w2) /\
    ipsec_elem cpu2 dir w2 pid_tgid = None /\
    ((∃ e, ipsec_elem cpu1 dir w1 pid_tgid = None /\ ipsec_refuses dir pid_tgid e w w1 /\
        w_map w2 additional_flow_metrics = w_map w additional_flow_metrics) \/
     (ipsec_elem cpu1 dir w1 pid_tgid = Some wire /\
      ((∃ v, elem cpu2 additional_flow_metrics w2 wire = Some v /\ ipsec_marked xfrm_ret v) \/
       (∃ e, elem cpu2 additional_flow_metrics w2 wire = None /\
          map_refuses additional_flow_metrics wire e w w2)))).
Proof.
  intros Hw Ht Hh Hf Hact Hd Hrej Hnone wire.
  assert (He : wp cpu1 (xfrm_kprobe dir cfg pid_tgid (Some skb)) (λ r w1, r = 0 /\
    w_map w1 additional_flow_metrics = w_map w additional_flow_metrics /\
    ((∃ e, ipsec_elem cpu1 dir w1 pid_tgid = None /\ ipsec_refuses dir pid_tgid e w w1) \/
     ipsec_elem cpu1 dir w1 pid_tgid = Some wire)) w).
  { eapply wp_xfrm_kprobe; [done|done|exact Hh|done|done|done|].
    intros r w1 [E _|w0 r' _ [Hfr _] Hr]; [congruence|].
    pose proof (ipsec_elem_framed cpu1 dir pid_tgid _ _ Hfr) as E0. rewrite Hnone in E0.
    assert (Ea : w_map w0 additional_flow_metrics = w_map w additional_flow_metrics)
      by (apply (fr_map _ _ _ _ Hfr); by rewrite list_elem_of_singleton).
    destruct Hr as [old E _|_ E Em|e E Hu He]; [congruence|..]; (split; [done|]).
    - split; [congruence|]. by right.
    - split; [by rewrite (unch_map _ _ Hu)|]. left. exists e.
      split; [|by eapply ipsec_refuses_framed]. rewrite <- E. unfold ipsec_elem.
      destruct (dir =? INGRESS); [by apply (unchanged_elem _ _ _ ipsec_ingress_map)
        |by apply (unchanged_elem _ _ _ ipsec_egress_map)]. }
  apply wp_run in He as (r1 & Hr1 & -> & Ea & Ho).
  set (w1 := (run cpu1 _ w).2) in *. exists w1.
  assert (Hw1 : world_wf w1) by by apply run_wf.
  assert (Hc1 : clock w <= clock w1) by apply run_clock.
  assert (Hact1 : ipsec_active w1 cfg).
  { destruct Hact as [Hs He]. split; [|done]. unfold w1.
    by rewrite (run_sampling_frame cpu1 _ _ _ w (xfrm_kprobe_writes dir cfg pid_tgid (Some skb))). }
  clearbody w1.
  assert (Hret : wp cpu2 (xfrm_kretprobe dir cfg pid_tgid xfrm_ret)
    (λ r w', (r = 0 /\ ipsec_returned cpu2 pid_tgid xfrm_ret dir w1 w')) w1)
    by (eapply wp_xfrm_kretprobe; done).
  apply wp_run in Hret as (r2 & Hr2 & -> & Hret).
  set (w2 := (run cpu2 _ w1).2) in *. exists w2. clearbody w2.
  split; [exact Hr1|]. split; [exact Hr2|].
  assert (Hcpu : ipsec_elem cpu1 dir w1 pid_tgid = ipsec_elem cpu2 dir w1 pid_tgid) by done.
  rewrite Hcpu in *. destruct Hret as [Hn ->|id w1' r Hid Hup Hadd Hn Hcr _]; (split; [done|]).
  - left. destruct Ho as [(e & _ & He)|E]; [by exists e|congruence].
  - right. destruct Ho as [(e & E & _)|E]; [congruence|]. split; [done|].
    assert (id = wire) as -> by congruence. rewrite (elem_ext cpu2 additional_flow_metrics w1' w2) by done.
    cbv zeta in Hup. destruct Hup as [v0 ts _ _ _ Hu|ts _ _ _ Hu|e Hno Hu He].
    + left. rewrite (upd_elem _ _ _ _ _ _ Hu). eexists. split; [done|]. apply ipsec_update_status.
    + left. rewrite (upd_elem _ _ _ _ _ _ Hu). eexists. by split.
    + right. exists e. rewrite (unchanged_elem _ _ _ _ _ Hu). split; [done|].
      refine (map_refuses_within _ _ _ _ _ _ _ _ _ _ _ He);
        [by rewrite Ea|exact Hc1|by rewrite Hadd|exact Hcr].
Qed.
End IpsecHook.

Definition ipsec_config : config :=
  mk_config 0 0 0 0 0 (replicate 8 0) 0 0 0 0 1 0 0 0 0.

(** A failed transformation of a flow without metrics: they exist afterwards. *)
Lemma ipsec_exchange_witness :
  let wire := ipsec_to_wire_flow_id syn_flow in
  ∃ w1 w2, run 0 (xfrm_kprobe EGRESS ipsec_config 77 (Some syn_buffer)) (sampled_start 100)
      = (Some 0, w1) /\
    run 1 (xfrm_kretprobe EGRESS ipsec_config 77 (-22)) w1 = (Some 0, w2) /\
    ipsec_elem 0 EGRESS w1 77 = Some wire /\ ipsec_elem 1 EGRESS w2 77 = None /\
    ∃ v, elem 1 additional_flow_metrics w2 wire = Some v /\ ipsec_marked (-22) v.
Proof.
  destruct (ipsec_exchange 0 1 ipsec_config EGRESS 77 syn_buffer syn_frame (-22) (sampled_start 100))
    as (w1 & w2 & H1 & H2 & Hn & Ho).
  - apply sampled_start_wf.
  - apply sampled_start_typed.
  - apply syn_buffer_holds.
  - apply syn_frame_wf.
  - split; discriminate.
  - apply list_elem_of_further, list_elem_of_here.
  - reflexivity.
  - reflexivity.
  - exists w1, w2. split; [exact H1|]. split; [exact H2|].
    destruct Ho as [(e & _ & He & _)|(Hid & [Hv|(e & _ & He)])].
    + by destruct (roomy_map_accepts _ _ _ _ _ _ He).
    + exact (conj Hid (conj Hn Hv)).
    + by destruct (roomy_map_accepts _ _ _ _ _ _ He).
Defined.

(** [is_ipv4] looks for a byte 255 anywhere in the address: every
    IPv4-mapped address has one, but so have many IPv6 addresses, and for those
    the return probe records the IPv4 EtherType. *)
Lemma is_ipv4_any_255 ip :
  length ip = 16%nat -> (is_ipv4 ip = true <-> 255 ∈ ip).
Proof.
  intros Hl. unfold is_ipv4. rewrite take_ge by lia. rewrite existsb_exists. split.
  - intros (x & Hx & ->%Z.eqb_eq). by apply list_elem_of_In.
  - intros Hx. exists 255. split; [by apply list_elem_of_In|done].
Qed.

(** A global IPv6 address taken for an IPv4 one. *)
Definition v6_with_255 : list Z := [0x20; 0x01; 0x0d; 0xb8] ++ zero_bytes 11 ++ [255].
Lemma is_ipv4_any_255_witness :
  length v6_with_255 = 16%nat /\ (is_ipv4 v6_with_255 = true <-> 255 ∈ v6_with_255).
Proof. split; [reflexivity|]. apply (is_ipv4_any_255 v6_with_255). reflexivity. Defined.

(** ** Packet capture *)

Section Capturing.
Context {H : Host} {K : Kernel} {KL : KernelLaws K}.

(** The hooks of the capture: the program, its direction and its verdict. *)
Definition capture_hooks cfg skb stale : list (prog Z * Z * Z) :=
  [(tc_ingress_packet_parse cfg skb stale, INGRESS, TC_ACT_OK);
   (tc_egress_packet_parse cfg skb stale, EGRESS, TC_ACT_OK);
   (tcx_ingress_packet_parse cfg skb stale, INGRESS, TCX_NEXT);
   (tcx_egress_packet_parse cfg skb stale, EGRESS, TCX_NEXT);
   (netkit_primary_packet_parse cfg skb stale, EGRESS, NETKIT_NEXT);
   (netkit_peer_packet_parse cfg skb stale, INGRESS, NETKIT_NEXT)].

(** C21. Each capture hook lets the packet go on, and leaves it in one of the
    specified ways: sampled out, not parsable, rejected by the filter, lost
    because the ring buffer is full, or with its first 256 bytes at most appended
    to the ring buffer; nothing but the counters of the filter changes besides. *)
Theorem capture_hooks_correct cpu cfg skb stale w p direction verdict :
  world_wf w -> typed w -> wf_skb skb ->
  (p, direction, verdict) ∈ capture_hooks cfg skb stale ->
  ∃ w', run cpu p w = (Some verdict, w') /\
    capture_outcome cpu cfg skb direction stale w w'.
Proof.
  intros Hw Ht Hskb Hin.
  assert (Hthen : ∀ d (v : Z), ∃ w',
    run cpu (export_packet_payload cfg skb d stale ≫= λ _, mret v) w = (Some v, w') /\
    capture_outcome cpu cfg skb d stale w w').
  { intros d v.
    assert (Hwp : wp cpu (export_packet_payload cfg skb d stale)
      (λ _ w', capture_outcome cpu cfg skb d stale w w') w)
      by (by apply wp_export_packet_payload).
    apply wp_run in Hwp as (r & Hr & Ho). eexists. split; [|exact Ho].
    rewrite run_bind, Hr. by destruct r. }
  unfold capture_hooks in Hin. repeat setoid_rewrite elem_of_cons in Hin.
  destruct Hin as [E|[E|[E|[E|[E|[E|Hn]]]]]]; [simplify_eq; apply Hthen..|].
  by apply not_elem_of_nil in Hn.
Qed.

(** The captured bytes are the whole frame, or the frame with less payload. *)
Lemma captured_frame f n :
  wf_frame f -> 74 <= n <= Z.of_nat (length (frame_bytes f)) \/ n = Z.of_nat (length (frame_bytes f)) ->
  ∃ g, take (Z.to_nat n) (frame_bytes f) = frame_bytes g /\ wf_frame g /\
    frame_info g = frame_info f /\ ip_ethertype (f_ip g) = ip_ethertype (f_ip f).
Proof.
  intros Hf [Hn| ->].
  2: { exists f. rewrite take_ge by lia. done. }
  destruct Hf as ([Hm Hmu] & Hi & Hl & Hp).
  set (hdr := f_macs f ++ net16 (ip_ethertype (f_ip f)) ++ ip_bytes (f_ip f) (l4_proto (f_l4 f))
    ++ l4_bytes (f_l4 f)).
  assert (Hb : ∀ pl, frame_bytes (mk_frame (f_macs f) (f_ip f) (f_l4 f) pl) = hdr ++ pl)
    by (intros; unfold frame_bytes, hdr; cbn [f_macs f_ip f_l4 f_payload]; by rewrite <- !app_assoc).
  assert (Hh : Z.of_nat (length hdr) <= 74).
  { unfold hdr. rewrite !length_app, Hm, !Nat2Z.inj_add, ip_bytes_length, l4_bytes_length by done.
    destruct (f_ip f), (f_l4 f); cbv; discriminate. }
  exists (mk_frame (f_macs f) (f_ip f) (f_l4 f) (take (Z.to_nat n - length hdr) (f_payload f))).
  rewrite Hb. split.
  - destruct f as [ma ip l4 pl]. cbn in *. rewrite Hb, take_app_ge by lia. done.
  - split; [|done]. split; [done|]. split; [done|]. split; [done|]. by apply Forall_take.
Qed.

(** C22. A captured packet tells the same flow as the packet itself: without
    sampling and filter and with room in the ring buffer, the capture of a frame
    without IP options or extension headers appends one sample, whose valid bytes
    are a prefix of the frame, at most 256 bytes long, that the flow monitor's
    parser reads as the same key, flags and DSCP. *)
Theorem capture_keeps_the_flow cpu cfg skb f dir stale w :
  world_wf w -> typed w -> wf_skb skb -> wf_frame f -> skb_bytes skb = frame_bytes f ->
  parsable (skb_data skb) = true -> sampling cfg <= 1 -> is_filter_enabled cfg = false ->
  (∀ st, (k_reserve packet_record st).1 = true) ->
  ∃ w' (d : payload_meta), run cpu (export_packet_payload cfg skb dir stale) w = (Some tt, w') /\
    w_ring w' packet_record = w_ring w packet_record ++ [Committed (d : payload packet_record)] /\
    let captured := take (Z.to_nat (pm_pkt_len d)) (pm_payload d) in
    captured `prefix_of` frame_bytes f /\
    Z.of_nat (length captured) = Z.min (skb_len skb) MAX_PAYLOAD_SIZE /\
    fill_ethhdr captured 0 (Z.of_nat (length captured)) zeroed 0
    = Some (SUBMIT, frame_info f, ip_ethertype (f_ip f)).
Proof.
  intros Hw Ht Hskb Hf Hb Hp Hs Hen Hroom.
  assert (Hwp : wp cpu (export_packet_payload cfg skb dir stale)
    (λ r w', r = tt /\ capture_outcome cpu cfg skb dir stale w w') w)
    by (by apply wp_export_packet_payload).
  apply wp_run in Hwp as (r & Hr & -> & Ho). eexists.
  assert (Hrej : capture_rejected cpu cfg w skb dir = false).
  { unfold capture_rejected.
    destruct (parse_submitted skb 0 Hskb zero_u64) as (r & pkt & e & Hfill & _).
    change (zeroed <| pi_current_ts := 0 |>) with (zeroed : pkt_info) in Hfill. rewrite Hfill.
    unfold filter_rejects. by rewrite Hen. }
  destruct Ho as [Hs' _|Hp' _|_ Hr' _|st _ _ Hf' _|ts _ _ _ Hring _];
    [lia|congruence|congruence|by rewrite Hroom in Hf'|].
  exists (packet_sample skb ts stale). split; [exact Hr|]. split; [exact Hring|].
  destruct Hskb as ([Hl _] & _ & _ & _ & _ & Hlen). cbv zeta. cbn [pm_pkt_len pm_payload packet_sample].
  assert (Hc : 0 <= captured_size skb <= Z.of_nat (length (skb_bytes skb)))
    by (unfold captured_size, MAX_PAYLOAD_SIZE; lia).
  rewrite take_app_le by (rewrite length_take; lia). rewrite take_take, Nat.min_id, Hb.
  rewrite Hb in Hc, Hlen. split; [apply prefix_take|]. split; [rewrite length_take; unfold captured_size in *; lia|].
  destruct (captured_frame f (captured_size skb) Hf) as (g & -> & Hg & Hi & He).
  { unfold captured_size, MAX_PAYLOAD_SIZE in *. lia. }
  rewrite fill_ethhdr_frame, Hi, He by done. done.
Qed.
End Capturing.

Lemma capture_hooks_correct_witness :
  ∃ w', run 0 (netkit_peer_packet_parse plain_config (syn_packet 3) (zero_bytes 256)) (start 100)
      = (Some NETKIT_NEXT, w') /\
    capture_outcome 0 plain_config (syn_packet 3) INGRESS (zero_bytes 256) (start 100) w'.
Proof.
  apply (capture_hooks_correct 0 plain_config (syn_packet 3) (zero_bytes 256) (start 100)
    (netkit_peer_packet_parse plain_config (syn_packet 3) (zero_bytes 256)) INGRESS NETKIT_NEXT).
  - apply start_wf.
  - apply start_typed.
  - by apply syn_packet_wf.
  - do 5 apply list_elem_of_further. apply list_elem_of_here.
Defined.

Lemma capture_keeps_the_flow_witness :
  ∃ w' (d : payload_meta),
    run 0 (export_packet_payload plain_config (syn_packet 3) INGRESS (zero_bytes 256)) (start 100)
      = (Some tt, w') /\
    w_ring w' packet_record = w_ring (start 100) packet_record ++ [Committed (d : payload packet_record)] /\
    let captured := take (Z.to_nat (pm_pkt_len d)) (pm_payload d) in
    captured `prefix_of` frame_bytes syn_frame /\
    Z.of_nat (length captured) = Z.min (skb_len (syn_packet 3)) MAX_PAYLOAD_SIZE /\
    fill_ethhdr captured 0 (Z.of_nat (length captured)) zeroed 0
    = Some (SUBMIT, frame_info syn_frame, ETH_P_IP).
Proof.
  apply (capture_keeps_the_flow 0 plain_config (syn_packet 3) syn_frame INGRESS (zero_bytes 256)
    (start 100)).
  - apply start_wf.
  - apply start_typed.
  - by apply syn_packet_wf.
  - apply syn_frame_wf.
  - reflexivity.
  - vm_compute. reflexivity.
  - discriminate.
  - reflexivity.
  - reflexivity.
Defined.

(** ** TLS data *)

Section TlsProbes.
Context {H : Host} {K : Kernel} {KL : KernelLaws K}.

(** C15. What the maps say about the descriptor of a TLS connection is backed by
    the calls.  After any sequence of calls of the probes (last one first), by
    any threads on any CPUs, from empty maps and whatever the maps evict or
    refuse: if a connection of a process is bound to a descriptor, then a thread
    of the process called [SSL_set_fd] with this connection and descriptor, that
    call returned with success, and since then the connection has neither been
    freed nor been given to [SSL_set_fd] again. *)
Theorem ssl_bindings_backed cpu cfg tr w key fd :
  world_wf w -> typed w -> Forall wf_ssl_op tr.*2 ->
  (∀ key, elem 0 ssl_fd_map w key = None) -> (∀ pid, elem 0 ssl_fd_pending_map w pid = None) ->
  elem cpu ssl_fd_map (run_ssl cfg tr w) key = Some fd ->
  committed cfg tr.*2 key fd.
Proof.
  intros Hw Ht Hops Hb Hp Hfd.
  destruct (run_ssl_trace cfg tr w) as (Htr & _); [done..|].
  destruct (ssl_trace_sound _ _ _ Htr) as [Hs _]. by apply Hs.
Qed.

(** C31. What [SSL_write] sends: with room in the ring buffer, a call with data
    appends one event with the data, the first 16 KiB at most, the connection,
    and, when a descriptor is bound to the connection and names a connected TCP
    socket of the process, the end points of the socket. *)
Theorem ssl_write_delivered cpu cfg user task stale pid_tgid ssl buf parm3 bs w :
  world_wf w -> ssl_room -> enable_openssl_tracking cfg <> 0 -> buf <> 0 -> bs <> [] ->
  u32 parm3 = Z.of_nat (length bs) -> holds_bytes user buf bs ->
  ∃ w', run cpu (probe_entry_SSL_write cfg user task stale pid_tgid ssl buf parm3) w = (Some 0, w') /\
    event_appended task pid_tgid (openssl_ssl_type user ssl) SSL_DIRECTION_WRITE ssl
      (ssl_binding cpu w ssl pid_tgid) bs w w' /\
    ∀ m, w_map w' m = w_map w m.
Proof.
  intros Hw Hroom He Hbuf Hne Hn Hb.
  assert (Hwp : wp cpu (probe_entry_SSL_write cfg user task stale pid_tgid ssl buf parm3)
    (λ r w', r = 0 /\ event_appended task pid_tgid (openssl_ssl_type user ssl) SSL_DIRECTION_WRITE ssl
      (ssl_binding cpu w ssl pid_tgid) bs w w' /\ ∀ m, w_map w' m = w_map w m) w)
    by (by eapply wp_ssl_write).
  apply wp_run in Hwp as (r & Hr & -> & Ho). by eexists.
Qed.

End TlsProbes.

Definition tls_config : config :=
  mk_config 0 0 0 0 0 (replicate 8 0) 0 0 0 0 0 1 0 0 0.
Definition ssl_ptr : Z := 0x5000.
Definition thread : Z := 300 * 2 ^ 32 + 301.
(** A process that has these bytes wherever it is asked. *)
Definition user_with (bs : list Z) (a n : Z) : Z * list Z :=
  (0, take (Z.to_nat n) bs ++ zero_bytes (Z.to_nat n - length bs)).
Definition hello_bytes : list Z := [104; 101; 108; 108; 111].
(** Descriptor 1 is a TCP connection from host a to host b. *)
Definition tcp_task : option fdtable :=
  Some (mk_fdtable 64 [None; Some (mk_file 0xc1ff (Some (mk_socket 1
    (Some (mk_sock AF_INET 40000 0xbb01 host_a host_b (zero_bytes 16) (zero_bytes 16))))))]).
Definition stale_event : ssl_data_event_t := zeroed.

Lemma hello_bytes_held a : holds_bytes (user_with hello_bytes) a hello_bytes.
Proof.
  intros n Hn. unfold user_with.
  replace (Z.to_nat n - length hello_bytes)%nat with 0%nat by lia. by rewrite app_nil_r.
Qed.
Lemma roomy_ssl : @ssl_room roomy.
Proof. split; [intros idx k st; by exists []|done]. Qed.

Lemma ssl_bindings_backed_witness :
  elem 1 ssl_fd_map (run_ssl tls_config [(1, OpSetFdRet thread 1); (0, OpSetFd thread ssl_ptr 1)]
    (start 100)) (ssl_key ssl_ptr thread) = Some 1 /\
  committed tls_config [OpSetFdRet thread 1; OpSetFd thread ssl_ptr 1] (ssl_key ssl_ptr thread) 1.
Proof.
  assert (E : elem 1 ssl_fd_map (run_ssl tls_config [(1, OpSetFdRet thread 1);
    (0, OpSetFd thread ssl_ptr 1)] (start 100)) (ssl_key ssl_ptr thread) = Some 1)
    by (vm_compute; reflexivity).
  split; [exact E|].
  apply (ssl_bindings_backed 1 tls_config [(1, OpSetFdRet thread 1); (0, OpSetFd thread ssl_ptr 1)]
    (start 100)).
  - apply start_wf.
  - apply start_typed.
  - constructor; [by split|]. constructor; [|constructor]. by split.
  - reflexivity.
  - reflexivity.
  - exact E.
Defined.

Lemma ssl_write_delivered_witness :
  ∃ w', run 0 (probe_entry_SSL_write tls_config (user_with hello_bytes) tcp_task stale_event thread
      ssl_ptr 4096 5) (start 100) = (Some 0, w') /\
    event_appended tcp_task thread (openssl_ssl_type (user_with hello_bytes) ssl_ptr)
      SSL_DIRECTION_WRITE ssl_ptr (ssl_binding 0 (start 100) ssl_ptr thread) hello_bytes
      (start 100) w' /\
    ∀ m, w_map w' m = w_map (start 100) m.
Proof.
  apply (ssl_write_delivered 0 tls_config (user_with hello_bytes) tcp_task stale_event thread ssl_ptr
    4096 5 hello_bytes (start 100)).
  - apply start_wf.
  - apply roomy_ssl.
  - discriminate.
  - discriminate.
  - discriminate.
  - reflexivity.
  - apply hello_bytes_held.
Defined.


(** ** All programs together *)

Section Together.
Context {H : Host} {K : Kernel} {KL : KernelLaws K}.

(** C8. Type preservation: every program of the agent, on any input of its C
    types (null pointers, packets and buffers with any bytes, any cookie or
    connection) and under any configuration, makes no invalid access and ends,
    and if every map element held a value of its C type before, every one does
    after. *)
Theorem programs_keep_types cpu cfg p w :
  world_wf w -> typed w -> is_u32 (sampling cfg) -> wf_program p ->
  ∃ r w', run cpu (program_code cfg p) w = (Some r, w') /\ world_wf w' /\ typed w'.
Proof.
  intros Hw Ht Hc Hp. pose proof (program_safe cfg p Hc Hp) as Hs.
  destruct (run_safe cpu _ _ w Hs Ht) as (r & Hr & _ & Ht').
  pose proof (run_wf cpu (program_code cfg p) w Hw) as Hw'.
  destruct (run cpu (program_code cfg p) w) as [o w']. cbn in *. subst o. by exists r, w'.
Qed.

(** C9. Termination: any number of programs of any kind, their helper calls
    interleaved in any order on any CPUs, come to an end on every schedule, and
    on the way no access is invalid, no value malformed, and nobody is stuck. *)
Theorem programs_terminate cfg l w :
  world_wf w -> typed w -> is_u32 (sampling cfg) -> Forall wf_program l.*2 ->
  sn pool_step (programs cfg l, w) /\
  ∀ ps w', rtc pool_step (programs cfg l, w) (ps, w') ->
    world_wf w' /\ typed w' /\ ((∃ s, pool_step (ps, w') s) \/ ended ps).
Proof.
  intros Hw Ht Hc Hl. split; [apply pool_terminates|]. intros ps w' Hs.
  destruct (pool_steps_safe _ _ _ Hs (programs_safe cfg l Hc Hl) Ht Hw) as (Hps & Ht' & Hw').
  split; [done|]. split; [done|]. by eapply pool_progress.
Qed.

(** C10. The ring buffers deliver what the programs send: in every interleaving
    of any programs on any CPUs, from a state without reserved samples, a sample
    that was submitted or discarded stays as it is (no program submits twice, or
    into a sample of another), and when all programs have ended no reserved
    sample is left behind, which would block the reader of the ring buffer for
    ever. *)
Theorem samples_delivered cfg l w ps1 w1 ps2 w2 :
  (∀ r, Busy ∉ w_ring w r) ->
  rtc pool_step (programs cfg l, w) (ps1, w1) -> rtc pool_step (ps1, w1) (ps2, w2) ->
  (∀ r i s, w_ring w1 r !! i = Some s -> s <> Busy -> w_ring w2 r !! i = Some s) /\
  (ended ps2 -> ∀ r, Busy ∉ w_ring w2 r).
Proof.
  intros Hb H1 H2.
  destruct (pool_steps_owned _ _ _ H1 (programs_holders cfg l) (owned_start _ w))
    as (hs1 & Hh1 & Ho1 & _ & Ht1).
  destruct (pool_steps_owned _ _ _ H2 Hh1 Ho1) as (hs2 & Hh2 & _ & Hst & Ht2).
  split; [exact Hst|]. intros He. eapply ended_holders; [exact He|exact Hh2|].
  by apply Ht2, Ht1, tracked_start.
Qed.
End Together.

(** A monitor, a drop and an [SSL_free] at the same time. *)
Definition mixed : list (Z * program) :=
  [(0, FlowMonitor INGRESS (syn_packet 3)); (1, DropProbe syn_drop);
   (2, SslProbe (OpFree thread ssl_ptr))].
Lemma mixed_wf : Forall wf_program mixed.*2.
Proof.
  constructor; [split; [by apply syn_packet_wf|done]|].
  constructor; [apply syn_drop_wf|]. constructor; [by split|constructor].
Qed.

Lemma programs_keep_types_witness :
  ∃ r w', run 1 (program_code plain_config (DropProbe syn_drop)) (sampled_start 100) = (Some r, w') /\
    world_wf w' /\ typed w'.
Proof.
  apply (programs_keep_types 1 plain_config (DropProbe syn_drop) (sampled_start 100)).
  - apply sampled_start_wf.
  - apply sampled_start_typed.
  - done.
  - apply syn_drop_wf.
Defined.

Lemma programs_terminate_witness :
  sn pool_step (programs plain_config mixed, start 100) /\
  ∀ ps w', rtc pool_step (programs plain_config mixed, start 100) (ps, w') ->
    world_wf w' /\ typed w' /\ ((∃ s, pool_step (ps, w') s) \/ ended ps).
Proof.
  apply (programs_terminate plain_config mixed (start 100)).
  - apply start_wf.
  - apply start_typed.
  - done.
  - apply mixed_wf.
Defined.

(** Two captures and an [SSL_free], one call of each in turn. *)
Definition captures : list (Z * program) :=
  [(0, PacketCapture INGRESS (syn_packet 3) (zero_bytes 256));
   (1, PacketCapture EGRESS (syn_packet 4) (zero_bytes 256));
   (2, SslProbe (OpFree thread ssl_ptr))].
Definition captures_end : pool Z * world :=
  run_schedule (mjoin (replicate 4 [0; 1; 2]%nat)) (programs plain_config captures) (start 100).

Lemma samples_delivered_witness :
  (∀ r, Busy ∉ w_ring captures_end.2 r) /\ length (w_ring captures_end.2 packet_record) = 2%nat.
Proof.
  split; [|vm_compute; reflexivity].
  destruct (samples_delivered plain_config captures (start 100) (programs plain_config captures)
    (start 100) captures_end.1 captures_end.2) as [_ Hend].
  - intros []; apply not_elem_of_nil.
  - reflexivity.
  - rewrite <- surjective_pairing. apply run_schedule_steps.
  - apply Hend. vm_compute. repeat constructor; by eexists.
Defined.

(** ** Behaviours worth knowing *)

(** An all-zero cookie is found in the unused slots of the ring, and its
    counters are overwritten by the next new cookie. *)
Lemma zero_cookie_overwritten :
  let m0 := zeroed <| ne_network_events := [cookie_a; zero_bytes 8; zero_bytes 8; zero_bytes 8] |>
                   <| ne_network_events_idx := 1 |> in
  let '(m1, _) := event_update 8 (zero_bytes 8) 100 0 m0 in
  let '(m2, _) := event_update 8 [9; 9; 9; 9; 9; 9; 9; 9] 100 0 m1 in
  event_counts m1 (zero_bytes 8) = Some (1, 100) /\ event_counts m2 (zero_bytes 8) = Some (0, 0).
Proof. by vm_compute. Qed.

(** After a success the error of an earlier failure is still there. *)
Lemma ipsec_success_keeps_error e ts v :
  am_ipsec_encrypted (ipsec_update 0 e ts v) = true /\
  am_ipsec_encrypted_ret (ipsec_update 0 e ts v) = am_ipsec_encrypted_ret v.
Proof. done. Qed.

(** A cookie shorter than eight bytes is compared together with what the stack
    held: the same event is recorded twice. *)
Lemma short_cookie_duplicated {K : Kernel} {KL : KernelLaws K} :
  read_cookie 4 cookie_a (zero_bytes 8) <> read_cookie 4 cookie_a (replicate 8 1).
Proof.
  unfold read_cookie. intros [_ E]%app_inj_1; [discriminate|done].
Qed.

(** A flow that is still pending for the thread, because its return was skipped,
    is not replaced by the next entry. *)
Lemma stale_flow_kept {H : Host} {K : Kernel} {KL : KernelLaws K} cpu cfg dir pid_tgid skb f old w :
  world_wf w -> typed w -> holds_frame skb f -> wf_frame f -> ipsec_active w cfg ->
  dir ∈ [INGRESS; EGRESS] -> ipsec_elem cpu dir w pid_tgid = Some old ->
  ipsec_elem cpu dir (run cpu (xfrm_kprobe dir cfg pid_tgid (Some skb)) w).2 pid_tgid = Some old.
Proof.
  intros Hw Ht Hh Hf Hact Hd Hold.
  assert (Hwp : wp cpu (xfrm_kprobe dir cfg pid_tgid (Some skb))
    (λ _ w', ipsec_elem cpu dir w' pid_tgid = Some old) w).
  { eapply wp_xfrm_kprobe; [done|done|exact Hh|done|done|done|].
    intros r w' [_ [Hfr _]|w1 r' _ [Hfr _] Hr];
      pose proof (ipsec_elem_framed cpu dir pid_tgid _ _ Hfr) as E; [by rewrite E|]. rewrite Hold in E.
    destruct Hr as [old' E' ->|E' _ _|e E' _ _]; congruence. }
  by apply wp_run in Hwp as (r & _ & ?).
Qed.
