(* ===== verification/ReportCorrectness.v ===== *)
(** * Correctness of what the agent reports

    The theorems that follow the packets from the hooks through the maps and the
    ring buffer to the reports of the user-space agent, each with an example at a
    concrete input.  Nothing depends on them. *)
From stdpp Require Import relations.
From S2P Require Import Prelude Machine Types Kernel Maps Safety RefKernel PacketUtils Metrics CoreFill.
From S2P Require Import Filter Hooks Drops Rtt Flows Ssl Concurrency Programs Rings Credits Gauges.
From S2P Require Import PerCpu HookTotals Accounting Records Collect Evictions Orphans Fetch Reports Samples.

Section Reports.
Context {H : Host} {K : Kernel} {KL : KernelLaws K}.
Context (c : FetcherConfig) (cpus : list Z) (iter : ∀ m, list (key m)).
Context (order : gmap flow_id BpfFlowContent → list flow_id) {RO : RangeOrder order}.

(** C5. From the wire to the reports: when a flow starts and all its packets are
    seen on one interface, the agent reports each of its packets, and its bytes,
    exactly once, whatever the interleaving of the programs on the CPUs, whether
    the flow is kept in the map or sent through the ring buffer, and whatever the
    size of the accounter's cache and the ticks of its clock.  The conditions are
    that all packets are accounted (no filter, no sampling rate above 1, neither
    global nor of a rule), that the flow map has room or the ring buffer is
    enabled and has room, that all programs have ended when the agent empties the
    map, and that it has then read all records of the ring buffer.  The other
    features (DNS, RTT, drops, IPsec and so on) may be on or off. *)
Theorem flow_reported cfg l w ps w' id ifx cache events :
  kept cfg -> unsampled cfg -> typed w -> world_wf w -> Forall wf_program l.*2 ->
  the_flow w id = None -> w_ring w direct_flows = [] -> seen_on_one id ifx l ->
  rtc pool_step (programs cfg l, w) (ps, w') -> ended ps ->
  iterates iter w' -> omap event_record events = committed w' ->
  u32 (reported_flow c cpus iter order fm_packets id cache events w')
    = u32 (flow_packets id ifx (arrivals l)) /\
  u64 (reported_flow c cpus iter order fm_bytes id cache events w')
    = u64 (flow_bytes id ifx (arrivals l)).
Proof.
  intros Hk Hc Ht Hw Hl Hf0 Hr0 Ho Hs He Hiter Hev.
  assert (Hu : is_u32 (sampling cfg)) by (destruct Hc as (_ & ? & _); width; lia).
  assert (Hfoi : flow_of_interface id ifx w).
  { split; [done|by rewrite Hr0|]. intros f Hf. by rewrite Hf0 in Hf. }
  pose proof (flows_one_interface id ifx cfg l w ps w' Hc Hu Ht Hw Hl Ho Hfoi Hs) as Hfoi'.
  assert (Hz : ∀ T : Tally, balance id ifx w = 0).
  { intros T. rewrite balance_None by done. unfold ring_amount. by rewrite Hr0. }
  rewrite <- total_packets, <- total_bytes. split.
  - etrans; [exact (reported_balance (T := packets_tally) c cpus iter order id ifx cache events w' Hiter Hfoi' Hev)|].
    destruct (programs_balance (T := packets_tally) cfg id ifx l w ps w') as [_ _ Hb _]; [done..|].
    rewrite Hb, Hz by apply Hfoi'. done.
  - etrans; [exact (reported_balance (T := bytes_tally) c cpus iter order id ifx cache events w' Hiter Hfoi' Hev)|].
    destruct (programs_balance (T := bytes_tally) cfg id ifx l w ps w') as [_ _ Hb _]; [done..|].
    rewrite Hb, Hz by apply Hfoi'. done.
Qed.

(** C6. No packet is counted twice while the agent empties the map under the
    running monitors: with any configuration, any interleaving of the programs and
    of removals of flows from the map, and at every moment, the packets that have
    been taken out of the map, those that are in it and those that are in the ring
    buffer are together at most those that were there at the start and those that
    the monitors got since; the same holds for the bytes. *)
Theorem counted_at_most_once cfg l w ps w' taken (id : flow_id) :
  is_u32 (sampling cfg) -> typed w -> world_wf w -> Forall wf_program l.*2 ->
  rtc agent_step (programs cfg l, w, []) (ps, w', taken) ->
  packets_taken id taken + packets_held id w' <= packets_held id w + Z.of_nat (length (sightings id l)) /\
  bytes_taken id taken + bytes_held id w'
    <= bytes_held id w + Zsum ((λ a, skb_len (ar_skb a)) <$> sightings id l).
Proof.
  intros Hu Ht Hw Hl Hs. split.
  - rewrite <- sum_of_ones, <- (total_share (T := packets_tally)) by done.
    exact (agent_bound (T := packets_tally) id cfg l w ps w' taken Ht Hw Hu Hl Hs).
  - rewrite <- (total_share (T := bytes_tally)).
    + exact (agent_bound (T := bytes_tally) id cfg l w ps w' taken Ht Hw Hu Hl Hs).
    + intros a Ha. by apply (t_positive (T := bytes_tally)), (sightings_wf id l).
Qed.

(** C7. The drops of all CPUs are reported: when a flow has no drops yet, what the
    agent reports after it has merged the copies of the CPUs are the drops of the
    flow and their bytes, each cut off at 65535, whatever the interleaving, also
    when several CPUs create the element of the flow at the same time.  The
    conditions are that the filter is off, every packet is sampled, the map takes
    new flows, the agent collects drops and has waited for the programs to end,
    and that IPsec tracking is off or the flow has packets in the flow map: with
    IPsec tracking, a flow without packets may be an orphan, whose drops are
    lost. *)
Theorem drops_reported cfg l w ps w' (id : flow_id) :
  NoDup cpus -> is_filter_enabled cfg = false ->
  metric_room (m := aggregated_flows_pkt_drop) -> samples_all cfg -> is_u32 (sampling cfg) ->
  typed w -> world_wf w -> w_do_sampling w <> 0 -> Forall (λ t, t.1 ∈ cpus /\ wf_program t.2) l ->
  elem 0 aggregated_flows_pkt_drop w id = None ->
  rtc pool_step (programs cfg l, w) (ps, w') -> ended ps ->
  iterates iter w' -> EnablePktDrops c = true -> stays c w' id ->
  let reported get := default 0 (get <$> report c cpus iter order fc_drops w' id) in
  reported pd_packets = Z.min 65535 (Z.of_nat (length (drops_of id l))) /\
  reported pd_bytes = Z.min 65535 (dropped_bytes (drops_of id l)).
Proof.
  intros Hnd Hf Hroom Hs Hu Ht Hw Hon Hl H0 Hst He Hiter Hen Hstays reported.
  assert (Hsafe : Forall wf_program l.*2).
  { apply list.Forall_fmap. refine (list.Forall_impl _ _ _ Hl _). by intros t []. }
  destruct (pool_steps_safe _ _ _ Hst (programs_safe cfg l Hu Hsafe) Ht Hw) as (_ & Ht' & _).
  destruct (drops_counted cpus id cfg l w ps w') as [Hp Hb]; [done..|].
  destruct (reported_drops c cpus iter order w' id) as (f & Hfd & Hr); [done..|].
  unfold reported. rewrite Hr, !drops_collected; [|try done..].
  - rewrite (gauge_no_element cpus _ drop_packets w), (gauge_copies cpus _ drop_packets) in Hp by done.
    rewrite (gauge_no_element cpus _ drop_bytes w), (gauge_copies cpus _ drop_bytes) in Hb by done.
    split; [exact Hp|exact Hb].
  - intros a b. unfold merge_drops. cbv zeta. by repeat case_match.
  - apply (copies_wf cpus aggregated_flows_pkt_drop (λ v, is_u16 (pd_bytes v))); [done|]. by intros v (_ & _ & ? & _).
  - intros a b. unfold merge_drops. cbv zeta. by repeat case_match.
  - apply (copies_wf cpus aggregated_flows_pkt_drop (λ v, is_u16 (pd_packets v))); [done|].
    by intros v (_ & _ & _ & ? & _).
Qed.

(** C25. The round-trip time that the agent reports of a flow is the largest one
    that any CPU has measured, however the CPUs interleave; the IPsec probes, which
    write into the same elements, do not disturb it.  The conditions are that the
    filter is off, every packet is sampled, the map takes new flows, the flow has
    no additional metrics yet, the agent collects RTTs and has waited for the
    programs to end, and that IPsec tracking is off, or else that the flow has
    packets in the flow map (it is no orphan) and is not a tunnel on the wire
    (into which the RTT of orphans is merged). *)
Theorem rtt_reported cfg l w ps w' (id : flow_id) :
  NoDup cpus -> is_filter_enabled cfg = false ->
  metric_room (m := additional_flow_metrics) -> samples_all cfg -> is_u32 (sampling cfg) ->
  typed w -> world_wf w -> w_do_sampling w <> 0 -> Forall (λ t, t.1 ∈ cpus /\ wf_program t.2) l ->
  elem 0 additional_flow_metrics w id = None ->
  rtc pool_step (programs cfg l, w) (ps, w') -> ended ps ->
  iterates iter w' -> EnableRTT c = true -> stays c w' id ->
  EnableIPsecTracking c = false \/ isIPsecWireFlow id = false ->
  default 0 (am_flow_rtt <$> report c cpus iter order fc_additional w' id)
  = Zmax (omap (λ t, program_rtt cfg id t.2) l).
Proof.
  intros Hnd Hf Hroom Hs Hu Ht Hw Hon Hl H0 Hst He Hiter Hen Hstays Hwire.
  assert (Hsafe : Forall wf_program l.*2).
  { apply list.Forall_fmap. refine (list.Forall_impl _ _ _ Hl _). by intros t []. }
  destruct (pool_steps_safe _ _ _ Hst (programs_safe cfg l Hu Hsafe) Ht Hw) as (_ & Ht' & _).
  pose proof (rtt_measured cpus Hnd cfg id Hf Hroom l w ps w' Hs Hu Ht Hw Hon Hl Hst He) as Hp.
  destruct (reported_additional c cpus iter order w' id) as (f & Hfd & Hr); [by rewrite ?Hen..|].
  rewrite Hr, rtts_collected; [|apply (copies_wf cpus additional_flow_metrics (λ v, 0 <= am_flow_rtt v)); [done|]|done].
  2:{ by intros v (_ & _ & [? _] & _). }
  rewrite (gauge_no_element cpus _ rtt_peak w), (gauge_copies cpus _ rtt_peak) in Hp by done.
  etrans; [exact Hp|]. apply Z.max_r, Zmax_nonneg.
Qed.
End Reports.

(** C29. IPsec metadata that were recorded under a flow without packets reach a
    flow on the wire: an orphan disappears exactly when there is an encrypted flow
    between its hosts, and such a flow then has the largest status (by the return
    code, then by whether it is encrypted) and the
    largest round-trip time, among its own and those of the orphans attached to
    it.  Of the flows that remain, the packets, the bytes, all other fields of the
    flow and all other metrics stay what they were; only the start may move back,
    the end forward, and an unknown EtherType be filled in.  The order in which Go
    iterates over the flows does not matter. *)
Theorem orphans_merged order flows id f :
  NoDup order -> (∀ id, id ∈ order <-> is_Some (flows !! id)) -> flows !! id = Some f ->
  match mergeIPsecOrphans order flows !! id with
  | None => isIPsecOrphan f = true /\ ∃ t, attached flows id t
  | Some f' =>
      if isIPsecOrphan f then f' = f /\ ∀ t, ~ attached flows id t
      else remains f f' /\
        largest status_le (candidate status_of flows id) (view_of status_of f') /\
        largest Z.le (candidate am_flow_rtt flows id) (view_of am_flow_rtt f')
  end.
Proof. intros Hnd Ho. by apply orphans_moved. Qed.

(** Two monitors and a full map; the accounter has room for one flow, and its
    clock ticks between the two records. *)
Definition crowded_events : list accounter_event :=
  match committed crowded_end.2 with
  | [r1; r2] => [AccountRecord r1; AccountTick; AccountRecord r2]
  | _ => []
  end.

(** All features, and all but IPsec. *)
Definition all_features : FetcherConfig := mk_FetcherConfig true true true true true true 1.
Definition no_ipsec : FetcherConfig := mk_FetcherConfig true true true true true false 1.
Definition in_key_order (flows : gmap flow_id BpfFlowContent) : list flow_id := (map_to_list flows).*1.

Lemma flow_reported_witness :
  length (Account (mk_Accounter 1 ∅) crowded_events) = 2%nat /\
  u32 (reported_flow all_features [0; 1] (all_keys crowded_end.2) in_key_order fm_packets syn_flow 1
    crowded_events crowded_end.2) = u32 2 /\
  u64 (reported_flow all_features [0; 1] (all_keys crowded_end.2) in_key_order fm_bytes syn_flow 1
    crowded_events crowded_end.2) = u64 108.
Proof.
  split; [vm_compute; reflexivity|].
  replace 2 with (flow_packets syn_flow 3 (arrivals racers)) by (vm_compute; reflexivity).
  replace 108 with (flow_bytes syn_flow 3 (arrivals racers)) by (vm_compute; reflexivity).
  apply (flow_reported all_features [0; 1] (all_keys crowded_end.2) in_key_order direct_config racers
    crowded_start crowded_end.1 crowded_end.2 syn_flow 3 1 crowded_events).
  - right. by split.
  - by vm_compute.
  - apply init_world_typed.
  - apply init_world_wf.
  - apply racers_wf.
  - vm_compute. reflexivity.
  - reflexivity.
  - unfold seen_on_one. by repeat constructor.
  - rewrite <- surjective_pairing. apply run_schedule_steps.
  - vm_compute. repeat constructor; by eexists.
  - apply all_keys_iterates.
  - vm_compute. reflexivity.
Defined.

(** The first monitor ends; the second one makes its first [k] calls, then the
    agent takes the flow, and the second monitor goes on. *)
Definition taken_after (k : nat) : pool Z * @world roomy * list (flow_id * flow_metrics) :=
  taking_between (replicate 12 0 ++ replicate k 1)%nat (replicate 12 1%nat) syn_flow
    (programs plain_config racers) (start 100).

(** Both monitors have counted their packet, one before and one after the removal. *)
Lemma counted_at_most_once_witness :
  let '(ps, w', taken) := taken_after 2 in
  packets_taken syn_flow taken = 1 /\ packets_held syn_flow w' = 1 /\
  packets_taken syn_flow taken + packets_held syn_flow w'
    <= packets_held syn_flow (start 100) + Z.of_nat (length (sightings syn_flow racers)).
Proof.
  destruct (taken_after 2) as [[ps w'] taken] eqn:E.
  split; [|split].
  - change taken with (ps, w', taken).2. rewrite <- E. vm_compute. reflexivity.
  - change w' with (ps, w', taken).1.2. rewrite <- E. vm_compute. reflexivity.
  - apply (counted_at_most_once plain_config racers (start 100) ps w' taken syn_flow).
    + clear. by vm_compute.
    + apply init_world_typed.
    + apply init_world_wf.
    + apply racers_wf.
    + rewrite <- E. apply taking_between_steps.
Defined.

(** The race of [drop_race]: one drop on CPU 0, one on CPU 1, one packet. *)
Lemma drop_race_wf : Forall (λ t, t.1 ∈ [0; 1; 2] /\ wf_program t.2) drop_race.
Proof.
  constructor; [split; [apply (bool_decide_unpack _); by vm_compute|apply syn_drop_wf]|].
  constructor; [split; [apply (bool_decide_unpack _); by vm_compute|apply syn_drop_wf]|].
  constructor; [|constructor]. split; [apply (bool_decide_unpack _); by vm_compute|].
  split; [by apply syn_packet_wf|done].
Qed.

Lemma drops_reported_witness :
  length (drops_of syn_flow drop_race) = 2%nat /\ dropped_bytes (drops_of syn_flow drop_race) = 108 /\
  let reported get := default 0 (get <$> report all_features [0; 1; 2] (all_keys drop_race_end.2)
    in_key_order fc_drops drop_race_end.2 syn_flow) in
  reported pd_packets = Z.min 65535 (Z.of_nat (length (drops_of syn_flow drop_race))) /\
  reported pd_bytes = Z.min 65535 (dropped_bytes (drops_of syn_flow drop_race)).
Proof.
  split; [vm_compute; reflexivity|]. split; [vm_compute; reflexivity|].
  apply (drops_reported all_features [0; 1; 2] (all_keys drop_race_end.2) in_key_order plain_config drop_race
    (sampled_start 100) drop_race_end.1 drop_race_end.2 syn_flow).
  - apply (bool_decide_unpack _). by vm_compute.
  - reflexivity.
  - intros idx k st. by exists [].
  - by split.
  - done.
  - apply sampled_start_typed.
  - apply sampled_start_wf.
  - by vm_compute.
  - apply drop_race_wf.
  - vm_compute. reflexivity.
  - rewrite <- surjective_pairing. apply run_schedule_steps.
  - vm_compute. repeat constructor; by eexists.
  - apply all_keys_iterates.
  - reflexivity.
  - right. destruct (the_flow drop_race_end.2 syn_flow) as [f|] eqn:E.
    + exists f. split; [reflexivity|]. intros Hf. apply (f_equal (fmap fm_packets)) in E.
      cbn [fmap option_fmap option_map] in E. rewrite Hf in E. vm_compute in E. discriminate.
    + vm_compute in E. discriminate.
Defined.

(** Segments of one flow on two CPUs, one call of each in turn. *)
Definition rtt_race : list (Z * program) :=
  [(0, RttFentry (Some (timed 800)) (Some syn_buffer)); (1, RttFentry (Some (timed 1600)) (Some syn_buffer))].
Definition rtt_race_end : pool Z * world :=
  run_schedule (mjoin (replicate 9 [0; 1]%nat)) (programs rtt_config rtt_race) (sampled_start 100).

Lemma rtt_reported_witness :
  Zmax (omap (λ t, program_rtt rtt_config syn_flow t.2) rtt_race) = 200000 /\
  default 0 (am_flow_rtt <$> report no_ipsec [0; 1] (all_keys rtt_race_end.2) in_key_order fc_additional
      rtt_race_end.2 syn_flow)
    = Zmax (omap (λ t, program_rtt rtt_config syn_flow t.2) rtt_race).
Proof.
  split; [vm_compute; reflexivity|].
  apply (rtt_reported no_ipsec [0; 1] (all_keys rtt_race_end.2) in_key_order rtt_config rtt_race
    (sampled_start 100) rtt_race_end.1 rtt_race_end.2 syn_flow).
  - apply (bool_decide_unpack _). by vm_compute.
  - reflexivity.
  - intros idx k st. by exists [].
  - by split.
  - done.
  - apply sampled_start_typed.
  - apply sampled_start_wf.
  - by vm_compute.
  - constructor; [|constructor; [|constructor]]; (split; [apply (bool_decide_unpack _); by vm_compute|]);
      intros b [= <-]; apply syn_buffer_holds.
  - vm_compute. reflexivity.
  - rewrite <- surjective_pairing. apply run_schedule_steps.
  - vm_compute. repeat constructor; by eexists.
  - apply all_keys_iterates.
  - reflexivity.
  - by left.
  - by left.
Defined.

(** The inner flow of an ESP tunnel, which the hooks have not seen, and the tunnel
    in the other direction. *)
Definition inner_flow : flow_id := mk_flow_id (repeat 1 16) (repeat 2 16) 9999 6081 IPPROTO_UDP 0 0.
Definition esp_flow : flow_id := mk_flow_id (repeat 2 16) (repeat 1 16) 0 0 IPPROTO_ESP 0 0.
Definition tunnel : gmap flow_id BpfFlowContent :=
  {[ inner_flow := empty_content <| fc_additional := Some (zeroed <| am_ipsec_encrypted := true |>) |>;
     esp_flow := empty_content <| fc_base := zeroed <| fm_packets := 1 |> <| fm_bytes := 100 |> |> ]}.

Lemma orphans_merged_witness :
  mergeIPsecOrphans [inner_flow; esp_flow] tunnel !! inner_flow = None /\
  match mergeIPsecOrphans [inner_flow; esp_flow] tunnel !! esp_flow with
  | Some f' => view_of status_of f' = Some (0, true) /\ fm_packets (fc_base f') = 1 /\
      largest status_le (candidate status_of tunnel esp_flow) (view_of status_of f')
  | None => False
  end.
Proof.
  split; [vm_compute; reflexivity|].
  assert (Hord : ∀ id, id ∈ [inner_flow; esp_flow] <-> is_Some (tunnel !! id)).
  { intros id. unfold tunnel. rewrite <- elem_of_dom, dom_insert_L, dom_singleton_L. set_solver. }
  pose proof (orphans_merged [inner_flow; esp_flow] tunnel esp_flow
    (empty_content <| fc_base := zeroed <| fm_packets := 1 |> <| fm_bytes := 100 |> |>)) as Ho.
  destruct (mergeIPsecOrphans _ tunnel !! esp_flow) as [f'|] eqn:E; [|vm_compute in E; discriminate].
  specialize (Ho ltac:(apply (bool_decide_unpack _); by vm_compute) Hord ltac:(vm_compute; reflexivity)).
  vm_compute in E. injection E as <-. split; [reflexivity|]. split; [reflexivity|]. apply Ho.
Defined.

(** ** Behaviours worth knowing *)

(** The counts of a network event that two CPUs have seen are not added up: the
    merge keeps those of the first CPU. *)
Lemma merge_known_events d other :
  (∀ i, (i < 4)%nat -> nth i (ne_packets other) 0 <> 0 ->
     nth i (ne_network_events other) [] ∈ ne_network_events d) ->
  merge_events d other = d.
Proof.
  intros Hk. unfold merge_events. cbn [seq foldl].
  assert (He : ∀ i, (i < 4)%nat -> merge_event other d i = d).
  { intros i Hi. unfold merge_event. destruct (nth i (ne_packets other) 0 =? 0) eqn:E; [done|].
    bool_to_prop. by rewrite bool_decide_true by auto. }
  by rewrite !He by lia.
Qed.

(** A packet can be missed.  The second monitor has found the flow in the map when
    the agent takes it out; it counts its packet in an element that nobody will
    read. *)
Lemma eviction_misses_packet :
  let '(ps, w', taken) := taken_after 3 in
  length (sightings syn_flow racers) = 2%nat /\
  packets_taken syn_flow taken = 1 /\ packets_held syn_flow w' = 0 /\
  (snd <$> take 2 ps) = [Ret TC_ACT_OK; Ret TC_ACT_OK].
Proof. vm_compute. split_and!; reflexivity. Qed.

(** A negative error of an IPsec function is lost in the merge when an earlier CPU
    has an unused copy. *)
Lemma merge_loses_ipsec_error other :
  am_ipsec_encrypted_ret other < 0 ->
  am_ipsec_encrypted_ret (merge_additional zeroed other) = 0 /\
  am_ipsec_encrypted (merge_additional zeroed other) = false.
Proof.
  intros Hr. unfold merge_additional. cbv zeta.
  destruct (_ <? am_flow_rtt other); cbn;
    rewrite (proj2 (Z.ltb_ge 0 _)), (proj2 (Z.eqb_neq 0 _)) by lia; done.
Qed.

(** An orphan takes its other metrics with it: nobody reports its drops. *)
Lemma orphan_drops_lost order flows id f t :
  NoDup order -> (∀ id, id ∈ order <-> is_Some (flows !! id)) ->
  flows !! id = Some f -> isIPsecOrphan f = true -> attached flows id t ->
  mergeIPsecOrphans order flows !! id = None /\
  ∀ u g, mergeIPsecOrphans order flows !! u = Some g -> fc_drops g = flows !! u ≫= fc_drops.
Proof.
  intros Hnd Ho Hf Hor Ht. split.
  - pose proof (orphans_moved flows order Hnd Ho id f Hf) as Hm.
    destruct (mergeIPsecOrphans order flows !! id); [|done]. rewrite Hor in Hm. by destruct (proj2 Hm t).
  - intros u g Hg. pose proof (orphans_lookup flows order Hnd Ho u) as Hl. rewrite Hg in Hl.
    destruct (flows !! u) as [f'|] eqn:Eu; [|done]. pose proof (orphans_moved flows order Hnd Ho u f' Eu) as Hm.
    rewrite Hg in Hm. destruct (isIPsecOrphan f'); [by destruct Hm as [-> _]|]. cbn. by destruct Hm as [[] _].
Qed.
