(* ===== verification/RuleCorrectness.v ===== *)
(** * Correctness of the configuration

    The theorems that follow a rule of the filter from the text that the user writes
    to the decision on a packet, and the other settings to the programs, each with an
    example at a concrete input.  Nothing depends on them. *)
From Stdlib Require Import Ascii String.
From stdpp Require Import relations.
From S2P Require Import Prelude Machine Types Kernel Maps Safety RefKernel PacketUtils Filter GoText.
From S2P Require Import Tries Rules Networks Dns Quic Flows Ssl Concurrency Programs Collect Evictions InForce.
From S2P Require Import Fetch Setup Samples.

#[local] Open Scope string_scope.
#[local] Open Scope list_scope.
#[local] Open Scope Z_scope.

(** ** From the rules to the decisions *)

Section Decisions.
Context {H : Host} {K : Kernel} {KL : KernelLaws K}.

(** No rules are in the maps yet. *)
Definition no_rules (w : world) : Prop :=
  st_index (w_map w filter_map) = ∅ /\ st_index (w_map w peer_filter_map) = ∅.

(** C12. The filter decides by the rules of the configuration.  Once the agent has
    put its rules (at least one) into maps without rules, without an error, and
    whatever its programs and its removals of flows have done since, the filter of
    any program gives each IPv4 or IPv6 packet the verdict and the sampling that
    the rules say: on each side of the packet the last rule of the longest network
    that has the address, if its conditions hold of the packet in the terms of the
    configuration, and if the other address is in the network of a peer.  The
    packets are those whose ports, if their protocol has any, are not 0
    ([unset_port_matches_zero] shows the case of port 0); a rule without an action
    lets its packets be skipped, although the documentation says that it accepts
    them ([no_action_skips]). *)
Theorem rules_decide cfg w0 rs w1 l ps w taken cpu id flags drop_reason eth_protocol sampling direction :
  world_wf w0 -> no_rules w0 -> sc_FilterConfig cfg <> [] ->
  ProgramFilter (sc_FilterConfig cfg) w0 = (None, rs, w1) ->
  rtc agent_step (programs (configureFlowSpecVariables cfg) l, w1, []) (ps, w, taken) ->
  ip_protocol_type eth_protocol -> wf_flow_id id -> nonzero_ports id ->
  ∃ keyed peers,
    keyed_rules (sc_FilterConfig cfg) = Some keyed /\ peer_keys (sc_FilterConfig cfg) = Some peers /\
    let side src := config_side keyed peers id src eth_protocol flags drop_reason direction in
    let '(skip, counter, sampling') := filter_decision (side true) (side false) sampling in
    ∃ w',
      run cpu (check_and_apply_filter (configureFlowSpecVariables cfg) id flags drop_reason
                 eth_protocol sampling direction) w = (Some (skip, sampling'), w') /\
      counted cpu counter w w'.
Proof.
  intros Hw0 [Hf0 Hp0] Hr Hprog Hs Hip Hid H0.
  assert (Hh0 : holds_rules [] [] w0) by (split; [done|by apply trie_is_empty..]).
  destruct (ProgramFilter_ok _ _ _ _ _ _ Hh0 Hprog) as (keyed & peers & Hk & Hps & [Hw1 Hf1 Hp1]).
  exists keyed, peers. split; [done|]. split; [done|]. intros side.
  pose proof (agent_steps_wf _ _ Hs Hw1) as Hw. cbn [fst snd] in Hw.
  pose proof (agent_same_tries _ _ _ _ _ _ Hs) as Hsame.
  assert (Hh : holds_rules (rule_updates keyed) (peer_updates peers) w).
  { split; [done| |]; (eapply trie_is_ext; [by apply Hsame|]); done. }
  assert (Hside : ∀ src, side_of cpu w id src eth_protocol flags drop_reason direction = side src)
    by (intros src; by apply side_of_config).
  destruct (filter_decision (side true) (side false) sampling) as [[skip counter] s] eqn:Ed.
  assert (Hwp : wp cpu (check_and_apply_filter (configureFlowSpecVariables cfg) id flags drop_reason
      eth_protocol sampling direction) (λ r w', r = (skip, s) /\ counted cpu counter w w') w).
  { apply wp_check_and_apply_filter; [done..|by apply configured_filter|]. intros w'. rewrite !Hside.
    cbv zeta. by rewrite Ed. }
  destruct (wp_run _ _ _ _ Hwp) as (r & Hrun & -> & Hc). by eexists.
Qed.

(** C39. Programming the rules fails exactly when one of them has a malformed network
    or a malformed peer network, with the error of the first such rule (as long as
    the maps take the entries). *)
Theorem bad_rules_rejected rules w :
  trie_room -> (ProgramFilter rules w).1.1 = config_error rules.
Proof. apply ProgramFilter_error. Qed.
End Decisions.

(** A key that a lookup may start from: the empty one of the program, or, for a
    second IPv4 lookup, what the first one has left. *)
Definition key_ready (eth_protocol : Z) (k : filter_key_t) : Prop :=
  length (fk_ip_data k) = 16%nat /\ (eth_protocol = ETH_P_IP -> drop 4 (fk_ip_data k) = zero_bytes 12).

(** A packet of EtherType [eth_protocol] is in the network of the entry [k], by the
    key that the programs build for the lookup. *)
Definition looked_up (k : filter_key_t) (id : flow_id) (use_src_ip : bool) (eth_protocol : Z) (P : Prop) : Prop :=
  ∀ k0 len offset, key_ready eth_protocol k0 ->
    let '(ret, key, _, _) := filter_setup_lookup_key id k0 len offset use_src_ip eth_protocol in
    ret = 0 /\ (covers k key <-> P).

Lemma looked_up_key k id use_src_ip eth_protocol P :
  ip_protocol_type eth_protocol -> wf_flow_id id ->
  (covers k (lookup_key id use_src_ip eth_protocol) <-> P) -> looked_up k id use_src_ip eth_protocol P.
Proof.
  intros Hip Hid HP k0 len offset [Hl Hz].
  destruct (setup_lookup_key id k0 len offset use_src_ip eth_protocol) as (len' & off' & ->); done.
Qed.

(** C36. Networks, within one version of IP: the entry of a rule whose text is an IPv4
    network [a.b.c.d/n] covers, of the IPv4 packets, exactly those whose address
    has the same first [n] bits, by the key that the programs look up; the entry of
    a rule whose text is an IPv6 network, written with eight groups or with an
    ellipsis, and not IPv4-mapped, covers, of the IPv6 packets, exactly those whose
    address has the same first [n] bits; for the empty text, it covers all IPv4 and
    IPv6 packets.  (Across the versions the entries do overlap, see
    [ipv4_key_covered_by_ipv6_rule], and an IPv4-mapped network has no IPv4 packet,
    see [mapped_network_unmatched].) *)
Theorem rule_networks c id use_src_ip :
  wf_flow_id id ->
  (∀ a b d e n, is_u8 a -> is_u8 b -> is_u8 d -> is_u8 e -> 0 <= n <= 32 ->
     cf_IPCIDR c = str (cidr_text (v4_text a b d e) n) ->
     ∃ k, (getFilterKey c).2 = Some k /\
       looked_up k id use_src_ip ETH_P_IP
         (in_network n [a; b; d; e] (drop 12 (packet_addr id use_src_ip)))) /\
  (∀ x n, plain_v6 x -> 0 <= n <= 128 -> cf_IPCIDR c = str (cidr_text (v6_text x) n) ->
     ∃ k, (getFilterKey c).2 = Some k /\
       looked_up k id use_src_ip ETH_P_IPV6 (in_network n (v6_bytes x) (packet_addr id use_src_ip))) /\
  (cf_IPCIDR c = "" -> ∃ k, (getFilterKey c).2 = Some k /\
     ∀ eth_protocol, ip_protocol_type eth_protocol -> looked_up k id use_src_ip eth_protocol True).
Proof.
  intros Hid. assert (H4 : ip_protocol_type ETH_P_IP) by apply list_elem_of_here.
  assert (H6 : ip_protocol_type ETH_P_IPV6) by apply list_elem_of_further, list_elem_of_here.
  split; [|split].
  - intros a b d e n Ha Hb Hd He Hn E. exists (mk_filter_key_t n ([a; b; d; e] ++ zero_bytes 12)). split.
    + rewrite (getFilterKey_text c _ E) by apply str_nonempty, app_cons_nonempty. by apply buildFilterKey_v4.
    + apply looked_up_key, covers_v4; [done..| |done|done]. split; [done|]. by repeat (apply list.Forall_cons; split).
  - intros x n Hx Hn E. exists (mk_filter_key_t n (v6_bytes x)). split.
    + rewrite (getFilterKey_text c _ E) by apply str_nonempty, app_cons_nonempty. by apply buildFilterKey_v6.
    + apply looked_up_key, covers_v6; [done..| |done|done]. by apply v6_bytes_ok, Hx.
  - intros E. exists zeroed. unfold getFilterKey. rewrite E. split; [vm_compute; reflexivity|].
    intros eth_protocol Hip. apply looked_up_key; [done..|]. split; [done|]. intros _.
    split; [|done]. unfold lookup_key. by case_match.
Qed.

(** The port fields of a rule, and the functions that read them as a range, a single
    port included, and as a list. *)
Definition port_fields : list ((FilterConfig → IntOrString) * (FilterConfig → Z * Z) * (FilterConfig → Z * Z)) :=
  [(cf_SourcePort, getSrcPortsRange, getSrcPorts); (cf_DestinationPort, getDstPortsRange, getDstPorts);
   (cf_Port, getPortsRange, getPorts)].

(** A text with two ports: 16-bit numerals with the separator in between, different
    ones, the first not 0, and in order if they are a range. *)
Definition two_ports (s : text) (sep : ascii) : Prop :=
  ∃ p0 p1 x y, s = p0 ++ sep :: p1 /\ (sep ∉ p0) /\ ParseUint p0 16 = Some x /\ ParseUint p1 16 = Some y /\
    x <> 0 /\ x <> y /\ (sep = "-"%char -> x < y).

Lemma port_field field range pair c :
  (field, range, pair) ∈ port_fields -> range c = ports_range (field c) /\ pair c = ports_pair (field c).
Proof.
  unfold port_fields. rewrite !elem_of_cons, elem_of_nil.
  intros [E|[E|[E|[]]]]; injection E as -> -> ->; done.
Qed.

Lemma no_two_ports s sep : default (0, 0) (getPortsFromString s sep) = (0, 0) <-> ~ two_ports s sep.
Proof.
  destruct (getPortsFromString s sep) as [[x y]|] eqn:E.
  - pose proof E as (p0 & p1 & Es & Hn & E0 & E1 & H0 & Hne & Hl)%getPortsFromString_iff.
    split; [by intros [= -> ->]|]. intros Hno. destruct Hno. by exists p0, p1, x, y.
  - split; [|done]. intros _ (p0 & p1 & x & y & Hs).
    assert (E' : getPortsFromString s sep = Some (x, y)) by (apply getPortsFromString_iff; by exists p0, p1).
    congruence.
Qed.

Lemma separator_not_in_number n sep : 0 < n -> digit sep = None -> sep ∉ Itoa n.
Proof. intros Hn Hs Hin. apply Itoa_digits in Hin; [|lia]. rewrite Hs in Hin. by destruct Hin. Qed.

Lemma two_numbers a b sep :
  0 < a < 65536 -> 0 < b < 65536 -> digit sep = None -> a <> b -> (sep = "-"%char -> a < b) ->
  getPortsFromString (Itoa a ++ sep :: Itoa b) sep = Some (a, b).
Proof.
  intros Ha Hb Hs Hab Hl. apply getPortsFromString_iff. exists (Itoa a), (Itoa b).
  split_and!; [done|apply separator_not_in_number; [lia|done]|apply ParseUint_Itoa; lia..|lia|done|done].
Qed.

Lemma other_separator a b sep sep' :
  0 < a -> 0 < b -> digit sep = None -> digit sep' = None -> sep <> sep' ->
  getPortsFromString (Itoa a ++ sep :: Itoa b) sep' = None.
Proof.
  intros Ha Hb Hs Hs' Hne. apply getPortsFromString_none. rewrite elem_of_app, elem_of_cons.
  intros [Hin|[?|Hin]]; [|congruence|]; by apply separator_not_in_number in Hin.
Qed.

(** C37. Ports: what the programs get of each of the three port fields of a rule.  A
    single port is the start of a range without an end; a text [a-b] with [a] below
    [b] is the range, a text [a,b] with two different ports the list, and nothing
    else is given; and a text gives no range, or no list, exactly when it is not two
    such ports with the separator in between: a text that is neither puts no
    condition on the ports. *)
Theorem port_texts field range pair c a b :
  (field, range, pair) ∈ port_fields -> 0 < a < 65536 -> 0 < b < 65536 ->
  (field c = FromInt32 a -> range c = (a, 0) /\ pair c = (0, 0)) /\
  (a < b -> field c = FromString (str (Itoa a ++ "-"%char :: Itoa b)) ->
     range c = (a, b) /\ pair c = (0, 0)) /\
  (a <> b -> field c = FromString (str (Itoa a ++ ","%char :: Itoa b)) ->
     range c = (0, 0) /\ pair c = (a, b)) /\
  (∀ s, field c = FromString s ->
     (range c = (0, 0) <-> ~ two_ports (chars s) "-"%char) /\
     (pair c = (0, 0) <-> ~ two_ports (chars s) ","%char)).
Proof.
  intros Hin Ha Hb. destruct (port_field field range pair c Hin) as [-> ->]. split_and!.
  - intros ->. split; [|apply ports_pair_int]. cbn. unfold u16. by rewrite Z.mod_small by lia.
  - intros Hl ->. unfold ports_pair. rewrite ports_range_string. cbn [port_string]. rewrite chars_str.
    by rewrite two_numbers, other_separator by (done || lia).
  - intros Hab ->. unfold ports_pair. rewrite ports_range_string. cbn [port_string]. rewrite chars_str.
    by rewrite two_numbers, other_separator by (done || lia).
  - intros s ->. unfold ports_pair. rewrite ports_range_string. cbn [port_string].
    split; apply no_two_ports.
Qed.

(** C38. The settings reach the programs: under the variables that the agent writes,
    the programs take exactly the first eight configured ports for DNS ports, when
    DNS is tracked; they filter exactly when there are rules, and sample per rule
    exactly when a rule has a rate; the sampling is a 32-bit number; and each other
    feature is on exactly when it is on in the settings. *)
Theorem settings_reach_programs cfg port :
  let c := configureFlowSpecVariables cfg in
  (is_dns_port c port = true <->
   EnableDNSTracking (sc_Flows cfg) = true /\ port ∈ take 8 (sc_DNSTrackingPorts cfg)) /\
  (is_filter_enabled c = true <-> sc_FilterConfig cfg <> []) /\
  (has_filter_sampling c <> 0 <-> ∃ r, r ∈ sc_FilterConfig cfg /\ 0 < cf_Sample r) /\
  is_u32 (sampling c) /\
  (is_u32 (sc_Sampling cfg) -> sampling c = sc_Sampling cfg) /\
  (enable_rtt c <> 0 <-> EnableRTT (sc_Flows cfg) = true) /\
  (enable_ipsec c <> 0 <-> EnableIPsecTracking (sc_Flows cfg) = true) /\
  (enable_network_events_monitoring c <> 0 <-> EnableNetworkEventsMonitoring (sc_Flows cfg) = true) /\
  (enable_pkt_translation_tracking c <> 0 <-> EnablePktTranslationTracking (sc_Flows cfg) = true) /\
  (enable_directflows_ringbuf c <> 0 <-> sc_EnableFlowsRingbufFallback cfg = true) /\
  (enable_tls_usage_tracking c <> 0 <-> sc_EnableTLSTracking cfg = true) /\
  (enable_openssl_tracking c <> 0 <-> sc_EnableOpenSSLTracking cfg = true) /\
  (enable_quic_tracking c <> 0 <-> QUICTrackingMode (sc_Flows cfg) ∈ [1; 2]).
Proof.
  intros c. split; [apply configured_dns_port|]. split; [apply configured_filter|].
  destruct (configured_sampling cfg) as [Hs Hf]. split; [exact Hf|]. split; [exact Hs|].
  apply configured_flags.
Qed.

(** ** Examples *)

(** HTTP and HTTPS of 10/8 towards one host is accepted, with a sampling of its own;
    the rest is rejected. *)
Definition web_filter : FlowFilter :=
  zeroed <| ff_IPCIDR := "10.0.0.5/8" |> <| ff_Action := "Accept" |> <| ff_Protocol := "TCP" |>
    <| ff_DestinationPortRange := "80-500" |> <| ff_PeerIP := "10.0.0.2" |> <| ff_Sample := 50 |>.
Definition reject_filter : FlowFilter := zeroed <| ff_Action := "Reject" |>.

Definition web_settings : SetupConfig :=
  mk_SetupConfig (mk_FetcherConfig true false false false true false 2) 1 [53; 5353]
    (ParseFlowFilterRules [web_filter; reject_filter]) 10 false true false.

Definition web_world : @world roomy := (ProgramFilter (sc_FilterConfig web_settings) (start 100)).2.

(** Two monitors run, and the agent takes a flow in between. *)
Definition web_later : pool Z * @world roomy * list (flow_id * flow_metrics) :=
  taking_between (replicate 12 0 ++ replicate 2 1)%nat (replicate 12 1%nat) syn_flow
    (programs (configureFlowSpecVariables web_settings) racers) web_world.

Lemma rules_decide_witness :
  ∃ w', run 0 (check_and_apply_filter (configureFlowSpecVariables web_settings) syn_flow SYN_FLAG 0
          ETH_P_IP (Some 1) INGRESS) web_later.1.2 = (Some (false, Some 50), w') /\
    counted 0 FILTER_ACCEPT web_later.1.2 w'.
Proof.
  destruct (rules_decide web_settings (start 100) (ProgramFilter (sc_FilterConfig web_settings) (start 100)).1.2
    web_world racers web_later.1.1 web_later.1.2 web_later.2 0 syn_flow SYN_FLAG 0 ETH_P_IP (Some 1) INGRESS)
    as (keyed & peers & Hk & Hp & Hd).
  - apply init_world_wf.
  - split; vm_compute; reflexivity.
  - done.
  - assert (E : (ProgramFilter (sc_FilterConfig web_settings) (start 100)).1.1 = None) by (vm_compute; reflexivity).
    unfold web_world. rewrite <- E. by rewrite <- !surjective_pairing.
  - rewrite <- !surjective_pairing. apply taking_between_steps.
  - apply list_elem_of_here.
  - unfold wf_flow_id, is_bytes. split_and!; try done; decide_u8s.
  - by intros _.
  - assert (Ek : keyed_rules (sc_FilterConfig web_settings) = Some keyed) by done.
    assert (Ep : peer_keys (sc_FilterConfig web_settings) = Some peers) by done.
    vm_compute in Ek, Ep. injection Ek as <-. injection Ep as <-. cbv zeta in Hd.
    match type of Hd with context [filter_decision ?a ?b ?c] =>
      replace (filter_decision a b c) with (false, FILTER_ACCEPT, Some 50) in Hd by (vm_compute; reflexivity) end.
    exact Hd.
Defined.

Lemma bad_rules_rejected_witness :
  (ProgramFilter (ParseFlowFilterRules [web_filter; zeroed <| ff_IPCIDR := "10.0.0/8" |>]) (start 100)).1.1
  = Some FilterKeyError.
Proof.
  assert (E := bad_rules_rejected (ParseFlowFilterRules [web_filter; zeroed <| ff_IPCIDR := "10.0.0/8" |>])
    (start 100)).
  rewrite E; [vm_compute; reflexivity|]. intros m idx k st _. by exists [].
Defined.

(** The key that the programs look up for the source of a packet from 10.0.0.1. *)
Lemma rule_networks_witness :
  ∃ k, (getFilterKey (zeroed <| cf_IPCIDR := "10.0.0.5/8" |>)).2 = Some k /\
    covers k (filter_setup_lookup_key syn_flow zeroed 0 0 true ETH_P_IP).1.1.2.
Proof.
  assert (Hid : wf_flow_id syn_flow) by (unfold wf_flow_id, is_bytes; split_and!; try done; decide_u8s).
  destruct (rule_networks (zeroed <| cf_IPCIDR := "10.0.0.5/8" |>) syn_flow true Hid) as [Hn _].
  destruct (Hn 10 0 0 5 8) as (k & Hk & Hc); [done|done|done|done|lia|vm_compute; reflexivity|].
  exists k. split; [exact Hk|]. specialize (Hc zeroed 0 0 ltac:(done)).
  destruct (filter_setup_lookup_key _ _ _ _ _ _) as [[[ret key] ?] ?]. cbn [fst snd].
  apply Hc. vm_compute. reflexivity.
Defined.

Lemma port_texts_witness :
  let c := zeroed <| cf_SourcePort := FromString "80,500" |> <| cf_DestinationPort := FromString "80-500" |>
             <| cf_Port := FromInt32 80 |> in
  getSrcPorts c = (80, 500) /\ getDstPortsRange c = (80, 500) /\ getPortsRange c = (80, 0).
Proof.
  intros c.
  destruct (port_texts cf_SourcePort getSrcPortsRange getSrcPorts c 80 500) as (_ & _ & Hl & _);
    [apply list_elem_of_here|lia|lia|].
  destruct (port_texts cf_DestinationPort getDstPortsRange getDstPorts c 80 500) as (_ & Hr & _ & _);
    [apply list_elem_of_further, list_elem_of_here|lia|lia|].
  destruct (port_texts cf_Port getPortsRange getPorts c 80 500) as (Hi & _);
    [do 2 apply list_elem_of_further; apply list_elem_of_here|lia|lia|].
  split; [apply Hl; [lia|reflexivity]|]. split; [apply Hr; [lia|reflexivity]|apply Hi; reflexivity].
Defined.

Lemma settings_reach_programs_witness :
  is_dns_port (configureFlowSpecVariables web_settings) 5353 = true /\
  has_filter_sampling (configureFlowSpecVariables web_settings) <> 0 /\
  sampling (configureFlowSpecVariables web_settings) = 1.
Proof.
  destruct (settings_reach_programs web_settings 5353) as (Hp & _ & Hf & _ & Hs & _). split; [|split].
  - apply Hp. split; [done|]. apply list_elem_of_further, list_elem_of_here.
  - apply Hf. exists (hd zeroed (sc_FilterConfig web_settings)). split; [apply list_elem_of_here|]. vm_compute. reflexivity.
  - apply Hs. vm_compute. split; [discriminate|reflexivity].
Defined.

(** ** Behaviours worth knowing *)

(** The ICMP type and code of a rule are not passed on. *)
Lemma icmp_conditions_lost r icmp_type icmp_code :
  ParseFlowFilterRules [r <| ff_ICMPType := icmp_type |> <| ff_ICMPCode := icmp_code |>] = ParseFlowFilterRules [r].
Proof. done. Qed.

(** A rule without an action has no action by default: the packets that match it are
    skipped, and counted as not matched. *)
Lemma no_action_skips c dst sampling :
  cf_Action c = "" ->
  (filter_decision (Match (getFilterValue c)) dst sampling).1 = (true, FILTER_NOMATCH).
Proof.
  intros E. unfold filter_decision, side_action, rule_action. cbn [matched getFilterValue fv_action].
  rewrite E. done.
Qed.

(** A range the wrong way around is no error: the rule then holds of all ports. *)
Lemma reversed_range_ignored a b :
  0 < b < a -> a < 65536 -> ports_of (FromString (str (Itoa a ++ "-"%char :: Itoa b))) = AnyPort.
Proof.
  intros Hb Ha. assert (Hd : ∀ n sep, 0 < n -> digit sep = None -> sep ∉ Itoa n).
  { intros n sep Hn Hs Hin. apply Itoa_digits in Hin; [|lia]. rewrite Hs in Hin. by destruct Hin. }
  cbn [ports_of]. rewrite chars_str.
  destruct (getPortsFromString (Itoa a ++ "-"%char :: Itoa b) "-"%char) as [[x y]|] eqn:E.
  - exfalso. unfold getPortsFromString in E. rewrite SplitN2_app in E by (apply Hd; lia || done).
    rewrite !ParseUint_Itoa in E by lia. cbn [mbind option_bind] in E.
    rewrite bool_decide_true, (proj2 (Z.ltb_lt b a)) in E by (done || lia). discriminate.
  - rewrite getPortsFromString_none; [done|]. rewrite elem_of_app, elem_of_cons.
    intros [Hin|[?|Hin]]; [|done|]; apply Hd in Hin; (done || lia).
Qed.

(** The documented name of the push flag is not known; the code has another one. *)
Lemma push_flag_name : tcp_flags_value "PSH" = 0 /\ tcp_flags_value "PUSH" = PSH_FLAG.
Proof. done. Qed.

(** A peer address that is none is no error: it stands for the address 0. *)
Lemma bad_peer_accepted s :
  String.eqb s "" = false -> ParseIP (chars s) = None ->
  buildFilterKey "" s = Some (mk_filter_key_t 128 (zero_bytes 16)).
Proof. intros Hs E. unfold buildFilterKey. cbn [String.eqb negb]. by rewrite Hs, E. Qed.

(** Of two rules for the same network only the last one counts, also when their peers
    differ. *)
Lemma same_network_overwritten (k : filter_key_t) (c1 c2 : FilterConfig) l k' :
  c1 <> c2 -> (k, c1) ∉ l -> longest fst (l ++ [(k, c1); (k, c2)]) k' <> Some (k, c1).
Proof.
  intros Hne Hl E. pose proof (longest_spec fst (l ++ [(k, c1); (k, c2)]) k') as Hs. rewrite E in Hs.
  destruct Hs as (i & Hi & Hc & Hmax).
  apply lookup_app_Some in Hi as [Hi|[Hli Hi]]; [by apply Hl; eapply list_elem_of_lookup_2|].
  destruct (Hmax (S (length l)) (k, c2)) as [_ Hlt]; [|done|].
  { rewrite lookup_app_r by lia. by replace (S (length l) - length l)%nat with 1%nat by lia. }
  destruct (i - length l)%nat as [|[|]] eqn:Ei; cbn in Hi; [|by injection Hi|done].
  specialize (Hlt ltac:(lia)). cbn in Hlt. lia.
Qed.

(** The peers of all rules are in one map: a packet is accepted by a rule for the
    peer of another one. *)
Definition two_peers : list FilterConfig := ParseFlowFilterRules
  [zeroed <| ff_IPCIDR := "10.0.0.1/32" |> <| ff_Action := "Accept" |> <| ff_PeerIP := "10.0.0.9" |>;
   zeroed <| ff_IPCIDR := "10.0.0.7/32" |> <| ff_Action := "Accept" |> <| ff_PeerIP := "10.0.0.2" |>].
Lemma peers_shared :
  match keyed_rules two_peers, peer_keys two_peers with
  | Some keyed, Some peers =>
      match config_side keyed peers syn_flow true ETH_P_IP SYN_FLAG 0 INGRESS with Match _ => True | _ => False end
  | _, _ => False
  end.
Proof. vm_compute. exact I. Qed.
